(* ===== verification/_CoqProject ===== *)
-Q . S2P
Prelude.v
GoStrings.v
GoNum.v
GoNet.v
GoUrl.v
GoJson.v
World.v
GoAny.v
Config.v
Merge.v
K8sNames.v
Template.v
Embedded.v
ConfigOps.v
NMConfig.v
Templates.v
DiskSize.v
Cos.v
NodeFiles.v
Cmdline.v
Mapper.v
DiskOptions.v
Validator.v
Webhooks.v
Preflight.v
Text.v
Pipes.v
Gui.v
Widgets.v
Spinner.v
Network.v
Install.v
ConsoleUtil.v
Dashboard.v
Console.v
Layout.v
Frames.v
NetworkPage.v
DiskPage.v
Pages.v
InstallPanel.v
Wizard.v
Program.v
Demo.v
NetworkProofs.v
WizardProofs.v
WaitProofs.v
InstallProofs.v
DiskProofs.v
WidgetsProofs.v
DashboardProofs.v
LayoutProofs.v
ProgramProofs.v
