(* ===== verification/Prelude.v ===== *)
(** * A verification library for harvester-installer

    The program under [src/] is one binary (written in Go) with three uses.  On the
    installation medium it is a full-screen wizard: it asks for the role of the node,
    its disks, network, cluster address, token and remote configuration, shows the
    result, and installs.  On an installed node it is the dashboard that shows the
    state of the cluster.  Its command [generate-network-config] writes the network
    profiles of a configuration.  An automatic installation runs the same code with
    the answers taken from the kernel command line and from a URL.

    The libraries below follow that structure: data and pure operations first, then
    files and commands as explicit state, then the pages and their goroutines, and the
    process that ties them together.  The definitions are executable; each [demo_*]
    value is a concrete machine or configuration on which the theorems are applied.

    ** How effects are modelled

    - A Go function that fails returns [result] (this file): [Ok], [Err] with the
      error as a caller can observe it, or [Panic].  The monads are [result], [st S]
      (state and result: the state survives an error), and [io] (World: files,
      commands, package variables and a trace of what was done).
    - The operating system is the class [Host] (World).  It decides what a command
      prints and does, and may fail any file operation and leave the files in any
      state when it does.  Hardware probes, netlink, DHCP, HTTP, NTP, the account
      database and the parsers of other libraries are classes of the same kind
      ([Probe], a record, [Netlink], [VipHost], [Web], [Http], [Ntp], [Services], [Surroundings],
      [Installer], [Node], [FirstConsole], [RegistryJSON]).
    - Integers keep their width: uint64 sizes wrap (DiskSize), parsers check their
      range (GoNum), the float64 and float32 computations are those of the
      Standard Library's SpecFloat (ConfigOps, Preflight).
    - Goroutines are transition systems: Spinner (three parties over two unbuffered
      channels), Pipes (a command, two scanners and the main loop, which prints for
      them one at a time), Dashboard (programs
      of commands and accesses to the shared variable, in any interleaving), Wizard
      (every page's keys and goroutines, a goroutine of a page being one step).

    ** The files and the code

    Foundations: Prelude (errors, results, the state monad, frames, automation),
    GoStrings, GoNum, GoNet, GoUrl, GoJson, GoAny (the parts of Go's standard library and
    of dynamic values that the code uses), K8sNames (name formats of Kubernetes),
    World (files, commands, [SaveOriginalNetworkConfig]'s package variable).

    Configuration, [pkg/config] and [pkg/util]:
    - Config: [config.go], [constants.go], every struct as a record.
    - Merge: [HarvesterConfig.Merge] by mergo, which fails on two multipath objects that
      disagree; the laws of merging a field are typeclasses ([MergeUnit], [MergeAssoc]).
    - ConfigOps: multipath text, kubelet arguments, reservations, data partition.
    - DiskSize: [pkg/util/disk.go]; Module [Spec] is the specification over Z.
    - NMConfig: the NetworkManager functions of [cos.go]; Module [Spec] gives the
      profiles of a network as a finite map.
    - Template, Embedded, Templates: [templates.go] and [pkg/util/template.go] with the
      embedded files: the lexer, parser and evaluator of text/template for what those
      files use, and the values they are given.
    - Cos: [ConvertToCOS], its stages, layouts and the Elemental configuration.  It takes
      the rendering of a template as an argument; Templates.[render_config] is the one of
      the program.  NodeFiles puts both together and reads the files back.
    - Cmdline, Mapper: [cmdline.go], [read.go], [coerce.go], [rename.go], [write.go].

    Console, [pkg/console], [pkg/widgets], [pkg/preflight]:
    - Validator, Webhooks, Preflight, DiskOptions, Network, ConsoleUtil, Text: the
      functions of [validator.go], [webhooks.go], [checks.go], [util.go], [network.go],
      [vip.go] and [widgets/util.go].
    - Install: [doInstall] and [configureInstalledNode]; Pipes: how their commands are
      read and printed.
    - Gui, Widgets, Spinner: the terminal library as it is used, the widgets key by
      key, the spinner.
    - Layout: which widgets exist and where they are ([setPanels]).
    - Console: the state of the installer (the elements, the configuration, the user
      data, the running goroutines).  NetworkPage, DiskPage, Pages and InstallPanel hold
      the handlers of [install_panels.go], one Definition per closure, composed in
      Wizard to [press] and [run_task].
    - Dashboard: [dashboard_panels.go].
    - Program: [console.go] and [main.go], from the arguments to the exit status.
    - The files named [*Proofs] hold the theorems about the pages; Frames holds the
      frames they share; Demo the machine of their witnesses.

    ** What the theorems show

    - Sizes and disks: the parser of partition sizes refines its specification on
      every disk the checks admit, the layouts fit the disk, the disks offered are the
      unique ones, and the disks to wipe exclude the chosen ones by name.  Where the
      code leaves the specification (overflow, [skipChecks], whole GiB) the exact
      behaviour is a theorem too.
    - Configuration: merging has a unit, gives the first configuration precedence and,
      when at most one multipath object takes part, may be grouped in either way; kubelet
      arguments are read back, and so are the values of the kernel command line, quoted
      or not; the validator accepts only valid configurations, mode by mode; the converted
      configuration contains the stages of its role.
    - Files of a node: the profiles written are those of a specification that shares only
      the templates with the code, applied in the order nmcli needs, and restored after a
      failed trial; rendering never fails on a configuration; rancherd and RKE2 read back
      the values that were configured (ASCII text in quotes, plain scalars without).
    - Pages: the disk page is left only with disks of the sizes asked for (or with the
      checks skipped), the network page
      stores only valid networks, nothing is installed before it was confirmed, and
      what is installed was validated; each wait ends with a page that takes keys.
    - Widgets and layout: a select ends with the option the cursor was on, a list with
      the marks shown, which it keeps when it is closed and opened again; which panels
      can be seen on a terminal of a given size.
    - Goroutines: the spinner can always be stopped and never hangs its caller; every
      run of a command prints all its lines in order and ends; what the dashboard knows
      and shows was answered by the commands it ran, and the shell opens only with the
      password, or with Ctrl-C when debugging.
    - The process: only the confirmed or the automatic installation starts [doInstall].

    ** Bounds and fuel

    - [Template.lex] has one unit of fuel per character and one more; each step
      consumes two characters or more.  [wrap_go] has one unit per character and one more;
      [wrapText_spec] states that it returns.  The scanners and JSON parsers have the
      length of their input.
    - [Pipes]: a run of a command that writes n bytes has at most 6n+6 steps (the
      weight of the state decreases), so no fuel is needed: theorems are on all runs
      and a run to the end exists.
    - Retries (webhooks, remote configuration, management address) are bounded by the
      constants of the code and recurse on them.
    - The spinner and the dashboard run for ever; their theorems are on every prefix.

    ** What is not modelled, and why

    - Drawing: colours, titles, frames, masked input, the editor's keys and the mouse
      belong to the terminal library, which keeps them from the code.  Of the drawing only
      the rows of a wrapped line are modelled, because the code uses the row of the cursor.
    - The terminal: a panic of a goroutine ends the process without the deferred call
      that closes the terminal, and whether it is open is not part of the state.
    - The clock: a goroutine of the dashboard starts a round at any time after the last.
    - Third-party code is an argument wherever its result matters: the parsing of the
      command line (urfave/cli), YAML encoding and decoding, the walk of
      rancher/mapper over a schema, the generation of a salted password hash, netlink,
      DHCP, NTP and HTTP.  mergo's merge is followed down to the values of an interface
      type, because the configuration depends on its every case.
    - [rancherd-12-monitoring-dashboard.yaml] is copied unread, [rancherd-22-addons.yaml]
      is added by the build: both are arguments.  The Unicode tables of [strconv] are
      the argument [wide_print].
    - The version variables are set by the linker, and the one test helper is not part
      of the program. *)

From stdpp Require Import base tactics list gmap strings pretty.

Declare Scope hvst_scope.
Delimit Scope hvst_scope with hvst.

(** ** Go errors

    A Go [error] value is modelled by what the caller can observe of it: the
    message built by this repository, the error it wraps, or the structured
    error of the Go standard library.  The text of standard-library errors is
    not spelled out. *)

(** The two kinds of [*strconv.NumError]. *)
Inductive num_error : Set := ErrSyntax | ErrRange.

Inductive error : Set :=
| EMsg (m : string)                          (* errors.New, fmt.Errorf without a wrapped error *)
| EWrap (m : string) (e : error)             (* fmt.Errorf("m: %w", e), the same with %v, errors.Wrapf *)
| ENum (fn input : string) (k : num_error)   (* *strconv.NumError *)
| EParse (what text : string)                (* *net.ParseError, *net.AddrError *)
| EPath (op path : string) (notexist : bool) (* *fs.PathError; errors.Is(err, fs.ErrNotExist) *)
| EExec (argv : list string).                (* *exec.ExitError, *exec.Error *)

#[export] Instance num_error_eq_dec : EqDecision num_error.
Proof. solve_decision. Defined.
#[export] Instance error_eq_dec : EqDecision error.
Proof. solve_decision. Defined.

(** ** Results

    [Panic] is a run-time panic (index out of range, failed type assertion,
    nil dereference): no later statement of the goroutine runs. *)
Inductive result (A : Type) : Type :=
| Ok (a : A)
| Err (e : error)
| Panic.
Arguments Ok {A} a.
Arguments Err {A} e.
Arguments Panic {A}.

#[export] Instance result_eq_dec {A} `{EqDecision A} : EqDecision (result A).
Proof. solve_decision. Defined.
#[export] Instance result_ret : MRet result := fun A a => Ok a.
#[export] Instance result_bind : MBind result := fun A B f m =>
  match m with Ok a => f a | Err e => Err e | Panic => Panic end.
#[export] Instance result_fmap : FMap result := fun A B f m =>
  match m with Ok a => Ok (f a) | Err e => Err e | Panic => Panic end.

Definition is_ok {A} (m : result A) : bool :=
  match m with Ok _ => true | _ => false end.
Definition is_err {A} (m : result A) : bool :=
  match m with Err _ => true | _ => false end.

(** [if cond { return err }]. *)
Definition reject_if (b : bool) (e : error) : result unit :=
  if b then Err e else Ok tt.

(** [if err := f(); err != nil { return wrap(err) }]. *)
Definition map_err {A} (f : error -> error) (m : result A) : result A :=
  match m with Ok a => Ok a | Err e => Err (f e) | Panic => Panic end.

(** [for _, x := range l { if err := f(x); err != nil { return err } }]. *)
Fixpoint for_each {A} (f : A -> result unit) (l : list A) : result unit :=
  match l with
  | [] => Ok tt
  | x :: l' => f x ≫= fun _ => for_each f l'
  end.

(** The same loop building a slice. *)
Fixpoint map_each {A B} (f : A -> result B) (l : list A) : result (list B) :=
  match l with
  | [] => Ok []
  | x :: l' => f x ≫= fun y => map_each f l' ≫= fun ys => Ok (y :: ys)
  end.

(** ** Lemmas on results *)

Create Rewrite HintDb result.

Lemma bind_ok {A B} (m : result A) (f : A -> result B) b :
  m ≫= f = Ok b <-> exists a, m = Ok a /\ f a = Ok b.
Proof. destruct m; simpl; naive_solver. Qed.

Lemma bind_err {A B} (m : result A) (f : A -> result B) e :
  m ≫= f = Err e <-> m = Err e \/ exists a, m = Ok a /\ f a = Err e.
Proof. destruct m; simpl; naive_solver. Qed.

Lemma reject_if_ok b e : reject_if b e = Ok tt <-> b = false.
Proof. destruct b; simpl; naive_solver. Qed.

Lemma reject_if_err b e e' : reject_if b e = Err e' <-> b = true /\ e' = e.
Proof. destruct b; simpl; naive_solver. Qed.

Lemma map_err_ok {A} f (m : result A) a : map_err f m = Ok a <-> m = Ok a.
Proof. destruct m; simpl; naive_solver. Qed.

Lemma is_ok_true {A} (m : result A) : is_ok m = true <-> exists a, m = Ok a.
Proof. destruct m; simpl; naive_solver. Qed.

(** The loop succeeds exactly when every iteration does. *)
Lemma for_each_ok {A} (f : A -> result unit) l :
  for_each f l = Ok tt <-> Forall (fun x => f x = Ok tt) l.
Proof.
  induction l as [|x l IH]; cbn [for_each]; [naive_solver|].
  rewrite bind_ok, Forall_cons, <- IH. split.
  - intros (u & Hx & Hl). by destruct u.
  - intros [Hx Hl]. by exists tt.
Qed.

(** An error of the loop is the error of its first failing element. *)
Lemma for_each_err {A} (f : A -> result unit) l e :
  for_each f l = Err e <->
  exists l1 x l2, l = l1 ++ x :: l2 /\ Forall (fun y => f y = Ok tt) l1 /\ f x = Err e.
Proof.
  induction l as [|x l IH]; cbn [for_each].
  { split; [done|]. intros (l1 & y & l2 & H & _). by destruct l1. }
  rewrite bind_err. setoid_rewrite IH. split.
  - intros [H|([] & Hx & l1 & y & l2 & -> & H1 & Hy)].
    + by exists [], x, l.
    + exists (x :: l1), y, l2. rewrite Forall_cons. naive_solver.
  - intros ([|z l1] & y & l2 & Heq & H1 & Hy); simplify_eq/=; [by left|].
    apply Forall_cons in H1 as [Hz H1]. right. exists tt. naive_solver.
Qed.

Lemma map_each_ok {A B} (f : A -> result B) l ys :
  map_each f l = Ok ys <-> Forall2 (fun x y => f x = Ok y) l ys.
Proof.
  revert ys. induction l as [|x l IH]; intros ys; cbn [map_each].
  - split; [naive_solver|]. by intros ->%Forall2_nil_inv_l.
  - rewrite bind_ok. setoid_rewrite bind_ok. setoid_rewrite IH. split.
    + intros (y & Hy & ys' & Hys & [= <-]). by constructor.
    + intros (y & ys' & Hy & Hys & ->)%Forall2_cons_inv_l. naive_solver.
Qed.

#[export] Hint Rewrite @bind_ok reject_if_ok @map_err_ok @for_each_ok @map_each_ok : result.

(** ** State and errors

    Code that changes the state [S] and may fail.  A failing operation keeps
    what it changed before it failed. *)
Definition st (S A : Type) : Type := S -> result A * S.
#[export] Instance st_ret {S} : MRet (st S) := fun A a s => (Ok a, s).
#[export] Instance st_bind {S} : MBind (st S) := fun A B f m s =>
  match m s with
  | (Ok a, s') => f a s'
  | (Err e, s') => (Err e, s')
  | (Panic, s') => (Panic, s')
  end.
Definition st_lift {S A} (r : result A) : st S A := fun s => (r, s).
Definition st_get {S} : st S S := fun s => (Ok s, s).
Definition st_modify {S} (f : S -> S) : st S unit := fun s => (Ok tt, f s).
Definition st_fail {S A} (e : error) : st S A := fun s => (Err e, s).
(** The error of [m] as a value. *)
Definition st_try {S A} (m : st S A) : st S (result A) := fun s =>
  match m s with (Panic, s') => (Panic, s') | (r, s') => (Ok r, s') end.
Fixpoint st_for_each {S A} (f : A -> st S unit) (l : list A) : st S unit :=
  match l with [] => mret tt | x :: l' => f x ≫= fun _ => st_for_each f l' end.

Lemma st_bind_ok {S A B} (m : st S A) (f : A -> st S B) s b s' :
  (m ≫= f) s = (Ok b, s') <-> exists a s1, m s = (Ok a, s1) /\ f a s1 = (Ok b, s').
Proof. unfold mbind, st_bind. destruct (m s) as [[a|e|] s1]; naive_solver. Qed.
Lemma st_ret_ok {S A} (a b : A) (s s' : S) : (mret a : st S A) s = (Ok b, s') <-> a = b /\ s = s'.
Proof. unfold mret, st_ret. naive_solver. Qed.

(** Running the first part of a bind. *)
Lemma st_run {S A B} (m : st S A) (f : A -> st S B) s a s1 : m s = (Ok a, s1) -> (m ≫= f) s = f a s1.
Proof. unfold mbind, st_bind. by intros ->. Qed.

Lemma st_bind_assoc {S A B C} (m : st S A) (f : A -> st S B) (k : B -> st S C) s :
  ((m ≫= f) ≫= k) s = (m ≫= fun a => f a ≫= k) s.
Proof. unfold mbind, st_bind. by destruct (m s) as [[]]. Qed.

Lemma st_bind_ext {S A B} (m m' : st S A) (f : A -> st S B) s : m s = m' s -> (m ≫= f) s = (m' ≫= f) s.
Proof. unfold mbind, st_bind. by intros ->. Qed.

Lemma st_returned {S A} (m : st S A) (s : S) (a : A) : fst (m s) = Ok a -> m s = (Ok a, snd (m s)).
Proof. destruct (m s) as [r s']. by intros [= ->]. Qed.

(** ** Frames

    [frame R m]: running [m] relates the state before to the state after by the
    preorder [R], however [m] ends. *)
Definition frame {S} (R : relation S) {A} (m : st S A) : Prop := forall s, R s (snd (m s)).
(** An assignment that stays in [R]. *)
Definition leaf {S} (R : relation S) (f : S -> S) : Prop := forall s, R s (f s).

(** A part of the state that stays as it is. *)
Definition keep {S T} (proj : S -> T) : relation S := fun s s' => proj s' = proj s.
#[export] Instance keep_preorder {S T} (proj : S -> T) : PreOrder (keep proj).
Proof. split; [done|]. unfold keep. intros a b c H1 H2. congruence. Qed.

Section frames.
Context {S : Type} (R : relation S) `{!PreOrder R}.

Lemma frame_ret {A} (a : A) : frame R (mret a).
Proof. intros w. reflexivity. Qed.
Lemma frame_lift {A} (r : result A) : frame R (st_lift r).
Proof. intros w. reflexivity. Qed.
Lemma frame_get : frame R st_get.
Proof. intros w. reflexivity. Qed.
Lemma frame_fail {A} e : frame R (st_fail (A := A) e).
Proof. intros w. reflexivity. Qed.
Lemma frame_modify f : leaf R f -> frame R (st_modify f).
Proof. intros Hf w. apply Hf. Qed.
Lemma frame_bind {A B} (m : st S A) (f : A -> st S B) : frame R m -> (forall a, frame R (f a)) -> frame R (m ≫= f).
Proof.
  intros Hm Hf w. specialize (Hm w). unfold mbind, st_bind.
  destruct (m w) as [[a|e|] w1]; cbn [snd] in *; [|done|done]. etrans; [exact Hm|apply Hf].
Qed.
Lemma frame_try {A} (m : st S A) : frame R m -> frame R (st_try m).
Proof. intros Hm w. specialize (Hm w). unfold st_try. by destruct (m w) as [[] w1]. Qed.
Lemma frame_for_each {A} (f : A -> st S unit) l : (forall x, x ∈ l -> frame R (f x)) -> frame R (st_for_each f l).
Proof.
  induction l as [|x l IH]; intros Hf; [apply frame_ret|]. apply frame_bind; [apply Hf; by left|].
  intros _. apply IH. intros y Hy. apply Hf. by right.
Qed.
End frames.

(** ** Automation *)

(** Case analysis on the scrutinee of a match in the hypotheses or the goal. *)
Ltac case_one :=
  match goal with
  | H : context [match ?x with _ => _ end] |- _ =>
      lazymatch x with context [match _ with _ => _ end] => fail | _ => destruct x eqn:?; simplify_eq/= end
  | |- context [match ?x with _ => _ end] =>
      lazymatch x with context [match _ with _ => _ end] => fail | _ => destruct x eqn:?; simplify_eq/= end
  end.
Ltac cases := repeat (case_one; try done).

(** The head of an application. *)
Ltac head t := match t with ?f _ => head f | _ => t end.

(** Invert a chain of binds that returned. *)
Ltac inv_ok :=
  repeat match goal with
  | H : _ ≫= _ = Ok _ |- _ => apply bind_ok in H as (? & ? & ?)
  | H : mbind _ _ = Ok _ |- _ => apply bind_ok in H as (? & ? & ?)
  | u : unit |- _ => destruct u
  | H : reject_if _ _ = Ok tt |- _ => apply reject_if_ok in H
  | H : map_err _ _ = Ok _ |- _ => apply map_err_ok in H
  | H : Ok _ = Ok _ |- _ => injection H as H; subst
  | H : mret _ = Ok _ |- _ => injection H as H; subst
  | H : Err _ = Ok _ |- _ => discriminate H
  | H : Panic = Ok _ |- _ => discriminate H
  end.

(** The same for stateful code. *)
Ltac inv_st :=
  repeat match goal with
  | H : (_ ≫= _) _ = (Ok _, _) |- _ => apply st_bind_ok in H as (? & ? & ? & ?)
  | H : mbind _ _ _ = (Ok _, _) |- _ => apply st_bind_ok in H as (? & ? & ? & ?)
  | H : mret _ _ = (Ok _, _) |- _ => apply st_ret_ok in H as [? ?]; subst
  | H : st_lift _ _ = (Ok _, _) |- _ => unfold st_lift in H; injection H as ? ?; subst
  | H : st_get _ = (Ok _, _) |- _ => unfold st_get in H; injection H as ? ?; subst
  | H : st_modify _ _ = (Ok _, _) |- _ => unfold st_modify in H; injection H as ? ?; subst
  | H : st_fail _ _ = (Ok _, _) |- _ => discriminate H
  | u : unit |- _ => destruct u
  end.

(** Equality of closed terms by the virtual machine. *)
Ltac vm_refl := lazymatch goal with |- ?a = ?b => exact (@eq_refl _ b <: a = b) end.
