(* ===== verification/GoStrings.v ===== *)
(** * GoStrings: the part of [strings], [strconv] and [fmt] the program uses

    A Go string is a byte sequence, here a [string] of 8-bit [ascii]
    characters.  Case conversion and white space follow Go on ASCII; bytes
    above 127 are left alone. *)
From Stdlib Require Import Ascii String.
From stdpp Require Import base tactics list strings pretty.

From S2P Require Import Prelude.
Local Open Scope Z_scope.

(** ** Characters *)

(** The code of a byte. *)
Definition ord (c : ascii) : Z := Z.of_N (Ascii.N_of_ascii c).

Definition in_range (lo hi c : ascii) : bool := (ord lo <=? ord c) && (ord c <=? ord hi).
Definition is_digit (c : ascii) : bool := in_range "0" "9" c.
Definition is_lower (c : ascii) : bool := in_range "a" "z" c.
Definition is_upper (c : ascii) : bool := in_range "A" "Z" c.
Definition is_alnum (c : ascii) : bool := is_digit c || is_lower c || is_upper c.

(** [unicode.IsSpace] on ASCII: tab, newline, vertical tab, form feed,
    carriage return and space. *)
Definition is_space (c : ascii) : bool := ((9 <=? ord c) && (ord c <=? 13)) || (ord c =? 32).

Definition lower_char (c : ascii) : ascii :=
  if is_upper c then Ascii.ascii_of_N (Z.to_N (ord c + 32)) else c.
Definition upper_char (c : ascii) : ascii :=
  if is_lower c then Ascii.ascii_of_N (Z.to_N (ord c - 32)) else c.

(** ** Strings as character lists *)

Definition chars (s : string) : list ascii := String.list_ascii_of_string s.
Definition of_chars (l : list ascii) : string := String.string_of_list_ascii l.

(** [len(s)]. *)
Definition slen (s : string) : Z := Z.of_nat (String.length s).

Fixpoint map_chars (f : ascii -> ascii) (s : string) : string :=
  match s with "" => "" | String c s' => String (f c) (map_chars f s') end.
Definition to_lower (s : string) : string := map_chars lower_char s.
Definition to_upper (s : string) : string := map_chars upper_char s.

Fixpoint all_chars (p : ascii -> bool) (s : string) : bool :=
  match s with "" => true | String c s' => p c && all_chars p s' end.
Fixpoint has_char (c : ascii) (s : string) : bool :=
  match s with "" => false | String d s' => bool_decide (c = d) || has_char c s' end.

(** [strings.HasPrefix], [strings.TrimPrefix] and [strings.HasSuffix]. *)
Fixpoint strip_prefix (p s : string) : option string :=
  match p, s with
  | "", _ => Some s
  | String a p', String b s' => if bool_decide (a = b) then strip_prefix p' s' else None
  | String _ _, "" => None
  end.
Definition has_prefix (s p : string) : bool := bool_decide (is_Some (strip_prefix p s)).
Definition trim_prefix (s p : string) : string := default s (strip_prefix p s).
Fixpoint has_suffix (s p : string) : bool :=
  bool_decide (s = p) || match s with "" => false | String _ s' => has_suffix s' p end.

(** [strings.TrimLeft], [TrimRight], [Trim] and [TrimSpace], by the set of
    characters they cut. *)
Fixpoint trim_left (p : ascii -> bool) (s : string) : string :=
  match s with "" => "" | String c s' => if p c then trim_left p s' else s end.
Fixpoint trim_right (p : ascii -> bool) (s : string) : string :=
  match s with
  | "" => ""
  | String c s' =>
      match trim_right p s' with
      | "" => if p c then "" else String c ""
      | r => String c r
      end
  end.
Definition trim (p : ascii -> bool) (s : string) : string := trim_right p (trim_left p s).
Definition trim_space (s : string) : string := trim is_space s.

(** [strings.Split(s, sep)] for a one-character separator: never empty. *)
Fixpoint split_on (sep : ascii) (s : string) : list string :=
  match s with
  | "" => [""]
  | String c s' =>
      if bool_decide (c = sep) then "" :: split_on sep s'
      else match split_on sep s' with
           | [] => [String c ""]
           | w :: ws => String c w :: ws
           end
  end.

(** [strings.SplitN(s, sep, 2)]: the text before the first separator, and the
    text after it if there is one. *)
Fixpoint split2 (sep : ascii) (s : string) : string * option string :=
  match s with
  | "" => ("", None)
  | String c s' =>
      if bool_decide (c = sep) then ("", Some s')
      else let '(a, b) := split2 sep s' in (String c a, b)
  end.

(** [strings.Join]. *)
Definition join (sep : string) (l : list string) : string := String.concat sep l.

(** Slicing [s[:n]] and [s[n:]] (in range). *)
Definition stake (n : nat) (s : string) : string := of_chars (take n (chars s)).
Definition sdrop (n : nat) (s : string) : string := of_chars (drop n (chars s)).

(** ** Numbers *)

Definition digit_val (c : ascii) : Z := ord c - ord "0".

(** The loop of [strconv.ParseUint]: a character that is no digit of the base
    is a syntax error, a value above [max] a range error, whichever is met
    first. *)
Fixpoint parse_digits (base max acc : Z) (s : string) : Z + num_error :=
  match s with
  | "" => inl acc
  | String c s' =>
      if is_digit c && (digit_val c <? base) then
        let n := acc * base + digit_val c in
        if max <? n then inr ErrRange else parse_digits base max n s'
      else inr ErrSyntax
  end.

(** [strconv.ParseUint(s, base, bits)] for a base of at most 10. *)
Definition parse_uint (base bits : Z) (s : string) : result Z :=
  match s with
  | "" => Err (ENum "ParseUint" s ErrSyntax)
  | _ => match parse_digits base (2 ^ bits - 1) 0 s with
         | inl n => Ok n
         | inr k => Err (ENum "ParseUint" s k)
         end
  end.

(** [strconv.ParseInt(s, 10, 64)]: the value that comes with the error, which
    some callers ignore, is 0 for a syntax error and the nearest bound for a
    range error. *)
Definition parse_int_with (fn : string) (s : string) : Z * option error :=
  let '(neg, body) :=
    match s with
    | String c s' => if bool_decide (c = "+"%char) then (false, s')
                     else if bool_decide (c = "-"%char) then (true, s') else (false, s)
    | "" => (false, s)
    end in
  match body with
  | "" => (0, Some (ENum fn s ErrSyntax))
  | _ =>
    match parse_digits 10 (2 ^ 64 - 1) 0 body with
    | inr ErrSyntax => (0, Some (ENum fn s ErrSyntax))
    | inr ErrRange => (if neg then - 2 ^ 63 else 2 ^ 63 - 1, Some (ENum fn s ErrRange))
    | inl n =>
        if negb neg && (2 ^ 63 <=? n) then (2 ^ 63 - 1, Some (ENum fn s ErrRange))
        else if neg && (2 ^ 63 <? n) then (- 2 ^ 63, Some (ENum fn s ErrRange))
        else (if neg then - n else n, None)
    end
  end.
Definition with_err (p : Z * option error) : result Z :=
  match p with (z, None) => Ok z | (_, Some e) => Err e end.
Definition parse_int64 (s : string) : result Z := with_err (parse_int_with "ParseInt" s).

(** [strconv.Atoi] ([int] has 64 bits), with and without its error. *)
Definition atoi (s : string) : result Z := with_err (parse_int_with "Atoi" s).
Definition atoi_val (s : string) : Z := fst (parse_int_with "Atoi" s).

(** [strconv.Itoa], and [%d]. *)
Definition itoa (z : Z) : string := pretty z.

(** ** Lemmas: strings as character lists *)

Lemma of_chars_chars s : of_chars (chars s) = s.
Proof. apply String.string_of_list_ascii_of_string. Qed.
Lemma chars_of_chars l : chars (of_chars l) = l.
Proof. apply String.list_ascii_of_string_of_list_ascii. Qed.
Lemma string_app_cons c (a b : string) : String c a +:+ b = String c (a +:+ b).
Proof. done. Qed.
Lemma chars_app a b : chars (a +:+ b) = chars a ++ chars b.
Proof. induction a as [|c a IH]; [done|]. rewrite string_app_cons. unfold chars in *. cbn. f_equal. exact IH. Qed.
Lemma length_chars s : length (chars s) = String.length s.
Proof. induction s as [|c s IH]; [done|]. unfold chars in *. cbn. f_equal. exact IH. Qed.
Lemma chars_inj a b : chars a = chars b -> a = b.
Proof. intros H. by rewrite <- (of_chars_chars a), H, of_chars_chars. Qed.
Lemma string_app_assoc (a b c : string) : (a +:+ b) +:+ c = a +:+ b +:+ c.
Proof. apply chars_inj. by rewrite !chars_app, app_assoc. Qed.
Lemma string_app_nil_r (a : string) : a +:+ "" = a.
Proof. apply chars_inj. by rewrite chars_app, app_nil_r. Qed.

(** Cutting a concatenation at its seam. *)
Lemma stake_app a b : stake (String.length a) (a +:+ b) = a.
Proof. unfold stake. rewrite chars_app, <- length_chars, take_app_length. apply of_chars_chars. Qed.
Lemma sdrop_app a b : sdrop (String.length a) (a +:+ b) = b.
Proof. unfold sdrop. rewrite chars_app, <- length_chars, drop_app_length. apply of_chars_chars. Qed.

(** ** Lemmas: splitting and joining *)

Lemma split_on_cons sep s : exists w ws, split_on sep s = w :: ws.
Proof. destruct s as [|c s]; simpl; [eauto|]. case_bool_decide; [eauto|]. destruct (split_on sep s); eauto. Qed.

Lemma join_cons2 sep w w' ws : join sep (w :: w' :: ws) = w +:+ sep +:+ join sep (w' :: ws).
Proof. done. Qed.

Lemma split_on_join sep s : join (String sep "") (split_on sep s) = s.
Proof.
  induction s as [|c s IH]; simpl; [done|].
  destruct (split_on_cons sep s) as (w & ws & Hs). rewrite Hs in IH |- *.
  case_bool_decide as Hc; [subst c|].
  - rewrite join_cons2, IH. done.
  - destruct ws as [|w' ws]; [by rewrite <- IH|].
    rewrite join_cons2 in *. rewrite <- IH. done.
Qed.

Lemma split_on_no_sep sep s : Forall (fun w => has_char sep w = false) (split_on sep s).
Proof.
  induction s as [|c s IH]; simpl; [by repeat constructor|].
  case_bool_decide as Hc; [by constructor|].
  destruct (split_on sep s) as [|w ws]; constructor; simpl; try done.
  - rewrite bool_decide_false by congruence. done.
  - inversion IH; subst. rewrite bool_decide_false by congruence. done.
  - by inversion IH.
Qed.

Lemma split_on_word sep w : has_char sep w = false -> split_on sep w = [w].
Proof.
  induction w as [|c w IH]; simpl; [done|]. intros [Hc Hw]%orb_false_elim.
  apply bool_decide_eq_false in Hc. rewrite bool_decide_false by congruence. by rewrite IH.
Qed.

Lemma split_on_app sep w s :
  has_char sep w = false -> split_on sep (w +:+ String sep s) = w :: split_on sep s.
Proof.
  induction w as [|c w IH].
  { intros _. change ("" +:+ String sep s) with (String sep s). cbn [split_on].
    by rewrite bool_decide_true. }
  intros [Hc Hw]%orb_false_elim. apply bool_decide_eq_false in Hc.
  rewrite string_app_cons. cbn [split_on].
  rewrite bool_decide_false by congruence. by rewrite IH.
Qed.

(** Splitting undoes joining when no word holds the separator. *)
Lemma join_split_on sep l :
  l <> [] -> Forall (fun w => has_char sep w = false) l -> split_on sep (join (String sep "") l) = l.
Proof.
  intros Hne Hl. induction Hl as [|w l Hw Hl IH]; [done|].
  destruct l as [|w' l]; [by apply split_on_word|].
  rewrite join_cons2. change (w +:+ String sep "" +:+ join (String sep "") (w' :: l))
    with (w +:+ String sep (join (String sep "") (w' :: l))).
  rewrite split_on_app by done. by rewrite IH.
Qed.

Lemma trim_right_app p a b : b <> "" -> trim_right p b = b -> trim_right p (a +:+ b) = a +:+ b.
Proof.
  intros Hne Hb. induction a as [|c a IH]; [done|]. rewrite !string_app_cons. cbn [trim_right]. rewrite IH.
  destruct (a +:+ b) eqn:E; [|done]. exfalso. apply Hne. destruct a; [exact E|done].
Qed.

Lemma trim_right_snoc (p : ascii -> bool) s c : p c = true -> trim_right p (s +:+ String c "") = trim_right p s.
Proof.
  intros Hc. induction s as [|d s IH]; [change ("" +:+ String c "") with (String c ""); cbn; by rewrite Hc|].
  rewrite string_app_cons. cbn [trim_right]. by rewrite IH.
Qed.
Lemma all_chars_app p a b : all_chars p (a +:+ b) = all_chars p a && all_chars p b.
Proof. induction a as [|c a IH]; [done|]. rewrite string_app_cons. cbn. by rewrite IH, andb_assoc. Qed.
Lemma strip_prefix_app p s : strip_prefix p (p +:+ s) = Some s.
Proof. induction p as [|c p IH]; [done|]. rewrite string_app_cons. cbn. by rewrite bool_decide_eq_true_2. Qed.

(** ** Lemmas: numbers *)

Lemma parse_digits_bound base max acc s n :
  0 <= acc <= max -> 0 < base -> parse_digits base max acc s = inl n -> 0 <= n <= max.
Proof.
  revert acc. induction s as [|c s IH]; simpl; intros acc Hacc Hb H; [naive_solver lia|].
  destruct (is_digit c && _) eqn:Hd; [|done]. destruct (max <? _) eqn:Hm; [done|].
  apply andb_prop in Hd as [Hd Hd']. unfold is_digit, in_range in Hd.
  apply andb_prop in Hd as [Hd _]. apply (IH (acc * base + digit_val c)); [|done|done].
  unfold digit_val in *. nia.
Qed.

Lemma parse_uint_bound base bits s n :
  0 < base -> 0 <= bits -> parse_uint base bits s = Ok n -> 0 <= n < 2 ^ bits.
Proof.
  intros Hb Hbits H. unfold parse_uint in H. destruct s as [|c s]; [done|].
  destruct (parse_digits _ _ _ _) as [m|] eqn:Hp; [|done]. injection H as <-.
  assert (0 < 2 ^ bits) by (apply Z.pow_pos_nonneg; lia).
  apply parse_digits_bound in Hp; lia.
Qed.

Lemma ord_pretty_digit x : (x < 10)%N -> digit_val (pretty_N_char x) = Z.of_N x /\ is_digit (pretty_N_char x) = true.
Proof.
  intros Hx. assert (x = 0 \/ x = 1 \/ x = 2 \/ x = 3 \/ x = 4 \/ x = 5 \/ x = 6 \/ x = 7 \/ x = 8 \/ x = 9)%N as Hc by lia.
  by destruct_or! Hc; subst.
Qed.

Lemma parse_digits_pretty_go max x s :
  Z.of_N x <= max -> parse_digits 10 max 0 (pretty_N_go x s) = parse_digits 10 max (Z.of_N x) s.
Proof.
  revert s. induction (N.lt_wf_0 x) as [x _ IH]; intros s Hx.
  destruct (decide (x = 0)%N) as [->|Hx0]; [done|].
  rewrite pretty_N_go_step by lia.
  assert (Hdiv : (x `div` 10 < x)%N) by (apply N.div_lt; lia).
  rewrite IH by (rewrite ?N2Z.inj_div; try lia).
  destruct (ord_pretty_digit (x `mod` 10)) as [Hv Hd]; [apply N.mod_lt; lia|].
  simpl. rewrite Hd, Hv. simpl.
  pose proof (N.mod_lt x 10 ltac:(lia)) as Hlt.
  rewrite (proj2 (Z.ltb_lt _ _)) by lia.
  assert (Hsum : Z.of_N (x `div` 10) * 10 + Z.of_N (x `mod` 10) = Z.of_N x)
    by (pose proof (N.div_mod x 10 ltac:(lia)); lia).
  rewrite Hsum. by rewrite (proj2 (Z.ltb_ge _ _) Hx).
Qed.

(** Printing a number that fits and parsing it back gives the number. *)
Lemma parse_uint_itoa bits n :
  0 <= n < 2 ^ bits -> parse_uint 10 bits (itoa n) = Ok n.
Proof.
  intros Hn. unfold itoa. destruct (decide (n = 0)) as [->|Hn0].
  { change (pretty 0) with "0". unfold parse_uint.
    change (parse_digits 10 (2 ^ bits - 1) 0 "0") with
      (if 2 ^ bits - 1 <? 0 then inr ErrRange else inl 0 : Z + num_error).
    destruct (Z.ltb_spec (2 ^ bits - 1) 0); [lia|done]. }
  destruct n as [|p|p]; [done| |lia].
  change (pretty (Zpos p)) with (pretty_N_go (Npos p) "").
  unfold parse_uint. destruct (pretty_N_go (Npos p) "") eqn:Hs.
  { pose proof (parse_digits_pretty_go (Zpos p) (Npos p) "" ltac:(simpl; lia)) as H.
    rewrite Hs in H. simpl in H. naive_solver. }
  rewrite <- Hs, parse_digits_pretty_go by lia. done.
Qed.

(** A printed number is a non-empty string of digits. *)
Lemma pretty_go_digits x s :
  all_chars is_digit s = true -> all_chars is_digit (pretty_N_go x s) = true.
Proof.
  revert s. induction (N.lt_wf_0 x) as [x _ IH]; intros s Hs.
  destruct (decide (x = 0)%N) as [->|Hx0]; [done|].
  rewrite pretty_N_go_step by lia. apply IH; [apply N.div_lt; lia|]. simpl.
  by rewrite (proj2 (ord_pretty_digit _ (N.mod_lt x 10 ltac:(lia)))).
Qed.

Lemma itoa_digits n : 0 <= n -> all_chars is_digit (itoa n) = true.
Proof.
  intros Hn. destruct n as [|p|p]; [done| |lia].
  change (itoa (Zpos p)) with (pretty_N_go (Npos p) ""). by apply pretty_go_digits.
Qed.

Lemma itoa_nonempty n : 0 <= n < 2 ^ 64 -> itoa n <> "".
Proof. intros Hn H. pose proof (parse_uint_itoa 64 n Hn) as Hp. by rewrite H in Hp. Qed.

Lemma split2_app sep a b :
  has_char sep a = false -> split2 sep (a +:+ String sep b) = (a, Some b).
Proof.
  induction a as [|c a IH].
  { intros _. change ("" +:+ String sep b) with (String sep b). cbn [split2]. by rewrite bool_decide_true. }
  intros [Hc Ha]%orb_false_elim. apply bool_decide_eq_false in Hc. rewrite string_app_cons. cbn [split2].
  rewrite bool_decide_false by congruence. by rewrite IH.
Qed.

Lemma has_char_app c a b : has_char c (a +:+ b) = has_char c a || has_char c b.
Proof.
  induction a as [|d a IH]; [done|]. rewrite string_app_cons. cbn [has_char]. by rewrite IH, orb_assoc.
Qed.
