(* ===== verification/GoNum.v ===== *)
(** * GoNum: machine integers and IEEE-754 arithmetic as Go evaluates it

    Unsigned integers are [Z] with explicit wrap-around.  Floating point is
    the Standard Library's executable [SpecFloat], which rounds to nearest,
    ties to even, as Go does; a constant of the source is the quotient of two
    exactly represented integers rounded once, which is the float nearest to
    the exact constant. *)
From Stdlib Require Import ZArith Lia SpecFloat.
From stdpp Require Import base tactics.
Local Open Scope Z_scope.

(** ** 64-bit words *)

Definition u64 (z : Z) : Z := z mod 2 ^ 64.
Definition is_u64 (z : Z) : Prop := 0 <= z < 2 ^ 64.
Definition u64_shl (z n : Z) : Z := u64 (Z.shiftl z n).
Definition u64_shr (z n : Z) : Z := Z.shiftr z n.
Definition u64_sub (a b : Z) : Z := u64 (a - b).
Definition u64_mul (a b : Z) : Z := u64 (a * b).
Definition u64_add (a b : Z) : Z := u64 (a + b).

(** Wrap-around to a signed 64-bit integer. *)
Definition i64 (z : Z) : Z := (z + 2 ^ 63) mod 2 ^ 64 - 2 ^ 63.

Create Rewrite HintDb word.

Lemma u64_range z : is_u64 (u64 z).
Proof. unfold is_u64, u64. apply Z.mod_pos_bound. lia. Qed.

Lemma u64_small z : is_u64 z -> u64 z = z.
Proof. apply Z.mod_small. Qed.

Lemma u64_sub_ge a b : is_u64 a -> 0 <= b <= a -> u64_sub a b = a - b.
Proof. unfold is_u64, u64_sub. intros. apply u64_small. unfold is_u64. lia. Qed.

(** Subtracting more than there is wraps around. *)
Lemma u64_sub_lt a b : is_u64 a -> is_u64 b -> a < b -> u64_sub a b = 2 ^ 64 + a - b.
Proof.
  unfold is_u64, u64_sub, u64. intros Ha Hb Hlt.
  rewrite <- (Z.mod_add (a - b) 1) by lia. rewrite Z.mod_small; lia.
Qed.

Lemma u64_shr_div z n : 0 <= n -> u64_shr z n = z / 2 ^ n.
Proof. apply Z.shiftr_div_pow2. Qed.

Lemma u64_shl_mul z n : 0 <= n -> u64_shl z n = u64 (z * 2 ^ n).
Proof. intros. unfold u64_shl. by rewrite Z.shiftl_mul_pow2. Qed.

Lemma i64_small z : - 2 ^ 63 <= z < 2 ^ 63 -> i64 z = z.
Proof. intros. unfold i64. rewrite Z.mod_small; lia. Qed.

#[export] Hint Rewrite u64_shr_div u64_shl_mul using lia : word.
#[export] Hint Rewrite u64_small using (unfold is_u64 in *; lia) : word.

(** ** Floating point *)

(** A binary format: precision and maximal exponent. *)
Record fmt := Fmt { prec : Z; emax : Z }.
Definition float64 : fmt := Fmt 53 1024.
Definition float32 : fmt := Fmt 24 128.

(** Conversion from an integer, rounded to nearest even. *)
Definition f_of_Z (f : fmt) (z : Z) : spec_float := binary_normalize (prec f) (emax f) z 0 false.
(** The rounded constant [n / d]. *)
Definition f_const (f : fmt) (n d : Z) : spec_float :=
  SFdiv (prec f) (emax f) (f_of_Z f n) (f_of_Z f d).
Definition f_add (f : fmt) : spec_float -> spec_float -> spec_float := SFadd (prec f) (emax f).
Definition f_mul (f : fmt) : spec_float -> spec_float -> spec_float := SFmul (prec f) (emax f).
Definition f_div (f : fmt) : spec_float -> spec_float -> spec_float := SFdiv (prec f) (emax f).
Definition f_ltb : spec_float -> spec_float -> bool := SFltb.

(** Truncation towards zero of a finite number. *)
Definition f_trunc (x : spec_float) : Z :=
  match x with
  | S754_finite s m e =>
      let n := if 0 <=? e then Zpos m * 2 ^ e else Zpos m / 2 ^ (- e) in
      if s then - n else n
  | _ => 0
  end.

(** Addition of a function over a list of floats never leaves the format:
    the model is executable, so properties over a finite range of inputs are
    decided by evaluation.  [Zrange lo n] is the list of the [n] integers from
    [lo] on. *)
Fixpoint Zrange (lo : Z) (n : nat) : list Z :=
  match n with O => nil | S n' => lo :: Zrange (lo + 1) n' end.

Lemma Zrange_In lo n z : lo <= z < lo + Z.of_nat n -> List.In z (Zrange lo n).
Proof.
  revert lo. induction n as [|n IH]; simpl; intros lo Hz; [lia|].
  destruct (Z.eq_dec z lo) as [->|Hne]; [by left|]. right. apply IH. lia.
Qed.

(** Checking a decidable property at every point of a range. *)
Lemma Zrange_check (p : Z -> bool) lo n :
  List.forallb p (Zrange lo n) = true -> forall z, lo <= z < lo + Z.of_nat n -> p z = true.
Proof. intros H z Hz. apply (proj1 (List.forallb_forall _ _) H), Zrange_In, Hz. Qed.
