(* ===== verification/GoNet.v ===== *)
(** * GoNet: the parts of Go's [net] and [net/netip] the installer relies on

    [net.ParseIP], [IP.To4], [net.ParseCIDR], [IPMask.Size] and [net.ParseMAC],
    on strings and lists of byte values.  Only acceptance and the parsed value
    matter to the installer: the message of a parse error is reduced to
    [EParse kind text]. *)
From Stdlib Require Import ZArith Lia Ascii String.
From stdpp Require Import base tactics list strings.
From S2P Require Import Prelude GoStrings.
Local Open Scope Z_scope.

Notation ip := (list Z).

(** ** Hexadecimal and decimal fields *)

Definition hex_val (c : ascii) : option Z :=
  if in_range "0" "9" c then Some (ord c - ord "0")
  else if in_range "a" "f" c then Some (ord c - ord "a" + 10)
  else if in_range "A" "F" c then Some (ord c - ord "A" + 10)
  else None.

Definition hex_digit (n : Z) : ascii :=
  if n <? 10 then Ascii.ascii_of_N (Z.to_N (48 + n)) else Ascii.ascii_of_N (Z.to_N (87 + n)).

(** One decimal octet of an IPv4 address. *)
Definition octet (w : string) : option Z :=
  match w with
  | "" => None
  | String c "" => if is_digit c then Some (digit_val c) else None
  | String c _ =>
      if bool_decide (c = "0"%char) then None
      else match parse_uint 10 8 w with Ok n => Some n | _ => None end
  end.

Definition parseIPv4 (s : string) : option ip :=
  match map octet (split_on "." s) with
  | [Some a; Some b; Some c; Some d] => Some [a; b; c; d]
  | _ => None
  end.

(** ** IPv6 *)

(** The leading run of hexadecimal digits, its value, and the rest. *)
Fixpoint hex_run (acc n : Z) (s : string) : Z * Z * string :=
  match s with
  | "" => (n, acc, "")
  | String c s' =>
      match hex_val c with
      | Some d => hex_run (acc * 16 + d) (n + 1) s'
      | None => (n, acc, s)
      end
  end.

(** The loop of [parseIPv6]: the bytes parsed so far, the position of the
    ellipsis, and what is left of the string.  Each round consumes a field, so
    8 rounds are enough ([fuel] counts the fields still allowed). *)
Fixpoint parseIPv6_go (fuel : nat) (bytes : ip) (ellipsis : option nat) (s : string) :
    option (ip * option nat) :=
  match fuel with
  | O => None  (* trailing garbage after the eighth field *)
  | S fuel =>
      let '(n, acc, rest) := hex_run 0 0 s in
      if (n =? 0) || (4 <? n) then None
      else if has_prefix rest "." then
        if (bool_decide (ellipsis = None) && negb (Z.of_nat (length bytes) =? 12))
           || (12 <? Z.of_nat (length bytes)) then None
        else v4 ← parseIPv4 s; Some (bytes ++ v4, ellipsis)
      else
        let bytes := bytes ++ [acc / 256; acc mod 256] in
        match rest with
        | "" => Some (bytes, ellipsis)
        | String ":" "" => None
        | String ":" (String ":" rest') =>
            match ellipsis with
            | Some _ => None
            | None =>
                if bool_decide (rest' = "") then Some (bytes, Some (length bytes))
                else parseIPv6_go fuel bytes (Some (length bytes)) rest'
            end
        | String ":" rest' => parseIPv6_go fuel bytes ellipsis rest'
        | _ => None
        end
  end.

Definition expand (r : ip * option nat) : option ip :=
  let '(bytes, ellipsis) := r in
  match ellipsis with
  | None => if bool_decide (length bytes = 16%nat) then Some bytes else None
  | Some k =>
      if bool_decide (length bytes < 16)%nat
      then Some (take k bytes ++ replicate (16 - length bytes) 0 ++ drop k bytes) else None
  end.

Definition parseIPv6 (s : string) : option ip :=
  match strip_prefix "::" s with
  | Some "" => Some (replicate 16 0)
  | Some s' => parseIPv6_go 8 [] (Some O) s' ≫= expand
  | None => parseIPv6_go 8 [] None s ≫= expand
  end.

(** The first of the characters ['.'], [':'] and ['%'] selects the format. *)
Fixpoint ip_family (s : string) : option ascii :=
  match s with
  | "" => None
  | String c s' =>
      if bool_decide (c = "."%char) || bool_decide (c = ":"%char) || bool_decide (c = "%"%char)
      then Some c else ip_family s'
  end.

Definition v4_prefix : ip := replicate 10 0 ++ [255; 255].

(** [net.ParseIP]: 16 bytes; an IPv4 address is returned in its mapped form, an
    address with a zone is refused. *)
Definition ParseIP (s : string) : option ip :=
  match ip_family s with
  | Some "." => v4 ← parseIPv4 s; Some (v4_prefix ++ v4)
  | Some ":" => if has_char "%" s then None else parseIPv6 s
  | _ => None
  end%char.

(** [IP.To4]: [nil] is [None]. *)
Definition To4 (a : option ip) : option ip :=
  b ← a;
  if bool_decide (length b = 4%nat) then Some b
  else if bool_decide (length b = 16%nat) && bool_decide (take 12 b = v4_prefix) then Some (drop 12 b)
  else None.

(** ** Masks *)

(** The leading ones of a byte when only zeros follow them. *)
Definition mask_byte (b : Z) : option Z :=
  match b with
  | 0 => Some 0 | 128 => Some 1 | 192 => Some 2 | 224 => Some 3 | 240 => Some 4
  | 248 => Some 5 | 252 => Some 6 | 254 => Some 7 | _ => None
  end.

Fixpoint simpleMaskLength (m : ip) (n : Z) : option Z :=
  match m with
  | [] => Some n
  | b :: m' =>
      if b =? 255 then simpleMaskLength m' (n + 8)
      else k ← mask_byte b; if forallb (Z.eqb 0) m' then Some (n + k) else None
  end.

(** [IPMask.Size]: (ones, bits), and (0, 0) for a mask that is not ones followed
    by zeros. *)
Definition mask_Size (m : option ip) : Z * Z :=
  match m with
  | None => (0, 0)
  | Some m => match simpleMaskLength m 0 with
              | Some n => (n, 8 * Z.of_nat (length m))
              | None => (0, 0)
              end
  end.

(** [net.CIDRMask(n, 32)], and its dotted form. *)
Definition CIDRMask (n : Z) : ip :=
  map (fun i => 256 - 2 ^ (8 - Z.max 0 (Z.min 8 (n - 8 * i)))) [0; 1; 2; 3].

Definition dotted (a : ip) : string := join "." (map itoa a).

(** [net.ParseCIDR], reduced to the address and the prefix length. *)
Definition ParseCIDR (s : string) : result (ip * Z) :=
  let bad := Err (EParse "CIDR address" s) in
  match split2 "/" s with
  | (_, None) => bad
  | (addr, Some mask) =>
      match ParseIP addr with
      | None => bad
      | Some a =>
          let bits := if bool_decide (ip_family addr = Some "."%char) then 32 else 128 in
          if negb (bool_decide (mask = "")) && all_chars is_digit mask then
            match parse_uint 10 23 mask with
            | Ok n => if n <=? bits then Ok (a, n) else bad
            | _ => bad
            end
          else bad
      end
  end.

(** ** Hardware addresses *)

Definition hex_byte (w : string) : option Z :=
  match w with
  | String a (String b "") => x ← hex_val a; y ← hex_val b; Some (x * 16 + y)
  | _ => None
  end.

Definition hex_quad (w : string) : option (list Z) :=
  match w with
  | String a (String b (String c (String d ""))) =>
      x ← hex_byte (String a (String b "")); y ← hex_byte (String c (String d "")); Some [x; y]
  | _ => None
  end.

Definition mac_length (l : list Z) : bool :=
  bool_decide (length l = 6%nat) || bool_decide (length l = 8%nat) || bool_decide (length l = 20%nat).

(** Octets of two digits separated by [:] or [-], or groups of four digits
    separated by dots. *)
Definition mac_bytes (s : string) : option (list Z) :=
  match chars s with
  | _ :: _ :: c2 :: _ :: c4 :: _ =>
      if bool_decide (c2 = ":"%char) || bool_decide (c2 = "-"%char) then mapM hex_byte (split_on c2 s)
      else if bool_decide (c4 = "."%char) then l ← mapM hex_quad (split_on "." s); Some (concat l)
      else None
  | _ => None
  end.

Definition ParseMAC (s : string) : result (list Z) :=
  let bad := Err (EParse "invalid MAC address" s) in
  match mac_bytes s with
  | Some l => if mac_length l then Ok l else bad
  | None => bad
  end.

(** [HardwareAddr.String]. *)
Definition mac_string (l : list Z) : string :=
  join ":" (map (fun b => String (hex_digit (b / 16)) (String (hex_digit (b mod 16)) "")) l).

(** ** Printing addresses

    [net.IP.String] of a 16-byte address that is not IPv4. *)
Definition v6_groups (a : ip) : list Z :=
  map (fun i => nth (2 * i) a 0 * 256 + nth (2 * i + 1) a 0) (seq 0 8).
Fixpoint zero_run (l : list Z) : nat :=
  match l with 0 :: l' => S (zero_run l') | _ => O end.
(** The first longest run of at least two zero groups: its start and length. *)
Fixpoint best_run (i : nat) (l : list Z) (best : nat * nat) : nat * nat :=
  match l with
  | [] => best
  | _ :: l' =>
      let n := zero_run l in
      best_run (S i) l' (if (2 <=? n)%nat && (snd best <? n)%nat then (i, n) else best)
  end.
Definition hex16 (z : Z) : string :=
  let ds := [z / 4096; z / 256 mod 16; z / 16 mod 16; z mod 16] in
  of_chars (map hex_digit (match ds with
    | [0; 0; 0; d] => [d] | [0; 0; c; d] => [c; d] | [0; b; c; d] => [b; c; d] | _ => ds end)).
Definition v6_string (a : ip) : string :=
  let gs := v6_groups a in
  let '(start, len) := best_run 0 gs (8%nat, 0%nat) in
  if bool_decide (len = 0%nat) then join ":" (map hex16 gs)
  else join ":" (map hex16 (take start gs)) +:+ "::" +:+ join ":" (map hex16 (drop (start + len) gs)).
(** [net.IP.String]. *)
Definition ip_string (a : ip) : string :=
  match To4 (Some a) with Some r => dotted r | None => v6_string a end.

Example v6_string_ex1 : v6_string ([254; 128] ++ replicate 13 0 ++ [1]) = "fe80::1".
Proof. vm_refl. Qed.
Example v6_string_ex2 : v6_string (replicate 15 0 ++ [1]) = "::1".
Proof. vm_refl. Qed.
Example v6_string_ex3 : v6_string (replicate 16 0) = "::".
Proof. vm_refl. Qed.
Example v6_string_ex4 : v6_string [32;1;13;184;0;0;0;0;0;1;0;0;0;0;0;171] = "2001:db8::1:0:0:ab".
Proof. vm_refl. Qed.
