(* ===== verification/GoUrl.v ===== *)
(** * GoUrl: URLs and host:port pairs of Go's standard library

    [url.ParseRequestURI] on a URL with the scheme https and an authority,
    [URL.Hostname], [URL.Port], [URL.String], [net.SplitHostPort] and
    [net.JoinHostPort], as far as the source uses them. *)
From Stdlib Require Import ZArith Lia Ascii String.
From stdpp Require Import base tactics list strings.
From S2P Require Import Prelude GoStrings GoNet.
Local Open Scope Z_scope.

(** ** Strings cut at a character *)

(** Around the last [c]: [strings.LastIndex]. *)
Fixpoint cut_last (c : ascii) (s : string) : option (string * string) :=
  match s with
  | "" => None
  | String d s' =>
      match cut_last c s' with
      | Some (a, b) => Some (String d a, b)
      | None => if bool_decide (d = c) then Some ("", s') else None
      end
  end.

(** Before the first [c], and from it on: [authority[:i], authority[i:]]. *)
Fixpoint break_at (c : ascii) (s : string) : string * string :=
  match s with
  | "" => ("", "")
  | String d s' => if bool_decide (d = c) then ("", s) else let '(a, b) := break_at c s' in (String d a, b)
  end.

Lemma cut_last_none c s : has_char c s = false -> cut_last c s = None.
Proof.
  induction s as [|d s IH]; [done|]. cbn [has_char cut_last]. intros [Hd%bool_decide_eq_false Hs]%orb_false_iff.
  rewrite (IH Hs). by rewrite bool_decide_eq_false_2 by congruence.
Qed.

Lemma cut_last_app c a b : has_char c b = false -> cut_last c (a +:+ String c b) = Some (a, b).
Proof.
  intros Hb. induction a as [|d a IH].
  - change ("" +:+ ?x) with x. cbn [cut_last]. rewrite (cut_last_none c b Hb). by rewrite bool_decide_eq_true_2.
  - rewrite string_app_cons. cbn [cut_last]. by rewrite IH.
Qed.

Lemma break_at_none c s : has_char c s = false -> break_at c s = (s, "").
Proof.
  induction s as [|d s IH]; [done|]. cbn [has_char break_at]. intros [Hd%bool_decide_eq_false Hs]%orb_false_iff.
  rewrite (IH Hs). by rewrite bool_decide_eq_false_2 by congruence.
Qed.

(** ** Escapes *)

(** The parts of a URL with escaping rules of their own. *)
Inductive encoding : Set := encodePath | encodeHost | encodeUserPassword.
#[export] Instance encoding_eq_dec : EqDecision encoding.
Proof. solve_decision. Defined.

Definition unreserved (c : ascii) : bool := is_alnum c || bool_decide (c ∈ ["-"; "_"; "."; "~"]%char).
Definition shouldEscape (c : ascii) (mode : encoding) : bool :=
  if unreserved c then false
  else match mode with
  | encodeHost => bool_decide (c ∉ ["!"; "$"; "&"; "'"; "("; ")"; "*"; "+"; ","; ";"; "="; ":"; "["; "]"; "<"; ">"; "034"]%char)
  | encodePath => if bool_decide (c ∈ ["$"; "&"; "+"; ","; "/"; ":"; ";"; "="; "?"; "@"]%char) then bool_decide (c = "?"%char) else true
  | encodeUserPassword =>
      if bool_decide (c ∈ ["$"; "&"; "+"; ","; "/"; ":"; ";"; "="; "?"; "@"]%char)
      then bool_decide (c ∈ ["@"; "/"; "?"; ":"]%char) else true
  end.

(** Every [%] starts an escape; in a host only bytes of at least 128 and [%25]
    may be escaped, and what must be escaped may not stand by itself. *)
Fixpoint unescape (mode : encoding) (s : string) : option string :=
  match s with
  | "" => Some ""
  | String c s' =>
      if bool_decide (c = "%"%char) then
        match s' with
        | String a (String b s'') =>
            x ← hex_val a; y ← hex_val b;
            if bool_decide (mode = encodeHost) && (x <? 8) && negb (bool_decide (a = "2"%char) && bool_decide (b = "5"%char))
            then None
            else r ← unescape mode s''; Some (String (Ascii.ascii_of_N (Z.to_N (x * 16 + y))) r)
        | _ => None
        end
      else if bool_decide (mode = encodeHost) && (ord c <? 128) && shouldEscape c encodeHost then None
      else r ← unescape mode s'; Some (String c r)
  end.

Definition upper_hex (n : Z) : ascii := upper_char (hex_digit n).
Fixpoint escape (mode : encoding) (s : string) : string :=
  match s with
  | "" => ""
  | String c s' =>
      if shouldEscape c mode then String "%" (String (upper_hex (ord c / 16)) (String (upper_hex (ord c mod 16)) (escape mode s')))
      else String c (escape mode s')
  end.

(** Escaping leaves a string of ordinary characters alone, both ways. *)
Definition ordinary (s : string) : bool := all_chars (fun c => unreserved c || bool_decide (c = ":"%char)) s.

Lemma ordinary_host c : unreserved c || bool_decide (c = ":"%char) = true -> shouldEscape c encodeHost = false /\ c <> "%"%char.
Proof.
  intros H. unfold shouldEscape. split.
  - destruct (unreserved c); [done|]. cbn in H. apply bool_decide_eq_true in H as ->. done.
  - by intros ->.
Qed.

Lemma unescape_ordinary s : ordinary s = true -> unescape encodeHost s = Some s.
Proof.
  induction s as [|c s IH]; [done|]. unfold ordinary. cbn [all_chars]. intros [Hc Hs]%andb_true_iff.
  apply ordinary_host in Hc as [He Hp].
  cbn [unescape]. rewrite (bool_decide_eq_false_2 (c = "%"%char)) by done.
  by rewrite He, andb_false_r, (IH Hs).
Qed.

Lemma escape_ordinary s : ordinary s = true -> escape encodeHost s = s.
Proof.
  induction s as [|c s IH]; [done|]. unfold ordinary. cbn [all_chars escape]. intros [Hc Hs]%andb_true_iff.
  apply ordinary_host in Hc as [He _]. by rewrite He, (IH Hs).
Qed.

(** ** Authorities *)

(** Empty, or a colon and digits. *)
Definition validOptionalPort (port : string) : bool :=
  match port with "" => true | String ":" p => all_chars is_digit p | _ => false end.

Definition validUserinfo (s : string) : bool :=
  all_chars (fun c => is_alnum c || bool_decide (c ∈ ["-"; "."; "_"; ":"; "~"; "!"; "$"; "&"; "'"; "("; ")"; "*"; "+"; ","; ";"; "="; "%"; "@"]%char)) s.

(** A host without a zone: in brackets with an optional port behind, or with an
    optional port behind its last colon. *)
Definition parseHost (host : string) : option string :=
  let port_ok :=
    if has_prefix host "[" then
      match cut_last "]" host with Some (_, colonPort) => validOptionalPort colonPort | None => false end
    else match cut_last ":" host with Some (_, p) => validOptionalPort (String ":" p) | None => true end in
  if port_ok then unescape encodeHost host else None.

(** The user name and the password, decoded. *)
Definition userinfo : Set := string * option string.
Definition parse_user (s : string) : option userinfo :=
  if negb (validUserinfo s) then None
  else match split2 ":" s with
  | (u, None) => u ← unescape encodeUserPassword u; Some (u, None)
  | (u, Some p) => u ← unescape encodeUserPassword u; p ← unescape encodeUserPassword p; Some (u, Some p)
  end.
Definition parseAuthority (authority : string) : option (option userinfo * string) :=
  match cut_last "@" authority with
  | None => host ← parseHost authority; Some (None, host)
  | Some (u, h) => host ← parseHost h; u ← parse_user u; Some (Some u, host)
  end.

(** ** URLs *)

Record URL : Set := mkURL {
  url_User : option userinfo;
  url_Host : string;
  url_Path : string;
  url_ForceQuery : bool;
  url_RawQuery : string
}.

Definition https : string := "https://".
Definition is_ctl (c : ascii) : bool := (ord c <? 32) || (ord c =? 127).

(** [url.ParseRequestURI] of [https ++ rest]. *)
Definition parse_https (rest : string) : option URL :=
  if negb (all_chars (fun c => negb (is_ctl c)) rest) then None
  else
    let '(rest, force, query) :=
      match split2 "?" rest with
      | (r, None) => (r, false, "")
      | (r, Some "") => (r, true, "")
      | (r, Some q) => (r, false, q)
      end in
    let '(authority, path) := break_at "/" rest in
    '(user, host) ← parseAuthority authority;
    p ← unescape encodePath path;
    Some (mkURL user host p force query).

(** The host without its port and brackets, and the port. *)
Definition splitHostPort (hostPort : string) : string * string :=
  match cut_last ":" hostPort with
  | Some (h, p) => if all_chars is_digit p then (h, p) else (hostPort, "")
  | None => (hostPort, "")
  end.
Definition Hostname (u : URL) : string :=
  let h := fst (splitHostPort (url_Host u)) in
  if has_prefix h "[" && has_suffix h "]" then stake (String.length h - 2) (sdrop 1 h) else h.
Definition Port (u : URL) : string := snd (splitHostPort (url_Host u)).

(** [URL.String] of a URL with an empty path. *)
Definition user_string (u : userinfo) : string :=
  escape encodeUserPassword (fst u) +:+ match snd u with Some p => ":" +:+ escape encodeUserPassword p | None => "" end.
Definition URL_String (u : URL) : string :=
  https +:+ match url_User u with Some i => user_string i +:+ "@" | None => "" end
  +:+ escape encodeHost (url_Host u)
  +:+ (if url_ForceQuery u || negb (bool_decide (url_RawQuery u = "")) then "?" +:+ url_RawQuery u else "").

(** ** Host and port *)

Definition missing_port (s : string) : error := EParse "missing port in address" s.
Definition addr_error (what s : string) : error := EParse what s.
(** [net.SplitHostPort]. *)
Definition no_brackets (h j k port : string) (hostport : string) : result (string * string) :=
  if has_char "[" j then Err (addr_error "unexpected '[' in address" hostport)
  else if has_char "]" k then Err (addr_error "unexpected ']' in address" hostport)
  else Ok (h, port).
Definition SplitHostPort (hostport : string) : result (string * string) :=
  match cut_last ":" hostport with
  | None => Err (missing_port hostport)
  | Some (before, port) =>
      match strip_prefix "[" hostport with
      | Some inner =>
          match split2 "]" inner with
          | (_, None) => Err (addr_error "missing ']' in address" hostport)
          | (_, Some "") => Err (missing_port hostport)
          | (host, Some after) =>
              match after with
              | String ":" p =>
                  if has_char ":" p then Err (addr_error "too many colons in address" hostport)
                  else no_brackets host inner after p hostport
              | _ => Err (missing_port hostport)
              end
          end
      | None =>
          if has_char ":" before then Err (addr_error "too many colons in address" hostport)
          else no_brackets before hostport hostport port hostport
      end
  end.

Definition JoinHostPort (host port : string) : string :=
  if has_char ":" host then "[" +:+ host +:+ "]:" +:+ port else host +:+ ":" +:+ port.

Example SplitHostPort_ex1 : SplitHostPort "pool.ntp.org:123" = Ok ("pool.ntp.org", "123").
Proof. reflexivity. Qed.
Example SplitHostPort_ex2 : SplitHostPort "[fe80::1]:123" = Ok ("fe80::1", "123").
Proof. reflexivity. Qed.
Example SplitHostPort_ex3 : SplitHostPort "fe80::1" = Err (addr_error "too many colons in address" "fe80::1").
Proof. reflexivity. Qed.
Example SplitHostPort_ex4 : SplitHostPort "[::1]" = Err (missing_port "[::1]").
Proof. reflexivity. Qed.
Example parse_https_ex1 : parse_https "admin@node.example:443/x?y" =
  Some (mkURL (Some ("admin", None)) "node.example:443" "/x" false "y").
Proof. reflexivity. Qed.
Example parse_https_ex2 : parse_https "node example" = None.
Proof. reflexivity. Qed.
