(* ===== verification/GoJson.v ===== *)
(** * GoJson: the JSON values of [encoding/json] and their decoding

    A parser from text to values (numbers keep their text, as [json.Number]
    does), the printer of strings, and the decoding of values into string
    fields and slices of records that [json.Unmarshal] performs: keys match
    field names up to (ASCII) case, unknown keys are ignored, [null] leaves a
    field unchanged, a value of the wrong type is an error.  A repeated key
    replaces the earlier value. *)
From Stdlib Require Import ZArith Lia Ascii String.
From stdpp Require Import base tactics list strings.
From S2P Require Import Prelude GoStrings GoNet.
Local Open Scope Z_scope.

Inductive json : Set :=
| JNull
| JBool (b : bool)
| JNum (text : string)
| JStr (s : string)
| JArr (l : list json)
| JObj (l : list (string * json)).

(** ** Parsing *)

Definition quote : ascii := "034".
Definition backslash : ascii := "092".

Definition byte_char (n : Z) : ascii := Ascii.ascii_of_N (Z.to_N n).

(** The UTF-8 encoding of a code point of the basic plane. *)
Definition utf8 (n : Z) : string :=
  if n <? 128 then String (byte_char n) ""
  else if n <? 2048 then String (byte_char (192 + n / 64)) (String (byte_char (128 + n mod 64)) "")
  else String (byte_char (224 + n / 4096))
         (String (byte_char (128 + n / 64 mod 64)) (String (byte_char (128 + n mod 64)) "")).

Definition escape_char (c : ascii) : option string :=
  match c with
  | "n" => Some (String "010" "") | "t" => Some (String "009" "") | "r" => Some (String "013" "")
  | "b" => Some (String "008" "") | "f" => Some (String "012" "") | "/" => Some (String "/" "")
  | _ => if bool_decide (c = quote) || bool_decide (c = backslash) then Some (String c "") else None
  end%char.

(** The rest of a string literal after its opening quote. *)
Fixpoint parse_string (s : string) : option (string * string) :=
  match s with
  | "" => None
  | String c s' =>
      if bool_decide (c = quote) then Some ("", s')
      else if bool_decide (c = backslash) then
        match s' with
        | String "u" (String a (String b (String d (String e s'')))) =>
            hi ← hex_byte (String a (String b "")); lo ← hex_byte (String d (String e ""));
            '(t, r) ← parse_string s''; Some (utf8 (hi * 256 + lo) +:+ t, r)
        | String x s'' =>
            t ← escape_char x; '(t', r) ← parse_string s''; Some (t +:+ t', r)
        | "" => None
        end
      else if ord c <? 32 then None
      else '(t, r) ← parse_string s'; Some (String c t, r)
  end.

Definition is_num_char (c : ascii) : bool :=
  is_digit c || bool_decide (c ∈ ["-"; "+"; "."; "e"; "E"]%char).

Fixpoint span (p : ascii -> bool) (s : string) : string * string :=
  match s with
  | String c s' => if p c then let '(a, b) := span p s' in (String c a, b) else ("", s)
  | "" => ("", "")
  end.

(** The JSON number grammar: -? (0 | [1-9][0-9]* ) (.[0-9]+)? ([eE][+-]?[0-9]+)?. *)
Definition num_exp (s : string) : bool :=
  match s with
  | "" => true
  | String c s' =>
      (bool_decide (c = "e"%char) || bool_decide (c = "E"%char)) &&
      (let s' := trim_prefix s' "+" in let s' := if has_prefix s' "-" then trim_prefix s' "-" else s' in
       negb (bool_decide (s' = "")) && all_chars is_digit s')
  end.
Definition num_frac (s : string) : bool :=
  match strip_prefix "." s with
  | Some s' => let '(d, r) := span is_digit s' in negb (bool_decide (d = "")) && num_exp r
  | None => num_exp s
  end.
Definition is_number (s : string) : bool :=
  let '(d, r) := span is_digit (trim_prefix s "-") in
  match d with
  | "" => false
  | "0" => num_frac r
  | String "0" _ => false
  | _ => num_frac r
  end.

Definition is_ws (c : ascii) : bool := bool_decide (c ∈ [" "; "009"; "010"; "013"]%char).
Definition skip (s : string) : string := trim_left is_ws s.

Fixpoint parse_value (fuel : nat) (s : string) : option (json * string) :=
  match fuel with
  | O => None
  | S fuel =>
      match skip s with
      | String "{" s' =>
          match skip s' with
          | String "}" r => Some (JObj [], r)
          | s' => '(l, r) ← parse_members fuel s'; Some (JObj l, r)
          end
      | String "[" s' =>
          match skip s' with
          | String "]" r => Some (JArr [], r)
          | s' => '(l, r) ← parse_elements fuel s'; Some (JArr l, r)
          end
      | String c s' as s0 =>
          if bool_decide (c = quote) then '(t, r) ← parse_string s'; Some (JStr t, r)
          else match strip_prefix "null" s0, strip_prefix "true" s0, strip_prefix "false" s0 with
               | Some r, _, _ => Some (JNull, r)
               | _, Some r, _ => Some (JBool true, r)
               | _, _, Some r => Some (JBool false, r)
               | _, _, _ =>
                   let '(n, r) := span is_num_char s0 in
                   if is_number n then Some (JNum n, r) else None
               end
      | "" => None
      end
  end
with parse_elements (fuel : nat) (s : string) : option (list json * string) :=
  match fuel with
  | O => None
  | S fuel =>
      '(v, r) ← parse_value fuel s;
      match skip r with
      | String "," r => '(vs, r) ← parse_elements fuel r; Some (v :: vs, r)
      | String "]" r => Some ([v], r)
      | _ => None
      end
  end
with parse_members (fuel : nat) (s : string) : option (list (string * json) * string) :=
  match fuel with
  | O => None
  | S fuel =>
      match skip s with
      | String c s' =>
          if bool_decide (c = quote) then
            '(k, r) ← parse_string s';
            match skip r with
            | String ":" r =>
                '(v, r) ← parse_value fuel r;
                match skip r with
                | String "," r => '(ms, r) ← parse_members fuel r; Some ((k, v) :: ms, r)
                | String "}" r => Some ([(k, v)], r)
                | _ => None
                end
            | _ => None
            end
          else None
      | "" => None
      end
  end.

(** A whole text: two calls per character are enough fuel. *)
Definition json_parse (s : string) : option json :=
  '(v, r) ← parse_value (2 * String.length s + 2) s;
  if bool_decide (skip r = "") then Some v else None.

(** ** Decoding *)

Definition decode (A : Type) : Type := A -> json -> option A.

Definition decode_string : decode string := fun old j =>
  match j with JStr s => Some s | JNull => Some old | _ => None end.

Definition decode_list {A} (zero : A) (d : decode A) : decode (list A) := fun _ j =>
  match j with JArr l => mapM (d zero) l | JNull => Some [] | _ => None end.

(** A struct: the decoder of the field a key names. *)
Definition decode_field {A} (field : string -> option (decode A)) (acc : option A) (kv : string * json) : option A :=
  a ← acc; match field (to_lower (fst kv)) with Some d => d a (snd kv) | None => Some a end.
Definition decode_struct {A} (field : string -> option (decode A)) : decode A := fun old j =>
  match j with
  | JObj l => foldl (decode_field field) (Some old) l
  | JNull => Some old
  | _ => None
  end.

(** ** Printing strings and slices of strings (json.Marshal)

    [encoding/json] escapes the control characters, the quote, the backslash
    and the HTML characters. *)
Definition hex4 (n : Z) : string :=
  String (hex_digit (n / 4096)) (String (hex_digit (n / 256 mod 16))
    (String (hex_digit (n / 16 mod 16)) (String (hex_digit (n mod 16)) ""))).
Definition html_or_control (c : ascii) : bool :=
  (ord c <? 32) || bool_decide (c ∈ ["<"; ">"; "&"]%char).
Definition print_char (c : ascii) : string :=
  if bool_decide (c = quote) || bool_decide (c = backslash) then String backslash (String c "")
  else match c with
       | "010" => String backslash "n" | "013" => String backslash "r" | "009" => String backslash "t"
       | "008" => String backslash "b" | "012" => String backslash "f"
       | _ => if html_or_control c then String backslash (String "u" (hex4 (ord c))) else String c ""
       end%char.
Fixpoint print_chars (s : string) : string :=
  match s with "" => "" | String c s' => print_char c +:+ print_chars s' end.
Definition print_string (s : string) : string :=
  String quote (print_chars s +:+ String quote "").
Definition print_strings (l : list string) : string := "[" +:+ join "," (map print_string l) +:+ "]".

(** ** Printing and parsing agree *)

Lemma parse_print_char c t r s :
  parse_string s = Some (t, r) -> parse_string (print_char c +:+ s) = Some (String c t, r).
Proof.
  intros H. destruct c as [[] [] [] [] [] [] [] []];
    match goal with |- context [print_char ?x] => let y := eval vm_compute in (print_char x) in change (print_char x) with y end;
    rewrite ?string_app_cons; change ("" +:+ s) with s; cbn; rewrite H; reflexivity.
Qed.

Lemma parse_print_chars s r :
  parse_string (print_chars s +:+ String quote r) = Some (s, r).
Proof.
  induction s as [|c s IH]; [done|]. cbn [print_chars]. rewrite string_app_assoc. by apply parse_print_char.
Qed.
