(* ===== verification/World.v ===== *)
(** * World: files, commands and package variables as explicit state

    Effectful code is a function from the state of the world to a result and
    a new state.  The operating system is the class [Host]: it may make any
    file operation fail (and leave the files in any state when it does), and
    it decides what a command prints, whether it succeeds and what it does to
    the files.  Operations that succeed have the effect written here, and
    every operation is recorded in the trace, so the order in which the code
    does things can be stated. *)
From Stdlib Require Import ZArith Lia Ascii String.
From stdpp Require Import base tactics list gmap strings sorting.
From S2P Require Import Prelude GoStrings.
Local Open Scope Z_scope.

Inductive event : Set :=
| EvMkdirAll (path : string)
| EvWrite (path data : string)
| EvRemove (path : string)
| EvRead (path : string)
| EvExec (argv : list string)
| EvPrint (panel text : string)
| EvLink (op link : string)                  (* a netlink request *)
| EvWebhook (event : string).                (* the hooks of an installation event *)

Record world : Set := mkWorld {
  w_files : gmap string string;
  w_trace : list event;                      (* latest event first *)
  w_originals : gmap string string;          (* originalNetworkConfigs *)
  w_saved : bool                             (* saveOriginalNetworkConfigOnce has run *)
}.

Definition set_files (f : gmap string string) (w : world) : world :=
  mkWorld f (w_trace w) (w_originals w) (w_saved w).
Definition log_event (e : event) (w : world) : world :=
  mkWorld (w_files w) (e :: w_trace w) (w_originals w) (w_saved w).

Class Host := {
  fault : world -> event -> option (error * gmap string string);
  exec : world -> list string -> gmap string string * (string + error)   (* output or failure *)
}.

(** A host on which every operation succeeds and commands do nothing. *)
Definition ideal_host : Host := {| fault _ _ := None; exec w _ := (w_files w, inl "") |}.

(** ** The monad *)

Definition io (A : Type) : Type := world -> result A * world.
#[export] Instance io_ret : MRet io := fun A a w => (Ok a, w).
#[export] Instance io_bind : MBind io := fun A B f m w =>
  match m w with
  | (Ok a, w') => f a w'
  | (Err e, w') => (Err e, w')
  | (Panic, w') => (Panic, w')
  end.
Definition lift {A} (r : result A) : io A := fun w => (r, w).
Definition get_world : io world := fun w => (Ok w, w).
Definition put_world (w : world) : io unit := fun _ => (Ok tt, w).
(** The error of [m] as a value: [err := m]. *)
Definition try {A} (m : io A) : io (result A) := fun w =>
  match m w with (Panic, w') => (Panic, w') | (r, w') => (Ok r, w') end.

(** [if err := m(); err != nil { h(err); return err }] and [defer h()]. *)
Definition on_err {A} (m : io A) (h : error -> io unit) : io A := fun w =>
  match m w with
  | (Err e, w') => match h e w' with (Panic, w'') => (Panic, w'') | (_, w'') => (Err e, w'') end
  | r => r
  end.
Definition finally {A} (m : io A) (h : io unit) : io A := fun w =>
  let '(r, w') := m w in
  match h w' with (Panic, w'') => (Panic, w'') | (_, w'') => (r, w'') end.

Fixpoint for_each_io {A} (f : A -> io unit) (l : list A) : io unit :=
  match l with [] => mret tt | x :: l' => f x ≫= fun _ => for_each_io f l' end.
Fixpoint map_each_io {A B} (f : A -> io B) (l : list A) : io (list B) :=
  match l with
  | [] => mret []
  | x :: l' => f x ≫= fun y => map_each_io f l' ≫= fun ys => mret (y :: ys)
  end.

Section host.
Context `{Host}.

(** An operation: a fault of the host, or the effect [eff] on the files. *)
Definition fs_op {A} (e : event) (eff : gmap string string -> result A * gmap string string) : io A := fun w =>
  match fault w e with
  | Some (err, f) => (Err err, log_event e (set_files f w))
  | None => let '(r, f) := eff (w_files w) in (r, log_event e (set_files f w))
  end.

(** os.MkdirAll (directories are not tracked), os.WriteFile, os.Remove,
    os.ReadFile. *)
Definition MkdirAll (path : string) : io unit := fs_op (EvMkdirAll path) (fun f => (Ok tt, f)).
Definition WriteFile (path data : string) : io unit :=
  fs_op (EvWrite path data) (fun f => (Ok tt, <[path := data]> f)).
Definition Remove (path : string) : io unit :=
  fs_op (EvRemove path) (fun f =>
    match f !! path with
    | Some _ => (Ok tt, delete path f)
    | None => (Err (EPath "remove" path true), f)
    end).
Definition ReadFile (path : string) : io string :=
  fs_op (EvRead path) (fun f =>
    (match f !! path with Some data => Ok data | None => Err (EPath "open" path true) end, f)).

(** exec.Command(argv).CombinedOutput(). *)
Definition Exec (argv : list string) : io string := fun w =>
  let '(f, r) := exec w argv in
  (match r with inl output => Ok output | inr e => Err e end, log_event (EvExec argv) (set_files f w)).
End host.

(** ** Globbing [dir/*suffix]

    [dir] is a path without meta characters and without a trailing slash; [*]
    matches anything but a slash, and the result is sorted. *)
Definition glob_match (dir suffix path : string) : bool :=
  match strip_prefix (dir +:+ "/") path with
  | Some base => has_suffix base suffix && negb (has_char "/" base)
  | None => false
  end.
Definition string_le (a b : string) : Prop := String.leb a b = true.
#[export] Instance string_le_dec : RelDecision string_le := fun a b => decide (String.leb a b = true).

(** It is a total order, so that sorting does not depend on the order of the
    elements. *)
#[export] Instance string_le_total : Total string_le.
Proof. intros a b. apply String.leb_total. Qed.
#[export] Instance string_le_antisymm : AntiSymm (=) string_le.
Proof. intros a b. apply String.leb_antisym. Qed.
#[export] Instance string_le_trans : Transitive string_le.
Proof.
  unfold string_le, String.leb. intros a. induction a as [|c a IH]; intros b d; [by destruct d|].
  destruct b as [|e b]; [done|]. destruct d as [|f d]; [done|]. cbn [String.compare].
  unfold Ascii.compare.
  destruct (N.compare_spec (N_of_ascii c) (N_of_ascii e)) as [Hce|Hce|Hce]; [| |done];
  destruct (N.compare_spec (N_of_ascii e) (N_of_ascii f)) as [Hef|Hef|Hef]; try done; intros H1 H2.
  - rewrite (proj2 (N.compare_eq_iff _ _)) by congruence. by apply (IH b d).
  - by rewrite (proj2 (N.compare_lt_iff _ _)) by lia.
  - by rewrite (proj2 (N.compare_lt_iff _ _)) by lia.
  - by rewrite (proj2 (N.compare_lt_iff _ _)) by lia.
Qed.

Definition sort_strings (l : list string) : list string := merge_sort string_le l.
Definition glob (dir suffix : string) (f : gmap string string) : list string :=
  sort_strings (filter (fun p => glob_match dir suffix p = true) (map fst (map_to_list f))).
Definition Glob (dir suffix : string) : io (list string) := fun w => (Ok (glob dir suffix (w_files w)), w).

(** ** Lemmas *)

Lemma io_bind_ok {A B} (m : io A) (f : A -> io B) w b w' :
  (m ≫= f) w = (Ok b, w') <-> exists a w1, m w = (Ok a, w1) /\ f a w1 = (Ok b, w').
Proof.
  unfold mbind, io_bind. destruct (m w) as [[a|e|] w1]; naive_solver.
Qed.

Lemma try_ok {A} (m : io A) w r w' : try m w = (Ok r, w') -> w' = snd (m w) /\ r = fst (m w).
Proof. unfold try. destruct (m w) as [[] w1]; by intros [= <- <-]. Qed.

Lemma io_ret_ok {A} (a b : A) w w' : (mret a : io A) w = (Ok b, w') <-> a = b /\ w = w'.
Proof. unfold mret, io_ret. naive_solver. Qed.

Lemma sort_strings_elem x l : x ∈ sort_strings l <-> x ∈ l.
Proof. unfold sort_strings. by rewrite merge_sort_Permutation. Qed.

Lemma sort_strings_perm l l' : l ≡ₚ l' -> sort_strings l = sort_strings l'.
Proof.
  intros Hp. apply (Sorted_unique string_le); [apply Sorted_merge_sort, _..|].
  unfold sort_strings. by rewrite !merge_sort_Permutation.
Qed.

Lemma glob_elem dir suffix f p :
  p ∈ glob dir suffix f <-> is_Some (f !! p) /\ glob_match dir suffix p = true.
Proof.
  unfold glob. rewrite sort_strings_elem, list_elem_of_filter, list_elem_of_In, in_map_iff.
  split.
  - intros [Hm ([q v] & <- & Hin)]. split; [|done]. apply list_elem_of_In, elem_of_map_to_list in Hin.
    by exists v.
  - intros [[v Hv] Hm]. split; [done|]. exists (p, v). split; [done|].
    by apply list_elem_of_In, elem_of_map_to_list.
Qed.

Lemma returned {A} (m : io A) w a : fst (m w) = Ok a -> m w = (Ok a, snd (m w)).
Proof. intros <-. apply surjective_pairing. Qed.

(** Invert a chain of effectful binds that returned. *)
Ltac inv_io :=
  repeat match goal with
  | H : (_ ≫= _) _ = (Ok _, _) |- _ => apply io_bind_ok in H as (? & ? & ? & ?)
  | H : mbind _ _ _ = (Ok _, _) |- _ => apply io_bind_ok in H as (? & ? & ? & ?)
  | H : mret _ _ = (Ok _, _) |- _ => apply io_ret_ok in H as [? ?]; subst
  | H : lift _ _ = (Ok _, _) |- _ => unfold lift in H; injection H as ? ?; subst
  | u : unit |- _ => destruct u
  end.

Section host_lemmas.
Context `{Host}.

Lemma MkdirAll_ok p u w w' : MkdirAll p w = (Ok u, w') -> w_files w' = w_files w.
Proof. unfold MkdirAll, fs_op. destruct (fault _ _) as [[]|]; intros [=]; by subst. Qed.

Lemma WriteFile_ok p d u w w' : WriteFile p d w = (Ok u, w') -> w_files w' = <[p := d]> (w_files w).
Proof. unfold WriteFile, fs_op. destruct (fault _ _) as [[]|]; intros [=]; by subst. Qed.

Lemma Remove_ok p u w w' : Remove p w = (Ok u, w') -> w_files w' = delete p (w_files w).
Proof.
  unfold Remove, fs_op. destruct (fault _ _) as [[]|]; [done|].
  destruct (w_files w !! p); intros [=]; by subst.
Qed.

(** Removing a list of files. *)
Lemma Remove_all_ok ps u w w' :
  for_each_io Remove ps w = (Ok u, w') ->
  forall p, w_files w' !! p = if decide (p ∈ ps) then None else w_files w !! p.
Proof.
  revert w. induction ps as [|q ps IH]; intros w Hr p; simpl in Hr.
  - apply io_ret_ok in Hr as [_ ->]. by rewrite decide_False by apply not_elem_of_nil.
  - inv_io. rewrite (IH _ H1 p). apply Remove_ok in H0. rewrite H0.
    destruct (decide (p ∈ ps)); [rewrite decide_True by (by right); done|].
    destruct (decide (p = q)) as [->|].
    + rewrite lookup_delete_eq. by rewrite decide_True by left.
    + rewrite lookup_delete_ne by done. rewrite decide_False; [done|]. by intros [->|?]%elem_of_cons.
Qed.

(** Writing a list of files: the last content written to a path stays. *)
Lemma Write_all_ok fs u w w' :
  for_each_io (fun pd => WriteFile (fst pd) (snd pd)) fs w = (Ok u, w') ->
  w_files w' = foldl (fun f pd => <[fst pd := snd pd]> f) (w_files w) fs.
Proof.
  revert w. induction fs as [|[p d] fs IH]; intros w Hr; simpl in Hr.
  - apply io_ret_ok in Hr as [_ ->]. done.
  - inv_io. simpl. rewrite (IH _ H1). apply WriteFile_ok in H0. by rewrite H0.
Qed.
End host_lemmas.

(** Loops over a mapped list, and over a concatenation. *)
Lemma for_each_io_map {A B} (g : A -> B) (f : B -> io unit) l w :
  for_each_io f (map g l) w = for_each_io (fun x => f (g x)) l w.
Proof.
  revert w. induction l as [|x l IH]; intros w; [done|]. simpl. unfold mbind, io_bind.
  destruct (f (g x) w) as [[] w']; [apply IH|done|done].
Qed.

Lemma for_each_io_cons {A} (f : A -> io unit) x l : for_each_io f (x :: l) = f x ≫= fun _ => for_each_io f l.
Proof. done. Qed.

Lemma for_each_io_app_ok {A} (f : A -> io unit) l1 l2 u w w' :
  for_each_io f (l1 ++ l2) w = (Ok u, w') <->
  exists w1, for_each_io f l1 w = (Ok tt, w1) /\ for_each_io f l2 w1 = (Ok u, w').
Proof.
  revert w. induction l1 as [|x l1 IH]; intros w; simpl.
  - split; [intros H; by exists w|]. intros (w1 & [_ ->]%io_ret_ok & H). done.
  - rewrite io_bind_ok. setoid_rewrite io_bind_ok. setoid_rewrite IH. naive_solver.
Qed.

(** What the trace holds of one kind of event, in order. *)
Definition seen {B} (p : event -> option B) (w : world) : list B := omap p (rev (w_trace w)).
Definition exec_of (e : event) : option (list string) := match e with EvExec argv => Some argv | _ => None end.
Definition hook_of (e : event) : option string := match e with EvWebhook h => Some h | _ => None end.

(** A loop of commands runs them in order: what was run is a prefix, the whole
    list when it succeeds. *)
Definition execs (w : world) : list (list string) := seen exec_of w.

Lemma Exec_execs `{Host} argv w : execs (snd (Exec argv w)) = execs w ++ [argv].
Proof. unfold Exec. destruct (exec w argv) as [f r]. unfold execs, seen. simpl. by rewrite omap_app. Qed.

Definition run_command `{Host} (argv : list string) : io unit := _ ← Exec argv; mret tt.

Lemma run_command_spec `{Host} argv w :
  execs (snd (run_command argv w)) = execs w ++ [argv].
Proof.
  pose proof (Exec_execs argv w) as Hex. unfold run_command, mbind, io_bind.
  destruct (Exec argv w) as [[o|e|] w1]; exact Hex.
Qed.

Lemma run_all_execs `{Host} cmds w :
  exists l1 l2, cmds = l1 ++ l2 /\
    execs (snd (for_each_io run_command cmds w)) = execs w ++ l1 /\
    (fst (for_each_io run_command cmds w) = Ok tt -> l2 = []).
Proof.
  revert w. induction cmds as [|argv cmds IH]; intros w.
  { exists [], []. split_and!; [done|by rewrite (app_nil_r (execs w))|done]. }
  pose proof (run_command_spec argv w) as Hex. rewrite for_each_io_cons. unfold mbind, io_bind.
  destruct (run_command argv w) as [[o|e|] w1]; cbn [snd] in Hex.
  - destruct (IH w1) as (l1 & l2 & -> & He & Hl). exists (argv :: l1), l2. split; [done|]. split; [|done].
    by rewrite He, Hex, <- app_assoc.
  - exists [argv], cmds. split_and!; [done|exact Hex|discriminate].
  - exists [argv], cmds. split_and!; [done|exact Hex|discriminate].
Qed.

(** ** Sequences of writes as a map union *)

Definition written (fs : list (string * string)) : gmap string string := list_to_map (reverse fs).

Lemma foldl_insert_union (fs : list (string * string)) (f : gmap string string) :
  foldl (fun f pd => <[fst pd := snd pd]> f) f fs = written fs ∪ f.
Proof.
  unfold written. revert f. induction fs as [|[p d] fs IH]; intros f; [by rewrite reverse_nil, list_to_map_nil, (left_id_L ∅ (∪))|].
  simpl. rewrite IH, reverse_cons, list_to_map_app. rewrite <- (assoc_L (∪)). f_equal.
  simpl. by rewrite insert_empty, <- insert_union_singleton_l.
Qed.

Lemma written_map_to_list (m : gmap string string) : written (map_to_list m) = m.
Proof.
  unfold written. rewrite <- (list_to_map_to_list m) at 2. apply list_to_map_proper.
  - rewrite reverse_Permutation. apply NoDup_fst_map_to_list.
  - apply reverse_Permutation.
Qed.

(** Removing what a glob found. *)
Definition outside (dir suffix : string) (f : gmap string string) : gmap string string :=
  filter (fun kv => glob_match dir suffix (fst kv) = false) f.

Lemma outside_lookup dir suffix f p :
  outside dir suffix f !! p = if glob_match dir suffix p then None else f !! p.
Proof.
  unfold outside. destruct (glob_match dir suffix p) eqn:E.
  - apply map_lookup_filter_None_2. right. intros x _. simpl. congruence.
  - destruct (f !! p) as [x|] eqn:Hf.
    + by apply map_lookup_filter_Some_2.
    + apply map_lookup_filter_None_2. by left.
Qed.

(** ** Operations that do not touch the saved profiles *)

Definition keeps_originals {A} (m : io A) : Prop := forall w, w_originals (snd (m w)) = w_originals w.

Create HintDb originals.
Lemma keeps_ret {A} (a : A) : keeps_originals (mret a).
Proof. done. Qed.
Lemma keeps_lift {A} (r : result A) : keeps_originals (lift r).
Proof. done. Qed.
Lemma keeps_Glob d s : keeps_originals (Glob d s).
Proof. done. Qed.
Lemma keeps_bind {A B} (m : io A) (f : A -> io B) :
  keeps_originals m -> (forall a, keeps_originals (f a)) -> keeps_originals (m ≫= f).
Proof.
  intros Hm Hf w. specialize (Hm w). unfold mbind, io_bind.
  destruct (m w) as [[a|e|] w1]; [|done|done]. rewrite Hf. done.
Qed.
Lemma keeps_for_each {A} (f : A -> io unit) l : (forall x, keeps_originals (f x)) -> keeps_originals (for_each_io f l).
Proof. intros Hf. induction l; [apply keeps_ret|]. rewrite for_each_io_cons. by apply keeps_bind. Qed.
Lemma keeps_fs_op `{Host} {A} e (eff : gmap string string -> result A * gmap string string) :
  keeps_originals (fs_op e eff).
Proof.
  intros w. unfold fs_op. destruct (fault w e) as [[]|]; [done|]. by destruct (eff (w_files w)).
Qed.
Lemma keeps_Exec `{Host} argv : keeps_originals (Exec argv).
Proof. intros w. unfold Exec. by destruct (exec w argv). Qed.
#[export] Hint Resolve keeps_ret keeps_lift keeps_Glob keeps_bind keeps_for_each keeps_fs_op keeps_Exec : originals.

Lemma wipe_ok `{Host} dir suffix u w w' :
  (paths ← Glob dir suffix; for_each_io Remove paths) w = (Ok u, w') ->
  w_files w' = outside dir suffix (w_files w).
Proof.
  intros (paths & w1 & [= <- <-] & Hr)%io_bind_ok. apply map_eq. intros p.
  rewrite outside_lookup, (Remove_all_ok _ _ _ _ Hr p).
  pose proof (glob_elem dir suffix (w_files w) p) as Hg.
  destruct (decide _) as [Hin|Hin]; destruct (glob_match _ _ _) eqn:Em; try done.
  - apply Hg in Hin as [_ ?]. congruence.
  - destruct (w_files w !! p) eqn:Hf; [|done]. exfalso. apply Hin, Hg. by split.
Qed.

(** ** Operations without events of a kind

    [quiet p m]: running [m] adds nothing to what [p] sees. *)
Definition quiet {B} (p : event -> option B) {A} (m : io A) : Prop := forall w, seen p (snd (m w)) = seen p w.

(** A kind of event that no file operation belongs to. *)
Class NoFiles {B} (p : event -> option B) : Prop := {
  no_mkdir d : p (EvMkdirAll d) = None;
  no_write f d : p (EvWrite f d) = None;
  no_remove f : p (EvRemove f) = None;
  no_read f : p (EvRead f) = None
}.
#[export] Instance exec_of_no_files : NoFiles exec_of.
Proof. by split. Qed.
#[export] Instance hook_of_no_files : NoFiles hook_of.
Proof. by split. Qed.

Lemma seen_log {B} (p : event -> option B) e w : seen p (log_event e w) = seen p w ++ match p e with Some b => [b] | None => [] end.
Proof. unfold seen. simpl. rewrite omap_app. simpl. by destruct (p e). Qed.

Section quiet.
Context {B : Type} (p : event -> option B).

Lemma quiet_ret {A} (a : A) : quiet p (mret a).
Proof. done. Qed.
Lemma quiet_lift {A} (r : result A) : quiet p (lift r).
Proof. done. Qed.
Lemma quiet_get : quiet p get_world.
Proof. done. Qed.
Lemma quiet_Glob d s : quiet p (Glob d s).
Proof. done. Qed.
Lemma quiet_bind {A C} (m : io A) (f : A -> io C) : quiet p m -> (forall a, quiet p (f a)) -> quiet p (m ≫= f).
Proof.
  intros Hm Hf w. specialize (Hm w). unfold mbind, io_bind.
  destruct (m w) as [[a|e|] w1]; [|done|done]. by rewrite Hf.
Qed.
Lemma quiet_try {A} (m : io A) : quiet p m -> quiet p (try m).
Proof. intros Hm w. specialize (Hm w). unfold try. by destruct (m w) as [[] w1]. Qed.
Lemma quiet_for_each {A} (f : A -> io unit) l : (forall x, quiet p (f x)) -> quiet p (for_each_io f l).
Proof. intros Hf. induction l; [apply quiet_ret|]. rewrite for_each_io_cons. by apply quiet_bind. Qed.
Lemma quiet_fs_op `{Host} {A} e (eff : gmap string string -> result A * gmap string string) :
  p e = None -> quiet p (fs_op e eff).
Proof.
  intros He w. unfold fs_op. destruct (fault w e) as [[err f]|]; [|destruct (eff (w_files w)) as [r f]];
    cbn [snd]; rewrite seen_log, He, app_nil_r; done.
Qed.
Lemma quiet_Exec `{Host} argv : p (EvExec argv) = None -> quiet p (Exec argv).
Proof. intros He w. unfold Exec. destruct (exec w argv) as [f r]. cbn [snd]. by rewrite seen_log, He, app_nil_r. Qed.
Lemma quiet_run_command `{Host} argv : p (EvExec argv) = None -> quiet p (run_command argv).
Proof. intros He. apply quiet_bind; [by apply quiet_Exec|]. intros a. apply quiet_ret. Qed.

Context `{!NoFiles p}.
Lemma quiet_WriteFile `{Host} f d : quiet p (WriteFile f d).
Proof. apply quiet_fs_op, no_write. Qed.
Lemma quiet_ReadFile `{Host} f : quiet p (ReadFile f).
Proof. apply quiet_fs_op, no_read. Qed.
Lemma quiet_Remove `{Host} f : quiet p (Remove f).
Proof. apply quiet_fs_op, no_remove. Qed.
Lemma quiet_MkdirAll `{Host} d : quiet p (MkdirAll d).
Proof. apply quiet_fs_op, no_mkdir. Qed.

(** Running commands in sequence: what a quiet step before or after leaves. *)
Lemma seen_bind_quiet {A C} (m : io A) (f : A -> io C) w :
  quiet p m -> seen p (snd ((m ≫= f) w)) =
    match m w with (Ok a, w1) => seen p (snd (f a w1)) | _ => seen p w end.
Proof. intros Hm. specialize (Hm w). unfold mbind, io_bind. by destruct (m w) as [[] w1]. Qed.

Lemma quiet_ok {A} (m : io A) w a w1 : quiet p m -> m w = (Ok a, w1) -> seen p w1 = seen p w.
Proof. intros Hm E. specialize (Hm w). by rewrite E in Hm. Qed.
End quiet.

Lemma execs_ok {A} (m : io A) w a w1 : quiet exec_of m -> m w = (Ok a, w1) -> execs w1 = execs w.
Proof. apply quiet_ok. Qed.
Lemma quiet_execs {A} (m : io A) w : quiet exec_of m -> execs (snd (m w)) = execs w.
Proof. intros Hm. apply Hm. Qed.

(** *** What a program adds to what [p] sees, with its result

    [emits p P m]: [m] adds some list [l] with [P (result of m) l]. *)
Definition emits {B} (p : event -> option B) {A} (P : result A -> list B -> Prop) (m : io A) : Prop :=
  forall w, exists l, seen p (snd (m w)) = seen p w ++ l /\ P (fst (m w)) l.

Lemma emits_bind_quiet {B} (p : event -> option B) {A C} (P : result C -> list B -> Prop) (m : io A) (f : A -> io C) :
  quiet p m -> (forall a, emits p P (f a)) -> (forall e, P (Err e) []) -> P Panic [] -> emits p P (m ≫= f).
Proof.
  intros Hm Hf He Hp w. specialize (Hm w). unfold mbind, io_bind.
  destruct (m w) as [[a|e|] w1]; cbn [snd fst] in *.
  - destruct (Hf a w1) as (l & Hl & HP). exists l. by rewrite Hl, Hm.
  - exists []. by rewrite app_nil_r.
  - exists []. by rewrite app_nil_r.
Qed.

Lemma emits_quiet {B} (p : event -> option B) {A} (P : result A -> list B -> Prop) (m : io A) :
  quiet p m -> (forall r, P r []) -> emits p P m.
Proof. intros Hm HP w. exists []. rewrite app_nil_r. split; [apply Hm|apply HP]. Qed.

(** Follow the structure of a program down to its operations. *)
Ltac quiet_io := repeat first
  [ apply quiet_ret | apply quiet_lift | apply quiet_get | apply quiet_Glob | apply quiet_WriteFile
  | apply quiet_ReadFile | apply quiet_Remove | apply quiet_MkdirAll
  | apply quiet_try | (apply quiet_bind; [|intros]) | (apply quiet_for_each; intros)
  | (apply quiet_fs_op; reflexivity) | (apply quiet_run_command; reflexivity) | (apply quiet_Exec; reflexivity)
  | match goal with |- NoFiles _ => exact _ end
  | progress cbv beta zeta
  | match goal with |- quiet _ (if ?b then _ else _) => destruct b end ].
