(* ===== verification/GoAny.v ===== *)
(** * GoAny: dynamic values ([interface{}], [map[string]interface{}]) and the
    vendored helpers [values.GetValue], [values.PutValue] and [convert] of
    rancher/mapper

    A map is an association list with at most one entry per key; the order of
    the entries stands for the order in which an iteration visits them.
    Updates happen in place in Go; no map has two parents here, so replacing
    the nested value is the same.  Floating-point values are left out. *)
From Stdlib Require Import ZArith Lia Ascii String.
From stdpp Require Import base tactics list strings sorting.
From S2P Require Import Prelude GoStrings World.
Local Open Scope Z_scope.

Inductive any : Set :=
| ANil
| AStr (s : string)
| AStrs (l : list string)                (* []string *)
| ABool (b : bool)
| AInt (z : Z)                           (* int, int64, uint64 *)
| AList (l : list any)                   (* []interface{} *)
| AMap (m : list (string * any)).        (* map[string]interface{} *)
Notation anymap := (list (string * any)).

(** ** Maps *)

Fixpoint alookup {V} (k : string) (m : list (string * V)) : option V :=
  match m with [] => None | (k', v) :: m' => if bool_decide (k = k') then Some v else alookup k m' end.
Fixpoint ainsert {V} (k : string) (v : V) (m : list (string * V)) : list (string * V) :=
  match m with
  | [] => [(k, v)]
  | (k', v') :: m' => if bool_decide (k = k') then (k, v) :: m' else (k', v') :: ainsert k v m'
  end.
Definition adelete {V} (k : string) (m : list (string * V)) : list (string * V) :=
  filter (fun kv => fst kv <> k) m.

Definition as_map (v : option any) : anymap := match v with Some (AMap m) => m | _ => [] end.

Fixpoint GetValue (data : anymap) (keys : list string) : option any :=
  match keys with
  | [] => None
  | [key] => alookup key data
  | key :: keys' => GetValue (as_map (alookup key data)) keys'
  end.

(** An intermediate value that is not a map stops the walk: nothing is stored. *)
Fixpoint PutValue (data : anymap) (v : any) (keys : list string) : anymap :=
  match keys with
  | [] => data
  | [key] => ainsert key v data
  | key :: keys' =>
      match alookup key data with
      | Some (AMap m) => ainsert key (AMap (PutValue m v keys')) data
      | Some _ => data
      | None => ainsert key (AMap (PutValue [] v keys')) data
      end
  end.

(** The walk of [PutValue] reaches the last key. *)
Fixpoint open_path (data : anymap) (keys : list string) : bool :=
  match keys with
  | [] => false
  | [_] => true
  | key :: keys' =>
      match alookup key data with
      | Some (AMap m) => open_path m keys'
      | Some _ => false
      | None => true
      end
  end.

(** ** Printing with [%v] *)

Definition entry_any_le (a b : string * string) : Prop := string_le (fst a) (fst b).
#[export] Instance entry_any_le_dec : RelDecision entry_any_le := fun a b => decide (string_le (fst a) (fst b)).

Fixpoint Sprint (v : any) : string :=
  match v with
  | ANil => "<nil>"
  | AStr s => s
  | AStrs l => "[" +:+ join " " l +:+ "]"
  | ABool b => if b then "true" else "false"
  | AInt z => itoa z
  | AList l => "[" +:+ join " " (map Sprint l) +:+ "]"
  | AMap m =>
      "map[" +:+ join " " (map (fun kv => fst kv +:+ ":" +:+ snd kv)
        (merge_sort entry_any_le (map (fun kv => (fst kv, Sprint (snd kv))) m))) +:+ "]"
  end.

(** ** [convert] *)

Definition Singular (v : any) : any :=
  match v with
  | AStrs [] | AList [] => ANil
  | AStrs (s :: _) => AStr s
  | AList (x :: _) => x
  | _ => v
  end.

Definition ToStringNoTrim (v : any) : string :=
  match Singular v with ANil => "" | s => Sprint s end.
Definition ToString (v : any) : string := trim_space (ToStringNoTrim v).

Definition ToBool (v : any) : bool :=
  match Singular v with
  | ABool b => b
  | v => bool_decide (to_lower (ToString v) ∈ ["true"; "t"; "yes"; "y"])
  end.

Definition ToNumber (v : any) : result Z :=
  match Singular v with
  | AInt z => Ok z
  | v => parse_int64 (ToString v)
  end.

Definition ToStringSlice (v : any) : list string :=
  match v with AStrs l => l | AList l => map ToString l | _ => [] end.

(** [ToYAMLKey]: camel case to snake case. *)
Fixpoint yaml_key (cap : bool) (s : string) : string :=
  match s with
  | "" => ""
  | String c s' =>
      if is_upper c then
        if cap then String (lower_char c) (yaml_key cap s')
        else String "_" (String (lower_char c) (yaml_key cap s'))
      else String c (yaml_key false s')
  end.
Definition ToYAMLKey (s : string) : string :=
  match s with "" => "" | String c s' => String (lower_char c) (yaml_key (is_upper c) s') end.

(** ** Lemmas *)

Lemma alookup_ainsert {V} k (v : V) m k' :
  alookup k' (ainsert k v m) = if bool_decide (k' = k) then Some v else alookup k' m.
Proof.
  induction m as [|[k0 v0] m IH]; simpl; [done|].
  destruct (bool_decide (k = k0)) eqn:E; simpl.
  - apply bool_decide_eq_true in E as ->. by destruct (bool_decide (k' = k0)).
  - apply bool_decide_eq_false in E. rewrite IH. repeat case_bool_decide; congruence.
Qed.

(** Reading back what was stored. *)
Lemma GetValue_PutValue data v keys :
  open_path data keys = true -> GetValue (PutValue data v keys) keys = Some v.
Proof.
  revert data. induction keys as [|k keys IH]; intros data; [done|]. destruct keys as [|k' keys].
  - intros _. simpl. by rewrite alookup_ainsert, bool_decide_true.
  - intros H. cbn [open_path] in H. cbn [PutValue]. change (GetValue ?d (k :: k' :: keys)) with
      (GetValue (as_map (alookup k d)) (k' :: keys)).
    destruct (alookup k data) as [[| | | | | |m]|] eqn:Hk; try done;
      rewrite alookup_ainsert, bool_decide_true by done; cbn [as_map]; apply IH; [done|].
    by destruct keys.
Qed.

(** A value that is not under the stored path, and of which the stored path is
    not a prefix, is unchanged. *)
Lemma GetValue_PutValue_other data v keys keys' :
  ~ keys `prefix_of` keys' -> ~ keys' `prefix_of` keys ->
  GetValue (PutValue data v keys) keys' = GetValue data keys'.
Proof.
  revert data keys'. induction keys as [|k keys IH]; intros data keys' Hp Hp'; [by exfalso; apply Hp, prefix_nil|].
  destruct keys' as [|k' keys']; [by exfalso; apply Hp', prefix_nil|].
  destruct (decide (k' = k)) as [->|Hk].
  - assert (Hq : ~ keys `prefix_of` keys') by (intros ?; by apply Hp, prefix_cons).
    assert (Hq' : ~ keys' `prefix_of` keys) by (intros ?; by apply Hp', prefix_cons).
    destruct keys as [|k1 keys]; [by exfalso; apply Hq, prefix_nil|].
    destruct keys' as [|k1' keys']; [by exfalso; apply Hq', prefix_nil|].
    change (GetValue ?d (k :: k1' :: keys')) with (GetValue (as_map (alookup k d)) (k1' :: keys')).
    change (PutValue data v (k :: k1 :: keys)) with
      (match alookup k data with
       | Some (AMap m) => ainsert k (AMap (PutValue m v (k1 :: keys))) data
       | Some _ => data
       | None => ainsert k (AMap (PutValue [] v (k1 :: keys))) data
       end).
    destruct (alookup k data) as [[| | | | | |m]|] eqn:Hk; rewrite ?Hk; try done;
      rewrite alookup_ainsert, bool_decide_true by done; cbn [as_map]; by apply IH.
  - assert (Hl : forall x, alookup k' (ainsert k x data) = alookup k' data).
    { intros x. by rewrite alookup_ainsert, bool_decide_false. }
    assert (Hl' : alookup k' (PutValue data v (k :: keys)) = alookup k' data).
    { destruct keys; cbn [PutValue]; [apply Hl|]. destruct (alookup k data) as [[]|]; rewrite ?Hl; done. }
    destruct keys' as [|k1' keys']; [exact Hl'|].
    change (GetValue ?d (k' :: k1' :: keys')) with (GetValue (as_map (alookup k' d)) (k1' :: keys')).
    by rewrite Hl'.
Qed.

Lemma open_path_cons data k k1 keys :
  open_path data (k :: k1 :: keys) =
    match alookup k data with Some (AMap m) => open_path m (k1 :: keys) | Some _ => false | None => true end.
Proof. done. Qed.

(** Storing a value keeps open every path it is not a strict prefix of. *)
Lemma open_path_PutValue data v keys keys' :
  open_path data keys' = true -> (keys `prefix_of` keys' -> keys' = keys) ->
  open_path (PutValue data v keys) keys' = true.
Proof.
  revert data keys'. induction keys as [|k keys IH]; intros data keys' Ho Hp; [done|].
  destruct keys' as [|k' keys']; [done|]. destruct keys' as [|k1' keys']; [done|].
  rewrite open_path_cons in Ho |- *. destruct (decide (k' = k)) as [->|Hk].
  - destruct keys as [|k1 keys].
    { exfalso. discriminate (Hp ltac:(by apply prefix_cons, prefix_nil)). }
    assert (Hq : k1 :: keys `prefix_of` k1' :: keys' -> k1' :: keys' = k1 :: keys).
    { intros H%(prefix_cons k). apply Hp in H. congruence. }
    change (PutValue data v (k :: k1 :: keys)) with
      (match alookup k data with
       | Some (AMap m) => ainsert k (AMap (PutValue m v (k1 :: keys))) data
       | Some _ => data
       | None => ainsert k (AMap (PutValue [] v (k1 :: keys))) data
       end).
    destruct (alookup k data) as [[| | | | | |m]|] eqn:E; try done;
      rewrite alookup_ainsert, bool_decide_true by done; apply IH; try done.
    by destruct keys'.
  - assert (Hl : alookup k' (PutValue data v (k :: keys)) = alookup k' data).
    { assert (forall x, alookup k' (ainsert k x data) = alookup k' data) as Hl.
      { intros x. by rewrite alookup_ainsert, bool_decide_false. }
      destruct keys; cbn [PutValue]; [apply Hl|]. destruct (alookup k data) as [[]|]; rewrite ?Hl; done. }
    by rewrite Hl.
Qed.

Lemma GetValue_nil keys : GetValue [] keys = None.
Proof. induction keys as [|k keys IH]; [done|]. destruct keys; [done|]. apply IH. Qed.
