(* ===== verification/Config.v ===== *)
(** * Config: the configuration records ([pkg/config/config.go],
    [pkg/config/constants.go], [pkg/config/cos.go])

    A field [F] of the Go struct [T] is the projection [t_F] with a prefix per
    struct ([nw_] for [Network], [in_] for [Install], [os_] for [OS], [hc_] for
    [HarvesterConfig]).  A Go map is [option (gmap string _)], [None] for the
    nil map; a slice is a list (the code never tells a nil slice from an empty
    one); a pointer is an [option].  Fields of the embedded structs [OS] and
    [Install] are reached through [hc_OS] and [hc_Install]. *)
From Stdlib Require Import ZArith Lia Ascii String.
From stdpp Require Import base tactics list gmap strings.
From S2P Require Import Prelude GoStrings GoJson GoNum.
Local Open Scope Z_scope.

Notation strmap := (option (gmap string string)).

(** ** Constants *)

Definition ModeCreate : string := "create".
Definition ModeJoin : string := "join".
Definition ModeUpgrade : string := "upgrade".
Definition ModeInstall : string := "install".
Definition RoleDefault : string := "default".
Definition RoleWitness : string := "witness".
Definition RoleMgmt : string := "management".
Definition RoleWorker : string := "worker".
Definition NetworkMethodDHCP : string := "dhcp".
Definition NetworkMethodStatic : string := "static".
Definition NetworkMethodNone : string := "none".
Definition MgmtInterfaceName : string := "mgmt-br".
Definition MgmtBondInterfaceName : string := "mgmt-bo".
Definition BondModeBalanceRR : string := "balance-rr".
Definition BondModeActiveBackup : string := "active-backup".
Definition BondModeBalnaceXOR : string := "balance-xor".
Definition BondModeBroadcast : string := "broadcast".
Definition BondModeIEEE802_3ad : string := "802.3ad".
Definition BondModeBalanceTLB : string := "balance-tlb".
Definition BondModeBalanceALB : string := "balance-alb".
Definition SchemeVersion : Z := 1.
Definition SanitizeMask : string := "***".
Definition MaxPods : Z := 200.

Definition GetSystemSettingsAllowList : list string :=
  ["additional-ca"; "api-ui-version"; "cluster-registration-url"; "server-version"; "ui-index";
   "ui-path"; "ui-source"; "ui-plugin-index"; "volume-snapshot-class"; "backup-target";
   "upgradable-versions"; "upgrade-checker-enabled"; "upgrade-checker-url"; "release-download-url";
   "log-level"; "ssl-certificates"; "ssl-parameters"; "support-bundle-image";
   "support-bundle-namespaces"; "support-bundle-timeout"; "support-bundle-expiration";
   "support-bundle-node-collection-timeout"; "default-storage-class"; "http-proxy";
   "vm-force-reset-policy"; "overcommit-config"; "vip-pools"; "auto-disk-provision-paths";
   "csi-driver-config"; "containerd-registry"; "storage-network";
   "default-vm-termination-grace-period-seconds"; "auto-rotate-rke2-certs";
   "kubeconfig-default-token-ttl-minutes"; "harvester-csi-ccm-versions"; "ntp-servers"].

(** ** Data *)

Record NetworkInterface : Set := mkInterface { if_Name : string; if_HwAddr : string }.

Record Network : Set := mkNetwork {
  nw_Interfaces : list NetworkInterface;
  nw_Method : string;
  nw_IP : string;
  nw_SubnetMask : string;
  nw_Gateway : string;
  nw_DefaultRoute : bool;
  nw_BondOptions : strmap;
  nw_MTU : Z;
  nw_VlanID : Z
}.

Record HTTPBasicAuth : Set := mkBasicAuth { ba_User : string; ba_Password : string }.

Record Webhook : Set := mkWebhook {
  wh_Event : string;
  wh_Method : string;
  wh_Headers : option (gmap string (list string));
  wh_URL : string;
  wh_Payload : string;
  wh_Insecure : bool;
  wh_BasicAuth : HTTPBasicAuth
}.

Record Addon : Set := mkAddon { ad_Enabled : bool; ad_ValuesContent : string }.

(** Pointers to [uint32]. *)
Record LHDefaultSettings : Set := mkLH {
  lh_EngineManagerCPU : option Z;
  lh_ReplicaManagerCPU : option Z;
  lh_InstanceManagerCPU : option Z;
  lh_StorageReserved : option Z
}.

Record HarvesterChartValues : Set := mkChart {
  ch_ReplicaCount : Z;               (* StorageClass.ReplicaCount *)
  ch_Longhorn : LHDefaultSettings;   (* Longhorn.DefaultSettings *)
  ch_EnableGoCoverDir : bool
}.

Record Install : Set := mkInstall {
  in_Automatic : bool;
  in_SkipChecks : bool;
  in_Mode : string;
  in_ManagementInterface : Network;
  in_Vip : string;
  in_VipHwAddr : string;
  in_VipMode : string;
  in_ClusterDNS : string;
  in_ClusterPodCIDR : string;
  in_ClusterServiceCIDR : string;
  in_ForceEFI : bool;
  in_Device : string;
  in_ConfigURL : string;
  in_Silent : bool;
  in_ISOURL : string;
  in_PowerOff : bool;
  in_NoFormat : bool;
  in_Debug : bool;
  in_TTY : string;
  in_ForceGPT : bool;
  in_Role : string;
  in_WithNetImages : bool;
  in_WipeAllDisks : bool;
  in_WipeDisksList : list string;
  in_ForceMBR : bool;
  in_DataDisk : string;
  in_Webhooks : list Webhook;
  in_Addons : option (gmap string Addon);
  in_Harvester : HarvesterChartValues;
  in_RawDiskImagePath : string;
  in_PersistentPartitionSize : string
}.

Record File : Set := mkFile {
  fi_Encoding : string;
  fi_Content : string;
  fi_Owner : string;
  fi_Path : string;
  fi_RawFilePermissions : string
}.

Record DiskConfig : Set := mkDiskConfig { dc_Vendor : string; dc_Product : string }.

Record MultiPathOption2 : Set := mkMultiPath {
  mp_Blacklist : list DiskConfig;
  mp_BlacklistWwids : list string;
  mp_BlacklistExceptions : list DiskConfig;
  mp_BlacklistExceptionWwids : list string
}.

(** The dynamic types the field [MultiPathConfig interface{}] takes: unset, the
    two parsed options, and a value not parsed yet. *)
Inductive MultiPathConfig : Set :=
| MPNil
| MPOption1 (l : list DiskConfig)
| MPOption2 (m : MultiPathOption2)
| MPRaw (j : json).

Record ExternalStorageConfig : Set := mkStorage { es_Enabled : bool; es_MultiPathConfig : MultiPathConfig }.

Record OS : Set := mkOS {
  os_AfterInstallChrootCommands : list string;
  os_SSHAuthorizedKeys : list string;
  os_WriteFiles : list File;
  os_Hostname : string;
  os_Modules : list string;
  os_Sysctls : strmap;
  os_NTPServers : list string;
  os_DNSNameservers : list string;
  os_Password : string;
  os_Environment : strmap;
  os_Labels : strmap;
  os_SFTP : bool;                    (* SSHD.SFTP *)
  os_PersistentStatePaths : list string;
  os_ExternalStorage : ExternalStorageConfig;
  os_AdditionalKernelArguments : string
}.

Record HarvesterConfig : Set := mkConfig {
  hc_SchemeVersion : Z;
  hc_ServerURL : string;
  hc_Token : string;
  hc_SANS : list string;
  hc_OS : OS;
  hc_Install : Install;
  hc_RuntimeVersion : string;
  hc_RancherVersion : string;
  hc_HarvesterChartVersion : string;
  hc_MonitoringChartVersion : string;
  hc_SystemSettings : strmap;
  hc_LoggingChartVersion : string;
  hc_KubeovnOperatorChartVersion : string
}.

(** ** Zero values *)

Definition zero_NetworkInterface : NetworkInterface :=
  mkInterface "" "".
Definition zero_Network : Network :=
  mkNetwork [] "" "" "" "" false None 0 0.
Definition zero_LHDefaultSettings : LHDefaultSettings :=
  mkLH None None None None.
Definition zero_HarvesterChartValues : HarvesterChartValues :=
  mkChart 0 zero_LHDefaultSettings false.
Definition zero_Install : Install :=
  mkInstall false false "" zero_Network "" "" "" "" "" "" false "" "" false "" false false false "" false "" false false [] false "" [] None zero_HarvesterChartValues "" "".
Definition zero_ExternalStorageConfig : ExternalStorageConfig :=
  mkStorage false MPNil.
Definition zero_OS : OS :=
  mkOS [] [] [] "" [] None [] [] "" None None false [] zero_ExternalStorageConfig "".
Definition zero_HarvesterConfig : HarvesterConfig :=
  mkConfig 0 "" "" [] zero_OS zero_Install "" "" "" "" None "" "".

(** [NewHarvesterConfig]. *)
Definition NewHarvesterConfig : HarvesterConfig := zero_HarvesterConfig.

(** ** Field updates

    [upd e p v] is the record [e], written out field by field, with the
    projection [p] replaced by [v]. *)
Ltac upd e p v :=
  lazymatch eval cbv beta in e with
  | ?body => match eval pattern p in body with ?f _ => let r := eval cbv beta in (f v) in exact r end
  end.

Notation eta_NetworkInterface c := (
    mkInterface (if_Name c) (if_HwAddr c)) (only parsing).
Notation eta_Network c := (
    mkNetwork (nw_Interfaces c) (nw_Method c) (nw_IP c) (nw_SubnetMask c) (nw_Gateway c)
    (nw_DefaultRoute c) (nw_BondOptions c) (nw_MTU c) (nw_VlanID c)) (only parsing).
Notation eta_LHDefaultSettings c := (
    mkLH (lh_EngineManagerCPU c) (lh_ReplicaManagerCPU c) (lh_InstanceManagerCPU c)
    (lh_StorageReserved c)) (only parsing).
Notation eta_HarvesterChartValues c := (
    mkChart (ch_ReplicaCount c) (ch_Longhorn c) (ch_EnableGoCoverDir c)) (only parsing).
Notation eta_Install c := (
    mkInstall (in_Automatic c) (in_SkipChecks c) (in_Mode c) (in_ManagementInterface c) (in_Vip c)
    (in_VipHwAddr c) (in_VipMode c) (in_ClusterDNS c) (in_ClusterPodCIDR c) (in_ClusterServiceCIDR
    c) (in_ForceEFI c) (in_Device c) (in_ConfigURL c) (in_Silent c) (in_ISOURL c) (in_PowerOff c)
    (in_NoFormat c) (in_Debug c) (in_TTY c) (in_ForceGPT c) (in_Role c) (in_WithNetImages c)
    (in_WipeAllDisks c) (in_WipeDisksList c) (in_ForceMBR c) (in_DataDisk c) (in_Webhooks c)
    (in_Addons c) (in_Harvester c) (in_RawDiskImagePath c) (in_PersistentPartitionSize c)) (only parsing).
Notation eta_OS c := (
    mkOS (os_AfterInstallChrootCommands c) (os_SSHAuthorizedKeys c) (os_WriteFiles c) (os_Hostname
    c) (os_Modules c) (os_Sysctls c) (os_NTPServers c) (os_DNSNameservers c) (os_Password c)
    (os_Environment c) (os_Labels c) (os_SFTP c) (os_PersistentStatePaths c) (os_ExternalStorage c)
    (os_AdditionalKernelArguments c)) (only parsing).
Notation eta_HarvesterConfig c := (
    mkConfig (hc_SchemeVersion c) (hc_ServerURL c) (hc_Token c) (hc_SANS c) (hc_OS c) (hc_Install c)
    (hc_RuntimeVersion c) (hc_RancherVersion c) (hc_HarvesterChartVersion c)
    (hc_MonitoringChartVersion c) (hc_SystemSettings c) (hc_LoggingChartVersion c)
    (hc_KubeovnOperatorChartVersion c)) (only parsing).
Definition set_nw_SubnetMask (v : string) (c : Network) : Network := ltac:(upd (eta_Network c) (nw_SubnetMask c) v).
Definition set_nw_DefaultRoute (v : bool) (c : Network) : Network := ltac:(upd (eta_Network c) (nw_DefaultRoute c) v).
Definition set_nw_BondOptions (v : strmap) (c : Network) : Network := ltac:(upd (eta_Network c) (nw_BondOptions c) v).
Definition set_nw_Method (v : string) (c : Network) : Network := ltac:(upd (eta_Network c) (nw_Method c) v).
Definition set_if_Name (v : string) (c : NetworkInterface) : NetworkInterface := ltac:(upd (eta_NetworkInterface c) (if_Name c) v).
Definition set_if_HwAddr (v : string) (c : NetworkInterface) : NetworkInterface := ltac:(upd (eta_NetworkInterface c) (if_HwAddr c) v).
Definition set_in_ConfigURL (v : string) (c : Install) : Install := ltac:(upd (eta_Install c) (in_ConfigURL c) v).
Definition set_in_WipeDisksList (v : list string) (c : Install) : Install := ltac:(upd (eta_Install c) (in_WipeDisksList c) v).
Definition set_in_ManagementInterface (v : Network) (c : Install) : Install := ltac:(upd (eta_Install c) (in_ManagementInterface c) v).
Definition set_in_Harvester (v : HarvesterChartValues) (c : Install) : Install := ltac:(upd (eta_Install c) (in_Harvester c) v).
Definition set_in_Vip (v : string) (c : Install) : Install := ltac:(upd (eta_Install c) (in_Vip c) v).
Definition set_in_VipHwAddr (v : string) (c : Install) : Install := ltac:(upd (eta_Install c) (in_VipHwAddr c) v).
Definition set_in_VipMode (v : string) (c : Install) : Install := ltac:(upd (eta_Install c) (in_VipMode c) v).
Definition set_in_Mode (v : string) (c : Install) : Install := ltac:(upd (eta_Install c) (in_Mode c) v).
Definition set_in_Automatic (v : bool) (c : Install) : Install := ltac:(upd (eta_Install c) (in_Automatic c) v).
Definition set_os_AdditionalKernelArguments (v : string) (c : OS) : OS := ltac:(upd (eta_OS c) (os_AdditionalKernelArguments c) v).
Definition set_os_AfterInstallChrootCommands (v : list string) (c : OS) : OS := ltac:(upd (eta_OS c) (os_AfterInstallChrootCommands c) v).
Definition set_os_Password (v : string) (c : OS) : OS := ltac:(upd (eta_OS c) (os_Password c) v).
Definition set_os_Labels (v : strmap) (c : OS) : OS := ltac:(upd (eta_OS c) (os_Labels c) v).
Definition set_os_Hostname (v : string) (c : OS) : OS := ltac:(upd (eta_OS c) (os_Hostname c) v).
Definition set_os_DNSNameservers (v : list string) (c : OS) : OS := ltac:(upd (eta_OS c) (os_DNSNameservers c) v).
Definition set_hc_Token (v : string) (c : HarvesterConfig) : HarvesterConfig := ltac:(upd (eta_HarvesterConfig c) (hc_Token c) v).
Definition set_hc_OS (v : OS) (c : HarvesterConfig) : HarvesterConfig := ltac:(upd (eta_HarvesterConfig c) (hc_OS c) v).
Definition set_hc_Install (v : Install) (c : HarvesterConfig) : HarvesterConfig := ltac:(upd (eta_HarvesterConfig c) (hc_Install c) v).
Definition set_hc_RuntimeVersion (v : string) (c : HarvesterConfig) : HarvesterConfig := ltac:(upd (eta_HarvesterConfig c) (hc_RuntimeVersion c) v).
Definition set_hc_RancherVersion (v : string) (c : HarvesterConfig) : HarvesterConfig := ltac:(upd (eta_HarvesterConfig c) (hc_RancherVersion c) v).
Definition set_hc_HarvesterChartVersion (v : string) (c : HarvesterConfig) : HarvesterConfig := ltac:(upd (eta_HarvesterConfig c) (hc_HarvesterChartVersion c) v).
Definition set_hc_MonitoringChartVersion (v : string) (c : HarvesterConfig) : HarvesterConfig := ltac:(upd (eta_HarvesterConfig c) (hc_MonitoringChartVersion c) v).
Definition set_hc_LoggingChartVersion (v : string) (c : HarvesterConfig) : HarvesterConfig := ltac:(upd (eta_HarvesterConfig c) (hc_LoggingChartVersion c) v).
Definition set_hc_KubeovnOperatorChartVersion (v : string) (c : HarvesterConfig) : HarvesterConfig := ltac:(upd (eta_HarvesterConfig c) (hc_KubeovnOperatorChartVersion c) v).
Definition set_hc_SystemSettings (v : strmap) (c : HarvesterConfig) : HarvesterConfig := ltac:(upd (eta_HarvesterConfig c) (hc_SystemSettings c) v).
Definition set_hc_SchemeVersion (v : Z) (c : HarvesterConfig) : HarvesterConfig := ltac:(upd (eta_HarvesterConfig c) (hc_SchemeVersion c) v).
Definition set_ch_ReplicaCount (v : Z) (c : HarvesterChartValues) : HarvesterChartValues := ltac:(upd (eta_HarvesterChartValues c) (ch_ReplicaCount c) v).
Definition set_ch_Longhorn (v : LHDefaultSettings) (c : HarvesterChartValues) : HarvesterChartValues := ltac:(upd (eta_HarvesterChartValues c) (ch_Longhorn c) v).
Definition set_lh_EngineManagerCPU (v : option Z) (c : LHDefaultSettings) : LHDefaultSettings := ltac:(upd (eta_LHDefaultSettings c) (lh_EngineManagerCPU c) v).
Definition set_lh_ReplicaManagerCPU (v : option Z) (c : LHDefaultSettings) : LHDefaultSettings := ltac:(upd (eta_LHDefaultSettings c) (lh_ReplicaManagerCPU c) v).
Definition set_lh_InstanceManagerCPU (v : option Z) (c : LHDefaultSettings) : LHDefaultSettings := ltac:(upd (eta_LHDefaultSettings c) (lh_InstanceManagerCPU c) v).
Definition set_lh_StorageReserved (v : option Z) (c : LHDefaultSettings) : LHDefaultSettings := ltac:(upd (eta_LHDefaultSettings c) (lh_StorageReserved c) v).
Definition set_in_Role (v : string) (c : Install) : Install := ltac:(upd (eta_Install c) (in_Role c) v).
Definition set_in_Device (v : string) (c : Install) : Install := ltac:(upd (eta_Install c) (in_Device c) v).
Definition set_in_DataDisk (v : string) (c : Install) : Install := ltac:(upd (eta_Install c) (in_DataDisk c) v).
Definition set_in_PersistentPartitionSize (v : string) (c : Install) : Install := ltac:(upd (eta_Install c) (in_PersistentPartitionSize c) v).
Definition set_in_ForceMBR (v : bool) (c : Install) : Install := ltac:(upd (eta_Install c) (in_ForceMBR c) v).
Definition set_in_ForceGPT (v : bool) (c : Install) : Install := ltac:(upd (eta_Install c) (in_ForceGPT c) v).
Definition set_in_TTY (v : string) (c : Install) : Install := ltac:(upd (eta_Install c) (in_TTY c) v).
Definition set_in_ClusterPodCIDR (v : string) (c : Install) : Install := ltac:(upd (eta_Install c) (in_ClusterPodCIDR c) v).
Definition set_in_ClusterServiceCIDR (v : string) (c : Install) : Install := ltac:(upd (eta_Install c) (in_ClusterServiceCIDR c) v).
Definition set_in_ClusterDNS (v : string) (c : Install) : Install := ltac:(upd (eta_Install c) (in_ClusterDNS c) v).
Definition set_os_NTPServers (v : list string) (c : OS) : OS := ltac:(upd (eta_OS c) (os_NTPServers c) v).
Definition set_os_SSHAuthorizedKeys (v : list string) (c : OS) : OS := ltac:(upd (eta_OS c) (os_SSHAuthorizedKeys c) v).
Definition set_os_Modules (v : list string) (c : OS) : OS := ltac:(upd (eta_OS c) (os_Modules c) v).
Definition set_hc_ServerURL (v : string) (c : HarvesterConfig) : HarvesterConfig := ltac:(upd (eta_HarvesterConfig c) (hc_ServerURL c) v).
Definition set_nw_Interfaces (v : list NetworkInterface) (c : Network) : Network := ltac:(upd (eta_Network c) (nw_Interfaces c) v).
Definition set_nw_IP (v : string) (c : Network) : Network := ltac:(upd (eta_Network c) (nw_IP c) v).
Definition set_nw_Gateway (v : string) (c : Network) : Network := ltac:(upd (eta_Network c) (nw_Gateway c) v).
Definition set_nw_MTU (v : Z) (c : Network) : Network := ltac:(upd (eta_Network c) (nw_MTU c) v).
Definition set_nw_VlanID (v : Z) (c : Network) : Network := ltac:(upd (eta_Network c) (nw_VlanID c) v).
