(* ===== verification/Merge.v ===== *)
(** * Merge: merging configurations ([HarvesterConfig.Merge], [DeepCopy],
    [sanitized] of [pkg/config/config.go])

    [mergo.Merge(dst, src, mergo.WithAppendSlice)] fills the empty fields of
    [dst] from [src], appends slices, and adds to a map the keys that are
    absent or empty in it.  The recursion over the static type of the field is
    the typeclass [Mergo]; for the one field that is an interface,
    [MultiPathConfig], two objects not parsed yet are merged key by key, and
    this is where merging can fail: a list is not appended to a value of another
    type.  [MergeUnit] and [MergeAssoc] state that the zero value is a unit and,
    away from two such objects, that merging is associative. *)
From Stdlib Require Import ZArith Lia Ascii String.
From stdpp Require Import base tactics list gmap strings.
From S2P Require Import Prelude GoStrings GoJson GoAny Config.
Local Open Scope Z_scope.

Class Mergo (A : Type) := mergo : A -> A -> A.
Class Zero (A : Type) := zero : A.
Class MergeUnit (A : Type) `{Mergo A, Zero A} : Prop := {
  merge_zero_l (x : A) : mergo zero x = x;
  merge_zero_r (x : A) : mergo x zero = x
}.
Class MergeAssoc (A : Type) `{Mergo A} : Prop :=
  merge_assoc (x y z : A) : mergo x (mergo y z) = mergo (mergo x y) z.
#[global] Hint Mode Mergo ! : typeclass_instances.
#[global] Hint Mode Zero ! : typeclass_instances.

(** ** Instances by kind of field *)

(** A scalar is set when it is still the zero value. *)
#[export] Instance merge_string : Mergo string := fun d s => if bool_decide (d = "") then s else d.
#[export] Instance merge_Z : Mergo Z := fun d s => if d =? 0 then s else d.
#[export] Instance merge_bool : Mergo bool := orb.
(** Slices are appended. *)
#[export] Instance merge_slice {A} : Mergo (list A) := fun d s => d ++ s.

(** A map value is replaced when it is absent or empty; the nil map of the
    destination is allocated when the source has one.  [empty] is reflection's
    notion of an empty value: [""] for strings, never for structs. *)
Definition merge_value {V} (empty : V -> bool) (d s : option V) : option V :=
  match d, s with
  | None, s => s
  | Some d, Some s => Some (if empty d then s else d)
  | Some d, None => Some d
  end.
Definition merge_map {V} (empty : V -> bool) (d s : option (gmap string V)) : option (gmap string V) :=
  match d, s with
  | d, None => d
  | None, Some s => Some s
  | Some d, Some s => Some (merge (merge_value empty) d s)
  end.

#[export] Instance merge_strmap : Mergo strmap := merge_map (fun v => bool_decide (v = "")).
#[export] Instance merge_addons : Mergo (option (gmap string Addon)) := merge_map (fun _ => false).

(** A nil pointer takes the pointer of the source; otherwise the pointees are
    merged. *)
#[export] Instance merge_ptr : Mergo (option Z) := fun d s =>
  match d, s with
  | d, None => d
  | None, s => s
  | Some d, Some s => Some (mergo d s)
  end.

(** *** Values of an interface type

    [isEmptyValue]: a number is empty when it is zero. *)
Definition num_zero (text : string) : bool :=
  all_chars (fun c => bool_decide (c ∈ ["-"; "0"; "."]%char))
    (fst (span (fun c => negb (bool_decide (c ∈ ["e"; "E"]%char))) text)).
Definition json_empty (j : json) : bool :=
  match j with
  | JNull | JArr [] | JObj [] => true
  | JBool b => negb b
  | JNum t => num_zero t
  | JStr s => bool_decide (s = "")
  | _ => false
  end.

(** Merging the keys of one object into another, in the order of the list (Go
    visits them in any order); the answer [false] is the error of a list that
    meets a value of another type, and then the keys before it were merged. *)
Fixpoint merge_json (dst src : json) {struct src} : json * bool :=
  match dst, src with
  | JObj d, JObj s =>
      let '(d, ok) :=
        (fix keys (d s : list (string * json)) : list (string * json) * bool :=
           match s with
           | [] => (d, true)
           | (k, v) :: s' =>
               let '(d, ok) :=
                 match v, alookup k d with
                 | JNull, _ => (d, true)
                 | _, None => (ainsert k v d, true)
                 | JObj _, Some (JObj w) =>
                     let '(m, ok) := merge_json (JObj w) v in
                     (ainsert k (if ok && json_empty m then v else m) d, ok)
                 | JArr l, Some (JArr l') => (ainsert k (JArr (l' ++ l)) d, true)
                 | JArr _, Some JNull => (ainsert k v d, true)
                 | JArr _, Some _ => (d, false)
                 | _, Some w => (if json_empty w then ainsert k v d else d, true)
                 end in
               if ok then keys d s' else (d, false)
           end) d s in
      (JObj d, ok)
  | _, _ => (dst, true)
  end.

(** An interface that is nil takes the value of the source; a value in an
    interface cannot be set, but an object is updated in place. *)
Definition merge_interface (d s : MultiPathConfig) : MultiPathConfig * bool :=
  match d, s with
  | MPNil, s => (s, true)
  | MPRaw d', MPRaw s' => let '(m, ok) := merge_json d' s' in (MPRaw m, ok)
  | d, _ => (d, true)
  end.
#[export] Instance merge_multipath : Mergo MultiPathConfig := fun d s => fst (merge_interface d s).

(** ** Instances by struct, field by field *)

#[export] Instance merge_Network : Mergo Network := fun d s =>
  mkNetwork (mergo (nw_Interfaces d) (nw_Interfaces s)) (mergo (nw_Method d) (nw_Method s))
    (mergo (nw_IP d) (nw_IP s)) (mergo (nw_SubnetMask d) (nw_SubnetMask s))
    (mergo (nw_Gateway d) (nw_Gateway s)) (mergo (nw_DefaultRoute d) (nw_DefaultRoute s))
    (mergo (nw_BondOptions d) (nw_BondOptions s)) (mergo (nw_MTU d) (nw_MTU s))
    (mergo (nw_VlanID d) (nw_VlanID s)).
#[export] Instance merge_LH : Mergo LHDefaultSettings := fun d s =>
  mkLH (mergo (lh_EngineManagerCPU d) (lh_EngineManagerCPU s))
    (mergo (lh_ReplicaManagerCPU d) (lh_ReplicaManagerCPU s))
    (mergo (lh_InstanceManagerCPU d) (lh_InstanceManagerCPU s))
    (mergo (lh_StorageReserved d) (lh_StorageReserved s)).
#[export] Instance merge_chart : Mergo HarvesterChartValues := fun d s =>
  mkChart (mergo (ch_ReplicaCount d) (ch_ReplicaCount s)) (mergo (ch_Longhorn d) (ch_Longhorn s))
    (mergo (ch_EnableGoCoverDir d) (ch_EnableGoCoverDir s)).
#[export] Instance merge_storage : Mergo ExternalStorageConfig := fun d s =>
  mkStorage (mergo (es_Enabled d) (es_Enabled s))
    (mergo (es_MultiPathConfig d) (es_MultiPathConfig s)).
#[export] Instance merge_Install : Mergo Install := fun d s =>
  mkInstall (mergo (in_Automatic d) (in_Automatic s)) (mergo (in_SkipChecks d) (in_SkipChecks s))
    (mergo (in_Mode d) (in_Mode s)) (mergo (in_ManagementInterface d) (in_ManagementInterface s))
    (mergo (in_Vip d) (in_Vip s)) (mergo (in_VipHwAddr d) (in_VipHwAddr s))
    (mergo (in_VipMode d) (in_VipMode s)) (mergo (in_ClusterDNS d) (in_ClusterDNS s))
    (mergo (in_ClusterPodCIDR d) (in_ClusterPodCIDR s))
    (mergo (in_ClusterServiceCIDR d) (in_ClusterServiceCIDR s))
    (mergo (in_ForceEFI d) (in_ForceEFI s)) (mergo (in_Device d) (in_Device s))
    (mergo (in_ConfigURL d) (in_ConfigURL s)) (mergo (in_Silent d) (in_Silent s))
    (mergo (in_ISOURL d) (in_ISOURL s)) (mergo (in_PowerOff d) (in_PowerOff s))
    (mergo (in_NoFormat d) (in_NoFormat s)) (mergo (in_Debug d) (in_Debug s))
    (mergo (in_TTY d) (in_TTY s)) (mergo (in_ForceGPT d) (in_ForceGPT s))
    (mergo (in_Role d) (in_Role s)) (mergo (in_WithNetImages d) (in_WithNetImages s))
    (mergo (in_WipeAllDisks d) (in_WipeAllDisks s))
    (mergo (in_WipeDisksList d) (in_WipeDisksList s)) (mergo (in_ForceMBR d) (in_ForceMBR s))
    (mergo (in_DataDisk d) (in_DataDisk s)) (mergo (in_Webhooks d) (in_Webhooks s))
    (mergo (in_Addons d) (in_Addons s)) (mergo (in_Harvester d) (in_Harvester s))
    (mergo (in_RawDiskImagePath d) (in_RawDiskImagePath s))
    (mergo (in_PersistentPartitionSize d) (in_PersistentPartitionSize s)).
#[export] Instance merge_OS : Mergo OS := fun d s =>
  mkOS (mergo (os_AfterInstallChrootCommands d) (os_AfterInstallChrootCommands s))
    (mergo (os_SSHAuthorizedKeys d) (os_SSHAuthorizedKeys s))
    (mergo (os_WriteFiles d) (os_WriteFiles s)) (mergo (os_Hostname d) (os_Hostname s))
    (mergo (os_Modules d) (os_Modules s)) (mergo (os_Sysctls d) (os_Sysctls s))
    (mergo (os_NTPServers d) (os_NTPServers s))
    (mergo (os_DNSNameservers d) (os_DNSNameservers s)) (mergo (os_Password d) (os_Password s))
    (mergo (os_Environment d) (os_Environment s)) (mergo (os_Labels d) (os_Labels s))
    (mergo (os_SFTP d) (os_SFTP s))
    (mergo (os_PersistentStatePaths d) (os_PersistentStatePaths s))
    (mergo (os_ExternalStorage d) (os_ExternalStorage s))
    (mergo (os_AdditionalKernelArguments d) (os_AdditionalKernelArguments s)).
#[export] Instance merge_HarvesterConfig : Mergo HarvesterConfig := fun d s =>
  mkConfig (mergo (hc_SchemeVersion d) (hc_SchemeVersion s))
    (mergo (hc_ServerURL d) (hc_ServerURL s)) (mergo (hc_Token d) (hc_Token s))
    (mergo (hc_SANS d) (hc_SANS s)) (mergo (hc_OS d) (hc_OS s))
    (mergo (hc_Install d) (hc_Install s)) (mergo (hc_RuntimeVersion d) (hc_RuntimeVersion s))
    (mergo (hc_RancherVersion d) (hc_RancherVersion s))
    (mergo (hc_HarvesterChartVersion d) (hc_HarvesterChartVersion s))
    (mergo (hc_MonitoringChartVersion d) (hc_MonitoringChartVersion s))
    (mergo (hc_SystemSettings d) (hc_SystemSettings s))
    (mergo (hc_LoggingChartVersion d) (hc_LoggingChartVersion s))
    (mergo (hc_KubeovnOperatorChartVersion d) (hc_KubeovnOperatorChartVersion s)).
#[export] Instance Zero_string : Zero string := "".
#[export] Instance Zero_Z : Zero Z := 0.
#[export] Instance Zero_bool : Zero bool := false.
#[export] Instance Zero_list {A} : Zero (list A) := [].
#[export] Instance Zero_option {A} : Zero (option A) := None.
#[export] Instance Zero_multipath : Zero MultiPathConfig := MPNil.
#[export] Instance Zero_Network : Zero Network := zero_Network.
#[export] Instance Zero_LHDefaultSettings : Zero LHDefaultSettings := zero_LHDefaultSettings.
#[export] Instance Zero_HarvesterChartValues : Zero HarvesterChartValues := zero_HarvesterChartValues.
#[export] Instance Zero_ExternalStorageConfig : Zero ExternalStorageConfig := zero_ExternalStorageConfig.
#[export] Instance Zero_Install : Zero Install := zero_Install.
#[export] Instance Zero_OS : Zero OS := zero_OS.
#[export] Instance Zero_HarvesterConfig : Zero HarvesterConfig := zero_HarvesterConfig.

(** ** Operations (config.go) *)

(** The fields of [OS] in front of the multipath configuration, and the fields
    after it, which an error leaves as they were. *)
Definition merge_until_error (c other : HarvesterConfig) : HarvesterConfig :=
  mkConfig (mergo (hc_SchemeVersion c) (hc_SchemeVersion other)) (mergo (hc_ServerURL c) (hc_ServerURL other))
    (mergo (hc_Token c) (hc_Token other)) (mergo (hc_SANS c) (hc_SANS other))
    (set_os_AdditionalKernelArguments (os_AdditionalKernelArguments (hc_OS c)) (mergo (hc_OS c) (hc_OS other)))
    (hc_Install c) (hc_RuntimeVersion c) (hc_RancherVersion c) (hc_HarvesterChartVersion c)
    (hc_MonitoringChartVersion c) (hc_SystemSettings c) (hc_LoggingChartVersion c)
    (hc_KubeovnOperatorChartVersion c).

Definition multipath_of (c : HarvesterConfig) : MultiPathConfig := es_MultiPathConfig (os_ExternalStorage (hc_OS c)).

(** What [c] becomes, and the error. *)
Definition Merge (c other : HarvesterConfig) : HarvesterConfig * result unit :=
  if snd (merge_interface (multipath_of c) (multipath_of other)) then (mergo c other, Ok tt)
  else (merge_until_error c other, Err (EMsg "cannot append two slices with different type")).

Definition DeepCopy (c : HarvesterConfig) : result HarvesterConfig :=
  let '(newConf, err) := Merge NewHarvesterConfig c in
  _ ← map_err (EWrap "fail to create copy") err;
  mret newConf.

Definition sanitized (c : HarvesterConfig) : result HarvesterConfig :=
  copied ← DeepCopy c;
  let copied :=
    if bool_decide (os_Password (hc_OS copied) <> "")
    then set_hc_OS (set_os_Password SanitizeMask (hc_OS copied)) copied else copied in
  mret (if bool_decide (hc_Token copied <> "") then set_hc_Token SanitizeMask copied else copied).

(** ** Laws *)

Ltac laws_scalar := split; intros *; unfold mergo, zero; cbv [merge_string merge_Z merge_bool merge_slice
  Zero_string Zero_Z Zero_bool Zero_list].
Ltac assoc_scalar := intros x y z; unfold mergo; cbv [merge_string merge_Z merge_bool merge_slice].

#[export] Instance string_unit : MergeUnit string.
Proof. laws_scalar; repeat case_bool_decide; simplify_eq; done. Qed.
#[export] Instance string_assoc : MergeAssoc string.
Proof. assoc_scalar. repeat case_bool_decide; simplify_eq; done. Qed.
#[export] Instance Z_unit : MergeUnit Z.
Proof. laws_scalar; repeat case_match; simplify_eq; lia. Qed.
#[export] Instance Z_assoc : MergeAssoc Z.
Proof. assoc_scalar. repeat case_match; simplify_eq; lia. Qed.
#[export] Instance bool_unit : MergeUnit bool.
Proof. laws_scalar; [done | apply orb_false_r]. Qed.
#[export] Instance bool_assoc : MergeAssoc bool.
Proof. assoc_scalar. apply orb_assoc. Qed.
#[export] Instance slice_unit {A} : MergeUnit (list A).
Proof. laws_scalar; [done | apply app_nil_r]. Qed.
#[export] Instance slice_assoc {A} : MergeAssoc (list A).
Proof. assoc_scalar. apply app_assoc. Qed.
#[export] Instance ptr_unit : MergeUnit (option Z).
Proof. split; intros; by destruct x. Qed.
#[export] Instance ptr_assoc : MergeAssoc (option Z).
Proof.
  intros x y z. unfold mergo, merge_ptr. repeat case_match; simplify_eq; try done. f_equal. apply merge_assoc.
Qed.

Lemma merge_map_assoc {V} (empty : V -> bool) x y z :
  merge_map empty x (merge_map empty y z) = merge_map empty (merge_map empty x y) z.
Proof.
  destruct x as [x|], y as [y|], z as [z|]; simpl; try done. f_equal.
  apply map_eq. intros i. rewrite !lookup_merge.
  destruct (x !! i), (y !! i), (z !! i); simpl; repeat case_match; simplify_eq/=; congruence.
Qed.
#[export] Instance strmap_unit : MergeUnit strmap.
Proof. split; intros x; by destruct x. Qed.
#[export] Instance strmap_assoc : MergeAssoc strmap.
Proof. intros x y z. apply merge_map_assoc. Qed.
#[export] Instance addons_unit : MergeUnit (option (gmap string Addon)).
Proof. split; intros x; by destruct x. Qed.
#[export] Instance addons_assoc : MergeAssoc (option (gmap string Addon)).
Proof. intros x y z. apply merge_map_assoc. Qed.

(** Interfaces: two objects are never both merged and regrouped. *)
Definition is_object (m : MultiPathConfig) : bool := match m with MPRaw (JObj _) => true | _ => false end.
#[export] Instance multipath_unit : MergeUnit MultiPathConfig.
Proof. split; intros x; by destruct x. Qed.
Lemma merge_json_other d s : match s with JObj _ => False | _ => True end -> merge_json d s = (d, true).
Proof. by destruct s, d. Qed.
Lemma merge_interface_other d s :
  is_object d && is_object s = false -> merge_interface d s = (match d with MPNil => s | _ => d end, true).
Proof. destruct d as [| | |[]], s as [| | |[]]; done. Qed.
Lemma merge_multipath_assoc x y z :
  is_object x && is_object y = false -> is_object x && is_object z = false -> is_object y && is_object z = false ->
  mergo x (mergo y z) = mergo (mergo x y) z.
Proof.
  intros Hxy Hxz Hyz. unfold mergo, merge_multipath.
  rewrite (merge_interface_other y z), (merge_interface_other x y) by done. cbn [fst].
  rewrite !merge_interface_other; destruct x, y; try done; by cbn in *.
Qed.

(** A struct satisfies the laws when its fields do. *)
Ltac hnf_sides :=
  lazymatch goal with |- ?l = ?r =>
    let l' := eval hnf in l in let r' := eval hnf in r in change (l' = r'); simpl; f_equal end.
Ltac unit_struct := split; [intros []; hnf_sides; apply merge_zero_l | intros []; hnf_sides; apply merge_zero_r].
Ltac assoc_struct := intros [] [] []; hnf_sides; apply merge_assoc.
#[export] Instance Network_unit : MergeUnit Network.
Proof. unit_struct. Qed.
#[export] Instance Network_assoc : MergeAssoc Network.
Proof. assoc_struct. Qed.
#[export] Instance LH_unit : MergeUnit LHDefaultSettings.
Proof. unit_struct. Qed.
#[export] Instance LH_assoc : MergeAssoc LHDefaultSettings.
Proof. assoc_struct. Qed.
#[export] Instance chart_unit : MergeUnit HarvesterChartValues.
Proof. unit_struct. Qed.
#[export] Instance chart_assoc : MergeAssoc HarvesterChartValues.
Proof. assoc_struct. Qed.
#[export] Instance storage_unit : MergeUnit ExternalStorageConfig.
Proof. unit_struct. Qed.
#[export] Instance Install_unit : MergeUnit Install.
Proof. unit_struct. Qed.
#[export] Instance Install_assoc : MergeAssoc Install.
Proof. assoc_struct. Qed.
#[export] Instance OS_unit : MergeUnit OS.
Proof. unit_struct. Qed.
#[export] Instance HarvesterConfig_unit : MergeUnit HarvesterConfig.
Proof. unit_struct. Qed.

(** The structs around the interface. *)
Definition regroupable (a b c : MultiPathConfig) : Prop := mergo a (mergo b c) = mergo (mergo a b) c.
Lemma storage_regroup x y z :
  regroupable (es_MultiPathConfig x) (es_MultiPathConfig y) (es_MultiPathConfig z) ->
  mergo x (mergo y z) = mergo (mergo x y) z.
Proof. destruct x, y, z. intros Hm. hnf_sides; [apply merge_assoc|exact Hm]. Qed.
Lemma OS_regroup x y z :
  regroupable (es_MultiPathConfig (os_ExternalStorage x)) (es_MultiPathConfig (os_ExternalStorage y))
    (es_MultiPathConfig (os_ExternalStorage z)) ->
  mergo x (mergo y z) = mergo (mergo x y) z.
Proof.
  destruct x, y, z. intros Hm. hnf_sides; first [apply merge_assoc | by apply storage_regroup].
Qed.
Lemma config_regroup x y z :
  regroupable (multipath_of x) (multipath_of y) (multipath_of z) -> mergo x (mergo y z) = mergo (mergo x y) z.
Proof.
  destruct x, y, z. intros Hm. hnf_sides; first [apply merge_assoc | by apply OS_regroup].
Qed.

(** ** Properties *)

Lemma lookup_merge_map {V} (empty : V -> bool) d s k :
  default ∅ (merge_map empty d s) !! k = merge_value empty (default ∅ d !! k) (default ∅ s !! k).
Proof.
  destruct d as [d|], s as [s|]; simpl; rewrite ?lookup_merge, ?lookup_empty; unfold diag_None.
  - by destruct (d !! k), (s !! k).
  - by destruct (d !! k).
  - done.
  - done.
Qed.

Lemma Merge_ok a b ab :
  Merge a b = (ab, Ok tt) <-> snd (merge_interface (multipath_of a) (multipath_of b)) = true /\ ab = mergo a b.
Proof. unfold Merge. destruct (snd _); naive_solver. Qed.

Lemma DeepCopy_ok c : DeepCopy c = Ok c.
Proof.
  unfold DeepCopy. rewrite (proj2 (Merge_ok NewHarvesterConfig c c)); [done|]. split; [done|].
  symmetry. exact (merge_zero_l c).
Qed.

(** At most one of the configurations has a multipath configuration that is an
    object not parsed yet. *)
Definition at_most_one_object (a b c : HarvesterConfig) : Prop :=
  let o x := is_object (multipath_of x) in
  o a && o b = false /\ o a && o c = false /\ o b && o c = false.

Lemma Merge_total a b :
  is_object (multipath_of a) && is_object (multipath_of b) = false -> Merge a b = (mergo a b, Ok tt).
Proof. intros H. apply Merge_ok. by rewrite merge_interface_other. Qed.

Lemma multipath_of_mergo a b :
  is_object (multipath_of a) && is_object (multipath_of b) = false ->
  multipath_of (mergo a b) = match multipath_of a with MPNil => multipath_of b | m => m end.
Proof.
  intros H. change (multipath_of (mergo a b)) with (fst (merge_interface (multipath_of a) (multipath_of b))).
  rewrite merge_interface_other by done. by destruct (multipath_of a).
Qed.

(** Fields of each kind. *)
Definition string_fields : list (HarvesterConfig -> string) :=
  [hc_ServerURL; hc_Token; hc_RuntimeVersion; hc_HarvesterChartVersion;
   fun c => os_Hostname (hc_OS c); fun c => os_Password (hc_OS c); fun c => os_AdditionalKernelArguments (hc_OS c);
   fun c => in_Mode (hc_Install c); fun c => in_Role (hc_Install c); fun c => in_Device (hc_Install c);
   fun c => in_DataDisk (hc_Install c); fun c => in_ConfigURL (hc_Install c); fun c => in_ISOURL (hc_Install c);
   fun c => in_Vip (hc_Install c); fun c => in_VipMode (hc_Install c);
   fun c => in_PersistentPartitionSize (hc_Install c);
   fun c => nw_Method (in_ManagementInterface (hc_Install c)); fun c => nw_IP (in_ManagementInterface (hc_Install c));
   fun c => nw_SubnetMask (in_ManagementInterface (hc_Install c)); fun c => nw_Gateway (in_ManagementInterface (hc_Install c))].
Definition list_fields : list (HarvesterConfig -> list string) :=
  [hc_SANS; fun c => os_SSHAuthorizedKeys (hc_OS c); fun c => os_Modules (hc_OS c); fun c => os_NTPServers (hc_OS c);
   fun c => os_DNSNameservers (hc_OS c); fun c => os_PersistentStatePaths (hc_OS c);
   fun c => os_AfterInstallChrootCommands (hc_OS c); fun c => in_WipeDisksList (hc_Install c)].
Definition bool_fields : list (HarvesterConfig -> bool) :=
  [fun c => os_SFTP (hc_OS c); fun c => in_Automatic (hc_Install c); fun c => in_SkipChecks (hc_Install c);
   fun c => in_Debug (hc_Install c); fun c => in_ForceMBR (hc_Install c); fun c => in_WipeAllDisks (hc_Install c)].

(** C36: [DeepCopy] gives an equal configuration, and merging nothing changes
    nothing.  Precedence: after a merge that succeeded, a string that was set is
    kept and otherwise taken from the other configuration, a flag is set when
    either has it, lists are appended in order, and a setting keeps its value
    unless it was empty.  Grouping does not matter: merging two configurations
    into a third one by one, or merged with each other first, succeeds and gives
    the same, when at most one of the three has a multipath configuration that
    is an object not parsed yet (two such objects are merged key by key, which
    may fail and is not associative). *)
Theorem Merge_monoid a b c :
  DeepCopy a = Ok a /\ Merge a NewHarvesterConfig = (a, Ok tt) /\
  (forall ab, Merge a b = (ab, Ok tt) ->
    Forall (fun field => field ab = if bool_decide (field a = "") then field b else field a) string_fields /\
    Forall (fun field => field ab = field a || field b) bool_fields /\
    Forall (fun field => field ab = field a ++ field b) list_fields /\
    nw_Interfaces (in_ManagementInterface (hc_Install ab)) =
      nw_Interfaces (in_ManagementInterface (hc_Install a)) ++ nw_Interfaces (in_ManagementInterface (hc_Install b)) /\
    (forall k, default ∅ (hc_SystemSettings ab) !! k =
      match default ∅ (hc_SystemSettings a) !! k, default ∅ (hc_SystemSettings b) !! k with
      | Some "", Some v => Some v
      | None, r => r
      | r, _ => r
      end)) /\
  (at_most_one_object a b c ->
    exists ab bc abc, Merge a b = (ab, Ok tt) /\ Merge b c = (bc, Ok tt) /\
      Merge ab c = (abc, Ok tt) /\ Merge a bc = (abc, Ok tt)).
Proof.
  split; [apply DeepCopy_ok|]. split; [|split].
  - apply Merge_ok. split; [by destruct (multipath_of a) as [| | |[]]|]. symmetry. exact (merge_zero_r a).
  - intros ab [_ ->]%Merge_ok. split_and!; [repeat constructor..|reflexivity|].
    intros k. etransitivity; [apply lookup_merge_map|].
    destruct (default ∅ (hc_SystemSettings a) !! k) as [[|ch v]|], (default ∅ (hc_SystemSettings b) !! k); done.
  - intros (Hab & Hac & Hbc). exists (mergo a b), (mergo b c), (mergo (mergo a b) c).
    assert (H1 : is_object (multipath_of (mergo a b)) && is_object (multipath_of c) = false).
    { rewrite multipath_of_mergo by done. by destruct (multipath_of a). }
    assert (H2 : is_object (multipath_of a) && is_object (multipath_of (mergo b c)) = false).
    { rewrite multipath_of_mergo by done. by destruct (multipath_of b). }
    split_and!; [by apply Merge_total..|]. rewrite (Merge_total a (mergo b c) H2). f_equal.
    apply config_regroup. by apply merge_multipath_assoc.
Qed.

Lemma Merge_monoid_witness :
  exists ab, Merge (set_hc_Token "t" NewHarvesterConfig) (set_hc_Token "u" NewHarvesterConfig) = (ab, Ok tt) /\
    hc_Token ab = "t".
Proof.
  pose (a := set_hc_Token "t" NewHarvesterConfig). pose (b := set_hc_Token "u" NewHarvesterConfig).
  destruct (Merge_monoid a b a) as (_ & _ & Hprec & Hgroup).
  destruct (Hgroup ltac:(by vm_compute)) as (ab & _ & _ & Hab & _).
  exists ab. split; [exact Hab|]. destruct (Hprec ab Hab) as [Hs _].
  rewrite Forall_forall in Hs. apply (Hs hc_Token). right. by left.
Defined.

Definition with_object (l : list (string * json)) : HarvesterConfig :=
  set_hc_OS (mkOS [] [] [] "" [] None [] [] "" None None false [] (mkStorage true (MPRaw (JObj l))) "") NewHarvesterConfig.

(** After an error (a list that meets a text in two objects) the fields before
    the multipath configuration have been merged, those after it have not. *)
Theorem Merge_error a b c e :
  Merge a b = (c, Err e) ->
  is_object (multipath_of a) = true /\ is_object (multipath_of b) = true /\
  hc_Token c = (if bool_decide (hc_Token a = "") then hc_Token b else hc_Token a) /\
  os_NTPServers (hc_OS c) = os_NTPServers (hc_OS a) ++ os_NTPServers (hc_OS b) /\
  hc_Install c = hc_Install a /\ hc_SystemSettings c = hc_SystemSettings a.
Proof.
  unfold Merge. destruct (snd _) eqn:Hs; intros [= <- <-].
  destruct (is_object (multipath_of a) && is_object (multipath_of b)) eqn:Ho.
  - apply andb_true_iff in Ho as [? ?]. done.
  - by rewrite merge_interface_other in Hs.
Qed.

Lemma Merge_error_witness :
  exists c e, Merge (with_object [("x", JStr "a")]) (with_object [("x", JArr [])]) = (c, Err e) /\
    hc_Install c = NewHarvesterConfig.(hc_Install).
Proof.
  pose (r := Merge (with_object [("x", JStr "a")]) (with_object [("x", JArr [])])).
  destruct r as [c [u|e|]] eqn:Hr; [by vm_compute in Hr| |by vm_compute in Hr].
  exists c, e. split; [exact Hr|]. exact (proj1 (proj2 (proj2 (proj2 (proj2 (Merge_error _ _ _ _ Hr)))))).
Defined.

(** Merging objects is not associative: a text between two objects is dropped
    or stops the second one, depending on the grouping. *)
Example objects_regrouped :
  let x := JObj [("a", JObj [("b", JNum "1")])] in
  let y := JObj [("a", JStr "s")] in
  let z := JObj [("a", JObj [("c", JNum "2")])] in
  merge_json x (fst (merge_json y z)) = (x, true) /\
  merge_json (fst (merge_json x y)) z = (JObj [("a", JObj [("b", JNum "1"); ("c", JNum "2")])], true).
Proof. done. Qed.

(** The copy that is printed in logs hides the credentials and nothing
    else: token and password are the mask or empty, and putting them back
    gives the original configuration. *)
Theorem sanitized_hides c :
  exists s, sanitized c = Ok s /\
  (hc_Token s = "" /\ hc_Token c = "" \/ hc_Token s = SanitizeMask) /\
  (os_Password (hc_OS s) = "" /\ os_Password (hc_OS c) = "" \/ os_Password (hc_OS s) = SanitizeMask) /\
  set_hc_Token (hc_Token c) (set_hc_OS (set_os_Password (os_Password (hc_OS c)) (hc_OS s)) s) = c.
Proof.
  unfold sanitized. rewrite DeepCopy_ok. cbn [mbind result_bind]. eexists. split; [done|].
  destruct c as [v u t sans [] i]. cbn.
  repeat case_bool_decide; cbn in *; split_and!; try tauto; try reflexivity; left; split; tauto || (destruct (decide (t = "")); tauto).
Qed.
