(* ===== verification/K8sNames.v ===== *)
(** * K8sNames: the name formats of Kubernetes the installer checks

    The predicates of the vendored [k8s.io/apimachinery/pkg/util/validation]:
    the functions there return a list of messages, empty when the value is
    accepted; here they are the boolean of the empty list. *)
From Stdlib Require Import ZArith Lia Ascii String.
From stdpp Require Import base tactics list strings.
From S2P Require Import Prelude GoStrings.
Local Open Scope Z_scope.

Definition first_char (p : ascii -> bool) (s : string) : bool :=
  match s with String c _ => p c | "" => false end.
Fixpoint last_char (p : ascii -> bool) (s : string) : bool :=
  match s with "" => false | String c "" => p c | String _ s' => last_char p s' end.

Definition name_char (c : ascii) : bool := is_alnum c || bool_decide (c ∈ ["-"; "_"; "."]%char).
Definition dns_char (c : ascii) : bool := is_digit c || is_lower c || bool_decide (c = "-"%char).

(** [qualifiedNameFmt]: an alphanumeric character, then alphanumerics and
    dashes, underscores or dots, the last one alphanumeric again. *)
Definition qualifiedNameRegexp (s : string) : bool :=
  first_char is_alnum s && all_chars name_char s && last_char is_alnum s.

(** [dns1123LabelFmt]: lower case alphanumerics and inner dashes. *)
Definition dns_label (s : string) : bool :=
  first_char (fun c => is_digit c || is_lower c) s && all_chars dns_char s &&
  last_char (fun c => is_digit c || is_lower c) s.

Definition IsDNS1123Subdomain (s : string) : bool :=
  (slen s <=? 253) && forallb dns_label (split_on "." s).

Definition IsValidLabelValue (s : string) : bool :=
  (slen s <=? 63) && (bool_decide (s = "") || qualifiedNameRegexp s).

Definition IsQualifiedName (s : string) : bool :=
  let name_ok n := (slen n <=? 63) && qualifiedNameRegexp n in
  match split_on "/" s with
  | [n] => name_ok n
  | [p; n] => negb (bool_decide (p = "")) && IsDNS1123Subdomain p && name_ok n
  | _ => false
  end.

(** ** What the accepted strings are made of *)

Lemma all_chars_no_char p s c :
  all_chars p s = true -> p c = false -> has_char c s = false.
Proof.
  induction s as [|d s IH]; simpl; [done|]. intros [Hd Hs]%andb_prop Hc.
  rewrite (IH Hs Hc). destruct (decide (d = c)) as [->|]; [congruence|].
  by rewrite bool_decide_false by congruence.
Qed.

Lemma all_chars_alt p s : all_chars p s = true <-> forall c, p c = false -> has_char c s = false.
Proof.
  split; [intros; by apply (all_chars_no_char p)|].
  induction s as [|d s IH]; [done|]. intros H. cbn [all_chars]. apply andb_true_iff. split.
  - destruct (p d) eqn:E; [done|]. specialize (H d E). cbn [has_char] in H.
    by rewrite bool_decide_eq_true_2 in H.
  - apply IH. intros c Hc. specialize (H c Hc). cbn [has_char] in H. by apply orb_false_iff in H as [_ ?].
Qed.

Lemma label_value_chars s c :
  IsValidLabelValue s = true -> name_char c = false -> has_char c s = false.
Proof.
  intros [_ H]%andb_prop Hc. apply orb_prop in H as [H|H]; [by apply bool_decide_eq_true in H; subst|].
  unfold qualifiedNameRegexp in H. apply andb_prop in H as [[_ H]%andb_prop _].
  by apply (all_chars_no_char name_char).
Qed.

(** A character other than the separator is in no piece only if it is not in
    the string. *)
Lemma has_char_split c sep s :
  c <> sep -> Forall (fun w => has_char c w = false) (split_on sep s) -> has_char c s = false.
Proof.
  intros Hc. induction s as [|d s IH]; [done|]. cbn [split_on has_char].
  case_bool_decide as Hd.
  - intros [_ H]%Forall_cons. subst d. rewrite bool_decide_false by done. by apply IH.
  - destruct (split_on_cons sep s) as (w & ws & Hs). rewrite Hs in *.
    intros [Hw Hws]%Forall_cons. cbn [has_char] in Hw. apply orb_false_elim in Hw as [-> Hw].
    apply IH. by constructor.
Qed.

Lemma dns_subdomain_chars s c :
  IsDNS1123Subdomain s = true -> dns_char c = false -> c <> "."%char -> has_char c s = false.
Proof.
  intros [_ H]%andb_prop Hc Hdot. apply (has_char_split c "." s Hdot).
  apply Is_true_true, forallb_True in H. eapply Forall_impl; [exact H|]. intros w Hw%Is_true_true.
  unfold dns_label in Hw. apply andb_prop in Hw as [[_ Hw]%andb_prop _].
  by apply (all_chars_no_char dns_char).
Qed.

Lemma qualified_name_chars s c :
  IsQualifiedName s = true -> name_char c = false -> dns_char c = false -> c <> "/"%char ->
  c <> "."%char -> has_char c s = false.
Proof.
  intros H Hn Hd Hsl Hdot. apply (has_char_split c "/" s Hsl). unfold IsQualifiedName in H.
  assert (Hname : forall n, (slen n <=? 63) && qualifiedNameRegexp n = true -> has_char c n = false).
  { intros n [_ Hq]%andb_prop. unfold qualifiedNameRegexp in Hq.
    apply andb_prop in Hq as [[_ Hq]%andb_prop _]. by apply (all_chars_no_char name_char). }
  destruct (split_on "/" s) as [|p [|n []]]; [done| |..|done].
  - constructor; [by apply Hname|constructor].
  - apply andb_prop in H as [[_ Hp]%andb_prop Hq].
    repeat constructor; [by apply dns_subdomain_chars|by apply Hname].
Qed.

Lemma last_char_app p a b : b <> "" -> last_char p (a +:+ b) = last_char p b.
Proof.
  intros Hb. induction a as [|c a IH]; [done|]. rewrite string_app_cons.
  destruct (a +:+ b) eqn:E; [|by rewrite <- IH].
  destruct a; [by destruct b|]. by rewrite string_app_cons in E.
Qed.
