(* ===== verification/Template.v ===== *)
(** * Template: the part of [text/template] the program uses
      ([RenderTemplate] of [pkg/util/template.go]) and [strconv.Quote]

    A template is cut into text and actions, with the blanks that [{{-] and [-}}]
    trim, parsed into a tree with a stack of open blocks, and executed on a value.
    The actions are [if], [range], [with], [else], [end] and pipelines of one
    command: a field, a variable, a constant, or one of the functions [or], [not],
    [eq], [ne], [gt] and [printf].  Anything else of the language (pipes,
    parentheses, nested templates, [else if], declarations out of a block) is
    refused, which stands for no behaviour of the library: no template has it. *)
From Stdlib Require Import ZArith Lia Ascii String.
From stdpp Require Import base tactics list strings pretty.
From S2P Require Import Prelude GoStrings GoNet GoJson.
Local Open Scope Z_scope.

(** ** [strconv.Quote] *)

(** [utf8.DecodeRuneInString]: the rune and its width, [RuneError] and 1 for bytes
    that are no encoding. *)
Definition RuneError : Z := 65533.
Definition continuation (c : ascii) : bool := (128 <=? ord c) && (ord c <=? 191).
Definition decode_rune (s : string) : Z * nat :=
  let bad := (RuneError, 1%nat) in
  match s with
  | "" => (RuneError, 0%nat)
  | String a s1 =>
      let x := ord a in
      if x <? 128 then (x, 1%nat)
      else match s1 with
      | String b s2 =>
          if (194 <=? x) && (x <=? 223) then
            if continuation b then ((x - 192) * 64 + (ord b - 128), 2%nat) else bad
          else
          let lo := if x =? 224 then 160 else if x =? 240 then 144 else 128 in
          let hi := if x =? 237 then 159 else if x =? 244 then 143 else 191 in
          if negb ((lo <=? ord b) && (ord b <=? hi)) then bad
          else match s2 with
          | String c s3 =>
              if negb (continuation c) then bad
              else if (224 <=? x) && (x <=? 239) then ((x - 224) * 4096 + (ord b - 128) * 64 + (ord c - 128), 3%nat)
              else if (240 <=? x) && (x <=? 244) then
                match s3 with
                | String d _ =>
                    if continuation d
                    then ((x - 240) * 262144 + (ord b - 128) * 4096 + (ord c - 128) * 64 + (ord d - 128), 4%nat)
                    else bad
                | "" => bad
                end
              else bad
          | "" => bad
          end
      | "" => bad
      end
  end.

(** The last [k] digits of [n], as [%0kx] prints a number that has no more. *)
Fixpoint hex_digits (k : nat) (n : Z) : string :=
  match k with O => "" | S k => hex_digits k (n / 16) +:+ String (hex_digit (n mod 16)) "" end.

Section quote.
(** [unicode.IsPrint] above Latin-1: the tables of Unicode. *)
Context (wide_print : Z -> bool).

(** [strconv.IsPrint]. *)
Definition IsPrint (r : Z) : bool :=
  if r <=? 255 then ((32 <=? r) && (r <? 127)) || ((161 <=? r) && negb (r =? 173)) else wide_print r.

Definition escaped (c : ascii) : string := String backslash (String c "").
(** [appendEscapedRune] on the [n] bytes of [s] that encode [r]. *)
Definition quote_rune (s : string) (r : Z) (n : nat) : string :=
  if bool_decide (n = 1%nat) && (r =? RuneError) then
    match s with String c _ => escaped "x" +:+ hex_digits 2 (ord c) | "" => "" end
  else if (r =? ord quote) || (r =? ord backslash) then escaped (byte_char r)
  else if IsPrint r then stake n s
  else match r with
  | 7 => escaped "a" | 8 => escaped "b" | 12 => escaped "f" | 10 => escaped "n"
  | 13 => escaped "r" | 9 => escaped "t" | 11 => escaped "v"
  | _ =>
      if (r <? 32) || (r =? 127) then escaped "x" +:+ hex_digits 2 r
      else if r <? 65536 then escaped "u" +:+ hex_digits 4 r
      else escaped "U" +:+ hex_digits 8 r
  end.
Fixpoint quote_body (skip : nat) (s : string) : string :=
  match s with
  | "" => ""
  | String _ s' =>
      match skip with
      | S k => quote_body k s'
      | O => let '(r, n) := decode_rune s in quote_rune s r n +:+ quote_body (pred n) s'
      end
  end.
Definition Quote (s : string) : string := String quote (quote_body 0 s +:+ String quote "").
End quote.

(** ** Tokens *)

Inductive token : Set :=
| TDot | TField (f : string) | TVar (x : string) | TIdent (f : string)
| TStr (s : string) | TNum (n : Z) | TDecl | TComma | TSpace.
#[export] Instance token_eq_dec : EqDecision token.
Proof. solve_decision. Defined.
Inductive item : Set := IText (s : string) | IAction (l : list token).

Definition word_char (c : ascii) : bool := is_alnum c || bool_decide (c = "_"%char).
Definition template_error {A} (m : string) : result A := Err (EWrap "template" (EMsg m)).

(** The tokens up to the closing delimiter, whether it trims, and what follows. *)
Fixpoint lex_action (fuel : nat) (s : string) : result (list token * bool * string) :=
  match fuel with
  | O => template_error "unclosed action"
  | S fuel =>
      let next t r := '(l, trims, r) ← lex_action fuel r; Ok (t :: l, trims, r) in
      match strip_prefix " -}}" s, strip_prefix "}}" s with
      | Some r, _ => Ok ([], true, r)
      | None, Some r => Ok ([], false, r)
      | None, None =>
          match s with
          | "" => template_error "unclosed action"
          | String c s' =>
              if is_space c then next TSpace s'
              else if bool_decide (c = "."%char) then
                let '(f, r) := span word_char s' in next (if bool_decide (f = "") then TDot else TField f) r
              else if bool_decide (c = "$"%char) then
                let '(x, r) := span word_char s' in next (TVar x) r
              else if bool_decide (c = ","%char) then next TComma s'
              else if bool_decide (c = quote) then
                match parse_string s' with
                | Some (t, r) => next (TStr t) r
                | None => template_error "unterminated quoted string"
                end
              else if is_digit c then
                let '(d, r) := span is_digit s in n ← parse_int64 d; next (TNum n) r
              else if word_char c then
                let '(f, r) := span word_char s in next (TIdent f) r
              else match strip_prefix ":=" s with
              | Some r => next TDecl r
              | None => template_error "unexpected character"
              end
          end
      end
  end.

(** The text before the first [{{], and what follows it. *)
Fixpoint break_open (s : string) : string * option string :=
  match strip_prefix "{{" s with
  | Some r => ("", Some r)
  | None => match s with "" => ("", None) | String c s' => let '(a, r) := break_open s' in (String c a, r) end
  end.
Definition text_item (s : string) : list item := if bool_decide (s = "") then [] else [IText s].
Fixpoint lex (fuel : nat) (s : string) : result (list item) :=
  match fuel with
  | O => template_error "out of fuel"
  | S fuel =>
      let '(t, r) := break_open s in
      match r with
      | None => Ok (text_item t)
      | Some r =>
          let '(trims, r) := match strip_prefix "- " r with Some r' => (true, r') | None => (false, r) end in
          '(l, trims', r) ← lex_action (S (String.length r)) r;
          items ← lex fuel (if (trims' : bool) then trim_left is_space r else r);
          Ok (text_item (if (trims : bool) then trim_right is_space t else t) ++ IAction l :: items)
      end
  end.

(** ** The tree *)

Inductive operand : Set :=
| ODot | OField (fs : list string) | OVar (x : string) (fs : list string) | OStr (s : string) | ONum (n : Z).
Inductive command : Set := COperand (o : operand) | CCall (f : string) (args : list operand).
Inductive block : Set := BIf (c : command) | BRange (decl : list string) (c : command) | BWith (decl : list string) (c : command).
Inductive node : Type :=
| NText (s : string)
| NCommand (c : command)
| NBlock (b : block) (body other : list node).

Definition words (l : list token) : list (list token) :=
  filter (fun w => w <> []) (foldr (fun t ws => match t, ws with TSpace, _ => [] :: ws | _, w :: ws => (t :: w) :: ws | _, [] => [[t]] end) [[]] l).
Fixpoint fields (l : list token) : result (list string) :=
  match l with
  | [] => Ok []
  | TField f :: l => fs ← fields l; Ok (f :: fs)
  | _ => template_error "unexpected token in operand"
  end.
Definition parse_operand (w : list token) : result operand :=
  match w with
  | [TDot] => Ok ODot
  | [TStr s] => Ok (OStr s)
  | [TNum n] => Ok (ONum n)
  | TVar x :: l => OVar x <$> fields l
  | TField f :: l => fs ← fields l; Ok (OField (f :: fs))
  | _ => template_error "unexpected token in operand"
  end.
Definition parse_command (ws : list (list token)) : result command :=
  match ws with
  | [TIdent f] :: ws => CCall f <$> map_each parse_operand ws
  | [w] => COperand <$> parse_operand w
  | _ => template_error "missing value for command"
  end.
(** The declared variables, and the command. *)
Definition parse_pipeline (ws : list (list token)) : result (list string * command) :=
  match ws with
  | [TVar x] :: [TDecl] :: ws => c ← parse_command ws; Ok ([x], c)
  | [TVar k; TComma] :: [TVar x] :: [TDecl] :: ws => c ← parse_command ws; Ok ([k; x], c)
  | _ => c ← parse_command ws; Ok ([], c)
  end.

(** An open block: what is before it, its head, its body once [else] was met; the
    nodes of the branch being read are apart, the last one first. *)
Record open_block := mkOpen { ob_before : list node; ob_head : block; ob_body : option (list node) }.
Definition parsing : Type := list open_block * list node.

Definition open_with (b : block) (p : parsing) : parsing := (mkOpen (snd p) b None :: fst p, []).
Definition parse_item (p : parsing) (i : item) : result parsing :=
  match i with
  | IText s => Ok (fst p, NText s :: snd p)
  | IAction l =>
      match words l with
      | [TIdent "if"] :: ws => '(d, c) ← parse_pipeline ws; if bool_decide (d = []) then Ok (open_with (BIf c) p) else template_error "declaration in if"
      | [TIdent "range"] :: ws => '(d, c) ← parse_pipeline ws; Ok (open_with (BRange d c) p)
      | [TIdent "with"] :: ws => '(d, c) ← parse_pipeline ws; Ok (open_with (BWith d c) p)
      | [[TIdent "else"]] =>
          match fst p with
          | mkOpen before b None :: rest => Ok (mkOpen before b (Some (rev (snd p))) :: rest, [])
          | _ => template_error "unexpected {{else}}"
          end
      | [[TIdent "end"]] =>
          match fst p with
          | mkOpen before b None :: rest => Ok (rest, NBlock b (rev (snd p)) [] :: before)
          | mkOpen before b (Some body) :: rest => Ok (rest, NBlock b body (rev (snd p)) :: before)
          | [] => template_error "unexpected {{end}}"
          end
      | ws => c ← parse_command ws; Ok (fst p, NCommand c :: snd p)
      end
  end.
Definition Parse (templ : string) : result (list node) :=
  items ← lex (S (String.length templ)) templ;
  p ← foldl (fun p i => p ← p; parse_item p i) (Ok ([], [])) items;
  match fst p with [] => Ok (rev (snd p)) | _ => template_error "unexpected EOF" end.

(** ** Execution *)

(** The values: a map is listed in the order of its keys, which is the order
    [range] visits it in; the fields and the methods of a struct are looked up by
    name, and a method can fail. *)
Inductive value : Type :=
| VNone
| VStr (s : string) | VInt (n : Z) | VBool (b : bool)
| VPtr (p : option value)
| VList (l : list value) | VMap (l : list (string * value))
| VStruct (get : string -> option (result value)).

Fixpoint assoc {A} (k : string) (l : list (string * A)) : option A :=
  match l with [] => None | (k', a) :: l => if String.eqb k' k then Some a else assoc k l end.
Definition truth (v : value) : bool :=
  match v with
  | VNone => false
  | VStr s => negb (bool_decide (s = ""))
  | VInt n => negb (n =? 0)
  | VBool b => b
  | VPtr p => match p with None => false | _ => true end
  | VList l => match l with [] => false | _ => true end
  | VMap l => match l with [] => false | _ => true end
  | VStruct _ => true
  end.
Definition field (v : value) (f : string) : result value :=
  match v with
  | VMap l => Ok (default VNone (assoc f l))
  | VStruct get => match get f with Some r => r | None => template_error ("can't evaluate field " +:+ f) end
  | _ => template_error ("can't evaluate field " +:+ f)
  end.

(** What an action prints. *)
Fixpoint print (v : value) : result string :=
  match v with
  | VNone => Ok "<no value>"
  | VStr s => Ok s
  | VInt n => Ok (itoa n)
  | VBool b => Ok (if b then "true" else "false")
  | VPtr (Some v) => print v
  | VPtr None => Ok "<nil>"
  | _ => template_error "value is not printed by any template"
  end.

Section exec.
Context (wide_print : Z -> bool).

(** The variables, the last declared first, and the dot. *)
Notation env := (list (string * value)).
Definition eval_operand (vars : env) (dot : value) (o : operand) : result value :=
  match o with
  | ODot => Ok dot
  | OStr s => Ok (VStr s)
  | ONum n => Ok (VInt n)
  | OField fs => foldl (fun v f => v ← v; field v f) (Ok dot) fs
  | OVar x fs =>
      match assoc x vars with
      | Some v => foldl (fun v f => v ← v; field v f) (Ok v) fs
      | None => template_error ("undefined variable " +:+ x)
      end
  end.
Definition equal_values (a b : value) : result bool :=
  match a, b with
  | VStr s, VStr s' => Ok (String.eqb s s')
  | VInt n, VInt n' => Ok (n =? n')
  | VBool x, VBool y => Ok (Bool.eqb x y)
  | _, _ => template_error "incompatible types for comparison"
  end.
(** [or] of evaluated arguments; the evaluation stops at the first that holds. *)
Fixpoint eval_or (vars : env) (dot : value) (args : list operand) : result value :=
  match args with
  | [] => template_error "wrong number of args for or"
  | [o] => eval_operand vars dot o
  | o :: args => v ← eval_operand vars dot o; if truth v then Ok v else eval_or vars dot args
  end.
Definition eval_command (vars : env) (dot : value) (c : command) : result value :=
  match c with
  | COperand o => eval_operand vars dot o
  | CCall f args =>
      if String.eqb f "or" then eval_or vars dot args else
      vs ← map_each (eval_operand vars dot) args;
      if String.eqb f "not" then
        match vs with [v] => Ok (VBool (negb (truth v))) | _ => template_error "wrong number of args for not" end
      else if String.eqb f "eq" then
        match vs with [a; b] => VBool <$> equal_values a b | _ => template_error "wrong number of args for eq" end
      else if String.eqb f "ne" then
        match vs with [a; b] => (fun x => VBool (negb x)) <$> equal_values a b | _ => template_error "wrong number of args for ne" end
      else if String.eqb f "gt" then
        match vs with
        | [VInt a; VInt b] => Ok (VBool (b <? a))
        | _ => template_error "incompatible types for comparison"
        end
      else if String.eqb f "printf" then
        match vs with
        | [VStr fmt; VStr s] =>
            if String.eqb fmt "%q" then Ok (VStr (Quote wide_print s)) else template_error "format is not used by any template"
        | _ => template_error "format is not used by any template"
        end
      else template_error ("function not defined: " +:+ f)
  end.

(** What [range] visits: the key or the index, and the element. *)
Definition entries (v : value) : result (list (value * value)) :=
  match v with
  | VList l => Ok (imap (fun i x => (VInt (Z.of_nat i), x)) l)
  | VMap l => Ok (map (fun kv => (VStr (fst kv), snd kv)) l)
  | _ => template_error "range can't iterate over value"
  end.
Definition declare (decl : list string) (k x : value) (vars : env) : env :=
  match decl with
  | [v] => (v, x) :: vars
  | [i; v] => (v, x) :: (i, k) :: vars
  | _ => vars
  end.

Fixpoint exec_node (n : node) (vars : env) (dot : value) : result string :=
  let exec_list := fix exec_list (l : list node) (vars : env) (dot : value) : result string :=
    match l with
    | [] => Ok ""
    | n :: l => a ← exec_node n vars dot; b ← exec_list l vars dot; Ok (a +:+ b)
    end in
  match n with
  | NText s => Ok s
  | NCommand c => v ← eval_command vars dot c; print v
  | NBlock (BIf c) body other =>
      v ← eval_command vars dot c; if truth v then exec_list body vars dot else exec_list other vars dot
  | NBlock (BWith decl c) body other =>
      v ← eval_command vars dot c;
      if truth v then exec_list body (declare decl v v vars) v else exec_list other vars dot
  | NBlock (BRange decl c) body other =>
      v ← eval_command vars dot c;
      es ← entries v;
      match es with
      | [] => exec_list other vars dot
      | _ => join "" <$> map_each (fun e => exec_list body (declare decl (fst e) (snd e) vars) (snd e)) es
      end
  end.
Fixpoint exec_list (l : list node) (vars : env) (dot : value) : result string :=
  match l with
  | [] => Ok ""
  | n :: l => a ← exec_node n vars dot; b ← exec_list l vars dot; Ok (a +:+ b)
  end.

Definition RenderTemplate (templ : string) (context : value) : result string :=
  tmpl ← Parse templ; exec_list tmpl [("", context)] context.
End exec.
