(* ===== verification/Embedded.v ===== *)
(** * Embedded: the files of [pkg/config/templates] that the program embeds

    Line by line; a backquote stands for a double quote, which no line has
    otherwise.  Two files are missing: [rancherd-12-monitoring-dashboard.yaml], which is
    copied and never executed, and [rancherd-22-addons.yaml], which the build adds. *)
From Stdlib Require Import Ascii String.
From stdpp Require Import base list strings.
From S2P Require Import Prelude GoStrings GoJson.

Definition text (lines : list string) : string :=
  map_chars (fun c => if bool_decide (c = "`"%char) then quote else c) (join (String "010" "") lines).

Definition tpl_cos_after_install_chroot : string := text
  [ "# yip stage to overwrite after-install-chroot layout"; "if: '[ ! -f `/run/cos/recovery_mode` ]'"; "name: `Run after-install-chroot commands`";
    "commands:"; "    {{- if .OS.AfterInstallChrootCommands }}"; "    {{- range $cmd := .OS.AfterInstallChrootCommands }}";
    "    - {{ printf `%q` $cmd }}"; "    {{- end }}"; "    {{- end }}" ].

Definition tpl_cos_rootfs : string := text
  [ "# yip stage to overwrite rootfs layout"; "if: '[ ! -f `/run/cos/recovery_mode` ]'"; "name: `Rootfs layout overwrite`";
    "environment_file: /run/cos/cos-layout.env"; "environment:";
    "  VOLUMES: `LABEL=COS_OEM:/oem LABEL=COS_PERSISTENT:/usr/local{{ if .ShouldMountDataPartition }} LABEL=HARV_LH_DEFAULT:/var/lib/harvester/defaultdisk{{ end }}`";
    "  OVERLAY: `tmpfs:25%`"; "  RW_PATHS: `/var /etc /srv /boot /lib/firmware`"; "  PERSISTENT_STATE_PATHS: >-"; "    /etc/NetworkManager";
    "    /etc/systemd"; "    /etc/rancher"; "    /etc/ssh"; "    /etc/iscsi"; "    /etc/nvme"; "    /etc/cni"; "    /etc/pki/trust/anchors";
    "    /home"; "    /opt"; "    /root"; "    /usr/libexec"; "    /var/log"; "    /var/lib/rancher"; "    /var/lib/kubelet"; "    /var/lib/wicked";
    "    /var/lib/NetworkManager"; "    /var/lib/cni"; "    /var/lib/third-party"; "    /var/crash"; "    /var/lib/longhorn";
    "    {{- if .OS.PersistentStatePaths }}"; "    {{- range $path := .OS.PersistentStatePaths }}"; "    {{ $path }}"; "    {{- end }}";
    "    {{- end }}"; "    {{- if not .ShouldMountDataPartition }}"; "    /var/lib/harvester/defaultdisk"; "    {{- end }}";
    "  PERSISTENT_STATE_BIND: `true`"; "" ].

Definition tpl_multipath_conf_option1 : string := text
  [ "blacklist {"; "{{- range $val := . }}"; "    device {"; "        vendor `!{{ $val.Vendor }}`"; "        product `!{{ $val.Product }}`"; "    }";
    "{{- end }}"; "}" ].

Definition tpl_multipath_conf_option2 : string := text
  [ "blacklist {"; "{{- if .BlacklistWwids }}"; "{{- range .BlacklistWwids }}"; "    wwid `{{ . }}`"; "{{- end }}"; "{{- end }}";
    "{{- if .Blacklist }}"; "{{- range .Blacklist }}"; "    device {"; "        vendor `{{ .Vendor }}`"; "        product `{{ .Product }}`"; "    }";
    "{{- end }}"; "{{- end }}"; "}"; "blacklist_exceptions {"; "{{- if .BlacklistExceptionWwids }}"; "{{- range .BlacklistExceptionWwids }}";
    "    wwid `{{ . }}`"; "{{- end }}"; "{{- end }}"; "{{- if .BlacklistExceptions }}"; "{{- range .BlacklistExceptions }}"; "    device {";
    "        vendor `{{ .Vendor }}`"; "        product `{{ .Product }}`"; "    }"; "{{- end }}"; "{{- end }}"; "}"; "" ].

Definition tpl_multipath_conf : string := text
  [ "blacklist {"; "{{- range $wwid := .BlacklistWwids }}"; "    wwid `{{ $wwid }}`"; "{{- end }}"; "{{- range $val := .Blacklist }}";
    "    device {"; "        vendor `{{ $val.Vendor }}`"; "        product `{{ $val.Product }}`"; "    }"; "{{- end }}"; "}";
    "{{- if or .BlacklistExceptions .BlacklistExceptionWwids }}"; "blacklist_exceptions {"; "{{- range $wwid := .BlacklistExceptionWwids }}";
    "    wwid `{{ $wwid }}`"; "{{- end }}"; "{{- range $val := .BlacklistExceptions }}"; "    device {"; "        vendor `{{ $val.Vendor }}`";
    "        product `{{ $val.Product }}`"; "    }"; "{{- end }}"; "}"; "{{- end }}"; "" ].

Definition tpl_nm_bond_master : string := text
  [ "[connection]"; "id=bond-mgmt"; "type=bond"; "interface-name={{ .BondName }}"; "master={{ .BridgeName }}"; "slave-type=bridge"; ""; "[ethernet]";
    "{{ if gt .Bond.MTU 0 -}}"; "mtu={{ .Bond.MTU }}"; "{{- end }}"; ""; "[bond]"; "{{ range $key, $value := .Bond.BondOptions }}";
    "{{ $key }}={{ $value }}"; "{{ end }}"; ""; "[bridge-port]"; "vlans=1 pvid untagged{{ if gt .Bond.VlanID 1 -}},{{ .Bond.VlanID }}{{- end }}" ].

Definition tpl_nm_bond_slave : string := text
  [ "[connection]"; "id=bond-slave-{{ .Iface.Name }}"; "type=ethernet"; "interface-name={{ .Iface.Name }}"; "master={{ .BondName }}";
    "slave-type=bond"; "" ].

Definition tpl_nm_bridge : string := text
  [ "[connection]"; "id=bridge-mgmt"; "type=bridge"; "interface-name={{ .BridgeName }}"; ""; "[ethernet]"; "{{ if gt .Bridge.MTU 0 -}}";
    "mtu={{ .Bridge.MTU }}"; "{{- end }}"; ""; "[bridge]"; "forward-delay=0"; "stp=false"; "vlan-filtering=true"; "vlan-default-pvid=1";
    "{{ if gt .Bridge.VlanID 1 -}}"; "vlans={{ .Bridge.VlanID }}"; "{{- end }}"; ""; "[ipv4]"; "{{ if ne .DNSServers `` -}}";
    "dns={{ .DNSServers }}"; "{{- end }}"; "{{ if eq .Bridge.Method `none` -}}"; "method=disabled"; "{{- end }}";
    "{{ if eq .Bridge.Method `dhcp` -}}"; "method=auto"; "{{- end }}"; "{{ if eq .Bridge.Method `static` -}}"; "method=manual";
    "address1={{ .Bridge.IP }}/{{ .Bridge.SubnetMask }},{{ .Bridge.Gateway }}"; "{{- end }}"; ""; "[ipv6]"; "method=disabled"; "" ].

Definition tpl_nm_vlan : string := text
  [ "[connection]"; "id=vlan-mgmt"; "type=vlan"; ""; "[ethernet]"; "{{ if gt .Vlan.MTU 0 -}}"; "mtu={{ .Vlan.MTU }}"; "{{- end }}"; ""; "[vlan]";
    "flags=1"; "id={{ .Vlan.VlanID }}"; "parent={{ .BridgeName }}"; ""; "[ipv4]"; "{{ if ne .DNSServers `` -}}"; "dns={{ .DNSServers }}";
    "{{- end }}"; "{{ if eq .Vlan.Method `dhcp` -}}"; "method=auto"; "{{- end }}"; "{{ if eq .Vlan.Method `static` -}}"; "method=manual";
    "address1={{ .Vlan.IP }}/{{ .Vlan.SubnetMask }},{{ .Vlan.Gateway }}"; "{{- end }}"; ""; "[ipv6]"; "method=disabled" ].

Definition tpl_rancherd_10_harvester : string := text
  [ "resources:"; "# create the cattle-monitoring-system namespace and SA upfront, so that kubevirt monitoring-operator integration can find it";
    "- apiVersion: v1"; "  kind: Namespace"; "  metadata:"; "    name: cattle-monitoring-system"; "- apiVersion: v1"; "  kind: Namespace";
    "  metadata:"; "    name: cattle-logging-system"; "- apiVersion: v1"; "  kind: ServiceAccount"; "  metadata:"; "    annotations:";
    "      meta.helm.sh/release-name: rancher-monitoring"; "      meta.helm.sh/release-namespace: cattle-monitoring-system"; "    labels:";
    "      app: rancher-monitoring-operator"; "      app.kubernetes.io/component: prometheus-operator";
    "      app.kubernetes.io/instance: rancher-monitoring"; "      app.kubernetes.io/managed-by: Helm";
    "      app.kubernetes.io/name: rancher-monitoring-prometheus-operator"; "      heritage: Helm"; "      release: rancher-monitoring";
    "    name: rancher-monitoring-operator"; "    namespace: cattle-monitoring-system"; "- apiVersion: helm.cattle.io/v1"; "  kind: HelmChartConfig";
    "  metadata:"; "    name: rke2-ingress-nginx"; "    namespace: kube-system"; "  spec:"; "    valuesContent: |-"; "      controller:";
    "        config:"; "          proxy-body-size: `0`"; "          proxy-request-buffering: `off`"; "        admissionWebhooks:";
    "          port: 8444"; "        publishService:"; "          pathOverride: kube-system/ingress-expose"; "        extraArgs:";
    "          default-ssl-certificate: cattle-system/tls-rancher-internal"; "- apiVersion: v1"; "  kind: Secret"; "  metadata:";
    "    name: tls-ingress"; "    namespace: cattle-system"; "  type: Opaque"; "  data:"; "    tls.crt: Cg=="; "    tls.key: Cg==";
    "- apiVersion: networking.k8s.io/v1"; "  kind: Ingress"; "  metadata:"; "    name: rancher-expose"; "    namespace: cattle-system"; "  spec:";
    "    rules:"; "    - http:"; "        paths:"; "        - path: /"; "          pathType: Prefix"; "          backend:"; "            service:";
    "              name: rancher"; "              port:"; "                number: 80"; "- apiVersion: management.cattle.io/v3";
    "  kind: ManagedChart"; "  metadata:"; "    name: harvester"; "    namespace: fleet-local"; "  spec:"; "    chart: harvester";
    "    releaseName: harvester"; "    version: {{ .HarvesterChartVersion }}"; "    defaultNamespace: harvester-system"; "    timeoutSeconds: 600";
    "    diff:"; "      comparePatches:"; "      - apiVersion: storage.k8s.io/v1"; "        jsonPointers:"; "        - /metadata/annotations";
    "        kind: StorageClass"; "        name: harvester-longhorn"; "      - apiVersion: apiextensions.k8s.io/v1"; "        jsonPointers:";
    "        - /status/acceptedNames"; "        - /status/conditions"; "        - /status/storedVersions"; "        kind: CustomResourceDefinition";
    "        name: engineimages.longhorn.io"; "      - apiVersion: apiextensions.k8s.io/v1"; "        jsonPointers:";
    "        - /status/acceptedNames"; "        - /status/conditions"; "        - /status/storedVersions"; "        kind: CustomResourceDefinition";
    "        name: nodes.longhorn.io"; "      - apiVersion: apiextensions.k8s.io/v1"; "        jsonPointers:"; "        - /status/acceptedNames";
    "        - /status/conditions"; "        - /status/storedVersions"; "        kind: CustomResourceDefinition";
    "        name: volumes.longhorn.io"; "      - apiVersion: apiextensions.k8s.io/v1"; "        jsonPointers:"; "        - /status/acceptedNames";
    "        - /status/conditions"; "        - /status/storedVersions"; "        kind: CustomResourceDefinition";
    "        name: settings.longhorn.io"; "      - apiVersion: apiextensions.k8s.io/v1"; "        jsonPointers:"; "        - /status/acceptedNames";
    "        - /status/conditions"; "        - /status/storedVersions"; "        kind: CustomResourceDefinition";
    "        name: replicas.longhorn.io"; "      - apiVersion: apiextensions.k8s.io/v1"; "        jsonPointers:"; "        - /status/acceptedNames";
    "        - /status/conditions"; "        - /status/storedVersions"; "        kind: CustomResourceDefinition";
    "        name: instancemanagers.longhorn.io"; "      - apiVersion: apiextensions.k8s.io/v1"; "        jsonPointers:";
    "        - /status/acceptedNames"; "        - /status/conditions"; "        - /status/storedVersions"; "        kind: CustomResourceDefinition";
    "        name: engines.longhorn.io"; "    repoName: harvester-charts"; "    targets:"; "    - clusterName: local"; "      clusterSelector:";
    "        matchExpressions:"; "        - key: provisioning.cattle.io/unmanaged-system-agent"; "          operator: DoesNotExist"; "    values:";
    "      {{- if .Vip }}"; "      service:"; "        vip:"; "          enabled: true"; "          mode: `{{ .VipMode }}`";
    "          ip: `{{ .Vip }}`"; "          hwAddress: `{{ .VipHwAddr }}`"; "      {{- end }}";
    "      {{- if .Harvester.StorageClass.ReplicaCount }}"; "      storageClass:";
    "        replicaCount: {{ .Harvester.StorageClass.ReplicaCount }}"; "      {{- end }}"; "      {{- if .Harvester.EnableGoCoverDir }}";
    "      enableGoCoverDir: true"; "      {{- end }}"; "      kubevirt:"; "        spec:"; "          monitorAccount: rancher-monitoring-operator";
    "          monitorNamespace: cattle-monitoring-system"; "      containers:"; "        apiserver:"; "          image:";
    "            imagePullPolicy: `IfNotPresent`"; "          hciMode: true"; "      multus:"; "        enabled: false"; "      longhorn:";
    "        enabled: true"; "        defaultSettings:"; "          taintToleration: `kubevirt.io/drain:NoSchedule`";
    "          defaultDataPath: `/var/lib/harvester/defaultdisk`";
    "          {{- if .Harvester.Longhorn.DefaultSettings.GuaranteedInstanceManagerCPU }}";
    "          guaranteedInstanceManagerCPU: {{ .Harvester.Longhorn.DefaultSettings.GuaranteedInstanceManagerCPU }}"; "          {{- end }}";
    "          {{- if .Harvester.Longhorn.DefaultSettings.StorageReservedPercentageForDefaultDisk }}";
    "          storageReservedPercentageForDefaultDisk: `{{ .Harvester.Longhorn.DefaultSettings.StorageReservedPercentageForDefaultDisk }}`";
    "          {{- end }}"; "          detachManuallyAttachedVolumesWhenCordoned: true"; "          nodeDrainPolicy: `allow-if-replica-is-stopped`";
    "      harvester-network-controller:"; "        enabled: true"; "        vipEnabled: true"; "        image:";
    "          pullPolicy: `IfNotPresent`"; "      harvester-networkfs-manager:"; "        enabled: true"; "        image:";
    "          pullPolicy: `IfNotPresent`"; "      harvester-node-disk-manager:"; "        enabled: true"; "        image:";
    "          pullPolicy: `IfNotPresent`"; "        labelFilter:"; "          - `COS_*`"; "          - `HARV_*`"; "      rancherEmbedded: true";
    "      webhook:"; "        image:"; "          imagePullPolicy: `IfNotPresent`"; "      harvester-load-balancer:"; "        enabled: true";
    "      kube-vip:"; "        enabled: true"; "      kube-vip-cloud-provider:"; "        enabled: true"; "      promote:";
    "        clusterPodCIDR: {{ or .ClusterPodCIDR `10.52.0.0/16` }}"; "        clusterServiceCIDR: {{ or .ClusterServiceCIDR `10.53.0.0/16` }}";
    "        clusterDNS: {{ or .ClusterDNS `10.53.0.10` }}"; "- apiVersion: management.cattle.io/v3"; "  kind: ManagedChart"; "  metadata:";
    "    name: harvester-crd"; "    namespace: fleet-local"; "  spec:"; "    chart: harvester-crd"; "    releaseName: harvester-crd";
    "    version: {{ .HarvesterChartVersion }}"; "    defaultNamespace: harvester-system"; "    repoName: harvester-charts";
    "    timeoutSeconds: 600"; "    # takeOwnership will force apply this chart without checking ownership in labels and annotations.";
    "    # https://github.com/rancher/fleet/blob/ce9c0d6c0a455d61e87c0f19df79d0ee11a89eeb/pkg/helmdeployer/deployer.go#L323";
    "    # https://github.com/rancher/helm/blob/ee91a121e0aa301fcef2bfbc7184f96edd4b50f5/pkg/action/validate.go#L71-L76"; "    takeOwnership: true";
    "    targets:"; "    - clusterName: local"; "      clusterSelector:"; "        matchExpressions:";
    "        - key: provisioning.cattle.io/unmanaged-system-agent"; "          operator: DoesNotExist"; "    values: {}"; "" ].

Definition tpl_rancherd_11_monitoring_crd : string := text
  [ "resources:"; "- apiVersion: management.cattle.io/v3"; "  kind: ManagedChart"; "  metadata:"; "    name: rancher-monitoring-crd";
    "    namespace: fleet-local"; "  spec:"; "    chart: rancher-monitoring-crd"; "    releaseName: rancher-monitoring-crd";
    "    version: {{ .MonitoringChartVersion }}"; "    defaultNamespace: cattle-monitoring-system"; "    repoName: harvester-charts";
    "    timeoutSeconds: 600"; "    targets:"; "    - clusterName: local"; "      clusterSelector:"; "        matchExpressions:";
    "        - key: provisioning.cattle.io/unmanaged-system-agent"; "          operator: DoesNotExist"; "" ].

Definition tpl_rancherd_14_logging_crd : string := text
  [ "resources:"; "- apiVersion: management.cattle.io/v3"; "  kind: ManagedChart"; "  metadata:"; "    name: rancher-logging-crd";
    "    namespace: fleet-local"; "  spec:"; "    chart: rancher-logging-crd"; "    releaseName: rancher-logging-crd";
    "    version: {{ .LoggingChartVersion }}"; "    defaultNamespace: cattle-logging-system"; "    repoName: harvester-charts";
    "    timeoutSeconds: 600"; "    targets:"; "    - clusterName: local"; "      clusterSelector:"; "        matchExpressions:";
    "        - key: provisioning.cattle.io/unmanaged-system-agent"; "          operator: DoesNotExist"; "" ].

Definition tpl_rancherd_15_kubeovn_operator_crd : string := text
  [ "resources:"; "- apiVersion: management.cattle.io/v3"; "  kind: ManagedChart"; "  metadata:"; "    name: kubeovn-operator-crd";
    "    namespace: fleet-local"; "  spec:"; "    chart: kubeovn-operator-crd"; "    releaseName: kubeovn-operator-crd";
    "    version: {{ .KubeovnOperatorChartVersion }}"; "    defaultNamespace: kube-system"; "    repoName: harvester-charts";
    "    timeoutSeconds: 600"; "    targets:"; "    - clusterName: local"; "      clusterSelector:"; "        matchExpressions:";
    "        - key: provisioning.cattle.io/unmanaged-system-agent"; "          operator: DoesNotExist"; "" ].

Definition tpl_rancherd_20_harvester_settings : string := text
  [ "resources: {{ if not .SystemSettings -}} [] {{- else }}"; "{{- range $name, $value := .SystemSettings }}";
    "- apiVersion: harvesterhci.io/v1beta1"; "  kind: Setting"; "  metadata:"; "    name: {{ printf `%q` $name }}";
    "  value: {{ printf `%q` $value }}"; "{{- end }}"; "{{- end -}}"; "" ].

Definition tpl_rancherd_23_multus_config : string := text
  [ "resources:"; "- apiVersion: helm.cattle.io/v1"; "  kind: HelmChartConfig"; "  metadata:"; "    name: rke2-multus"; "    namespace: kube-system";
    "  spec:"; "    valuesContent: |-"; "      labels:"; "        nodeSelector: "; "          kubernetes.io/os: linux";
    "          kubernetes.io/arch: arm64" ].

Definition tpl_rancherd_config : string := text
  [ "{{if .ServerURL -}}"; "server: {{ .ServerURL }}"; "role: agent"; "{{- else -}}"; "role: cluster-init"; "{{- end }}";
    "nodeName: {{ .Hostname }}"; "token: {{ printf `%q` .Token }}"; "kubernetesVersion: {{ .RuntimeVersion }}";
    "rancherVersion: {{ .RancherVersion }}"; "rancherInstallerImage: rancher/system-agent-installer-rancher:{{ .RancherVersion }}"; "labels:";
    " - harvesterhci.io/managed=true"; "extraConfig:"; "  disable:"; "  - rke2-snapshot-controller"; "  - rke2-snapshot-controller-crd";
    "  - rke2-snapshot-validation-webhook"; "" ].

Definition tpl_rke2_90_harvester_agent : string := text
  [ "{{- with $args :=  .GetKubeletArgs }}"; "kubelet-arg:"; "{{- range $arg := $args }}"; "- {{ printf `%q` $arg }}"; "{{- end }}"; "{{- end }}"; "" ].

Definition tpl_rke2_90_harvester_server : string := text
  [ "cni: multus,canal"; "cluster-cidr: {{ or .ClusterPodCIDR `10.52.0.0/16` }}"; "service-cidr: {{ or .ClusterServiceCIDR `10.53.0.0/16` }}";
    "cluster-dns: {{ or .ClusterDNS `10.53.0.10` }}"; "tls-san:"; "  - {{ .Vip }}"; "{{if .SANS -}}"; "{{- range .SANS }}"; "  - {{ . }}";
    "{{- end }}"; "{{- end }}"; "{{- with $args :=  .GetKubeletArgs }}"; "kubelet-arg:"; "{{- range $arg := $args }}"; "- {{ printf `%q` $arg }}";
    "{{- end }}"; "{{- end }}"; "audit-policy-file: /etc/rancher/rke2/config.yaml.d/92-harvester-kube-audit-policy.yaml"; "" ].

Definition tpl_rke2_91_harvester_cdi : string := text
  [ "# handle the permission issue of Longhorn for CDI"; "`nonroot-devices`: true" ].

Definition tpl_rke2_92_harvester_kube_audit_policy : string := text
  [ "apiVersion: audit.k8s.io/v1"; "kind: Policy"; "omitStages:"; "  - `ResponseStarted`"; "  - `ResponseComplete`"; "rules:";
    "  # Any include/exclude rules are added here"; ""; "  # A catch-all rule to log all other (create/delete/patch) requests at the Metadata level";
    "  - level: Metadata"; "    verbs: [`create`, `delete`, `patch`]"; "    omitStages:"; "      - `ResponseStarted`"; "      - `ResponseComplete`";
    "" ].

Definition tpl_rke2_99_harvester_witness : string := text
  [ "node-taint:"; "- `node-role.kubernetes.io/etcd=true:NoExecute`" ].

Definition tpl_rke2_99_z00_harvester_reserved_resources : string := text
  [ "kubelet-arg+:"; "- {{ printf `%q` .GetSystemReserved }}"; "- {{ printf `%q` .GetKubeReserved }}" ].

Definition embedded_files : list (string * string) :=
  [ ("cos-after-install-chroot.yaml", tpl_cos_after_install_chroot);
    ("cos-rootfs.yaml", tpl_cos_rootfs);
    ("multipath.conf.option1.tmpl", tpl_multipath_conf_option1);
    ("multipath.conf.option2.tmpl", tpl_multipath_conf_option2);
    ("multipath.conf.tmpl", tpl_multipath_conf);
    ("nm-bond-master.nmconnection", tpl_nm_bond_master);
    ("nm-bond-slave.nmconnection", tpl_nm_bond_slave);
    ("nm-bridge.nmconnection", tpl_nm_bridge);
    ("nm-vlan.nmconnection", tpl_nm_vlan);
    ("rancherd-10-harvester.yaml", tpl_rancherd_10_harvester);
    ("rancherd-11-monitoring-crd.yaml", tpl_rancherd_11_monitoring_crd);
    ("rancherd-14-logging-crd.yaml", tpl_rancherd_14_logging_crd);
    ("rancherd-15-kubeovn-operator-crd.yaml", tpl_rancherd_15_kubeovn_operator_crd);
    ("rancherd-20-harvester-settings.yaml", tpl_rancherd_20_harvester_settings);
    ("rancherd-23-multus-config.yaml", tpl_rancherd_23_multus_config);
    ("rancherd-config.yaml", tpl_rancherd_config);
    ("rke2-90-harvester-agent.yaml", tpl_rke2_90_harvester_agent);
    ("rke2-90-harvester-server.yaml", tpl_rke2_90_harvester_server);
    ("rke2-91-harvester-cdi.yaml", tpl_rke2_91_harvester_cdi);
    ("rke2-92-harvester-kube-audit-policy.yaml", tpl_rke2_92_harvester_kube_audit_policy);
    ("rke2-99-harvester-witness.yaml", tpl_rke2_99_harvester_witness);
    ("rke2-99-z00-harvester-reserved-resources.yaml", tpl_rke2_99_z00_harvester_reserved_resources) ].
