(* ===== verification/ConfigOps.v ===== *)
(** * ConfigOps: operations on the configuration ([pkg/config/config.go])

    Multipath options, kubelet arguments, CPU reservations, data partition
    decisions and the lookup of network interfaces. *)
From Stdlib Require Import ZArith Lia Ascii String.
From stdpp Require Import base tactics list gmap strings sorting.
From S2P Require Import Prelude GoStrings GoNum GoNet GoJson Config Merge K8sNames.
Local Open Scope Z_scope.

(** ** Multipath configuration *)

Module MultiPath.
Definition string_field {A} (get : A -> string) (set : string -> A -> A) : decode A := fun a v =>
  s ← decode_string (get a) v; Some (set s a).

Definition decode_DiskConfig : decode DiskConfig :=
  decode_struct (fun k =>
    if bool_decide (k = "vendor") then
      Some (string_field dc_Vendor (fun s d => mkDiskConfig s (dc_Product d)))
    else if bool_decide (k = "product") then
      Some (string_field dc_Product (fun s d => mkDiskConfig (dc_Vendor d) s))
    else None).

Definition decode_disks : decode (list DiskConfig) := decode_list (mkDiskConfig "" "") decode_DiskConfig.
Definition decode_strings : decode (list string) := decode_list "" decode_string.

Definition Option2_field (k : string) : option (decode MultiPathOption2) :=
    if bool_decide (k = "blacklist") then Some (fun m v =>
      l ← decode_disks [] v; Some (mkMultiPath l (mp_BlacklistWwids m) (mp_BlacklistExceptions m) (mp_BlacklistExceptionWwids m)))
    else if bool_decide (k = "blacklistwwids") then Some (fun m v =>
      l ← decode_strings [] v; Some (mkMultiPath (mp_Blacklist m) l (mp_BlacklistExceptions m) (mp_BlacklistExceptionWwids m)))
    else if bool_decide (k = "blacklistexceptions") then Some (fun m v =>
      l ← decode_disks [] v; Some (mkMultiPath (mp_Blacklist m) (mp_BlacklistWwids m) l (mp_BlacklistExceptionWwids m)))
    else if bool_decide (k = "blacklistexceptionwwids") then Some (fun m v =>
      l ← decode_strings [] v; Some (mkMultiPath (mp_Blacklist m) (mp_BlacklistWwids m) (mp_BlacklistExceptions m) l))
    else None.
Definition decode_Option2 : decode MultiPathOption2 := decode_struct Option2_field.

(** The JSON value the field stands for: a string is parsed as JSON text, any
    other value is marshalled (parsed options under their field names). *)
Definition json_strings (l : list string) : json := JArr (map JStr l).
Definition json_disks (l : list DiskConfig) : json :=
  JArr (map (fun d => JObj [("vendor", JStr (dc_Vendor d)); ("product", JStr (dc_Product d))]) l).
Definition omitempty {A} (k : string) (f : list A -> json) (l : list A) : list (string * json) :=
  match l with [] => [] | _ => [(k, f l)] end.
Definition json_value (m : MultiPathConfig) : option json :=
  match m with
  | MPNil => Some JNull
  | MPRaw (JStr s) => json_parse s
  | MPRaw j => Some j
  | MPOption1 l => Some (json_disks l)
  | MPOption2 m => Some (JObj (
      omitempty "blacklist" json_disks (mp_Blacklist m) ++
      omitempty "blacklistWwids" json_strings (mp_BlacklistWwids m) ++
      omitempty "blacklistExceptions" json_disks (mp_BlacklistExceptions m) ++
      omitempty "blacklistExceptionWwids" json_strings (mp_BlacklistExceptionWwids m)))
  end.

Definition ParseMultiPathConfig (esc : ExternalStorageConfig) : result ExternalStorageConfig :=
  match es_MultiPathConfig esc with
  | MPNil => Ok esc
  | m =>
      let unsupported := Err (EMsg "unsupported multiPathConfig format") in
      match json_value m with
      | None => unsupported
      | Some j =>
          match decode_Option2 (mkMultiPath [] [] [] []) j with
          | Some o => Ok (mkStorage (es_Enabled esc) (MPOption2 o))
          | None =>
              match decode_disks [] j with
              | Some l => Ok (mkStorage (es_Enabled esc) (MPOption1 l))
              | None => unsupported
              end
          end
      end
  end.

(** [GetConfig] of the two options. *)
Definition GetConfig (m : MultiPathConfig) : result MultiPathOption2 :=
  match m with
  | MPOption1 l => Ok (mkMultiPath l [] [] [])
  | MPOption2 m => Ok m
  | _ => Panic
  end.

(** [Render]: the templates multipath.conf.option1.tmpl and
    multipath.conf.option2.tmpl. *)
Definition nl : string := String "010" "".
Definition quoted (s : string) : string := String quote (s +:+ String quote "").
Definition device_block (neg : string) (d : DiskConfig) : string :=
  nl +:+ "    device {" +:+ nl +:+ "        vendor " +:+ quoted (neg +:+ dc_Vendor d) +:+ nl +:+
  "        product " +:+ quoted (neg +:+ dc_Product d) +:+ nl +:+ "    }".
Definition wwid_line (w : string) : string := nl +:+ "    wwid " +:+ quoted w.
Definition concat_map (A : Type) (f : A -> string) (l : list A) : string := join "" (map f l).
Definition Render1 (l : list DiskConfig) : string :=
  "blacklist {" +:+ concat_map _ (device_block "!") l +:+ nl +:+ "}".
Definition Render2 (m : MultiPathOption2) : string :=
  "blacklist {" +:+ concat_map _ wwid_line (mp_BlacklistWwids m) +:+
  concat_map _ (device_block "") (mp_Blacklist m) +:+ nl +:+ "}" +:+ nl +:+
  "blacklist_exceptions {" +:+ concat_map _ wwid_line (mp_BlacklistExceptionWwids m) +:+
  concat_map _ (device_block "") (mp_BlacklistExceptions m) +:+ nl +:+ "}" +:+ nl.

(** The type assertion to [MultiPathOption] panics on an unparsed value. *)
Definition Render (m : MultiPathConfig) : result string :=
  match m with
  | MPOption1 l => Ok (Render1 l)
  | MPOption2 m => Ok (Render2 m)
  | MPNil | MPRaw _ => Panic
  end.
End MultiPath.

(** ** Kubelet arguments *)

Definition checkLabel (kv : string * string) : result string :=
  let '(k, v) := kv in
  _ ← reject_if (negb (IsQualifiedName k)) (EWrap ("invalid label name '" +:+ k +:+ "'") (EParse "qualified name" k));
  _ ← reject_if (negb (IsValidLabelValue v)) (EWrap ("invalid label value '" +:+ v +:+ "'") (EParse "label value" v));
  mret (k +:+ "=" +:+ v).

(** [labels] lists [c.Labels] in the order the map iteration visits them. *)
Definition GetKubeletArgs (labels : list (string * string)) (role : string) : result (list string) :=
  labelStrs ← map_each checkLabel labels;
  mret (["max-pods=" +:+ itoa MaxPods] ++
        (if bool_decide (labelStrs = []) then [] else ["node-labels=" +:+ join "," labelStrs]) ++
        (if bool_decide (role = RoleWitness)
         then ["--register-with-taints=node-role.kubernetes.io/etcd=true:NoExecute"] else [])).

(** ** CPU reservations *)

(** The compile-time constants are rounded once; the sums and the product are
    rounded at each step. *)
Definition calculateCPUReservedInMilliCPU (cores maxPods : Z) : Z :=
  if (cores <=? 0) || (maxPods <=? 0) then 0
  else
    let f64 := f_of_Z float64 in
    let add := f_add float64 in
    let reserved := add (f64 0) (f_const float64 6 100) in
    let reserved := if 1 <? cores then add reserved (f_const float64 1 100) else reserved in
    let reserved := if 2 <? cores then add reserved (f_const float64 1 100) else reserved in
    let reserved := if 4 <? cores
      then add reserved (f_div float64 (f_mul float64 (f64 (cores - 4)) (f_const float64 1 4)) (f64 100))
      else reserved in
    let reserved := if 110 <? maxPods then add reserved (f_const float64 4 10) else reserved in
    f_trunc (f_mul float64 reserved (f64 1000)).

Definition systemReservedMilli (numCPU : Z) : Z := Z.quot (calculateCPUReservedInMilliCPU numCPU MaxPods * 2 * 2) 5.
Definition kubeReservedMilli (numCPU : Z) : Z := Z.quot (calculateCPUReservedInMilliCPU numCPU MaxPods * 2 * 3) 5.
Definition GetSystemReserved (numCPU : Z) : string :=
  "system-reserved=cpu=" +:+ itoa (systemReservedMilli numCPU) +:+ "m".
Definition GetKubeReserved (numCPU : Z) : string :=
  "kube-reserved=cpu=" +:+ itoa (kubeReservedMilli numCPU) +:+ "m".

(** ** Data partition *)

Definition ShouldCreateDataPartitionOnOsDisk (c : HarvesterConfig) : bool :=
  let i := hc_Install c in
  if bool_decide (in_Role i = RoleWitness) then false
  else bool_decide (in_DataDisk i = "") && negb (in_ForceMBR i).

Definition ShouldMountDataPartition (c : HarvesterConfig) : bool :=
  let i := hc_Install c in
  if bool_decide (in_Role i = RoleWitness) then false
  else if in_ForceMBR i && bool_decide (in_DataDisk i = "") then false
  else true.

(** ** Network interfaces

    [net.Interfaces] is the argument [interfaces]. *)
Record Iface : Set := mkIface { ifc_Name : string; ifc_HardwareAddr : list Z; ifc_Loopback : bool }.

Section interfaces.
Context (interfaces : result (list Iface)).

Definition FindNetworkInterfaceName (n : NetworkInterface) : result NetworkInterface :=
  if bool_decide (if_Name n <> "") then Ok n
  else if bool_decide (if_HwAddr n <> "") then
    hwAddr ← ParseMAC (if_HwAddr n);
    ifaces ← interfaces;
    match list_find (fun i => mac_string (ifc_HardwareAddr i) = mac_string hwAddr) ifaces with
    | Some (_, i) => Ok (set_if_Name (ifc_Name i) n)
    | None => Err (EMsg ("no interface matching hardware address " +:+ if_HwAddr n +:+ " found"))
    end
  else Ok n.

Definition FindNetworkInterfaceHwAddr (n : NetworkInterface) : result NetworkInterface :=
  if bool_decide (if_HwAddr n <> "") then Ok n
  else if bool_decide (if_Name n <> "") then
    ifaces ← interfaces;
    match list_find (fun i => ifc_Name i = if_Name n) ifaces with
    | Some (_, i) => Ok (set_if_HwAddr (mac_string (ifc_HardwareAddr i)) n)
    | None => Err (EMsg ("no interface matching name " +:+ if_Name n +:+ " found"))
    end
  else Ok n.

Definition FindNetworkInterfaceNameAndHwAddr (n : NetworkInterface) : result NetworkInterface :=
  n ← FindNetworkInterfaceName n; FindNetworkInterfaceHwAddr n.
End interfaces.

(** ** Lemmas *)

Import MultiPath.

Lemma decode_DiskConfig_json d :
  decode_DiskConfig (mkDiskConfig "" "") (JObj [("vendor", JStr (dc_Vendor d)); ("product", JStr (dc_Product d))]) = Some d.
Proof. by destruct d. Qed.

Lemma decode_disks_json l : decode_disks [] (json_disks l) = Some l.
Proof.
  unfold decode_disks, decode_list, json_disks. induction l as [|d l IH]; [done|].
  cbn [map]. cbn [mapM]. rewrite decode_DiskConfig_json. cbn. by rewrite IH.
Qed.

Lemma decode_strings_json l : decode_strings [] (json_strings l) = Some l.
Proof.
  unfold decode_strings, decode_list, json_strings. induction l as [|d l IH]; [done|].
  cbn [map mapM]. cbn. by rewrite IH.
Qed.

(** One field of the printed object is decoded back, or was omitted. *)
Lemma decode_omitempty {A M} (field : string -> option (decode M)) (k : string) (print : list A -> json)
    (dec : decode (list A)) (upd : M -> list A -> M) l rest m :
  field (to_lower k) = Some (fun m v => l ← dec [] v; Some (upd m l)) ->
  (forall l, dec [] (print l) = Some l) ->
  foldl (decode_field field) (Some m) (omitempty k print l ++ rest) =
  foldl (decode_field field) (Some (match l with [] => m | _ => upd m l end)) rest.
Proof. intros Hf Hd. destruct l; [done|]. cbn [omitempty app foldl]. f_equal. unfold decode_field. cbn [fst snd mbind option_bind]. rewrite Hf. cbn [mbind option_bind]. by rewrite Hd. Qed.

Lemma json_value_option2 m : 
  (j ← json_value (MPOption2 m); decode_Option2 (mkMultiPath [] [] [] []) j) = Some m.
Proof.
  destruct m as [b w e x]. cbn [json_value mbind option_bind mp_Blacklist mp_BlacklistWwids mp_BlacklistExceptions mp_BlacklistExceptionWwids].
  unfold decode_Option2, decode_struct.
  erewrite (decode_omitempty _ "blacklist" json_disks decode_disks) by (reflexivity || apply decode_disks_json).
  erewrite (decode_omitempty _ "blacklistWwids" json_strings decode_strings) by (reflexivity || apply decode_strings_json).
  erewrite (decode_omitempty _ "blacklistExceptions" json_disks decode_disks) by (reflexivity || apply decode_disks_json).
  rewrite <- (app_nil_r (omitempty _ _ _)).
  erewrite (decode_omitempty _ "blacklistExceptionWwids" json_strings decode_strings) by (reflexivity || apply decode_strings_json).
  by destruct b, w, e, x.
Qed.

(** A parsed option is parsed again to itself. *)
Lemma ParseMultiPathConfig_parsed b m :
  match m with MPRaw _ => False | _ => True end ->
  ParseMultiPathConfig (mkStorage b m) = Ok (mkStorage b m).
Proof.
  destruct m as [|l|m|j]; try done; intros _; unfold ParseMultiPathConfig; cbn [es_MultiPathConfig es_Enabled].
  - cbn [json_value]. change (decode_Option2 (mkMultiPath [] [] [] []) (json_disks l)) with (@None MultiPathOption2).
    lazy iota beta zeta. by rewrite decode_disks_json.
  - pose proof (json_value_option2 m) as H. destruct (json_value (MPOption2 m)) as [j|]; [|done].
    cbn in H. by rewrite H.
Qed.

Lemma ParseMultiPathConfig_result esc esc' :
  ParseMultiPathConfig esc = Ok esc' ->
  es_Enabled esc' = es_Enabled esc /\
  match es_MultiPathConfig esc' with
  | MPNil => es_MultiPathConfig esc = MPNil | MPRaw _ => False | _ => True end.
Proof.
  unfold ParseMultiPathConfig. destruct esc as [b m]. cbn [es_Enabled es_MultiPathConfig].
  destruct m; [by intros [= <-]|..];
    (destruct (json_value _); [|done]); (destruct (decode_Option2 _ _); [by intros [= <-]|]);
    (destruct (decode_disks _ _); [by intros [= <-]|done]).
Qed.

Lemma name_char_comma : name_char "," = false.
Proof. reflexivity. Qed.


(** Splitting a rendered label at its first ['='] gives the label back, and no
    rendered label contains the separator of the list. *)
Lemma checkLabel_ok kv s :
  checkLabel kv = Ok s ->
  split2 "=" s = (fst kv, Some (snd kv)) /\ has_char "," s = false /\
  IsQualifiedName (fst kv) = true /\ IsValidLabelValue (snd kv) = true.
Proof.
  destruct kv as [k v]. unfold checkLabel. intros H. inv_ok. cbn [fst snd].
  apply negb_false_iff in H, H0.
  pose proof (qualified_name_chars k "=" H eq_refl eq_refl ltac:(discriminate) ltac:(discriminate)) as Hk.
  pose proof (qualified_name_chars k "," H eq_refl eq_refl ltac:(discriminate) ltac:(discriminate)) as Hk'.
  pose proof (label_value_chars v "," H0 eq_refl) as Hv.
  split_and!; try done.
  - by apply split2_app.
  - by rewrite has_char_app, has_char_app, Hk', Hv.
Qed.

Lemma GetKubeletArgs_ok labels role args :
  GetKubeletArgs labels role = Ok args <->
  exists ls, Forall2 (fun kv s => checkLabel kv = Ok s) labels ls /\
    args = ["max-pods=200"] ++ (if bool_decide (ls = []) then [] else ["node-labels=" +:+ join "," ls]) ++
           (if bool_decide (role = RoleWitness)
            then ["--register-with-taints=node-role.kubernetes.io/etcd=true:NoExecute"] else []).
Proof.
  unfold GetKubeletArgs. rewrite bind_ok. setoid_rewrite map_each_ok. split.
  - intros (ls & Hls & [= <-]). by exists ls.
  - intros (ls & Hls & ->). by exists ls.
Qed.

(** What the kubelet reads back from [node-labels]. *)
Definition parse_node_labels (arg : string) : list (string * option string) :=
  map (split2 "=") (split_on "," (trim_prefix arg "node-labels=")).

(** ** Properties *)

(** C35: Kubelet arguments are injection-free: when [GetKubeletArgs] succeeds
    every label is valid, the list starts with the pod limit, and with at
    least one label the second argument, split at the commas and the equal
    signs as the kubelet does, gives back exactly the labels (in the order of
    the map iteration). *)
Theorem GetKubeletArgs_roundtrip labels role args :
  labels <> [] -> GetKubeletArgs labels role = Ok args ->
  Forall (fun kv => IsQualifiedName (fst kv) = true /\ IsValidLabelValue (snd kv) = true) labels /\
  exists node_labels rest, args = "max-pods=200" :: node_labels :: rest /\
    parse_node_labels node_labels = map (fun kv => (fst kv, Some (snd kv))) labels.
Proof.
  intros Hne (ls & Hls & ->)%GetKubeletArgs_ok.
  assert (Hls' : ls <> []) by (intros ->; apply Forall2_nil_inv_r in Hls; done).
  assert (Hall : Forall2 (fun kv s => split2 "=" s = (fst kv, Some (snd kv)) /\ has_char "," s = false /\
    IsQualifiedName (fst kv) = true /\ IsValidLabelValue (snd kv) = true) labels ls).
  { eapply Forall2_impl; [exact Hls|]. intros kv s. apply checkLabel_ok. }
  split.
  - eapply Forall2_Forall_l; [exact Hall|]. apply Forall_true. naive_solver.
  - eexists _, _. split; [by rewrite bool_decide_false by done|].
    unfold parse_node_labels, trim_prefix.
    change (strip_prefix "node-labels=" ("node-labels=" +:+ join "," ls)) with (Some (join "," ls)). cbn [from_option id].
    rewrite (join_split_on "," ls) by (done || (eapply Forall2_Forall_r; [exact Hall|]; apply Forall_true; naive_solver)).
    clear -Hall. induction Hall as [|kv s l ls' H _ IH]; [done|]. cbn [map]. by rewrite (proj1 H), IH.
Qed.

Lemma GetKubeletArgs_roundtrip_witness :
  exists node_labels rest,
    ["max-pods=200"; "node-labels=topology.kubernetes.io/zone=z1,a=b";
     "--register-with-taints=node-role.kubernetes.io/etcd=true:NoExecute"] = "max-pods=200" :: node_labels :: rest /\
    parse_node_labels node_labels = [("topology.kubernetes.io/zone", Some "z1"); ("a", Some "b")].
Proof.
  refine (proj2 (GetKubeletArgs_roundtrip [("topology.kubernetes.io/zone", "z1"); ("a", "b")] "witness" _ _ _));
    [discriminate | by vm_compute].
Defined.

(** The order in which the label map is visited does not matter for
    acceptance: [GetKubeletArgs] succeeds on one enumeration of the labels
    exactly when it succeeds on any other. *)
Theorem GetKubeletArgs_order labels labels' role :
  labels ≡ₚ labels' ->
  is_ok (GetKubeletArgs labels role) = is_ok (GetKubeletArgs labels' role).
Proof.
  intros Hp.
  assert (Hiff : forall l, is_ok (GetKubeletArgs l role) = true <-> Forall (fun kv => is_ok (checkLabel kv) = true) l).
  { intros l. rewrite is_ok_true. setoid_rewrite GetKubeletArgs_ok. split.
    - intros (_ & ls & H & _). eapply Forall2_Forall_l; [exact H|]. apply Forall_true. intros ?? ->. done.
    - intros H. assert (exists ls, Forall2 (fun kv s => checkLabel kv = Ok s) l ls) as [ls Hls].
      { induction H as [|kv l Hk _ [ls IH]]; [by exists []|]. apply is_ok_true in Hk as [s Hs].
        exists (s :: ls). by constructor. }
      eexists _, ls. split; [exact Hls|reflexivity]. }
  apply eq_true_iff_eq. rewrite !Hiff. by rewrite Hp.
Qed.

Lemma GetKubeletArgs_order_witness :
  is_ok (GetKubeletArgs [("a", "1"); ("b", "2")] "") = is_ok (GetKubeletArgs [("b", "2"); ("a", "1")] "").
Proof. apply (GetKubeletArgs_order [("a", "1"); ("b", "2")] [("b", "2"); ("a", "1")]). apply Permutation_swap. Defined.

(** Parsing the multipath option never leaves an unparsed value, so that
    rendering and [GetConfig] cannot panic afterwards unless the option was
    unset, and it is idempotent: a parsed option, marshalled and parsed again,
    is unchanged. *)
Theorem ParseMultiPathConfig_idempotent esc esc' :
  ParseMultiPathConfig esc = Ok esc' ->
  ParseMultiPathConfig esc' = Ok esc' /\ es_Enabled esc' = es_Enabled esc /\
  (es_MultiPathConfig esc <> MPNil -> is_ok (Render (es_MultiPathConfig esc')) = true /\
     is_ok (GetConfig (es_MultiPathConfig esc')) = true).
Proof.
  intros H. destruct (ParseMultiPathConfig_result _ _ H) as [He Hm].
  destruct esc' as [b m]. cbn [es_Enabled es_MultiPathConfig] in *. subst b.
  split; [apply ParseMultiPathConfig_parsed; by destruct m|]. split; [done|]. by destruct m.
Qed.

Lemma ParseMultiPathConfig_idempotent_witness :
  let esc := mkStorage true (MPRaw (JArr [JObj [("Vendor", JStr "DELL"); ("product", JNull); ("x", JNum "1")]])) in
  let esc' := mkStorage true (MPOption1 [mkDiskConfig "DELL" ""]) in
  ParseMultiPathConfig esc = Ok esc' /\ ParseMultiPathConfig esc' = Ok esc'.
Proof.
  intros esc esc'. assert (H : ParseMultiPathConfig esc = Ok esc') by (by vm_compute).
  split; [exact H|]. exact (proj1 (ParseMultiPathConfig_idempotent esc esc' H)).
Defined.

(** The reservation in exact arithmetic, in tenths of a milli-CPU: 6% of the
    first core, 1% of the second, 2 x 0.5% for the next two, 0.25% of the
    others, and 400 milli-CPU beyond 110 pods. *)
Definition reserved_spec (cores maxPods : Z) : Z :=
  600 + (if 1 <? cores then 100 else 0) + (if 2 <? cores then 100 else 0) +
  (if 4 <? cores then 25 * (cores - 4) else 0) + (if 110 <? maxPods then 4000 else 0).

Definition reservation_close (cores : Z) : bool :=
  let r := calculateCPUReservedInMilliCPU cores MaxPods in
  let s := reserved_spec cores MaxPods / 10 in
  (r =? s) || (r =? s - 1).

Lemma reservation_close_range : forallb reservation_close (Zrange 1 (Z.to_nat 256)) = true.
Proof. vm_refl. Qed.

(** For any machine of 1 to 256 cores the reservation computed with
    doubles is the exact one rounded down, or one milli-CPU less, and the
    system and kube shares add up to twice the reservation (rounded down). *)
Theorem calculateCPUReserved_close cores :
  1 <= cores <= 256 ->
  let r := calculateCPUReservedInMilliCPU cores MaxPods in
  let s := reserved_spec cores MaxPods / 10 in
  (r = s \/ r = s - 1) /\
  2 * r - 1 <= systemReservedMilli cores + kubeReservedMilli cores <= 2 * r.
Proof.
  intros H. pose proof (Zrange_check _ _ _ reservation_close_range cores) as Hc.
  rewrite Z2Nat.id in Hc by lia. specialize (Hc ltac:(lia)). unfold reservation_close in Hc.
  unfold systemReservedMilli, kubeReservedMilli. set (r := calculateCPUReservedInMilliCPU cores MaxPods) in *.
  assert (Hs : 0 <= reserved_spec cores MaxPods / 10 - 1).
  { assert (1 <= reserved_spec cores MaxPods / 10); [|lia]. apply Z.div_le_lower_bound; [lia|].
    unfold reserved_spec. change (110 <? MaxPods) with true. cbv iota.
    destruct (Z.ltb_spec 1 cores), (Z.ltb_spec 2 cores), (Z.ltb_spec 4 cores); lia. }
  cbv zeta. apply orb_true_iff in Hc. rewrite !Z.eqb_eq in Hc. split; [done|].
  rewrite !Z.quot_div_nonneg by lia. Z.div_mod_to_equations. lia.
Qed.

Lemma calculateCPUReserved_close_witness :
  2 * calculateCPUReservedInMilliCPU 64 MaxPods - 1 <= systemReservedMilli 64 + kubeReservedMilli 64.
Proof. apply (calculateCPUReserved_close 64). lia. Defined.

(** The reservation is one milli-CPU short of the exact value on some
    ordinary machines: with 34 cores it is 554 for an exact 555. *)
Theorem calculateCPUReserved_short :
  calculateCPUReservedInMilliCPU 34 MaxPods = 554 /\ reserved_spec 34 MaxPods = 5550.
Proof. split; by vm_compute. Qed.

(** The two decisions on the data partition agree: a data partition is
    created on the installation disk exactly when one is to be mounted and no
    separate data disk was chosen; a witness node has none. *)
Theorem data_partition_decisions c :
  ShouldCreateDataPartitionOnOsDisk c = ShouldMountDataPartition c && bool_decide (in_DataDisk (hc_Install c) = "") /\
  (in_Role (hc_Install c) = RoleWitness -> ShouldMountDataPartition c = false).
Proof.
  unfold ShouldCreateDataPartitionOnOsDisk, ShouldMountDataPartition. split.
  - repeat case_bool_decide; destruct (in_ForceMBR (hc_Install c)); done.
  - intros H. by rewrite bool_decide_true.
Qed.

Lemma data_partition_decisions_witness :
  ShouldMountDataPartition (set_hc_Install (mkInstall false false "join" zero_Network "" "" "" "" "" "" false "/dev/sda" ""
    false "" false false false "" false "witness" false false [] false "/dev/sdb" [] None zero_HarvesterChartValues "" "")
    zero_HarvesterConfig) = false.
Proof. apply (proj2 (data_partition_decisions _)). reflexivity. Defined.

Lemma list_find_Some_elem {A} (P : A -> Prop) `{forall x, Decision (P x)} l i x :
  list_find P l = Some (i, x) -> x ∈ l /\ P x.
Proof. intros (Hl & HP & _)%list_find_Some. split; [by eapply list_elem_of_lookup_2|done]. Qed.

Lemma FindNetworkInterfaceName_ok ifaces n n' :
  FindNetworkInterfaceName ifaces n = Ok n' ->
  if_HwAddr n' = if_HwAddr n /\
  (n' = n \/ exists l i hw, ifaces = Ok l /\ i ∈ l /\ ParseMAC (if_HwAddr n) = Ok hw /\
     mac_string (ifc_HardwareAddr i) = mac_string hw /\ if_Name n' = ifc_Name i).
Proof.
  unfold FindNetworkInterfaceName. case_bool_decide; [intros [= <-]; by split; [|left]|].
  case_bool_decide; [|intros [= <-]; by split; [|left]].
  intros Hn. inv_ok. destruct (list_find _ _) as [[k i]|] eqn:Hf; simplify_eq.
  apply list_find_Some_elem in Hf as [Hi Hm]. split; [done|]. right. eauto 10.
Qed.

(** Completing an interface reference from the hardware: fields the user
    gave are kept; on success either both the name and the address are known,
    or neither was given; and an interface found by its address has that
    address, compared in canonical form. *)
Theorem FindNetworkInterface_complete l n n' :
  (forall i, i ∈ l -> ifc_Name i <> "") ->
  FindNetworkInterfaceNameAndHwAddr (Ok l) n = Ok n' ->
  (if_Name n <> "" -> if_Name n' = if_Name n) /\
  (if_HwAddr n <> "" -> if_HwAddr n' = if_HwAddr n) /\
  (if_Name n' = "" -> n = n' /\ if_HwAddr n = "") /\
  (if_Name n = "" -> if_HwAddr n <> "" ->
     exists i hw, i ∈ l /\ ParseMAC (if_HwAddr n) = Ok hw /\ ifc_Name i = if_Name n' /\
       mac_string (ifc_HardwareAddr i) = mac_string hw).
Proof.
  intros Hnames H. unfold FindNetworkInterfaceNameAndHwAddr in H. apply bind_ok in H as (m & Hm & H).
  assert (Hkeep : if_Name n <> "" -> m = n).
  { intros Hn. unfold FindNetworkInterfaceName in Hm. rewrite bool_decide_true in Hm by done. congruence. }
  assert (Hnone : if_Name n = "" -> if_HwAddr n = "" -> m = n).
  { intros Hn Ha. unfold FindNetworkInterfaceName in Hm. rewrite Hn, Ha in Hm. simpl in Hm. congruence. }
  assert (Hname : if_Name n' = if_Name m /\ (if_HwAddr m <> "" -> n' = m) /\ (if_Name m = "" -> n' = m)).
  { unfold FindNetworkInterfaceHwAddr in H. repeat case_bool_decide; simplify_eq; inv_ok; try done.
    destruct (list_find _ _) as [[k i]|]; simplify_eq. split_and!; [done|naive_solver|done]. }
  destruct Hname as (Hname & Hhw & Hempty).
  destruct (FindNetworkInterfaceName_ok _ _ _ Hm) as [Haddr Hcase].
  assert (Hfound : if_Name n = "" -> if_HwAddr n <> "" -> exists i hw, i ∈ l /\ ParseMAC (if_HwAddr n) = Ok hw /\
      ifc_Name i = if_Name m /\ mac_string (ifc_HardwareAddr i) = mac_string hw).
  { intros Hn Ha. unfold FindNetworkInterfaceName in Hm. rewrite bool_decide_false, bool_decide_true in Hm by naive_solver.
    inv_ok. destruct (list_find _ _) as [[k i]|] eqn:Hf; simplify_eq.
    apply list_find_Some_elem in Hf as [Hi Hmac]. eauto 10. }
  rewrite Hname. split_and!.
  - intros Hn. by rewrite (Hkeep Hn).
  - intros Ha. rewrite Hhw; congruence.
  - intros Hn. destruct (decide (if_Name n = "")) as [Hn0|Hn0]; [|by rewrite (Hkeep Hn0) in Hn].
    destruct (decide (if_HwAddr n = "")) as [Ha|Ha].
    + split; [|done]. by rewrite (Hempty Hn), (Hnone Hn0 Ha).
    + destruct (Hfound Hn0 Ha) as (i & hw & Hi & _ & Heq & _). exfalso. apply (Hnames i Hi). congruence.
  - intros Hn Ha. exact (Hfound Hn Ha).
Qed.

Lemma FindNetworkInterface_complete_witness :
  let l := [mkIface "lo" [] true; mkIface "ens3" [190; 68; 140; 176; 93; 242] false] in
  let n := mkInterface "" "BE-44-8C-B0-5D-F2" in
  exists i hw, i ∈ l /\ ParseMAC (if_HwAddr n) = Ok hw /\ ifc_Name i = "ens3" /\
    mac_string (ifc_HardwareAddr i) = mac_string hw.
Proof.
  intros l n.
  assert (Hl : forall i, i ∈ l -> ifc_Name i <> "").
  { intros i Hi. apply list_elem_of_In in Hi as [<-|[<-|[]]]; discriminate. }
  assert (H : FindNetworkInterfaceNameAndHwAddr (Ok l) n = Ok (mkInterface "ens3" "BE-44-8C-B0-5D-F2")) by (by vm_compute).
  exact (proj2 (proj2 (proj2 (FindNetworkInterface_complete l n _ Hl H))) eq_refl ltac:(discriminate)).
Defined.
