(* ===== verification/NMConfig.v ===== *)
(** * NMConfig: NetworkManager connection profiles ([pkg/config/cos.go],
    [generate-network-config] of [main.go])

    The management network is a bond [mgmt-bo] with a slave per interface, in
    a bridge [mgmt-br] and, for a VLAN, an interface on that bridge.  The
    profiles are files named [*.nmconnection] in one directory. *)
From Stdlib Require Import ZArith Lia Ascii String.
From stdpp Require Import base tactics list gmap strings sorting.
From S2P Require Import Prelude GoStrings GoNet Config World.
Local Open Scope Z_scope.

Definition NMConnectionPath : string := "/etc/NetworkManager/system-connections".
Definition NMConnectionSuffix : string := "nmconnection".   (* NMConnectionGlobPattern is [*nmconnection] *)

(** ** The templates nm-*.nmconnection *)

Definition lines (l : list string) : string := join (String "010" "") l.
Definition when (b : bool) (s : string) : string := if b then s else "".

(** [range] visits a map in the order of its keys. *)
Definition entry_le (a b : string * string) : Prop := string_le (fst a) (fst b).
#[export] Instance entry_le_dec : RelDecision entry_le := fun a b => decide (string_le (fst a) (fst b)).
Definition sorted_entries (m : gmap string string) : list (string * string) :=
  merge_sort entry_le (map_to_list m).

Definition nm_bond_master (BondName BridgeName : string) (bond : Network) : string :=
  lines (["[connection]"; "id=bond-mgmt"; "type=bond"; "interface-name=" +:+ BondName;
          "master=" +:+ BridgeName; "slave-type=bridge"; ""; "[ethernet]";
          when (0 <? nw_MTU bond) ("mtu=" +:+ itoa (nw_MTU bond)); ""; "[bond]"] ++
         concat (map (fun kv => [""; fst kv +:+ "=" +:+ snd kv]) (sorted_entries (default ∅ (nw_BondOptions bond)))) ++
         [""; ""; "[bridge-port]";
          "vlans=1 pvid untagged" +:+ when (1 <? nw_VlanID bond) ("," +:+ itoa (nw_VlanID bond))]).

Definition nm_bond_slave (BondName : string) (iface : NetworkInterface) : string :=
  lines ["[connection]"; "id=bond-slave-" +:+ if_Name iface; "type=ethernet";
         "interface-name=" +:+ if_Name iface; "master=" +:+ BondName; "slave-type=bond"; ""].

Definition ip_lines (n : Network) (dns : string) : list string :=
  [when (negb (bool_decide (dns = ""))) ("dns=" +:+ dns)].
Definition dhcp_line (n : Network) : string :=
  when (bool_decide (nw_Method n = "dhcp")) "method=auto".
Definition static_line (n : Network) : string :=
  when (bool_decide (nw_Method n = "static"))
    (lines ["method=manual"; "address1=" +:+ nw_IP n +:+ "/" +:+ nw_SubnetMask n +:+ "," +:+ nw_Gateway n]).

Definition nm_bridge (BridgeName : string) (bridge : Network) (dns : string) : string :=
  lines (["[connection]"; "id=bridge-mgmt"; "type=bridge"; "interface-name=" +:+ BridgeName; "";
          "[ethernet]"; when (0 <? nw_MTU bridge) ("mtu=" +:+ itoa (nw_MTU bridge)); "";
          "[bridge]"; "forward-delay=0"; "stp=false"; "vlan-filtering=true"; "vlan-default-pvid=1";
          when (1 <? nw_VlanID bridge) ("vlans=" +:+ itoa (nw_VlanID bridge)); "";
          "[ipv4]"] ++ ip_lines bridge dns ++
         [when (bool_decide (nw_Method bridge = "none")) "method=disabled";
          dhcp_line bridge; static_line bridge; ""; "[ipv6]"; "method=disabled"; ""]).

Definition nm_vlan (BridgeName : string) (vlan : Network) (dns : string) : string :=
  lines (["[connection]"; "id=vlan-mgmt"; "type=vlan"; ""; "[ethernet]";
          when (0 <? nw_MTU vlan) ("mtu=" +:+ itoa (nw_MTU vlan)); ""; "[vlan]"; "flags=1";
          "id=" +:+ itoa (nw_VlanID vlan); "parent=" +:+ BridgeName; ""; "[ipv4]"] ++ ip_lines vlan dns ++
         [dhcp_line vlan; static_line vlan; ""; "[ipv6]"; "method=disabled"]).

(** ** Bond, bridge and VLAN (cos.go) *)

Definition bond_defaults (n : Network) : Network :=
  match nw_BondOptions n with
  | None => set_nw_BondOptions (Some (<["mode" := BondModeActiveBackup]> {["miimon" := "100"]})) n
  | Some _ => n
  end.

Definition needVlanInterface (vlanID : Z) : bool := (2 <=? vlanID) && (vlanID <=? 4094).

(** [maskToCIDR]: the prefix length; ["0"] for a mask that is not valid. *)
Definition maskToCIDR (mask : string) : string :=
  if bool_decide (mask <> "") then itoa (fst (mask_Size (To4 (ParseIP mask)))) else "".

Definition dns_option (dnsNameServers : list string) : string :=
  if (0 <? length dnsNameServers)%nat then join ";" dnsNameServers +:+ ";" else "".

Definition bridge_network (n : Network) : Network :=
  mkNetwork (nw_Interfaces n) (if needVlanInterface (nw_VlanID n) then NetworkMethodNone else nw_Method n)
    (nw_IP n) (maskToCIDR (nw_SubnetMask n)) (nw_Gateway n) (negb (needVlanInterface (nw_VlanID n)))
    None (nw_MTU n) (nw_VlanID n).
Definition vlan_network (n : Network) : Network :=
  set_nw_SubnetMask (maskToCIDR (nw_SubnetMask n)) (set_nw_DefaultRoute true n).
Definition bond_network (n : Network) : Network :=
  mkNetwork (nw_Interfaces n) NetworkMethodNone "" "" "" false (nw_BondOptions n) (nw_MTU n) (nw_VlanID n).

Section host.
Context `{Host}.

Definition updateBond (n : Network) (configPath : string) : io unit :=
  let n := bond_defaults n in
  _ ← WriteFile (configPath +:+ "/bond-mgmt.nmconnection") (nm_bond_master MgmtBondInterfaceName MgmtInterfaceName n);
  for_each_io (fun iface =>
    WriteFile (configPath +:+ "/bond-slave-" +:+ if_Name iface +:+ ".nmconnection")
              (nm_bond_slave MgmtBondInterfaceName iface)) (nw_Interfaces n).

Definition updateBridge (name : string) (n : Network) (dns : list string) (configPath : string) : io unit :=
  let needVlan := needVlanInterface (nw_VlanID n) in
  _ ← WriteFile (configPath +:+ "/bridge-mgmt.nmconnection")
        (nm_bridge MgmtInterfaceName (bridge_network n) (if needVlan then "" else dns_option dns));
  if needVlan then
    WriteFile (configPath +:+ "/vlan-mgmt.nmconnection") (nm_vlan name (vlan_network n) (dns_option dns))
  else mret tt.

Definition wipeNMConnectionProfiles (configPath : string) : io unit :=
  paths ← Glob configPath NMConnectionSuffix;
  for_each_io Remove paths.

Definition checkMethod (n : Network) : result unit :=
  _ ← reject_if (bool_decide (nw_Interfaces n = [])) (EMsg "no slave defined for management network bond");
  reject_if (negb (bool_decide (nw_Method n ∈ [NetworkMethodDHCP; NetworkMethodStatic; NetworkMethodNone])))
    (EMsg ("unsupported network method " +:+ nw_Method n)).

(** [applyConfig] also stands for the code not running under [go test]. *)
Definition UpdateManagementInterfaceConfig (n : Network) (dns : list string) (configPath : string)
    (applyConfig : bool) : io unit :=
  _ ← lift (checkMethod n);
  _ ← MkdirAll configPath;
  _ ← wipeNMConnectionProfiles configPath;
  _ ← updateBond (bond_network n) configPath;
  _ ← updateBridge MgmtInterfaceName n dns configPath;
  if applyConfig then
    _ ← run_command ["nmcli"; "networking"; "off"];
    _ ← run_command ["nmcli"; "connection"; "reload"];
    _ ← run_command ["nmcli"; "networking"; "on"];
    run_command ["nm-online"; "-x"]
  else mret tt.

(** ** Saving and restoring the original profiles *)

Definition save_original (path : string) : io unit :=
  bytes ← ReadFile path;
  w ← get_world;
  put_world (mkWorld (w_files w) (w_trace w) (<[path := bytes]> (w_originals w)) (w_saved w)).

(** [sync.Once]: the body runs at most once, whether it fails or not. *)
Definition SaveOriginalNetworkConfig : io unit :=
  w ← get_world;
  if w_saved w then mret tt
  else
    _ ← put_world (mkWorld (w_files w) (w_trace w) (w_originals w) true);
    paths ← Glob NMConnectionPath NMConnectionSuffix;
    for_each_io save_original paths.

Definition RestoreOriginalNetworkConfig : io unit :=
  w ← get_world;
  if bool_decide (w_originals w = ∅) then mret tt
  else
    _ ← wipeNMConnectionProfiles NMConnectionPath;
    for_each_io (fun kv => WriteFile (fst kv) (snd kv)) (map_to_list (w_originals w)).

(** ** generate-network-config (main.go)

    [load] is [config.LoadHarvesterConfig]. *)
Definition generateNetworkConfig (load : string -> result HarvesterConfig)
    (configFile connectionPath : string) (force : bool) : io unit :=
  data ← ReadFile configFile;
  harvesterCfg ← lift (load data);
  paths ← Glob connectionPath NMConnectionSuffix;
  if bool_decide (paths = []) || force then
    UpdateManagementInterfaceConfig (in_ManagementInterface (hc_Install harvesterCfg))
      (os_DNSNameservers (hc_OS harvesterCfg)) connectionPath false
  else mret tt.
End host.

(** ** Reference definition: the profiles of a network, as a finite map

    Only the templates are shared with the definitions above: which networks are
    written, with which method, mask, options and default route, is said here
    again from the documented meaning of the configuration. *)

Module Spec.
(** Identifiers 0 and 1 stand for no VLAN and 4095 is reserved. *)
Definition tagged (n : Network) : bool := bool_decide (2 <= nw_VlanID n <= 4094).
Definition prefix_length (n : Network) : string :=
  if bool_decide (nw_SubnetMask n = "") then "" else itoa (fst (mask_Size (To4 (ParseIP (nw_SubnetMask n))))).
Definition dns_list (dns : list string) : string :=
  match dns with [] => "" | _ => join ";" dns +:+ ";" end.

(** The bond never has an address; an active backup by default. *)
Definition bond (n : Network) : Network :=
  mkNetwork (nw_Interfaces n) "none" "" "" "" false
    (Some (default {["mode" := "active-backup"; "miimon" := "100"]} (nw_BondOptions n)))
    (nw_MTU n) (nw_VlanID n).
(** The address is that of the bridge, or of the VLAN interface when there is one. *)
Definition bridge (n : Network) : Network :=
  mkNetwork (nw_Interfaces n) (if tagged n then "none" else nw_Method n) (nw_IP n) (prefix_length n)
    (nw_Gateway n) (negb (tagged n)) None (nw_MTU n) (nw_VlanID n).
Definition vlan (n : Network) : Network :=
  mkNetwork (nw_Interfaces n) (nw_Method n) (nw_IP n) (prefix_length n) (nw_Gateway n) true
    (nw_BondOptions n) (nw_MTU n) (nw_VlanID n).

Definition bond_files (n : Network) (dir : string) : list (string * string) :=
  (dir +:+ "/bond-mgmt.nmconnection", nm_bond_master "mgmt-bo" "mgmt-br" (bond n)) ::
  map (fun iface => (dir +:+ "/bond-slave-" +:+ if_Name iface +:+ ".nmconnection",
                     nm_bond_slave "mgmt-bo" iface)) (nw_Interfaces n).
Definition bridge_files (n : Network) (dns : list string) (dir : string) : list (string * string) :=
  if tagged n then
    [(dir +:+ "/bridge-mgmt.nmconnection", nm_bridge "mgmt-br" (bridge n) "");
     (dir +:+ "/vlan-mgmt.nmconnection", nm_vlan "mgmt-br" (vlan n) (dns_list dns))]
  else [(dir +:+ "/bridge-mgmt.nmconnection", nm_bridge "mgmt-br" (bridge n) (dns_list dns))].
Definition profiles (n : Network) (dns : list string) (dir : string) : gmap string string :=
  written (bond_files n dir ++ bridge_files n dns dir).
(** What loads the profiles. *)
Definition apply_script : list (list string) :=
  [["nmcli"; "networking"; "off"]; ["nmcli"; "connection"; "reload"];
   ["nmcli"; "networking"; "on"]; ["nm-online"; "-x"]].
End Spec.

(** ** Lemmas *)

Lemma needVlan_tagged n : needVlanInterface (nw_VlanID n) = Spec.tagged n.
Proof.
  unfold needVlanInterface, Spec.tagged. apply eq_true_iff_eq.
  rewrite andb_true_iff, !Z.leb_le, bool_decide_eq_true. done.
Qed.

Lemma maskToCIDR_spec n : maskToCIDR (nw_SubnetMask n) = Spec.prefix_length n.
Proof.
  unfold maskToCIDR, Spec.prefix_length. destruct (decide (nw_SubnetMask n = "")) as [->|Hm]; [done|].
  by rewrite bool_decide_true, bool_decide_false.
Qed.

Lemma bond_network_spec n : bond_defaults (bond_network n) = Spec.bond n.
Proof.
  unfold bond_defaults, Spec.bond, bond_network. cbn [nw_BondOptions].
  destruct (nw_BondOptions n); reflexivity.
Qed.

Lemma bridge_network_spec n : bridge_network n = Spec.bridge n.
Proof. unfold bridge_network, Spec.bridge. by rewrite needVlan_tagged, maskToCIDR_spec. Qed.

Lemma vlan_network_spec n : vlan_network n = Spec.vlan n.
Proof. unfold vlan_network, Spec.vlan. rewrite maskToCIDR_spec. by destruct n. Qed.

Lemma dns_option_spec dns : dns_option dns = Spec.dns_list dns.
Proof. by destruct dns. Qed.

Section host.
Context `{Host}.

Lemma updateBond_ok n dir u w w' :
  updateBond (bond_network n) dir w = (Ok u, w') ->
  w_files w' = foldl (fun f pd => <[fst pd := snd pd]> f) (w_files w) (Spec.bond_files n dir).
Proof.
  intros (? & w1 & Hb & Hs)%io_bind_ok. apply WriteFile_ok in Hb.
  assert (Hi : nw_Interfaces (bond_defaults (bond_network n)) = nw_Interfaces n).
  { unfold bond_defaults. by destruct (nw_BondOptions (bond_network n)). }
  cbv zeta in Hs. rewrite Hi in Hs. rewrite bond_network_spec in Hb.
  unfold Spec.bond_files. cbn [foldl fst snd].
  unfold MgmtBondInterfaceName, MgmtInterfaceName in *. rewrite <- Hb.
  apply (Write_all_ok (map (fun iface => (dir +:+ "/bond-slave-" +:+ if_Name iface +:+ ".nmconnection",
                   nm_bond_slave MgmtBondInterfaceName iface)) (nw_Interfaces n)) u).
  by rewrite for_each_io_map.
Qed.

Lemma updateBridge_ok n dns dir u w w' :
  updateBridge MgmtInterfaceName n dns dir w = (Ok u, w') ->
  w_files w' = foldl (fun f pd => <[fst pd := snd pd]> f) (w_files w) (Spec.bridge_files n dns dir).
Proof.
  intros (? & w1 & Hb & Hs)%io_bind_ok. apply WriteFile_ok in Hb. unfold Spec.bridge_files. cbv zeta in Hb, Hs.
  rewrite bridge_network_spec, needVlan_tagged, dns_option_spec in Hb.
  rewrite vlan_network_spec, needVlan_tagged, dns_option_spec in Hs.
  unfold MgmtInterfaceName in *. destruct (Spec.tagged n); cbn [foldl fst snd]; rewrite <- Hb.
  - by apply WriteFile_ok in Hs.
  - by apply io_ret_ok in Hs as [_ ->].
Qed.

(** What is done before the profiles are applied. *)
Definition write_profiles (n : Network) (dns : list string) (dir : string) : io unit :=
  _ ← MkdirAll dir;
  _ ← wipeNMConnectionProfiles dir;
  _ ← updateBond (bond_network n) dir;
  updateBridge MgmtInterfaceName n dns dir.

Lemma write_profiles_ok n dns dir u w w' :
  write_profiles n dns dir w = (Ok u, w') ->
  w_files w' = Spec.profiles n dns dir ∪ outside dir NMConnectionSuffix (w_files w).
Proof.
  intros (? & w1 & Hm & (? & w2 & Hw & (? & w3 & Hb & Hr)%io_bind_ok)%io_bind_ok)%io_bind_ok.
  apply MkdirAll_ok in Hm. apply wipe_ok in Hw. apply updateBond_ok in Hb. apply updateBridge_ok in Hr.
  by rewrite Hr, Hb, Hw, Hm, <- foldl_app, foldl_insert_union.
Qed.

(** The commands that load the profiles, as a loop. *)
Lemma apply_loop w :
  (_ ← run_command ["nmcli"; "networking"; "off"]; _ ← run_command ["nmcli"; "connection"; "reload"];
   _ ← run_command ["nmcli"; "networking"; "on"]; run_command ["nm-online"; "-x"]) w =
  for_each_io run_command Spec.apply_script w.
Proof.
  unfold Spec.apply_script. cbn [for_each_io]. unfold mbind, io_bind.
  destruct (run_command _ w) as [[] w1]; [|done..]. destruct (run_command _ w1) as [[] w2]; [|done..].
  destruct (run_command _ w2) as [[] w3]; [|done..]. by destruct (run_command _ w3) as [[[]| |] w4].
Qed.

(** The handler, with its checks and its commands around the writes. *)
Lemma Update_split n dns dir applyConfig w :
  UpdateManagementInterfaceConfig n dns dir applyConfig w =
  (_ ← lift (checkMethod n); _ ← write_profiles n dns dir;
   if applyConfig then for_each_io run_command Spec.apply_script else mret tt) w.
Proof.
  unfold UpdateManagementInterfaceConfig, write_profiles, mbind, io_bind, lift.
  destruct (checkMethod n); [|done..].
  destruct (MkdirAll dir w) as [[] w1]; [|done..].
  destruct (wipeNMConnectionProfiles dir w1) as [[] w2]; [|done..].
  destruct (updateBond (bond_network n) dir w2) as [[] w3]; [|done..].
  destruct (updateBridge MgmtInterfaceName n dns dir w3) as [[] w4]; [|done..].
  destruct applyConfig; [exact (apply_loop w4)|done].
Qed.

Lemma keeps_write_profiles n dns dir : keeps_originals (write_profiles n dns dir).
Proof.
  unfold write_profiles, wipeNMConnectionProfiles, updateBond, updateBridge, MkdirAll, Remove, WriteFile.
  destruct (needVlanInterface (nw_VlanID n)); auto 12 with originals.
Qed.

Lemma keeps_run_all cmds : keeps_originals (for_each_io run_command cmds).
Proof. unfold run_command. auto 8 with originals. Qed.

(** A configuration that succeeded wrote the profiles and then, when asked to,
    loaded them. *)
Lemma Update_inv n dns dir applyConfig u w w' :
  UpdateManagementInterfaceConfig n dns dir applyConfig w = (Ok u, w') ->
  exists w1, w_files w1 = Spec.profiles n dns dir ∪ outside dir NMConnectionSuffix (w_files w) /\
    w_originals w1 = w_originals w /\
    if applyConfig then for_each_io run_command Spec.apply_script w1 = (Ok tt, w') else w' = w1.
Proof.
  rewrite Update_split. intros (? & w0 & [= ? <-] & (? & w1 & Hw & Hr)%io_bind_ok)%io_bind_ok. exists w1.
  split_and!; [by eapply write_profiles_ok| |].
  - pose proof (keeps_write_profiles n dns dir w) as Hk. by rewrite Hw in Hk.
  - destruct applyConfig; [by destruct u|by apply io_ret_ok in Hr as [_ <-]].
Qed.

Lemma Update_ok n dns dir u w w' :
  UpdateManagementInterfaceConfig n dns dir false w = (Ok u, w') ->
  w_files w' = Spec.profiles n dns dir ∪ outside dir NMConnectionSuffix (w_files w) /\
  w_originals w' = w_originals w.
Proof. intros (w1 & Hf & Ho & ->)%Update_inv. done. Qed.

(** Applying the profiles leaves the saved originals alone. *)
Lemma Update_originals n dns dir applyConfig u w w' :
  UpdateManagementInterfaceConfig n dns dir applyConfig w = (Ok u, w') -> w_originals w' = w_originals w.
Proof.
  intros (w1 & _ & Ho & Hr)%Update_inv. destruct applyConfig; [|by subst].
  pose proof (keeps_run_all Spec.apply_script w1) as Hk. rewrite Hr in Hk. cbn in Hk; congruence.
Qed.

Lemma save_all_ok paths u w w' :
  for_each_io save_original paths w = (Ok u, w') ->
  w_files w' = w_files w /\
  forall p, w_originals w' !! p = if decide (p ∈ paths) then w_files w !! p else w_originals w !! p.
Proof.
  revert w. induction paths as [|q paths IH]; intros w Hr; simpl in Hr.
  - apply io_ret_ok in Hr as [_ ->]. split; [done|]. intros p. by rewrite decide_False by apply not_elem_of_nil.
  - apply io_bind_ok in Hr as (? & w1 & Hq & Hr). destruct (IH _ Hr) as [Hf Ho].
    unfold save_original in Hq. apply io_bind_ok in Hq as (data & w2 & Hread & [= _ <-]).
    unfold ReadFile, fs_op in Hread. destruct (fault _ _) as [[]|]; [done|].
    destruct (w_files w !! q) as [d|] eqn:Hq; [|done]. injection Hread as -> <-. cbn in *.
    split; [done|]. intros p. rewrite Ho.
    destruct (decide (p ∈ paths)); [rewrite decide_True by (by right); done|].
    destruct (decide (p = q)) as [->|].
    + rewrite lookup_insert_eq. by rewrite decide_True by left.
    + rewrite lookup_insert_ne by done. rewrite decide_False; [done|]. by intros [->|?]%elem_of_cons.
Qed.
End host.

(** ** Properties *)

(** C2: Refinement: when it succeeds, [UpdateManagementInterfaceConfig] has
    left in the directory exactly the profiles the configuration asks for (the
    bond, one slave per interface, the bridge, and the VLAN for identifiers 2 to
    4094, with the address on the VLAN if there is one and on the bridge
    otherwise) and removed every other profile, all other files being untouched;
    and then, when it is asked to apply the configuration, it has turned
    networking off, reloaded the profiles, turned networking on and waited to be
    online, all with success, and otherwise done nothing more. *)
Theorem Update_refines `{Host} n dns dir (applyConfig : bool) w w' :
  UpdateManagementInterfaceConfig n dns dir applyConfig w = (Ok tt, w') ->
  exists w1,
    w_files w1 = Spec.profiles n dns dir ∪ outside dir NMConnectionSuffix (w_files w) /\
    (if applyConfig then
       (_ ← Exec ["nmcli"; "networking"; "off"]; _ ← Exec ["nmcli"; "connection"; "reload"];
        _ ← Exec ["nmcli"; "networking"; "on"]; _ ← Exec ["nm-online"; "-x"]; mret tt) w1 = (Ok tt, w')
     else w' = w1).
Proof.
  intros (w1 & Hf & _ & Hr)%Update_inv. exists w1. split; [done|]. destruct applyConfig; [|done].
  rewrite <- apply_loop in Hr. unfold run_command in Hr.
  repeat (apply io_bind_ok in Hr as (? & ? & Hc & Hr); try apply io_bind_ok in Hc as (? & ? & Hc & [_ <-]%io_ret_ok);
    apply io_bind_ok; do 2 eexists; split; [eassumption|]; clear Hc).
  done.
Qed.

Definition demo_net : Network :=
  mkNetwork [mkInterface "ens3" ""; mkInterface "ens4" ""] "static" "10.0.0.2" "255.255.255.0" "10.0.0.1" false None 0 5.
Definition demo_world : world :=
  mkWorld {["/nm/old.nmconnection" := "x"; "/nm/keep.conf" := "y"]} [] ∅ false.
Lemma Update_refines_witness :
  exists w1, w_files w1 = Spec.profiles demo_net [] "/nm" ∪ outside "/nm" NMConnectionSuffix (w_files demo_world).
Proof.
  pose (upd := @UpdateManagementInterfaceConfig ideal_host demo_net [] "/nm" true).
  assert (Hok : fst (upd demo_world) = Ok tt) by vm_refl.
  destruct (@Update_refines ideal_host demo_net [] "/nm" true demo_world _ (returned upd _ _ Hok)) as (w1 & Hf & _).
  by exists w1.
Defined.

(** It is idempotent: generating the profiles again changes no file. *)
Theorem Update_idempotent `{Host} n dns dir w w1 w2 :
  UpdateManagementInterfaceConfig n dns dir false w = (Ok tt, w1) ->
  UpdateManagementInterfaceConfig n dns dir false w1 = (Ok tt, w2) ->
  w_files w2 = w_files w1.
Proof.
  intros [H1 _]%Update_ok [H2 _]%Update_ok. rewrite H2, H1. apply map_eq. intros p.
  rewrite !lookup_union, !outside_lookup, lookup_union, outside_lookup.
  destruct (Spec.profiles n dns dir !! p), (glob_match dir NMConnectionSuffix p), (w_files w !! p); done.
Qed.

Lemma Update_idempotent_witness :
  let w1 := snd (@UpdateManagementInterfaceConfig ideal_host demo_net [] "/nm" false demo_world) in
  w_files (snd (@UpdateManagementInterfaceConfig ideal_host demo_net [] "/nm" false w1)) = w_files w1.
Proof.
  intros w1. pose (upd := @UpdateManagementInterfaceConfig ideal_host demo_net [] "/nm" false).
  assert (H1 : fst (upd demo_world) = Ok tt) by vm_refl. assert (H2 : fst (upd w1) = Ok tt) by vm_refl.
  exact (@Update_idempotent ideal_host demo_net [] "/nm" demo_world w1 _ (returned upd _ _ H1) (returned upd _ _ H2)).
Defined.

(** A network without interfaces or with an unknown method is refused before
    anything is touched: no file operation and no command happens. *)
Theorem Update_rejects_invalid `{Host} n dns dir applyConfig w :
  (nw_Interfaces n = [] \/ nw_Method n ∉ [NetworkMethodDHCP; NetworkMethodStatic; NetworkMethodNone]) ->
  exists e, UpdateManagementInterfaceConfig n dns dir applyConfig w = (Err e, w).
Proof.
  intros Hbad. rewrite Update_split. unfold mbind, io_bind, lift. unfold checkMethod, reject_if.
  destruct Hbad as [->|Hm]; [by eexists|]. rewrite (bool_decide_false (nw_Method n ∈ _)) by done.
  destruct (bool_decide _); by eexists.
Qed.

Lemma Update_rejects_invalid_witness :
  exists e, @UpdateManagementInterfaceConfig ideal_host zero_Network [] "/nm" true demo_world = (Err e, demo_world).
Proof. apply (@Update_rejects_invalid ideal_host). by left. Defined.

(** C31: Applying the configuration, whatever the host does: the commands run are
    a prefix of "nmcli networking off", "nmcli connection reload", "nmcli
    networking on", "nm-online -x"; all four when it succeeds; and none when a
    profile could not be written. *)
Theorem Update_apply_order `{Host} n dns dir w :
  exists l1 l2,
    [["nmcli"; "networking"; "off"]; ["nmcli"; "connection"; "reload"];
     ["nmcli"; "networking"; "on"]; ["nm-online"; "-x"]] = l1 ++ l2 /\
    execs (snd (UpdateManagementInterfaceConfig n dns dir true w)) = execs (snd (UpdateManagementInterfaceConfig n dns dir false w)) ++ l1 /\
    (fst (UpdateManagementInterfaceConfig n dns dir true w) = Ok tt -> l2 = []) /\
    (fst (UpdateManagementInterfaceConfig n dns dir false w) <> Ok tt -> l1 = []).
Proof.
  rewrite !Update_split. unfold mbind, io_bind, lift.
  destruct (checkMethod n) as [[]|e|]; [|exists [], Spec.apply_script; rewrite app_nil_r; naive_solver..].
  destruct (write_profiles n dns dir w) as [[[]|e|] w1]; [|exists [], Spec.apply_script; rewrite app_nil_r; naive_solver..].
  destruct (run_all_execs Spec.apply_script w1) as (l1 & l2 & Hl & He & Hok).
  exists l1, l2. split_and!; [done|exact He|exact Hok|]. cbn. done.
Qed.

(** Only one of the generated interfaces has the address: with a VLAN (2 to
    4094) the bridge has no IPv4 method and the VLAN interface takes the method,
    address and default route; otherwise the bridge takes them and there is no
    VLAN profile.  DNS servers go with the address. *)
Theorem address_on_one_interface n dns dir :
  let vlan := needVlanInterface (nw_VlanID n) in
  nw_Method (bridge_network n) = (if vlan then NetworkMethodNone else nw_Method n) /\
  nw_Method (vlan_network n) = nw_Method n /\
  nw_DefaultRoute (bridge_network n) = negb vlan /\ nw_DefaultRoute (vlan_network n) = true /\
  (vlan = true <-> 2 <= nw_VlanID n <= 4094) /\
  map fst (Spec.bridge_files n dns dir) =
    (dir +:+ "/bridge-mgmt.nmconnection") :: (if vlan then [dir +:+ "/vlan-mgmt.nmconnection"] else []).
Proof.
  cbv zeta. split_and!; try reflexivity.
  - unfold needVlanInterface. rewrite andb_true_iff, !Z.leb_le. done.
  - unfold Spec.bridge_files. rewrite needVlan_tagged. by destruct (Spec.tagged n).
Qed.

Definition mask_ok (k : Z) : bool := String.eqb (maskToCIDR (dotted (CIDRMask k))) (itoa k).

(** The dotted mask of every prefix length from 0 to 32 is written to the
    profile as that prefix length. *)
Theorem maskToCIDR_CIDRMask k :
  0 <= k <= 32 -> maskToCIDR (dotted (CIDRMask k)) = itoa k.
Proof.
  intros Hk. apply String.eqb_eq, (GoNum.Zrange_check mask_ok 0 33); [vm_refl|lia].
Qed.

Lemma maskToCIDR_CIDRMask_witness : maskToCIDR "255.255.254.0" = "23".
Proof. exact (maskToCIDR_CIDRMask 23 ltac:(lia)). Defined.

(** C6: Saving, configuring and restoring brings back the original profiles: if
    there was at least one profile, then after a save (the first one), a change
    of the management network, applied or not, and a restore, the files of the profile directory
    are the original ones, and the profiles the installer generated are gone. *)
Theorem save_restore_roundtrip `{Host} n dns (applyConfig : bool) w w1 w2 w3 p :
  w_saved w = false -> w_originals w = ∅ ->
  (exists q, q ∈ glob NMConnectionPath NMConnectionSuffix (w_files w)) ->
  SaveOriginalNetworkConfig w = (Ok tt, w1) ->
  UpdateManagementInterfaceConfig n dns NMConnectionPath applyConfig w1 = (Ok tt, w2) ->
  RestoreOriginalNetworkConfig w2 = (Ok tt, w3) ->
  glob_match NMConnectionPath NMConnectionSuffix p = true ->
  w_files w3 !! p = w_files w !! p.
Proof.
  intros Hs Ho [q Hq] Hsave Hup Hres Hp.
  unfold SaveOriginalNetworkConfig in Hsave. apply io_bind_ok in Hsave as (? & ? & [= <- <-] & Hsave).
  rewrite Hs in Hsave. apply io_bind_ok in Hsave as (? & w0 & [= _ <-] & Hsave).
  apply io_bind_ok in Hsave as (paths & w0 & [= <- <-] & Hsave). apply save_all_ok in Hsave as [Hf1 Ho1]. cbn in Hf1, Ho1.
  apply Update_originals in Hup as Ho2.
  assert (Hne : w_originals w2 <> ∅).
  { rewrite Ho2. intros Hemp. specialize (Ho1 q). rewrite Hemp, lookup_empty, decide_True in Ho1 by done.
    apply glob_elem in Hq as [[v Hv] _]. congruence. }
  unfold RestoreOriginalNetworkConfig in Hres. apply io_bind_ok in Hres as (? & ? & [= <- <-] & Hres).
  rewrite bool_decide_false in Hres by done. apply io_bind_ok in Hres as (? & w4 & Hwipe & Hres).
  apply wipe_ok in Hwipe. apply Write_all_ok in Hres. rewrite foldl_insert_union, written_map_to_list in Hres.
  rewrite Hres, lookup_union, Hwipe, outside_lookup, Hp, Ho2, Ho1. cbn.
  destruct (decide _) as [Hin|Hin].
  - by destruct (w_files w !! p).
  - rewrite Ho, lookup_empty. destruct (w_files w !! p) eqn:E; [|done].
    exfalso. apply Hin, glob_elem. by split.
Qed.

Definition demo_saved : world := mkWorld {[NMConnectionPath +:+ "/old.nmconnection" := "x"]} [] ∅ false.
Lemma save_restore_roundtrip_witness :
  let w1 := snd (@SaveOriginalNetworkConfig ideal_host demo_saved) in
  let w2 := snd (@UpdateManagementInterfaceConfig ideal_host demo_net [] NMConnectionPath true w1) in
  let path := NMConnectionPath +:+ "/old.nmconnection" in
  w_files (snd (@RestoreOriginalNetworkConfig ideal_host w2)) !! path = w_files demo_saved !! path.
Proof.
  intros w1 w2 path. pose (upd := @UpdateManagementInterfaceConfig ideal_host demo_net [] NMConnectionPath true).
  assert (Hg : path ∈ glob NMConnectionPath NMConnectionSuffix (w_files demo_saved)).
  { apply list_elem_of_In. vm_compute. by left. }
  assert (H1 : fst (@SaveOriginalNetworkConfig ideal_host demo_saved) = Ok tt) by vm_refl.
  assert (H2 : fst (upd w1) = Ok tt) by vm_refl.
  assert (H3 : fst (@RestoreOriginalNetworkConfig ideal_host w2) = Ok tt) by vm_refl.
  assert (Hp : glob_match NMConnectionPath NMConnectionSuffix path = true) by vm_refl.
  exact (@save_restore_roundtrip ideal_host demo_net [] true demo_saved w1 w2 _ path eq_refl eq_refl
    (ex_intro _ path Hg) (returned _ _ _ H1) (returned upd _ _ H2) (returned _ _ _ H3) Hp).
Defined.

(** With no original profile there is nothing to bring back, and restoring
    leaves the generated profiles in place. *)
Theorem restore_without_originals `{Host} n dns w w1 w2 :
  w_saved w = false -> w_originals w = ∅ ->
  glob NMConnectionPath NMConnectionSuffix (w_files w) = [] ->
  SaveOriginalNetworkConfig w = (Ok tt, w1) ->
  UpdateManagementInterfaceConfig n dns NMConnectionPath false w1 = (Ok tt, w2) ->
  RestoreOriginalNetworkConfig w2 = (Ok tt, w2) /\
  w_files w2 !! (NMConnectionPath +:+ "/bond-mgmt.nmconnection") <> None.
Proof.
  intros Hs Ho Hg Hsave Hup.
  unfold SaveOriginalNetworkConfig in Hsave. apply io_bind_ok in Hsave as (? & ? & [= <- <-] & Hsave).
  rewrite Hs in Hsave. apply io_bind_ok in Hsave as (? & w0 & [= _ <-] & Hsave).
  apply io_bind_ok in Hsave as (paths & w0 & [= <- <-] & Hsave). cbn in Hsave. rewrite Hg in Hsave.
  apply io_ret_ok in Hsave as [_ <-]. apply Update_ok in Hup as [Hf Ho2]. cbn in Ho2. split.
  - unfold RestoreOriginalNetworkConfig, mbind, io_bind, get_world. by rewrite Ho2, Ho, bool_decide_true.
  - rewrite Hf, lookup_union. unfold Spec.profiles, written, Spec.bond_files. cbn [app].
    rewrite reverse_cons, list_to_map_app, lookup_union. cbn [list_to_map foldr]. rewrite lookup_insert_eq.
    destruct (_ !! _), (outside _ _ _ !! _); done.
Qed.

Lemma restore_without_originals_witness :
  let w1 := snd (@SaveOriginalNetworkConfig ideal_host demo_world) in
  let w2 := snd (@UpdateManagementInterfaceConfig ideal_host demo_net [] NMConnectionPath false w1) in
  @RestoreOriginalNetworkConfig ideal_host w2 = (Ok tt, w2).
Proof.
  intros w1 w2. pose (upd := @UpdateManagementInterfaceConfig ideal_host demo_net [] NMConnectionPath false).
  assert (Hg : glob NMConnectionPath NMConnectionSuffix (w_files demo_world) = []) by vm_refl.
  assert (H1 : fst (@SaveOriginalNetworkConfig ideal_host demo_world) = Ok tt) by vm_refl.
  assert (H2 : fst (upd w1) = Ok tt) by vm_refl.
  exact (proj1 (@restore_without_originals ideal_host demo_net [] demo_world w1 w2 eq_refl eq_refl Hg
    (returned _ _ _ H1) (returned upd _ _ H2))).
Defined.
