(* ===== verification/Templates.v ===== *)
(** * Templates: rendering the files of a node ([render] of [pkg/config/templates.go]
      and the values it is given in [cos.go] and [config.go])

    The templates are executed as they are embedded.  What a value shows a template
    are the fields and methods that some template names; the struct [OS] and the
    struct [Install] are embedded in the configuration, so their fields are found in
    it as well. *)
From Stdlib Require Import ZArith Lia Ascii String.
From stdpp Require Import base tactics list gmap strings sorting.
From S2P Require Import Prelude GoStrings GoJson Config Template Embedded ConfigOps World NMConfig.
Local Open Scope Z_scope.

(** ** Values *)

Definition strings_value (l : list string) : value := VList (map VStr l).
Definition strmap_value (m : strmap) : value :=
  VMap (map (fun kv => (fst kv, VStr (snd kv))) (sorted_entries (default ∅ m))).
Definition struct_value (fields : list (string * result value)) : value :=
  VStruct (fun f => assoc f fields).

Definition NetworkInterface_value (i : NetworkInterface) : value :=
  struct_value [("Name", Ok (VStr (if_Name i))); ("HwAddr", Ok (VStr (if_HwAddr i)))].
Definition Network_value (n : Network) : value :=
  struct_value
    [ ("Interfaces", Ok (VList (map NetworkInterface_value (nw_Interfaces n)))); ("Method", Ok (VStr (nw_Method n)));
      ("IP", Ok (VStr (nw_IP n))); ("SubnetMask", Ok (VStr (nw_SubnetMask n))); ("Gateway", Ok (VStr (nw_Gateway n)));
      ("DefaultRoute", Ok (VBool (nw_DefaultRoute n))); ("BondOptions", Ok (strmap_value (nw_BondOptions n)));
      ("MTU", Ok (VInt (nw_MTU n))); ("VlanID", Ok (VInt (nw_VlanID n))) ].
Definition DiskConfig_value (d : DiskConfig) : value :=
  struct_value [("Vendor", Ok (VStr (dc_Vendor d))); ("Product", Ok (VStr (dc_Product d)))].
Definition MultiPathOption1_value (l : list DiskConfig) : value := VList (map DiskConfig_value l).
Definition MultiPathOption2_value (m : MultiPathOption2) : value :=
  struct_value
    [ ("Blacklist", Ok (MultiPathOption1_value (mp_Blacklist m))); ("BlacklistWwids", Ok (strings_value (mp_BlacklistWwids m)));
      ("BlacklistExceptions", Ok (MultiPathOption1_value (mp_BlacklistExceptions m)));
      ("BlacklistExceptionWwids", Ok (strings_value (mp_BlacklistExceptionWwids m))) ].

(** The maps [updateBond] and [updateBridge] render with. *)
Definition bondData (BondName BridgeName : string) (n : Network) : value :=
  VMap [("Bond", Network_value n); ("BondName", VStr BondName); ("BridgeName", VStr BridgeName)].
Definition ifaceData (BondName : string) (i : NetworkInterface) : value :=
  VMap [("BondName", VStr BondName); ("Iface", NetworkInterface_value i)].
Definition bridgeData (BridgeName : string) (n : Network) (dns : string) : value :=
  VMap [("Bridge", Network_value n); ("BridgeName", VStr BridgeName); ("DNSServers", VStr dns)].
Definition vlanData (BridgeName : string) (n : Network) (dns : string) : value :=
  VMap [("BridgeName", VStr BridgeName); ("DNSServers", VStr dns); ("Vlan", Network_value n)].

Section render.
(** The Unicode tables, the files the build adds, the order in which the labels are
    visited and the number of CPUs of the machine. *)
Context (wide_print : Z -> bool) (built_file : string -> result string)
        (visit : gmap string string -> list (string * string)) (numCPU : Z).

(** The methods get a copy of the configuration. *)
Definition kubelet_args (c : HarvesterConfig) : result (list string) :=
  GetKubeletArgs (visit (default ∅ (os_Labels (hc_OS c)))) (in_Role (hc_Install c)).
Definition OS_value (os : OS) : value :=
  struct_value
    [ ("AfterInstallChrootCommands", Ok (strings_value (os_AfterInstallChrootCommands os)));
      ("Hostname", Ok (VStr (os_Hostname os))); ("PersistentStatePaths", Ok (strings_value (os_PersistentStatePaths os))) ].
Definition uint32_ptr (p : option Z) : value := VPtr (VInt <$> p).
Definition Harvester_value (h : HarvesterChartValues) : value :=
  let lh := ch_Longhorn h in
  struct_value
    [ ("StorageClass", Ok (struct_value [("ReplicaCount", Ok (VInt (ch_ReplicaCount h)))]));
      ("EnableGoCoverDir", Ok (VBool (ch_EnableGoCoverDir h)));
      ("Longhorn", Ok (struct_value [("DefaultSettings", Ok (struct_value
        [ ("GuaranteedEngineManagerCPU", Ok (uint32_ptr (lh_EngineManagerCPU lh)));
          ("GuaranteedReplicaManagerCPU", Ok (uint32_ptr (lh_ReplicaManagerCPU lh)));
          ("GuaranteedInstanceManagerCPU", Ok (uint32_ptr (lh_InstanceManagerCPU lh)));
          ("StorageReservedPercentageForDefaultDisk", Ok (uint32_ptr (lh_StorageReserved lh))) ]))])) ].
Definition HarvesterConfig_value (c : HarvesterConfig) : value :=
  struct_value
    [ ("GetKubeletArgs", strings_value <$> kubelet_args c);
      ("GetSystemReserved", Ok (VStr (GetSystemReserved numCPU))); ("GetKubeReserved", Ok (VStr (GetKubeReserved numCPU)));
      ("ShouldMountDataPartition", Ok (VBool (ShouldMountDataPartition c)));
      ("ServerURL", Ok (VStr (hc_ServerURL c))); ("Token", Ok (VStr (hc_Token c))); ("SANS", Ok (strings_value (hc_SANS c)));
      ("OS", Ok (OS_value (hc_OS c))); ("Hostname", Ok (VStr (os_Hostname (hc_OS c))));
      ("Vip", Ok (VStr (in_Vip (hc_Install c)))); ("VipMode", Ok (VStr (in_VipMode (hc_Install c))));
      ("VipHwAddr", Ok (VStr (in_VipHwAddr (hc_Install c)))); ("Harvester", Ok (Harvester_value (in_Harvester (hc_Install c)))); ("ClusterDNS", Ok (VStr (in_ClusterDNS (hc_Install c))));
      ("ClusterPodCIDR", Ok (VStr (in_ClusterPodCIDR (hc_Install c))));
      ("ClusterServiceCIDR", Ok (VStr (in_ClusterServiceCIDR (hc_Install c))));
      ("RuntimeVersion", Ok (VStr (hc_RuntimeVersion c))); ("RancherVersion", Ok (VStr (hc_RancherVersion c)));
      ("HarvesterChartVersion", Ok (VStr (hc_HarvesterChartVersion c)));
      ("MonitoringChartVersion", Ok (VStr (hc_MonitoringChartVersion c)));
      ("SystemSettings", Ok (strmap_value (hc_SystemSettings c)));
      ("LoggingChartVersion", Ok (VStr (hc_LoggingChartVersion c)));
      ("KubeovnOperatorChartVersion", Ok (VStr (hc_KubeovnOperatorChartVersion c))) ].

(** ** [render] *)

Definition templFS_ReadFile (template : string) : result string :=
  match assoc template embedded_files with
  | Some s => Ok s
  | None => built_file template
  end.
Definition render (template : string) (context : value) : result string :=
  templ ← templFS_ReadFile template; RenderTemplate wide_print templ context.
Definition render_config (template : string) (c : HarvesterConfig) : result string :=
  render template (HarvesterConfig_value c).
End render.

(** ** Executing a template that is there *)

Definition tree (template : string) : list node :=
  match assoc template embedded_files ≫= fun s => match Parse s with Ok l => Some l | _ => None end with
  | Some l => l
  | None => []
  end.
Lemma all_parsed : forallb (fun kv => is_ok (Parse (snd kv))) embedded_files = true.
Proof. vm_refl. Qed.
Lemma assoc_elem {A} k (l : list (string * A)) a : assoc k l = Some a -> (k, a) ∈ l.
Proof.
  induction l as [|[k' b] l IH]; [done|]. cbn. destruct (String.eqb_spec k' k) as [->|]; [intros [= ->]; left|].
  intros E. right. by apply IH.
Qed.
Lemma render_tree wide_print built_file name s v : assoc name embedded_files = Some s ->
  render wide_print built_file name v = exec_list wide_print (tree name) [("", v)] v.
Proof.
  intros E. unfold render, templFS_ReadFile, tree. rewrite E. cbn [mbind result_bind option_bind]. unfold RenderTemplate.
  assert (P : is_ok (Parse s) = true).
  { pose proof (proj1 (forallb_forall _ _) all_parsed _ (proj1 (list_elem_of_In _ _) (assoc_elem _ _ _ E))) as P. done. }
  destruct (Parse s); done.
Qed.

(** Execute an embedded template, as far as its tests are decided. *)
Ltac run_template name :=
  let l := eval vm_compute in (tree name) in
  let E := fresh in let R := fresh in
  lazymatch goal with |- _ = ?r => set (R := r) end;
  assert (E : tree name = l) by vm_refl;
  erewrite (render_tree _ _ name) by reflexivity; rewrite E; clear E;
  cbn -[String.append itoa Quote sorted_entries R]; subst R.

Lemma ok_when (b : bool) s : (if b then Ok s else Ok "") = Ok (when b s).
Proof. by destruct b. Qed.
Lemma eqb_decide s s' : String.eqb s s' = bool_decide (s = s').
Proof. destruct (String.eqb_spec s s'); [by rewrite bool_decide_eq_true_2|by rewrite bool_decide_eq_false_2]. Qed.
Lemma map_each_all {A B} (f : A -> result B) (g : A -> B) l : (forall x, f x = Ok (g x)) -> map_each f l = Ok (map g l).
Proof. intros E. induction l as [|x l IH]; [done|]. cbn. by rewrite E, IH. Qed.
(** [range] over a list and over a map, without [else]. *)
Definition ranged {A} (f : A -> result string) (es : list A) : result string :=
  match es with [] => Ok "" | _ => join "" <$> map_each f es end.
Lemma ranged_ok {A} (f : A -> result string) es ss : map_each f es = Ok ss -> ranged f es = Ok (join "" ss).
Proof. unfold ranged. intros E. rewrite E. destruct es; [by injection E as <-|done]. Qed.
Lemma ranged_list {A} (f : value * value -> result string) (g : A -> string) (h : A -> value) l :
  (forall k a, f (k, h a) = Ok (g a)) -> ranged f (imap (fun i x => (VInt (Z.of_nat i), x)) (map h l)) = Ok (join "" (map g l)).
Proof.
  intros Hf. apply ranged_ok.
  enough (K : forall k : nat -> value, map_each f (imap (fun i x => (k i, x)) (map h l)) = Ok (map g l)) by apply (K (fun i => VInt (Z.of_nat i))).
  induction l as [|a l IH]; intros k; [done|]. cbn. rewrite Hf. cbn.
  pose proof (IH (fun i => k (S i))) as E. unfold compose. by rewrite E.
Qed.
Lemma ranged_map {A} (f : value * value -> result string) (g : A -> string) (h : A -> value * value) l :
  (forall a, f (h a) = Ok (g a)) -> ranged f (map h l) = Ok (join "" (map g l)).
Proof.
  intros Hf. apply ranged_ok. induction l as [|a l IH]; [done|]. cbn. by rewrite Hf; cbn; rewrite IH.
Qed.
Ltac fold_ranges :=
  repeat match goal with |- context [match ?es with [] => Ok "" | _ :: _ => join "" <$> map_each ?f ?es end] =>
    change (match es with [] => Ok "" | _ :: _ => join "" <$> map_each f es end) with (ranged f es) end.
(** [{{if .X}}{{range .X}}]: the test changes nothing. *)
Lemma ranged_if {A} (f : value * value -> result string) (g : A -> string) (h : A -> value) l :
  (forall k a, f (k, h a) = Ok (g a)) ->
  (if match map h l with [] => false | _ :: _ => true end
   then ranged f (imap (fun i x => (VInt (Z.of_nat i), x)) (map h l)) ≫= (fun s => Ok (s +:+ "")) else Ok "") = Ok (join "" (map g l)).
Proof. intros Hf. rewrite (ranged_list f g h l Hf). cbn [mbind result_bind]. rewrite string_app_nil_r. by destruct l. Qed.
Lemma join_empty_cons s l : join "" (s :: l) = s +:+ join "" l.
Proof. destruct l; [by rewrite string_app_nil_r|done]. Qed.
Lemma join_map {A} (f g : A -> string) l : (forall a, f a = g a) -> join "" (map f l) = join "" (map g l).
Proof. intros E. f_equal. by apply map_ext. Qed.
(** Decide the tests as [when] does, and compare the texts. *)
Ltac same_text :=
  rewrite ?eqb_decide; repeat (rewrite ok_when; cbn [mbind result_bind]); rewrite ?string_app_assoc, ?string_app_nil_r;
  try reflexivity.

Section equivalence.
Context (wide_print : Z -> bool) (built_file : string -> result string).
Notation render := (render wide_print built_file).

Lemma bridge_rendered BridgeName n dns :
  render "nm-bridge.nmconnection" (bridgeData BridgeName n dns) = Ok (nm_bridge BridgeName n dns).
Proof.
  run_template "nm-bridge.nmconnection". same_text.
Qed.
Lemma vlan_rendered BridgeName n dns :
  render "nm-vlan.nmconnection" (vlanData BridgeName n dns) = Ok (nm_vlan BridgeName n dns).
Proof.
  run_template "nm-vlan.nmconnection". same_text.
Qed.
Lemma slave_rendered BondName i :
  render "nm-bond-slave.nmconnection" (ifaceData BondName i) = Ok (nm_bond_slave BondName i).
Proof.
  run_template "nm-bond-slave.nmconnection". same_text.
Qed.
Lemma lines_cons s s' l : lines (s :: s' :: l) = s +:+ String "010" "" +:+ lines (s' :: l).
Proof. done. Qed.
Lemma lines_entries {A} (f : A -> string) h l s r :
  lines (h :: concat (map (fun kv => [""; f kv]) l) ++ "" :: s :: r) =
  h +:+ String "010" "" +:+ join "" (map (fun kv => String "010" "" +:+ f kv +:+ String "010" "") l) +:+ String "010" "" +:+ lines (s :: r).
Proof.
  revert h. induction l as [|a l IH]; intros h; [done|]. cbn [map concat app]. rewrite !lines_cons, IH, join_empty_cons.
  by rewrite !string_app_assoc.
Qed.
Lemma bond_rendered BondName BridgeName n :
  render "nm-bond-master.nmconnection" (bondData BondName BridgeName n) = Ok (nm_bond_master BondName BridgeName n).
Proof.
  run_template "nm-bond-master.nmconnection". fold_ranges. rewrite !map_map. erewrite ranged_map by (intros; reflexivity).
  unfold nm_bond_master. cbn [app]. rewrite !lines_cons, (lines_entries (fun kv => kv.1 +:+ "=" +:+ kv.2)). same_text.
  erewrite (join_map (fun a => _) (fun kv => String "010" "" +:+ (kv.1 +:+ "=" +:+ kv.2) +:+ String "010" "")); [same_text|].
  intros a. same_text.
Qed.
Lemma quoted_app s : MultiPath.quoted s = String quote "" +:+ s +:+ String quote "".
Proof. done. Qed.
Lemma option1_rendered l : render "multipath.conf.option1.tmpl" (MultiPathOption1_value l) = Ok (MultiPath.Render1 l).
Proof.
  run_template "multipath.conf.option1.tmpl". fold_ranges. erewrite ranged_list by (intros; reflexivity).
  unfold MultiPath.Render1, MultiPath.concat_map. erewrite (join_map (MultiPath.device_block "!")); [same_text|].
  intros a. unfold MultiPath.device_block. rewrite !quoted_app. same_text.
Qed.
Lemma option2_rendered m : render "multipath.conf.option2.tmpl" (MultiPathOption2_value m) = Ok (MultiPath.Render2 m).
Proof.
  run_template "multipath.conf.option2.tmpl". fold_ranges. 
  repeat (erewrite ranged_if by (intros; reflexivity); cbn [mbind result_bind]).
  unfold MultiPath.Render2, MultiPath.concat_map. same_text.
  erewrite 2!(join_map (fun a => _ +:+ a +:+ _) MultiPath.wwid_line),
    2!(join_map (fun d => _ +:+ dc_Vendor d +:+ _ +:+ dc_Product d +:+ _) (MultiPath.device_block "")); [same_text|..].
  all: intros a; unfold MultiPath.device_block, MultiPath.wwid_line; rewrite !quoted_app; symmetry; same_text.
Qed.
End equivalence.

(** C16: The profiles and the multipath files the program writes are the embedded templates executed on its
    data, for every network, interface, bond option and list of devices: the names, the order of the bond options,
    the empty lines that trimmed blanks leave, and the keys that are left out. *)
Theorem profiles_rendered wide_print built_file BondName BridgeName n i dns l m :
  let render := render wide_print built_file in
  render "nm-bond-master.nmconnection" (bondData BondName BridgeName n) = Ok (nm_bond_master BondName BridgeName n) /\
  render "nm-bond-slave.nmconnection" (ifaceData BondName i) = Ok (nm_bond_slave BondName i) /\
  render "nm-bridge.nmconnection" (bridgeData BridgeName n dns) = Ok (nm_bridge BridgeName n dns) /\
  render "nm-vlan.nmconnection" (vlanData BridgeName n dns) = Ok (nm_vlan BridgeName n dns) /\
  render "multipath.conf.option1.tmpl" (MultiPathOption1_value l) = Ok (MultiPath.Render1 l) /\
  render "multipath.conf.option2.tmpl" (MultiPathOption2_value m) = Ok (MultiPath.Render2 m).
Proof.
  split_and!; [apply bond_rendered|apply slave_rendered|apply bridge_rendered|apply vlan_rendered|apply option1_rendered|apply option2_rendered].
Qed.

(** ** When a configuration can be rendered *)

Section config.
Context (wide_print : Z -> bool) (built_file : string -> result string)
        (visit : gmap string string -> list (string * string)) (numCPU : Z).
Notation render_config := (render_config wide_print built_file visit numCPU).

(** What is rendered with a configuration; the first two show the arguments of the kubelet. *)
Definition kubelet_templates : list string := ["rke2-90-harvester-agent.yaml"; "rke2-90-harvester-server.yaml"].
Definition plain_templates : list string :=
  [ "cos-after-install-chroot.yaml"; "cos-rootfs.yaml"; "rancherd-10-harvester.yaml"; "rancherd-11-monitoring-crd.yaml";
    "rancherd-14-logging-crd.yaml"; "rancherd-15-kubeovn-operator-crd.yaml"; "rancherd-20-harvester-settings.yaml";
    "rancherd-23-multus-config.yaml"; "rancherd-config.yaml"; "rke2-91-harvester-cdi.yaml";
    "rke2-92-harvester-kube-audit-policy.yaml"; "rke2-99-harvester-witness.yaml"; "rke2-99-z00-harvester-reserved-resources.yaml" ].

Definition total (r : result string) : Prop := is_ok r = true.
Lemma render_total_bind (r : result string) (f : string -> result string) : total r -> (forall s, total (f s)) -> total (r ≫= f).
Proof. destruct r; [intros _ Hf; apply Hf|done..]. Qed.
Lemma render_total_if (b : bool) r r' : total r -> total r' -> total (if b then r else r').
Proof. by destruct b. Qed.
Lemma total_ranged {A} (f : A -> result string) es : (forall e, e ∈ es -> total (f e)) -> total (ranged f es).
Proof.
  intros Hf. assert (K : exists ss, map_each f es = Ok ss).
  { induction es as [|e es IH]; [by eexists|]. assert (He := Hf e (list_elem_of_here _ _)). apply is_ok_true in He as [s Hs].
    destruct IH as [ss E]; [intros; apply Hf; by right|]. exists (s :: ss). cbn. by rewrite Hs, E. }
  destruct K as [ss E]. by rewrite (ranged_ok _ _ _ E).
Qed.
Lemma strings_entry (k : nat -> value) (l : list string) e : e ∈ imap (fun i x => (k i, x)) (map VStr l) -> exists s, snd e = VStr s.
Proof. intros (i & x & -> & (s & -> & _)%list_lookup_fmap_Some)%elem_of_lookup_imap. by exists s. Qed.
Lemma strmap_entry (l : list (string * string)) e :
  e ∈ map (fun kv : string * value => (VStr kv.1, kv.2)) (map (fun kv => (kv.1, VStr kv.2)) l) -> exists k s, e = (VStr k, VStr s).
Proof. rewrite map_map. intros ([k s] & -> & _)%list_elem_of_fmap. by exists k, s. Qed.
Ltac solve_total :=
  repeat first
    [ reflexivity | apply render_total_bind; [|intros ?] | apply render_total_if
    | apply total_ranged; let e := fresh "e" in intros e; let E := fresh in
      first [intros [? E]%(strings_entry (fun i => VInt (Z.of_nat i))); rewrite E | intros (? & ? & ->)%strmap_entry]
    | match goal with
      | |- context [VInt <$> ?p] => destruct p
      | |- context [if ?b then Ok (VStr _) else _] => destruct b
      end ].
Ltac render_total :=
  unfold Templates.render_config, total;
  lazymatch goal with |- is_ok (render _ _ ?t _) = _ => run_template t end; fold_ranges; solve_total.
Lemma plain_total c t : t ∈ plain_templates -> total (render_config t c).
Proof.
  intros Ht. unfold plain_templates in Ht. rewrite !elem_of_cons in Ht.
  destruct_or! Ht; [subst t; render_total..|by apply not_elem_of_nil in Ht].
Qed.
Lemma failed_now {A B} (r : result A) (f : A -> result B) : is_ok r = false -> is_ok (r ≫= f) = false.
Proof. by destruct r. Qed.
Lemma failed_later {A B} (r : result A) (f : A -> result B) : (forall s, is_ok (f s) = false) -> is_ok (r ≫= f) = false.
Proof. destruct r; [intros Hf; apply Hf|done..]. Qed.
Ltac solve_failed := first [reflexivity | apply failed_later; intros ?; solve_failed | apply failed_now; solve_failed].
Lemma kubelet_total c t : t ∈ kubelet_templates -> is_ok (render_config t c) = is_ok (kubelet_args visit c).
Proof.
  intros Ht. unfold kubelet_templates in Ht. rewrite !elem_of_cons in Ht.
  destruct_or! Ht; [subst t..|by apply not_elem_of_nil in Ht].
  all: unfold Templates.render_config; lazymatch goal with |- is_ok (render _ _ ?t _) = _ => run_template t end.
  all: destruct (kubelet_args visit c) as [args| |]; cbn -[String.append itoa Quote]; fold_ranges; first [solve_failed | lazymatch goal with |- is_ok ?r = true => change (total r) end; solve_total].
Qed.

(** C17: Every file that is rendered with a configuration is rendered, whatever the configuration holds; only
    the two that list the arguments of the kubelet need labels that are valid, and fail with any other. *)
Theorem config_renders c t : t ∈ plain_templates ++ kubelet_templates ->
  is_ok (render_config t c) = (if bool_decide (t ∈ kubelet_templates) then is_ok (kubelet_args visit c) else true).
Proof.
  intros Ht. case_bool_decide as Hk; [by apply kubelet_total|].
  apply elem_of_app in Ht as [Ht|?]; [by apply plain_total|done].
Qed.
End config.

Lemma config_renders_witness :
  is_ok (render_config (fun _ => true) (fun _ => Panic) map_to_list 4 "rke2-90-harvester-agent.yaml"
    (set_hc_OS (set_os_Labels (Some {["a b" := "c"]}) (hc_OS zero_HarvesterConfig)) zero_HarvesterConfig)) = false.
Proof.
  rewrite (config_renders (fun _ => true) (fun _ => Panic) map_to_list 4); [vm_compute; reflexivity|].
  apply (bool_decide_unpack _). vm_compute. exact I.
Defined.
