(* ===== verification/DiskSize.v ===== *)
(** * DiskSize: byte counts and the persistent partition size
    ([pkg/util/common.go], [pkg/util/disk.go], the size part of
    [pkg/config/cos.go] and of [pkg/console/util.go])

    All sizes are [uint64]: conversions are shifts, subtraction and
    multiplication wrap around. *)
From Stdlib Require Import ZArith Lia Ascii String.
From stdpp Require Import base tactics list strings.
From S2P Require Import Prelude GoStrings GoNum.
Local Open Scope Z_scope.

(** ** Conversions (common.go) *)

Definition ByteToGi (b : Z) : Z := u64_shr b 30.
Definition ByteToMi (b : Z) : Z := u64_shr b 20.
Definition GiToByte (gi : Z) : Z := u64_shl gi 30.
Definition MiToByte (mi : Z) : Z := u64_shl mi 20.

(** ** Partition sizes (disk.go) *)

Definition MinDiskSize : Z := 250 * 2 ^ 30.
Definition MinPersistentSize : Z := 150 * 2 ^ 30.
Definition MiByteMultiplier : Z := 2 ^ 20.
Definition GiByteMultiplier : Z := 2 ^ 30.
Definition fixedOccupiedSize : Z := (50 + 15360 + 8192 + 64 + 51200) * MiByteMultiplier.

(** [sizeRegexp], [^(\d+)(Mi|Gi)$]. *)
Definition unit_suffix (s : string) : bool := bool_decide (s = "Mi") || bool_decide (s = "Gi").
Definition size_split (s : string) : string * string :=
  let n := (String.length s - 2)%nat in (stake n s, sdrop n s).
Definition sizeRegexp_match (s : string) : bool :=
  let '(num, unit) := size_split s in
  unit_suffix unit && negb (bool_decide (num = "")) && all_chars is_digit num.

Definition parsePartitionBytes (partitionSize : string) : result Z :=
  if negb (sizeRegexp_match partitionSize) then
    Err (EMsg "partition size must end with 'Mi' or 'Gi'. Decimals and negatives are not allowed")
  else
    let '(num, unit) := size_split partitionSize in
    match parse_uint 10 64 num with
    | Ok size =>
        Ok (if bool_decide (unit = "Mi") then u64_mul size MiByteMultiplier
            else if bool_decide (unit = "Gi") then u64_mul size GiByteMultiplier else 0)
    | _ => Err (EMsg ("failed to parse partition size: " +:+ partitionSize))
    end.

Definition err_disk_small : error :=
  EMsg ("installation disk size is too small. Minimum " +:+ itoa (ByteToGi MinDiskSize) +:+ "Gi is required").
Definition err_part_small : error :=
  EMsg ("partition size is too small. Minimum " +:+ itoa (ByteToGi MinPersistentSize) +:+ "Gi is required").
Definition err_part_large (maxBytes : Z) : error :=
  EMsg ("partition size is too large. Maximum " +:+ itoa (ByteToGi maxBytes) +:+ "Gi is allowed").

Definition ParsePartitionSize (diskSizeBytes : Z) (partitionSize : string) (skipChecks : bool) : result Z :=
  _ ← reject_if (negb skipChecks && (diskSizeBytes <? MinDiskSize)) err_disk_small;
  partitionBytes ← parsePartitionBytes partitionSize;
  _ ← reject_if (negb skipChecks && (partitionBytes <? MinPersistentSize)) err_part_small;
  let actualDiskSizeBytes := u64_sub diskSizeBytes fixedOccupiedSize in
  if actualDiskSizeBytes <? partitionBytes then
    if skipChecks then Ok actualDiskSizeBytes else Err (err_part_large actualDiskSizeBytes)
  else Ok partitionBytes.

(** ** The persistent partition chosen at install time (cos.go) *)

Definition calcCosPersistentPartSize (diskSizeGiB : Z) (partSize : string) (skipChecks : bool) : result Z :=
  size ← ParsePartitionSize (GiToByte diskSizeGiB) partSize skipChecks;
  mret (ByteToMi size).

(** ** Minimum sizes of the disks (console/util.go) *)

Definition SingleDiskMinSizeGiB : Z := 250.
Definition MultipleDiskMinSizeGiB : Z := 180.
Definition HardMinDataDiskSizeGiB : Z := 50.
Definition PersistentSizeMinGiB : Z := 150.

(** [GetDiskSizeBytes] runs lsblk: its result is an argument. *)
Definition validateDiskSize (diskSizeBytes : result Z) (single : bool) : result unit :=
  bytes ← diskSizeBytes;
  let limit := if single then SingleDiskMinSizeGiB else MultipleDiskMinSizeGiB in
  reject_if (ByteToGi bytes <? limit)
    (EMsg ("installation disk size is too small. Minimum " +:+ itoa limit +:+ "Gi is required")).

Definition validateDataDiskSize (diskSizeBytes : result Z) : result unit :=
  bytes ← diskSizeBytes;
  reject_if (ByteToGi bytes <? HardMinDataDiskSizeGiB)
    (EMsg ("data disk size is too small. Minimum " +:+ itoa HardMinDataDiskSizeGiB +:+ "Gi is required")).

(** The output of lsblk, in [GetDiskSizeBytes] and [diskExceedsMBRLimit]. *)
Definition GetDiskSizeBytes (lsblk : result string) : result Z :=
  output ← lsblk; parse_uint 10 64 (trim_space output).

Definition mbrLimitBytes : Z := 2199023255040.
Definition diskExceedsMBRLimit (lsblk : result string) : result bool :=
  output ← lsblk;
  sizeByte ← parse_int64 (trim_space output);
  mret (mbrLimitBytes <? sizeByte).

(** ** The default persistent size (install_panels.go) *)

(** [uint64(float64(bytes) * 0.3)]. *)
Definition defaultPersistentBytes (bytes : Z) : Z :=
  u64 (f_trunc (f_mul float64 (f_of_Z float64 bytes) (f_const float64 3 10))).

Definition calculateDefaultPersistentSize (diskSizeBytes : result Z) : result string :=
  bytes ← diskSizeBytes;
  let defaultSize := ByteToGi (defaultPersistentBytes bytes) in
  let defaultSize := if defaultSize <? PersistentSizeMinGiB then PersistentSizeMinGiB else defaultSize in
  mret (itoa defaultSize +:+ "Gi").

#[global] Arguments size_split : simpl never.

(** ** Reference definition on unbounded integers *)

Module Spec.
(** The number written by a digit string. *)
Fixpoint number (acc : Z) (s : string) : Z :=
  match s with "" => acc | String c s' => number (acc * 10 + digit_val c) s' end.

Definition multiplier (unit : string) : Z := if bool_decide (unit = "Mi") then 2 ^ 20 else 2 ^ 30.

(** The bytes a size such as [200Gi] asks for; [None] for a malformed size. *)
Definition bytes (s : string) : option Z :=
  if sizeRegexp_match s then
    let '(num, unit) := size_split s in Some (number 0 num * multiplier unit)
  else None.

(** What a disk of [d] bytes can give to the persistent partition. *)
Definition room (d : Z) : Z := d - fixedOccupiedSize.

(** The contract of [ParsePartitionSize] without [skipChecks]: the disk is
    large enough, the size well formed, at least the minimum, and fits beside
    the fixed partitions. *)
Definition persistent (d : Z) (s : string) : result Z :=
  if d <? MinDiskSize then Err err_disk_small
  else match bytes s with
       | None => Err (EMsg "partition size must end with 'Mi' or 'Gi'. Decimals and negatives are not allowed")
       | Some b =>
           if b <? MinPersistentSize then Err err_part_small
           else if room d <? b then Err (err_part_large (room d)) else Ok b
       end.
End Spec.

(** ** Lemmas *)

Lemma digit_val_range c : is_digit c = true -> 0 <= digit_val c < 10.
Proof.
  unfold is_digit, in_range, digit_val. intros [H1 H2]%andb_prop.
  change (ord "9") with 57 in *. change (ord "0") with 48 in *. lia.
Qed.

Lemma number_ge acc s : 0 <= acc -> all_chars is_digit s = true -> acc <= Spec.number acc s.
Proof.
  revert acc. induction s as [|c s IH]; simpl; intros acc Hacc H; [lia|].
  apply andb_prop in H as [Hc Hs]. pose proof (digit_val_range c Hc).
  specialize (IH (acc * 10 + digit_val c) ltac:(lia) Hs). lia.
Qed.

(** The accumulating loop computes the number, or reports a range error. *)
Lemma parse_digits_number max acc s :
  0 <= acc <= max -> all_chars is_digit s = true ->
  parse_digits 10 max acc s = if Spec.number acc s <=? max then inl (Spec.number acc s) else inr ErrRange.
Proof.
  revert acc. induction s as [|c s IH]; simpl; intros acc Hacc H.
  { by rewrite (proj2 (Z.leb_le _ _)) by lia. }
  apply andb_prop in H as [Hc Hs]. pose proof (digit_val_range c Hc).
  rewrite Hc, (proj2 (Z.ltb_lt _ _)) by lia. simpl.
  destruct (Z.ltb_spec max (acc * 10 + digit_val c)) as [Hm|Hm].
  - pose proof (number_ge (acc * 10 + digit_val c) s ltac:(lia) Hs).
    by rewrite (proj2 (Z.leb_gt _ _)) by lia.
  - apply IH; [lia|done].
Qed.

Lemma sizeRegexp_inv s :
  sizeRegexp_match s = true ->
  exists num unit, size_split s = (num, unit) /\ (unit = "Mi" \/ unit = "Gi") /\
    num <> "" /\ all_chars is_digit num = true.
Proof.
  unfold sizeRegexp_match. destruct (size_split s) as [num unit].
  intros [[Hu Hn]%andb_prop Hd]%andb_prop. exists num, unit.
  unfold unit_suffix in Hu. apply orb_true_iff in Hu. rewrite !bool_decide_eq_true in Hu.
  apply negb_true_iff, bool_decide_eq_false in Hn. done.
Qed.

Lemma parse_uint_number num :
  num <> "" -> all_chars is_digit num = true -> Spec.number 0 num < 2 ^ 64 ->
  parse_uint 10 64 num = Ok (Spec.number 0 num).
Proof.
  intros Hne Hd Hlt. unfold parse_uint. destruct num as [|c num]; [done|].
  rewrite parse_digits_number by (done || lia). by rewrite (proj2 (Z.leb_le _ _)) by lia.
Qed.

Lemma unit_multiply unit n :
  unit = "Mi" \/ unit = "Gi" ->
  (if bool_decide (unit = "Mi") then u64_mul n MiByteMultiplier
   else if bool_decide (unit = "Gi") then u64_mul n GiByteMultiplier else 0) =
  u64_mul n (Spec.multiplier unit).
Proof. by intros [-> | ->]. Qed.

(** Below 2^64 bytes the size is parsed exactly. *)
Lemma parsePartitionBytes_exact s b :
  Spec.bytes s = Some b -> b < 2 ^ 64 -> parsePartitionBytes s = Ok b /\ is_u64 b.
Proof.
  unfold Spec.bytes, parsePartitionBytes. destruct (sizeRegexp_match s) eqn:Hm; [cbn [negb]|discriminate].
  destruct (sizeRegexp_inv s Hm) as (num & unit & -> & Hunit & Hne & Hd).
  pose proof (number_ge 0 num ltac:(lia) Hd) as Hge. intros [= <-] Hlt.
  assert (Hmul : 1 <= Spec.multiplier unit) by (destruct Hunit; subst; by vm_compute).
  rewrite parse_uint_number by (done || nia).
  rewrite unit_multiply by done. unfold u64_mul.
  assert (Hu : is_u64 (Spec.number 0 num * Spec.multiplier unit)) by (unfold is_u64; nia).
  by rewrite u64_small.
Qed.

Lemma parsePartitionBytes_malformed s :
  Spec.bytes s = None ->
  parsePartitionBytes s =
    Err (EMsg "partition size must end with 'Mi' or 'Gi'. Decimals and negatives are not allowed").
Proof.
  unfold Spec.bytes, parsePartitionBytes. destruct (sizeRegexp_match s); [|done].
  by destruct (size_split s).
Qed.

Lemma parsePartitionBytes_u64 s b : parsePartitionBytes s = Ok b -> is_u64 b.
Proof.
  unfold parsePartitionBytes. destruct (negb _); [done|]. destruct (size_split s) as [num unit].
  destruct (parse_uint 10 64 num); try done. intros [= <-].
  repeat case_bool_decide; try apply u64_range. unfold is_u64; lia.
Qed.

Lemma fixedOccupiedSize_val : fixedOccupiedSize = 78502690816.
Proof. reflexivity. Qed.
Lemma MinDiskSize_val : MinDiskSize = 268435456000.
Proof. reflexivity. Qed.
Lemma MinPersistentSize_val : MinPersistentSize = 161061273600.
Proof. reflexivity. Qed.

(** A successful parse without [skipChecks], whatever the string. *)
Lemma ParsePartitionSize_ok d s n :
  is_u64 d -> ParsePartitionSize d s false = Ok n ->
  MinDiskSize <= d /\ parsePartitionBytes s = Ok n /\ MinPersistentSize <= n <= Spec.room d.
Proof.
  intros Hd H. unfold ParsePartitionSize in H. inv_ok.
  pose proof fixedOccupiedSize_val. pose proof MinDiskSize_val. unfold Spec.room. simpl in *.
  rewrite (u64_sub_ge d fixedOccupiedSize) in * by (done || lia).
  destruct (Z.ltb_spec (d - fixedOccupiedSize) x0); simplify_eq. repeat split; (done || lia).
Qed.

Lemma size_split_app num unit :
  String.length unit = 2%nat -> size_split (num +:+ unit) = (num, unit).
Proof.
  intros Hu. unfold size_split. rewrite <- length_chars, chars_app, length_app, !length_chars, Hu.
  rewrite Nat.add_sub, stake_app. by rewrite sdrop_app.
Qed.

(** A size printed by [fmt.Sprintf("%dGi", n)] parses back, modulo 2^64. *)
Lemma parsePartitionBytes_print n unit :
  is_u64 n -> unit = "Mi" \/ unit = "Gi" ->
  parsePartitionBytes (itoa n +:+ unit) = Ok (u64 (n * Spec.multiplier unit)).
Proof.
  intros Hn Hunit. unfold parsePartitionBytes, sizeRegexp_match.
  rewrite size_split_app by (by destruct Hunit; subst).
  unfold is_u64 in Hn. rewrite itoa_digits by lia.
  rewrite bool_decide_false by (apply itoa_nonempty; lia).
  assert (unit_suffix unit = true) as -> by (by destruct Hunit; subst).
  rewrite parse_uint_itoa by lia. cbn [negb andb]. by rewrite unit_multiply.
Qed.

(** ** Properties *)

(** C1: Without [skipChecks], and for sizes below 2^64 bytes,
    [ParsePartitionSize] on machine words is the reference definition on
    unbounded integers: same results and same errors on every branch. *)
Theorem ParsePartitionSize_refines d s :
  is_u64 d -> (forall b, Spec.bytes s = Some b -> b < 2 ^ 64) ->
  ParsePartitionSize d s false = Spec.persistent d s.
Proof.
  intros Hd Hb. unfold ParsePartitionSize, Spec.persistent. cbn [negb andb].
  destruct (Z.ltb_spec d MinDiskSize) as [|Hmin]; [done|]. cbn.
  destruct (Spec.bytes s) as [b|] eqn:Hs.
  - destruct (parsePartitionBytes_exact s b Hs (Hb b eq_refl)) as [-> _]. cbn.
    destruct (b <? MinPersistentSize); [done|]. cbn. unfold Spec.room.
    pose proof fixedOccupiedSize_val. pose proof MinDiskSize_val.
    by rewrite u64_sub_ge by (done || lia).
  - by rewrite (parsePartitionBytes_malformed s Hs).
Qed.

Lemma ParsePartitionSize_refines_witness :
  ParsePartitionSize (300 * 2 ^ 30) "200Gi" false = Ok (200 * 2 ^ 30).
Proof.
  assert (H : is_u64 (300 * 2 ^ 30)) by (split; [by vm_compute|by vm_compute]).
  assert (Hb : forall b, Spec.bytes "200Gi" = Some b -> b < 2 ^ 64).
  { intros b Hs. vm_compute in Hs. injection Hs as <-. by vm_compute. }
  rewrite (ParsePartitionSize_refines (300 * 2 ^ 30) "200Gi" H Hb). by vm_compute.
Defined.

(** With [skipChecks] nothing is too small, and a size beyond the room on
    the disk is cut down to that room; but on a disk smaller than the fixed
    partitions the room wraps around, so the room is almost 2^64 bytes and an
    impossible size is returned unchanged. *)
Theorem ParsePartitionSize_skip d s b :
  is_u64 d -> parsePartitionBytes s = Ok b ->
  ParsePartitionSize d s true =
    if fixedOccupiedSize <=? d then Ok (Z.min b (Spec.room d))
    else Ok (Z.min b (2 ^ 64 + Spec.room d)).
Proof.
  intros Hd Hb. pose proof (parsePartitionBytes_u64 s b Hb) as Hub.
  unfold ParsePartitionSize. rewrite Hb. cbn. pose proof fixedOccupiedSize_val. unfold Spec.room.
  destruct (Z.leb_spec fixedOccupiedSize d) as [Hle|Hlt].
  - rewrite u64_sub_ge by (done || lia). destruct (Z.ltb_spec (d - fixedOccupiedSize) b); f_equal; lia.
  - rewrite u64_sub_lt by (done || (unfold is_u64; lia) || lia).
    destruct (Z.ltb_spec (2 ^ 64 + d - fixedOccupiedSize) b); f_equal; lia.
Qed.

Lemma ParsePartitionSize_skip_witness :
  ParsePartitionSize (40 * 2 ^ 30) "150Gi" true = Ok (150 * 2 ^ 30) /\
  ParsePartitionSize (100 * 2 ^ 30) "150Gi" true = Ok (100 * 2 ^ 30 - fixedOccupiedSize).
Proof.
  assert (Hb : parsePartitionBytes "150Gi" = Ok (150 * 2 ^ 30)) by (by vm_compute).
  split.
  - rewrite (ParsePartitionSize_skip (40 * 2 ^ 30) "150Gi" (150 * 2 ^ 30)); [by vm_compute| |done].
    split; by vm_compute.
  - rewrite (ParsePartitionSize_skip (100 * 2 ^ 30) "150Gi" (150 * 2 ^ 30)); [by vm_compute| |done].
    split; by vm_compute.
Defined.

Lemma ByteToGi_le d : is_u64 d -> GiToByte (ByteToGi d) <= d /\ is_u64 (GiToByte (ByteToGi d)).
Proof.
  unfold is_u64, GiToByte, ByteToGi. intros Hd. rewrite u64_shr_div, u64_shl_mul by lia.
  pose proof (Z.mul_div_le d (2 ^ 30) ltac:(lia)). pose proof (Z.div_pos d (2 ^ 30) ltac:(lia) ltac:(lia)).
  rewrite u64_small by (unfold is_u64; lia). lia.
Qed.

(** C30: The installer sizes the partition from the disk's whole GiB while the
    wizard validates against its exact bytes: with the size checks on, whatever
    the installer accepts, the wizard accepts; the partition has the wizard's
    size in whole MiB, is 150 GiB at least, and fits the disk beside the other
    partitions. *)
Theorem install_size_accepted_by_wizard d s m :
  is_u64 d -> calcCosPersistentPartSize (ByteToGi d) s false = Ok m ->
  exists n, ParsePartitionSize d s false = Ok n /\ m = ByteToMi n /\ 150 * 2 ^ 10 <= m /\ m * 2 ^ 20 + fixedOccupiedSize <= d.
Proof.
  intros Hd H. unfold calcCosPersistentPartSize in H. inv_ok.
  destruct (ByteToGi_le d Hd) as [Hle Hu].
  apply ParsePartitionSize_ok in H as (Hmin & Hparse & Hlow & Hup); [|done].
  pose proof fixedOccupiedSize_val. pose proof MinDiskSize_val. pose proof MinPersistentSize_val. unfold Spec.room in Hup.
  assert (Em : ByteToMi x = x / 2 ^ 20) by (unfold ByteToMi; by rewrite u64_shr_div by lia). rewrite Em.
  exists x. split_and!; [|done| |pose proof (Z.mul_div_le x (2 ^ 20)); lia].
  - unfold ParsePartitionSize. rewrite Hparse. cbn.
    destruct (Z.ltb_spec d MinDiskSize); [lia|]. cbn.
    destruct (Z.ltb_spec x MinPersistentSize); [lia|]. cbn.
    rewrite u64_sub_ge by (done || lia). by destruct (Z.ltb_spec (d - fixedOccupiedSize) x); [lia|].
  - apply Z.div_le_lower_bound; lia.
Qed.

Lemma install_size_accepted_by_wizard_witness :
  exists n, ParsePartitionSize (300 * 2 ^ 30 + 17) "153601Mi" false = Ok n /\
    153601 = ByteToMi n /\ 150 * 2 ^ 10 <= 153601 /\ 153601 * 2 ^ 20 + fixedOccupiedSize <= 300 * 2 ^ 30 + 17.
Proof.
  apply (install_size_accepted_by_wizard (300 * 2 ^ 30 + 17) "153601Mi" 153601);
    [split; by vm_compute | by vm_compute].
Defined.

(** The converse fails: on a disk of 250 GiB and 921 MiB the wizard accepts
    a persistent size of 181500Mi that the installer then rejects as too
    large, after the answers were confirmed. *)
Theorem wizard_size_rejected_by_install :
  exists d s n e, is_u64 d /\ ParsePartitionSize d s false = Ok n /\
    calcCosPersistentPartSize (ByteToGi d) s false = Err e.
Proof.
  exists (250 * 2 ^ 30 + 921 * 2 ^ 20), "181500Mi", (181500 * 2 ^ 20), (err_part_large (Spec.room (250 * 2 ^ 30))).
  split_and!; [split|..]; by vm_compute.
Qed.

(** A size in Gi is reduced modulo 2^64 bytes before it is checked, so a
    size 2^34 Gi too large is accepted as if it were the small one: parsing
    the printed size [n + 2^34] Gi gives what parsing [n] Gi gives. *)
Theorem parsePartitionBytes_wraps n :
  0 <= n < 2 ^ 34 ->
  parsePartitionBytes (itoa (n + 2 ^ 34) +:+ "Gi") = Ok (n * 2 ^ 30) /\
  parsePartitionBytes (itoa n +:+ "Gi") = Ok (n * 2 ^ 30).
Proof.
  intros Hn. rewrite !parsePartitionBytes_print by (unfold is_u64; (lia || by right)).
  change (Spec.multiplier "Gi") with (2 ^ 30). split; f_equal.
  - unfold u64. rewrite Z.mul_add_distr_r. change (2 ^ 34 * 2 ^ 30) with (1 * 2 ^ 64).
    rewrite Z.mod_add, Z.mod_small by lia. done.
  - rewrite u64_small by (unfold is_u64; lia). done.
Qed.

Lemma parsePartitionBytes_wraps_witness :
  parsePartitionBytes "17179869384Gi" = Ok (200 * 2 ^ 30) /\ parsePartitionBytes "200Gi" = Ok (200 * 2 ^ 30).
Proof.
  pose proof (parsePartitionBytes_wraps 200 ltac:(lia)) as H. by vm_compute in H.
Defined.

(** The default size offered for a disk of [g] whole GiB, before the minimum. *)
Definition default_gi (g : Z) : Z := ByteToGi (defaultPersistentBytes (g * 2 ^ 30)).
Definition default_gi_ok (g : Z) : bool := (0 <=? default_gi g) && (default_gi g * 10 <=? g * 3).

Lemma default_gi_range : forallb default_gi_ok (Zrange 250 (Z.to_nat 1799)) = true.
Proof. vm_refl. Qed.

(** The default persistent size shown for any disk of a whole number of GiB
    from the minimum 250 up to 2 TiB passes the validation, is at least 150Gi
    and, above that, at most 30% of the disk: the double-precision product never
    rounds up to a rejected value. *)
Theorem default_persistent_size_accepted g :
  250 <= g <= 2048 ->
  exists n, calculateDefaultPersistentSize (Ok (g * 2 ^ 30)) = Ok (itoa n +:+ "Gi") /\
    ParsePartitionSize (g * 2 ^ 30) (itoa n +:+ "Gi") false = Ok (n * 2 ^ 30) /\
    150 <= n /\ (n = 150 \/ n * 10 <= g * 3).
Proof.
  intros Hg. assert (Hd : default_gi_ok g = true).
  { apply (Zrange_check _ _ _ default_gi_range). rewrite Z2Nat.id; lia. }
  unfold default_gi_ok in Hd. apply andb_true_iff in Hd as [H0%Z.leb_le H3%Z.leb_le].
  exists (Z.max 150 (default_gi g)). split_and!; [| |lia|lia].
  - unfold calculateDefaultPersistentSize. cbn [mbind result_bind]. fold (default_gi g).
    change PersistentSizeMinGiB with 150.
    destruct (Z.ltb_spec (default_gi g) 150); [by rewrite Z.max_l by lia|by rewrite Z.max_r by lia].
  - set (n := Z.max 150 (default_gi g)). assert (Hn : 150 <= n /\ (n = 150 \/ n * 10 <= g * 3)) by lia.
    clearbody n. pose proof fixedOccupiedSize_val. pose proof MinDiskSize_val. pose proof MinPersistentSize_val.
    unfold ParsePartitionSize. cbn [negb andb].
    rewrite (proj2 (Z.ltb_ge _ _)) by lia. cbn [reject_if mbind result_bind].
    rewrite parsePartitionBytes_print by (first [by right|unfold is_u64; lia]). cbn [mbind result_bind].
    change (Spec.multiplier "Gi") with (2 ^ 30). rewrite u64_small by (unfold is_u64; lia).
    destruct (Z.ltb_spec (n * 2 ^ 30) MinPersistentSize); [lia|]. cbn [reject_if mbind result_bind].
    rewrite u64_sub_ge by (unfold is_u64; lia). by rewrite (proj2 (Z.ltb_ge _ _)) by lia.
Qed.

Lemma default_persistent_size_accepted_witness :
  exists n, calculateDefaultPersistentSize (Ok (931 * 2 ^ 30)) = Ok (itoa n +:+ "Gi") /\ 150 <= n.
Proof. destruct (default_persistent_size_accepted 931) as (n & H & _ & Hn & _); [lia|]. exists n. exact (conj H Hn). Defined.
