(* ===== verification/Cos.v ===== *)
(** * Cos: from the configuration to the cloud-init stages and the elemental
    configuration ([pkg/config/cos.go], [GenerateRancherdConfig])

    What is outside the code is a parameter: [render], the embedded YAML
    templates executed by text/template; [yamlStage], the decoding of YAML
    into a stage; [templFile], the embedded file that is not a template;
    [visit], the order in which a map is iterated; the built-in versions; the
    architecture.  The stages keep the fields of yip's schema the code sets. *)
From Stdlib Require Import ZArith Lia Ascii String.
From stdpp Require Import base tactics list gmap strings.
From S2P Require Import Prelude GoStrings GoNum GoNet GoJson Config Merge ConfigOps DiskSize World NMConfig.
Local Open Scope Z_scope.

(** ** yip's schema *)

Record YFile : Set := mkYFile {
  yf_Path : string; yf_Content : string; yf_Encoding : string; yf_Permissions : Z; yf_OwnerString : string
}.
Record YDirectory : Set := mkYDirectory { yd_Path : string; yd_Permissions : Z }.

Record Stage : Set := mkStage {
  st_Name : string;
  st_Commands : list string;
  st_Files : list YFile;
  st_Directories : list YDirectory;
  st_Users : gmap string string;          (* password hashes *)
  st_Hostname : string;
  st_Sysctl : strmap;
  st_Environment : strmap;
  st_TimeSyncd : gmap string string;
  st_SSHKeys : gmap string (list string);
  st_Enable : list string                 (* Systemctl.Enable *)
}.
Definition zero_Stage : Stage := mkStage "" [] [] [] ∅ "" None None ∅ ∅ [].

Notation eta_Stage c := (
  mkStage (st_Name c) (st_Commands c) (st_Files c) (st_Directories c) (st_Users c) (st_Hostname c)
    (st_Sysctl c) (st_Environment c) (st_TimeSyncd c) (st_SSHKeys c) (st_Enable c)) (only parsing).
Definition set_st_Name (v : string) (c : Stage) : Stage := ltac:(upd (eta_Stage c) (st_Name c) v).
Definition set_st_Commands (v : list string) (c : Stage) : Stage := ltac:(upd (eta_Stage c) (st_Commands c) v).
Definition set_st_Files (v : list YFile) (c : Stage) : Stage := ltac:(upd (eta_Stage c) (st_Files c) v).
Definition set_st_Directories (v : list YDirectory) (c : Stage) : Stage := ltac:(upd (eta_Stage c) (st_Directories c) v).
Definition set_st_Users (v : gmap string string) (c : Stage) : Stage := ltac:(upd (eta_Stage c) (st_Users c) v).
Definition set_st_Hostname (v : string) (c : Stage) : Stage := ltac:(upd (eta_Stage c) (st_Hostname c) v).
Definition set_st_Sysctl (v : strmap) (c : Stage) : Stage := ltac:(upd (eta_Stage c) (st_Sysctl c) v).
Definition set_st_Environment (v : strmap) (c : Stage) : Stage := ltac:(upd (eta_Stage c) (st_Environment c) v).
Definition set_st_TimeSyncd (v : gmap string string) (c : Stage) : Stage := ltac:(upd (eta_Stage c) (st_TimeSyncd c) v).
Definition set_st_SSHKeys (v : gmap string (list string)) (c : Stage) : Stage := ltac:(upd (eta_Stage c) (st_SSHKeys c) v).
Definition set_st_Enable (v : list string) (c : Stage) : Stage := ltac:(upd (eta_Stage c) (st_Enable c) v).

Definition add_files (fs : list YFile) (s : Stage) : Stage := set_st_Files (st_Files s ++ fs) s.
Definition add_directory (d : YDirectory) (s : Stage) : Stage := set_st_Directories (st_Directories s ++ [d]) s.
Definition enable_units (us : list string) (s : Stage) : Stage := set_st_Enable (st_Enable s ++ us) s.

Notation yip_stages := (gmap string (list Stage)).

(** ** base64 (RFC 4648, with padding) *)

Definition b64_char (n : Z) : ascii :=
  byte_char (if n <? 26 then 65 + n else if n <? 52 then 71 + n else if n <? 62 then n - 4 else if n =? 62 then 43 else 47).
Fixpoint base64 (l : list ascii) : string :=
  match l with
  | a :: b :: c :: l' =>
      let n := ord a * 65536 + ord b * 256 + ord c in
      String (b64_char (n / 262144)) (String (b64_char (n / 4096 mod 64))
        (String (b64_char (n / 64 mod 64)) (String (b64_char (n mod 64)) (base64 l'))))
  | [a; b] =>
      let n := ord a * 1024 + ord b * 4 in
      String (b64_char (n / 4096)) (String (b64_char (n / 64 mod 64)) (String (b64_char (n mod 64)) "="))
  | [a] => let n := ord a * 16 in String (b64_char (n / 64)) (String (b64_char (n mod 64)) "==")
  | [] => ""
  end.

(** ** The elemental configuration *)

Record ElementalPartition : Set := mkPartition { ep_Label : string; ep_Size : Z; ep_FS : string }.
Record ElementalDefaultPartition : Set := mkDefaultPartition {
  edp_OEM : ElementalPartition; edp_State : ElementalPartition;
  edp_Recovery : ElementalPartition; edp_Persistent : ElementalPartition
}.
Record ElementalConfig : Set := mkElemental {
  ei_Target : string; ei_Firmware : string; ei_PartTable : string;
  ei_Partitions : option ElementalDefaultPartition; ei_ExtraPartitions : list ElementalPartition;
  ei_CloudInit : string; ei_Tty : string; ei_SystemSize : option Z    (* System.Size *)
}.

Definition DefaultCosOemSizeMiB : Z := 50.
Definition DefaultCosStateSizeMiB : Z := 15360.
Definition DefaultCosRecoverySizeMiB : Z := 8192.
Definition defaultSystemImageSize : Z := 3072.

(** [evalSymlinks] is [filepath.EvalSymlinks]. *)
Definition ConvertToElementalConfig (evalSymlinks : string -> result string) (c : HarvesterConfig) :
    result ElementalConfig :=
  let i := hc_Install c in
  resolved ← evalSymlinks (in_Device i);
  mret (mkElemental resolved (if in_ForceEFI i then "efi" else "") (if in_ForceGPT i then "gpt" else "msdos")
          None [] (in_ConfigURL i) (in_TTY i) (Some defaultSystemImageSize)).

Definition default_partitions (persistentMiB : Z) : ElementalDefaultPartition :=
  mkDefaultPartition (mkPartition "COS_OEM" DefaultCosOemSizeMiB "ext4")
    (mkPartition "COS_STATE" DefaultCosStateSizeMiB "ext4")
    (mkPartition "COS_RECOVERY" DefaultCosRecoverySizeMiB "ext4")
    (mkPartition "COS_PERSISTENT" persistentMiB "ext4").
Definition set_partitions (p : ElementalDefaultPartition) (extra : list ElementalPartition) (e : ElementalConfig) :
    ElementalConfig :=
  mkElemental (ei_Target e) (ei_Firmware e) (ei_PartTable e) (Some p) extra (ei_CloudInit e) (ei_Tty e) (ei_SystemSize e).

Definition CreateRootPartitioningLayoutSeparateDataDisk (e : ElementalConfig) : ElementalConfig :=
  set_partitions (default_partitions 0) (ei_ExtraPartitions e) e.

(** [diskSizeBytes] is [util.GetDiskSizeBytes] of the installation device. *)
Definition CreateRootPartitioningLayoutSharedDataDisk (diskSizeBytes : result Z) (e : ElementalConfig)
    (c : HarvesterConfig) : result ElementalConfig :=
  bytes ← diskSizeBytes;
  let requested := in_PersistentPartitionSize (hc_Install c) in
  let persistentSize := if bool_decide (requested = "") then itoa PersistentSizeMinGiB +:+ "Gi" else requested in
  mib ← calcCosPersistentPartSize (ByteToGi bytes) persistentSize (in_SkipChecks (hc_Install c));
  mret (set_partitions (default_partitions mib) [mkPartition "HARV_LH_DEFAULT" 0 "ext4"] e).

(** ** Defaults of the chart values *)

Definition defaultReplicaCount : Z := 3.
Definition defaultGuaranteedManagerCPU : Z := 12.
Definition defaultStorageReserved : Z := 0.
Definition maxStorageReserved : Z := 30.

Record versions : Set := mkVersions {
  v_RKE2 : string; v_Rancher : string; v_HarvesterChart : string;
  v_MonitoringChart : string; v_LoggingChart : string; v_KubeovnOperatorChart : string
}.

Definition or_default (s d : string) : string := if bool_decide (s = "") then d else s.
(** A pointer set beyond the limit is cut down to it. *)
Definition cap (limit : Z) (p : option Z) : option Z :=
  match p with Some n => Some (if limit <? n then limit else n) | None => None end.

Definition cap_longhorn (l : LHDefaultSettings) : LHDefaultSettings :=
  mkLH (cap defaultGuaranteedManagerCPU (lh_EngineManagerCPU l))
       (cap defaultGuaranteedManagerCPU (lh_ReplicaManagerCPU l))
       (cap defaultGuaranteedManagerCPU (lh_InstanceManagerCPU l))
       (match lh_StorageReserved l with
        | Some n => cap maxStorageReserved (Some n)
        | None => Some defaultStorageReserved
        end).

Definition default_versions (v : versions) (c : HarvesterConfig) : HarvesterConfig :=
  mkConfig (hc_SchemeVersion c) (hc_ServerURL c) (hc_Token c) (hc_SANS c) (hc_OS c) (hc_Install c)
    (or_default (hc_RuntimeVersion c) (v_RKE2 v)) (or_default (hc_RancherVersion c) (v_Rancher v))
    (or_default (hc_HarvesterChartVersion c) (v_HarvesterChart v))
    (or_default (hc_MonitoringChartVersion c) (v_MonitoringChart v)) (hc_SystemSettings c)
    (or_default (hc_LoggingChartVersion c) (v_LoggingChart v))
    (or_default (hc_KubeovnOperatorChartVersion c) (v_KubeovnOperatorChart v)).

Definition cap_chart (h : HarvesterChartValues) : HarvesterChartValues :=
  mkChart (if defaultReplicaCount <? ch_ReplicaCount h then defaultReplicaCount else ch_ReplicaCount h)
    (cap_longhorn (ch_Longhorn h)) (ch_EnableGoCoverDir h).

Definition setConfigDefaultValues (v : versions) (c : HarvesterConfig) : HarvesterConfig :=
  let c := default_versions v c in
  set_hc_Install (set_in_Harvester (cap_chart (in_Harvester (hc_Install c))) (hc_Install c)) c.

(** ** External storage and SSHD *)

Definition cosLoginUser : string := "rancher".
Definition ntpdService : string := "systemd-timesyncd".
Definition timeWaitSyncService : string := "systemd-time-wait-sync".
Definition rancherdBootstrapDir : string := "/etc/rancher/rancherd/config.yaml.d/".
Definition RancherdConfigFile : string := "/etc/rancher/rancherd/config.yaml".

Definition setupExternalStorage (c : HarvesterConfig) (s : Stage) : result Stage :=
  let es := os_ExternalStorage (hc_OS c) in
  if negb (es_Enabled es) then Ok s
  else
    let s := enable_units ["multipathd"] s in
    match es_MultiPathConfig es with
    | MPNil => Ok s
    | m =>
        content ← map_err (EWrap "error rending multipath.conf template") (MultiPath.Render m);
        mret (add_files [mkYFile "/etc/multipath.conf" content "" 493 ""] s)   (* 0755 *)
    end.

Definition q (s : string) : string := String quote (s +:+ String quote "").
Definition ignoreLonghorn : string :=
  lines ["blacklist {"; "  device {"; "    vendor " +:+ q "IET"; "    product " +:+ q "VIRTUAL-DISK"; "  }"; "}"].
Definition multipathdUnitPatch : string :=
  lines ["[Unit]"; "Description=Device-Mapper Multipath Device Controller";
    "Before=lvm2-activation-early.service";
    "Before=local-fs-pre.target blk-availability.service shutdown.target";
    "Wants=systemd-udevd-kernel.socket modprobe@dm_multipath.service";
    "After=systemd-udevd-kernel.socket modprobe@dm_multipath.service";
    "After=multipathd.socket systemd-remount-fs.service"; "Before=initrd-cleanup.service";
    "DefaultDependencies=no"; "Conflicts=shutdown.target"; "Conflicts=initrd-cleanup.service";
    "ConditionKernelCommandLine=!nompath"; "ConditionVirtualization=!container"; "";
    "[Service]"; "Type=notify"; "NotifyAccess=main"; "ExecStart=/usr/sbin/multipathd -d -s";
    "ExecReload=/usr/sbin/multipathd reconfigure"; "TasksMax=infinity"; "LimitRTPRIO=10";
    "CPUWeight=1000"; ""; "[Install]"; "WantedBy=sysinit.target"].

Definition disableLonghornMultipathing (s : Stage) : Stage :=
  let s := add_directory (mkYDirectory "/etc/multipath/conf.d" 420) s in   (* 0644 *)
  add_files [mkYFile "/etc/multipath/conf.d/99-longhorn.conf" (base64 (chars ignoreLonghorn)) "base64" 420 "";
             mkYFile "/etc/systemd/system/multipathd.service" (base64 (chars multipathdUnitPatch)) "base64" 420 ""] s.

Definition sshd_commands : list string :=
  ["mkdir -p /etc/ssh/sshd_config.d";
   "echo 'Subsystem" +:+ String "009" "sftp" +:+ String "009" "/usr/libexec/ssh/sftp-server' > /etc/ssh/sshd_config.d/sftp.conf"].
Definition overwriteSSHDComponent (c : HarvesterConfig) : HarvesterConfig :=
  if os_SFTP (hc_OS c)
  then set_hc_OS (set_os_AfterInstallChrootCommands (os_AfterInstallChrootCommands (hc_OS c) ++ sshd_commands) (hc_OS c)) c
  else c.

(** ** Stages *)

Definition secret_file (path content : string) : YFile := mkYFile path content "" 384 "".   (* 0600 *)

Section templates.
Context (render : string -> HarvesterConfig -> result string)
        (templFile : string -> result string)
        (yamlStage : string -> result Stage)
        (visit : gmap string string -> list (string * string))
        (built : versions) (goarch : string).

Definition bootstrap_templates : list string :=
  ["10-harvester.yaml"; "11-monitoring-crd.yaml"; "14-logging-crd.yaml"; "20-harvester-settings.yaml";
   "15-kubeovn-operator-crd.yaml"; "22-addons.yaml"].

Definition genBootstrapResources (c : HarvesterConfig) : result (gmap string string) :=
  rendered ← map_each (fun t => content ← render ("rancherd-" +:+ t) c; mret (t, content)) bootstrap_templates;
  dashboard ← templFile "rancherd-12-monitoring-dashboard.yaml";
  let confs := <["12-monitoring-dashboard.yaml" := dashboard]> (written rendered) in
  if bool_decide (goarch = "arm64") then
    multus ← render "rancherd-23-multus-config.yaml" c;
    mret (<["23-multus-config.yaml" := multus]> confs)
  else mret confs.

Definition rke2_file (name : string) (content : string) : YFile :=
  secret_file ("/etc/rancher/rke2/config.yaml.d/" +:+ name) content.

(** Returns the configuration with its defaults set, and the stage. *)
Definition initRancherdStage (c : HarvesterConfig) (s : Stage) : result (HarvesterConfig * Stage) :=
  let c := setConfigDefaultValues built c in
  let s := add_directory (mkYDirectory "/etc/rancher/rke2/config.yaml.d" 384) s in
  rancherd ← render "rancherd-config.yaml" c;
  let s := add_files [secret_file RancherdConfigFile rancherd] s in
  s ← (if bool_decide (in_Mode (hc_Install c) = "create") then
         resources ← genBootstrapResources c;
         mret (add_files (map (fun kv => secret_file (rancherdBootstrapDir +:+ fst kv) (snd kv)) (visit resources)) s)
       else mret s);
  server ← render "rke2-90-harvester-server.yaml" c;
  let s := if bool_decide (hc_ServerURL c = "") then add_files [rke2_file "90-harvester-server.yaml" server] s else s in
  cdi ← render "rke2-91-harvester-cdi.yaml" c;
  let s := add_files [rke2_file "91-harvester-cdi.yaml" cdi] s in
  audit ← render "rke2-92-harvester-kube-audit-policy.yaml" c;
  let s := add_files [rke2_file "92-harvester-kube-audit-policy.yaml" audit] s in
  agent ← render "rke2-90-harvester-agent.yaml" c;
  let s := add_files [rke2_file "90-harvester-agent.yaml" (trim_space agent)] s in
  s ← (if bool_decide (in_Role (hc_Install c) = RoleWitness) then
         witness ← render "rke2-99-harvester-witness.yaml" c;
         mret (add_files [rke2_file "99-harvester-witness.yaml" (trim_space witness)] s)
       else mret s);
  reserved ← render "rke2-99-z00-harvester-reserved-resources.yaml" c;
  mret (c, add_files [rke2_file "99-z00-harvester-reserved-resources.yaml" reserved] s).

Definition overwriteAfterInstallChrootStage (c : HarvesterConfig) : result Stage :=
  content ← render "cos-after-install-chroot.yaml" c; yamlStage content.
Definition overwriteRootfsStage (c : HarvesterConfig) : result Stage :=
  content ← render "cos-rootfs.yaml" c; yamlStage content.

(** The user's files; permissions that do not parse as octal become 0600. *)
Definition write_file (f : File) : YFile :=
  let perm := match parse_uint 8 32 (fi_RawFilePermissions f) with Ok p => p | _ => 384 end in
  mkYFile (fi_Path f) (fi_Content f) (fi_Encoding f) perm (fi_Owner f).

Definition ntp_sync (servers : list string) (s : Stage) : Stage :=
  if (0 <? length servers)%nat then
    enable_units [ntpdService; timeWaitSyncService]
      (set_st_TimeSyncd (<["NTP" := join " " servers]> (st_TimeSyncd s)) s)
  else s.

Context `{Host}.

(** The initramfs stage before the part that depends on the mode. *)
Definition initramfs_base (c cfg : HarvesterConfig) : result Stage :=
  let os := hc_OS cfg in
  let s := set_st_Users {[cosLoginUser := os_Password os]} zero_Stage in
  let s := set_st_Commands (map (fun m => "modprobe " +:+ m) (os_Modules os) ++
                            ["rm -f /var/lib/kubelet/cpu_manager_state"]) s in
  let s := set_st_Environment (os_Environment os) (set_st_Sysctl (os_Sysctls os) s) in
  let s := add_files (map write_file (os_WriteFiles os)) s in
  s ← setupExternalStorage c s;
  mret (disableLonghornMultipathing s).

(** [config] is updated in place (defaults, SSHD commands); [cfg] is its copy
    taken at the start. *)
Definition ConvertToCOS (c : HarvesterConfig) : io (HarvesterConfig * yip_stages) :=
  cfg ← lift (DeepCopy c);
  rootfs ← lift (overwriteRootfsStage c);
  let afterNetwork := set_st_Hostname (os_Hostname (hc_OS c)) zero_Stage in
  initramfs ← lift (initramfs_base c cfg);
  '(c, initramfs, afterNetwork) ←
    (if bool_decide (in_Mode (hc_Install cfg) <> ModeInstall) then
       '(c, s) ← lift (initRancherdStage c initramfs);
       let s := ntp_sync (os_NTPServers (hc_OS cfg)) (set_st_Hostname (os_Hostname (hc_OS cfg)) s) in
       _ ← UpdateManagementInterfaceConfig (in_ManagementInterface (hc_Install cfg))
             (os_DNSNameservers (hc_OS cfg)) NMConnectionPath false;
       mret (c, s, set_st_SSHKeys (<[cosLoginUser := os_SSHAuthorizedKeys (hc_OS cfg)]> (st_SSHKeys afterNetwork)) afterNetwork)
     else mret (c, initramfs, afterNetwork));
  let stages := <["rootfs" := [rootfs]]> (<["initramfs" := [initramfs]]> {["network" := [afterNetwork]]}) in
  let c := overwriteSSHDComponent c in
  if (0 <? length (os_AfterInstallChrootCommands (hc_OS c)))%nat then
    chroot ← lift (overwriteAfterInstallChrootStage c);
    mret (c, <["after-install-chroot" := [chroot]]> stages)
  else mret (c, stages).

(** [GenerateRancherdConfig] (config.go). *)
Definition GenerateRancherdConfig (c : HarvesterConfig) : io (HarvesterConfig * yip_stages) :=
  let os := hc_OS c in
  let s := ntp_sync (os_NTPServers os) (set_st_Hostname (os_Hostname os)
             (set_st_Environment (Some ∅) (set_st_Sysctl (Some ∅) zero_Stage))) in
  '(c, s) ← lift (initRancherdStage c s);
  _ ← UpdateManagementInterfaceConfig (in_ManagementInterface (hc_Install c))
        (os_DNSNameservers (hc_OS c)) NMConnectionPath true;
  let s := set_st_SSHKeys {[cosLoginUser := os_SSHAuthorizedKeys (hc_OS c)]} s in
  let s := set_st_Users {[cosLoginUser := os_Password (hc_OS c)]} s in
  mret (c, {["live" := [s]]}).

Definition ToCosInstallEnv (toEnv : string -> Install -> result (list string)) (c : HarvesterConfig) : result (list string) :=
  toEnv "HARVESTER_" (hc_Install c).
End templates.

(** ** Lemmas *)

Lemma cap_spec limit p : 
  cap limit (cap limit p) = cap limit p /\ (forall n, cap limit p = Some n -> n <= limit) /\
  (forall n, p = Some n -> n <= limit -> cap limit p = p).
Proof.
  destruct p as [n|]; [|naive_solver]. simpl. repeat case_match; split_and!; intros; simplify_eq;
    (done || lia || (f_equal; lia)).
Qed.

Lemma or_default_idem s d : or_default (or_default s d) d = or_default s d.
Proof. unfold or_default. repeat case_bool_decide; congruence. Qed.

Lemma cap_chart_idem h : cap_chart (cap_chart h) = cap_chart h.
Proof.
  unfold cap_chart, cap_longhorn. cbn. f_equal; [repeat case_match; lia|]. f_equal; try apply cap_spec.
  destruct (lh_StorageReserved _); [apply (cap_spec maxStorageReserved (Some _))|done].
Qed.

Lemma bootstrap_rendered (render : string -> HarvesterConfig -> result string) c ts rendered :
  map_each (fun t => content ← render ("rancherd-" +:+ t) c; mret (t, content)) ts = Ok rendered ->
  map fst rendered = ts.
Proof.
  rewrite map_each_ok. induction 1 as [|t tc ts rendered Ht _ IH]; [done|]. simpl. rewrite IH. f_equal.
  apply bind_ok in Ht as (content & _ & [= <-]). done.
Qed.

Definition bootstrap_names (goarch : string) : gset string :=
  list_to_set bootstrap_templates ∪ {["12-monitoring-dashboard.yaml"]} ∪
  (if bool_decide (goarch = "arm64") then {["23-multus-config.yaml"]} else ∅).

Lemma dom_written fs : dom (written fs) = list_to_set (C := gset string) (map fst fs).
Proof.
  unfold written. rewrite dom_list_to_map_L. apply set_eq. intros x.
  rewrite !elem_of_list_to_set, !list_elem_of_fmap. setoid_rewrite list_elem_of_In. 
  setoid_rewrite <- list_elem_of_In. setoid_rewrite elem_of_reverse. naive_solver.
Qed.

Lemma genBootstrapResources_names render templFile goarch c m :
  genBootstrapResources render templFile goarch c = Ok m -> dom m = bootstrap_names goarch.
Proof.
  intros H. unfold genBootstrapResources in H. apply bind_ok in H as (rendered & Hr & H).
  apply bootstrap_rendered in Hr. apply bind_ok in H as (d & _ & H).
  unfold bootstrap_names. rewrite <- Hr, <- dom_written.
  case_bool_decide.
  - apply bind_ok in H as (mu & _ & [= <-]). rewrite !dom_insert_L. set_solver.
  - injection H as <-. rewrite dom_insert_L. set_solver.
Qed.

(** The files a stage gained, in order. *)
Definition gained (s s' : Stage) (fs : list YFile) : Prop := st_Files s' = st_Files s ++ fs.

Ltac solve_secret :=
  repeat first [apply Forall_app_2 | apply Forall_nil_2 | apply Forall_cons_2; [reflexivity|]
               | apply Forall_map, Forall_true; intros ?; reflexivity].

Lemma initRancherdStage_ok render templFile visit built goarch c s c' s' :
  initRancherdStage render templFile visit built goarch c s = Ok (c', s') ->
  c' = setConfigDefaultValues built c /\
  exists fs resources rancherd, gained s s' fs /\ Forall (fun f => yf_Permissions f = 384) fs /\
    render "rancherd-config.yaml" c' = Ok rancherd /\ head fs = Some (secret_file RancherdConfigFile rancherd) /\
    (in_Mode (hc_Install c) = "create" -> genBootstrapResources render templFile goarch c' = Ok resources) /\
    map yf_Path fs = RancherdConfigFile ::
      (if bool_decide (in_Mode (hc_Install c) = "create")
       then map (fun kv => rancherdBootstrapDir +:+ fst kv) (visit resources) else []) ++
      (if bool_decide (hc_ServerURL c = "") then ["/etc/rancher/rke2/config.yaml.d/90-harvester-server.yaml"] else []) ++
      ["/etc/rancher/rke2/config.yaml.d/91-harvester-cdi.yaml";
       "/etc/rancher/rke2/config.yaml.d/92-harvester-kube-audit-policy.yaml";
       "/etc/rancher/rke2/config.yaml.d/90-harvester-agent.yaml"] ++
      (if bool_decide (in_Role (hc_Install c) = RoleWitness)
       then ["/etc/rancher/rke2/config.yaml.d/99-harvester-witness.yaml"] else []) ++
      ["/etc/rancher/rke2/config.yaml.d/99-z00-harvester-reserved-resources.yaml"].
Proof.
  intros H. unfold initRancherdStage in H.
  apply bind_ok in H as (rancherd & Hr & H). apply bind_ok in H as (s1 & H1 & H).
  apply bind_ok in H as (server & _ & H). apply bind_ok in H as (cdi & _ & H).
  apply bind_ok in H as (audit & _ & H). apply bind_ok in H as (agent & _ & H).
  apply bind_ok in H as (s2 & H2 & H). apply bind_ok in H as (reserved & _ & H).
  injection H as <- <-. split; [done|].
  change (in_Mode (hc_Install (setConfigDefaultValues built c))) with (in_Mode (hc_Install c)) in H1.
  change (in_Role (hc_Install (setConfigDefaultValues built c))) with (in_Role (hc_Install c)) in H2.
  change (hc_ServerURL (setConfigDefaultValues built c)) with (hc_ServerURL c) in H2.
  set (c' := setConfigDefaultValues built c) in *.
  destruct (bool_decide (in_Mode (hc_Install c) = "create")) eqn:Hmode; 
    [apply bind_ok in H1 as (resources & Hres & [= <-])|injection H1 as <-; set (resources := ∅ : gmap string string)];
  (destruct (bool_decide (in_Role (hc_Install c) = RoleWitness));
    [apply bind_ok in H2 as (witness & _ & [= <-])|injection H2 as <-]);
  (destruct (bool_decide (hc_ServerURL c = ""));
    (eexists _, resources, rancherd; split; [unfold gained; cbn; rewrite <- !app_assoc; reflexivity|];
     split; [solve_secret|]; split; [exact Hr|]; split; [reflexivity|]; split;
     [done || (intros Hc; by rewrite bool_decide_true in Hmode by exact Hc)
     |cbn; rewrite ?map_app, ?map_map; reflexivity])).
Qed.

(** ** Properties *)

Definition chart_bounds (h : HarvesterChartValues) : Prop :=
  ch_ReplicaCount h <= defaultReplicaCount /\
  (forall p n, p ∈ [lh_EngineManagerCPU (ch_Longhorn h); lh_ReplicaManagerCPU (ch_Longhorn h);
                    lh_InstanceManagerCPU (ch_Longhorn h)] -> p = Some n -> n <= defaultGuaranteedManagerCPU) /\
  (exists n, lh_StorageReserved (ch_Longhorn h) = Some n /\ n <= maxStorageReserved).

Lemma chart_bounds_default v c : chart_bounds (in_Harvester (hc_Install (setConfigDefaultValues v c))).
Proof.
  unfold chart_bounds. cbn. split; [destruct (Z.ltb_spec defaultReplicaCount (ch_ReplicaCount (in_Harvester (hc_Install c)))); lia|].
  split.
  + intros p n Hp ->. rewrite !elem_of_cons, elem_of_nil in Hp.
    destruct Hp as [Hp|[Hp|[Hp|[]]]]; symmetry in Hp; by apply cap_spec in Hp.
  + destruct (lh_StorageReserved _) as [n|]; cbn; [|by exists 0].
    eexists. split; [done|]. destruct (Z.ltb_spec maxStorageReserved n); lia.
Qed.

(** The defaults bring every chart value within its bounds (3 replicas, 12%
    CPU per manager, at most 30% reserved storage, always set) and are
    idempotent; a version given by the user is kept. *)
Theorem setConfigDefaultValues_bounds v c :
  let c' := setConfigDefaultValues v c in
  chart_bounds (in_Harvester (hc_Install c')) /\
  setConfigDefaultValues v c' = c' /\
  (hc_HarvesterChartVersion c <> "" -> hc_HarvesterChartVersion c' = hc_HarvesterChartVersion c) /\
  hc_OS c' = hc_OS c /\ in_ManagementInterface (hc_Install c') = in_ManagementInterface (hc_Install c).
Proof.
  cbv zeta. split; [|split; [|split; [|split; reflexivity]]].
  - apply chart_bounds_default.
  - unfold setConfigDefaultValues, default_versions, set_hc_Install, set_in_Harvester. cbn.
    by rewrite !or_default_idem, cap_chart_idem.
  - intros H. cbn. unfold or_default. by rewrite bool_decide_false.
Qed.

Lemma setConfigDefaultValues_bounds_witness :
  hc_HarvesterChartVersion (setConfigDefaultValues (mkVersions "" "" "" "" "" "")
    (set_hc_HarvesterChartVersion "1.4.0" zero_HarvesterConfig)) = "1.4.0".
Proof.
  apply (setConfigDefaultValues_bounds (mkVersions "" "" "" "" "" "") (set_hc_HarvesterChartVersion "1.4.0" zero_HarvesterConfig)).
  discriminate.
Defined.

(** C18: The files of the RKE2 and rancherd stage, for every mode and role: all
    readable by root only (mode 0600, they hold the cluster token), the first
    one the rancherd configuration rendered from the configuration with its
    defaults, the bootstrap resources exactly in create mode (7 files, 8 on
    arm64), the server configuration exactly when no server URL is given, and
    the witness configuration exactly for a witness. *)
Theorem initRancherdStage_files render templFile visit built goarch c s c' s' :
  (forall m, visit m ≡ₚ map_to_list m) ->
  initRancherdStage render templFile visit built goarch c s = Ok (c', s') ->
  exists fs names, st_Files s' = st_Files s ++ fs /\ Forall (fun f => yf_Permissions f = 384) fs /\
    render "rancherd-config.yaml" (setConfigDefaultValues built c) = Ok (default "" (yf_Content <$> head fs)) /\
    names ≡ₚ (if bool_decide (in_Mode (hc_Install c) = "create") then elements (bootstrap_names goarch) else []) /\
    map yf_Path fs = RancherdConfigFile :: map (fun n => rancherdBootstrapDir +:+ n) names ++
      (if bool_decide (hc_ServerURL c = "") then ["/etc/rancher/rke2/config.yaml.d/90-harvester-server.yaml"] else []) ++
      ["/etc/rancher/rke2/config.yaml.d/91-harvester-cdi.yaml";
       "/etc/rancher/rke2/config.yaml.d/92-harvester-kube-audit-policy.yaml";
       "/etc/rancher/rke2/config.yaml.d/90-harvester-agent.yaml"] ++
      (if bool_decide (in_Role (hc_Install c) = RoleWitness)
       then ["/etc/rancher/rke2/config.yaml.d/99-harvester-witness.yaml"] else []) ++
      ["/etc/rancher/rke2/config.yaml.d/99-z00-harvester-reserved-resources.yaml"].
Proof.
  intros Hvisit H. apply initRancherdStage_ok in H as (-> & fs & resources & rancherd & Hg & Hp & Hr & Hhd & Hboot & Hpaths).
  exists fs, (if bool_decide (in_Mode (hc_Install c) = "create") then map fst (visit resources) else []).
  split; [exact Hg|]. split; [exact Hp|]. split; [by rewrite Hhd|]. split.
  - case_bool_decide as Hmode; [|done]. rewrite <- (genBootstrapResources_names _ _ _ _ _ (Hboot Hmode)), Hvisit.
    apply NoDup_Permutation; [apply NoDup_fst_map_to_list|apply NoDup_elements|]. intros x.
    rewrite elem_of_elements, elem_of_dom, list_elem_of_fmap. split.
    + intros ([k v] & -> & Hin). exists v. by apply elem_of_map_to_list.
    + intros [v Hv]. exists (x, v). split; [done|]. by apply elem_of_map_to_list.
  - rewrite Hpaths. case_bool_decide; [|done]. by rewrite map_map.
Qed.

Definition demo_render : string -> HarvesterConfig -> result string := fun t c => Ok (t +:+ " " +:+ hc_Token c).
Definition demo_templFile : string -> result string := Ok.
Definition demo_versions : versions := mkVersions "v1.30" "v2.9" "1.4.0" "105" "105" "1.0".
Definition demo_config (mode : string) : HarvesterConfig :=
  set_hc_Install (set_in_ManagementInterface demo_net (set_in_Mode mode zero_Install))
    (set_hc_Token "secret" zero_HarvesterConfig).

Lemma initRancherdStage_files_witness :
  let r := initRancherdStage demo_render demo_templFile map_to_list demo_versions "amd64" (demo_config "join") zero_Stage in
  exists c' s' fs, r = Ok (c', s') /\ st_Files s' = fs /\ Forall (fun f => yf_Permissions f = 384) fs.
Proof.
  intros r. assert (Hok : is_ok r = true) by vm_refl.
  destruct r as [[c' s']| |] eqn:Hr; [|discriminate..]. clear Hok.
  destruct (initRancherdStage_files demo_render demo_templFile map_to_list demo_versions "amd64" (demo_config "join")
    zero_Stage c' s' ltac:(reflexivity) Hr) as (fs & _ & Hf & Hp & _).
  exists c', s', fs. done.
Defined.

Section convert.
Context (render : string -> HarvesterConfig -> result string) (templFile : string -> result string)
        (yamlStage : string -> result Stage) (visit : gmap string string -> list (string * string))
        (built : versions) (goarch : string) `{Host}.
Let convert := ConvertToCOS render templFile yamlStage visit built goarch.

(** What [ConvertToCOS] did when it returned. *)
Lemma ConvertToCOS_ok c w c' stages w' :
  convert c w = (Ok (c', stages), w') ->
  exists c1 initramfs, c' = overwriteSSHDComponent c1 /\ stages !! "initramfs" = Some [initramfs] /\
  ((in_Mode (hc_Install c) = ModeInstall /\ c1 = c /\ w' = w /\ initramfs_base c c = Ok initramfs) \/
   (in_Mode (hc_Install c) <> ModeInstall /\
    exists s0 s1, initramfs_base c c = Ok s0 /\
      initRancherdStage render templFile visit built goarch c s0 = Ok (c1, s1) /\
      initramfs = ntp_sync (os_NTPServers (hc_OS c)) (set_st_Hostname (os_Hostname (hc_OS c)) s1) /\
      UpdateManagementInterfaceConfig (in_ManagementInterface (hc_Install c)) (os_DNSNameservers (hc_OS c))
        NMConnectionPath false w = (Ok tt, w'))).
Proof.
  unfold convert, ConvertToCOS. rewrite DeepCopy_ok. intros (cfg & w0 & [= <- <-] & Hc0)%io_bind_ok.
  revert Hc0. intros (rootfs & w0 & [= Hroot <-] & Hc)%io_bind_ok. apply io_bind_ok in Hc as (s0 & w0 & [= Hs0 <-] & Hc).
  apply io_bind_ok in Hc as ([[c1 initramfs] after] & w1 & Hmid & Hc).
  exists c1, initramfs.
  assert (Hend : c' = overwriteSSHDComponent c1 /\ stages !! "initramfs" = Some [initramfs] /\ w' = w1).
  { destruct (0 <? _)%nat.
    - apply io_bind_ok in Hc as (chroot & ? & [= Hch <-] & [[= <- <-] <-]%io_ret_ok). split_and!; [done| |done].
      rewrite lookup_insert_ne by done. rewrite lookup_insert_ne by done. by rewrite lookup_insert_eq.
    - apply io_ret_ok in Hc as [[= <- <-] <-]. split_and!; [done| |done].
      rewrite lookup_insert_ne by done. by rewrite lookup_insert_eq. }
  destruct Hend as (-> & Hi & ->). split; [done|]. split; [done|]. clear Hc Hi.
  case_bool_decide as Hmode.
  - right. split; [done|]. apply io_bind_ok in Hmid as ([c2 s1] & ? & [= Hinit <-] & Hmid).
    apply io_bind_ok in Hmid as ([] & w2 & Hup & [[= <- <- <-] <-]%io_ret_ok).
    exists s0, s1. split_and!; [done|done|done|exact Hup].
  - left. apply io_ret_ok in Hmid as [[= <- <- <-] <-]. split; [|done].
    destruct (decide (in_Mode (hc_Install c) = ModeInstall)); [done|]. by exfalso.
Qed.
End convert.

(** The files of the stage before the part that depends on the mode. *)
Definition multipath_file (content : string) : YFile := mkYFile "/etc/multipath.conf" content "" 493 "".
Definition longhorn_files : list YFile :=
  [mkYFile "/etc/multipath/conf.d/99-longhorn.conf" (base64 (chars ignoreLonghorn)) "base64" 420 "";
   mkYFile "/etc/systemd/system/multipathd.service" (base64 (chars multipathdUnitPatch)) "base64" 420 ""].

Lemma initramfs_base_files c s :
  initramfs_base c c = Ok s ->
  exists mp, st_Files s = map write_file (os_WriteFiles (hc_OS c)) ++ mp ++ longhorn_files /\
    (mp = [] \/ exists content, mp = [multipath_file content]).
Proof.
  unfold initramfs_base. intros (s1 & Hext & [= <-])%bind_ok. unfold setupExternalStorage in Hext.
  assert (Hmp : exists mp, st_Files s1 = map write_file (os_WriteFiles (hc_OS c)) ++ mp /\
    (mp = [] \/ exists content, mp = [multipath_file content])).
  { destruct (negb _); [injection Hext as <-; exists []; split; [by rewrite app_nil_r|by left]|].
    destruct (es_MultiPathConfig _).
    1: injection Hext as <-; exists []; split; [by rewrite app_nil_r|by left].
    all: apply bind_ok in Hext as (content & _ & [= <-]); eexists; split; [reflexivity|right; by eexists]. }
  destruct Hmp as (mp & Hfiles & Hmp). exists mp. split; [|done]. cbn. by rewrite Hfiles, <- app_assoc.
Qed.

(** C13: Install mode only streams the image: [ConvertToCOS] then touches no file
    and runs no command, leaves the configuration as it was (but for the SSHD
    commands), and puts no rancherd or RKE2 file in the stage: its files are
    the user's, the multipath configuration and the two Longhorn ones. *)
Theorem ConvertToCOS_install `{Host} render templFile yamlStage visit built goarch c w c' stages w' :
  in_Mode (hc_Install c) = ModeInstall ->
  ConvertToCOS render templFile yamlStage visit built goarch c w = (Ok (c', stages), w') ->
  w' = w /\ c' = overwriteSSHDComponent c /\
  exists s mp, stages !! "initramfs" = Some [s] /\
    map yf_Path (st_Files s) = map fi_Path (os_WriteFiles (hc_OS c)) ++ mp ++
      ["/etc/multipath/conf.d/99-longhorn.conf"; "/etc/systemd/system/multipathd.service"] /\
    (mp = [] \/ mp = ["/etc/multipath.conf"]).
Proof.
  intros Hmode (c1 & s & -> & Hs & [(_ & -> & -> & Hbase)|[? _]])%ConvertToCOS_ok; [|done].
  split; [done|]. split; [done|]. apply initramfs_base_files in Hbase as (mp & Hf & Hmp).
  exists s, (map yf_Path mp). split; [exact Hs|]. rewrite Hf, !map_app, map_map. split; [done|].
  destruct Hmp as [->|[content ->]]; [by left|by right].
Qed.

Lemma ConvertToCOS_install_witness :
  let r := @ConvertToCOS demo_render demo_templFile (fun _ => Ok zero_Stage) map_to_list demo_versions "amd64" ideal_host
    (demo_config "install") demo_world in
  snd r = demo_world.
Proof.
  intros r. assert (Hok : is_ok (fst r) = true) by vm_refl.
  destruct r as [[[c' st]| |] w'] eqn:Hr; [|discriminate..]. clear Hok.
  exact (proj1 (@ConvertToCOS_install ideal_host demo_render demo_templFile (fun _ => Ok zero_Stage) map_to_list demo_versions "amd64"
    (demo_config "install") demo_world c' st w' eq_refl Hr)).
Defined.

(** The bootstrap resources and the RKE2 files have other paths than the
    rancherd configuration. *)
Lemma bootstrap_path n : rancherdBootstrapDir +:+ n <> RancherdConfigFile.
Proof.
  unfold rancherdBootstrapDir, RancherdConfigFile. cbn. intros [=].
Qed.

Lemma rancherd_paths_differ (l : list string) (a b : bool) :
  RancherdConfigFile ∉ map (fun n => rancherdBootstrapDir +:+ n) l ++
      (if a then ["/etc/rancher/rke2/config.yaml.d/90-harvester-server.yaml"] else []) ++
      ["/etc/rancher/rke2/config.yaml.d/91-harvester-cdi.yaml";
       "/etc/rancher/rke2/config.yaml.d/92-harvester-kube-audit-policy.yaml";
       "/etc/rancher/rke2/config.yaml.d/90-harvester-agent.yaml"] ++
      (if b then ["/etc/rancher/rke2/config.yaml.d/99-harvester-witness.yaml"] else []) ++
      ["/etc/rancher/rke2/config.yaml.d/99-z00-harvester-reserved-resources.yaml"].
Proof.
  rewrite elem_of_app. intros [(n & Hn & _)%list_elem_of_fmap|Hin]; [by apply (bootstrap_path n)|].
  apply list_elem_of_In in Hin. destruct a, b; cbn in Hin; repeat destruct Hin as [Hin|Hin]; discriminate || done.
Qed.

(** C14: In every other mode the management network is configured from the same
    configuration; the files of the stage are the user's, in their order, then
    the multipath configuration if there is one and the two Longhorn files, and
    then the rancherd configuration, rendered from the configuration with its
    defaults and readable by root only, with no later file at its path (files
    are written in order, so it is never a user's file that is found there);
    the host name is the one asked for; and the configuration that is saved
    afterwards has its chart values within bounds. *)
Theorem ConvertToCOS_create_join `{Host} render templFile yamlStage visit built goarch c w c' stages w' :
  in_Mode (hc_Install c) <> ModeInstall ->
  ConvertToCOS render templFile yamlStage visit built goarch c w = (Ok (c', stages), w') ->
  w_files w' = Spec.profiles (in_ManagementInterface (hc_Install c)) (os_DNSNameservers (hc_OS c)) NMConnectionPath
               ∪ outside NMConnectionPath NMConnectionSuffix (w_files w) /\
  chart_bounds (in_Harvester (hc_Install c')) /\
  exists s mp rancherd others, stages !! "initramfs" = Some [s] /\
    st_Hostname s = os_Hostname (hc_OS c) /\
    render "rancherd-config.yaml" (setConfigDefaultValues built c) = Ok rancherd /\
    st_Files s = map write_file (os_WriteFiles (hc_OS c)) ++ mp ++ longhorn_files ++
                 mkYFile "/etc/rancher/rancherd/config.yaml" rancherd "" 384 "" :: others /\
    (mp = [] \/ exists content, mp = [multipath_file content]) /\
    "/etc/rancher/rancherd/config.yaml" ∉ map yf_Path others.
Proof.
  intros Hmode (c1 & s & -> & Hs & [[? _]|(_ & s0 & s1 & Hbase & Hinit & Hfiles & Hup)])%ConvertToCOS_ok; [done|].
  split; [by apply Update_ok in Hup as [? _]|].
  apply initRancherdStage_ok in Hinit as (-> & fs & resources & rancherd & Hg & _ & Hr & Hhd & _ & Hpaths). split.
  - replace (hc_Install (overwriteSSHDComponent (setConfigDefaultValues built c))) with
      (hc_Install (setConfigDefaultValues built c)) by (unfold overwriteSSHDComponent; by destruct (os_SFTP _)).
    apply chart_bounds_default.
  - apply initramfs_base_files in Hbase as (mp & Hb & Hmp).
    destruct fs as [|f others]; [discriminate|]. injection Hpaths as _ Hothers. injection Hhd as ->.
    exists s, mp, rancherd, others. split_and!; [done| |done| |done|].
    + subst s. unfold ntp_sync. by destruct (0 <? _)%nat.
    + replace (st_Files s) with (st_Files s1) by (subst s; unfold ntp_sync; by destruct (0 <? _)%nat).
      by rewrite Hg, Hb, <- !app_assoc.
    + rewrite Hothers. case_bool_decide; [|apply (rancherd_paths_differ [])].
      rewrite <- (map_map fst (fun n => rancherdBootstrapDir +:+ n)). apply rancherd_paths_differ.
Qed.

Lemma ConvertToCOS_create_join_witness :
  let r := @ConvertToCOS demo_render demo_templFile (fun _ => Ok zero_Stage) map_to_list demo_versions "amd64" ideal_host
    (demo_config "create") demo_world in
  exists c' st, fst r = Ok (c', st) /\ chart_bounds (in_Harvester (hc_Install c')).
Proof.
  intros r. assert (Hok : is_ok (fst r) = true) by vm_refl.
  destruct r as [[[c' st]| |] w'] eqn:Hr; [|discriminate..]. clear Hok.
  exists c', st. split; [done|].
  exact (proj1 (proj2 (@ConvertToCOS_create_join ideal_host demo_render demo_templFile (fun _ => Ok zero_Stage) map_to_list
    demo_versions "amd64" (demo_config "create") demo_world c' st w' ltac:(discriminate) Hr))).
Defined.

(** C34: The layout of a shared disk always fits: when it is accepted (checks not
    skipped), OEM, state, recovery and persistent partitions, with the 64 MiB
    of the EFI system and the 50 GiB kept for the data partition, take at most
    the size of the disk, and the persistent partition has at least 150 GiB. *)
Theorem shared_layout_fits bytes e c e' :
  is_u64 bytes -> in_SkipChecks (hc_Install c) = false ->
  CreateRootPartitioningLayoutSharedDataDisk (Ok bytes) e c = Ok e' ->
  exists p, ei_Partitions e' = Some p /\ map ep_Label (ei_ExtraPartitions e') = ["HARV_LH_DEFAULT"] /\
    150 * 1024 <= ep_Size (edp_Persistent p) /\
    (ep_Size (edp_OEM p) + ep_Size (edp_State p) + ep_Size (edp_Recovery p) +
     ep_Size (edp_Persistent p) + 64 + 50 * 1024) * MiByteMultiplier <= bytes.
Proof.
  intros Hb Hskip H. unfold CreateRootPartitioningLayoutSharedDataDisk in H. cbn [mbind result_bind] in H.
  rewrite Hskip in H. apply bind_ok in H as (mib & Hm & [= <-]).
  eexists. split; [reflexivity|]. split; [reflexivity|]. cbn [set_partitions ei_ExtraPartitions default_partitions ep_Size
    edp_Persistent edp_OEM edp_State edp_Recovery].
  unfold calcCosPersistentPartSize in Hm. apply bind_ok in Hm as (n & Hn & [= <-]).
  destruct (ByteToGi_le bytes Hb) as [Hle Hu]. apply ParsePartitionSize_ok in Hn as (_ & _ & Hlow & Hup); [|done].
  unfold Spec.room in Hup. unfold ByteToMi. rewrite u64_shr_div by lia.
  pose proof fixedOccupiedSize_val. pose proof MinPersistentSize_val.
  unfold MiByteMultiplier, DefaultCosOemSizeMiB, DefaultCosStateSizeMiB, DefaultCosRecoverySizeMiB.
  pose proof (Z.mul_div_le n (2 ^ 20) ltac:(lia)).
  split; [apply Z.div_le_lower_bound; lia|]. lia.
Qed.

Lemma shared_layout_fits_witness :
  let e := mkElemental "/dev/sda" "" "gpt" None [] "" "" None in
  exists p, ei_Partitions (set_partitions (default_partitions 153600) [mkPartition "HARV_LH_DEFAULT" 0 "ext4"] e) = Some p /\
    (ep_Size (edp_OEM p) + ep_Size (edp_State p) + ep_Size (edp_Recovery p) +
     ep_Size (edp_Persistent p) + 64 + 50 * 1024) * MiByteMultiplier <= 300 * 2 ^ 30.
Proof.
  intros e. destruct (shared_layout_fits (300 * 2 ^ 30) e zero_HarvesterConfig
    (set_partitions (default_partitions 153600) [mkPartition "HARV_LH_DEFAULT" 0 "ext4"] e)) as (p & Hp & _ & _ & Hfit);
    [split; [by vm_compute|by vm_compute] | reflexivity | vm_refl | by exists p].
Defined.

(** The target of the installation is the device behind the configured path
    (symbolic links resolved), the partition table is GPT exactly when forced,
    and the image size is fixed; an unresolvable path is an error. *)
Theorem ConvertToElementalConfig_spec evalSymlinks c :
  match evalSymlinks (in_Device (hc_Install c)) with
  | Ok dev => exists e, ConvertToElementalConfig evalSymlinks c = Ok e /\ ei_Target e = dev /\
      (ei_PartTable e = "gpt" <-> in_ForceGPT (hc_Install c) = true) /\
      (ei_Firmware e = "efi" <-> in_ForceEFI (hc_Install c) = true) /\
      ei_CloudInit e = in_ConfigURL (hc_Install c) /\ ei_SystemSize e = Some 3072 /\ ei_Partitions e = None
  | r => is_ok (ConvertToElementalConfig evalSymlinks c) = false
  end.
Proof.
  unfold ConvertToElementalConfig. destruct (evalSymlinks _) as [dev|err|]; try done.
  eexists. split; [reflexivity|]. cbn. destruct (in_ForceGPT _), (in_ForceEFI _); split_and!; done.
Qed.
