(* ===== verification/NodeFiles.v ===== *)
(** * NodeFiles: the files of a node as rancherd and RKE2 read them
      ([initRancherdStage] of [cos.go] with the embedded templates)

    The reading is a specification: of YAML, the block mappings and lists that
    these templates write, with values that are double-quoted scalars (what
    [{{ printf "%q" ... }}] writes in ASCII text) or plain scalars of letters,
    digits and a few signs.  What it does not read has no value. *)
From Stdlib Require Import ZArith Lia Ascii String.
From stdpp Require Import base tactics list gmap strings.
From S2P Require Import Prelude GoStrings GoNet GoJson Config K8sNames Template Embedded ConfigOps World NMConfig Templates Cos.
Local Open Scope Z_scope.

(** ** Reading *)

(** The escapes of a double-quoted scalar that [strconv.Quote] writes in ASCII text. *)
Definition unescape (c : ascii) : option ascii :=
  match c with
  | "a" => Some "007" | "b" => Some "008" | "t" => Some "009" | "n" => Some "010"
  | "v" => Some "011" | "f" => Some "012" | "r" => Some "013"
  | _ => if bool_decide (c = quote) || bool_decide (c = backslash) then Some c else None
  end%char.
(** The text up to the closing quote, which ends the scalar. *)
Fixpoint unquote_body (s : string) : option string :=
  match s with
  | "" => None
  | String c s' =>
      if bool_decide (c = quote) then if bool_decide (s' = "") then Some "" else None
      else if bool_decide (c = backslash) then
        match s' with
        | String "x" (String a (String b r)) =>
            n ← hex_byte (String a (String b "")); t ← unquote_body r; Some (String (byte_char n) t)
        | String e r => x ← unescape e; t ← unquote_body r; Some (String x t)
        | "" => None
        end
      else t ← unquote_body s'; Some (String c t)
  end.
Definition unquote (s : string) : option string :=
  match s with String c s => if bool_decide (c = quote) then unquote_body s else None | "" => None end.

Definition newline : ascii := "010".
(** The value of a key at the left margin, and a list of quoted values under one. *)
Fixpoint find_key (key : string) (ls : list string) : option string :=
  match ls with
  | [] => None
  | l :: ls => match strip_prefix (key +:+ ": ") l with Some v => Some v | None => find_key key ls end
  end.
Definition entry (key content : string) : option string := find_key key (split_on newline content).
(** A scalar that needs no quotes: its text, without a look at its type. *)
Definition plain_char (c : ascii) : bool := is_alnum c || existsb (fun d => bool_decide (c = d)) ["."; "_"; "+"; "-"; "/"; ":"; "["; "]"; "%"; "@"]%char.
Definition plain_scalar (s : string) : bool :=
  match s with "" => false | String c _ => is_alnum c end && all_chars plain_char s && negb (has_suffix s ":").
Definition scalar (text : string) : option string := if plain_scalar text then Some text else unquote text.
Definition value_of (key content : string) : option string := entry key content ≫= scalar.
Definition quoted_item (line : string) : option string := strip_prefix "- " line ≫= unquote.
Definition list_under (key content : string) : option (list string) :=
  match split_on newline (trim_space content) with
  | k :: items => if bool_decide (k = key +:+ ":") then mapM quoted_item items else None
  | [] => None
  end.

Definition ascii_text (s : string) : bool := all_chars (fun c => ord c <? 128) s.
Definition one_line (s : string) : Prop := has_char newline s = false.

Lemma plain_line s : plain_scalar s = true -> one_line s.
Proof.
  unfold plain_scalar. intros [[_ Hs]%andb_prop _]%andb_prop. unfold one_line. induction s as [|c s IH]; [done|].
  cbn [all_chars has_char] in *. apply andb_prop in Hs as [Hc Hs]. rewrite (IH Hs), orb_false_r. by case_bool_decide; [subst c|].
Qed.
Lemma scalar_plain s : plain_scalar s = true -> scalar s = Some s.
Proof. unfold scalar. by intros ->. Qed.

(** ** Quoting *)

Section quote.
Context (wide_print : Z -> bool).

Lemma unquote_rune c s rest : ord c <? 128 = true ->
  unquote_body (quote_rune wide_print (String c s) (ord c) 1 +:+ rest) = t ← unquote_body rest; Some (String c t).
Proof. destruct c as [[] [] [] [] [] [] [] []]; intros Hc; try discriminate Hc; reflexivity. Qed.
Lemma quote_rune_line c s : ord c <? 128 = true -> one_line (quote_rune wide_print (String c s) (ord c) 1).
Proof. destruct c as [[] [] [] [] [] [] [] []]; intros Hc; try discriminate Hc; reflexivity. Qed.
Lemma quote_body_cons c s : ord c <? 128 = true ->
  quote_body wide_print 0 (String c s) = quote_rune wide_print (String c s) (ord c) 1 +:+ quote_body wide_print 0 s.
Proof. intros Hc. cbn [quote_body]. unfold decode_rune. by rewrite Hc. Qed.
Lemma unquote_Quote s : ascii_text s = true -> unquote (Quote wide_print s) = Some s.
Proof.
  unfold unquote, Quote. rewrite bool_decide_eq_true_2 by done. induction s as [|c s IH]; [done|].
  intros [Hc Hs]%andb_prop. rewrite quote_body_cons, string_app_assoc, unquote_rune, IH by done. done.
Qed.
Lemma Quote_line s : ascii_text s = true -> one_line (Quote wide_print s).
Proof.
  intros Hs. unfold one_line, Quote. cbn [has_char]. rewrite has_char_app. cbn. rewrite orb_false_r.
  induction s as [|c s IH]; [done|]. apply andb_prop in Hs as [Hc Hs].
  rewrite quote_body_cons, has_char_app, quote_rune_line by done. by apply IH.
Qed.
End quote.

Lemma ascii_text_spec s : (forall c, 128 <= ord c -> has_char c s = false) -> ascii_text s = true.
Proof. intros Hs. apply all_chars_alt. intros c Hc%Z.ltb_ge. by apply Hs. Qed.
Lemma has_char_join c l : has_char c (join "," l) = true -> c = ","%char \/ Exists (fun s => has_char c s = true) l.
Proof.
  induction l as [|s [|s' l] IH]; [done|cbn; intros; by right; left|].
  rewrite join_cons2, !has_char_app, !orb_true_iff. cbn [has_char]. rewrite orb_false_r, bool_decide_eq_true.
  intros [H|[H|H]]; [by right; left|by left|]. destruct (IH H); [by left|by right; right].
Qed.
Lemma wide_names c : 128 <= ord c -> name_char c = false /\ dns_char c = false /\ c <> "/"%char /\ c <> "."%char /\ c <> ","%char /\ c <> "="%char.
Proof. destruct c as [[] [] [] [] [] [] [] []]; intros Hc; try (by exfalso; apply Hc); by repeat split. Qed.
Lemma checkLabel_ascii kv s c : checkLabel kv = Ok s -> 128 <= ord c -> has_char c s = false.
Proof.
  destruct kv as [k v]. unfold checkLabel. intros H Hc. inv_ok. apply negb_false_iff in H, H0.
  destruct (wide_names c Hc) as (Hn & Hd & ? & ? & ? & ?).
  rewrite !has_char_app, (qualified_name_chars k c), (label_value_chars v c) by done. cbn.
  by rewrite bool_decide_eq_false_2.
Qed.
Lemma kubelet_args_ascii visit c args : kubelet_args visit c = Ok args -> Forall (fun a => ascii_text a = true) args.
Proof.
  intros (ls & Hls & ->)%GetKubeletArgs_ok. repeat apply Forall_app_2; [by repeat constructor| |by case_bool_decide; repeat constructor].
  case_bool_decide; constructor; [|done]. apply ascii_text_spec. intros d Hd. rewrite has_char_app.
  destruct (wide_names d Hd) as (? & ? & ? & ? & Hcomma & ?).
  apply orb_false_iff. split; [by destruct d as [[] [] [] [] [] [] [] []]; try (by exfalso; apply Hd)|].
  apply not_true_is_false. intros [?|Hex]%has_char_join; [done|]. apply Exists_exists in Hex as (s & Hs & Ht).
  apply list_elem_of_lookup in Hs as [i Hi]. eapply Forall2_lookup_r in Hls as (kv & _ & Hk); [|exact Hi].
  by rewrite (checkLabel_ascii kv s d) in Ht.
Qed.

(** ** What the templates give *)

Section files.
Context (wide_print : Z -> bool) (built_file : string -> result string)
        (visit : gmap string string -> list (string * string)) (numCPU : Z).
Notation render_config := (render_config wide_print built_file visit numCPU).
Notation q := (Quote wide_print).

Definition rancherd_lines (c : HarvesterConfig) : list string :=
  (if bool_decide (hc_ServerURL c = "") then ["role: cluster-init"] else ["server: " +:+ hc_ServerURL c; "role: agent"]) ++
  [ "nodeName: " +:+ os_Hostname (hc_OS c); "token: " +:+ q (hc_Token c); "kubernetesVersion: " +:+ hc_RuntimeVersion c;
    "rancherVersion: " +:+ hc_RancherVersion c;
    "rancherInstallerImage: rancher/system-agent-installer-rancher:" +:+ hc_RancherVersion c;
    "labels:"; " - harvesterhci.io/managed=true"; "extraConfig:"; "  disable:"; "  - rke2-snapshot-controller";
    "  - rke2-snapshot-controller-crd"; "  - rke2-snapshot-validation-webhook"; "" ].
Lemma rancherd_rendered c : render_config "rancherd-config.yaml" c = Ok (join (String newline "") (rancherd_lines c)).
Proof.
  unfold Templates.render_config. run_template "rancherd-config.yaml". unfold rancherd_lines.
  case_bool_decide; cbn -[String.append Quote join]; same_text.
Qed.
Lemma join_empty_app l l' : join "" (l ++ l') = join "" l +:+ join "" l'.
Proof. induction l as [|s l IH]; [done|]. cbn [app]. by rewrite !join_empty_cons, IH, string_app_assoc. Qed.
Lemma join_lines l k : join (String newline "") (k :: l) = k +:+ join "" (map (fun s => String newline "" +:+ s) l).
Proof.
  revert k. induction l as [|s l IH]; intros k; [by rewrite string_app_nil_r|]. cbn [map]. rewrite join_cons2, IH, join_empty_cons.
  by rewrite !string_app_assoc.
Qed.
Lemma join_items l k : join (String newline "") (k :: l ++ [""]) = k +:+ join "" (map (fun s => String newline "" +:+ s) l) +:+ String newline "".
Proof.
  revert k. induction l as [|s l IH]; intros k; [done|]. cbn [app map]. rewrite join_cons2, IH, join_empty_cons. by rewrite !string_app_assoc.
Qed.
Lemma agent_rendered c args : kubelet_args visit c = Ok args ->
  render_config "rke2-90-harvester-agent.yaml" c = Ok (String newline "" +:+ join (String newline "") ("kubelet-arg:" :: map (fun a => "- " +:+ q a) args ++ [""])).
Proof.
  intros E. unfold Templates.render_config. run_template "rke2-90-harvester-agent.yaml".
  assert (args <> []) as Hne by (by apply GetKubeletArgs_ok in E as (ls & _ & ->)).
  rewrite E. cbn [fmap result_fmap mbind result_bind]. unfold strings_value. cbn [truth entries mbind result_bind]. fold_ranges.
  rewrite (ranged_list _ (fun a => String newline "" +:+ "- " +:+ q a)) by (intros; cbn -[String.append Quote]; by rewrite ?string_app_nil_r).
  rewrite join_items, map_map. destruct args; [done|]. cbn [map mbind result_bind]. same_text.
Qed.
Lemma reserved_rendered c :
  render_config "rke2-99-z00-harvester-reserved-resources.yaml" c =
  Ok (join (String newline "") ["kubelet-arg+:"; "- " +:+ q (GetSystemReserved numCPU); "- " +:+ q (GetKubeReserved numCPU)]).
Proof. unfold Templates.render_config. run_template "rke2-99-z00-harvester-reserved-resources.yaml". same_text. Qed.

(** *** Read back *)

Lemma quoted_items (args : list string) : Forall (fun a => ascii_text a = true) args ->
  mapM quoted_item (map (fun a => "- " +:+ q a) args) = Some args.
Proof.
  intros Ha. apply mapM_Some, Forall2_fmap_l. induction Ha as [|a args Ha _ IH]; constructor; [|done].
  change (quoted_item ("- " +:+ q a) = Some a). unfold quoted_item. rewrite strip_prefix_app. by apply unquote_Quote.
Qed.
Lemma quoted_lines k (args : list string) : one_line k -> Forall (fun a => ascii_text a = true) args ->
  Forall one_line (k :: map (fun a => "- " +:+ q a) args).
Proof.
  intros Hk Ha. constructor; [done|]. apply Forall_map. eapply Forall_impl; [exact Ha|]. intros a Ha'.
  unfold one_line. by rewrite has_char_app, Quote_line.
Qed.
(** A list under a key, alone or with an empty line before and after it. *)
Lemma trim_quoted c k (args : list string) : args <> [] -> is_space c = false ->
  let s := join (String newline "") (String c k :: map (fun a => "- " +:+ q a) args) in
  trim_space s = s /\
  trim_space (String newline "" +:+ join (String newline "") (String c k :: map (fun a => "- " +:+ q a) args ++ [""])) = s.
Proof.
  intros Hne Hc. cbv zeta. rewrite join_items, join_lines. set (s := String c k +:+ join "" _).
  replace (String newline "" +:+ _) with (String newline (s +:+ String newline "")) by (subst s; by rewrite string_app_assoc).
  assert (Hs : exists a, s = a +:+ String quote "").
  { subst s. destruct args as [|a l] using rev_ind; [done|]. rewrite map_app, map_app. clear.
    exists (String c k +:+ join "" (map (fun s => String newline "" +:+ s) (map (fun a => "- " +:+ q a) l)) +:+
            String newline "" +:+ "- " +:+ String quote (quote_body wide_print 0 a)).
    rewrite join_empty_app, !string_app_assoc. cbn [map]. rewrite join_empty_cons, !string_app_assoc.
    change (q a) with (String quote (quote_body wide_print 0 a) +:+ String quote ""). by rewrite string_app_assoc, string_app_nil_r. }
  assert (Hl : forall r, trim_left is_space (s +:+ r) = s +:+ r) by (intros r; subst s; rewrite !string_app_cons; cbn [trim_left]; by rewrite Hc).
  clearbody s. destruct Hs as [a Hs]. unfold trim_space, trim. split.
  - rewrite <- (string_app_nil_r s) at 1. rewrite Hl, string_app_nil_r, Hs. by apply trim_right_app.
  - cbn [trim_left]. change (is_space newline) with true. cbv iota.
    rewrite Hl, trim_right_snoc, Hs by done. by apply trim_right_app.
Qed.
Lemma list_under_quoted c key (args : list string) : args <> [] -> one_line (String c key) -> is_space c = false ->
  Forall (fun a => ascii_text a = true) args ->
  list_under (String c key) (join (String newline "") ((String c key +:+ ":") :: map (fun a => "- " +:+ q a) args)) = Some args.
Proof.
  intros Hne Hk Hc Ha. unfold list_under. rewrite string_app_cons, (proj1 (trim_quoted c (key +:+ ":") args Hne Hc)).
  rewrite join_split_on; [|done|].
  - rewrite bool_decide_eq_true_2 by done. by apply quoted_items.
  - apply quoted_lines; [|done]. unfold one_line in *. change (String c (key +:+ ":")) with (String c key +:+ ":"). by rewrite has_char_app, Hk.
Qed.

(** *** rancherd *)

Lemma entry_lines key (ls : list string) : ls <> [] -> Forall one_line ls ->
  entry key (join (String newline "") ls) = find_key key ls.
Proof. intros Hne Hl. unfold entry. by rewrite join_split_on. Qed.
Lemma find_key_here key l ls v : l = (key +:+ ": ") +:+ v -> find_key key (l :: ls) = Some v.
Proof. intros ->. cbn [find_key]. by rewrite strip_prefix_app. Qed.
Lemma find_key_next key l ls : strip_prefix (key +:+ ": ") l = None -> find_key key (l :: ls) = find_key key ls.
Proof. intros E. cbn [find_key]. by rewrite E. Qed.
Ltac find_key := repeat first [rewrite find_key_next by reflexivity | erewrite find_key_here by reflexivity].
Lemma scalar_quoted s : ascii_text s = true -> scalar (q s) = Some s.
Proof. intros Hs. change (scalar (q s)) with (unquote (q s)). by apply unquote_Quote. Qed.
Lemma rancherd_read c content : render_config "rancherd-config.yaml" c = Ok content ->
  hc_ServerURL c = "" \/ plain_scalar (hc_ServerURL c) = true -> plain_scalar (os_Hostname (hc_OS c)) = true ->
  plain_scalar (hc_RuntimeVersion c) = true -> plain_scalar (hc_RancherVersion c) = true -> ascii_text (hc_Token c) = true ->
  value_of "server" content = (if bool_decide (hc_ServerURL c = "") then None else Some (hc_ServerURL c)) /\
  value_of "role" content = Some (if bool_decide (hc_ServerURL c = "") then "cluster-init" else "agent") /\
  value_of "nodeName" content = Some (os_Hostname (hc_OS c)) /\
  value_of "token" content = Some (hc_Token c) /\
  value_of "kubernetesVersion" content = Some (hc_RuntimeVersion c) /\ value_of "rancherVersion" content = Some (hc_RancherVersion c).
Proof.
  rewrite rancherd_rendered. intros [= <-] Hs Hh Hv Hr Ht.
  assert (Hs1 : one_line (hc_ServerURL c)) by (by destruct Hs as [-> |?%plain_line]).
  assert (Hl : Forall one_line (rancherd_lines c)).
  { pose proof (plain_line _ Hh). pose proof (plain_line _ Hv). pose proof (plain_line _ Hr).
    unfold rancherd_lines, one_line in *. apply Forall_app_2; [case_bool_decide|]; repeat constructor;
      rewrite ?has_char_app, ?Quote_line by done; cbn [has_char orb bool_decide]; rewrite ?orb_false_r; done. }
  unfold value_of. rewrite !entry_lines by (done || by unfold rancherd_lines; case_bool_decide).
  unfold rancherd_lines. case_bool_decide as He; cbn [app]; find_key; cbn [mbind option_bind];
    rewrite ?scalar_quoted, ?(scalar_plain (os_Hostname (hc_OS c))), ?(scalar_plain (hc_RuntimeVersion c)), ?(scalar_plain (hc_RancherVersion c)) by done.
  - by split_and!.
  - destruct Hs as [?|Hs]; [done|]. rewrite (scalar_plain _ Hs). by split_and!.
Qed.


(** *** The files of the stage *)

Lemma itoa_ascii n : ascii_text (itoa n) = true.
Proof.
  assert (D : forall p, ascii_text (itoa (Zpos p)) = true).
  { intros p. pose proof (itoa_digits (Zpos p) ltac:(lia)) as Hd. revert Hd. generalize (itoa (Zpos p)) as s.
    induction s as [|c s IH]; [done|]. intros [Hc Hs]%andb_prop. apply andb_true_iff. split; [|by apply IH].
    unfold is_digit, in_range in Hc. apply andb_prop in Hc as [_ Hc]. apply Z.leb_le in Hc. apply Z.ltb_lt.
    change (ord "9") with 57 in Hc. lia. }
  destruct n as [|p|p]; [done|apply D|]. change (itoa (Zneg p)) with ("-" +:+ itoa (Zpos p)). cbn. apply D.
Qed.
Lemma reserved_ascii (key : string) n : ascii_text key = true -> ascii_text (key +:+ itoa n +:+ "m") = true.
Proof.
  unfold ascii_text. intros Hk. rewrite !all_chars_app, Hk. change (all_chars (fun c => ord c <? 128) (itoa n)) with (ascii_text (itoa n)). by rewrite itoa_ascii.
Qed.
Lemma reserved_read c content : render_config "rke2-99-z00-harvester-reserved-resources.yaml" c = Ok content ->
  list_under "kubelet-arg+" content = Some [GetSystemReserved numCPU; GetKubeReserved numCPU].
Proof.
  rewrite reserved_rendered. intros [= <-].
  apply (list_under_quoted "k" "ubelet-arg+" [GetSystemReserved numCPU; GetKubeReserved numCPU]); [done..|].
  repeat constructor; by apply reserved_ascii.
Qed.

Lemma agent_read c content : render_config "rke2-90-harvester-agent.yaml" c = Ok content ->
  exists args, kubelet_args visit c = Ok args /\ list_under "kubelet-arg" (trim_space content) = Some args.
Proof.
  intros E. pose proof (kubelet_total wide_print built_file visit numCPU c _ (list_elem_of_here _ _)) as Hk. rewrite E in Hk.
  destruct (kubelet_args visit c) as [args| |] eqn:Ea; [|discriminate Hk..].
  exists args. split; [done|]. rewrite (agent_rendered c args Ea) in E.
  match type of E with Ok ?x = _ => assert (content = x) as -> by congruence end.
  assert (args <> []) as Hne by (by apply GetKubeletArgs_ok in Ea as (ls & _ & ->)).
  rewrite (proj2 (trim_quoted "k" "ubelet-arg:" args Hne eq_refl)).
  apply (list_under_quoted "k" "ubelet-arg" args Hne); [done..|]. by eapply kubelet_args_ascii.
Qed.
End files.

Section stage.
Context (wide_print : Z -> bool) (built_file templFile : string -> result string)
        (visit : gmap string string -> list (string * string)) (numCPU : Z) (built : versions) (goarch : string).
Notation render := (render_config wide_print built_file visit numCPU).

Lemma file_before f l s : f ∈ st_Files s -> f ∈ st_Files (add_files l s).
Proof. intros Hf. apply elem_of_app. by left. Qed.
Lemma file_added f s : f ∈ st_Files (add_files [f] s).
Proof. apply elem_of_app. right. left. Qed.
Lemma stage_contents c s c' s' : initRancherdStage render templFile visit built goarch c s = Ok (c', s') ->
  c' = setConfigDefaultValues built c /\
  exists rancherd agent reserved, render "rancherd-config.yaml" c' = Ok rancherd /\
    render "rke2-90-harvester-agent.yaml" c' = Ok agent /\
    render "rke2-99-z00-harvester-reserved-resources.yaml" c' = Ok reserved /\
    [ secret_file RancherdConfigFile rancherd; rke2_file "90-harvester-agent.yaml" (trim_space agent);
      rke2_file "99-z00-harvester-reserved-resources.yaml" reserved ] ⊆ st_Files s'.
Proof.
  intros H. unfold initRancherdStage in H.
  apply bind_ok in H as (rancherd & Hr & H). apply bind_ok in H as (s1 & H1 & H).
  apply bind_ok in H as (server & _ & H). apply bind_ok in H as (cdi & _ & H).
  apply bind_ok in H as (audit & _ & H). apply bind_ok in H as (agent & Ha & H).
  apply bind_ok in H as (s2 & H2 & H). apply bind_ok in H as (reserved & Hv & H).
  injection H as <- <-. split; [done|]. exists rancherd, agent, reserved. split_and!; [done..|].
  set (rf := secret_file RancherdConfigFile rancherd) in *. set (af := rke2_file "90-harvester-agent.yaml" (trim_space agent)) in *.
  assert (H1' : rf ∈ st_Files s1).
  { destruct (bool_decide _); [apply bind_ok in H1 as (l & _ & [= <-])|injection H1 as <-]; [apply file_before|]; apply file_added. }
  assert (H2' : rf ∈ st_Files s2 /\ af ∈ st_Files s2).
  { destruct (bool_decide (in_Role _ = _)); [apply bind_ok in H2 as (l & _ & [= <-])|injection H2 as <-]; split;
      repeat first [exact H1' | apply file_added | apply file_before | destruct (bool_decide _)]. }
  clearbody rf af. destruct H2' as [H2r H2a]. intros f Hf. rewrite !elem_of_cons in Hf.
  destruct Hf as [->|[->|[->|Hf]]].
  - apply file_before. exact H2r.
  - apply file_before. exact H2a.
  - apply file_added.
  - destruct (not_elem_of_nil _ Hf).
Qed.

(** C15: What a node reads in the files of its configuration is what was configured: when the stage is made, for
    every mode and role, rancherd is given the server exactly when there is one, the role of an agent or of the first node
    of a cluster, the host name, the token, and the versions of Kubernetes and of rancher; and the kubelet is given the
    arguments that were made from the labels and the role, and the reserved resources.  The token, which is written in
    quotes, may be any ASCII text (quotes, backslashes and line breaks included); the server, the host name and the two
    versions, which are written without quotes, must be plain scalars. *)
Theorem node_files_read_back c s c' s' :
  initRancherdStage render templFile visit built goarch c s = Ok (c', s') ->
  hc_ServerURL c = "" \/ plain_scalar (hc_ServerURL c) = true -> plain_scalar (os_Hostname (hc_OS c)) = true ->
  plain_scalar (hc_RuntimeVersion c') = true -> plain_scalar (hc_RancherVersion c') = true -> ascii_text (hc_Token c) = true ->
  exists rancherd agent reserved args,
    [ secret_file RancherdConfigFile rancherd; rke2_file "90-harvester-agent.yaml" agent;
      rke2_file "99-z00-harvester-reserved-resources.yaml" reserved ] ⊆ st_Files s' /\
    value_of "server" rancherd = (if bool_decide (hc_ServerURL c = "") then None else Some (hc_ServerURL c)) /\
    value_of "role" rancherd = Some (if bool_decide (hc_ServerURL c = "") then "cluster-init" else "agent") /\
    value_of "nodeName" rancherd = Some (os_Hostname (hc_OS c)) /\
    value_of "token" rancherd = Some (hc_Token c) /\
    value_of "kubernetesVersion" rancherd = Some (hc_RuntimeVersion c') /\ value_of "rancherVersion" rancherd = Some (hc_RancherVersion c') /\
    kubelet_args visit c = Ok args /\ list_under "kubelet-arg" agent = Some args /\
    list_under "kubelet-arg+" reserved = Some [GetSystemReserved numCPU; GetKubeReserved numCPU].
Proof.
  intros (-> & rancherd & agent & reserved & Hr & Ha & Hv & Hin)%stage_contents Hs Hh Hrv Hv' Ht.
  apply agent_read in Ha as (args & Hargs & Hread). apply rancherd_read in Hr as (E1 & E2 & E3 & E4 & E5 & E6); [|done..].
  exists rancherd, (trim_space agent), reserved, args. split_and!; [exact Hin|exact E1|exact E2|exact E3|exact E4|exact E5|exact E6|exact Hargs|exact Hread|].
  by eapply reserved_read.
Qed.
End stage.

Definition joining_node : HarvesterConfig :=
  set_hc_ServerURL "https://vip:443" (set_hc_Token (String quote "a b") (set_hc_OS (set_os_Hostname "node1" (hc_OS zero_HarvesterConfig)) zero_HarvesterConfig)).
Lemma node_files_read_back_witness :
  exists rancherd, secret_file RancherdConfigFile rancherd ∈ default [] (st_Files ∘ snd <$> match
      initRancherdStage (render_config (fun _ => true) (fun _ => Err (EMsg "no file")) map_to_list 4) (fun _ => Err (EMsg "no file"))
        map_to_list demo_versions "amd64" joining_node zero_Stage with Ok x => Some x | _ => None end) /\
    value_of "token" rancherd = Some (String quote "a b").
Proof.
  destruct (initRancherdStage (render_config (fun _ => true) (fun _ => Err (EMsg "no file")) map_to_list 4) (fun _ => Err (EMsg "no file"))
        map_to_list demo_versions "amd64" joining_node zero_Stage) as [[c' s']| |] eqn:E; [|vm_compute in E; discriminate E..].
  pose proof E as E'. apply stage_contents in E' as [-> _].
  destruct (node_files_read_back (fun _ => true) (fun _ => Err (EMsg "no file")) (fun _ => Err (EMsg "no file")) map_to_list 4 demo_versions "amd64"
    joining_node zero_Stage _ s' E (or_intror eq_refl) eq_refl eq_refl eq_refl eq_refl) as (rancherd & agent & reserved & args & Hin & _ & _ & _ & Ht & _).
  exists rancherd. split; [apply Hin; left|exact Ht].
Defined.

