(* ===== verification/Cmdline.v ===== *)
(** * Cmdline: kernel parameters as configuration ([pkg/util/cmdline.go],
    [ReadConfig] of [pkg/config/read.go])

    The regular expression (a quoted word, or [key="quoted value"], or a run of
    non-blank characters) is matched leftmost-first with backtracking, as Go's
    regexp package does. *)
From Stdlib Require Import ZArith Lia Ascii String.
From stdpp Require Import base tactics list strings.
From S2P Require Import Prelude GoStrings GoNet GoJson GoAny World Config.
Local Open Scope Z_scope.

(** ** Tokens *)

(** [\s] of RE2: tab, newline, form feed, carriage return, space. *)
Definition re_space (c : ascii) : bool := bool_decide (c ∈ ["009"; "010"; "012"; "013"; " "]%char).
Definition not_quote (c : ascii) : bool := negb (bool_decide (c = quote)).

(** A quote, one or more other characters, and the next quote: the match and
    the rest. *)
Definition quoted_token (s : string) : option (string * string) :=
  match s with
  | String c s' =>
      if bool_decide (c = quote) then
        match span not_quote s' with
        | (String _ _ as body, String d rest) => Some (String quote (body +:+ String d ""), rest)
        | _ => None
        end
      else None
  | "" => None
  end.

(** Non-blank characters, then [=] and a quoted token, for the longest run of
    non-blank characters for which this matches. *)
Fixpoint keyed_token (s : string) : option (string * string) :=
  match s with
  | "" => None
  | String c s' =>
      if re_space c then None
      else match keyed_token s' with
           | Some (m, r) => Some (String c m, r)
           | None =>
               match s' with
               | String "=" q => '(m, r) ← quoted_token q; Some (String c (String "=" m), r)
               | _ => None
               end
           end
  end.

Definition next_token (s : string) : string * string :=
  match quoted_token s with
  | Some t => t
  | None => match keyed_token s with
            | Some t => t
            | None => span (fun c => negb (re_space c)) s
            end
  end.

(** [FindAllString]; every match is non-empty, so the length is enough fuel. *)
Fixpoint find_all (fuel : nat) (s : string) : list string :=
  match fuel with
  | O => []
  | S fuel =>
      match trim_left re_space s with
      | "" => []
      | s => let '(t, rest) := next_token s in t :: find_all fuel rest
      end
  end.
Definition FindAllString (s : string) : list string := find_all (String.length s) s.

(** ** Parameters *)

Definition trim_quotes (s : string) : string := trim (fun c => bool_decide (c = quote)) s.

(** The key path and the value of an item. *)
Definition parse_item (item : string) : list string * string :=
  let '(k, v) := split2 "=" item in
  (split_on "." (trim_quotes k), match v with Some v => trim_quotes v | None => "true" end).

(** The key path below the prefix; [None] when the item is skipped. *)
Definition strip_key (prefix : string) (keys : list string) : option (list string) :=
  if bool_decide (prefix = "") then Some keys
  else match keys with
       | k :: keys' => if bool_decide (k = prefix) then Some keys' else None
       | [] => None
       end.

(** A key seen again accumulates its values; a key that names a map is left. *)
Definition store (data : anymap) (keys : list string) (value : string) : anymap :=
  match GetValue data keys with
  | Some (AStr v) => PutValue data (AStrs [v; value]) keys
  | Some (AStrs l) => PutValue data (AStrs (l ++ [value])) keys
  | Some _ => data
  | None => PutValue data (AStr value) keys
  end.

Definition step (prefix : string) (data : anymap) (item : string) : anymap :=
  let '(keys, value) := parse_item item in
  match strip_key prefix keys with
  | Some keys => store data keys value
  | None => data
  end.

(** ** Network interfaces *)

Definition IsMACAddress (s : string) : result bool := _ ← ParseMAC s; mret true.

Definition detail_error (details : string) : error :=
  EMsg ("could not parse interface details " +:+ details).

Definition parse_field (details : string) (data : anymap) (field : string) : result anymap :=
  let subParts := map trim_space (split_on ":" field) in
  let hw data addr :=
    _ ← map_err (EWrap "could not parse interface details") (IsMACAddress addr);
    mret (ainsert "hwAddr" (AStr addr) data) in
  match length subParts with
  | 7%nat => if bool_decide (hd "" subParts = "hwAddr") then hw data (join ":" (tl subParts)) else Err (detail_error details)
  | 6%nat => hw data (join ":" subParts)
  | 2%nat => if bool_decide (hd "" subParts = "name")
             then mret (ainsert "name" (AStr (nth 1 subParts "")) data) else Err (detail_error details)
  | 1%nat => mret (ainsert "name" (AStr (hd "" subParts)) data)
  | _ => Err (detail_error details)
  end.

Fixpoint parse_fields (details : string) (data : anymap) (fields : list string) : result anymap :=
  match fields with
  | [] => Ok data
  | f :: fields' => data ← parse_field details data f; parse_fields details data fields'
  end.

Definition parseIfDetails (details : string) : result anymap :=
  if bool_decide (details = "") then Err (EMsg "empty interface details")
  else parse_fields details [] (if has_char "," details then split_on "," details else [details]).

Definition interfaces_path : list string := ["install"; "management_interface"; "interfaces"].

Definition toNetworkInterfaces (data : anymap) : result anymap :=
  match GetValue data interfaces_path with
  | None => Ok data
  | Some v =>
      let ifDetails := match v with AStr s => [s] | AStrs l => l | _ => [] end in
      outDetails ← map_each parseIfDetails ifDetails;
      mret (PutValue data (AList (map AMap outDetails)) interfaces_path)
  end.

(** The type assertion panics when the parameter was repeated or is a map. *)
Definition toSchemeVersion (data : anymap) : result anymap :=
  match GetValue data ["scheme_version"] with
  | None => Ok data
  | Some (AStr s) => n ← parse_uint 10 32 s; mret (PutValue data (AInt n) ["scheme_version"])
  | Some _ => Panic
  end.

Definition parameters (cmdline prefix : string) : anymap :=
  foldl (step prefix) [] (FindAllString cmdline).

(** On an error the data is returned too, but no caller uses it. *)
Definition ParseCmdLine (cmdline prefix : string) : result anymap :=
  data ← toNetworkInterfaces (parameters cmdline prefix);
  toSchemeVersion data.

(** [read] is the content of /proc/cmdline. *)
Definition ReadCmdline (read : result string) (prefix : string) : result anymap :=
  match read with
  | Err (EPath _ _ true) => Ok []
  | Err e => Err e
  | Panic => Panic
  | Ok bytes => ParseCmdLine bytes prefix
  end.

(** [ReadConfig]: [fromMap] is [readConfigFromMap]. *)
Definition ReadConfig (fromMap : anymap -> result HarvesterConfig) (read : result string) : result HarvesterConfig :=
  data ← ReadCmdline read "harvester"; fromMap data.

(** ** Lemmas *)

(** A plain word: not empty, no blank, no quote. *)
Definition plain (s : string) : bool := all_chars (fun c => negb (re_space c) && not_quote c) s.

Lemma plain_cons c s : plain (String c s) = true <-> re_space c = false /\ not_quote c = true /\ plain s = true.
Proof. unfold plain. cbn [all_chars]. rewrite !andb_true_iff, negb_true_iff. tauto. Qed.

(** What may follow a word: the end or a blank. *)
Definition ends_word (r : string) : Prop := match r with "" => True | String c _ => re_space c = true end.

Lemma quoted_token_plain c s : not_quote c = true -> quoted_token (String c s) = None.
Proof. intros H. unfold quoted_token. unfold not_quote in H. by apply negb_true_iff in H as ->. Qed.

Lemma keyed_token_plain w r : plain w = true -> ends_word r -> keyed_token (w +:+ r) = None.
Proof.
  intros Hw Hr. induction w as [|c w IH].
  - change ("" +:+ r) with r. destruct r as [|d r]; [done|]. simpl. by rewrite Hr.
  - apply plain_cons in Hw as (Hc & _ & Hw). rewrite string_app_cons. cbn [keyed_token]. rewrite Hc, IH by done.
    assert (Hq : quoted_token r = None).
    { destruct r as [|d r]; [done|]. apply quoted_token_plain. unfold not_quote. 
      apply negb_true_iff, bool_decide_eq_false. intros ->. by vm_compute in Hr. }
    destruct w as [|d w].
    + change ("" +:+ r) with r. destruct r as [|d r]; [done|].
      assert (d <> "="%char) by (intros ->; by vm_compute in Hr).
      destruct d as [[] [] [] [] [] [] [] []]; try done. 
    + rewrite string_app_cons. apply plain_cons in Hw as (_ & Hd & Hw).
      assert (Hq' : forall s, w = s -> quoted_token (s +:+ r) = None).
      { intros s <-. destruct w as [|e w]; [exact Hq|]. rewrite string_app_cons. apply quoted_token_plain.
        by apply plain_cons in Hw as (_ & ? & _). }
      destruct d as [[] [] [] [] [] [] [] []]; try done. by rewrite (Hq' w eq_refl).
Qed.

Lemma span_plain w r : plain w = true -> ends_word r -> span (fun c => negb (re_space c)) (w +:+ r) = (w, r).
Proof.
  intros Hw Hr. induction w as [|c w IH].
  - change ("" +:+ r) with r. destruct r as [|d r]; [done|]. simpl in *. by rewrite Hr.
  - apply plain_cons in Hw as (Hc & _ & Hw). rewrite string_app_cons. cbn [span]. rewrite Hc. cbn [negb]. by rewrite IH.
Qed.

Lemma next_token_plain w r : w <> "" -> plain w = true -> ends_word r -> next_token (w +:+ r) = (w, r).
Proof.
  intros Hne Hw Hr. unfold next_token. destruct w as [|c w]; [done|].
  pose proof Hw as (_ & Hc & _)%plain_cons.
  rewrite keyed_token_plain by done. rewrite string_app_cons at 1. rewrite quoted_token_plain by done.
  by apply span_plain.
Qed.

(** *** Quoted values

    [key="a value"]: the run of non-blank characters in front of the equal sign
    cannot be longer than the key, because it would have to reach past a blank
    of the value. *)
Definition quote_free (s : string) : bool := all_chars not_quote s.
Lemma quote_free_cons c s : quote_free (String c s) = true <-> not_quote c = true /\ quote_free s = true.
Proof. unfold quote_free. cbn [all_chars]. by rewrite andb_true_iff. Qed.

Lemma keyed_token_cons c s :
  keyed_token (String c s) =
    if re_space c then None
    else match keyed_token s with
         | Some (m, r) => Some (String c m, r)
         | None => match s with String "=" q => '(m, r) ← quoted_token q; Some (String c (String "=" m), r) | _ => None end
         end.
Proof. done. Qed.

Lemma keyed_token_blank v r : forall c,
  quote_free v = true -> plain v = false -> keyed_token (String c (v +:+ r)) = None.
Proof.
  induction v as [|d v IH]; intros c Hq Hp; [done|]. apply quote_free_cons in Hq as [Hd Hq].
  rewrite keyed_token_cons. destruct (re_space c); [done|]. rewrite string_app_cons.
  assert (Hv : re_space d = false -> plain v = false).
  { intros Hs. unfold plain in Hp. cbn [all_chars] in Hp. by rewrite Hs, Hd in Hp. }
  destruct (re_space d) eqn:Hs.
  - rewrite keyed_token_cons, Hs. assert (d <> "="%char) by (intros ->; by vm_compute in Hs).
    destruct d as [[] [] [] [] [] [] [] []]; done.
  - rewrite (IH d Hq (Hv eq_refl)). destruct v as [|e v]; [by specialize (Hv eq_refl)|].
    apply quote_free_cons in Hq as [He _]. rewrite string_app_cons, (quoted_token_plain e _ He).
    destruct d as [[] [] [] [] [] [] [] []]; done.
Qed.

Lemma span_not_quote v r : quote_free v = true -> span not_quote (v +:+ String quote r) = (v, String quote r).
Proof.
  induction v as [|c v IH]; [done|]. intros [Hc Hv]%quote_free_cons. rewrite string_app_cons. cbn [span].
  by rewrite Hc, IH.
Qed.

Definition quoted (v : string) : string := String quote (v +:+ String quote "").

Lemma quoted_value_app v r : quoted v +:+ r = String quote (v +:+ String quote r).
Proof. unfold quoted. by rewrite string_app_cons, string_app_assoc. Qed.

Lemma quoted_token_quoted v r : v <> "" -> quote_free v = true -> quoted_token (quoted v +:+ r) = Some (quoted v, r).
Proof.
  intros Hne Hv. rewrite quoted_value_app. unfold quoted_token. rewrite bool_decide_true by done.
  rewrite span_not_quote by done. by destruct v.
Qed.

Lemma keyed_token_quoted k v r :
  k <> "" -> plain k = true -> has_char "=" k = false -> quote_free v = true -> plain v = false ->
  keyed_token (k +:+ String "=" (quoted v +:+ r)) = Some (k +:+ String "=" (quoted v), r).
Proof.
  intros Hne Hk _ Hq Hp.
  assert (Hv : v <> "") by (by intros ->).
  assert (Hn : keyed_token (String "=" (quoted v +:+ r)) = None).
  { rewrite quoted_value_app, keyed_token_cons. rewrite (keyed_token_blank v (String quote r) quote Hq Hp). done. }
  induction k as [|c k IH]; [done|]. apply plain_cons in Hk as (Hc & _ & Hk). rewrite !string_app_cons.
  rewrite keyed_token_cons, Hc. destruct k as [|d k].
  - change ("" +:+ ?x) with x. change ("" +:+ String "=" (quoted v)) with (String "=" (quoted v)). rewrite Hn. by rewrite quoted_token_quoted.
  - by rewrite IH.
Qed.

(** A token: what [FindAllString] finds at a word that a blank or the end
    follows. *)
Definition token (w : string) : Prop :=
  w <> "" /\ (forall c s, w = String c s -> re_space c = false) /\ forall r, ends_word r -> next_token (w +:+ r) = (w, r).

Lemma token_plain w : w <> "" -> plain w = true -> token w.
Proof.
  intros Hne Hw. split; [done|]. split; [|intros r; by apply next_token_plain].
  intros c s ->. by apply plain_cons in Hw as (? & _ & _).
Qed.

Lemma token_quoted k v :
  k <> "" -> plain k = true -> has_char "=" k = false -> quote_free v = true -> plain v = false ->
  token (k +:+ String "=" (quoted v)).
Proof.
  intros Hne Hk He Hq Hp. destruct k as [|c k]; [done|]. pose proof Hk as (Hc & Hcq & _)%plain_cons.
  split; [done|]. split; [by intros ? ? [= <- _]|]. intros r _. unfold next_token.
  rewrite string_app_cons, string_app_cons at 1. rewrite quoted_token_plain by done.
  replace ((String c k +:+ String "=" (quoted v)) +:+ r) with (String c k +:+ String "=" (quoted v +:+ r))
    by (rewrite string_app_assoc; done).
  by rewrite keyed_token_quoted.
Qed.

(** A command line of tokens is split into its tokens. *)
Lemma find_all_words ws fuel :
  Forall token ws -> (String.length (join " " ws) <= fuel)%nat ->
  find_all fuel (join " " ws) = ws.
Proof.
  revert fuel. induction ws as [|w ws IH]; intros fuel Hws Hf; [by destruct fuel|].
  apply Forall_cons in Hws as [(Hne & Hhd & Hw) Hws].
  assert (Hsplit : exists r, join " " (w :: ws) = w +:+ r /\ ends_word r /\
            ((ws = [] /\ r = "") \/ (r = String " " (join " " ws)))).
  { destruct ws as [|w' ws]; [exists ""; rewrite string_app_nil_r; split_and!; [done|done|by left]|]. exists (" " +:+ join " " (w' :: ws)).
    rewrite join_cons2. split; [done|]. split; [done|]. by right. }
  destruct Hsplit as (r & Hj & Hr & Hcase). rewrite Hj in Hf |- *. clear Hj. destruct w as [|c w]; [done|].
  pose proof (Hhd c w eq_refl) as Hc. rewrite string_app_cons in Hf.
  destruct fuel as [|fuel]; [simpl in Hf; lia|]. cbn [find_all].
  rewrite string_app_cons at 1. cbn [trim_left]. rewrite Hc. rewrite <- string_app_cons.
  rewrite (Hw r Hr). f_equal.
  destruct Hcase as [[-> ->]| ->]; [by destruct fuel|].
  transitivity (find_all fuel (join " " ws)).
  - destruct fuel as [|fuel]; done.
  - apply IH; [done|]. simpl in Hf.
    rewrite <- length_chars, chars_app, length_app, !length_chars in Hf. simpl in Hf. lia.
Qed.

(** ** Command lines as lists of parameters *)

Inductive param : Set := Given (keys : list string) (value : string) | Foreign (word : string).

Definition key_ok (k : string) : Prop := plain k = true /\ has_char "." k = false /\ has_char "=" k = false.
Definition param_ok (prefix : string) (p : param) : Prop :=
  match p with
  | Given keys value => keys <> [] /\ Forall key_ok keys /\ quote_free value = true
  | Foreign word => word <> "" /\ plain word = true /\ strip_key prefix (fst (parse_item word)) = None
  end.
(** A value with blanks is put in quotes. *)
Definition render_value (v : string) : string := if plain v then v else quoted v.
Definition render_param (prefix : string) (p : param) : string :=
  match p with
  | Given keys value => join "." (prefix :: keys) +:+ "=" +:+ render_value value
  | Foreign word => word
  end.
Definition render_cmdline (prefix : string) (ps : list param) : string := join " " (map (render_param prefix) ps).

(** The values given for a path, in order. *)
Definition given (path : list string) (ps : list param) : list string :=
  omap (fun p => match p with Given keys v => if bool_decide (keys = path) then Some v else None | _ => None end) ps.
Definition paths (ps : list param) : list (list string) :=
  omap (fun p => match p with Given keys _ => Some keys | _ => None end) ps.
(** One value is a string, several are a slice. *)
Definition stored (vs : list string) : option any :=
  match vs with [] => None | [v] => Some (AStr v) | _ => Some (AStrs vs) end.

Lemma plain_app a b : plain (a +:+ b) = plain a && plain b.
Proof.
  unfold plain. induction a as [|c a IH]; [done|]. rewrite string_app_cons. cbn [all_chars]. by rewrite IH, andb_assoc.
Qed.

Lemma trim_right_plain s : plain s = true -> trim_right (fun c => bool_decide (c = quote)) s = s.
Proof.
  induction s as [|c s IH]; [done|]. intros (_ & Hc & Hs)%plain_cons. cbn [trim_right]. rewrite IH by done.
  unfold not_quote in Hc. apply negb_true_iff in Hc. destruct s; [by rewrite Hc|done].
Qed.

Lemma trim_quotes_plain s : plain s = true -> trim_quotes s = s.
Proof.
  intros Hs. unfold trim_quotes, trim. replace (trim_left _ s) with s; [by apply trim_right_plain|].
  destruct s as [|c s]; [done|]. apply plain_cons in Hs as (_ & Hc & _). cbn [trim_left].
  unfold not_quote in Hc. apply negb_true_iff in Hc. by rewrite Hc.
Qed.

Lemma quote_free_last (v : string) :
  trim_right (fun c => bool_decide (c = quote)) (v +:+ String quote "") = trim_right (fun c => bool_decide (c = quote)) v.
Proof.
  induction v as [|c v IH]; [done|]. rewrite string_app_cons. cbn [trim_right]. by rewrite IH.
Qed.

Lemma trim_right_quote_free v : quote_free v = true -> trim_right (fun c => bool_decide (c = quote)) v = v.
Proof.
  induction v as [|c v IH]; [done|]. intros [Hc Hv]%quote_free_cons. cbn [trim_right]. rewrite IH by done.
  unfold not_quote in Hc. apply negb_true_iff in Hc. destruct v; [by rewrite Hc|done].
Qed.

Lemma trim_left_quote_free v r : v <> "" -> quote_free v = true ->
  trim_left (fun c => bool_decide (c = quote)) (v +:+ r) = v +:+ r.
Proof.
  destruct v as [|c v]; [done|]. intros _ [Hc _]%quote_free_cons. rewrite string_app_cons. cbn [trim_left].
  unfold not_quote in Hc. apply negb_true_iff in Hc. by rewrite Hc.
Qed.

Lemma trim_quotes_value v : quote_free v = true -> trim_quotes (render_value v) = v.
Proof.
  intros Hv. unfold render_value. destruct (plain v) eqn:Hp; [by apply trim_quotes_plain|].
  assert (Hne : v <> "") by (by intros ->).
  unfold trim_quotes, trim, quoted. cbn [trim_left]. rewrite bool_decide_true by done.
  rewrite trim_left_quote_free, quote_free_last by done. by apply trim_right_quote_free.
Qed.

Lemma join_key_ok l : Forall key_ok l -> plain (join "." l) = true /\ has_char "=" (join "." l) = false.
Proof.
  induction 1 as [|k l (Hp & Hd & He) Hl [IHp IHe]]; [done|]. destruct l as [|k' l]; [done|].
  rewrite join_cons2, !plain_app, !has_char_app, Hp, He, IHp, IHe. done.
Qed.

Lemma parse_item_given prefix keys v :
  key_ok prefix -> Forall key_ok keys -> quote_free v = true ->
  parse_item (render_param prefix (Given keys v)) = (prefix :: keys, v).
Proof.
  intros Hp Hk Hv. assert (Hall : Forall key_ok (prefix :: keys)) by (by constructor).
  destruct (join_key_ok _ Hall) as [Hpl Heq]. unfold parse_item, render_param.
  change ("=" +:+ render_value v) with (String "=" (render_value v)). rewrite split2_app by done.
  rewrite trim_quotes_plain, trim_quotes_value by done.
  rewrite join_split_on; [done|done|]. eapply Forall_impl; [exact Hall|]. by intros ? (_ & ? & _).
Qed.

Lemma step_param prefix data p :
  prefix <> "" -> key_ok prefix -> param_ok prefix p ->
  step prefix data (render_param prefix p) = match p with Given keys v => store data keys v | Foreign _ => data end.
Proof.
  intros Hne Hp Hok. unfold step. destruct p as [keys v|w]; cbn [param_ok] in Hok.
  - rewrite parse_item_given by naive_solver. unfold strip_key. rewrite bool_decide_false by done.
    by rewrite bool_decide_true.
  - cbn [render_param]. destruct Hok as (_ & _ & H). destruct (parse_item w) as [ks v]. simpl in H. by rewrite H.
Qed.

Lemma render_param_token prefix p :
  prefix <> "" -> key_ok prefix -> param_ok prefix p -> token (render_param prefix p).
Proof.
  intros Hne Hp Hok. destruct p as [keys v|w]; cbn [param_ok render_param] in *; [|apply token_plain; naive_solver].
  destruct Hok as (_ & Hk & Hv). assert (Hall : Forall key_ok (prefix :: keys)) by (by constructor).
  destruct (join_key_ok _ Hall) as [Hpl He].
  assert (Hj : join "." (prefix :: keys) <> "").
  { destruct prefix; [done|]. destruct keys; [done|]. by rewrite join_cons2. }
  unfold render_value. destruct (plain v) eqn:Hpv; [|by apply token_quoted].
  apply token_plain; [by destruct (join _ _)|]. by rewrite !plain_app, Hpl, Hpv.
Qed.

(** The paths are pairwise equal or unrelated. *)
Definition prefix_free (P : list (list string)) : Prop :=
  forall p p', p ∈ P -> p' ∈ P -> p `prefix_of` p' -> p' = p.

(** The invariant of the loop, for a prefix-free set of paths. *)
Definition holds (P : list (list string)) (data : anymap) (done : list param) : Prop :=
  forall p, p ∈ P -> open_path data p = true /\ GetValue data p = stored (given p done).

Lemma stored_snoc vs v :
  stored (vs ++ [v]) =
    match stored vs with
    | None => Some (AStr v) | Some (AStr w) => Some (AStrs [w; v]) | Some (AStrs l) => Some (AStrs (l ++ [v]))
    | x => x
    end.
Proof. destruct vs as [|a [|b vs]]; done. Qed.

Lemma given_snoc path ps p :
  given path (ps ++ [p]) = given path ps ++ given path [p].
Proof. unfold given. by rewrite omap_app. Qed.

Lemma holds_store P data past keys v :
  prefix_free P -> keys ∈ P -> holds P data past ->
  holds P (store data keys v) (past ++ [Given keys v]).
Proof.
  intros Hfree Hin Hh p Hp. destruct (Hh p Hp) as [Hopen Hget]. destruct (Hh keys Hin) as [Hokeys Hgk].
  rewrite given_snoc. unfold given at 2. cbn [omap list_omap].
  assert (Hkeep : forall x, open_path (PutValue data x keys) p = true).
  { intros x. apply open_path_PutValue; [done|]. by apply Hfree. }
  assert (Hshape : exists x, store data keys v = PutValue data x keys /\ stored (given keys past ++ [v]) = Some x).
  { rewrite stored_snoc, <- Hgk. unfold store. rewrite Hgk.
    destruct (given keys past) as [|a [|b l]]; cbn [stored]; by eexists. }
  destruct Hshape as (x & -> & Hx). split; [apply Hkeep|].
  case_bool_decide as Heq.
  - subst p. by rewrite GetValue_PutValue.
  - rewrite app_nil_r, GetValue_PutValue_other; [exact Hget| |].
    + intros Hpre. apply Heq. symmetry. by apply Hfree.
    + intros Hpre. apply Heq. by apply Hfree.
Qed.

Lemma parameters_holds P prefix ps :
  prefix <> "" -> key_ok prefix -> Forall (param_ok prefix) ps -> prefix_free P -> [] ∉ P ->
  (forall p, p ∈ paths ps -> p ∈ P) ->
  holds P (parameters (render_cmdline prefix ps) prefix) ps.
Proof.
  intros Hne Hp Hps Hfree Hnil Hsub. unfold parameters, FindAllString, render_cmdline.
  rewrite find_all_words; [|apply Forall_map; eapply Forall_impl; [exact Hps|]; intros p; by apply render_param_token|done].
  assert (Hgen : forall past rest data, ps = past ++ rest -> holds P data past ->
    holds P (foldl (step prefix) data (map (render_param prefix) rest)) ps).
  { intros past rest. revert past. induction rest as [|p rest IH]; intros past data Heq Hh.
    - rewrite app_nil_r in Heq. by subst.
    - cbn [map foldl]. apply (IH (past ++ [p])); [by rewrite <- app_assoc|].
      assert (Hok : param_ok prefix p) by (rewrite Heq, Forall_app, Forall_cons in Hps; naive_solver).
      rewrite step_param by done. destruct p as [keys v|w].
      + apply holds_store; [done| |done]. apply Hsub. rewrite Heq. unfold paths. rewrite omap_app, elem_of_app. right. by left.
      + intros q Hq. destruct (Hh q Hq). split; [done|]. by rewrite given_snoc, app_nil_r. }
  apply (Hgen [] ps []); [done|]. intros q Hq. split; [|apply GetValue_nil].
  destruct q as [|a [|b q]]; [done|reflexivity|reflexivity].
Qed.

(** Replacing the value of one path keeps the others. *)
Lemma holds_replaced P data past keys x p :
  prefix_free P -> keys ∈ P -> holds P data past -> p ∈ P ->
  open_path (PutValue data x keys) p = true /\
  GetValue (PutValue data x keys) p = if bool_decide (p = keys) then Some x else stored (given p past).
Proof.
  intros Hfree Hin Hh Hp. destruct (Hh p Hp) as [Hopen Hget]. destruct (Hh keys Hin) as [Hokeys _].
  split; [apply open_path_PutValue; [done|by apply Hfree]|]. case_bool_decide as Heq.
  - subst p. by rewrite GetValue_PutValue.
  - rewrite GetValue_PutValue_other; [exact Hget|intros Hpre; apply Heq..]; [|symmetry]; by apply Hfree.
Qed.

Lemma stored_list vs : match stored vs with Some (AStr s) => [s] | Some (AStrs l) => l | _ => [] end = vs.
Proof. by destruct vs as [|a [|b vs]]. Qed.

(** ** Properties *)

(** What the program reads at a path: the interface descriptions as maps, the
    scheme version as a number, and otherwise the value given, or the list of
    the values given, in order. *)
Definition expected (ps : list param) (ifs : list anymap) (version : option Z) (path : list string) : option any :=
  if bool_decide (path = interfaces_path) then Some (AList (map AMap ifs))
  else if bool_decide (path = ["scheme_version"]) then AInt <$> version
  else stored (given path ps).

(** C37: Reading the kernel command line back: for a line of parameters
    [prefix.key=value] mixed with words of other programs, whose paths are
    unrelated (repetitions allowed, [scheme_version] at most once), the whole
    parser succeeds when the interface descriptions and the scheme version are
    well formed, and finds at each path what was given: a text, the list of all
    the values in order when the parameter is repeated, the parsed descriptions
    at [install.management_interface.interfaces], and a number at
    [scheme_version].  Values are any text without double quotes, put in double
    quotes when they have blanks; keys and foreign words have neither blanks nor
    double quotes. *)
Theorem ParseCmdLine_roundtrip prefix ps ifs version :
  prefix <> "" -> key_ok prefix -> Forall (param_ok prefix) ps ->
  prefix_free (interfaces_path :: ["scheme_version"] :: paths ps) ->
  map_each parseIfDetails (given interfaces_path ps) = Ok ifs ->
  match given ["scheme_version"] ps with
  | [] => version = None
  | [s] => exists n, parse_uint 10 32 s = Ok n /\ version = Some n
  | _ => False
  end ->
  exists data, ParseCmdLine (render_cmdline prefix ps) prefix = Ok data /\
    forall path, path ∈ paths ps -> GetValue data path = expected ps ifs version path.
Proof.
  intros Hne Hp Hps Hfree Hifs Hver. set (P := interfaces_path :: ["scheme_version"] :: paths ps) in *.
  assert (Hnil : [] ∉ P).
  { subst P. rewrite !elem_of_cons. intros [?|[?|(p & Hin & Hpq)%list_elem_of_omap]]; [done..|].
    destruct p as [keys v|]; [|done]. injection Hpq as ->. rewrite Forall_forall in Hps. by destruct (Hps _ Hin). }
  assert (Hi : interfaces_path ∈ P) by (subst P; by left).
  assert (Hs : ["scheme_version"] ∈ P) by (subst P; right; by left).
  assert (Hsub : forall p, p ∈ paths ps -> p ∈ P) by (intros; subst P; right; by right).
  pose proof (parameters_holds P prefix ps Hne Hp Hps Hfree Hnil Hsub) as Hh.
  unfold ParseCmdLine. set (data := parameters _ _) in *. clearbody data P.
  assert (Hnet : exists data1, toNetworkInterfaces data = Ok data1 /\ forall p, p ∈ P ->
    open_path data1 p = true /\ (p <> interfaces_path -> GetValue data1 p = stored (given p ps)) /\
    (p = interfaces_path -> given p ps <> [] -> GetValue data1 p = Some (AList (map AMap ifs)))).
  { unfold toNetworkInterfaces. rewrite (proj2 (Hh _ Hi)).
    destruct (stored (given interfaces_path ps)) as [v|] eqn:Hst.
    - pose proof (stored_list (given interfaces_path ps)) as Hl. rewrite Hst in Hl. cbv zeta. rewrite Hl, Hifs.
      eexists. split; [done|]. intros p Hpp.
      destruct (holds_replaced P data ps interfaces_path (AList (map AMap ifs)) p Hfree Hi Hh Hpp) as [Ho Hg].
      rewrite Hg. split; [done|]. split; intros; [by rewrite bool_decide_false|by rewrite bool_decide_true].
    - exists data. split; [done|]. intros p Hpp. destruct (Hh p Hpp) as [Ho Hg]. split; [done|]. split; [done|].
      intros -> Hg'. destruct (given interfaces_path ps) as [|a [|b l]]; done. }
  destruct Hnet as (data1 & -> & H1). cbn [mbind result_bind]. unfold toSchemeVersion.
  destruct (H1 _ Hs) as (Hos & Hgs & _). rewrite Hgs by done.
  assert (Hg : forall path, path ∈ paths ps -> given path ps <> []).
  { intros path (p & Hin & Hpq)%list_elem_of_omap Hno. destruct p as [keys v|]; [|done]. injection Hpq as ->.
    assert (Hv : v ∈ given path ps) by (apply list_elem_of_omap; exists (Given path v); split; [done|]; by rewrite bool_decide_true).
    by rewrite Hno, elem_of_nil in Hv. }
  unfold expected. destruct (given ["scheme_version"] ps) as [|sv [|? ?]] eqn:Hgiven; [| |done].
  - cbn [stored]. exists data1. split; [done|]. intros path Hpath. destruct (H1 path (Hsub _ Hpath)) as (_ & Hoth & Hif).
    case_bool_decide; [by apply Hif, Hg|]. case_bool_decide as Hsc; [|by apply Hoth].
    subst path. by destruct (Hg _ Hpath).
  - destruct Hver as (n & Hn & ->). cbn [stored]. rewrite Hn. eexists. split; [done|]. intros path Hpath.
    destruct (H1 path (Hsub _ Hpath)) as (Hop & Hoth & Hif). case_bool_decide as Hin.
    + rewrite GetValue_PutValue_other; [by apply Hif, Hg|..]; rewrite Hin; intros Hpre; apply prefix_cons_inv_1 in Hpre; done.
    + case_bool_decide as Hsc; [subst path; by rewrite GetValue_PutValue|].
      rewrite GetValue_PutValue_other; [by apply Hoth|intros Hpre; apply Hsc..]; [|symmetry]; apply Hfree; auto.
Qed.

Definition demo_params : list param :=
  [Foreign "console=tty1"; Given ["os"; "ntp"] "a"; Given ["token"] "t=1 2"; Given ["os"; "ntp"] "b";
   Given ["scheme_version"] "1"; Given interfaces_path "name: ens3"].
Lemma ParseCmdLine_roundtrip_witness :
  exists data, ParseCmdLine (render_cmdline "harvester" demo_params) "harvester" = Ok data /\
    GetValue data ["os"; "ntp"] = Some (AStrs ["a"; "b"]) /\ GetValue data ["token"] = Some (AStr "t=1 2") /\
    GetValue data ["scheme_version"] = Some (AInt 1).
Proof.
  destruct (ParseCmdLine_roundtrip "harvester" demo_params [[("name", AStr "ens3")]] (Some 1)) as (data & Hd & Hg).
  - discriminate.
  - by vm_compute.
  - repeat constructor; done.
  - intros p p' Hp Hp'. unfold demo_params, paths in *. cbn in Hp, Hp'.
    rewrite !elem_of_cons, elem_of_nil in Hp, Hp'.
    destruct Hp as [->|[->|[->|[->|[->|[->|[->|[]]]]]]]], Hp' as [->|[->|[->|[->|[->|[->|[->|[]]]]]]]]; try done; intros H;
      apply prefix_cons_inv_1 in H; discriminate.
  - vm_refl.
  - exists 1. by vm_compute.
  - exists data. split; [exact Hd|]. split_and!; rewrite Hg; try vm_refl; apply list_elem_of_In; vm_compute; tauto.
Defined.

(** Repeating [scheme_version] (or using it as a group) crashes the
    installer at start-up: the type assertion to string panics. *)
Theorem repeated_scheme_version_panics data v :
  GetValue data interfaces_path = None -> GetValue data ["scheme_version"] = Some v ->
  (forall s, v <> AStr s) ->
  (_ ← toNetworkInterfaces data; toSchemeVersion data) = Panic.
Proof.
  intros Hi Hs Hv. unfold toNetworkInterfaces. rewrite Hi. cbn [mbind result_bind].
  unfold toSchemeVersion. rewrite Hs. destruct v; try done. by destruct (Hv s).
Qed.

Lemma repeated_scheme_version_panics_witness :
  ParseCmdLine "harvester.scheme_version=1 harvester.scheme_version=1" "harvester" = Panic.
Proof.
  exact (repeated_scheme_version_panics (parameters "harvester.scheme_version=1 harvester.scheme_version=1" "harvester")
    (AStrs ["1"; "1"]) ltac:(vm_refl) ltac:(vm_refl) ltac:(discriminate)).
Defined.

(** Entries an interface description can have. *)
Definition detail_ok (kv : string * any) : Prop :=
  (fst kv = "hwAddr" /\ exists a, snd kv = AStr a /\ is_ok (ParseMAC a) = true) \/
  (fst kv = "name" /\ exists n, snd kv = AStr n).

Lemma ainsert_forall (P : string * any -> Prop) k v m : P (k, v) -> Forall P m -> Forall P (ainsert k v m).
Proof.
  intros Hkv. induction 1 as [|[k' v'] m Hx Hm IH]; simpl; [by repeat constructor|].
  case_bool_decide; by constructor.
Qed.

Lemma ainsert_nonempty {V} k (v : V) m : ainsert k v m <> [].
Proof. destruct m as [|[k' v'] m]; cbn [ainsert]; [done|]. by case_bool_decide. Qed.

Lemma parse_field_ok details data field data' :
  Forall detail_ok data -> parse_field details data field = Ok data' -> Forall detail_ok data' /\ data' <> [].
Proof.
  intros Hd H. unfold parse_field in H.
  assert (Hins : forall k v, detail_ok (k, v) -> Forall detail_ok (ainsert k v data) /\ ainsert k v data <> []).
  { intros k v Hkv. split; [by apply ainsert_forall|]. apply ainsert_nonempty. }
  assert (Hhw : forall addr, (_ ← map_err (EWrap "could not parse interface details") (IsMACAddress addr);
                  mret (ainsert "hwAddr" (AStr addr) data)) = Ok data' -> Forall detail_ok data' /\ data' <> []).
  { intros addr Ha. apply bind_ok in Ha as (b & Hb & [= <-]). apply Hins. left. split; [done|]. exists addr. split; [done|].
    apply map_err_ok in Hb. unfold IsMACAddress in Hb. by destruct (ParseMAC addr). }
  destruct (length _) as [|[|[|[|[|[|[|[|]]]]]]]]; try done.
  - injection H as <-. apply Hins. right. split; [done|]. by eexists.
  - case_bool_decide; [|done]. injection H as <-. apply Hins. right. split; [done|]. by eexists.
  - by apply Hhw in H.
  - case_bool_decide; [|done]. by apply Hhw in H.
Qed.

(** An accepted interface description is never empty and has only the
    fields [name] and [hwAddr], and the address is one [net.ParseMAC]
    accepts. *)
Theorem parseIfDetails_sound details m :
  parseIfDetails details = Ok m -> m <> [] /\ Forall detail_ok m.
Proof.
  unfold parseIfDetails. case_bool_decide as Hne; [done|].
  assert (Hgen : forall fields data, Forall detail_ok data -> parse_fields details data fields = Ok m ->
            Forall detail_ok m /\ (fields <> [] \/ data <> [] -> m <> [])).
  { induction fields as [|f fields IH]; intros data Hd H; cbn [parse_fields] in H.
    - injection H as <-. split; [done|]. by intros [?|?].
    - apply bind_ok in H as (data' & Hf & H). destruct (parse_field_ok _ _ _ _ Hd Hf) as [Hd' Hne'].
      destruct (IH data' Hd' H) as [Hm Hn]. split; [done|]. intros _. apply Hn. by right. }
  intros H. destruct (Hgen _ _ (Forall_nil_2 _) H) as [Hm Hn]. split; [|done]. apply Hn. left.
  destruct (has_char "," details); [|done]. destruct (split_on_cons "," details) as (w & ws & ->). done.
Qed.

Lemma parseIfDetails_sound_witness :
  Forall detail_ok [("hwAddr", AStr "be:44:8c:b0:5d:f2"); ("name", AStr "ens3")].
Proof.
  apply (parseIfDetails_sound "hwAddr: be:44:8c:b0:5d:f2, ens3"). vm_refl.
Defined.
