(* ===== verification/Mapper.v ===== *)
(** * Mapper: tolerant reading of configuration maps ([pkg/config/read.go],
    [coerce.go], [rename.go], [write.go])

    The converters are applied field by field to a dynamic map before it is
    decoded; [fields] lists the fields of the schema with their types. *)
From Stdlib Require Import ZArith Lia Ascii String.
From stdpp Require Import base tactics list strings.
From S2P Require Import Prelude GoStrings GoAny Config World.
Local Open Scope Z_scope.

(** ** Converters (coerce.go) *)

Definition Converter : Type := any -> result any.

Definition fieldConverter (fieldName : string) (converter : Converter) (data : anymap) : result anymap :=
  match alookup fieldName data with
  | None => Ok data
  | Some val =>
      v ← map_err (EWrap ("failed to convert field " +:+ fieldName)) (converter val);
      mret (ainsert fieldName v data)
  end.

(** [typeConverter.ModifySchema] collects the fields of its type and
    [ToInternal] applies the converter to each. *)
Definition fields_of_type (fieldType : string) (fields : list (string * string)) : list string :=
  map fst (filter (fun f => snd f = fieldType) fields).
Fixpoint convert_fields (converter : Converter) (names : list string) (data : anymap) : result anymap :=
  match names with
  | [] => Ok data
  | n :: names' => data ← fieldConverter n converter data; convert_fields converter names' data
  end.
Definition typeConverter (fieldType : string) (converter : Converter) (fields : list (string * string)) (data : anymap) :
    result anymap := convert_fields converter (fields_of_type fieldType fields) data.

(** [map[string]string] is a map of strings. *)
Definition NewToMap : Converter := fun val =>
  match val with AMap m => Ok (AMap (map (fun kv => (fst kv, AStr (ToString (snd kv)))) m)) | _ => Ok val end.
Definition NewToSlice : Converter := fun val =>
  match val with AStr s => Ok (AStrs [s]) | _ => Ok (AStrs (ToStringSlice val)) end.
Definition NewToBool : Converter := fun val => Ok (ABool (ToBool val)).
Definition NewToInt : Converter := fun val =>
  match val with
  | ANil => Ok ANil
  | AStr "nil" => Ok ANil
  | _ => n ← ToNumber val; mret (AInt n)
  end.

(** ** Fuzzy names (rename.go) *)

Definition drop_last (n : nat) (s : string) : string := stake (String.length s - n) s.

(** The entries [addName] writes for one field, in order. *)
Definition addName (name toName : string) : list (string * string) :=
  [(to_lower name, toName); (ToYAMLKey name, toName); (to_lower (ToYAMLKey name), toName)].
Definition field_names (name : string) : list (string * string) :=
  (if has_suffix name "s" && (1 <? slen name) then addName (drop_last 1 name) name else []) ++
  (if has_suffix name "es" && (2 <? slen name) then addName (drop_last 2 name) name else []) ++
  addName name name.

(** [ModifySchema]: the table of names; later entries replace earlier ones. *)
Definition fuzzy_names (names : list string) : list (string * string) :=
  foldl (fun t kv => ainsert (fst kv) (snd kv) t) []
    (concat (map field_names names) ++ [("pass", "passphrase"); ("password", "passphrase")]).

(** [ToInternal], for the entries visited ([data] as it was at the start). *)
Definition fuzzy_step (table : list (string * string)) (acc : anymap) (kv : string * any) : anymap :=
  match alookup (fst kv) table with
  | Some newK => if bool_decide (newK <> fst kv) then ainsert newK (snd kv) acc else acc
  | None => acc
  end.
Definition FuzzyNames_ToInternal (table : list (string * string)) (data : anymap) : anymap :=
  foldl (fuzzy_step table) data data.

(** ** Environment and YAML output (read.go, write.go) *)

Fixpoint mapToEnv_value (keyName : string) (v : any) : list string :=
  match v with
  | AMap m => concat (map (fun kv => mapToEnv_value (to_upper (keyName +:+ "_" +:+ ToYAMLKey (fst kv))) (snd kv)) m)
  | _ => [keyName +:+ "=" +:+ Sprint v]
  end.
Definition mapToEnv (prefix : string) (data : anymap) : list string :=
  concat (map (fun kv => mapToEnv_value (to_upper (prefix +:+ ToYAMLKey (fst kv))) (snd kv)) data).

(** [encode] is [convert.EncodeToMap]. *)
Definition ToEnv (encode : Install -> result anymap) (prefix : string) (obj : Install) : result (list string) :=
  data ← encode obj; mret (mapToEnv prefix data).

(** An entry whose key changes is deleted and stored under the new key. *)
Definition rename_step (acc : anymap) (kv : string * any) : anymap :=
  let newK := ToYAMLKey (fst kv) in
  if bool_decide (newK <> fst kv) then ainsert newK (snd kv) (adelete (fst kv) acc) else acc.
Fixpoint toYAMLKeys_value (v : any) : any :=
  match v with
  | AMap m =>
      let m := map (fun kv => (fst kv, toYAMLKeys_value (snd kv))) m in AMap (foldl rename_step m m)
  | _ => v
  end.
Definition toYAMLKeys (data : anymap) : anymap := as_map (Some (toYAMLKeys_value (AMap data))).
(** [marshal] is [yaml.Marshal]. *)
Definition PrintInstall (encode : Install -> result anymap) (marshal : anymap -> result string) (c : HarvesterConfig) :
    result string :=
  data ← encode (hc_Install c); marshal (toYAMLKeys data).

(** [cleanupFile]: the cloud-config marker lines are removed. *)
Definition marker (line : string) : bool := bool_decide (line = "#cloud-config") || bool_decide (line = "#!cloud-config").
Definition newline : ascii := "010".
Definition cleanupFile (content : string) : string :=
  join (String newline "") (filter (fun l => marker l = false) (split_on newline content)).

(** [readUserData]: [stat] and [read] are the results of os.Stat and
    os.ReadFile, [load] is LoadHarvesterConfig. *)
Definition readUserData (load : string -> result HarvesterConfig) (stat : result unit) (read : result string) :
    result HarvesterConfig :=
  match stat with
  | Err (EPath _ _ true) => Ok NewHarvesterConfig
  | Err e => Err e
  | Panic => Panic
  | Ok _ => contents ← read; load (cleanupFile contents)
  end.

Definition readConfigFromMap (toInternal : anymap -> result anymap) (toObj : anymap -> result HarvesterConfig)
    (data : anymap) : result HarvesterConfig :=
  data ← toInternal data; toObj data.

(** [LoadHarvesterConfig]: decoding the YAML text, the mapper, decoding into
    the structure, and the multipath option. *)
Definition LoadHarvesterConfig (yaml : string -> result anymap) (toInternal : anymap -> result anymap)
    (toObj : anymap -> result HarvesterConfig) (parseMP : ExternalStorageConfig -> result ExternalStorageConfig)
    (text : string) : result HarvesterConfig :=
  data ← map_err (EWrap "failed to unmarshal yaml") (yaml text);
  data ← toInternal data;
  c ← map_err (EWrap "failed to convert to HarvesterConfig") (toObj data);
  es ← map_err (EWrap "failed to parse external storage multi-path config") (parseMP (os_ExternalStorage (hc_OS c)));
  mret (set_hc_OS (mkOS (os_AfterInstallChrootCommands (hc_OS c)) (os_SSHAuthorizedKeys (hc_OS c))
    (os_WriteFiles (hc_OS c)) (os_Hostname (hc_OS c)) (os_Modules (hc_OS c)) (os_Sysctls (hc_OS c))
    (os_NTPServers (hc_OS c)) (os_DNSNameservers (hc_OS c)) (os_Password (hc_OS c)) (os_Environment (hc_OS c))
    (os_Labels (hc_OS c)) (os_SFTP (hc_OS c)) (os_PersistentStatePaths (hc_OS c)) es
    (os_AdditionalKernelArguments (hc_OS c))) c).


(** The fields of the schemas, by their JSON names (config.go). *)
Definition config_fields : list string :=
  ["schemeVersion"; "serverUrl"; "token"; "sans"; "os"; "install"; "runtimeVersion"; "rancherVersion";
   "harvesterChartVersion"; "monitoringChartVersion"; "systemSettings"; "loggingChartVersion"; "kubeovnChartVersion"].
Definition os_fields : list string :=
  ["afterInstallChrootCommands"; "sshAuthorizedKeys"; "writeFiles"; "hostname"; "modules"; "sysctls"; "ntpServers";
   "dnsNameservers"; "password"; "environment"; "labels"; "sshd"; "persistentStatePaths"; "externalStorageConfig";
   "additionalKernelArguments"].
Definition install_fields : list string :=
  ["automatic"; "skipchecks"; "mode"; "managementInterface"; "vip"; "vipHwAddr"; "vipMode"; "clusterDns";
   "clusterPodCidr"; "clusterServiceCidr"; "forceEfi"; "device"; "configUrl"; "silent"; "isoUrl"; "powerOff";
   "noFormat"; "debug"; "tty"; "forceGpt"; "role"; "withNetImages"; "wipeAllDisks"; "wipeDisksList"; "forceMbr";
   "dataDisk"; "webhooks"; "addons"; "harvester"; "rawDiskImagePath"; "persistentPartitionSize"].
Definition network_fields : list string :=
  ["interfaces"; "method"; "ip"; "subnetMask"; "gateway"; "bondOptions"; "mtu"; "vlanId"].
Definition schemas_fields : list (list string) := [config_fields; os_fields; install_fields; network_fields].

(** ** Lemmas *)

Definition name_pairs (names : list string) : list (string * string) := concat (map field_names names).
Definition consistent (l : list (string * string)) : Prop :=
  forall k v v', (k, v) ∈ l -> (k, v') ∈ l -> v = v'.
Definition consistent_check (l : list (string * string)) : bool :=
  forallb (fun a => forallb (fun b => negb (String.eqb (fst a) (fst b)) || String.eqb (snd a) (snd b)) l) l.

Lemma consistent_check_ok l : consistent_check l = true -> consistent l.
Proof.
  intros H k v v' H1%list_elem_of_In H2%list_elem_of_In. unfold consistent_check in H.
  pose proof (proj1 (List.forallb_forall _ _) H _ H1) as Ha.
  pose proof (proj1 (List.forallb_forall _ _) Ha _ H2) as Hb. simpl in Hb.
  rewrite String.eqb_refl in Hb. by apply String.eqb_eq in Hb.
Qed.

Definition table_of (l acc : list (string * string)) : list (string * string) :=
  foldl (fun t kv => ainsert (fst kv) (snd kv) t) acc l.

(** A name is in the table when it is in the list or was there before. *)
Lemma alookup_table l acc k v :
  alookup k (table_of l acc) = Some v -> (k, v) ∈ l \/ (alookup k acc = Some v /\ forall v', (k, v') ∉ l).
Proof.
  unfold table_of. revert acc. induction l as [|[k0 v0] l IH]; intros acc H.
  - right. split; [done|]. intros v'. apply not_elem_of_nil.
  - cbn [foldl fst snd] in H. destruct (IH _ H) as [Hl|[Ha Hn]]; [left; by right|].
    rewrite alookup_ainsert in Ha. case_bool_decide as Hk.
    + left. injection Ha as ->. subst. by left.
    + right. split; [done|]. intros v' [[= ? _]|Hv']%elem_of_cons; [done|by apply (Hn v')].
Qed.

Lemma alookup_table_None l acc k : alookup k (table_of l acc) = None <-> alookup k acc = None /\ forall v, (k, v) ∉ l.
Proof.
  unfold table_of. revert acc. induction l as [|[k0 v0] l IH]; intros acc.
  - split; [|tauto]. intros H. split; [done|]. intros v. apply not_elem_of_nil.
  - cbn [foldl fst snd]. rewrite IH, alookup_ainsert. case_bool_decide as Hk; split.
    + by intros [? _].
    + intros [_ H]. exfalso. apply (H v0). subst. by left.
    + intros [Ha Hn]. split; [done|]. intros v [[= ? _]|Hv]%elem_of_cons; [done|by apply (Hn v)].
    + intros [Ha Hn]. split; [done|]. intros v Hv. apply (Hn v). by right.
Qed.

Lemma alookup_table_consistent l l' k :
  consistent l -> (forall kv, kv ∈ l' <-> kv ∈ l) -> alookup k (table_of l' []) = alookup k (table_of l []).
Proof.
  intros Hc Hl. destruct (alookup k (table_of l [])) as [v|] eqn:E.
  - apply alookup_table in E as [Hin|[? _]]; [|done].
    destruct (alookup k (table_of l' [])) as [v'|] eqn:E'.
    + apply alookup_table in E' as [Hin'|[? _]]; [|done]. f_equal. by apply (Hc k); [apply Hl|].
    + apply alookup_table_None in E' as [_ Hn]. exfalso. by apply (Hn v), Hl.
  - apply alookup_table_None in E as [_ Hn]. apply alookup_table_None. split; [done|].
    intros v Hv%Hl. by apply (Hn v).
Qed.

Lemma table_of_app l1 l2 acc : table_of (l1 ++ l2) acc = table_of l2 (table_of l1 acc).
Proof. apply foldl_app. Qed.

Lemma alookup_table_acc l acc acc' k :
  alookup k acc = alookup k acc' -> alookup k (table_of l acc) = alookup k (table_of l acc').
Proof.
  unfold table_of. revert acc acc'. induction l as [|kv l IH]; intros acc acc' H; [done|]. cbn [foldl].
  apply IH. by rewrite !alookup_ainsert, H.
Qed.

Lemma name_pairs_elem names names' kv : names ≡ₚ names' -> kv ∈ name_pairs names <-> kv ∈ name_pairs names'.
Proof. unfold name_pairs. intros Hp. by rewrite Hp. Qed.

(** ** Properties *)

(** The fuzzy field names are unambiguous: for each structure of the
    configuration the table from accepted names to field names does not depend
    on the order in which the schema's fields (a Go map) are visited, because
    no accepted spelling stands for two fields. *)
Theorem fuzzy_names_order fields names k :
  fields ∈ schemas_fields -> names ≡ₚ fields ->
  alookup k (fuzzy_names names) = alookup k (fuzzy_names fields).
Proof.
  intros Hin Hp.
  assert (Hc : consistent (name_pairs fields)).
  { apply consistent_check_ok. unfold schemas_fields in Hin. rewrite !elem_of_cons, elem_of_nil in Hin.
    destruct Hin as [->|[->|[->|[->|[]]]]]; vm_refl. }
  unfold fuzzy_names. fold (table_of (concat (map field_names names) ++ [("pass", "passphrase"); ("password", "passphrase")]) []).
  fold (table_of (concat (map field_names fields) ++ [("pass", "passphrase"); ("password", "passphrase")]) []).
  rewrite !table_of_app. apply alookup_table_acc. apply alookup_table_consistent; [done|].
  intros kv. by apply name_pairs_elem.
Qed.

Lemma fuzzy_names_order_witness :
  alookup "bond_option" (fuzzy_names (reverse network_fields)) = alookup "bond_option" (fuzzy_names network_fields).
Proof.
  apply fuzzy_names_order; [|apply reverse_Permutation]. unfold schemas_fields. do 3 right. by left.
Defined.

Definition spelled (fields : list string) (f : string) : bool :=
  forallb (fun kv => bool_decide (fst kv = f) || String.eqb (fst kv) "password" || String.eqb (fst kv) "pass" ||
    match alookup f (FuzzyNames_ToInternal (fuzzy_names fields) [(fst kv, AStr "v")]) with
    | Some (AStr "v") => true | _ => false end) (field_names f).

(** Every field is found under its snake-case name, its lower-case name and,
    for plurals, its singular: after renaming, the value is stored under the
    JSON name.  The one exception is [password], which the table sends to
    [passphrase]. *)
Theorem fuzzy_names_complete fields f :
  fields ∈ schemas_fields -> f ∈ fields -> spelled fields f = true.
Proof.
  intros Hin Hf%list_elem_of_In. apply (proj1 (List.forallb_forall (spelled fields) fields)); [|done].
  unfold schemas_fields in Hin. rewrite !elem_of_cons, elem_of_nil in Hin.
  destruct Hin as [->|[->|[->|[->|[]]]]]; vm_refl.
Qed.

Lemma fuzzy_names_complete_witness : spelled network_fields "bondOptions" = true.
Proof.
  apply fuzzy_names_complete; [unfold schemas_fields; do 3 right; by left|].
  apply list_elem_of_In. vm_compute. tauto.
Defined.

Lemma filter_no_sep (P : string -> bool) sep s :
  Forall (fun w => has_char sep w = false) (filter (fun l => P l = false) (split_on sep s)).
Proof.
  apply Forall_forall. intros w [_ Hw]%list_elem_of_filter.
  by apply (proj1 (Forall_forall _ _) (split_on_no_sep sep s)).
Qed.

(** Cleaning a user-data file removes the cloud-config marker lines and no
    other line: when some line remains, the lines of the result are the lines
    of the file that are not markers, in order. *)
Theorem cleanupFile_lines content :
  filter (fun l => marker l = false) (split_on newline content) <> [] ->
  split_on newline (cleanupFile content) = filter (fun l => marker l = false) (split_on newline content).
Proof.
  intros Hne. unfold cleanupFile. apply join_split_on; [done|]. apply filter_no_sep.
Qed.

Lemma cleanupFile_lines_witness :
  split_on newline (cleanupFile (String.concat (String newline "") ["#cloud-config"; "token: x"; "os:"])) = ["token: x"; "os:"].
Proof. rewrite cleanupFile_lines; [vm_refl|]. by vm_compute. Defined.
