(* ===== verification/DiskOptions.v ===== *)
(** * DiskOptions: the disks offered for installation ([pkg/console/util.go])

    The JSON of lsblk is decoded, de-duplicated by serial number and WWN
    (multipath devices appear once per path), and turned into sorted widget
    options.  The iteration over a Go map is a list [order] that is some
    permutation of the map's values. *)
From Stdlib Require Import ZArith Lia Ascii String.
From stdpp Require Import base tactics list gmap strings sorting.
From S2P Require Import Prelude GoStrings GoJson World.
Local Open Scope Z_scope.

Inductive Device : Set :=
  mkDevice (Name Size DiskType WWN Serial Label : string) (Children : list Device).
Definition dv_Name (d : Device) : string := let 'mkDevice n _ _ _ _ _ _ := d in n.
Definition dv_Size (d : Device) : string := let 'mkDevice _ s _ _ _ _ _ := d in s.
Definition dv_Type (d : Device) : string := let 'mkDevice _ _ t _ _ _ _ := d in t.
Definition dv_WWN (d : Device) : string := let 'mkDevice _ _ _ w _ _ _ := d in w.
Definition dv_Serial (d : Device) : string := let 'mkDevice _ _ _ _ s _ _ := d in s.
Definition dv_Label (d : Device) : string := let 'mkDevice _ _ _ _ _ l _ := d in l.
Definition dv_Children (d : Device) : list Device := let 'mkDevice _ _ _ _ _ _ c := d in c.
Definition zero_Device : Device := mkDevice "" "" "" "" "" "" [].

Definition diskType : string := "disk".
Definition PartitionType : string := "part".
Definition MpathType : string := "mpath".
Definition CosDiskLabelPrefix : string := "COS_OEM".

(** ** Decoding *)

(** The string field a key names; [None] when the key names none. *)
Definition set_string_field (k : string) (s : string) (d : Device) : option Device :=
  let 'mkDevice n z t w r l c := d in
  if bool_decide (k = "name") then Some (mkDevice s z t w r l c)
  else if bool_decide (k = "size") then Some (mkDevice n s t w r l c)
  else if bool_decide (k = "type") then Some (mkDevice n z s w r l c)
  else if bool_decide (k = "wwn") then Some (mkDevice n z t s r l c)
  else if bool_decide (k = "serial") then Some (mkDevice n z t w s l c)
  else if bool_decide (k = "label") then Some (mkDevice n z t w r s c)
  else None.
Definition set_Children (c : list Device) (d : Device) : Device :=
  let 'mkDevice n z t w r l _ := d in mkDevice n z t w r l c.
(** A value stored into a string field: [null] leaves it. *)
Definition set_leaf (k : string) (v : json) (d : Device) : option Device :=
  match set_string_field k "" d, v with
  | None, _ => Some d
  | Some _, JStr s => set_string_field k s d
  | Some _, JNull => Some d
  | Some _, _ => None
  end.

Fixpoint decode_device (j : json) : option Device :=
  match j with
  | JNull => Some zero_Device
  | JObj l =>
      (fix go (l : list (string * json)) (d : Device) : option Device :=
         match l with
         | [] => Some d
         | (k, v) :: l' =>
             d ← (if bool_decide (to_lower k = "children") then
                    match v with
                    | JArr vs =>
                        c ← (fix kids (vs : list json) : option (list Device) :=
                           match vs with
                           | [] => Some []
                           | v :: vs' => x ← decode_device v; xs ← kids vs'; Some (x :: xs)
                           end) vs;
                        Some (set_Children c d)
                    | JNull => Some (set_Children [] d)
                    | _ => None
                    end
                  else set_leaf (to_lower k) v d);
             go l' d
         end) l zero_Device
  | _ => None
  end.

(** [json.Unmarshal(output, &BlockDevices{})]. *)
Definition decode_disks (output : string) : option (list Device) :=
  j ← json_parse output;
  decode_struct (fun k => if bool_decide (k = "blockdevices")
    then Some (fun _ v => match v with JArr l => mapM decode_device l | JNull => Some [] | _ => None end) else None) [] j.

(** ** De-duplication *)

Definition insert_new (k : string) (d : Device) (m : gmap string Device) : gmap string Device :=
  match m !! k with Some _ => m | None => <[k := d]> m end.

Definition dedup_step (m : gmap string Device) (d : Device) : gmap string Device :=
  if bool_decide (dv_Type d = diskType) then
    if bool_decide (dv_WWN d = "") && bool_decide (dv_Serial d = "") then <[dv_Name d := d]> m
    else
      let m := if bool_decide (dv_Serial d <> "") then insert_new (dv_Serial d) d m else m in
      if bool_decide (dv_WWN d <> "") then insert_new (dv_WWN d) d m else m
  else m.
Definition dedup (disks : list Device) : gmap string Device := foldl dedup_step ∅ disks.

(** The map by name, from the values of the first map in the order visited. *)
Definition by_name (order : list Device) : gmap string Device :=
  foldl (fun r v => <[dv_Name v := v]> r) ∅ order.

Definition filterUniqueDisks (visit : gmap string Device -> list Device) (output : string) : result (gmap string Device) :=
  match decode_disks output with
  | None => Err (EMsg "error unmarshalling lsblk json output")
  | Some disks => Ok (by_name (visit (dedup disks)))
  end.

(** A multipath child decides alone: what follows it is not looked at. *)
Fixpoint deviceContainsCOSPartition (disk : Device) : bool :=
  let 'mkDevice _ _ _ _ _ _ children := disk in
  (fix scan (l : list Device) : bool :=
     match l with
     | [] => false
     | partition :: l' =>
         if bool_decide (dv_Type partition = MpathType) then deviceContainsCOSPartition partition
         else if bool_decide (dv_Type partition = PartitionType) && bool_decide (dv_Label partition = CosDiskLabelPrefix)
              then true else scan l'
     end) children.

(** ** Options *)

Record Option : Set := mkOption { op_Value : string; op_Text : string }.

Definition generateDiskEntry (d : Device) : string := dv_Name d +:+ " " +:+ dv_Size d.

Definition line_option (line : string) : option Option :=
  match split2 " " line with
  | (name, Some _) => Some (mkOption ("/dev/" +:+ name) line)
  | _ => None
  end.
Definition generateDiskWidgetOptions (entries : list string) : list Option := omap line_option entries.

Record DiskOptionsCache : Set := mkCache {
  dc_diskOptions : list Option;
  dc_hvstInstalledDiskOptions : list Option
}.

Definition options_of (order : list Device) : DiskOptionsCache :=
  mkCache (generateDiskWidgetOptions (sort_strings (map generateDiskEntry order)))
    (generateDiskWidgetOptions (sort_strings (map generateDiskEntry
       (filter (fun d => deviceContainsCOSPartition d = true) order)))).

Definition NewDiskOptionsCache : DiskOptionsCache := mkCache [] [].
(** [refresh]: a failure keeps the previous cache. *)
Definition refresh (visit : gmap string Device -> list Device) (lsblk : result string) : result DiskOptionsCache :=
  output ← lsblk;
  resultMap ← filterUniqueDisks visit output;
  mret (options_of (visit resultMap)).

Definition getAllValidDiskOptions (c : DiskOptionsCache) : list Option := dc_diskOptions c.

Definition use_installation_disk (o : Option) : Option :=
  mkOption (op_Value o) ("Use the installation disk (" +:+ op_Text o +:+ ")").

(** Indexing the first of no options panics. *)
Definition getDataDiskOptions (c : DiskOptionsCache) (device : string) : result (list Option) :=
  let opts := dc_diskOptions c in
  if bool_decide (device = "") then
    match opts with
    | o :: opts' => Ok (use_installation_disk o :: opts')
    | [] => Panic
    end
  else
    match list_find (fun o => op_Value o = device) opts with
    | Some (i, o) => Ok (use_installation_disk o :: take i opts ++ drop (S i) opts)
    | None => Ok []
    end.

Definition getWipeDisksOptions (c : DiskOptionsCache) (device dataDisk : string) : list Option :=
  filter (fun o => op_Value o <> device /\ op_Value o <> dataDisk) (dc_hvstInstalledDiskOptions c).

(** ** Reference definition of the de-duplication *)

(** The keys a disk is known by: its serial number and WWN, its name when it
    has neither. *)
Definition keys_of (d : Device) : list string :=
  if bool_decide (dv_Type d = diskType) then
    if bool_decide (dv_WWN d = "") && bool_decide (dv_Serial d = "") then [dv_Name d]
    else filter (fun k => k <> "") [dv_Serial d; dv_WWN d]
  else [].

(** A disk is shown when one of its keys is not the key of an earlier disk. *)
Definition shown (disks : list Device) (d : Device) : Prop :=
  exists past rest k, disks = past ++ d :: rest /\ k ∈ keys_of d /\ Forall (fun p => k ∉ keys_of p) past.

(** What lsblk guarantees: device names are unique, and no disk has the name of
    a disk without identifiers as serial number or WWN. *)
Definition lsblk_ok (disks : list Device) : Prop :=
  NoDup (map dv_Name disks) /\
  forall d d', d ∈ disks -> d' ∈ disks -> keys_of d' = [dv_Name d'] -> dv_Name d' ∈ keys_of d -> d = d'.

(** ** Lemmas *)

Lemma insert_new_lookup k d m k' :
  insert_new k d m !! k' = match m !! k' with Some x => Some x | None => if bool_decide (k' = k) then Some d else None end.
Proof.
  unfold insert_new. destruct (m !! k) eqn:E.
  - destruct (m !! k') eqn:E'; [done|]. by rewrite bool_decide_false by congruence.
  - case_bool_decide as Hk; [subst; rewrite lookup_insert_eq, E; done|]. rewrite lookup_insert_ne by done. by destruct (m !! k').
Qed.

(** A step adds the disk under its keys that are not taken (for a disk without
    identifiers its name, which must not be taken). *)
Lemma dedup_step_lookup m d k :
  (keys_of d = [dv_Name d] -> m !! dv_Name d = None) ->
  dedup_step m d !! k = match m !! k with Some x => Some x | None => if bool_decide (k ∈ keys_of d) then Some d else None end.
Proof.
  intros Hname. unfold dedup_step, keys_of in *.
  case_bool_decide; [|rewrite (bool_decide_false (k ∈ [])) by apply not_elem_of_nil; by destruct (m !! k)].
  destruct (bool_decide (dv_WWN d = "") && bool_decide (dv_Serial d = "")) eqn:E.
  - specialize (Hname eq_refl). destruct (decide (k = dv_Name d)) as [->|Hk].
    + rewrite lookup_insert_eq, Hname. by rewrite bool_decide_true by left.
    + rewrite lookup_insert_ne by done. rewrite bool_decide_false; [by destruct (m !! k)|].
      by intros ?%list_elem_of_singleton.
  - assert (Hmem : forall b, bool_decide (k ∈ filter (fun k => k <> "") [dv_Serial d; dv_WWN d]) = b <->
       (bool_decide (dv_Serial d <> "") && bool_decide (k = dv_Serial d) || bool_decide (dv_WWN d <> "") && bool_decide (k = dv_WWN d)) = b).
    { intros b. enough (bool_decide (k ∈ filter (fun k => k <> "") [dv_Serial d; dv_WWN d]) =
        (bool_decide (dv_Serial d <> "") && bool_decide (k = dv_Serial d) || bool_decide (dv_WWN d <> "") && bool_decide (k = dv_WWN d))) as -> by done.
      rewrite <- !bool_decide_and, <- bool_decide_or. apply bool_decide_ext.
      rewrite list_elem_of_filter, !elem_of_cons, elem_of_nil. naive_solver. }
    rewrite (proj2 (Hmem _) eq_refl).
    destruct (bool_decide (dv_Serial d <> "")), (bool_decide (dv_WWN d <> "")); rewrite ?insert_new_lookup;
      destruct (m !! k); simpl; try done; destruct (bool_decide (k = dv_Serial d)); simpl; try done;
      destruct (bool_decide (k = dv_WWN d)); done.
Qed.

(** A key of the map belongs to the first disk that has it. *)
Definition first_with (disks : list Device) (k : string) (d : Device) : Prop :=
  exists past rest, disks = past ++ d :: rest /\ k ∈ keys_of d /\ Forall (fun p => k ∉ keys_of p) past.

Lemma first_with_snoc disks d k x :
  first_with (disks ++ [d]) k x <->
  first_with disks k x \/ (Forall (fun p => k ∉ keys_of p) disks /\ k ∈ keys_of d /\ x = d).
Proof.
  split.
  - intros (past & rest & Heq & Hk & Hf). destruct rest as [|y rest] using rev_ind.
    + apply app_inj_tail in Heq as [-> ->]. by right.
    + clear IHrest. left. exists past, rest. split; [|done].
      rewrite app_comm_cons, app_assoc in Heq. by apply app_inj_tail in Heq as [-> _].
  - intros [(past & rest & -> & Hk & Hf)|(Hf & Hk & ->)].
    + exists past, (rest ++ [d]). by rewrite <- app_assoc.
    + by exists disks, [].
Qed.

Lemma first_with_none disks k : Forall (fun p => k ∉ keys_of p) disks -> forall x, ~ first_with disks k x.
Proof.
  intros Hf x (past & rest & -> & Hk & _). apply Forall_app in Hf as [_ Hf]. by apply Forall_cons in Hf as [? _].
Qed.

Lemma dedup_snoc disks d : dedup (disks ++ [d]) = dedup_step (dedup disks) d.
Proof. unfold dedup. by rewrite foldl_app. Qed.

Lemma lsblk_ok_app l1 l2 : lsblk_ok (l1 ++ l2) -> lsblk_ok l1.
Proof.
  intros [Hn Hk]. split; [rewrite map_app in Hn; by apply NoDup_app in Hn as [? _]|].
  intros d d' Hd Hd'. apply Hk; apply elem_of_app; by left.
Qed.

Lemma dedup_first disks k :
  lsblk_ok disks ->
  (forall d, dedup disks !! k = Some d <-> first_with disks k d) /\
  (dedup disks !! k = None <-> Forall (fun p => k ∉ keys_of p) disks).
Proof.
  revert k. induction disks as [|d disks IH] using rev_ind; intros k Hok.
  { unfold dedup. simpl. rewrite lookup_empty. split; [|by repeat constructor].
    intros d. split; [done|]. intros ([|? ?] & ? & Heq & _); discriminate. }
  pose proof (lsblk_ok_app _ _ Hok) as Hok'. rewrite dedup_snoc.
  assert (Hname : keys_of d = [dv_Name d] -> dedup disks !! dv_Name d = None).
  { intros Hk. apply (IH (dv_Name d) Hok'). apply Forall_forall. intros p Hp Hin.
    assert (p = d) as ->.
    { apply (proj2 Hok); [apply elem_of_app; by left|apply elem_of_app; right; by left|done|done]. }
    destruct Hok as [Hnd _]. rewrite map_app in Hnd. apply NoDup_app in Hnd as (_ & Hdis & _).
    apply (Hdis (dv_Name d)); [by apply list_elem_of_fmap_2|by left]. }
  rewrite dedup_step_lookup by done. destruct (IH k Hok') as [IHs IHn].
  destruct (dedup disks !! k) as [x|] eqn:E.
  - split.
    + intros y. rewrite first_with_snoc, <- IHs. split; [by left|]. intros [H|(Hf & _)]; [done|].
      by apply IHn in Hf.
    + split; [done|]. intros [Hf _]%Forall_app. by apply IHn in Hf.
  - pose proof (proj1 IHn eq_refl) as Hf. case_bool_decide as Hin.
    + split.
      * intros y. rewrite first_with_snoc. split; [intros [= <-]; by right|].
        intros [H|(_ & _ & ->)]; [by apply first_with_none in H|done].
      * split; [done|]. rewrite Forall_app, Forall_cons. by intros (_ & ? & _).
    + split.
      * intros y. rewrite first_with_snoc. split; [done|].
        intros [H|(_ & ? & _)]; [by apply first_with_none in H|done].
      * split; [|done]. intros _. apply Forall_app. split; [done|]. by constructor.
Qed.

Lemma by_name_lookup order n d :
  (forall x y, x ∈ order -> y ∈ order -> dv_Name x = dv_Name y -> x = y) ->
  by_name order !! n = Some d <-> d ∈ order /\ dv_Name d = n.
Proof.
  unfold by_name. induction order as [|x order IH] using rev_ind; intros Hinj.
  { simpl. rewrite lookup_empty, elem_of_nil. naive_solver. }
  rewrite foldl_app. simpl. rewrite elem_of_app, list_elem_of_singleton.
  assert (Hinj' : forall x y, x ∈ order -> y ∈ order -> dv_Name x = dv_Name y -> x = y).
  { intros a b Ha Hb. apply Hinj; apply elem_of_app; by left. }
  destruct (decide (dv_Name x = n)) as [Hn|Hn].
  - rewrite Hn, lookup_insert_eq. split; [intros [= ->]; tauto|].
    intros [[Hin| ->] Hd]; [|done]. f_equal. apply Hinj; [apply elem_of_app; right; by left|apply elem_of_app; by left|congruence].
  - rewrite lookup_insert_ne by done. rewrite IH by done. naive_solver.
Qed.

Lemma lsblk_name_inj disks x y :
  lsblk_ok disks -> x ∈ disks -> y ∈ disks -> dv_Name x = dv_Name y -> x = y.
Proof.
  intros [Hnd _] Hx Hy Heq. apply list_elem_of_lookup in Hx as [i Hi], Hy as [j Hj].
  assert (i = j) as ->; [|congruence].
  eapply (NoDup_lookup (map dv_Name disks)); [done| |]; rewrite list_lookup_fmap; [by rewrite Hi|by rewrite Hj, Heq].
Qed.

(** ** Properties *)

Lemma shown_first disks d : shown disks d <-> exists k, first_with disks k d.
Proof. unfold shown, first_with. naive_solver. Qed.

Lemma first_with_elem disks k d : first_with disks k d -> d ∈ disks.
Proof. intros (past & rest & -> & _). apply elem_of_app. right. by left. Qed.

Lemma result_lookup visit disks n d :
  (forall m, visit m ≡ₚ map snd (map_to_list m)) -> lsblk_ok disks ->
  by_name (visit (dedup disks)) !! n = Some d <-> shown disks d /\ dv_Name d = n.
Proof.
  intros Hvisit Hok.
  assert (Hin : forall x, x ∈ visit (dedup disks) <-> shown disks x).
  { intros x. rewrite (Hvisit (dedup disks)), list_elem_of_fmap, shown_first. split.
    - intros ([k y] & -> & Hy). exists k. apply elem_of_map_to_list in Hy. by apply dedup_first.
    - intros [k Hk]. exists (k, x). split; [done|]. apply elem_of_map_to_list. by apply dedup_first. }
  rewrite by_name_lookup; [by rewrite Hin|].
  intros x y Hx%Hin Hy%Hin. apply shown_first in Hx as [kx Hx], Hy as [ky Hy].
  apply (lsblk_name_inj disks); eauto using first_with_elem.
Qed.

(** C32: Refinement of the de-duplication: on the output of lsblk, and for every
    order in which Go visits the map, [filterUniqueDisks] keeps, under its
    name, exactly each disk one of whose identifiers is new among the disks
    before it: paths of one multipath disk collapse to the first, members of a
    RAID array with a common serial number but different WWNs stay. *)
Theorem filterUniqueDisks_refines visit output disks m :
  (forall m, visit m ≡ₚ map snd (map_to_list m)) ->
  decode_disks output = Some disks -> lsblk_ok disks ->
  filterUniqueDisks visit output = Ok m ->
  forall n d, m !! n = Some d <-> shown disks d /\ dv_Name d = n.
Proof.
  intros Hvisit Hdec Hok Hf n d. unfold filterUniqueDisks in Hf. rewrite Hdec in Hf. injection Hf as <-.
  by apply result_lookup.
Qed.

Definition jq (k v : string) : string := String quote k +:+ String quote ":" +:+ String quote v +:+ String quote "".
Definition demo_disk (n s w : string) : string :=
  "{" +:+ join "," [jq "name" n; jq "size" "500G"; jq "type" "disk"; jq "wwn" w; jq "serial" s] +:+ "}".
Definition demo_lsblk : string :=
  "{" +:+ String quote "blockdevices" +:+ String quote ":[" +:+
  join "," [demo_disk "sda" "S1" "W1"; demo_disk "sdb" "S1" "W1"; demo_disk "sdc" "S1" "W2"] +:+ "]}".
Definition demo_device (n s w : string) : Device := mkDevice n "500G" "disk" w s "" [].
Definition visit_all (m : gmap string Device) : list Device := map snd (map_to_list m).

Lemma filterUniqueDisks_refines_witness :
  exists m, filterUniqueDisks visit_all demo_lsblk = Ok m /\
    (m !! "sda" = Some (demo_device "sda" "S1" "W1") <->
     shown [demo_device "sda" "S1" "W1"; demo_device "sdb" "S1" "W1"; demo_device "sdc" "S1" "W2"]
       (demo_device "sda" "S1" "W1") /\ dv_Name (demo_device "sda" "S1" "W1") = "sda").
Proof.
  destruct (filterUniqueDisks visit_all demo_lsblk) as [m| |] eqn:Hm; [|vm_compute in Hm; discriminate..].
  exists m. split; [done|].
  apply (filterUniqueDisks_refines visit_all demo_lsblk
    [demo_device "sda" "S1" "W1"; demo_device "sdb" "S1" "W1"; demo_device "sdc" "S1" "W2"] m);
    [reflexivity | vm_refl | | done].
  split.
  - apply (bool_decide_eq_true_1 (NoDup _)). vm_refl.
  - intros d d' Hd Hd' Hk. rewrite !elem_of_cons, elem_of_nil in Hd, Hd'.
    destruct Hd' as [->|[->|[->|[]]]]; vm_compute in Hk; discriminate.
Defined.

(** The cache does not depend on the order in which the maps are visited:
    two refreshes on the same lsblk output give the same lists of options. *)
Theorem refresh_deterministic visit visit' lsblk :
  (forall m, visit m ≡ₚ map snd (map_to_list m)) -> (forall m, visit' m ≡ₚ map snd (map_to_list m)) ->
  (forall output disks, lsblk = Ok output -> decode_disks output = Some disks -> lsblk_ok disks) ->
  refresh visit lsblk = refresh visit' lsblk.
Proof.
  intros Hv Hv' Hok. unfold refresh. destruct lsblk as [output|e|]; [|done..]. cbn [mbind result_bind].
  unfold filterUniqueDisks. destruct (decode_disks output) as [disks|] eqn:Hd; [|done]. cbn [mbind result_bind].
  assert (Hm : by_name (visit (dedup disks)) = by_name (visit' (dedup disks))).
  { apply map_eq. intros n. specialize (Hok output disks eq_refl Hd).
    destruct (by_name (visit (dedup disks)) !! n) as [d|] eqn:E; symmetry.
    - apply (result_lookup visit') ; [done..|]. by apply (result_lookup visit).
    - destruct (by_name (visit' (dedup disks)) !! n) as [d|] eqn:E'; [|done].
      apply (result_lookup visit') in E'; [|done..]. apply (result_lookup visit disks n d) in E'; [congruence|done..]. }
  rewrite Hm. f_equal. unfold options_of.
  assert (Hp : visit (by_name (visit' (dedup disks))) ≡ₚ visit' (by_name (visit' (dedup disks)))) by (etransitivity; [apply Hv|symmetry; apply Hv']).
  f_equal; (f_equal; apply sort_strings_perm); by rewrite Hp.
Qed.

Lemma refresh_deterministic_witness :
  refresh visit_all (Ok "{}") = refresh (fun m => reverse (visit_all m)) (Ok "{}").
Proof.
  apply (refresh_deterministic visit_all (fun m => reverse (visit_all m))).
  - reflexivity.
  - intros m. apply reverse_Permutation.
  - intros output disks [= <-] Hd. vm_compute in Hd. injection Hd as <-. split; [constructor|].
    by intros d d' ?%not_elem_of_nil.
Defined.

(** Choosing the data disk: when the installation disk is among the options
    it comes first, with its text changed and its value kept, and the other
    options follow in their order; when it is not, nothing is offered; with no
    options and no device chosen the code indexes an empty slice and panics. *)
Theorem getDataDiskOptions_spec c device :
  match getDataDiskOptions c device with
  | Ok [] => device <> "" /\ device ∉ map op_Value (dc_diskOptions c)
  | Ok (o :: rest) =>
      map op_Value (o :: rest) ≡ₚ map op_Value (dc_diskOptions c) /\
      sublist rest (dc_diskOptions c) /\ (device <> "" -> op_Value o = device)
  | Err _ => False
  | Panic => device = "" /\ dc_diskOptions c = []
  end.
Proof.
  unfold getDataDiskOptions. case_bool_decide as Hd.
  - destruct (dc_diskOptions c) as [|o opts]; [done|]. split; [done|]. split; [by apply sublist_cons|]. done.
  - destruct (list_find _ _) as [[i o]|] eqn:Hf.
    + apply list_find_Some in Hf as (Hi & Ho & _). apply list_elem_of_split_length in Hi as (l1 & l2 & Heq & Hlen).
      rewrite Heq. subst i. rewrite take_app_length. change (S (length l1)) with (1 + length l1)%nat.
      rewrite Nat.add_comm, drop_app_add. cbn [drop].
      split; [|split; [|by intros _]].
      * cbn [map]. rewrite !map_app. cbn [map]. by rewrite Permutation_middle.
      * apply sublist_app; [done|]. by apply sublist_cons.
    + apply list_find_None in Hf. split; [done|]. intros (o & -> & Ho)%list_elem_of_fmap.
      rewrite Forall_forall in Hf. by apply (Hf o).
Qed.

(** C33: The disks offered for wiping never include, by name, the installation
    disk or the data disk, and all carry an earlier Harvester installation. *)
Theorem getWipeDisksOptions_safe visit lsblk c device dataDisk o :
  refresh visit lsblk = Ok c -> o ∈ getWipeDisksOptions c device dataDisk ->
  op_Value o <> device /\ op_Value o <> dataDisk /\
  exists output m d, lsblk = Ok output /\ filterUniqueDisks visit output = Ok m /\ d ∈ visit m /\
    deviceContainsCOSPartition d = true /\ op_Text o = generateDiskEntry d.
Proof.
  intros Hr [[H1 H2] Hin]%list_elem_of_filter. split; [done|]. split; [done|].
  unfold refresh in Hr. apply bind_ok in Hr as (output & -> & Hr). apply bind_ok in Hr as (m & Hm & [= <-]).
  unfold options_of, generateDiskWidgetOptions in Hin. cbn [dc_hvstInstalledDiskOptions] in Hin.
  apply list_elem_of_omap in Hin as (line & Hline & Ho). apply sort_strings_elem, list_elem_of_fmap in Hline as (d & -> & Hd).
  apply list_elem_of_filter in Hd as [Hc Hd]. exists output, m, d. split_and!; try done.
  unfold line_option in Ho. destruct (split2 " " (generateDiskEntry d)) as [name [size|]]; [|done]. by injection Ho as <-.
Qed.

Definition demo_old_disk : string :=
  "{" +:+ String quote "blockdevices" +:+ String quote ":[{" +:+
  join "," [jq "name" "sdb"; jq "size" "9G"; jq "type" "disk";
            String quote "children" +:+ String quote ":[{" +:+ join "," [jq "name" "sdb1"; jq "type" "part"; jq "label" "COS_OEM"] +:+ "}]"] +:+ "}]}".

Lemma getWipeDisksOptions_safe_witness :
  op_Value (mkOption "/dev/sdb" "sdb 9G") <> "/dev/sda".
Proof.
  refine (proj1 (getWipeDisksOptions_safe visit_all (Ok demo_old_disk)
    (mkCache [mkOption "/dev/sdb" "sdb 9G"] [mkOption "/dev/sdb" "sdb 9G"]) "/dev/sda" ""
    (mkOption "/dev/sdb" "sdb 9G") _ _)); [vm_refl|].
  apply list_elem_of_In. vm_compute. by left.
Defined.

(** The comparison is by name only: a Harvester disk chosen for installation
    through a link (such as /dev/disk/by-id/x) is still offered for wiping,
    and with [wipeAllDisks] the installer wipes the disk it installs on. *)
Theorem wipe_options_include_linked_device c o evalSymlinks device dataDisk :
  o ∈ dc_hvstInstalledDiskOptions c -> evalSymlinks device = op_Value o -> device <> op_Value o ->
  op_Value o <> dataDisk -> o ∈ getWipeDisksOptions c device dataDisk.
Proof. intros Hin _ Hd Hdd. unfold getWipeDisksOptions. apply list_elem_of_filter. split; [|done]. by split. Qed.

Lemma wipe_options_include_linked_device_witness :
  mkOption "/dev/sda" "sda 500G" ∈ getWipeDisksOptions (mkCache [] [mkOption "/dev/sda" "sda 500G"]) "/dev/disk/by-id/x" "".
Proof.
  apply (wipe_options_include_linked_device _ _ (fun _ => "/dev/sda")); [by left|done|done|done].
Defined.
