(* ===== verification/Validator.v ===== *)
(** * Validator: checks of a configuration ([pkg/console/validator.go])

    What the checks read of the machine is the record [Machine]. *)
From Stdlib Require Import ZArith Lia Ascii String.
From stdpp Require Import base tactics list gmap strings.
From S2P Require Import Prelude GoStrings GoNum GoNet GoJson Config ConfigOps K8sNames DiskSize DiskOptions World NMConfig.
Local Open Scope Z_scope.

Record Machine : Type := mkMachine {
  mc_interfaces : result (list Iface);              (* net.Interfaces *)
  mc_lstat : string -> result bool;                 (* os.Lstat: is it a symbolic link *)
  mc_evalSymlinks : string -> result string;
  mc_disks : result DiskOptionsCache;               (* diskOptionsCache.refresh *)
  mc_diskSize : string -> result Z;                 (* util.GetDiskSizeBytes *)
  mc_lsblk : string -> result string;               (* lsblk -b -o SIZE *)
  mc_isBIOS : bool;                                 (* util.SystemIsBIOS *)
  mc_alreadyInstalled : bool                        (* the flag alreadyInstalled *)
}.

(** [json.Decode] into the vendored [registries.Registry]. *)
Class RegistryJSON := registry_ok : string -> bool.

Definition prettyError (errMsg value : string) : error := EMsg (errMsg +:+ ": " +:+ value).

(** ** Single values *)

Definition checkStaticRequiredString (field value : string) : result unit :=
  reject_if (bool_decide (slen value = 0)) (EMsg ("must specify " +:+ field +:+ " in static method")).

Definition checkDomain (domain : string) : result unit :=
  reject_if (negb (IsDNS1123Subdomain domain)) (EMsg (domain +:+ " is not a valid domain")).

Definition checkIP (addr : string) : result unit :=
  reject_if (bool_decide (ParseIP addr = None) || bool_decide (To4 (ParseIP addr) = None))
    (EMsg (addr +:+ " is not a valid IP address")).

Definition checkMTU (mtu : Z) : result unit :=
  if mtu =? 0 then Ok tt
  else reject_if ((mtu <? 576) || (9000 <? mtu)) (EMsg (itoa mtu +:+ " is not a valid MTU value")).

Definition checkHwAddr (hwAddr : string) : result unit :=
  match ParseMAC hwAddr with
  | Ok _ => Ok tt
  | Err e => Err (EWrap (hwAddr +:+ " is an invalid hardware address") e)
  | Panic => Panic
  end.

Definition checkIPList (ipList : list string) : result unit := for_each checkIP ipList.

(** [validTokenChars]: letters, digits, space and the listed punctuation. *)
Definition token_punctuation : list ascii :=
  chars " !#$%&'()*+,-./:;<=>?@^_`{|}~[]" ++ [quote; backslash].
Definition valid_token_char (c : ascii) : bool := is_alnum c || bool_decide (c ∈ token_punctuation).
Definition checkToken (token : string) : result unit :=
  reject_if (negb (negb (bool_decide (token = "")) && all_chars valid_token_char token))
    (EMsg "Invalid token. Must be alphanumeric and OWASP special password characters. Regexp").

Definition persistentStateDirBlackList : list string := ["/tmp"].
Definition checkPersistentStatePath (path : string) : result unit :=
  _ ← reject_if (negb (has_prefix path "/"))
        (EMsg "Invalid path. PersistentStatePath must be an absolute path");
  for_each (fun d => reject_if (bool_decide (path = d) || has_prefix path (d +:+ "/"))
                       (EMsg ("Invalid path. Parent dir of PersistentStatePath cannot be " +:+ d)))
    persistentStateDirBlackList.
Definition checkPersistentStatePaths (ps : list string) : result unit := for_each checkPersistentStatePath ps.

(** ** Networks *)

Definition checkInterface (m : Machine) (iface : NetworkInterface) : result unit :=
  iface ← FindNetworkInterfaceName (mc_interfaces m) iface;
  _ ← reject_if (bool_decide (if_Name iface = "")) (EMsg "no interface specified");
  ifaces ← mc_interfaces m;
  match list_find (fun i => ifc_Name i = if_Name iface) ifaces with
  | Some (_, i) => reject_if (ifc_Loopback i) (prettyError "interface is a loopback interface" (if_Name iface))
  | None => Err (prettyError "interface not found" (if_Name iface))
  end.

(** The case of the static method, in the order of the code. *)
Definition checkStatic (n : Network) : result unit :=
  _ ← checkStaticRequiredString "ip" (nw_IP n);
  _ ← checkIP (nw_IP n);
  _ ← checkStaticRequiredString "subnetMask" (nw_SubnetMask n);
  _ ← checkIP (nw_SubnetMask n);
  _ ← checkStaticRequiredString "gateway" (nw_Gateway n);
  _ ← checkIP (nw_Gateway n);
  checkMTU (nw_MTU n).

Definition checkNetworks (m : Machine) (n : Network) (dnsServers : list string) : result unit :=
  _ ← reject_if (bool_decide (nw_Interfaces n = [])) (EMsg "no interface specified for management network");
  let method := nw_Method n in
  _ ← reject_if (bool_decide (method <> NetworkMethodDHCP) && bool_decide (method <> NetworkMethodStatic))
        (EMsg "management network must configure with either static or DHCP method");
  _ ← reject_if (bool_decide (method = NetworkMethodStatic) && bool_decide (dnsServers = []))
        (EMsg "DNS servers are required for static IP address");
  _ ← for_each (checkInterface m) (nw_Interfaces n);
  _ ← reject_if ((nw_VlanID n <? 0) || (4094 <? nw_VlanID n)) (EMsg "VLAN ID should be a number 1 ~ 4094.");
  if bool_decide (method ∈ [NetworkMethodDHCP; NetworkMethodNone; ""]) then Ok tt
  else if bool_decide (method = NetworkMethodStatic) then checkStatic n
  else Err (prettyError "unknown network method" method).

Definition checkVip (vip vipHwAddr vipMode : string) : result unit :=
  _ ← checkIP vip;
  if bool_decide (vipMode = NetworkMethodDHCP) then checkHwAddr vipHwAddr
  else if bool_decide (vipMode ∈ [NetworkMethodStatic; NetworkMethodNone]) then Ok tt
  else Err (prettyError "unknown vip mode" vipMode).

(** ** Disks *)

Definition too_small (device : string) : error -> error := fun _ =>
  prettyError ("device size too small. At least " +:+ itoa SingleDiskMinSizeGiB +:+ "G is required") device.

(** The size checks, by role and data disk. *)
Definition checkSizes (m : Machine) (i : Install) : result unit :=
  let disk := in_Device i in
  if bool_decide (in_Role i = RoleWitness) then map_err (too_small disk) (validateDiskSize (mc_diskSize m disk) false)
  else if bool_decide (in_DataDisk i = disk) || bool_decide (in_DataDisk i = "") then
    map_err (too_small disk) (validateDiskSize (mc_diskSize m disk) true)
  else
    _ ← map_err (too_small disk) (validateDiskSize (mc_diskSize m disk) false);
    map_err (too_small (in_DataDisk i)) (validateDataDiskSize (mc_diskSize m (in_DataDisk i))).

Definition checkDevice (m : Machine) (c : HarvesterConfig) : result unit :=
  let i := hc_Install c in
  _ ← reject_if (bool_decide (in_Device i = "")) (EMsg "no device specified");
  symlink ← mc_lstat m (in_Device i);
  targetDevice ← (if (symlink : bool) then mc_evalSymlinks m (in_Device i) else Ok (in_Device i));
  cache ← mc_disks m;
  _ ← reject_if (bool_decide (targetDevice ∉ map op_Value (getAllValidDiskOptions cache)))
        (prettyError "device not found" (in_Device i));
  if in_SkipChecks i then Ok tt else checkSizes m i.

Definition checkForceMBR (m : Machine) (device : string) : result unit :=
  large ← diskExceedsMBRLimit (mc_lsblk m device);
  _ ← reject_if large (prettyError "disk size too large for MBR partitioning table" device);
  reject_if (negb (mc_isBIOS m)) (prettyError "cannot force MBR on UEFI system" "UEFI").

Definition diskChecks (m : Machine) (c : HarvesterConfig) : result unit :=
  _ ← checkDevice m c;
  if in_ForceMBR (hc_Install c) then checkForceMBR m (in_Device (hc_Install c)) else Ok tt.

(** ** The whole configuration

    [settings] and [labels] list the two maps in the order visited. *)
Section order.
Context `{RegistryJSON} (visit : gmap string string -> list (string * string)).

Definition checkSetting (kv : string * string) : result unit :=
  let '(k, v) := kv in
  _ ← reject_if (bool_decide (k = "containerd-registry") && negb (registry_ok v))
        (EMsg "could not parse containerd-registry as JSON");
  reject_if (bool_decide (k ∉ GetSystemSettingsAllowList)) (EMsg ("unknown system settings: " +:+ k)).
Definition checkSystemSettings (settings : strmap) : result unit :=
  match settings with None => Ok tt | Some s => for_each checkSetting (visit s) end.

Definition Validate (m : Machine) (c : HarvesterConfig) : result unit :=
  let i := hc_Install c in
  _ ← reject_if (negb (hc_SchemeVersion c =? SchemeVersion))
        (EMsg ("Unsupported Harvester Scheme Version " +:+ itoa (hc_SchemeVersion c)));
  _ ← reject_if (negb (IsDNS1123Subdomain (os_Hostname (hc_OS c)))) (EMsg "invalid hostname");
  _ ← diskChecks m c;
  _ ← (if bool_decide (in_Mode i <> ModeInstall) then
         _ ← reject_if (bool_decide (nw_Interfaces (in_ManagementInterface i) = []))
               (EMsg "networks is deprecated, please use management_interface");
         _ ← checkNetworks m (in_ManagementInterface i) (os_DNSNameservers (hc_OS c));
         checkToken (hc_Token c)
       else Ok tt);
  _ ← (if bool_decide (in_Mode i = ModeCreate) then
         _ ← checkVip (in_Vip i) (in_VipHwAddr i) (in_VipMode i);
         checkSystemSettings (hc_SystemSettings c)
       else Ok tt);
  _ ← GetKubeletArgs (visit (default ∅ (os_Labels (hc_OS c)))) (in_Role i);
  Ok tt.

Definition commonCheck (m : Machine) (c : HarvesterConfig) : result unit :=
  let i := hc_Install c in
  let mode := in_Mode i in
  if bool_decide (mode ∈ [ModeUpgrade; ModeInstall]) then Ok tt
  else
    _ ← (if bool_decide (mode = ModeCreate) then
           reject_if (bool_decide (hc_ServerURL c <> "")) (EMsg "ServerURL need to be empty in create mode")
         else if bool_decide (mode = ModeJoin) then
           reject_if (bool_decide (hc_ServerURL c = "")) (EMsg "ServerURL can't empty in join mode")
         else Err (prettyError "unknown mode" mode));
    _ ← reject_if (negb (mc_alreadyInstalled m) && bool_decide (mode <> ModeInstall) && in_Automatic i &&
                   bool_decide (in_ISOURL i = "")) (EMsg "iso_url is required in automatic installation");
    _ ← reject_if (bool_decide (mode <> ModeInstall) && bool_decide (hc_Token c = "")) (EMsg "token not specified");
    _ ← reject_if (bool_decide (os_SSHAuthorizedKeys (hc_OS c) = []) && bool_decide (os_Password (hc_OS c) = ""))
          (EMsg "no SSH authorized keys or passwords are set");
    checkPersistentStatePaths (os_PersistentStatePaths (hc_OS c)).

Definition validateConfig (m : Machine) (c : HarvesterConfig) : result unit :=
  _ ← commonCheck m c; Validate m c.
End order.

(** ** Lemmas *)

Lemma unit_bind_ok {B} (m : result unit) (f : unit -> result B) b :
  m ≫= f = Ok b <-> m = Ok tt /\ f tt = Ok b.
Proof. rewrite bind_ok. split; [intros ([] & ? & ?)|intros [? ?]; exists tt]; done. Qed.

Definition ipv4 (a : string) : Prop := is_Some (To4 (ParseIP a)).

Lemma checkIP_ok a : checkIP a = Ok tt <-> ipv4 a.
Proof.
  unfold checkIP, ipv4. rewrite reject_if_ok, orb_false_iff, !bool_decide_eq_false.
  destruct (ParseIP a) as [b|]; [|naive_solver]. destruct (To4 (Some b)); naive_solver.
Qed.

Lemma slen_zero s : bool_decide (slen s = 0) = false <-> s <> "".
Proof. rewrite bool_decide_eq_false. unfold slen. destruct s; simpl; split; (done || lia). Qed.

Lemma checkStatic_ok n :
  checkStatic n = Ok tt <->
  ipv4 (nw_IP n) /\ ipv4 (nw_SubnetMask n) /\ ipv4 (nw_Gateway n) /\ (nw_MTU n = 0 \/ 576 <= nw_MTU n <= 9000).
Proof.
  unfold checkStatic, checkStaticRequiredString, checkMTU.
  rewrite !unit_bind_ok, !reject_if_ok, !checkIP_ok, !slen_zero.
  assert (Hne : forall a, ipv4 a -> a <> "") by (intros a [x Hx] ->; by vm_compute in Hx).
  assert (Hmtu : (if nw_MTU n =? 0 then Ok tt else reject_if ((nw_MTU n <? 576) || (9000 <? nw_MTU n))
      (EMsg (itoa (nw_MTU n) +:+ " is not a valid MTU value"))) = Ok tt <-> (nw_MTU n = 0 \/ 576 <= nw_MTU n <= 9000)).
  { destruct (Z.eqb_spec (nw_MTU n) 0); [naive_solver|]. rewrite reject_if_ok, orb_false_iff, !Z.ltb_ge. lia. }
  rewrite Hmtu. split; [tauto|]. intros (H1 & H2 & H3 & H4). split_and!; auto.
Qed.

(** ** Declarative validity *)

(** An interface that exists and is not the loopback, referred to by name or by
    address. *)
Definition valid_interface (m : Machine) (iface : NetworkInterface) : Prop :=
  exists l n i, mc_interfaces m = Ok l /\ FindNetworkInterfaceName (mc_interfaces m) iface = Ok n /\ if_Name n <> "" /\
    i ∈ l /\ ifc_Name i = if_Name n.

Definition valid_network (m : Machine) (n : Network) (dns : list string) : Prop :=
  nw_Interfaces n <> [] /\ Forall (fun i => checkInterface m i = Ok tt) (nw_Interfaces n) /\ 0 <= nw_VlanID n <= 4094 /\
  (nw_Method n = NetworkMethodDHCP \/
   (nw_Method n = NetworkMethodStatic /\ dns <> [] /\ ipv4 (nw_IP n) /\ ipv4 (nw_SubnetMask n) /\ ipv4 (nw_Gateway n) /\
    (nw_MTU n = 0 \/ 576 <= nw_MTU n <= 9000))).

Lemma checkInterface_ok m iface : checkInterface m iface = Ok tt -> valid_interface m iface.
Proof.
  intros (n & Hn & H)%bind_ok. apply unit_bind_ok in H as [Hne H]. apply reject_if_ok, bool_decide_eq_false in Hne.
  apply bind_ok in H as (l & Hl & H). destruct (list_find _ l) as [[k i]|] eqn:Hf; [|done].
  apply list_find_Some_elem in Hf as [Hin Hname]. by exists l, n, i.
Qed.

Lemma checkNetworks_ok m n dns : checkNetworks m n dns = Ok tt <-> valid_network m n dns.
Proof.
  unfold checkNetworks, valid_network. cbv zeta. rewrite !unit_bind_ok, !reject_if_ok, for_each_ok.
  rewrite !andb_false_iff, orb_false_iff, !bool_decide_eq_false, !Z.ltb_ge.
  destruct (decide (nw_Method n = NetworkMethodDHCP)) as [Hd|Hd].
  { rewrite Hd. rewrite (bool_decide_true (NetworkMethodDHCP ∈ _)) by by left.
    assert (NetworkMethodDHCP <> NetworkMethodStatic) by done. tauto. }
  destruct (decide (nw_Method n = NetworkMethodStatic)) as [Hs|Hs].
  { rewrite Hs. rewrite (bool_decide_false (NetworkMethodStatic ∈ _)) by (rewrite !elem_of_cons, elem_of_nil; naive_solver).
    rewrite bool_decide_true by done. rewrite checkStatic_ok. 
    assert (NetworkMethodStatic <> NetworkMethodDHCP) by done. tauto. }
  tauto.
Qed.

(** ** Properties *)

(** [checkNetworks] accepts exactly the valid management networks: at least
    one interface, each present and not the loopback, a VLAN identifier of 0 to
    4094, and either DHCP, or a static address with IPv4 address, mask and
    gateway, at least one DNS server and an MTU of 0 or 576 to 9000. *)
Theorem checkNetworks_valid m n dns :
  (checkNetworks m n dns = Ok tt <-> valid_network m n dns) /\
  (checkNetworks m n dns = Ok tt -> checkMethod n = Ok tt).
Proof.
  split; [apply checkNetworks_ok|]. intros (Hi & _ & _ & Hm)%checkNetworks_ok. unfold checkMethod.
  rewrite unit_bind_ok, !reject_if_ok. rewrite bool_decide_false by done. split; [done|].
  apply negb_false_iff, bool_decide_eq_true. rewrite !elem_of_cons. naive_solver.
Qed.

Definition demo_machine : Machine :=
  mkMachine (Ok [mkIface "lo" [] true; mkIface "ens3" [1;2;3;4;5;6] false; mkIface "ens4" [1;2;3;4;5;7] false])
    (fun _ => Ok false) Ok (Ok (mkCache [mkOption "/dev/sda" "sda 500G"] []))
    (fun _ => Ok (500 * 2 ^ 30)) (fun _ => Ok "536870912000") true false.

Lemma checkNetworks_valid_witness : checkMethod demo_net = Ok tt.
Proof. apply (proj2 (checkNetworks_valid demo_machine demo_net ["1.1.1.1"])). vm_refl. Defined.

(** The subnet mask is only checked to be an address: a mask that is not a
    run of ones followed by zeros passes the validation, and the profile is
    then written with a prefix length of 0, which makes every address local. *)
Theorem invalid_mask_accepted m n dns :
  valid_network m n dns -> nw_Method n = NetworkMethodStatic ->
  let n' := set_nw_SubnetMask "255.0.255.0" n in
  checkNetworks m n' dns = Ok tt /\ maskToCIDR (nw_SubnetMask n') = "0".
Proof.
  intros (Hi & Hf & Hv & [Hd|(Hs & Hdns & Hip & Hmask & Hgw & Hmtu)]) Hstatic; [by rewrite Hd in Hstatic|].
  split; [|vm_refl]. apply checkNetworks_ok. split; [done|]. split; [done|]. split; [done|]. right.
  assert (Hm : ipv4 "255.0.255.0") by (exists [255; 0; 255; 0]; vm_refl).
  exact (conj Hs (conj Hdns (conj Hip (conj Hm (conj Hgw Hmtu))))).
Qed.

Lemma invalid_mask_accepted_witness :
  checkNetworks demo_machine (set_nw_SubnetMask "255.0.255.0" demo_net) ["1.1.1.1"] = Ok tt.
Proof.
  assert (H : valid_network demo_machine demo_net ["1.1.1.1"]) by (apply checkNetworks_ok; vm_refl).
  exact (proj1 (invalid_mask_accepted demo_machine demo_net ["1.1.1.1"] H eq_refl)).
Defined.

Lemma valid_token_char_printable c : valid_token_char c = (32 <=? ord c) && (ord c <=? 126).
Proof. destruct c as [[] [] [] [] [] [] [] []]; vm_refl. Qed.

(** The token check accepts exactly the non-empty strings of printable ASCII
    characters (codes 32 to 126). *)
Theorem checkToken_printable t :
  checkToken t = Ok tt <-> t <> "" /\ Forall (fun c => 32 <= ord c <= 126) (chars t).
Proof.
  unfold checkToken. rewrite reject_if_ok, negb_false_iff, andb_true_iff, negb_true_iff, bool_decide_eq_false.
  enough (all_chars valid_token_char t = true <-> Forall (fun c => 32 <= ord c <= 126) (chars t)) as -> by done.
  induction t as [|c t IH]; [done|]. cbn [all_chars]. rewrite andb_true_iff, IH, valid_token_char_printable.
  change (chars (String c t)) with (c :: chars t). rewrite Forall_cons, andb_true_iff, !Z.leb_le. done.
Qed.

Lemma checkPersistentStatePath_ok p :
  checkPersistentStatePath p = Ok tt <-> has_prefix p "/" = true /\ p <> "/tmp" /\ has_prefix p "/tmp/" = false.
Proof.
  unfold checkPersistentStatePath, persistentStateDirBlackList. rewrite unit_bind_ok, reject_if_ok, negb_false_iff.
  cbn [for_each]. rewrite unit_bind_ok, reject_if_ok, orb_false_iff, bool_decide_eq_false.
  change ("/tmp" +:+ "/") with "/tmp/". naive_solver.
Qed.

Lemma checkDevice_ok m c :
  checkDevice m c = Ok tt ->
  exists cache target, mc_disks m = Ok cache /\ target ∈ map op_Value (getAllValidDiskOptions cache) /\
     (target = in_Device (hc_Install c) \/ mc_evalSymlinks m (in_Device (hc_Install c)) = Ok target) /\
     (in_SkipChecks (hc_Install c) = false -> checkSizes m (hc_Install c) = Ok tt).
Proof.
  intros [_ H]%unit_bind_ok. apply bind_ok in H as (sym & _ & H). apply bind_ok in H as (target & Ht & H).
  apply bind_ok in H as (cache & Hc & H). apply unit_bind_ok in H as [Hin H].
  apply reject_if_ok, bool_decide_eq_false in Hin. exists cache, target. split; [done|].
  split; [by apply dec_stable|]. split; [destruct sym; [by right|injection Ht as <-; by left]|].
  intros Hs. by rewrite Hs in H.
Qed.

Definition disks_suffice (m : Machine) (i : Install) : Prop :=
  exists d, mc_diskSize m (in_Device i) = Ok d /\
    (if bool_decide (in_Role i = RoleWitness) then 180 <= ByteToGi d
     else if bool_decide (in_DataDisk i = in_Device i) || bool_decide (in_DataDisk i = "") then 250 <= ByteToGi d
     else 180 <= ByteToGi d /\ exists dd, mc_diskSize m (in_DataDisk i) = Ok dd /\ 50 <= ByteToGi dd).

(** On the disk sizes: without skipped checks an accepted device gives the
    installer at least 250 GiB when it is the only disk, else at least 180 GiB
    and a data disk of at least 50 GiB; a witness needs 180 GiB. *)
Theorem checkDevice_sizes m c :
  checkDevice m c = Ok tt -> in_SkipChecks (hc_Install c) = false ->
  disks_suffice m (hc_Install c).
Proof.
  intros (_ & _ & _ & _ & _ & Hsize)%checkDevice_ok Hskip. specialize (Hsize Hskip). unfold disks_suffice.
  assert (Hv : forall r single, validateDiskSize r single = Ok tt ->
    exists d, r = Ok d /\ (if single then 250 else 180) <= ByteToGi d).
  { intros r single (d & -> & H)%bind_ok. exists d. split; [done|]. apply reject_if_ok, Z.ltb_ge in H.
    unfold SingleDiskMinSizeGiB, MultipleDiskMinSizeGiB in H. by destruct single. }
  unfold checkSizes in Hsize. repeat case_bool_decide; simpl in *;
    try (apply map_err_ok, Hv in Hsize; exact Hsize).
  apply unit_bind_ok in Hsize as [Ha Hb]. apply map_err_ok, Hv in Ha as (d & Hd & Hle).
  apply map_err_ok, bind_ok in Hb as (dd & Hdd & Hb). apply reject_if_ok, Z.ltb_ge in Hb.
  exists d. split_and!; [done|done|]. by exists dd.
Qed.

(** What an accepted configuration guarantees to the installation. *)
Definition installable (m : Machine) (c : HarvesterConfig) : Prop :=
  let i := hc_Install c in
  hc_SchemeVersion c = SchemeVersion /\ IsDNS1123Subdomain (os_Hostname (hc_OS c)) = true /\
  in_Mode i ∈ [ModeCreate; ModeJoin; ModeUpgrade; ModeInstall] /\
  (in_Mode i = ModeCreate -> hc_ServerURL c = "" /\ ipv4 (in_Vip i)) /\
  (in_Mode i = ModeJoin -> hc_ServerURL c <> "") /\
  (in_Mode i ∈ [ModeCreate; ModeJoin] ->
     (os_SSHAuthorizedKeys (hc_OS c) <> [] \/ os_Password (hc_OS c) <> "") /\
     (in_Automatic i = true -> mc_alreadyInstalled m = false -> in_ISOURL i <> "") /\
     Forall (fun p => has_prefix p "/" = true /\ p <> "/tmp" /\ has_prefix p "/tmp/" = false)
       (os_PersistentStatePaths (hc_OS c))) /\
  (in_Mode i <> ModeInstall -> valid_network m (in_ManagementInterface i) (os_DNSNameservers (hc_OS c)) /\
     checkToken (hc_Token c) = Ok tt) /\
  (exists cache target, mc_disks m = Ok cache /\ target ∈ map op_Value (getAllValidDiskOptions cache) /\
     (target = in_Device i \/ mc_evalSymlinks m (in_Device i) = Ok target)) /\
  (in_SkipChecks i = false -> disks_suffice m i) /\
  (in_ForceMBR i = true -> mc_isBIOS m = true).

(** C7: An accepted configuration is installable, mode by mode: the mode is one
    of the four, the host name a DNS name, the target among the detected disks,
    the disks large enough for the role unless the checks are skipped, and no
    MBR forced on a UEFI machine; unless only the image is installed, the
    management network is valid and the token printable; to create a cluster
    there is no server URL and the VIP is an IPv4 address; to join one there is
    a server URL; and to create or join one there is a password or an SSH key,
    an ISO for an automatic installation of a machine that is not installed
    yet, and every persistent path is absolute and not under /tmp.  (In the
    other two modes neither the server URL nor the credentials are looked
    at.) *)
Theorem validateConfig_sound `{RegistryJSON} visit m c :
  validateConfig visit m c = Ok tt -> installable m c.
Proof.
  intros [Hcommon Hv]%unit_bind_ok. unfold Validate in Hv. cbv zeta in Hv.
  apply unit_bind_ok in Hv as [Hsv Hv]. apply reject_if_ok, negb_false_iff, Z.eqb_eq in Hsv.
  apply unit_bind_ok in Hv as [Hhost Hv]. apply reject_if_ok, negb_false_iff in Hhost.
  apply unit_bind_ok in Hv as [Hdisk Hv].
  apply unit_bind_ok in Hv as [Hnet Hv]. apply unit_bind_ok in Hv as [Hvip _].
  apply unit_bind_ok in Hdisk as [Hdev Hmbr]. pose proof (checkDevice_sizes m c Hdev) as Hsizes.
  apply checkDevice_ok in Hdev as (cache & target & Hc & Hin & Ht & _).
  unfold commonCheck in Hcommon. cbv zeta in Hcommon. unfold installable. cbv zeta.
  assert (Hmode : in_Mode (hc_Install c) ∈ [ModeUpgrade; ModeInstall] \/
    ((in_Mode (hc_Install c) = ModeCreate /\ hc_ServerURL c = "" \/ in_Mode (hc_Install c) = ModeJoin /\ hc_ServerURL c <> "") /\
     (os_SSHAuthorizedKeys (hc_OS c) <> [] \/ os_Password (hc_OS c) <> "") /\
     (in_Automatic (hc_Install c) = true -> mc_alreadyInstalled m = false -> in_ISOURL (hc_Install c) <> "") /\
     Forall (fun p => checkPersistentStatePath p = Ok tt) (os_PersistentStatePaths (hc_OS c)))).
  { destruct (decide (in_Mode (hc_Install c) ∈ [ModeUpgrade; ModeInstall])) as [Hm|Hm]; [by left|right].
    rewrite bool_decide_false in Hcommon by done.
    apply unit_bind_ok in Hcommon as [Hurl Hcommon]. apply unit_bind_ok in Hcommon as [Hiso Hcommon].
    apply unit_bind_ok in Hcommon as [_ Hcommon].
    apply unit_bind_ok in Hcommon as [Hcred Hpaths]. apply reject_if_ok in Hcred.
    split; [|split; [|split]].
    - destruct (bool_decide (in_Mode (hc_Install c) = ModeCreate)) eqn:Hmc.
      + apply bool_decide_eq_true in Hmc. apply reject_if_ok, bool_decide_eq_false in Hurl. left.
        split; [done|by apply dec_stable].
      + destruct (bool_decide (in_Mode (hc_Install c) = ModeJoin)) eqn:Hmj; [|discriminate Hurl].
        apply bool_decide_eq_true in Hmj. apply reject_if_ok, bool_decide_eq_false in Hurl. by right.
    - rewrite andb_false_iff, !bool_decide_eq_false in Hcred. done.
    - intros Hau Hal Hno. apply reject_if_ok in Hiso.
      rewrite Hau, Hal, (bool_decide_true (in_ISOURL _ = _)), (bool_decide_true (_ <> _)) in Hiso; [done| |done].
      intros Heq. apply Hm. rewrite Heq. right. by left.
    - by apply for_each_ok in Hpaths. }
  assert (Hpaths : forall l, Forall (fun p => checkPersistentStatePath p = Ok tt) l ->
    Forall (fun p => has_prefix p "/" = true /\ p <> "/tmp" /\ has_prefix p "/tmp/" = false) l).
  { intros l Hl. eapply Forall_impl; [exact Hl|]. intros p. apply checkPersistentStatePath_ok. }
  assert (Hupg : forall x, in_Mode (hc_Install c) ∈ [ModeUpgrade; ModeInstall] -> x ∈ [ModeCreate; ModeJoin] ->
    in_Mode (hc_Install c) = x -> False).
  { intros x H1 H2 Heq. rewrite Heq in H1. rewrite !elem_of_cons, elem_of_nil in H1, H2.
    destruct H2 as [->|[->|[]]], H1 as [?|[?|[]]]; discriminate. }
  split_and!; [exact Hsv|exact Hhost|..].
  - rewrite !elem_of_cons. destruct Hmode as [Hm|([[Hm _]|[Hm _]] & _)]; [rewrite !elem_of_cons, elem_of_nil in Hm; tauto|tauto..].
  - intros Hm. rewrite bool_decide_true in Hvip by done. apply unit_bind_ok in Hvip as [Hvip _].
    apply unit_bind_ok in Hvip as [Hvip _]. apply checkIP_ok in Hvip. split; [|done].
    destruct Hmode as [Hmode|([[_ ?]|[Hj _]] & _)]; [|done|by rewrite Hm in Hj].
    exfalso. apply (Hupg ModeCreate Hmode); [by left|done].
  - intros Hm. destruct Hmode as [Hmode|([[Hj _]|[_ ?]] & _)]; [|by rewrite Hm in Hj|done].
    exfalso. apply (Hupg ModeJoin Hmode); [right; by left|done].
  - intros Hm. destruct Hmode as [Hmode|(_ & ? & ? & ?)]; [|by auto].
    exfalso. by apply (Hupg (in_Mode (hc_Install c)) Hmode).
  - intros Hm. rewrite bool_decide_true in Hnet by done. apply unit_bind_ok in Hnet as [_ Hnet].
    apply unit_bind_ok in Hnet as [Hnet Htok]. split; [by apply checkNetworks_ok|done].
  - by exists cache, target.
  - exact Hsizes.
  - intros Hf. rewrite Hf in Hmbr. apply bind_ok in Hmbr as (large & _ & Hmbr).
    apply unit_bind_ok in Hmbr as [_ Hmbr]. by apply reject_if_ok, negb_false_iff in Hmbr.
Qed.

Definition demo_valid : HarvesterConfig :=
  set_hc_SchemeVersion 1 (set_hc_OS (set_os_Hostname "node1" (set_os_Password "x" (set_os_DNSNameservers ["1.1.1.1"] zero_OS)))
    (set_hc_Install (mkInstall false false "create" demo_net "10.0.0.9" "" "static" "" "" "" false "/dev/sda" ""
      false "" false false false "" false "" false false [] false "" [] None zero_HarvesterChartValues "" "")
      (set_hc_Token "t" zero_HarvesterConfig))).
Lemma validateConfig_sound_witness : installable demo_machine demo_valid.
Proof. apply (@validateConfig_sound (fun _ => true) map_to_list). vm_refl. Defined.

Lemma checkDevice_sizes_witness : exists d, mc_diskSize demo_machine "/dev/sda" = Ok d /\ 250 <= ByteToGi d.
Proof. exact (checkDevice_sizes demo_machine demo_valid ltac:(vm_refl) eq_refl). Defined.
