(* ===== verification/Webhooks.v ===== *)
(** * Webhooks: rendering and delivering the installation webhooks
      ([pkg/console/webhooks.go])

    The template engine and the HTTP stack are the class [Http]: it renders a
    template in a context, decides whether a request can be built and what
    comes back for it.  The answer may depend on everything sent and waited
    for before, which is the log that the delivery functions thread. *)
From Stdlib Require Import ZArith Lia Ascii String.
From stdpp Require Import base tactics list gmap strings.
From S2P Require Import Prelude GoStrings GoNet Config.
Local Open Scope Z_scope.

(** ** Slices of strings ([pkg/util/common.go]) *)

Fixpoint StringSliceContains (sSlice : list string) (s : string) : bool :=
  match sSlice with
  | [] => false
  | target :: l => if bool_decide (target = s) then true else StringSliceContains l s
  end.
(** [copy] into a fresh slice: the same elements. *)
Definition DupStrings (src : list string) : list string := src.

Lemma StringSliceContains_spec l s : StringSliceContains l s = true <-> s ∈ l.
Proof.
  induction l as [|t l IH]; simpl; [split; [done|by intros ?%not_elem_of_nil]|].
  rewrite elem_of_cons. case_bool_decide; naive_solver.
Qed.

(** ** Rendered hooks *)

Definition WebhookMaxRetries : nat := 3.
Definition EventInstallStarted : string := "STARTED".
Definition EventInstallSuceeded : string := "SUCCEEDED".
Definition EventInstallFailed : string := "FAILED".

Definition IsValidEvent (event : string) : bool :=
  StringSliceContains [EventInstallStarted; EventInstallSuceeded; EventInstallFailed] event.
Definition IsValidHTTPMethod (method : string) : bool :=
  StringSliceContains ["GET"; "HEAD"; "POST"; "PUT"; "PATCH"; "DELETE"; "CONNECT"; "OPTIONS"; "TRACE"] method.

Record RenderedWebhook : Set := mkRendered {
  rw_Webhook : Webhook;
  rw_RenderedURL : string;
  rw_RenderedPayload : string;
  rw_Valid : bool
}.

(** ** Requests *)

Record request : Set := mkRequest {
  rq_method : string;
  rq_url : string;
  rq_body : option string;
  rq_auth : option (string * string);
  rq_insecure : bool;
  rq_headers : list (string * string)     (* in the order added *)
}.

Inductive response : Set :=
| Status (code : Z)
| Failed (e : error) (timeout : bool).    (* a *url.Error and its Timeout() *)

Inductive hook_event : Set :=
| Sent (r : request)
| Slept (seconds : Z).
Definition hook_log : Set := list hook_event.

#[export] Instance request_eq_dec : EqDecision request.
Proof. solve_decision. Defined.
#[export] Instance hook_event_eq_dec : EqDecision hook_event.
Proof. solve_decision. Defined.

Class Http := {
  template_execute : string -> string -> gmap string string -> result string;  (* name, text, context *)
  new_request : string -> string -> option error;                              (* method, url *)
  serve : hook_log -> request -> response;
  visit_headers : gmap string (list string) -> list (string * list string)     (* range over a map *)
}.

(** ** [http.Header.Add]: the canonical spelling of a header name *)
Definition token_char (c : ascii) : bool :=
  is_alnum c || bool_decide (c ∈ chars "!#$%&'*+-.^_`|~").
Fixpoint canonical_go (up : bool) (s : string) : string :=
  match s with
  | "" => ""
  | String c s' => String (if up then upper_char c else lower_char c) (canonical_go (bool_decide (c = "-"%char)) s')
  end.
Definition CanonicalHeaderKey (s : string) : string :=
  if all_chars token_char s then canonical_go true s else s.

Section http.
Context `{Http}.

(** *** One delivery *)

Definition headers_of (h : option (gmap string (list string))) : list (string * string) :=
  flat_map (fun kv => map (fun v => (CanonicalHeaderKey (fst kv), v)) (snd kv)) (visit_headers (default ∅ h)).

(** The request [doHTTPReq] builds. *)
Definition hook_request (p : RenderedWebhook) : request :=
  let h := rw_Webhook p in
  let auth := wh_BasicAuth h in
  mkRequest (wh_Method h) (rw_RenderedURL p)
    (if bool_decide (rw_RenderedPayload p = "") then None else Some (rw_RenderedPayload p))
    (if bool_decide (ba_User auth = "") || bool_decide (ba_Password auth = "") then None
     else Some (ba_User auth, ba_Password auth))
    (wh_Insecure h) (headers_of (wh_Headers h)).

Definition status_error (code : Z) (url : string) : error :=
  EMsg ("got " +:+ itoa code +:+ " status code from " +:+ url).

(** What the answer to a request means for [doHTTPReq]. *)
Definition outcome (r : request) (a : response) : result unit :=
  match a with
  | Failed e _ => Err e
  | Status code => if (code <? 200) || (400 <=? code) then Err (status_error code (rq_url r)) else Ok tt
  end.

(** The loop of [Handle] with [n] more rounds; [retryErr] is the last
    timeout. *)
Fixpoint retry (n : nat) (retryErr : result unit) (r : request) (log : hook_log) : result unit * hook_log :=
  match n with
  | O => (retryErr, log)
  | S n' =>
      let a := serve log r in
      match a with
      | Failed e true => retry n' (Err e) r (log ++ [Sent r; Slept 5])
      | _ => (outcome r a, log ++ [Sent r])
      end
  end.

Definition Handle (p : RenderedWebhook) (log : hook_log) : result unit * hook_log :=
  match new_request (wh_Method (rw_Webhook p)) (rw_RenderedURL p) with
  | Some e => (Err e, log)
  | None => retry (S WebhookMaxRetries) (Ok tt) (hook_request p) log
  end.

(** *** Preparation *)

Definition dupHeaders (h : option (gmap string (list string))) : option (gmap string (list string)) :=
  match h with None => None | Some m => Some (DupStrings <$> m) end.

Definition prepareWebhook (h : Webhook) (context : gmap string string) : result RenderedWebhook :=
  let w := mkWebhook (wh_Event h) (to_upper (wh_Method h)) (dupHeaders (wh_Headers h)) (wh_URL h)
             (wh_Payload h) (wh_Insecure h)
             (mkBasicAuth (ba_User (wh_BasicAuth h)) (ba_Password (wh_BasicAuth h))) in
  _ ← reject_if (negb (IsValidEvent (wh_Event w))) (EMsg ("unknown install event: " +:+ wh_Event w));
  _ ← reject_if (negb (IsValidHTTPMethod (wh_Method w))) (EMsg ("unknown HTTP method: " +:+ wh_Method w));
  url ← template_execute "URL" (wh_URL w) context;
  payload ← template_execute "Payload" (wh_Payload w) context;
  Ok (mkRendered w url payload false).

(** The text of the error holds the hook and the cause. *)
Definition PrepareWebhooks (hooks : list Webhook) (context : gmap string string) : result (list RenderedWebhook) :=
  map_each (fun h =>
    p ← map_err (EWrap "fail to prepare webhook") (prepareWebhook h context);
    Ok (mkRendered (rw_Webhook p) (rw_RenderedURL p) (rw_RenderedPayload p) true)) hooks.

(** *** All the hooks of an event ([RendererWebhooks.Handle]) *)

Fixpoint Handle_all (hooks : list RenderedWebhook) (event : string) (log : hook_log) : hook_log :=
  match hooks with
  | [] => log
  | h :: hooks' =>
      if bool_decide (event <> wh_Event (rw_Webhook h)) then Handle_all hooks' event log
      else
        let '(r, log') := Handle h log in
        match r with
        | Ok _ => Handle_all hooks' event log'
        | _ => log'
        end
  end.
End http.

(** ** The context of the templates *)

(** The addresses of an interface, as byte sequences. *)
Record net_iface : Set := mkNetIface { ni_mac : list Z; ni_addrs : result (list ip) }.

Definition ip_addr_string (v6 : bool) (a : ip) : option string :=
  if bool_decide (length a = 16%nat) then
    match To4 (Some a) with
    | Some r => if v6 then None else Some (dotted r)
    | None => if v6 then Some (v6_string a) else None
    end
  else None.
Definition getIPAddr (iface : net_iface) (v6 : bool) : string :=
  match ni_addrs iface with
  | Ok addrs => default "" (head (omap (ip_addr_string v6) addrs))
  | _ => ""
  end.

Definition getWebhookContext (byName : string -> option net_iface) (cfg : HarvesterConfig) : gmap string string :=
  let m : gmap string string := {[ "Hostname" := os_Hostname (hc_OS cfg) ]} in
  match byName MgmtInterfaceName with
  | Some iface =>
      <["IPAddrV6" := getIPAddr iface true]>
        (<["IPAddrV4" := getIPAddr iface false]> (<["MACAddr" := mac_string (ni_mac iface)]> m))
  | None => m
  end.

(** ** The retry loop *)

(** [k] attempts that timed out, each followed by the pause. *)
Definition timeouts (k : nat) (r : request) : hook_log := concat (replicate k [Sent r; Slept 5]).

Definition timed_out (a : response) : bool := match a with Failed _ t => t | Status _ => false end.

Lemma timeouts_S k r : timeouts (S k) r = [Sent r; Slept 5] ++ timeouts k r.
Proof. done. Qed.

Lemma retry_spec `{Http} n e r log :
  exists k, (k <= n)%nat /\
    (forall i, (i < k)%nat -> timed_out (serve (log ++ timeouts i r) r) = true) /\
    ((k = n /\ snd (retry n e r log) = log ++ timeouts n r /\
      (n <> 0%nat -> exists err, serve (log ++ timeouts (pred n) r) r = Failed err true /\ fst (retry n e r log) = Err err)) \/
     ((k < n)%nat /\ timed_out (serve (log ++ timeouts k r) r) = false /\
      retry n e r log = (outcome r (serve (log ++ timeouts k r) r), log ++ timeouts k r ++ [Sent r]))).
Proof.
  revert e log. induction n as [|n IH]; intros e log.
  { exists 0%nat. split_and!; [lia|lia|]. left. by rewrite app_nil_r. }
  assert (Hlog : forall k, (log ++ [Sent r; Slept 5]) ++ timeouts k r = log ++ timeouts (S k) r).
  { intros k. by rewrite timeouts_S, <- app_assoc. }
  destruct (timed_out (serve log r)) eqn:Et.
  - cbn [retry]. destruct (serve log r) as [code|err t] eqn:Es; [done|]. cbn in Et. subst t.
    destruct (IH (Err err) (log ++ [Sent r; Slept 5])) as (k & Hk & Hbefore & Hend).
    exists (S k). split; [lia|]. split.
    { intros [|i] Hi; [by rewrite app_nil_r, Es|]. rewrite <- Hlog. apply Hbefore. lia. }
    destruct Hend as [(-> & Hl & He)|(Hlt & Hf & Hr)].
    + left. split; [done|]. rewrite Hl, Hlog. split; [done|]. intros _.
      destruct n as [|n]; [exists err; by rewrite app_nil_r|].
      destruct He as (err' & Hs & Hr); [done|]. exists err'. split; [|done].
      rewrite Hlog in Hs. done.
    + right. split; [lia|]. rewrite <- Hlog. split; [done|]. rewrite Hr. f_equal.
      rewrite !timeouts_S, <- !app_assoc. done.
  - exists 0%nat. split; [lia|]. split; [lia|]. right. cbn [timeouts replicate concat]. rewrite app_nil_r.
    split; [lia|]. split; [done|]. cbn [retry]. destruct (serve log r) as [code|err []]; done.
Qed.

(** C39: A hook is tried at most four times: every attempt before the last timed
    out and was followed by a five-second pause; when an attempt ends without a
    timeout its answer is the result (success exactly for the codes 200 to
    399), and after four timeouts the last timeout is. *)
Theorem Handle_retries `{Http} p log :
  new_request (wh_Method (rw_Webhook p)) (rw_RenderedURL p) = None ->
  let r := hook_request p in
  exists k, (k <= 4)%nat /\
    (forall i, (i < k)%nat -> timed_out (serve (log ++ timeouts i r) r) = true) /\
    ((k = 4%nat /\ exists err, serve (log ++ timeouts 3 r) r = Failed err true /\
      Handle p log = (Err err, log ++ timeouts 4 r)) \/
     ((k < 4)%nat /\ timed_out (serve (log ++ timeouts k r) r) = false /\
      Handle p log = (outcome r (serve (log ++ timeouts k r) r), log ++ timeouts k r ++ [Sent r]))).
Proof.
  intros Hn r. unfold Handle. rewrite Hn. fold r.
  destruct (retry_spec 4 (Ok tt) r log) as (k & Hk & Hb & Hend). exists k. split_and!; [done|done|].
  destruct Hend as [(-> & Hl & He)|Hend]; [left|by right].
  split; [done|]. destruct He as (err & Hs & Hr); [done|]. exists err. split; [done|].
  change (S WebhookMaxRetries) with 4%nat. by rewrite (surjective_pairing (retry _ _ _ _)), Hl, Hr.
Qed.

(** ** The hooks of an event *)

(** The hooks of an event, in order, up to and including the first that fails. *)
Lemma Handle_all_spec `{Http} hooks event log :
  exists run left_out,
    filter (fun h => wh_Event (rw_Webhook h) = event) hooks = run ++ left_out /\
    Handle_all hooks event log = foldl (fun l h => snd (Handle h l)) log run /\
    (left_out <> [] -> exists run' h, run = run' ++ [h] /\
       is_ok (fst (Handle h (foldl (fun l h => snd (Handle h l)) log run'))) = false).
Proof.
  revert log. induction hooks as [|h hooks IH]; intros log; cbn [Handle_all].
  { by exists [], []. }
  rewrite filter_cons. case_bool_decide as He.
  { rewrite decide_False by congruence. apply IH. }
  rewrite decide_True by done.
  destruct (Handle h log) as [r log'] eqn:Eh.
  destruct (is_ok r) eqn:Er.
  - destruct r; [|done..]. destruct (IH log') as (run & left_out & Hf & Hall & Hl).
    exists (h :: run), left_out. rewrite Hf. split; [done|]. split.
    { simpl. by rewrite Eh. }
    intros Hne. destruct (Hl Hne) as (run' & h' & -> & Hbad). exists (h :: run'), h'. split; [done|].
    simpl. by rewrite Eh.
  - exists [h], (filter (fun h => wh_Event (rw_Webhook h) = event) hooks). split; [done|]. split.
    { simpl. rewrite Eh. by destruct r. }
    intros _. exists [], h. split; [done|]. simpl. by rewrite Eh.
Qed.

(** What is sent by a hook is its own request. *)
Lemma Handle_sent `{Http} p log : exists k, snd (Handle p log) = log ++ k /\ forall r, Sent r ∈ k -> r = hook_request p.
Proof.
  unfold Handle. destruct (new_request _ _).
  { exists []. rewrite app_nil_r. split; [done|]. by intros r ?%not_elem_of_nil. }
  assert (Hto : forall n r, Sent r ∈ timeouts n (hook_request p) -> r = hook_request p).
  { induction n as [|n IH]; intros r; [by intros ?%not_elem_of_nil|].
    rewrite timeouts_S. intros [Hin|Hin]%elem_of_app; [|by apply IH].
    rewrite !elem_of_cons in Hin. destruct Hin as [[=]|[?|?%not_elem_of_nil]]; done. }
  destruct (retry_spec (S WebhookMaxRetries) (Ok tt) (hook_request p) log) as (k & _ & _ & [(_ & Hl & _)|(_ & _ & Hr)]).
  - rewrite Hl. eexists. split; [done|]. apply Hto.
  - rewrite Hr. eexists. split; [done|]. intros r [Hin|Hin]%elem_of_app; [by eapply Hto|].
    apply elem_of_cons in Hin as [[=]|?%not_elem_of_nil]; done.
Qed.

(** Delivering an event only sends requests of the hooks registered for that
    event, in the order of the list, and a hook that fails cancels all the hooks
    after it. *)
Theorem Handle_all_order `{Http} hooks event log :
  exists run left_out,
    filter (fun h => wh_Event (rw_Webhook h) = event) hooks = run ++ left_out /\
    Handle_all hooks event log = foldl (fun l h => snd (Handle h l)) log run /\
    (left_out <> [] -> exists run' h, run = run' ++ [h] /\
       is_ok (fst (Handle h (foldl (fun l h => snd (Handle h l)) log run'))) = false) /\
    exists sent, Handle_all hooks event log = log ++ sent /\
      forall r, Sent r ∈ sent -> exists h, h ∈ hooks /\ wh_Event (rw_Webhook h) = event /\ r = hook_request h.
Proof.
  destruct (Handle_all_spec hooks event log) as (run & left_out & Hf & Hall & Hl).
  exists run, left_out. split; [done|]. split; [done|]. split; [done|].
  assert (Hrun : forall h, h ∈ run -> h ∈ hooks /\ wh_Event (rw_Webhook h) = event).
  { intros h Hh. assert (Hin : h ∈ filter (fun h => wh_Event (rw_Webhook h) = event) hooks)
      by (rewrite Hf; apply elem_of_app; by left).
    apply list_elem_of_filter in Hin. tauto. }
  rewrite Hall. clear Hf Hall Hl. revert log. induction run as [|h run IH]; intros log.
  { exists []. rewrite app_nil_r. split; [done|]. by intros r ?%not_elem_of_nil. }
  simpl. destruct (Handle_sent h log) as (k & Hk & Hs). rewrite Hk.
  destruct (IH ltac:(intros; apply Hrun; by right) (log ++ k)) as (sent & Hl & Hsent). rewrite Hl.
  exists (k ++ sent). rewrite app_assoc. split; [done|].
  intros r [Hin|Hin]%elem_of_app; [|by apply Hsent].
  exists h. destruct (Hrun h) as [? ?]; [by left|]. eauto.
Qed.

(** ** Preparation *)

Definition well_formed (p : RenderedWebhook) : Prop :=
  wh_Event (rw_Webhook p) ∈ [EventInstallStarted; EventInstallSuceeded; EventInstallFailed] /\
  IsValidHTTPMethod (wh_Method (rw_Webhook p)) = true.

Lemma prepareWebhook_ok `{Http} h context p :
  prepareWebhook h context = Ok p ->
  well_formed p /\ wh_Event (rw_Webhook p) = wh_Event h /\ wh_Method (rw_Webhook p) = to_upper (wh_Method h) /\
  wh_Headers (rw_Webhook p) = wh_Headers h /\ wh_BasicAuth (rw_Webhook p) = wh_BasicAuth h /\
  template_execute "URL" (wh_URL h) context = Ok (rw_RenderedURL p) /\
  template_execute "Payload" (wh_Payload h) context = Ok (rw_RenderedPayload p).
Proof.
  unfold prepareWebhook. intros Hp. inv_ok. cbn [wh_Event wh_Method wh_URL wh_Payload] in *.
  apply negb_false_iff in H0. apply negb_false_iff in H1.
  unfold well_formed. cbn [rw_Webhook rw_RenderedURL rw_RenderedPayload wh_Event wh_Method wh_Headers wh_BasicAuth].
  split; [split; [by apply StringSliceContains_spec|done]|]. split_and!; try done.
  - destruct (wh_Headers h) as [m|]; [|done]. simpl. f_equal. apply map_fmap_id.
  - by destruct (wh_BasicAuth h).
Qed.

(** C40: Preparation accepts a list of hooks only when every one has a known event
    and method and both templates render; the results keep the order, the
    headers and the credentials, spell the method in capitals, and nothing is
    sent for an event that is not one of the three. *)
Theorem PrepareWebhooks_sound `{Http} hooks context ps :
  PrepareWebhooks hooks context = Ok ps ->
  Forall2 (fun h p =>
    wh_Event (rw_Webhook p) = wh_Event h /\ wh_Method (rw_Webhook p) = to_upper (wh_Method h) /\
    wh_Headers (rw_Webhook p) = wh_Headers h /\ wh_BasicAuth (rw_Webhook p) = wh_BasicAuth h /\
    template_execute "URL" (wh_URL h) context = Ok (rw_RenderedURL p) /\
    template_execute "Payload" (wh_Payload h) context = Ok (rw_RenderedPayload p) /\
    rw_Valid p = true /\ well_formed p) hooks ps /\
  forall event log, event ∉ [EventInstallStarted; EventInstallSuceeded; EventInstallFailed] ->
    Handle_all ps event log = log.
Proof.
  unfold PrepareWebhooks. rewrite map_each_ok. intros Hall.
  assert (HF : Forall2 (fun h p =>
    wh_Event (rw_Webhook p) = wh_Event h /\ wh_Method (rw_Webhook p) = to_upper (wh_Method h) /\
    wh_Headers (rw_Webhook p) = wh_Headers h /\ wh_BasicAuth (rw_Webhook p) = wh_BasicAuth h /\
    template_execute "URL" (wh_URL h) context = Ok (rw_RenderedURL p) /\
    template_execute "Payload" (wh_Payload h) context = Ok (rw_RenderedPayload p) /\
    rw_Valid p = true /\ well_formed p) hooks ps).
  { eapply Forall2_impl; [exact Hall|]. intros h p Hp. cbv beta in Hp. inv_ok.
    match goal with H : prepareWebhook _ _ = _ |- _ => apply prepareWebhook_ok in H as (? & ? & ? & ? & ? & ? & ?) end.
    by split_and!. }
  split; [done|]. intros event log Hev. clear Hall.
  induction HF as [|h p hooks ps Hp HF IH]; [done|]. cbn [Handle_all].
  destruct Hp as (_ & _ & _ & _ & _ & _ & _ & Hw & _). rewrite bool_decide_true; [done|]. congruence.
Qed.

(** ** Examples *)

(** A server that times out twice and then accepts; a template engine that
    knows the two templates used below. *)
Definition demo_http : Http := {|
  template_execute name text ctx :=
    if bool_decide (text = "http://{{.Hostname}}/") then Ok ("http://" +:+ default "" (ctx !! "Hostname") +:+ "/")
    else if has_char "{" text then Err (EMsg "template") else Ok text;
  new_request m u := None;
  serve log r := if (length log <? 4)%nat then Failed (EMsg "timeout") true else Status 200;
  visit_headers m := map_to_list m
|}.
Definition demo_hook : Webhook :=
  mkWebhook "STARTED" "post" (Some {[ "x-token" := ["a"; "b"] ]}) "http://{{.Hostname}}/" "hello" true
    (mkBasicAuth "u" "p").
Definition demo_rendered : RenderedWebhook :=
  mkRendered (mkWebhook "STARTED" "POST" (wh_Headers demo_hook) (wh_URL demo_hook) "hello" true (mkBasicAuth "u" "p"))
    "http://node1/" "hello" true.

Lemma Handle_retries_witness :
  @Handle demo_http demo_rendered [] =
    (Ok tt, timeouts 2 (@hook_request demo_http demo_rendered) ++ [Sent (@hook_request demo_http demo_rendered)]).
Proof.
  destruct (@Handle_retries demo_http demo_rendered [] eq_refl) as (k & Hk & Hb & [(_ & err & Hs & _)|(_ & Hf & Hr)]).
  - vm_compute in Hs. discriminate.
  - assert (k = 2%nat) as ->; [|rewrite Hr; vm_refl].
    destruct k as [|[|[|k]]]; [by vm_compute in Hf|by vm_compute in Hf|done|].
    clear Hr. specialize (Hb 2%nat ltac:(lia)). vm_compute in Hb. discriminate Hb.
Defined.

Lemma PrepareWebhooks_sound_witness :
  @PrepareWebhooks demo_http [demo_hook] {[ "Hostname" := "node1" ]} = Ok [demo_rendered] /\ well_formed demo_rendered.
Proof.
  assert (Hp : @PrepareWebhooks demo_http [demo_hook] {[ "Hostname" := "node1" ]} = Ok [demo_rendered]) by vm_refl.
  split; [exact Hp|]. destruct (@PrepareWebhooks_sound demo_http _ _ _ Hp) as [HF _].
  inversion HF as [|h p hs ps Hw _]; subst. destruct Hw as (_ & _ & _ & _ & _ & _ & _ & Hw). exact Hw.
Defined.

Example demo_request : @hook_request demo_http demo_rendered =
  mkRequest "POST" "http://node1/" (Some "hello") (Some ("u", "p")) true [("X-Token", "a"); ("X-Token", "b")].
Proof. vm_refl. Qed.
