(* ===== verification/Preflight.v ===== *)
(** * Preflight: the hardware checks ([pkg/preflight/checks.go]) and the start of
      the console that runs them ([doRun] of [pkg/console/console.go])

    A check reads the machine through [Probe]: the output and status of a
    command, a file, a stat.  It returns the message (empty: passed) and the
    error that kept it from running. *)
From Stdlib Require Import ZArith Lia Ascii String.
From Stdlib.Floats Require Import SpecFloat.
From stdpp Require Import base tactics list gmap strings.
From S2P Require Import Prelude GoStrings GoNum GoNet Config.
Local Open Scope Z_scope.

Record Probe : Type := mkProbe {
  pr_exec : list string -> string * option error;
  pr_read : string -> result string;
  pr_stat : string -> option error
}.

Definition MinCPUTest : Z := 8.
Definition MinCPUProd : Z := 16.
Definition MinMemoryTest : Z := 32.
Definition MinMemoryProd : Z := 64.
Definition MinNetworkGbpsTest : Z := 1.
Definition MinNetworkGbpsProd : Z := 10.

Definition procMemInfo : string := "/proc/meminfo".
Definition devKvm : string := "/dev/kvm".
Definition sysClassNetDevSpeed (dev : string) : string := "/sys/class/net/" +:+ dev +:+ "/speed".

Definition answer : Type := string * option error.
Definition passed : answer := ("", None).
Definition is_not_exist (e : error) : bool := match e with EPath _ _ b => b | _ => false end.

(** ** Processors *)

Definition CPU_message (nproc : Z) : string :=
  if nproc <? MinCPUTest then
    "Only " +:+ itoa nproc +:+ " CPU cores detected. Harvester requires at least " +:+ itoa MinCPUTest +:+
    " cores for testing and " +:+ itoa MinCPUProd +:+ " for production use."
  else if nproc <? MinCPUProd then
    itoa nproc +:+ " CPU cores detected. Harvester requires at least " +:+ itoa MinCPUProd +:+
    " cores for production use."
  else "".
Definition CPUCheck (p : Probe) : answer :=
  let '(out, err) := pr_exec p ["/usr/bin/nproc"; "--all"] in
  match err with
  | Some e => ("", Some e)
  | None => (CPU_message (atoi_val (trim_space out)), None)
  end.

(** ** Scanning ([fmt.Sscanf] for the two formats used)

    A space of the format matches one or more spaces or the end of the input;
    [%d] into an unsigned integer skips spaces and reads digits that must fit in
    64 bits; [%s] skips spaces and reads up to the next space. *)

Fixpoint span (p : ascii -> bool) (s : string) : string * string :=
  match s with
  | "" => ("", "")
  | String c s' => if p c then let '(a, b) := span p s' in (String c a, b) else ("", s)
  end.
Definition scan_space (s : string) : option string :=
  match s with
  | "" => Some ""
  | String c _ => if is_space c then Some (trim_left is_space s) else None
  end.
Definition scan_uint (s : string) : option (Z * string) :=
  let '(ds, rest) := span is_digit (trim_left is_space s) in
  match parse_uint 10 64 ds with Ok n => Some (n, rest) | _ => None end.
Definition scan_word (s : string) : option string :=
  match fst (span (fun c => negb (is_space c)) (trim_left is_space s)) with "" => None | w => Some w end.

(** "Range Size: %d %s": both items, when both are found. *)
Definition scan_range (line : string) : option (Z * string) :=
  s ← strip_prefix "Range" line; s ← scan_space s;
  s ← strip_prefix "Size:" s; s ← scan_space s;
  '(n, s) ← scan_uint s; s ← scan_space s;
  unit ← scan_word s; Some (n, unit).
(** "MemTotal: %d kB": the number, which is stored before " kB" is compared. *)
Definition scan_memtotal (line : string) : option Z :=
  s ← strip_prefix "MemTotal:" line; s ← scan_space s; fst <$> scan_uint s.

(** ** Memory *)

Definition rangeSizeToKiB (rangeSize : Z) (unit : string) : Z :=
  if bool_decide (unit = "GB") then u64_shl rangeSize 20
  else if bool_decide (unit = "MB") then u64_shl rangeSize 10
  else if bool_decide (unit = "kB") then rangeSize
  else if bool_decide (unit = "bytes") then u64_shr rangeSize 10
  else 0.
Definition enormous (unit : string) : bool := bool_decide (unit ∈ ["TB"; "PB"; "EB"; "ZB"]).

(** The loop over the lines of dmidecode. *)
Fixpoint dmidecode_total (lines : list string) (memTotalKiB : Z) : Z :=
  match lines with
  | [] => memTotalKiB
  | line :: rest =>
      match scan_range (trim_space line) with
      | Some (rangeSize, unit) =>
          if enormous unit then 2 ^ 30
          else dmidecode_total rest (u64_add memTotalKiB (rangeSizeToKiB rangeSize unit))
      | None => dmidecode_total rest memTotalKiB
      end
  end.

(** bufio.Scanner: lines without their terminator, up to the first one that
    does not fit its buffer. *)
Definition drop_cr (s : string) : string := if has_suffix s (String "013" "") then stake (String.length s - 1) s else s.
Fixpoint scanned (l : list string) : list string :=
  match l with
  | [] => []
  | [""] => []
  | w :: l' => if 65536 <=? slen w then [] else drop_cr w :: scanned l'
  end.
Definition scanner_lines (text : string) : list string := scanned (split_on "010" text).
Definition meminfo_total (text : string) : Z := default 0 (head (omap scan_memtotal (scanner_lines text))).

Definition Memory_message (wiggleRoom : spec_float) (memTotalKiB : Z) : string :=
  let memTotalMiB := memTotalKiB / 2 ^ 10 in
  let memTotalGiB := memTotalKiB / 2 ^ 20 in
  let memReported := if memTotalGiB <? 1 then itoa memTotalMiB +:+ "MiB" else itoa memTotalGiB +:+ "GiB" in
  if f_ltb (f_of_Z float32 memTotalGiB) (f_mul float32 (f_of_Z float32 MinMemoryTest) wiggleRoom) then
    "Only " +:+ memReported +:+ " RAM detected. Harvester requires at least " +:+ itoa MinMemoryTest +:+
    "GiB for testing and " +:+ itoa MinMemoryProd +:+ "GiB for production use."
  else if f_ltb (f_of_Z float32 memTotalGiB) (f_mul float32 (f_of_Z float32 MinMemoryProd) wiggleRoom) then
    memReported +:+ " RAM detected. Harvester requires at least " +:+ itoa MinMemoryProd +:+
    "GiB for production use."
  else "".

Definition MemoryCheck (p : Probe) : answer :=
  let '(out, err) := pr_exec p ["/usr/sbin/dmidecode"; "-t"; "19"] in
  let memTotalKiB := match err with None => dmidecode_total (split_on "010" out) 0 | Some _ => 0 end in
  if memTotalKiB =? 0 then
    match pr_read p procMemInfo with
    | Ok text =>
        let memTotalKiB := meminfo_total text in
        if memTotalKiB =? 0 then ("", Some (EMsg "unable to extract MemTotal from /proc/meminfo"))
        else (Memory_message (f_const float32 9 10) memTotalKiB, None)
    | Err e => ("", Some e)
    | Panic => passed
    end
  else (Memory_message (f_const float32 1 1) memTotalKiB, None).

(** ** Virtualization, KVM, firmware *)

Definition VirtCheck (p : Probe) : answer :=
  let '(out, err) := pr_exec p ["/usr/bin/systemd-detect-virt"; "--vm"] in
  let virt := trim_space out in
  match err with
  | Some e => if bool_decide (virt = "none") then passed else ("", Some e)
  | None => ("System is virtualized (" +:+ virt +:+ ") which is not supported in production.", None)
  end.

Definition KVMHostCheck (p : Probe) : answer :=
  match pr_stat p devKvm with
  | Some e =>
      if is_not_exist e
      then ("Harvester requires hardware-assisted virtualization, but /dev/kvm does not exist.", None)
      else ("", Some e)
  | None => passed
  end.

Definition SystemIsBIOS (p : Probe) : bool :=
  match pr_stat p "/sys/firmware/efi" with Some e => is_not_exist e | None => false end.
Definition BIOSCheck (p : Probe) : answer :=
  (if SystemIsBIOS p then
     "Support for legacy BIOS is deprecated and will be removed in a later release. If possible please reconfigure the system to use UEFI prior to installation."
   else "", None).

(** ** Link speed *)

(** [%g] of a float32 quotient by 1000 between 1 and 10: at most three
    decimals, without trailing zeros. *)
Definition gbps_text (mbps : Z) : string :=
  let d := mbps mod 1000 in
  itoa (mbps / 1000) +:+
  (if d =? 0 then "" else "." +:+
   (if d mod 100 =? 0 then itoa (d / 100)
    else if d mod 10 =? 0 then of_chars [hex_digit (d / 100); hex_digit (d / 10 mod 10)]
    else of_chars [hex_digit (d / 100); hex_digit (d / 10 mod 10); hex_digit (d mod 10)])).

Definition Speed_message (dev : string) (speedMbps : Z) : string :=
  let speedGbps := f_div float32 (f_of_Z float32 speedMbps) (f_of_Z float32 1000) in
  if f_ltb speedGbps (f_of_Z float32 MinNetworkGbpsTest) then
    "Link speed of " +:+ dev +:+ " is only " +:+ itoa speedMbps +:+ "Mpbs. Harvester requires at least " +:+
    itoa MinNetworkGbpsTest +:+ "Gbps for testing and " +:+ itoa MinNetworkGbpsProd +:+ "Gbps for production use."
  else if f_ltb speedGbps (f_of_Z float32 MinNetworkGbpsProd) then
    "Link speed of " +:+ dev +:+ " is " +:+ gbps_text speedMbps +:+ "Gbps. Harvester requires at least " +:+
    itoa MinNetworkGbpsProd +:+ "Gbps for production use."
  else "".

Definition NetworkSpeedCheck (dev : string) (p : Probe) : answer :=
  let speedPath := sysClassNetDevSpeed dev in
  match pr_read p speedPath with
  | Err e => ("", Some e)
  | Panic => passed
  | Ok out =>
      let speedMbps := atoi_val (trim_space out) in
      if speedMbps <? 1 then
        ("", Some (EMsg ("unable to determine NIC speed from " +:+ speedPath +:+ " (got " +:+ itoa speedMbps +:+ ")")))
      else (Speed_message dev speedMbps, None)
  end.

(** ** The start of the console *)

Inductive layout : Set := layoutInstall | layoutDashboard.

Record start : Type := mkStart {
  st_layout : layout;
  st_config : HarvesterConfig;
  st_alreadyInstalled : bool;
  st_warnings : list string
}.

Definition checks : list (Probe -> answer) := [BIOSCheck; CPUCheck; MemoryCheck; VirtCheck; KVMHostCheck].

(** A check that cannot run is logged; a message is kept. *)
Definition warnings (p : Probe) (cs : list (Probe -> answer)) : list string :=
  omap (fun c => match c p with
    | (_, Some _) => None
    | (msg, None) => if bool_decide (msg = "") then None else Some msg
    end) cs.

(** The decisions of [doRun] before its main loop (Program); [getHarvesterConfig] is what reading the
    configuration of the installed system gives, [c] the fresh one. *)
Definition doRun_start (hd : option string) (getHarvesterConfig : result HarvesterConfig)
    (c : HarvesterConfig) (p : Probe) : result start :=
  let mode c := in_Mode (hc_Install c) in
  let dash := bool_decide (hd = Some "true") in
  cfg ← (if dash then getHarvesterConfig else Ok c);
  let installed := dash && (bool_decide (mode cfg = ModeCreate) || bool_decide (mode cfg = ModeJoin)) in
  let already := bool_decide (mode cfg = ModeInstall) in
  let cfg' := if already then set_hc_Install (set_in_Mode "" (hc_Install cfg)) cfg else cfg in
  Ok (mkStart (if installed then layoutDashboard else layoutInstall) cfg' already
        (if installed || already then [] else warnings p checks)).

(** ** Lemmas: trimming and scanning *)

Lemma span_app p a c b : all_chars p a = true -> p c = false -> span p (a +:+ String c b) = (a, String c b).
Proof.
  intros Ha Hc. induction a as [|d a IH].
  { change ("" +:+ ?x) with x. cbn [span]. by rewrite Hc. }
  rewrite string_app_cons. cbn [span]. cbn in Ha. apply andb_true_iff in Ha as [Hd Ha]. by rewrite Hd, IH.
Qed.

Lemma digit_not_space c : is_digit c = true -> is_space c = false.
Proof.
  unfold is_digit, in_range, is_space. change (ord "0") with 48. change (ord "9") with 57. lia.
Qed.

Lemma trim_left_digits a b : a <> "" -> all_chars is_digit a = true -> trim_left is_space (a +:+ b) = a +:+ b.
Proof.
  destruct a as [|c a]; [done|]. intros _ Ha. rewrite string_app_cons. cbn in *.
  apply andb_true_iff in Ha as [Hc _]. by rewrite digit_not_space.
Qed.

Lemma scan_uint_itoa n c b : 0 <= n < 2 ^ 64 -> is_digit c = false ->
  scan_uint (itoa n +:+ String c b) = Some (n, String c b).
Proof.
  intros Hn Hc. unfold scan_uint. rewrite trim_left_digits by (try apply itoa_digits; try apply itoa_nonempty; lia).
  rewrite span_app by (try apply itoa_digits; try done; lia). by rewrite (parse_uint_itoa 64 n Hn).
Qed.

(** The line dmidecode prints for a range. *)
Definition range_line (n : Z) (unit : string) : string :=
  String "009" "Range Size: " +:+ itoa n +:+ " " +:+ unit.

Lemma scan_range_line n unit :
  0 <= n < 2 ^ 64 -> unit ∈ ["bytes"; "kB"; "MB"; "GB"; "TB"; "PB"; "EB"; "ZB"] ->
  scan_range (trim_space (range_line n unit)) = Some (n, unit).
Proof.
  intros Hn Hu.
  assert (Ht : trim_space (range_line n unit) = "Range Size: " +:+ itoa n +:+ " " +:+ unit).
  { unfold trim_space, trim, range_line. rewrite string_app_cons. cbn [trim_left].
    change (trim_left is_space ("Range Size: " +:+ ?x)) with ("Range Size: " +:+ x).
    change (is_space "009") with true. cbv iota.
    match goal with |- trim_right _ ?x = ?y => change x with y end.
    apply trim_right_app; [by destruct (itoa n)|]. apply trim_right_app; [done|].
    repeat (apply elem_of_cons in Hu as [->|Hu]; [vm_refl|]). by apply not_elem_of_nil in Hu. }
  rewrite Ht. clear Ht. unfold scan_range.
  assert (H1 : forall x, strip_prefix "Range" ("Range Size: " +:+ x) = Some (" Size: " +:+ x)) by done.
  assert (H2 : forall x, scan_space (" Size: " +:+ x) = Some ("Size: " +:+ x)) by done.
  assert (H3 : forall x, strip_prefix "Size:" ("Size: " +:+ x) = Some (" " +:+ x)) by done.
  assert (H4 : scan_space (" " +:+ itoa n +:+ " " +:+ unit) = Some (itoa n +:+ " " +:+ unit)).
  { change (" " +:+ ?x) with (String " " x) at 1. unfold scan_space. change (is_space " ") with true. cbv iota. f_equal.
    change (trim_left is_space (String " " ?x)) with (trim_left is_space x).
    apply trim_left_digits; [apply itoa_nonempty; lia|apply itoa_digits; lia]. }
  assert (H5 : scan_uint (itoa n +:+ " " +:+ unit) = Some (n, " " +:+ unit)) by by apply scan_uint_itoa.
  rewrite H1. cbn [mbind option_bind]. rewrite H2. cbn [mbind option_bind].
  rewrite H3. cbn [mbind option_bind]. rewrite H4. cbn [mbind option_bind].
  rewrite H5. cbn [mbind option_bind].
  repeat (apply elem_of_cons in Hu as [->|Hu]; [done|]). by apply not_elem_of_nil in Hu.
Qed.

(** ** Thresholds in integers *)

(** The messages with the comparison on whole GiB (or Mb/s). *)
Definition memory_text (test prod kib : Z) : string :=
  let gib := kib / 2 ^ 20 in
  let reported := if gib <? 1 then itoa (kib / 2 ^ 10) +:+ "MiB" else itoa gib +:+ "GiB" in
  if gib <? test then
    "Only " +:+ reported +:+ " RAM detected. Harvester requires at least 32GiB for testing and 64GiB for production use."
  else if gib <? prod then
    reported +:+ " RAM detected. Harvester requires at least 64GiB for production use."
  else "".
Definition speed_text (dev : string) (mbps : Z) : string :=
  if mbps <? 1000 then
    "Link speed of " +:+ dev +:+ " is only " +:+ itoa mbps +:+ "Mpbs. Harvester requires at least 1Gbps for testing and 10Gbps for production use."
  else if mbps <? 10000 then
    "Link speed of " +:+ dev +:+ " is " +:+ gbps_text mbps +:+ "Gbps. Harvester requires at least 10Gbps for production use."
  else "".

(** The float comparisons agree with integer ones on the ranges below. *)
Definition gib_check (wiggle : spec_float) (test prod gib : Z) : bool :=
  bool_decide (f_ltb (f_of_Z float32 gib) (f_mul float32 (f_of_Z float32 MinMemoryTest) wiggle) = (gib <? test)) &&
  bool_decide (f_ltb (f_of_Z float32 gib) (f_mul float32 (f_of_Z float32 MinMemoryProd) wiggle) = (gib <? prod)).
Definition mbps_check (mbps : Z) : bool :=
  let g := f_div float32 (f_of_Z float32 mbps) (f_of_Z float32 1000) in
  bool_decide (f_ltb g (f_of_Z float32 MinNetworkGbpsTest) = (mbps <? 1000)) &&
  bool_decide (f_ltb g (f_of_Z float32 MinNetworkGbpsProd) = (mbps <? 10000)).

Lemma gib_check_wiggle : forallb (gib_check (f_const float32 9 10) 29 58) (Zrange 0 (Z.to_nat 2048)) = true.
Proof. vm_refl. Qed.
Lemma gib_check_exact : forallb (gib_check (f_const float32 1 1) 32 64) (Zrange 0 (Z.to_nat 2048)) = true.
Proof. vm_refl. Qed.

(** The speeds above 10 Gb/s that the kernel has link modes for. *)
Definition fast_speeds : list Z :=
  [14000; 20000; 25000; 40000; 50000; 56000; 100000; 200000; 400000; 800000].
Lemma mbps_check_range : forallb mbps_check (fast_speeds ++ Zrange 1 (Z.to_nat 10000)) = true.
Proof. vm_refl. Qed.

Lemma Memory_message_text wiggle test prod kib :
  gib_check wiggle test prod (kib / 2 ^ 20) = true -> Memory_message wiggle kib = memory_text test prod kib.
Proof.
  unfold gib_check. intros [H1%bool_decide_eq_true H2%bool_decide_eq_true]%andb_true_iff.
  unfold Memory_message, memory_text. by rewrite H1, H2.
Qed.

Lemma memory_exact kib : 0 <= kib < 2 ^ 31 -> Memory_message (f_const float32 1 1) kib = memory_text 32 64 kib.
Proof.
  intros Hk. apply Memory_message_text. apply (Zrange_check _ _ _ gib_check_exact).
  rewrite Z2Nat.id by lia. change (2 ^ 20) with 1048576. split; [apply Z.div_pos; lia|].
  apply Z.div_lt_upper_bound; lia.
Qed.

(** With the 10% allowance for the memory that /proc/meminfo leaves out, the
    limits are 29 and 58 whole GiB; without it they are 32 and 64 (for every
    size below 2 TiB). *)
Theorem memory_thresholds kib : 0 <= kib < 2 ^ 31 ->
  Memory_message (f_const float32 9 10) kib = memory_text 29 58 kib /\
  Memory_message (f_const float32 1 1) kib = memory_text 32 64 kib.
Proof.
  intros Hk. split; [|by apply memory_exact].
  apply Memory_message_text. apply (Zrange_check _ _ _ gib_check_wiggle).
  rewrite Z2Nat.id by lia. change (2 ^ 20) with 1048576. split; [apply Z.div_pos; lia|].
  apply Z.div_lt_upper_bound; lia.
Qed.

(** 28.99 GiB is more than 90% of 32 GiB, and is rejected as too small. *)
Lemma memory_thresholds_witness :
  9 * (32 * 2 ^ 20) <= 10 * 30398218 /\
  Memory_message (f_const float32 9 10) 30398218 =
    "Only 28GiB RAM detected. Harvester requires at least 32GiB for testing and 64GiB for production use.".
Proof.
  split; [lia|]. destruct (memory_thresholds 30398218) as [Hm _]; [lia|]. rewrite Hm. vm_refl.
Defined.

(** The link-speed check reports a link below 1 Gb/s and one below 10 Gb/s,
    at every speed up to 40 Gb/s (the float32 division never moves a speed
    over a limit); a file that holds no positive number is an error and not a
    message. *)
Theorem NetworkSpeed_thresholds dev p text :
  pr_read p (sysClassNetDevSpeed dev) = Ok text ->
  atoi_val (trim_space text) <= 10000 \/ atoi_val (trim_space text) ∈ fast_speeds ->
  NetworkSpeedCheck dev p =
    if atoi_val (trim_space text) <? 1 then
      ("", Some (EMsg ("unable to determine NIC speed from " +:+ sysClassNetDevSpeed dev +:+
                       " (got " +:+ itoa (atoi_val (trim_space text)) +:+ ")")))
    else (speed_text dev (atoi_val (trim_space text)), None).
Proof.
  intros Hr Hmax. unfold NetworkSpeedCheck. rewrite Hr. set (v := atoi_val (trim_space text)) in *.
  destruct (v <? 1) eqn:E; [done|]. f_equal.
  assert (Hc : mbps_check v = true).
  { apply (proj1 (List.forallb_forall _ _) mbps_check_range), List.in_app_iff.
    destruct Hmax as [Hmax|Hmax]; [right; apply Zrange_In; rewrite Z2Nat.id; lia|left; by apply list_elem_of_In]. }
  unfold mbps_check in Hc. apply andb_true_iff in Hc as [H1%bool_decide_eq_true H2%bool_decide_eq_true].
  unfold Speed_message, speed_text. by rewrite H1, H2.
Qed.

Definition demo_probe (dmi : string) : Probe := mkProbe
  (fun argv => match argv with
    | ["/usr/sbin/dmidecode"; "-t"; "19"] => (dmi, None)
    | ["/usr/bin/nproc"; "--all"] => ("8" +:+ String "010" "", None)
    | _ => ("none", Some (EExec argv)) end)
  (fun path => if bool_decide (path = "/sys/class/net/eth0/speed") then Ok ("2500" +:+ String "010" "")
               else Err (EPath "open" path true))
  (fun path => Some (EPath "stat" path true)).

Lemma NetworkSpeed_thresholds_witness :
  NetworkSpeedCheck "eth0" (demo_probe "") =
    ("Link speed of eth0 is 2.5Gbps. Harvester requires at least 10Gbps for production use.", None).
Proof.
  rewrite (NetworkSpeed_thresholds "eth0" (demo_probe "") ("2500" +:+ String "010" "")); [vm_refl|vm_refl|].
  left. apply Z.leb_le. vm_refl.
Defined.

(** ** Adding up the ranges dmidecode prints *)

(** A line of the output: a range of [n] GB, or a line that is no range. *)
Definition dmi_line (l : Z + string) : string :=
  match l with inl n => range_line n "GB" | inr s => s end.
Definition dmi_ok (l : Z + string) : Prop :=
  match l with
  | inl n => 0 <= n < 2 ^ 16
  | inr s => has_char "010" s = false /\ scan_range (trim_space s) = None
  end.
Definition dmi_gib (l : Z + string) : Z := match l with inl n => n | inr _ => 0 end.
Definition total_gib (ls : list (Z + string)) : Z := foldr Z.add 0 (map dmi_gib ls).

Lemma has_char_digits c s : is_digit c = false -> all_chars is_digit s = true -> has_char c s = false.
Proof.
  intros Hc. induction s as [|d s IH]; [done|]. cbn. intros [Hd Hs]%andb_true_iff. rewrite IH by done.
  rewrite bool_decide_false; [done|]. congruence.
Qed.

Lemma dmi_line_newline l : dmi_ok l -> has_char "010" (dmi_line l) = false.
Proof.
  destruct l as [n|s]; [|by intros []]. intros Hn. cbn [dmi_line]. unfold range_line.
  change (String "009" "Range Size: " +:+ itoa n +:+ " " +:+ "GB") with
    (String "009" "Range Size: " +:+ itoa n +:+ " GB").
  rewrite !has_char_app. rewrite (has_char_digits _ (itoa n)); [done|done|]. apply itoa_digits. cbn in Hn. lia.
Qed.

Lemma total_gib_nonneg ls : Forall dmi_ok ls -> 0 <= total_gib ls.
Proof.
  unfold total_gib. induction 1 as [|[n|s] ls Hl Hls IH]; cbn in *; [done|lia|lia].
Qed.

Lemma dmidecode_total_sum ls acc :
  Forall dmi_ok ls -> 0 <= acc -> acc + total_gib ls * 2 ^ 20 < 2 ^ 64 ->
  dmidecode_total (map dmi_line ls) acc = acc + total_gib ls * 2 ^ 20.
Proof.
  intros Hls. revert acc. induction Hls as [|l ls Hl Hls IH]; intros acc Ha Hb; cbn [map dmidecode_total].
  { unfold total_gib. cbn. lia. }
  pose proof (total_gib_nonneg ls Hls) as Hp. unfold total_gib in *. cbn [map foldr] in *.
  destruct l as [n|s]; cbn [dmi_line dmi_gib] in *.
  - cbn in Hl. rewrite scan_range_line; [|lia|by repeat constructor].
    change (enormous "GB") with false. cbv iota.
    assert (Hk : rangeSizeToKiB n "GB" = n * 2 ^ 20).
    { unfold rangeSizeToKiB. rewrite bool_decide_true by done. rewrite u64_shl_mul by lia.
      apply u64_small. unfold is_u64. lia. }
    rewrite Hk. unfold u64_add. rewrite u64_small by (unfold is_u64; lia).
    rewrite IH; lia.
  - destruct Hl as [_ Hs]. rewrite Hs. rewrite IH; lia.
Qed.

(** When dmidecode prints ranges in GB, whatever the other lines, the memory
    check is the comparison of their sum with the limits, and /proc/meminfo is
    not consulted. *)
Theorem MemoryCheck_sums_ranges p ls :
  pr_exec p ["/usr/sbin/dmidecode"; "-t"; "19"] = (join (String "010" "") (map dmi_line ls), None) ->
  Forall dmi_ok ls -> 0 < total_gib ls < 2 ^ 11 ->
  MemoryCheck p = (memory_text 32 64 (total_gib ls * 2 ^ 20), None).
Proof.
  intros Hp Hls Ht. unfold MemoryCheck. rewrite Hp. cbv zeta.
  rewrite join_split_on.
  - rewrite (dmidecode_total_sum ls 0 Hls); [|lia|lia]. rewrite Z.add_0_l.
    destruct (total_gib ls * 2 ^ 20 =? 0) eqn:E; [lia|]. by rewrite memory_exact by lia.
  - intros Hnil. destruct ls; [unfold total_gib in Ht; cbn in Ht; lia|done].
  - apply Forall_map. eapply Forall_impl; [exact Hls|]. intros l Hl. by apply dmi_line_newline.
Qed.

Definition demo_ranges : list (Z + string) :=
  [inr "# dmidecode 3.5"; inr "Memory Array Mapped Address"; inl 2; inr "Partition Width: 1"; inl 30].
Lemma MemoryCheck_sums_ranges_witness :
  MemoryCheck (demo_probe (join (String "010" "") (map dmi_line demo_ranges))) =
    ("32GiB RAM detected. Harvester requires at least 64GiB for production use.", None).
Proof.
  rewrite (MemoryCheck_sums_ranges _ demo_ranges); [vm_refl|vm_refl| |split; apply Z.ltb_lt; vm_refl].
  unfold demo_ranges. rewrite !Forall_cons, Forall_nil. cbn [dmi_ok]. split_and!; first [vm_refl|lia|done].
Defined.
