(* ===== verification/Text.v ===== *)
(** * Text: wrapping and cutting text for panels ([pkg/widgets/util.go]), and
      splitting command output into lines ([ScanLines] of [pkg/console/util.go]) *)
From Stdlib Require Import ZArith Lia Ascii String.
From stdpp Require Import base tactics list strings.
From S2P Require Import Prelude GoStrings.
Local Open Scope Z_scope.

Definition nl_char : ascii := "010"%char.
Definition newline : string := String nl_char "".

(** ** [wrapText] *)

(** The largest index below [n] that holds a blank. *)
Fixpoint last_blank (n : nat) (s : string) : option nat :=
  match n, s with
  | S n', String c s' =>
      match last_blank n' s' with
      | Some i => Some (S i)
      | None => if bool_decide (c = " "%char) then Some 0%nat else None
      end
  | _, _ => None
  end.

(** The recursion of [wrapText], with a bound on its depth. *)
Fixpoint wrap_go (fuel : nat) (text : string) (columns : Z) (separator : string) : option string :=
  match fuel with
  | O => None
  | S fuel' =>
      if slen text <? columns then Some text
      else match last_blank (Z.to_nat columns) text with
           | Some i =>
               rest ← wrap_go fuel' (sdrop (S i) text) columns separator;
               Some (stake i text +:+ separator +:+ rest)
           | None => Some text
           end
  end.
Definition wrapText (text : string) (columns : Z) (separator : string) : string :=
  default "" (wrap_go (S (String.length text)) text columns separator).

(** ** [formatContent] *)

Definition wrap_line (maxColumns : Z) (line : string) : string :=
  if slen line <? maxColumns then line else wrapText line maxColumns newline.
Definition wrap_content (content : string) (maxColumns : Z) : string :=
  join newline (map (wrap_line maxColumns) (split_on nl_char content)).

Definition truncateSuffix : string := " ...".
(** [lastLine[:n]] panics out of range. *)
Definition cut (n : Z) (s : string) : result string :=
  if (n <? 0) || (slen s <? n) then Panic else Ok (stake (Z.to_nat n) s).
Definition truncate_content (content : string) (maxColumns maxRows : Z) : result string :=
  let ls := split_on nl_char content in
  if maxRows <? Z.of_nat (length ls) then
    let cutLinesAt := maxRows - 1 in
    if cutLinesAt <? 0 then Panic
    else
      let n := Z.to_nat cutLinesAt in
      let lastLine := nth n ls "" in
      last ← (if (0 <? maxColumns) && (maxColumns <? slen lastLine + slen truncateSuffix)
              then cut (maxColumns - slen truncateSuffix) lastLine else Ok lastLine);
      Ok (join newline (take n ls ++ [last +:+ truncateSuffix]))
  else Ok (join newline ls).

Definition formatContent (content : string) (maxColumns maxRows : Z) (wrap truncate : bool) : result string :=
  let content := if wrap then wrap_content content maxColumns else content in
  if truncate then truncate_content content maxColumns maxRows else Ok content.

(** ** [ScanLines]: a split function of bufio.Scanner *)

Definition dropCR (data : string) : string :=
  if has_suffix data (String "013" "") then stake (String.length data - 1) data else data.
Fixpoint index_byte (c : ascii) (s : string) : option nat :=
  match s with
  | "" => None
  | String d s' => if bool_decide (d = c) then Some 0%nat else S <$> index_byte c s'
  end.
(** The bytes consumed and the token, [None] for "request more data". *)
Definition ScanLines (data : string) (atEOF : bool) : nat * option string :=
  if atEOF && bool_decide (data = "") then (0%nat, None)
  else match index_byte "013" data with
  | Some i => (S i, Some (dropCR (stake i data)))
  | None =>
      match index_byte nl_char data with
      | Some i => (S i, Some (dropCR (stake i data)))
      | None => if atEOF then (String.length data, Some (dropCR data)) else (0%nat, None)
      end
  end.

(** The tokens a scanner takes from a text that is all in its buffer. *)
Fixpoint scan_all (fuel : nat) (data : string) : option (list string) :=
  match fuel with
  | O => None
  | S fuel' =>
      match ScanLines data true with
      | (_, None) => Some []
      | (n, Some t) => ts ← scan_all fuel' (sdrop n data); Some (t :: ts)
      end
  end.
Definition tokens (data : string) : list string := default [] (scan_all (S (String.length data)) data).

(** ** The cases of [TestFormatContent] *)

Definition lorem : string := "Lorem ipsum dolor sit amet, consetetur sadipscing elitr".
Definition n1 (l : list string) : string := join newline l.
Example format_plain : formatContent "abcdefghijklmn" 1000 1 false false = Ok "abcdefghijklmn".
Proof. vm_refl. Qed.
Example format_fits : formatContent (n1 ["abcdef"; "ghijkl"; "mnop"]) 6 3 false true = Ok (n1 ["abcdef"; "ghijkl"; "mnop"]).
Proof. vm_refl. Qed.
Example format_truncated :
  formatContent (n1 ["abcdef"; "ghijkl"; "mnijkl"; "opqr"]) 6 3 false true = Ok (n1 ["abcdef"; "ghijkl"; "mn ..."]).
Proof. vm_refl. Qed.
Example format_no_columns :
  formatContent (n1 ["abcdef"; "ghijkl"; "mnijkl"; "opqr"]) 0 3 false true = Ok (n1 ["abcdef"; "ghijkl"; "mnijkl ..."]).
Proof. vm_refl. Qed.
Example format_wrapped : formatContent lorem 10 (-1) true false =
  Ok (n1 ["Lorem"; "ipsum"; "dolor sit"; "amet,"; "consetetur sadipscing elitr"]).
Proof. vm_refl. Qed.
Example format_both : formatContent lorem 10 4 true true = Ok (n1 ["Lorem"; "ipsum"; "dolor sit"; "amet, ..."]).
Proof. vm_refl. Qed.

(** ** Lemmas *)

Lemma stake_cons n c s : stake (S n) (String c s) = String c (stake n s).
Proof. done. Qed.
Lemma sdrop_cons n c s : sdrop (S n) (String c s) = sdrop n s.
Proof. done. Qed.
Lemma length_sdrop n s : String.length (sdrop n s) = (String.length s - n)%nat.
Proof. unfold sdrop. by rewrite <- length_chars, chars_of_chars, length_drop, length_chars. Qed.
Lemma length_stake n s : String.length (stake n s) = (n `min` String.length s)%nat.
Proof. unfold stake. by rewrite <- length_chars, chars_of_chars, length_take, length_chars. Qed.

Lemma map_chars_app f a b : map_chars f (a +:+ b) = map_chars f a +:+ map_chars f b.
Proof.
  induction a as [|c a IH]; [done|]. rewrite !string_app_cons. cbn [map_chars].
  by rewrite IH, <- string_app_cons.
Qed.

Lemma last_blank_Some n s i : last_blank n s = Some i ->
  (i < n)%nat /\ (i < String.length s)%nat /\ s = stake i s +:+ String " " (sdrop (S i) s).
Proof.
  revert s i. induction n as [|n IH]; intros [|c s] i; cbn [last_blank]; try done.
  destruct (last_blank n s) as [j|] eqn:E.
  - intros [= <-]. destruct (IH s j E) as (? & ? & Hs). rewrite stake_cons, sdrop_cons, string_app_cons.
    cbn [String.length]. split_and!; [lia|lia|]. by rewrite <- Hs.
  - case_bool_decide as Hc; [|done]. intros [= <-]. subst c. cbn [String.length].
    split_and!; [lia|lia|]. rewrite sdrop_cons. change (sdrop 0 s) with (of_chars (chars s)). by rewrite of_chars_chars.
Qed.

Lemma last_blank_None n s : last_blank n s = None -> has_char " " (stake n s) = false.
Proof.
  revert s. induction n as [|n IH]; intros [|c s]; cbn [last_blank]; try done.
  destruct (last_blank n s) as [j|] eqn:E; [done|]. case_bool_decide; [done|]. intros _.
  rewrite stake_cons. cbn [has_char]. rewrite IH by done. by rewrite bool_decide_false.
Qed.

(** Turning the line breaks back into blanks. *)
Definition unwrap (c : ascii) : ascii := if bool_decide (c = nl_char) then " "%char else c.

Lemma unwrap_none s : has_char nl_char s = false -> map_chars unwrap s = s.
Proof.
  induction s as [|c s IH]; [done|]. cbn. intros [Hc Hs]%orb_false_elim. rewrite IH by done.
  unfold unwrap. by rewrite bool_decide_false by (apply bool_decide_eq_false in Hc; congruence).
Qed.

(** A line that cannot be broken: no blank among its first [columns] bytes. *)
Definition fits_or_unbreakable (columns : Z) (l : string) : Prop :=
  slen l < columns \/ has_char " " (stake (Z.to_nat columns) l) = false.

Lemma wrap_go_spec fuel text columns :
  (String.length text < fuel)%nat -> has_char nl_char text = false ->
  exists r init last, wrap_go fuel text columns newline = Some r /\
    map_chars unwrap r = text /\ split_on nl_char r = init ++ [last] /\
    Forall (fun l => slen l < columns) init /\ fits_or_unbreakable columns last.
Proof.
  revert text. induction fuel as [|fuel IH]; intros text Hf Hn; [lia|]. cbn [wrap_go].
  destruct (Z.ltb_spec (slen text) columns) as [Hlt|Hge].
  { exists text, [], text. rewrite unwrap_none, split_on_word by done.
    split_and!; try done. by left. }
  destruct (last_blank (Z.to_nat columns) text) as [i|] eqn:E.
  - apply last_blank_Some in E as (Hi & Hl & Ht). set (a := stake i text) in *. set (b := sdrop (S i) text) in *.
    assert (Hab : has_char nl_char a = false /\ has_char nl_char b = false).
    { rewrite Ht, has_char_app in Hn. apply orb_false_elim in Hn as [Ha Hb]. split; [done|].
      cbn [has_char] in Hb. by apply orb_false_elim in Hb as [_ Hb]. }
    destruct (IH b) as (r & init & last & Hr & Hm & Hs & Hi' & Hlast);
      [unfold b; rewrite length_sdrop; lia|apply Hab|].
    exists (a +:+ newline +:+ r), (a :: init), last. rewrite Hr. cbn [mbind option_bind]. split; [done|].
    change (newline +:+ r) with (String nl_char r). split_and!; [| | |done].
    + rewrite map_chars_app, unwrap_none by apply Hab. cbn [map_chars]. rewrite Hm. symmetry. exact Ht.
    + rewrite split_on_app by apply Hab. by rewrite Hs.
    + constructor; [|done]. unfold slen, a. rewrite length_stake. lia.
  - exists text, [], text. rewrite unwrap_none, split_on_word by done. split_and!; try done.
    right. by apply last_blank_None.
Qed.

(** Wrapping a line terminates and loses nothing: turning the breaks back into
    blanks gives the line, every line but the last is shorter than the limit,
    and the last one is too unless no blank comes before the limit (then the
    rest of the text stays on it). *)
Theorem wrapText_spec text columns :
  has_char nl_char text = false ->
  wrap_go (S (String.length text)) text columns newline <> None /\
  map_chars unwrap (wrapText text columns newline) = text /\
  exists init last, split_on nl_char (wrapText text columns newline) = init ++ [last] /\
    Forall (fun l => slen l < columns) init /\ fits_or_unbreakable columns last.
Proof.
  intros Hn. unfold wrapText.
  destruct (wrap_go_spec (S (String.length text)) text columns) as (r & init & last & -> & Hm & Hrest); [lia|done|].
  split; [done|]. split; [done|]. by exists init, last.
Qed.

Lemma wrapText_spec_witness :
  map_chars unwrap (wrapText lorem 10 newline) = lorem /\
  split_on nl_char (wrapText lorem 10 newline) = ["Lorem"; "ipsum"; "dolor sit"; "amet,"; "consetetur sadipscing elitr"].
Proof. split; [|vm_refl]. apply (wrapText_spec lorem 10). vm_refl. Defined.

(** ** Cutting the text to the panel *)

Lemma has_char_stake c n s : has_char c s = false -> has_char c (stake n s) = false.
Proof.
  revert s. induction n as [|n IH]; intros [|d s]; try done. rewrite stake_cons. cbn [has_char].
  intros [? ?]%orb_false_elim. apply orb_false_intro; [done|by apply IH].
Qed.

Lemma has_suffix_app a b : has_suffix (a +:+ b) b = true.
Proof.
  assert (Hb : has_suffix b b = true) by (destruct b; cbn; by rewrite bool_decide_true).
  induction a as [|c a IH]; [done|]. rewrite string_app_cons. cbn [has_suffix]. by rewrite IH, orb_true_r.
Qed.

Lemma split_nth_no_sep sep s n : has_char sep (nth n (split_on sep s) "") = false.
Proof.
  destruct (nth_in_or_default n (split_on sep s) "") as [Hin| ->]; [|done].
  apply list_elem_of_In in Hin. by apply (proj1 (Forall_forall _ _) (split_on_no_sep sep s)).
Qed.

(** What is left of the line that is cut. *)
Lemma truncated_last maxColumns lastLine :
  maxColumns <= 0 \/ 4 <= maxColumns -> has_char nl_char lastLine = false ->
  exists last,
    (if (0 <? maxColumns) && (maxColumns <? slen lastLine + slen truncateSuffix)
     then cut (maxColumns - slen truncateSuffix) lastLine else Ok lastLine) = Ok last /\
    has_char nl_char last = false /\ (0 < maxColumns -> slen (last +:+ truncateSuffix) <= maxColumns).
Proof.
  intros Hc Hn. change (slen truncateSuffix) with 4.
  assert (Hlen : forall a, slen (a +:+ truncateSuffix) = slen a + 4).
  { intros a. unfold slen. rewrite <- !length_chars, chars_app, length_app. cbn. lia. }
  destruct (Z.ltb_spec 0 maxColumns) as [Hp|Hp]; cbn [andb]; [|exists lastLine; split_and!; [done|done|lia]].
  destruct (Z.ltb_spec maxColumns (slen lastLine + 4)) as [Hl|Hl].
  - unfold cut. rewrite (proj2 (Z.ltb_ge _ _)) by lia. rewrite (proj2 (Z.ltb_ge _ _)) by lia. cbn [orb].
    eexists. split; [done|]. split; [by apply has_char_stake|]. intros _. rewrite Hlen. unfold slen.
    rewrite length_stake. unfold slen in Hl. lia.
  - exists lastLine. split; [done|]. split; [done|]. intros _. rewrite Hlen. lia.
Qed.

(** On a panel of at least one row, and of at least four columns (or
    unlimited), formatting does not panic and fills at most the rows: text that
    fits is kept, longer text keeps its first lines and a last one that ends in
    " ..." within the columns. *)
Theorem formatContent_fits (content : string) (maxColumns maxRows : Z) (wrap : bool) :
  1 <= maxRows -> maxColumns <= 0 \/ 4 <= maxColumns ->
  let c := if wrap then wrap_content content maxColumns else content in
  let ls := split_on nl_char c in
  exists s, formatContent content maxColumns maxRows wrap true = Ok s /\
    (Z.of_nat (length ls) <= maxRows -> s = c) /\
    (maxRows < Z.of_nat (length ls) -> exists last,
       split_on nl_char s = take (Z.to_nat (maxRows - 1)) ls ++ [last +:+ truncateSuffix] /\
       (0 < maxColumns -> slen (last +:+ truncateSuffix) <= maxColumns)).
Proof.
  intros Hr Hc c ls. unfold formatContent, truncate_content. fold c. fold ls.
  destruct (Z.ltb_spec maxRows (Z.of_nat (length ls))) as [Hl|Hl].
  - cbv zeta. rewrite (proj2 (Z.ltb_ge _ _)) by lia.
    destruct (truncated_last maxColumns (nth (Z.to_nat (maxRows - 1)) ls "") Hc) as (last & -> & Hn & Hw);
      [apply split_nth_no_sep|]. cbn [mbind result_bind].
    eexists. split; [done|]. split; [lia|]. intros _. exists last. split; [|done]. apply join_split_on.
    + by intros [_ Habs]%app_nil.
    + apply Forall_app. split; [apply Forall_take, split_on_no_sep|]. constructor; [|done].
      by rewrite has_char_app, Hn.
  - eexists. split; [done|]. split; [|lia]. intros _. unfold ls, newline. apply split_on_join.
Qed.

Lemma formatContent_fits_witness :
  exists s last, formatContent lorem 10 4 true true = Ok s /\
    split_on nl_char s = ["Lorem"; "ipsum"; "dolor sit"; last +:+ truncateSuffix].
Proof.
  destruct (formatContent_fits lorem 10 4 true) as (s & Hs & _ & H); [lia|by right|].
  destruct H as (last & Hl & _); [apply Z.ltb_lt; vm_refl|]. exists s, last. split; [exact Hs|].
  rewrite Hl. vm_refl.
Defined.

(** On a panel of one to three columns a line that must be cut is sliced with a
    negative bound, and the installer panics. *)
Lemma formatContent_narrow_panics : formatContent (n1 ["abc"; "def"]) 3 1 true true = Panic.
Proof. vm_refl. Qed.

(** ** Splitting output into lines *)

Lemma index_byte_None c s : index_byte c s = None <-> has_char c s = false.
Proof.
  induction s as [|d s IH]; cbn; [done|]. rewrite orb_false_iff, bool_decide_eq_false.
  case_bool_decide as Hd; [naive_solver|]. destruct (index_byte c s); naive_solver.
Qed.

Lemma split_on_index c s : split_on c s =
  match index_byte c s with Some i => stake i s :: split_on c (sdrop (S i) s) | None => [s] end.
Proof.
  induction s as [|d s IH]; [done|]. cbn [split_on index_byte]. case_bool_decide as Hd.
  - rewrite sdrop_cons. change (sdrop 0 s) with (of_chars (chars s)). by rewrite of_chars_chars.
  - rewrite IH. by destruct (index_byte c s).
Qed.

Lemma dropCR_id s : has_char "013" s = false -> dropCR s = s.
Proof.
  intros Hs. unfold dropCR. assert (H : has_suffix s (String "013" "") = false).
  { induction s as [|c s IH]; [done|]. cbn in Hs |- *. apply orb_false_elim in Hs as [Hc Hs].
    rewrite (IH Hs), orb_false_r. apply bool_decide_eq_false in Hc. apply bool_decide_eq_false. congruence. }
  by rewrite H.
Qed.

Lemma has_char_sdrop c n s : has_char c s = false -> has_char c (sdrop n s) = false.
Proof.
  revert s. induction n as [|n IH]; intros [|d s]; try done.
  - intros H. change (sdrop 0 (String d s)) with (of_chars (chars (String d s))). by rewrite of_chars_chars.
  - rewrite sdrop_cons. cbn [has_char]. intros [_ Hs]%orb_false_elim. by apply IH.
Qed.

(** The lines of a text: a final line break does not start another one. *)
Definition lines_of (s : string) : list string :=
  let ls := split_on nl_char s in
  if bool_decide (List.last ls "" = "") then removelast ls else ls.

Lemma lines_of_index s : s <> "" ->
  lines_of s = match index_byte nl_char s with
               | Some i => stake i s :: lines_of (sdrop (S i) s)
               | None => [s]
               end.
Proof.
  intros Hne. unfold lines_of. rewrite (split_on_index nl_char s).
  destruct (index_byte nl_char s) as [i|] eqn:E; [|cbn; by rewrite bool_decide_false].
  destruct (split_on_cons nl_char (sdrop (S i) s)) as (w & ws & ->). cbv zeta.
  change (List.last (stake i s :: w :: ws) "") with (List.last (w :: ws) "").
  change (removelast (stake i s :: w :: ws)) with (stake i s :: removelast (w :: ws)).
  by destruct (bool_decide _).
Qed.

Lemma scan_all_lines fuel s :
  (String.length s < fuel)%nat -> has_char "013" s = false -> scan_all fuel s = Some (lines_of s).
Proof.
  revert s. induction fuel as [|fuel IH]; intros s Hf Hs; [lia|]. cbn [scan_all]. unfold ScanLines.
  destruct (decide (s = "")) as [->|Hne]; [done|]. rewrite (bool_decide_false (s = "")) by done. cbn [andb].
  rewrite (proj2 (index_byte_None "013" s) Hs), (lines_of_index s Hne).
  destruct (index_byte nl_char s) as [i|] eqn:E.
  - rewrite dropCR_id by (by apply has_char_stake). rewrite IH; [done| |by apply has_char_sdrop].
    rewrite length_sdrop. destruct s; [done|]. cbn [String.length] in *. lia.
  - rewrite dropCR_id by done. destruct fuel as [|fuel]; [destruct s; [done|cbn in Hf; lia]|].
    assert (Hd : sdrop (String.length s) s = "").
    { unfold sdrop. by rewrite <- length_chars, drop_all. }
    rewrite Hd. done.
Qed.

(** The output of a command without carriage returns is shown line by line,
    whatever its length: the scanner stops, with exactly the lines of the text. *)
Theorem tokens_lines s : has_char "013" s = false ->
  scan_all (S (String.length s)) s = Some (lines_of s) /\ tokens s = lines_of s.
Proof. intros Hs. unfold tokens. rewrite scan_all_lines by (done || lia). done. Qed.

Lemma tokens_lines_witness : tokens (n1 ["a"; ""; "b"; ""]) = ["a"; ""; "b"].
Proof. rewrite (proj2 (tokens_lines (n1 ["a"; ""; "b"; ""]) eq_refl)). vm_refl. Defined.

(** A carriage return is looked for first, so that the lines before one come
    out as a single token. *)
Lemma ScanLines_carriage_return : tokens (n1 ["a"; "b"] +:+ String "013" "c") = [n1 ["a"; "b"]; "c"].
Proof. vm_refl. Qed.
