(* ===== verification/Pipes.v ===== *)
(** * Pipes: reading the output of a command ([execute], [apply], [doUpgrade],
      [printToPanelAndLog], [printToPanel] of [pkg/console/util.go])

    A command writes byte by byte to two pipes that hold at most [cap] bytes; a
    write to a full pipe waits.  A bufio.Scanner reads a pipe: it takes a token
    from its buffer when the split function finds one, reads more bytes, however
    many come at once, when it does not, and gives up when the buffer holds
    [max] bytes without a token.

    A token is printed before the scanner goes on ([printToPanel]): the goroutine
    sends a function to the main loop and waits on a channel; the main loop takes
    any of the functions that wait, writes to the panel and releases the
    goroutine.  When the panel is not there the function is an error, which ends
    the main loop: nobody is released any more.

    [execute] and [apply] read the two pipes in a goroutine each, which print in
    turn, with a lock ([printToPanelAndLog]); [doUpgrade] reads the second pipe
    when the first one is at its end, without a lock ([sequential]). *)
From Stdlib Require Import Arith Lia Ascii String.
From stdpp Require Import base tactics list strings sets.
From S2P Require Import Prelude GoStrings Text.

Inductive stream : Set := Stdout | Stderr.
#[export] Instance stream_eq_dec : EqDecision stream.
Proof. solve_decision. Defined.

(** [bufio.ScanLines], which [doUpgrade] splits with. *)
Definition bufio_ScanLines (data : string) (atEOF : bool) : nat * option string :=
  if atEOF && bool_decide (data = "") then (0, None)
  else match index_byte nl_char data with
  | Some i => (S i, Some (dropCR (stake i data)))
  | None => if atEOF then (String.length data, Some (dropCR data)) else (0, None)
  end.

Section pipes.
Context (split : string -> bool -> nat * option string) (cap max : nat) (sequential : bool).

(** Where a goroutine is: looking for a token, with one that is not sent yet,
    at the channel, or past it. *)
Inductive printer : Set := Idle | Holding (token : string) | Blocked | Released.
(** A pipe, the bytes written and not read, and the scanner that reads it. *)
Record pipe := mkPipe { pi_data : list ascii; pi_buf : list ascii; pi_eof : bool; pi_done : bool; pi_print : printer }.
(** The functions that wait for the main loop, the lock, whether the panel is
    there and the main loop runs. *)
Record sys := mkSys {
  y_child : list (stream * ascii); y_out : pipe; y_err : pipe;
  y_queue : list (stream * string); y_lock : option stream;
  y_there : bool; y_loop : bool;
  y_panel : list (stream * string)
}.
Definition get_pipe (s : stream) (y : sys) : pipe := match s with Stdout => y_out y | Stderr => y_err y end.
Definition put_pipe (s : stream) (p : pipe) (y : sys) : sys :=
  match s with
  | Stdout => mkSys (y_child y) p (y_err y) (y_queue y) (y_lock y) (y_there y) (y_loop y) (y_panel y)
  | Stderr => mkSys (y_child y) (y_out y) p (y_queue y) (y_lock y) (y_there y) (y_loop y) (y_panel y)
  end.
Definition put_child (c : list (stream * ascii)) (y : sys) : sys :=
  mkSys c (y_out y) (y_err y) (y_queue y) (y_lock y) (y_there y) (y_loop y) (y_panel y).
(** A goroutine goes on to [r]. *)
Definition put_print (s : stream) (r : printer) (y : sys) : sys :=
  let p := get_pipe s y in put_pipe s (mkPipe (pi_data p) (pi_buf p) (pi_eof p) (pi_done p) r) y.
Definition put_queue (q : list (stream * string)) (y : sys) : sys :=
  mkSys (y_child y) (y_out y) (y_err y) q (y_lock y) (y_there y) (y_loop y) (y_panel y).
Definition put_lock (l : option stream) (y : sys) : sys :=
  mkSys (y_child y) (y_out y) (y_err y) (y_queue y) l (y_there y) (y_loop y) (y_panel y).
Definition put_text (l : list (stream * string)) (y : sys) : sys :=
  mkSys (y_child y) (y_out y) (y_err y) (y_queue y) (y_lock y) (y_there y) (y_loop y) l.
Definition end_loop (y : sys) : sys :=
  mkSys (y_child y) (y_out y) (y_err y) (y_queue y) (y_lock y) (y_there y) false (y_panel y).

(** The command is started with what it is going to write. *)
Definition new_pipe : pipe := mkPipe [] [] false false Idle.
Definition start (output : list (stream * ascii)) : sys := mkSys output new_pipe new_pipe [] None true true [].

(** The command writes a byte; a scanner looks for a token, or reads [k] bytes;
    a goroutine sends its token to the main loop; the main loop takes the
    function [i] of those that wait; a goroutine that was released goes on. *)
Inductive choice : Set := Child | Scan (s : stream) | Read (s : stream) (k : nat) | Print (s : stream) | Loop (i : nat) | Resume (s : stream).
Definition idle (p : pipe) : bool := match pi_print p with Idle => true | _ => false end.
Definition reads (s : stream) (y : sys) : bool :=
  negb (pi_done (get_pipe s y)) && idle (get_pipe s y) &&
  match s with Stdout => true | Stderr => negb sequential || pi_done (y_out y) end.

Definition child_step (y : sys) : option sys :=
  match y_child y with
  | (s, c) :: rest =>
      let p := get_pipe s y in
      if length (pi_data p) <? cap
      then Some (put_pipe s (mkPipe (pi_data p ++ [c]) (pi_buf p) (pi_eof p) (pi_done p) (pi_print p)) (put_child rest y))
      else None
  | [] => None
  end.
Definition scan_step (s : stream) (y : sys) : option sys :=
  let p := get_pipe s y in
  if negb (reads s y) then None
  else match split (of_chars (pi_buf p)) (pi_eof p) with
  | (n, Some token) => Some (put_pipe s (mkPipe (pi_data p) (drop n (pi_buf p)) (pi_eof p) (pi_done p) (Holding token)) y)
  | (_, None) => if pi_eof p then Some (put_pipe s (mkPipe (pi_data p) (pi_buf p) true true Idle) y) else None
  end.
Definition read_step (s : stream) (k : nat) (y : sys) : option sys :=
  let p := get_pipe s y in
  if negb (reads s y) || pi_eof p then None
  else match split (of_chars (pi_buf p)) false with
  | (_, Some _) => None
  | (_, None) =>
      if max <=? length (pi_buf p) then Some (put_pipe s (mkPipe (pi_data p) (pi_buf p) false true Idle) y)
      else match pi_data p with
      | [] => match y_child y with [] => Some (put_pipe s (mkPipe [] (pi_buf p) true false Idle) y) | _ => None end
      | _ =>
          if (1 <=? k) && (k <=? length (pi_data p)) && (k <=? max - length (pi_buf p))
          then Some (put_pipe s (mkPipe (drop k (pi_data p)) (pi_buf p ++ take k (pi_data p)) false false Idle) y)
          else None
      end
  end.

(** [lock.Lock()], which waits while the lock is taken, and the call of
    [g.Update] in [printToPanel]. *)
Definition takes_lock (s : stream) (y : sys) : option (option stream) :=
  if sequential then Some (y_lock y) else match y_lock y with None => Some (Some s) | Some _ => None end.
Definition print_step (s : stream) (y : sys) : option sys :=
  match pi_print (get_pipe s y), takes_lock s y with
  | Holding token, Some l => Some (put_print s Blocked (put_lock l (put_queue (y_queue y ++ [(s, token)]) y)))
  | _, _ => None
  end.
(** The function that [printToPanel] sends: it writes, or fails when the view is
    unknown, and meets the goroutine at the channel in any case. *)
Definition loop_step (i : nat) (y : sys) : option sys :=
  match y_queue y !! i with
  | Some (s, message) =>
      match y_loop y, pi_print (get_pipe s y) with
      | true, Blocked =>
          let y' := put_print s Released (put_queue (delete i (y_queue y)) y) in
          Some (if y_there y then put_text (y_panel y ++ [(s, message)]) y' else end_loop y')
      | _, _ => None
      end
  | None => None
  end.
(** [printToPanel] returns; [lock.Unlock()]. *)
Definition resume_step (s : stream) (y : sys) : option sys :=
  match pi_print (get_pipe s y) with
  | Released => Some (put_print s Idle (put_lock (if sequential then y_lock y else None) y))
  | _ => None
  end.
Definition step (c : choice) (y : sys) : option sys :=
  match c with
  | Child => child_step y
  | Scan s => scan_step s y
  | Read s k => read_step s k y
  | Print s => print_step s y
  | Loop i => loop_step i y
  | Resume s => resume_step s y
  end.
Definition steps (cs : list choice) (y : sys) : option sys := foldl (fun o c => y ← o; step c y) (Some y) cs.

(** The command has ended, and both scanners: [execute] goes on to wait for the
    command, [doUpgrade] returns. *)
Definition finished (y : sys) : Prop := y_child y = [] /\ pi_done (y_out y) = true /\ pi_done (y_err y) = true.
Definition stuck (y : sys) : Prop := forall c, step c y = None.
Definition bytes_of (s : stream) (l : list (stream * ascii)) : list ascii := map snd (filter (fun x => fst x = s) l).
Definition messages_of (s : stream) (l : list (stream * string)) : list string := map snd (filter (fun x => fst x = s) l).
Definition tokens_of (s : stream) (y : sys) : list string := messages_of s (y_panel y).
End pipes.
Arguments bytes_of : simpl never.
Arguments messages_of : simpl never.
Arguments tokens_of : simpl never.

(** ** What a split function finds *)

(** [ended l c]: a line [l] that the byte [c] ends; [open l]: no line ends in [l]. *)
Class LineSplit (split : string -> bool -> nat * option string) (ended : list ascii -> ascii -> Prop) (opened : list ascii -> Prop) := {
  split_spec b e :
    (opened b /\ (e = true -> b = []) /\ snd (split (of_chars b) e) = None) \/
    (exists l c r, b = l ++ c :: r /\ ended l c /\ split (of_chars b) e = (S (length l), Some (dropCR (of_chars l)))) \/
    (e = true /\ b <> [] /\ opened b /\ split (of_chars b) e = (length b, Some (dropCR (of_chars b))))
}.
Definition cr_char : ascii := "013"%char.
(** A line of [ScanLines] ends at the first carriage return among the bytes that
    were read, and at the first newline if there is none. *)
Definition ended_cr (l : list ascii) (c : ascii) : Prop := (cr_char ∉ l) /\ (c = cr_char \/ c = nl_char /\ (nl_char ∉ l)).
Definition open_cr (l : list ascii) : Prop := (cr_char ∉ l) /\ nl_char ∉ l.
Definition ended_nl (l : list ascii) (c : ascii) : Prop := c = nl_char /\ nl_char ∉ l.
Definition open_nl (l : list ascii) : Prop := nl_char ∉ l.

Lemma index_byte_list c l :
  match index_byte c (of_chars l) with
  | Some i => exists a b, l = a ++ c :: b /\ (c ∉ a) /\ i = length a
  | None => c ∉ l
  end.
Proof.
  induction l as [|d l IH]; [set_solver|]. cbn. fold (of_chars l). case_bool_decide as Hd.
  - subst. exists [], l. split; [done|]. split; [set_solver|done].
  - destruct (index_byte c (of_chars l)) as [i|]; cbn [fmap option_fmap option_map].
    + destruct IH as (a & b & -> & Hn & ->). exists (d :: a), b. split; [done|]. split; [|done]. intros [->|?]%elem_of_cons; done.
    + intros [->|?]%elem_of_cons; done.
Qed.
Lemma stake_list a b : stake (length a) (of_chars (a ++ b)) = of_chars a.
Proof. unfold stake. by rewrite chars_of_chars, take_app_length. Qed.
Lemma length_of_chars l : String.length (of_chars l) = length l.
Proof. induction l as [|c l IH]; [done|]. exact (f_equal S IH). Qed.
Lemma of_chars_nil l : bool_decide (of_chars l = "") = bool_decide (l = []).
Proof. apply bool_decide_ext. by destruct l. Qed.

#[export] Instance ScanLines_split : LineSplit ScanLines ended_cr open_cr.
Proof.
  split. intros b e. unfold ScanLines. rewrite of_chars_nil.
  destruct (e && bool_decide (b = [])) eqn:E.
  { apply andb_true_iff in E as [_ ->%bool_decide_eq_true]. left. by repeat split; try set_solver. }
  pose proof (index_byte_list cr_char b) as Hc. unfold cr_char in Hc. destruct (index_byte "013" (of_chars b)) as [i|].
  { destruct Hc as (l & r & -> & Hn & ->). right. left. exists l, cr_char, r. rewrite stake_list. split; [done|]. by split; [split; [|left]|]. }
  pose proof (index_byte_list nl_char b) as Hl. destruct (index_byte nl_char (of_chars b)) as [i|].
  { destruct Hl as (l & r & -> & Hn & ->). right. left. exists l, nl_char, r. rewrite stake_list. split; [done|].
    split; [split; [|by right]|done]. intros Hx. apply Hc. apply elem_of_app. by left. }
  destruct e; cbn in E; [|left; by repeat split].
  right. right. apply bool_decide_eq_false in E. rewrite length_of_chars. by repeat split.
Qed.
#[export] Instance bufio_split : LineSplit bufio_ScanLines ended_nl open_nl.
Proof.
  split. intros b e. unfold bufio_ScanLines. rewrite of_chars_nil.
  destruct (e && bool_decide (b = [])) eqn:E.
  { apply andb_true_iff in E as [_ ->%bool_decide_eq_true]. left. split; [unfold open_nl; set_solver|done]. }
  pose proof (index_byte_list nl_char b) as Hl. destruct (index_byte nl_char (of_chars b)) as [i|].
  { destruct Hl as (l & r & -> & Hn & ->). right. left. exists l, nl_char, r. rewrite stake_list. split; [done|]. by split. }
  destruct e; cbn in E; [|left; by repeat split].
  right. right. apply bool_decide_eq_false in E. rewrite length_of_chars. by repeat split.
Qed.

(** ** Runs *)

Section runs.
Context {split : string -> bool -> nat * option string} {ended : list ascii -> ascii -> Prop} {opened : list ascii -> Prop}
  `{!LineSplit split ended opened}.
Context (cap max : nat) (sequential : bool).
Notation step := (step split cap max sequential).
Notation steps := (steps split cap max sequential).
Notation stuck := (stuck split cap max sequential).

Lemma steps_app cs cs' y y' : steps cs y = Some y' -> steps (cs ++ cs') y = steps cs' y'.
Proof. unfold Pipes.steps. rewrite foldl_app. by intros ->. Qed.
Lemma steps_none cs : foldl (fun o c => y ← o; step c y) None cs = None.
Proof. by induction cs. Qed.
Lemma steps_cons c cs y y' : steps (c :: cs) y = Some y' <-> exists y1, step c y = Some y1 /\ steps cs y1 = Some y'.
Proof.
  unfold Pipes.steps. cbn [foldl mbind option_bind]. destruct (step c y) as [y1|].
  - split; [by exists y1|]. by intros (? & [= <-] & ?).
  - rewrite steps_none. split; [done|]. by intros (? & ? & _).
Qed.
(** An invariant of the steps. *)
Lemma steps_inv (I : sys -> Prop) : (forall c y y', I y -> step c y = Some y' -> I y') ->
  forall cs y y', I y -> steps cs y = Some y' -> I y'.
Proof.
  intros Hs cs. induction cs as [|c cs IH]; intros y y' Hy; [by intros [= <-]|].
  intros (y1 & E1 & E2)%steps_cons. eauto.
Qed.

(** *** Every run ends *)

Definition to_print (r : printer) : nat := match r with Idle => 0 | Released => 1 | Blocked => 2 | Holding _ => 3 end.
Definition weigh (p : pipe) : nat :=
  5 * length (pi_data p) + 4 * length (pi_buf p) + (if pi_eof p then 0 else 1) + (if pi_done p then 0 else 2) + to_print (pi_print p).
Definition weight (y : sys) : nat := 6 * length (y_child y) + weigh (y_out y) + weigh (y_err y).

Lemma reads_true s y : reads sequential s y = true -> pi_done (get_pipe s y) = false /\ pi_print (get_pipe s y) = Idle.
Proof.
  unfold reads, idle. intros [[Hd%negb_true_iff Hi]%andb_true_iff _]%andb_true_iff. split; [done|]. by destruct (pi_print _).
Qed.
Lemma scan_weight s y y' : scan_step split sequential s y = Some y' -> weight y' < weight y.
Proof.
  unfold scan_step. destruct (reads sequential s y) eqn:Er; cbn [negb]; [|done]. apply reads_true in Er as [Hd Hi].
  pose proof (split_spec (pi_buf (get_pipe s y)) (pi_eof (get_pipe s y))) as Hs.
  destruct (split _ _) as [n [t|]].
  - intros [= <-]. assert (Hn : 0 < n <= length (pi_buf (get_pipe s y))).
    { destruct Hs as [(_ & _ & [=])|[(l & c & r & -> & _ & [= -> _])|(_ & Hb & _ & [= -> _])]].
      - rewrite length_app. cbn. lia.
      - destruct (pi_buf _); [done|cbn; lia]. }
    destruct s; unfold weight, weigh; cbn in *; rewrite length_drop, Hi; cbn; lia.
  - destruct (pi_eof (get_pipe s y)) eqn:Ee; [|done]. intros [= <-].
    destruct s; unfold weight, weigh; cbn in *; rewrite Hd, Hi; cbn; lia.
Qed.
Lemma read_weight s k y y' : read_step split max sequential s k y = Some y' -> weight y' < weight y.
Proof.
  unfold read_step. destruct (negb (reads sequential s y) || pi_eof (get_pipe s y)) eqn:Er; [done|].
  apply orb_false_iff in Er as [Er%negb_false_iff He]. apply reads_true in Er as [Hd Hi].
  destruct (split _ _) as [n [t|]]; [done|]. destruct (max <=? _) eqn:Em.
  { intros [= <-]. destruct s; unfold weight, weigh; cbn in *; rewrite Hd, He, Hi; cbn; lia. }
  destruct (pi_data (get_pipe s y)) as [|c l] eqn:Ed.
  - destruct (y_child y); [|done]. intros [= <-]. destruct s; unfold weight, weigh; cbn in *; rewrite Hd, He, Hi, Ed; cbn; lia.
  - destruct (_ && _) eqn:Ek; [|done]. rewrite <- Ed in *. rewrite !andb_true_iff, !Nat.leb_le in Ek. intros [= <-].
    destruct s; unfold weight, weigh; cbn in *; rewrite Hd, He, Hi, length_app, length_drop, length_take; cbn [to_print]; cbv iota; lia.
Qed.
Lemma child_weight y y' : child_step cap y = Some y' -> weight y' < weight y.
Proof.
  unfold child_step. destruct (y_child y) as [|[s c] rest] eqn:Ec; [done|]. destruct (_ <? cap); [|done]. intros [= <-].
  destruct s; unfold weight, weigh; cbn; rewrite Ec, length_app; cbn; lia.
Qed.
(** The steps that print. *)
Lemma weigh_print s r y : to_print r < to_print (pi_print (get_pipe s y)) -> weight (put_print s r y) < weight y.
Proof. destruct s; unfold weight, weigh; cbn; lia. Qed.
Lemma print_weight s y y' : print_step sequential s y = Some y' -> weight y' < weight y.
Proof.
  unfold print_step. destruct (pi_print (get_pipe s y)) eqn:Ep; try done. destruct (takes_lock _ _ _); [|done]. intros [= <-].
  change (weight y) with (weight (put_lock o (put_queue (y_queue y ++ [(s, token)]) y))). apply weigh_print. destruct s; cbn in *; rewrite Ep; cbn; lia.
Qed.
Lemma loop_weight i y y' : loop_step i y = Some y' -> weight y' < weight y.
Proof.
  unfold loop_step. destruct (y_queue y !! i) as [[s m]|]; [|done]. destruct (y_loop y); [|done]. destruct (pi_print (get_pipe s y)) eqn:Ep; try done.
  intros [= <-]. assert (W : weight (put_print s Released (put_queue (delete i (y_queue y)) y)) < weight y).
  { change (weight y) with (weight (put_queue (delete i (y_queue y)) y)). apply weigh_print. destruct s; cbn in *; rewrite Ep; cbn; lia. }
  destruct (y_there y); exact W.
Qed.
Lemma resume_weight s y y' : resume_step sequential s y = Some y' -> weight y' < weight y.
Proof.
  unfold resume_step. destruct (pi_print (get_pipe s y)) eqn:Ep; try done. intros [= <-].
  set (l := if sequential then _ else _). change (weight y) with (weight (put_lock l y)). apply weigh_print. destruct s; cbn in *; rewrite Ep; cbn; lia.
Qed.
Lemma step_weight c y y' : step c y = Some y' -> weight y' < weight y.
Proof. destruct c; [apply child_weight|apply scan_weight|apply read_weight|apply print_weight|apply loop_weight|apply resume_weight]. Qed.
Lemma steps_weight cs y y' : steps cs y = Some y' -> length cs + weight y' <= weight y.
Proof.
  revert y. induction cs as [|c cs IH]; intros y; [intros [= <-]; cbn; lia|].
  intros (y1 & E1 & E2)%steps_cons. apply step_weight in E1. apply IH in E2. cbn [length]. lia.
Qed.

(** *** What the panel shows *)

(** The lines of the bytes of a stream, as printed: each one without its end and
    without a carriage return before it. *)
Inductive lines : list ascii -> list string -> Prop :=
| lines_nil : lines [] []
| lines_snoc u ts l c : lines u ts -> ended l c -> lines (u ++ l ++ [c]) (ts ++ [dropCR (of_chars l)]).
Definition printed (u : list ascii) (ts : list string) : Prop :=
  lines u ts \/ exists v l ts', u = v ++ l /\ lines v ts' /\ l <> [] /\ opened l /\ ts = ts' ++ [dropCR (of_chars l)].

(** A stream whose lines fit the buffer. *)
Definition short (u : list ascii) : Prop := forall a l b, u = a ++ l ++ b -> opened l -> length l < max.

Context (output : list (stream * ascii)).
(** The tokens of a stream: on the panel, sent to the main loop, and not sent yet. *)
Definition held (p : pipe) : list string := match pi_print p with Holding token => [token] | _ => [] end.
Definition said (s : stream) (y : sys) : list string := tokens_of s y ++ messages_of s (y_queue y) ++ held (get_pipe s y).
Record ok (s : stream) (y : sys) : Prop := {
  ok_bytes : exists u, bytes_of s output = u ++ pi_buf (get_pipe s y) ++ pi_data (get_pipe s y) ++ bytes_of s (y_child y) /\
    (lines u (said s y) \/ pi_eof (get_pipe s y) = true /\ pi_buf (get_pipe s y) = [] /\ printed (bytes_of s output) (said s y));
  ok_eof : pi_eof (get_pipe s y) = true -> pi_data (get_pipe s y) = [] /\ y_child y = [];
  ok_done : pi_done (get_pipe s y) = true -> pi_eof (get_pipe s y) = true /\ pi_buf (get_pipe s y) = [] /\ pi_print (get_pipe s y) = Idle
}.
(** A goroutine waits for the one function it has sent, and has the lock from
    then until it is released. *)
Record orderly (s : stream) (y : sys) : Prop := {
  od_queue : length (messages_of s (y_queue y)) = (match pi_print (get_pipe s y) with Blocked => 1 | _ => 0 end);
  od_lock : sequential = false -> y_lock y = Some s <-> pi_print (get_pipe s y) = Blocked \/ pi_print (get_pipe s y) = Released;
  od_there : y_there y = true;
  od_loop : y_loop y = true
}.

Lemma bytes_of_nil s : bytes_of s [] = [].
Proof. done. Qed.
Lemma bytes_of_cons s s' c rest : bytes_of s ((s', c) :: rest) = (if bool_decide (s' = s) then [c] else []) ++ bytes_of s rest.
Proof.
  unfold bytes_of. rewrite filter_cons. cbn [fst].
  by destruct (decide (s' = s)); [rewrite bool_decide_eq_true_2|rewrite bool_decide_eq_false_2].
Qed.
Lemma get_put s s' p y : get_pipe s (put_pipe s' p y) = if bool_decide (s = s') then p else get_pipe s y.
Proof. by destruct s, s'. Qed.
Lemma get_put_child s c y : get_pipe s (put_child c y) = get_pipe s y.
Proof. by destruct s. Qed.
Lemma messages_of_app s l l' : messages_of s (l ++ l') = messages_of s l ++ messages_of s l'.
Proof. unfold messages_of. by rewrite filter_app, map_app. Qed.
Lemma messages_of_cons s s' m l : messages_of s ((s', m) :: l) = (if bool_decide (s' = s) then [m] else []) ++ messages_of s l.
Proof.
  unfold messages_of. rewrite filter_cons. cbn [fst].
  by destruct (decide (s' = s)); [rewrite bool_decide_eq_true_2|rewrite bool_decide_eq_false_2].
Qed.
Lemma messages_of_one s s' m : messages_of s [(s', m)] = if bool_decide (s' = s) then [m] else [].
Proof. rewrite messages_of_cons. apply app_nil_r. Qed.

(** A step of a goroutine on its pipe. *)
Lemma said_put s s' p y : said s (put_pipe s' p y) = tokens_of s y ++ messages_of s (y_queue y) ++ held (if bool_decide (s = s') then p else get_pipe s y).
Proof. unfold said. rewrite get_put. by destruct s'. Qed.
Lemma said_idle s y : pi_print (get_pipe s y) = Idle -> said s y = tokens_of s y ++ messages_of s (y_queue y).
Proof. intros Hi. unfold said, held. by rewrite Hi, app_nil_r. Qed.
Lemma child_put s p y : y_child (put_pipe s p y) = y_child y.
Proof. by destruct s. Qed.
Lemma ok_other s s' p y : s <> s' -> ok s y -> ok s (put_pipe s' p y).
Proof.
  intros Hn [(u & Hu & Hl) He Hd].
  assert (Ep : get_pipe s (put_pipe s' p y) = get_pipe s y) by (by rewrite get_put, bool_decide_eq_false_2).
  assert (Et : said s (put_pipe s' p y) = said s y) by (by rewrite said_put, bool_decide_eq_false_2).
  split; rewrite ?Ep, ?child_put, ?Et; [by exists u|done|done].
Qed.
Lemma ok_scanned s p y : pi_print (get_pipe s y) = Idle ->
  (exists u, bytes_of s output = u ++ pi_buf p ++ pi_data p ++ bytes_of s (y_child y) /\
    (lines u (said s y ++ held p) \/ pi_eof p = true /\ pi_buf p = [] /\ printed (bytes_of s output) (said s y ++ held p))) ->
  (pi_eof p = true -> pi_data p = [] /\ y_child y = []) -> (pi_done p = true -> pi_eof p = true /\ pi_buf p = [] /\ pi_print p = Idle) ->
  ok s (put_pipe s p y).
Proof.
  intros Hi Hu He Hd.
  assert (Ep : get_pipe s (put_pipe s p y) = p) by (by rewrite get_put, bool_decide_eq_true_2).
  assert (Et : said s (put_pipe s p y) = said s y ++ held p) by (by rewrite said_put, bool_decide_eq_true_2, said_idle, app_assoc).
  by split; rewrite ?Ep, ?child_put, ?Et.
Qed.
(** The steps that print, and those of the command, move nothing between the lines. *)
Lemma ok_same s y y' : ok s y -> bytes_of s (y_child y') = bytes_of s (y_child y) -> (y_child y = [] -> y_child y' = []) ->
  pi_data (get_pipe s y') = pi_data (get_pipe s y) -> pi_buf (get_pipe s y') = pi_buf (get_pipe s y) ->
  pi_eof (get_pipe s y') = pi_eof (get_pipe s y) -> pi_done (get_pipe s y') = pi_done (get_pipe s y) ->
  (pi_print (get_pipe s y) = Idle -> pi_print (get_pipe s y') = Idle) -> said s y' = said s y -> ok s y'.
Proof.
  intros [(u & Hu & Hl) He Hd] Eb Ec E1 E2 E3 E4 E5 Es. split; rewrite ?E1, ?E2, ?E3, ?E4, ?Es, ?Eb; [by exists u|naive_solver|naive_solver].
Qed.

Lemma ok_start s : ok s (start output).
Proof. split; [|by destruct s..]. exists []. destruct s; (split; [done|left; constructor]). Qed.
Lemma ok_child s y y' : ok s y -> child_step cap y = Some y' -> ok s y'.
Proof.
  unfold child_step. destruct (y_child y) as [|[s' c] rest] eqn:Ec; [done|]. destruct (_ <? cap); [|done].
  intros Hy [= <-]. set (p := get_pipe s' y). destruct (decide (s = s')) as [<-|Hn].
  2: { apply ok_other; [done|]. apply (ok_same s y); rewrite ?get_put_child; try done; [|by rewrite Ec].
       cbn. by rewrite Ec, bytes_of_cons, bool_decide_eq_false_2 by congruence. }
  destruct Hy as [(u & Hu & Hl) He Hd].
  assert (Hne : pi_eof p = false) by (unfold p; destruct (pi_eof (get_pipe s y)); [destruct (He eq_refl); congruence|done]).
  assert (Hnd : pi_done p = false) by (unfold p in *; destruct (pi_done (get_pipe s y)); [destruct (Hd eq_refl); congruence|done]).
  assert (Hl' : lines u (said s y)) by (destruct Hl as [Hl|(Hl & _)]; [done|unfold p in Hne; congruence]).
  assert (Es : said s (put_pipe s (mkPipe (pi_data p ++ [c]) (pi_buf p) (pi_eof p) (pi_done p) (pi_print p)) (put_child rest y)) = said s y).
  { rewrite said_put, bool_decide_eq_true_2 by done. reflexivity. }
  split; rewrite ?Es, ?get_put, ?bool_decide_eq_true_2, ?child_put by done; cbn [pi_data pi_buf pi_eof pi_done pi_print y_child put_child]; [|congruence..].
  exists u. split; [|by left]. rewrite Hu, Ec, bytes_of_cons, bool_decide_eq_true_2 by done. by rewrite <- !app_assoc.
Qed.

Lemma ok_scan s s' y y' : ok s y -> scan_step split sequential s' y = Some y' -> ok s y'.
Proof.
  unfold scan_step. destruct (reads sequential s' y) eqn:Er; cbn [negb]; [|done]. apply reads_true in Er as [Hnd Hi].
  pose proof (split_spec (pi_buf (get_pipe s' y)) (pi_eof (get_pipe s' y))) as Hs.
  destruct (decide (s = s')) as [<-|Hn].
  2:{ destruct (split _ _) as [n [t|]]; [|destruct (pi_eof _); [|done]]; intros Hy [= <-]; by apply ok_other. }
  intros [(u & Hu & Hl) He Hd].
  destruct Hs as [(Ho & Hb & E)|[(l & c & r & Hb & Hend & E)|(Hte & Hb & Ho & E)]].
  - destruct (split _ _) as [n o]. cbn in E. subst o. destruct (pi_eof (get_pipe s y)) eqn:Ee; [|done]. intros [= <-].
    apply ok_scanned; unfold held; cbn [pi_data pi_buf pi_eof pi_done pi_print]; [done| |done|auto].
    exists u. by rewrite app_nil_r.
  - rewrite E. intros [= <-]. apply ok_scanned; unfold held; cbn [pi_data pi_buf pi_eof pi_done pi_print]; [done| |done|congruence].
    assert (Hl' : lines u (said s y)) by (destruct Hl as [Hl|(_ & Hb' & _)]; [done|rewrite Hb' in Hb; by destruct l]).
    exists (u ++ l ++ [c]). split; [|left; by constructor].
    rewrite Hu, Hb. change (c :: r) with ([c] ++ r). rewrite (app_assoc l [c] r), drop_app_length'; [by rewrite <- !app_assoc|].
    rewrite length_app. cbn. lia.
  - rewrite E. intros [= <-]. apply ok_scanned; unfold held; cbn [pi_data pi_buf pi_eof pi_done pi_print]; [done| |done|congruence].
    assert (Hl' : lines u (said s y)) by (by destruct Hl as [Hl|(_ & Hb' & _)]).
    destruct (He Hte) as [Hdata Hchild]. exists (u ++ pi_buf (get_pipe s y)). rewrite drop_all.
    split; [by rewrite Hu, <- !app_assoc|]. right. split; [done|]. split; [done|]. right.
    exists u, (pi_buf (get_pipe s y)), (said s y). split; [|done]. rewrite Hu, Hdata, Hchild, bytes_of_nil. cbn. by rewrite app_nil_r.
Qed.
Lemma ok_read s s' k y y' : short (bytes_of s' output) -> ok s' y -> ok s y -> read_step split max sequential s' k y = Some y' -> ok s y'.
Proof.
  intros Hs Hy'. unfold read_step. destruct (negb (reads sequential s' y) || pi_eof (get_pipe s' y)) eqn:Er; [done|].
  apply orb_false_iff in Er as [Er%negb_false_iff He]. apply reads_true in Er as [Hnd Hi].
  pose proof (split_spec (pi_buf (get_pipe s' y)) false) as Hspec. destruct (split _ _) as [n [t|]]; [done|].
  assert (Ho : opened (pi_buf (get_pipe s' y))) by (by destruct Hspec as [(Ho & _ & _)|[(? & ? & ? & _ & _ & [=])|(? & _)]]).
  destruct Hy' as [(u' & Hu' & Hl') _ _]. rewrite (proj2 (Nat.leb_gt _ _)) by (by apply (Hs u' _ _ Hu')).
  assert (K : forall p, y' = put_pipe s' p y -> (s = s' -> ok s y -> ok s (put_pipe s' p y)) -> ok s y -> ok s y').
  { intros p -> Hk Hy. destruct (decide (s = s')) as [->|Hn]; [by apply Hk|by apply ok_other]. }
  destruct (pi_data (get_pipe s' y)) as [|c l] eqn:Ed.
  - destruct (y_child y) as [|] eqn:Ec; [|done]. intros Hy [= <-]. eapply K; [reflexivity| |done].
    intros -> [(u & Hu & Hl) _ _]. apply ok_scanned; unfold held; cbn [pi_data pi_buf pi_eof pi_done pi_print]; [done| |done|done].
    exists u. rewrite app_nil_r. rewrite Ed, Ec in *. split; [done|]. left. destruct Hl as [Hl|(Hf & _)]; [done|congruence].
  - rewrite <- Ed. destruct (_ && _); [|done]. intros Hy [= <-]. eapply K; [reflexivity| |done].
    intros -> [(u & Hu & Hl) _ _]. apply ok_scanned; unfold held; cbn [pi_data pi_buf pi_eof pi_done pi_print]; [done| |done|done].
    exists u. rewrite app_nil_r. split; [|left; destruct Hl as [Hl|(Hf & _)]; [done|congruence]].
    rewrite Hu, <- !app_assoc. do 2 f_equal. by rewrite (app_assoc (take k _)), take_drop.
Qed.

(** The printing steps: a token stays among those that were said, in its place. *)
Lemma ok_printed s s' r y y' : ok s y -> y_child y' = y_child y -> get_pipe s y' = get_pipe s (put_print s' r y) ->
  pi_print (get_pipe s' y) <> Idle -> said s y' = said s y -> ok s y'.
Proof.
  intros Hy Ec Ep Hn Es. unfold put_print in Ep. rewrite get_put in Ep.
  destruct (decide (s = s')) as [<-|Hne]; [rewrite bool_decide_eq_true_2 in Ep by done|rewrite bool_decide_eq_false_2 in Ep by done];
    (apply (ok_same s y); rewrite ?Ec, ?Ep; done).
Qed.
Lemma ok_print s s' y y' : ok s y -> print_step sequential s' y = Some y' -> ok s y'.
Proof.
  intros Hy. unfold print_step. destruct (pi_print (get_pipe s' y)) eqn:Ep; try done. destruct (takes_lock _ _ _) as [l|]; [|done].
  intros [= <-]. apply (ok_printed s s' Blocked y); try done; [by destruct s'|by destruct s, s'|congruence|].
  unfold put_print. rewrite said_put. change (y_queue (put_lock _ _)) with (y_queue y ++ [(s', token)]).
  rewrite messages_of_app, messages_of_one, <- app_assoc. unfold said. f_equal. f_equal. unfold held at 2.
  destruct (decide (s = s')) as [<-|Hn].
  - rewrite !bool_decide_eq_true_2, Ep by done. reflexivity.
  - rewrite !bool_decide_eq_false_2 by congruence. by destruct s, s'.
Qed.
Lemma ok_loop s i y y' : (forall s, orderly s y) -> ok s y -> loop_step i y = Some y' -> ok s y'.
Proof.
  intros Ho Hy. unfold loop_step. destruct (y_queue y !! i) as [[s' m]|] eqn:Ei; [|done].
  rewrite (od_loop _ _ (Ho s)), (od_there _ _ (Ho s)). destruct (pi_print (get_pipe s' y)) eqn:Ep; try done. intros [= <-].
  apply (ok_printed s s' Released y); try done; [by destruct s'|by destruct s, s'|congruence|].
  pose proof (od_queue _ _ (Ho s')) as Hq. rewrite Ep in Hq. apply take_drop_middle in Ei. rewrite delete_take_drop.
  set (a := take i _) in *. set (b := drop (S i) _) in *. unfold said, tokens_of. rewrite <- Ei in Hq |- *.
  change (y_panel (put_text ?l _)) with l. change (y_queue (put_text _ (put_print _ _ (put_queue (a ++ b) y)))) with (y_queue (put_print s' Released (put_queue (a ++ b) y))).
  replace (y_queue (put_print s' Released (put_queue (a ++ b) y))) with (a ++ b) by (by destruct s').
  rewrite !messages_of_app, !messages_of_cons, <- !app_assoc. f_equal. change (messages_of s []) with (@nil string).
  rewrite messages_of_app, messages_of_cons, bool_decide_eq_true_2, !length_app in Hq by done. cbn in Hq.
  destruct (decide (s' = s)) as [->|Hn].
  - rewrite !bool_decide_eq_true_2 by done. rewrite (nil_length_inv (messages_of s a)), (nil_length_inv (messages_of s b)) by lia. cbn.
    f_equal. unfold held. rewrite Ep. by destruct s.
  - rewrite !bool_decide_eq_false_2 by done. cbn. by destruct s, s'.
Qed.
Lemma ok_resume s s' y y' : ok s y -> resume_step sequential s' y = Some y' -> ok s y'.
Proof.
  intros Hy. unfold resume_step. destruct (pi_print (get_pipe s' y)) eqn:Ep; try done. intros [= <-].
  apply (ok_printed s s' Idle y); try done; [by destruct s'|by destruct s, s'|congruence|].
  unfold put_print. rewrite said_put. unfold said. do 2 f_equal. unfold held at 2.
  destruct (decide (s = s')) as [<-|Hn]; [by rewrite bool_decide_eq_true_2, Ep|]. rewrite bool_decide_eq_false_2 by done. by destruct s.
Qed.

(** The order of the prints. *)
Lemma orderly_start s : orderly s (start output).
Proof. split; try done; destruct s; cbn; try done; by intros _; split; [|intros [|]]. Qed.
Lemma orderly_same s y y' : orderly s y -> y_queue y' = y_queue y -> y_lock y' = y_lock y -> y_there y' = y_there y -> y_loop y' = y_loop y ->
  (pi_print (get_pipe s y') = pi_print (get_pipe s y) \/
   pi_print (get_pipe s y) = Idle /\ (pi_print (get_pipe s y') = Idle \/ exists t, pi_print (get_pipe s y') = Holding t)) -> orderly s y'.
Proof.
  intros [H1 H2 H3 H4] E1 E2 E3 E4 Ep. split; rewrite ?E1, ?E2, ?E3, ?E4; try done.
  - destruct Ep as [-> |[E [-> |[t ->]]]]; rewrite ?E in H1; done.
  - intros Hq. specialize (H2 Hq). destruct Ep as [-> |[E [-> |[t ->]]]]; rewrite ?E in H2; [done|done|].
    rewrite H2. split; intros [|]; done.
Qed.
Lemma orderly_scanned s s' p y : (forall s, orderly s y) -> pi_print (get_pipe s' y) = Idle -> (pi_print p = Idle \/ exists t, pi_print p = Holding t) ->
  orderly s (put_pipe s' p y).
Proof.
  intros Ho Hi Hp. apply (orderly_same s y); [done|by destruct s'..|]. rewrite get_put. destruct (bool_decide (s = s')) eqn:E; [|by left].
  apply bool_decide_eq_true in E as ->. by right.
Qed.
Lemma orderly_step c y y' : (forall s, orderly s y) -> step c y = Some y' -> forall s, orderly s y'.
Proof.
  intros Ho E s. destruct c as [|s'|s' k|s'|i|s']; cbn [Pipes.step] in E.
  - unfold child_step in E. destruct (y_child y) as [|[s' c] rest]; [done|]. destruct (_ <? cap); [|done]. injection E as <-.
    apply (orderly_same s y); [done|by destruct s'..|]. left. by destruct s, s'.
  - unfold scan_step in E. destruct (reads sequential s' y) eqn:Er; cbn [negb] in E; [|done]. apply reads_true in Er as [_ Hi].
    destruct (split _ _) as [n [t|]]; [|destruct (pi_eof _); [|done]]; injection E as <-; apply orderly_scanned; cbn; eauto.
  - unfold read_step in E. destruct (reads sequential s' y) eqn:Er; cbn [negb orb] in E; [|done]. apply reads_true in Er as [_ Hi].
    destruct (pi_eof _); [done|]. destruct (split _ _) as [n [t|]]; [done|].
    destruct (max <=? _); [|destruct (pi_data _); [destruct (y_child y)|destruct (_ && _)]]; try done; injection E as <-; apply orderly_scanned; cbn; eauto.
  - unfold print_step in E. destruct (pi_print (get_pipe s' y)) eqn:Ep; try done. destruct (takes_lock _ _ _) as [l|] eqn:El; [|done]. injection E as <-.
    pose proof (Ho s) as [H1 H2 H3 H4]. pose proof (od_queue _ _ (Ho s')) as Hq. rewrite Ep in Hq.
    assert (Ep' : pi_print (get_pipe s (put_print s' Blocked (put_lock l (put_queue (y_queue y ++ [(s', token)]) y)))) =
      if bool_decide (s = s') then Blocked else pi_print (get_pipe s y)) by (by destruct s, s').
    split; rewrite ?Ep'; [| |by destruct s'..].
    + replace (y_queue _) with (y_queue y ++ [(s', token)]) by (by destruct s'). rewrite messages_of_app, messages_of_one, length_app.
      destruct (decide (s = s')) as [->|Hn]; [rewrite !bool_decide_eq_true_2 by done; cbn; lia|]. rewrite !bool_decide_eq_false_2 by congruence. cbn. lia.
    + intros Es. unfold takes_lock in El. rewrite Es in El. destruct (y_lock y) eqn:Ey; [done|]. injection El as <-.
      replace (y_lock _) with (Some s') by (by destruct s').
      destruct (decide (s = s')) as [->|Hn]; [rewrite bool_decide_eq_true_2 by done; by split; [left|]|]. rewrite bool_decide_eq_false_2 by done.
      rewrite <- (H2 Es). split; [congruence|done].
  - unfold loop_step in E. destruct (y_queue y !! i) as [[s' m]|] eqn:Ei; [|done].
    rewrite (od_loop _ _ (Ho s)), (od_there _ _ (Ho s)) in E. destruct (pi_print (get_pipe s' y)) eqn:Ep; try done. injection E as <-.
    pose proof (Ho s) as [H1 H2 H3 H4]. pose proof (od_queue _ _ (Ho s')) as Hq. rewrite Ep in Hq.
    assert (Ep' : pi_print (get_pipe s (put_text (y_panel y ++ [(s', m)]) (put_print s' Released (put_queue (delete i (y_queue y)) y)))) =
      if bool_decide (s = s') then Released else pi_print (get_pipe s y)) by (by destruct s, s').
    split; rewrite ?Ep'; [| |by destruct s'..].
    + replace (y_queue _) with (delete i (y_queue y)) by (by destruct s'). apply take_drop_middle in Ei. rewrite delete_take_drop.
      rewrite <- Ei in Hq, H1. rewrite messages_of_app, messages_of_cons, !length_app in Hq, H1. rewrite messages_of_app, length_app.
      destruct (decide (s = s')) as [->|Hn]; [rewrite !bool_decide_eq_true_2 in * by done; cbn in *; lia|].
      rewrite !bool_decide_eq_false_2 in * by congruence. cbn in *. lia.
    + intros Es. replace (y_lock _) with (y_lock y) by (by destruct s'). specialize (H2 Es).
      destruct (decide (s = s')) as [->|Hn]; [rewrite bool_decide_eq_true_2 by done|by rewrite bool_decide_eq_false_2].
      rewrite Ep in H2. rewrite H2. by split; [right|left].
  - unfold resume_step in E. destruct (pi_print (get_pipe s' y)) eqn:Ep; try done. injection E as <-. set (l := if sequential then _ else _).
    pose proof (Ho s) as [H1 H2 H3 H4]. pose proof (od_queue _ _ (Ho s')) as Hq. rewrite Ep in Hq.
    assert (Ep' : pi_print (get_pipe s (put_print s' Idle (put_lock l y))) = if bool_decide (s = s') then Idle else pi_print (get_pipe s y)) by (by destruct s, s').
    split; rewrite ?Ep'; [| |by destruct s'..].
    + replace (y_queue _) with (y_queue y) by (by destruct s').
      destruct (decide (s = s')) as [->|Hn]; [by rewrite bool_decide_eq_true_2|by rewrite bool_decide_eq_false_2].
    + intros Es. replace (y_lock _) with l by (by destruct s'). unfold l. rewrite Es. split; [done|].
      pose proof (od_lock _ _ (Ho s') Es) as H2'. rewrite Ep in H2'. destruct H2' as [_ Hs']. specialize (Hs' (or_intror eq_refl)).
      destruct (decide (s = s')) as [->|Hn]; [rewrite bool_decide_eq_true_2 by done; by intros [|]|]. rewrite bool_decide_eq_false_2 by done.
      rewrite <- (H2 Es). congruence.
Qed.

Definition ok_sys (y : sys) : Prop := forall s, ok s y /\ orderly s y.
Lemma ok_sys_step c y y' : (forall s, short (bytes_of s output)) -> ok_sys y -> step c y = Some y' -> ok_sys y'.
Proof.
  intros Hs Hy E s. assert (Ho : forall s, orderly s y) by (intros; apply Hy). split; [|by eapply orderly_step].
  destruct (Hy s) as [Hk _]. destruct c as [|s'|s' k|s'|i|s']; cbn in E; eauto using ok_child, ok_scan, ok_print, ok_loop, ok_resume.
  destruct (Hy s'). eauto using ok_read.
Qed.
Lemma ok_sys_start : ok_sys (start output).
Proof. intros s. split; [apply ok_start|apply orderly_start]. Qed.
Lemma ok_sys_steps cs y : (forall s, short (bytes_of s output)) -> steps cs (start output) = Some y -> ok_sys y.
Proof.
  intros Hs E. revert E. apply (steps_inv ok_sys (fun c y y' Hy E => ok_sys_step c y y' Hs Hy E) cs (start output) y). apply ok_sys_start.
Qed.

(** *** No run waits *)

Lemma busy_moves s y : orderly s y -> pi_print (get_pipe s y) = Blocked \/ pi_print (get_pipe s y) = Released -> exists c, step c y <> None.
Proof.
  intros [Hq _ _ Hl] [Hp|Hp]; [|exists (Resume s); cbn; unfold resume_step; by rewrite Hp].
  rewrite Hp in Hq. destruct (messages_of s (y_queue y)) as [|m l] eqn:Em; [done|].
  assert (Hin : m ∈ messages_of s (y_queue y)) by (rewrite Em; left). unfold messages_of in Hin.
  apply list_elem_of_fmap in Hin as ([s' m'] & -> & [Hs Hin]%list_elem_of_filter). cbn in Hs. subst s'.
  apply list_elem_of_lookup in Hin as [i Hi]. exists (Loop i). cbn. unfold loop_step. by rewrite Hi, Hl, Hp.
Qed.
Lemma printer_moves s y : (forall s, orderly s y) -> pi_print (get_pipe s y) <> Idle -> exists c, step c y <> None.
Proof.
  intros Ho Hi. destruct (pi_print (get_pipe s y)) as [|t| |] eqn:Ep; [done| |apply (busy_moves s); auto..].
  destruct (takes_lock sequential s y) as [l|] eqn:El; [exists (Print s); cbn; unfold print_step; by rewrite Ep, El|].
  unfold takes_lock in El. assert (Es : sequential = false) by (revert El; clear; by destruct sequential). rewrite Es in El.
  destruct (y_lock y) as [s'|] eqn:Ey; [|done]. apply (busy_moves s'); [done|]. by apply (od_lock _ _ (Ho s') Es).
Qed.

Lemma moves s y : short (bytes_of s output) -> ok s y -> reads sequential s y = true ->
  pi_data (get_pipe s y) <> [] \/ y_child y = [] -> exists c, step c y <> None.
Proof.
  intros Hs [(u & Hu & _) He _] Hr Hd.
  pose proof (split_spec (pi_buf (get_pipe s y)) (pi_eof (get_pipe s y))) as Hspec.
  destruct (pi_eof (get_pipe s y)) eqn:Ee.
  { exists (Scan s). cbn. unfold scan_step. rewrite Hr, Ee. cbn [negb]. by destruct (split _ _) as [n [t|]]. }
  destruct Hspec as [(Ho & _ & E)|[(l & c & r & _ & _ & E)|(? & _)]]; [|by exists (Scan s); cbn; unfold scan_step; rewrite Hr, Ee, E|done].
  exists (Read s 1). cbn. unfold read_step. rewrite Hr, Ee. cbn [negb orb]. destruct (split _ _) as [n o]. cbn in E. subst o.
  rewrite (proj2 (Nat.leb_gt _ _)) by (by apply (Hs u _ _ Hu)). assert (Hm : length (pi_buf (get_pipe s y)) < max) by (by apply (Hs u _ _ Hu)).
  destruct (pi_data (get_pipe s y)) as [|d l]; [destruct Hd as [?|Hd]; [done|by rewrite Hd]|].
  replace (_ && _) with true; [done|]. symmetry. rewrite !andb_true_iff, !Nat.leb_le. cbn. lia.
Qed.

(** While the second pipe is not read, it holds all that is written to it. *)
Definition roomy (y : sys) : Prop :=
  sequential = true -> pi_done (y_out y) = false -> length (pi_data (y_err y)) + length (bytes_of Stderr (y_child y)) <= cap.

Lemma stuck_finished y : 0 < cap -> (forall s, short (bytes_of s output)) -> ok_sys y -> roomy y -> stuck y -> finished y.
Proof.
  intros Hc Hs Hsys Hroom Hst. assert (Hy : forall s, ok s y) by (intros; apply Hsys).
  assert (Hi : forall s, idle (get_pipe s y) = true).
  { intros s. assert (Hp : ~ pi_print (get_pipe s y) <> Idle).
    { intros Hn. destruct (printer_moves s y (fun s => proj2 (Hsys s)) Hn) as [c Hm]. apply Hm, Hst. }
    unfold idle. destruct (pi_print _); [done|by destruct Hp..]. }
  pose proof (Hi Stdout) as Hi1. pose proof (Hi Stderr) as Hi2. cbn [get_pipe] in Hi1, Hi2.
  assert (M : forall s, reads sequential s y = true -> ~ (pi_data (get_pipe s y) <> [] \/ y_child y = [])).
  { intros s Hr Hd. destruct (moves s y (Hs s) (Hy s) Hr Hd) as [c Hm]. apply Hm, Hst. }
  destruct (y_child y) as [|[s c] rest] eqn:Ec.
  - assert (Hout : pi_done (y_out y) = true).
    { destruct (pi_done (y_out y)) eqn:E; [done|]. exfalso. apply (M Stdout); [unfold reads; cbn; by rewrite E, Hi1|by right]. }
    split; [done|]. split; [done|]. destruct (pi_done (y_err y)) eqn:E; [done|]. exfalso.
    apply (M Stderr); [unfold reads; cbn; by rewrite E, Hi2, Hout, orb_true_r|by right].
  - exfalso. pose proof (Hst Child) as Hch. cbn in Hch. unfold child_step in Hch. rewrite Ec in Hch. destruct (_ <? cap) eqn:El; [done|].
    apply Nat.ltb_ge in El.
    assert (Hnd : pi_done (get_pipe s y) = false).
    { destruct (pi_done (get_pipe s y)) eqn:E; [|done]. destruct (Hy s) as [_ He Hd]. destruct (Hd E) as [E2 _]. destruct (He E2). congruence. }
    apply (M s); [|left; intros Hn; rewrite Hn in El; cbn in El; lia].
    unfold reads. rewrite Hnd, Hi. destruct s; [done|]. cbn [negb andb]. destruct sequential eqn:Eq; [|done]. cbn.
    destruct (pi_done (y_out y)) eqn:E; [done|]. pose proof (Hroom Eq E) as Hr. rewrite Ec, bytes_of_cons, bool_decide_eq_true_2, length_app in Hr by done. cbn [length get_pipe] in Hr, El. lia.
Qed.

(** The steps that print leave the pipes alone. *)
Definition prints (c : choice) : bool := match c with Print _ | Loop _ | Resume _ => true | _ => false end.
Lemma prints_step c y y' : prints c = true -> step c y = Some y' ->
  y_child y' = y_child y /\ forall s, pi_data (get_pipe s y') = pi_data (get_pipe s y) /\ pi_done (get_pipe s y') = pi_done (get_pipe s y).
Proof.
  destruct c as [|s|s k|s|i|s]; intros Hp E; try discriminate Hp; cbn in E.
  - unfold print_step in E. destruct (pi_print _); try done. destruct (takes_lock _ _ _); [|done]. injection E as <-. split; [by destruct s|]. by intros []; destruct s.
  - unfold loop_step in E. destruct (y_queue y !! i) as [[s m]|]; [|done]. destruct (y_loop y); [|done]. destruct (pi_print _); try done. injection E as <-.
    destruct (y_there y); (split; [by destruct s|]; by intros []; destruct s).
  - unfold resume_step in E. destruct (pi_print _); try done. injection E as <-. split; [by destruct s|]. by intros []; destruct s.
Qed.

(** What a step leaves alone while the second pipe is not read. *)
Lemma step_unread c y y' : sequential = true -> pi_done (y_out y) = false -> step c y = Some y' ->
  length (pi_data (y_err y')) + length (bytes_of Stderr (y_child y')) = length (pi_data (y_err y)) + length (bytes_of Stderr (y_child y)) /\
  (length (pi_data (y_err y)) <= cap -> length (pi_data (y_err y')) <= cap) /\
  (pi_done (y_out y') = true -> pi_eof (y_out y) = true \/ max <= length (pi_buf (y_out y))).
Proof.
  intros Hq Hd. assert (Hr : forall s, reads sequential s y = true -> s = Stdout).
  { intros [] Hr; [done|]. unfold reads in Hr. rewrite Hq, Hd in Hr. cbn in Hr. by rewrite andb_false_r in Hr. }
  destruct (prints c) eqn:Hp.
  { intros E. destruct (prints_step c y y' Hp E) as [Ec Ep]. destruct (Ep Stdout) as [_ E1], (Ep Stderr) as [E2 _]. cbn in E1, E2.
    rewrite E1, E2, Ec. split; [done|]. split; [done|congruence]. }
  destruct c as [|s|s k| | |]; try discriminate Hp; clear Hp; cbn.
  - unfold child_step. destruct (y_child y) as [|[s c] rest] eqn:Ec; [done|]. destruct (_ <? cap) eqn:El; [|done]. apply Nat.ltb_lt in El.
    intros [= <-]. rewrite bytes_of_cons. destruct s; cbn in *; [rewrite bool_decide_eq_false_2 by done; by rewrite Hd|].
    rewrite bool_decide_eq_true_2, !length_app by done. cbn. rewrite Hd. split_and!; [lia|lia|done].
  - unfold scan_step. destruct (reads sequential s y) eqn:Er; cbn [negb]; [|done]. apply Hr in Er as ->.
    destruct (split _ _) as [n [t|]]; [intros [= <-]; cbn; by rewrite Hd|]. cbn. destruct (pi_eof (y_out y)); [|done].
    intros [= <-]. cbn. auto.
  - unfold read_step. destruct (reads sequential s y) eqn:Er; cbn [negb orb]; [|done]. apply Hr in Er as ->. cbn [get_pipe put_pipe].
    destruct (pi_eof (y_out y)); [done|]. destruct (split _ _) as [n [t|]]; [done|]. destruct (max <=? _) eqn:Em.
    { apply Nat.leb_le in Em. intros [= <-]. cbn. auto. }
    destruct (pi_data (y_out y)); [destruct (y_child y); [|done]; intros [= <-]; by cbn|].
    destruct (_ && _); [|done]. intros [= <-]. by cbn.
Qed.
Lemma roomy_step c y y' : roomy y -> step c y = Some y' -> roomy y'.
Proof.
  intros Hr E Hq Hd. destruct (pi_done (y_out y)) eqn:Hd0.
  - exfalso. destruct (prints c) eqn:Hp.
    { destruct (prints_step c y y' Hp E) as [_ Ep]. destruct (Ep Stdout) as [_ E1]. cbn in E1. congruence. }
    destruct c as [|[]|[] k| | |]; try discriminate Hp; cbn in E.
    + unfold child_step in E. destruct (y_child y) as [|[[] c] rest]; [done|..]; (destruct (_ <? cap); [|done]); injection E as <-; cbn in Hd; congruence.
    + unfold scan_step, reads in E. cbn in E. by rewrite Hd0 in E.
    + unfold scan_step in E. destruct (negb _); [done|]. destruct (split _ _) as [n [t|]]; [|destruct (pi_eof _); [|done]]; injection E as <-; cbn in Hd; congruence.
    + unfold read_step, reads in E. cbn in E. by rewrite Hd0 in E.
    + unfold read_step in E. destruct (_ || _); [done|]. destruct (split _ _) as [n [t|]]; [done|]. destruct (max <=? _); [injection E as <-; cbn in Hd; congruence|].
      destruct (pi_data _); [destruct (y_child y); [|done]|destruct (_ && _); [|done]]; injection E as <-; cbn in Hd; congruence.
  - destruct (step_unread c y y' Hq Hd0 E) as (-> & _ & _). by apply Hr.
Qed.

(** A run goes on until it is stuck. *)
Lemma enabled_or_stuck y : (exists c, step c y <> None) \/ stuck y.
Proof.
  assert (K : forall c, step c y <> None \/ step c y = None) by (intros c; destruct (step c y); [by left|by right]).
  assert (L : (exists i, step (Loop i) y <> None) \/ forall i, step (Loop i) y = None).
  { destruct (decide (Exists (fun i => is_Some (loop_step i y)) (seq 0 (length (y_queue y))))) as [He|He].
    - left. apply Exists_exists in He as (i & _ & x & Hx). exists i. cbn. by rewrite Hx.
    - right. intros i. cbn. destruct (loop_step i y) as [x|] eqn:E; [|done]. exfalso. apply He, Exists_exists. exists i. split; [|by exists x].
      apply elem_of_seq. split; [lia|]. apply lookup_lt_is_Some. unfold loop_step in E. destruct (y_queue y !! i); [by eexists|done]. }
  destruct L as [[i L]|L]; [by left; exists (Loop i)|].
  destruct (K Child), (K (Scan Stdout)), (K (Scan Stderr)), (K (Read Stdout 1)), (K (Read Stderr 1)), (K (Print Stdout)), (K (Print Stderr)),
    (K (Resume Stdout)), (K (Resume Stderr)); try (left; by eexists).
  right. intros c. destruct c as [|[]|s k|[]|i|[]]; try done.
  assert (E : step (Read s 1) y = None) by (by destruct s). revert E. cbn. unfold read_step.
  destruct (_ || _); [done|]. destruct (split _ _) as [n [t|]]; [done|]. destruct (max <=? _) eqn:Em; [done|]. apply Nat.leb_gt in Em.
  destruct (pi_data (get_pipe s y)) as [|d l]; [done|].
  assert (E1 : (1 <=? 1) && (1 <=? length (d :: l)) && (1 <=? max - length (pi_buf (get_pipe s y))) = true).
  { rewrite !andb_true_iff, !Nat.leb_le. cbn. lia. }
  by rewrite E1.
Qed.
Lemma run_to_end y : exists cs y', steps cs y = Some y' /\ stuck y'.
Proof.
  remember (weight y) as n eqn:En. revert y En. induction n as [n IH] using lt_wf_ind. intros y ->.
  destruct (enabled_or_stuck y) as [[c Hc]|Hst]; [|by exists [], y].
  destruct (step c y) as [y1|] eqn:E; [|done]. destruct (IH (weight y1) (step_weight _ _ _ E) y1 eq_refl) as (cs & y2 & E2 & Hst).
  exists (c :: cs), y2. split; [|done]. apply steps_cons. eauto.
Qed.

(** A command that writes more than fits while nobody reads. *)
Record waiting (y : sys) : Prop := {
  wt_open : pi_done (y_out y) = false;
  wt_total : length (pi_data (y_err y)) + length (bytes_of Stderr (y_child y)) = length (bytes_of Stderr output);
  wt_cap : length (pi_data (y_err y)) <= cap
}.
Lemma waiting_step c y y' : sequential = true -> cap < length (bytes_of Stderr output) -> short (bytes_of Stdout output) ->
  ok Stdout y -> waiting y -> step c y = Some y' -> waiting y'.
Proof.
  intros Hq Hn Hs [(u & Hu & Hl) He _] [Ho Ht Hc] E. destruct (step_unread c y y' Hq Ho E) as (Hsum & Hcap & Hdone).
  assert (Hch : y_child y <> []) by (intros E'; rewrite E', bytes_of_nil in Ht; cbn in Ht; lia).
  assert (Hne : pi_eof (y_out y) = false) by (destruct (pi_eof (y_out y)) eqn:E1; [by destruct (He E1)|done]).
  split; [|lia|by apply Hcap]. destruct (pi_done (y_out y')) eqn:E2; [|done]. exfalso.
  destruct (Hdone eq_refl) as [?|Hm]; [congruence|].
  destruct (prints c) eqn:Hp.
  { destruct (prints_step c y y' Hp E) as [_ Ep]. destruct (Ep Stdout) as [_ E1]. cbn in E1. congruence. }
  revert E. destruct c as [|s|s k| | |]; try discriminate Hp; cbn; intros E.
  - unfold child_step in E. destruct (y_child y) as [|[[] c] rest]; [done|..]; (destruct (_ <? cap); [|done]); injection E as <-; cbn in E2; congruence.
  - unfold scan_step in E. destruct (reads sequential s y) eqn:Er; cbn [negb] in E; [|done].
    destruct s; [|unfold reads in Er; rewrite Hq, Ho in Er; cbn in Er; by rewrite andb_false_r in Er].
    cbn [get_pipe] in E. rewrite Hne in E. destruct (split _ _) as [n [t|]]; [|done]. injection E as <-. cbn in E2. congruence.
  - unfold read_step in E. destruct (reads sequential s y) eqn:Er; cbn [negb orb] in E; [|done].
    destruct s; [|unfold reads in Er; rewrite Hq, Ho in Er; cbn in Er; by rewrite andb_false_r in Er].
    cbn [get_pipe] in E. rewrite Hne in E. pose proof (split_spec (pi_buf (y_out y)) false) as Hspec.
    destruct (split _ _) as [n [t|]]; [done|].
    assert (Hop : opened (pi_buf (y_out y))) by (by destruct Hspec as [(Hop & _ & _)|[(? & ? & ? & _ & _ & [=])|(? & _)]]).
    pose proof (Hs u _ _ Hu Hop). cbn in *. lia.
Qed.
End runs.

(** C21: While [execute] or [apply] runs a command whose lines fit the buffer of a scanner, and the panel is there, every
    run is at most six steps per byte and six more long (to write a byte and to read it; to find a line, to send it to the
    main loop, to write it to the panel and to go on), and a run that cannot go on has printed everything: the command has
    ended, both scanners have ended, no function waits for the main loop, and the panel shows, for each of the two streams,
    its lines in order, whichever way the command, the two goroutines and the main loop took turns, whichever function that
    waits the main loop took, and however many bytes came at once. *)
Theorem execute_prints_all cap max output cs y : 0 < cap -> (forall s, short (opened := open_cr) max (bytes_of s output)) ->
  steps ScanLines cap max false cs (start output) = Some y ->
  length cs <= 6 * length output + 6 /\
  (stuck ScanLines cap max false y -> finished y /\ y_queue y = [] /\
    forall s, printed (ended := ended_cr) (opened := open_cr) (bytes_of s output) (tokens_of s y)).
Proof.
  intros Hc Hs E. split.
  - apply steps_weight in E. assert (weight (start output) = 6 * length output + 6) by (unfold weight, weigh; cbn; lia). lia.
  - intros Hst. assert (Hy : ok_sys (ended := ended_cr) (opened := open_cr) false output y) by (by eapply ok_sys_steps).
    assert (Hf : finished y) by (eapply (stuck_finished (split := ScanLines) (ended := ended_cr) (opened := open_cr) cap max false); [done|exact Hs|exact Hy|done|done]).
    assert (Hm : forall s, messages_of s (y_queue y) = []).
    { intros s. destruct (Hy s) as [[_ _ Hd] [Hq _ _ _]], Hf as (_ & H1 & H2). destruct Hd as (_ & _ & Hi); [by destruct s|].
      rewrite Hi in Hq. by apply nil_length_inv. }
    split; [done|]. split.
    + destruct (y_queue y) as [|[s m] q]; [done|]. specialize (Hm s). by rewrite messages_of_cons, bool_decide_eq_true_2 in Hm.
    + intros s. destruct Hf as (Hch & Hd1 & Hd2), (Hy s) as [[(u & Hu & Hl) He Hd] _].
      destruct Hd as (He' & Hb & Hi); [by destruct s|]. destruct (He He') as [Hdata _]. rewrite Hb, Hdata, Hch, bytes_of_nil in Hu. cbn in Hu. rewrite app_nil_r in Hu.
      rewrite said_idle, Hm, app_nil_r in Hl by done. destruct Hl as [Hl|(_ & _ & Hl)]; [left; by rewrite Hu|done].
Qed.

Definition script : list (stream * ascii) :=
  map (pair Stdout) (chars "start") ++ [(Stdout, nl_char)] ++ map (pair Stderr) (chars "no disk") ++ [(Stdout, cr_char); (Stderr, nl_char)].
Lemma short_length opened max u : length u < max -> short (opened := opened) max u.
Proof. intros Hu a l b -> _. rewrite !length_app in Hu. lia. Qed.
Lemma script_short opened s : short (opened := opened) 16 (bytes_of s script).
Proof. apply short_length. destruct s; apply (bool_decide_unpack _); vm_compute; exact I. Qed.
Lemma execute_prints_all_witness : exists cs y, steps ScanLines 4 16 false cs (start script) = Some y /\ finished y /\
  forall s, printed (ended := ended_cr) (opened := open_cr) (bytes_of s script) (tokens_of s y).
Proof.
  destruct (run_to_end (split := ScanLines) 4 16 false (start script)) as (cs & y & E & Hst). exists cs, y. split; [done|].
  destruct (execute_prints_all 4 16 script cs y) as [_ H]; [lia|intros s; apply script_short|exact E|].
  destruct (H Hst) as (Hf & _ & Hp). split; [exact Hf|exact Hp].
Defined.


(** Without the panel the first line ends the main loop, and the second one is
    never printed: its goroutine waits at the channel. *)
Definition two_lines : list (stream * ascii) := [(Stdout, "a"%char); (Stdout, nl_char); (Stdout, "b"%char); (Stdout, nl_char)].
Definition no_panel : sys := mkSys two_lines new_pipe new_pipe [] None false true [].
Definition two_prints : list choice :=
  [Child; Child; Child; Child; Read Stdout 4; Scan Stdout; Print Stdout; Loop 0; Resume Stdout; Scan Stdout; Print Stdout].
Example panel_missing : option_map (fun y => (y_loop y, y_panel y, y_queue y, step ScanLines 4 16 false (Loop 0) y)) (steps ScanLines 4 16 false two_prints no_panel)
  = Some (false, [], [(Stdout, "b")], None).
Proof. vm_refl. Qed.
