(* ===== verification/Gui.v ===== *)
(** * Gui: the views, the focus and the key bindings of the terminal library,
      as the console and its widgets use them
      ([src/vendor/github.com/jroimartin/gocui], gui.go and view.go)

    A view has a place, a buffer of lines, a cursor and an origin.  A key press
    runs every binding of the view that has the focus, in the order they were
    made.  A text is written character by character, so that escape sequences
    stay in the buffer; of the drawing only the rows a line takes are modelled
    ([viewLines]). *)
From Stdlib Require Import ZArith Lia Ascii String.
From stdpp Require Import base tactics list gmap strings.
From S2P Require Import Prelude GoStrings Text.
Local Open Scope Z_scope.

Inductive Key : Set := KeyEnter | KeyEsc | KeyTab | KeySpace | KeyArrowUp | KeyArrowDown | KeyF12 | KeyCtrlC.
#[export] Instance Key_eq_dec : EqDecision Key.
Proof. solve_decision. Defined.
Inductive Attribute : Set := ColorDefault | ColorRed | ColorCyan.

Record View : Set := mkView {
  v_x0 : Z; v_y0 : Z; v_x1 : Z; v_y1 : Z;
  v_ox : Z; v_oy : Z;
  v_cx : Z; v_cy : Z;
  v_lines : list string;
  v_Editable : bool;
  v_FgColor : Attribute;
  v_Wrap : bool
}.
Definition newView (x0 y0 x1 y1 : Z) : View := mkView x0 y0 x1 y1 0 0 0 0 [] false ColorDefault false.

(** ** Views *)

Definition Size (v : View) : Z * Z := (v_x1 v - v_x0 v - 1, v_y1 v - v_y0 v - 1).
Definition put_location (x0 y0 x1 y1 : Z) (v : View) : View :=
  mkView x0 y0 x1 y1 (v_ox v) (v_oy v) (v_cx v) (v_cy v) (v_lines v) (v_Editable v) (v_FgColor v) (v_Wrap v).
Definition put_lines (l : list string) (v : View) : View :=
  mkView (v_x0 v) (v_y0 v) (v_x1 v) (v_y1 v) (v_ox v) (v_oy v) (v_cx v) (v_cy v) l (v_Editable v) (v_FgColor v) (v_Wrap v).
Definition put_cursor (x y : Z) (v : View) : View :=
  mkView (v_x0 v) (v_y0 v) (v_x1 v) (v_y1 v) (v_ox v) (v_oy v) x y (v_lines v) (v_Editable v) (v_FgColor v) (v_Wrap v).
Definition put_origin (x y : Z) (v : View) : View :=
  mkView (v_x0 v) (v_y0 v) (v_x1 v) (v_y1 v) x y (v_cx v) (v_cy v) (v_lines v) (v_Editable v) (v_FgColor v) (v_Wrap v).
Definition put_Editable (b : bool) (v : View) : View :=
  mkView (v_x0 v) (v_y0 v) (v_x1 v) (v_y1 v) (v_ox v) (v_oy v) (v_cx v) (v_cy v) (v_lines v) b (v_FgColor v) (v_Wrap v).
Definition put_FgColor (c : Attribute) (v : View) : View :=
  mkView (v_x0 v) (v_y0 v) (v_x1 v) (v_y1 v) (v_ox v) (v_oy v) (v_cx v) (v_cy v) (v_lines v) (v_Editable v) c (v_Wrap v).

Definition put_Wrap (b : bool) (v : View) : View :=
  mkView (v_x0 v) (v_y0 v) (v_x1 v) (v_y1 v) (v_ox v) (v_oy v) (v_cx v) (v_cy v) (v_lines v) (v_Editable v) (v_FgColor v) b.

Definition invalid_point : error := EMsg "invalid point".
Definition SetCursor (x y : Z) (v : View) : result View :=
  let '(maxX, maxY) := Size v in
  if (x <? 0) || (maxX <=? x) || (y <? 0) || (maxY <=? y) then Err invalid_point else Ok (put_cursor x y v).
Definition SetOrigin (x y : Z) (v : View) : result View :=
  if (x <? 0) || (y <? 0) then Err invalid_point else Ok (put_origin x y v).

(** [v.lines] after one more character. *)
Definition on_last (f : string -> string) (l : list string) : list string :=
  match reverse l with [] => [f ""] | x :: r => reverse (f x :: r) end.
Definition write_char (l : list string) (c : ascii) : list string :=
  if bool_decide (c = nl_char) then l ++ [""]
  else if bool_decide (c = "013"%char) then on_last (fun _ => "") l
  else on_last (fun s => s +:+ String c "") l.
Definition write_lines (l : list string) (s : string) : list string := foldl write_char l (chars s).
Definition Write (s : string) (v : View) : View := put_lines (write_lines (v_lines v) s) v.
Definition Clear (v : View) : View := put_lines [] v.
Definition BufferLines (v : View) : list string := v_lines v.
(** The rows of the screen ([draw]): a line that is as long as the view is wide
    or longer takes several when the view wraps. *)
Definition line_rows (maxX : nat) (line : string) : list string :=
  if (String.length line <? maxX)%nat then [line]
  else map (fun n => stake maxX (sdrop (n * maxX) line)) (seq 0 (String.length line / maxX + 1)).
Definition viewLines (v : View) : list string :=
  if v_Wrap v then concat (map (line_rows (Z.to_nat (fst (Size v)))) (v_lines v)) else v_lines v.

(** ** The library *)

Definition ErrUnknownView : error := EMsg "unknown view".
Definition ErrQuit : error := EMsg "quit".

(** A function queued by [Gui.Update]: the ways the console writes to a view.
    [u_strict]: an unknown view is an error. *)
Record update : Set := mkUpdate {
  u_view : string; u_text : string; u_strict : bool; u_clear : bool; u_focus : bool; u_color : option Attribute
}.

Section gui.
(** What a key is bound to. *)
Context {B : Type}.

Record Gui := mkGui {
  g_maxX : Z; g_maxY : Z;
  g_views : gmap string View;
  g_current : option string;
  g_keybindings : list (string * Key * B);
  g_updates : list update
}.
Notation G := (st Gui).

Definition put_views (vs : gmap string View) (g : Gui) : Gui :=
  mkGui (g_maxX g) (g_maxY g) vs (g_current g) (g_keybindings g) (g_updates g).
Definition put_current (c : option string) (g : Gui) : Gui :=
  mkGui (g_maxX g) (g_maxY g) (g_views g) c (g_keybindings g) (g_updates g).
Definition put_keybindings (k : list (string * Key * B)) (g : Gui) : Gui :=
  mkGui (g_maxX g) (g_maxY g) (g_views g) (g_current g) k (g_updates g).
Definition put_updates (u : list update) (g : Gui) : Gui :=
  mkGui (g_maxX g) (g_maxY g) (g_views g) (g_current g) (g_keybindings g) u.
Definition new_gui (maxX maxY : Z) : Gui := mkGui maxX maxY ∅ None [] [].

Definition GetView (name : string) : G View := fun g =>
  (match g_views g !! name with Some v => Ok v | None => Err ErrUnknownView end, g).
Definition known (name : string) : G bool := fun g => (Ok (bool_decide (is_Some (g_views g !! name))), g).
Definition PutView (name : string) (v : View) : G unit := st_modify (fun g => put_views (<[name := v]> (g_views g)) g).
(** Is the view new ([ErrUnknownView])? *)
Definition SetView (name : string) (x0 y0 x1 y1 : Z) : G bool := fun g =>
  if (x1 <=? x0) || (y1 <=? y0) then (Err (EMsg "invalid dimensions"), g)
  else if bool_decide (name = "") then (Err (EMsg "invalid name"), g)
  else match g_views g !! name with
       | Some v => (Ok false, put_views (<[name := put_location x0 y0 x1 y1 v]> (g_views g)) g)
       | None => (Ok true, put_views (<[name := newView x0 y0 x1 y1]> (g_views g)) g)
       end.
Definition DeleteView (name : string) : G unit := fun g =>
  match g_views g !! name with
  | Some _ => (Ok tt, put_views (delete name (g_views g)) g)
  | None => (Err ErrUnknownView, g)
  end.
Definition SetCurrentView (name : string) : G unit := fun g =>
  match g_views g !! name with
  | Some _ => (Ok tt, put_current (Some name) g)
  | None => (Err ErrUnknownView, g)
  end.
Definition SetKeybinding (name : string) (k : Key) (b : B) : G unit :=
  st_modify (fun g => put_keybindings (g_keybindings g ++ [(name, k, b)]) g).
Definition DeleteKeybindings (name : string) : G unit :=
  st_modify (fun g => put_keybindings (filter (fun kb => fst (fst kb) <> name) (g_keybindings g)) g).
(** Write to a view that is there. *)
Definition on_view (name : string) (f : View -> View) : G unit :=
  v ← GetView name; PutView name (f v).

(** The queue of the main loop: each function is sent by a goroutine of its
    own, so that the loop may take any of those that wait. *)
Definition Update (u : update) : G unit := st_modify (fun g => put_updates (g_updates g ++ [u]) g).
Definition run_update (u : update) : G unit :=
  there ← known (u_view u);
  if negb there then if u_strict u then st_fail ErrUnknownView else mret tt
  else
    _ ← (if u_focus u then SetCurrentView (u_view u) else mret tt);
    on_view (u_view u) (fun v =>
      let v := if u_clear u then Clear v else v in
      let v := match u_color u with Some c => put_FgColor c v | None => v end in
      Write (u_text u) v).

(** What [execKeybindings] runs for a key: the bindings of every view (name
    ""), and of the one with the focus. *)
Definition matching (k : Key) (g : Gui) : list B :=
  map snd (filter (fun kb => snd (fst kb) = k /\ (fst (fst kb) = "" \/ g_current g = Some (fst (fst kb)))) (g_keybindings g)).
Definition text_of (name : string) (g : Gui) : option (list string) := v_lines <$> g_views g !! name.
End gui.
Arguments Gui B : clear implicits.
Notation G B := (st (Gui B)).

(** ** Lemmas *)

Lemma write_lines_app l s t : write_lines l (s +:+ t) = write_lines (write_lines l s) t.
Proof. unfold write_lines. by rewrite chars_app, foldl_app. Qed.

Lemma on_last_snoc f l x : on_last f (l ++ [x]) = l ++ [f x].
Proof. unfold on_last. rewrite reverse_snoc. change (reverse (f x :: reverse l) = l ++ [f x]). by rewrite reverse_cons, reverse_involutive. Qed.

(** Writing plain text at the end of a line, and on an empty view. *)
Definition plain (s : string) : Prop := has_char nl_char s = false /\ has_char "013" s = false.
Lemma write_plain l x s : plain s -> write_lines (l ++ [x]) s = l ++ [x +:+ s].
Proof.
  intros [Hn Hr]. revert x Hn Hr. induction s as [|c s IH]; intros x Hn Hr; [by rewrite string_app_nil_r|].
  cbn [has_char] in Hn, Hr. apply orb_false_iff in Hn as [Hc%bool_decide_eq_false Hn], Hr as [Hd%bool_decide_eq_false Hr].
  change (write_lines (l ++ [x]) (String c s)) with (write_lines (write_char (l ++ [x]) c) s).
  unfold write_char. rewrite !bool_decide_eq_false_2, on_last_snoc by congruence.
  rewrite IH by done. by rewrite string_app_assoc, string_app_cons.
Qed.
Lemma write_plain_first s : plain s -> s <> "" -> write_lines [] s = [s].
Proof.
  intros [Hn Hr]. destruct s as [|c s]; [done|]. intros _.
  cbn [has_char] in Hn, Hr. apply orb_false_iff in Hn as [Hc%bool_decide_eq_false Hn], Hr as [Hd%bool_decide_eq_false Hr].
  change (write_lines [] (String c s)) with (write_lines (write_char [] c) s).
  unfold write_char. rewrite !bool_decide_eq_false_2 by congruence. by apply (write_plain [] (String c "") s).
Qed.

(** Texts printed one per line. *)
Definition println (s : string) : string := s +:+ newline.
Lemma write_println l x s : plain s -> write_lines (l ++ [x]) (println s) = l ++ [x +:+ s; ""].
Proof.
  intros Hs. unfold println. rewrite write_lines_app, write_plain by done.
  change (write_lines ?a newline) with (a ++ [""]). by rewrite <- app_assoc.
Qed.
Lemma write_texts l texts : Forall plain texts ->
  write_lines (l ++ [""]) (String.concat "" (map println texts)) = l ++ texts ++ [""].
Proof.
  intros Ht. revert l. induction Ht as [|t texts Ht _ IH]; intros l; [done|].
  assert (E : String.concat "" (map println (t :: texts)) = println t +:+ String.concat "" (map println texts)).
  { destruct texts; [by rewrite string_app_nil_r|done]. }
  rewrite E, write_lines_app, write_println by done. change (l ++ ["" +:+ t; ""]) with (l ++ [t] ++ [""]).
  rewrite app_assoc, IH. by rewrite <- app_assoc.
Qed.
