(* ===== verification/Widgets.v ===== *)
(** * Widgets: panels, inputs, selects and drop-downs on the terminal library
      ([pkg/widgets])

    The widgets with their places, views, key bindings and cursors.  The
    elements of the pages (Console) keep only what the pages use of them; here
    a choice is made key by key, and WidgetsProofs shows which value it ends with.

    A widget and the terminal are parts of a state [S].  The hooks ([PreShow],
    [PostClose]), the options of a select and the handlers of the pages are
    arguments. *)
From Stdlib Require Import ZArith Lia Ascii String.
From stdpp Require Import base tactics list gmap strings.
From S2P Require Import Prelude GoStrings Text DiskOptions Gui.
Local Open Scope Z_scope.

(** ** A part of the state *)

Record lens (S T : Type) := mkLens { get : S -> T; put : T -> S -> S }.
Arguments mkLens {S T}. Arguments get {S T}. Arguments put {S T}.
Definition zoom {S T A} (l : lens S T) (m : st T A) : st S A := fun s =>
  let '(r, t) := m (get l s) in (r, put l t s).
Definition read {S T} (l : lens S T) : st S T := fun s => (Ok (get l s), s).
Definition modify {S T} (l : lens S T) (f : T -> T) : st S unit := fun s => (Ok tt, put l (f (get l s)) s).
Definition compose {S T U} (l : lens S T) (k : lens T U) : lens S U :=
  mkLens (fun s => get k (get l s)) (fun u s => put l (put k u (get l s)) s).

(** ** Key handlers *)

(** What a key of a widget runs: the handlers of this package, or one of the
    page.  The list of a drop-down is opened at the place the drop-down had
    when its view was made. *)
Inductive binding (H : Type) : Type :=
| BArrowUp | BArrowDown | BToggle
| BOpenList (x0 y0 x1 : Z) | BChoose | BDismiss
| BOwn (h : H).
Arguments BArrowUp {H}. Arguments BArrowDown {H}. Arguments BToggle {H}. Arguments BOpenList {H}.
Arguments BChoose {H}. Arguments BDismiss {H}. Arguments BOwn {H}.

Section widgets.
Context {H : Type}.
Notation gui_state := (Gui (binding H)).
Notation T := (G (binding H)).

Definition isAtTop (v : View) : bool := v_cy v =? 0.
Definition isAtEnd (v : View) : bool :=
  let lines := Z.of_nat (length (BufferLines v)) in
  (lines <? 2) || (v_cy v =? lines - 2).
(** Moving by [d]: the cursor, and the origin when the cursor cannot move. *)
Definition move (name : string) (d : Z) (v : View) : T unit :=
  match SetCursor (v_cx v) (v_cy v + d) v with
  | Ok v' => PutView name v'
  | _ => v' ← st_lift (SetOrigin (v_ox v) (v_oy v + d) v); PutView name v'
  end.
Definition ArrowUp (name : string) : T unit :=
  v ← GetView name; if isAtTop v then mret tt else move name (-1) v.
Definition ArrowDown (name : string) : T unit :=
  v ← GetView name; if isAtEnd v then mret tt else move name 1 v.

(** ** Panels *)

Record Panel := mkPanel {
  pn_Name : string;
  pn_Wrap : bool;
  pn_Focus : bool;
  pn_FgColor : Attribute;
  pn_Content : string;
  pn_X0 : Z; pn_X1 : Z; pn_Y0 : Z; pn_Y1 : Z;
  pn_KeyBindings : list (Key * binding H);
  pn_KeyBindingTips : list (string * string);      (* in the order they are visited *)
  pn_FirstPage : bool
}.
Definition NewPanel (name : string) : Panel := mkPanel name false true ColorDefault "" 0 0 0 0 [] [] false.
Definition SetLocation (x0 y0 x1 y1 : Z) (p : Panel) : Panel :=
  mkPanel (pn_Name p) (pn_Wrap p) (pn_Focus p) (pn_FgColor p) (pn_Content p) x0 x1 y0 y1 (pn_KeyBindings p) (pn_KeyBindingTips p) (pn_FirstPage p).
Definition put_Content (c : string) (p : Panel) : Panel :=
  mkPanel (pn_Name p) (pn_Wrap p) (pn_Focus p) (pn_FgColor p) c (pn_X0 p) (pn_X1 p) (pn_Y0 p) (pn_Y1 p) (pn_KeyBindings p) (pn_KeyBindingTips p)
    (pn_FirstPage p).
Definition put_KeyBindings (k : list (Key * binding H)) (p : Panel) : Panel :=
  mkPanel (pn_Name p) (pn_Wrap p) (pn_Focus p) (pn_FgColor p) (pn_Content p) (pn_X0 p) (pn_X1 p) (pn_Y0 p) (pn_Y1 p) k (pn_KeyBindingTips p)
    (pn_FirstPage p).
Definition put_KeyBindingTips (k : list (string * string)) (p : Panel) : Panel :=
  mkPanel (pn_Name p) (pn_Wrap p) (pn_Focus p) (pn_FgColor p) (pn_Content p) (pn_X0 p) (pn_X1 p) (pn_Y0 p) (pn_Y1 p) (pn_KeyBindings p) k
    (pn_FirstPage p).

Definition bind_keys (name : string) (keys : list (Key * binding H)) : T unit :=
  st_for_each (fun kb => SetKeybinding name (fst kb) (snd kb)) keys.

(** The place of a panel that was given none. *)
Definition default_location (maxX maxY : Z) (p : Panel) : Panel :=
  if (pn_X0 p =? 0) && (pn_X1 p =? 0) && (pn_Y0 p =? 0) && (pn_Y1 p =? 0)
  then SetLocation (Z.quot maxX 8) (Z.quot maxY 8) (Z.quot maxX 8 * 7) (Z.quot maxY 8 * 7) p else p.
Definition add_tip (tips : string) (kt : string * string) : string :=
  (if bool_decide (tips = "<") then tips else tips +:+ ", ") +:+ "Use " +:+ fst kt +:+ " to " +:+ snd kt.
Definition footer_tips (p : Panel) : string :=
  let tips := foldl add_tip ("<" +:+ (if pn_FirstPage p then "" else "Use ESC to go back to previous page")) (pn_KeyBindingTips p) +:+ ">" in
  if bool_decide (tips = "<>") then "" else tips.
Definition footerName : string := "footer".

Section panel.
Context {S : Type} (gui : lens S gui_state) (panel : lens S Panel).

Definition show_tips (p : Panel) : T unit :=
  there ← (known footerName : T bool);
  if (there : bool) then on_view footerName (fun v => Write (footer_tips p) (Clear v)) else mret tt.
Definition make_view (p : Panel) : T unit :=
  new ← (SetView (pn_Name p) (pn_X0 p) (pn_Y0 p) (pn_X1 p) (pn_Y1 p) : T bool);
  if (new : bool) then
    _ ← on_view (pn_Name p) (fun v => Write (pn_Content p) (put_FgColor (pn_FgColor p) (put_Wrap (pn_Wrap p) v)));
    _ ← (if pn_Focus p then SetCurrentView (pn_Name p) else mret tt);
    bind_keys (pn_Name p) (pn_KeyBindings p)
  else mret tt.
Definition Panel_Show (PreShow : st S unit) : st S unit :=
  g ← read gui;
  _ ← modify panel (default_location (g_maxX g) (g_maxY g));
  _ ← PreShow;
  p ← read panel;
  _ ← zoom gui (make_view p);
  zoom gui (show_tips p).
Definition Panel_Close (PostClose : st S unit) : st S unit :=
  p ← read panel;
  there ← zoom gui (known (pn_Name p));
  if (there : bool) then
    _ ← zoom gui (DeleteKeybindings (pn_Name p));
    _ ← zoom gui (DeleteView (pn_Name p));
    PostClose
  else mret tt.
(** The text is shown when the main loop gets to it. *)
Definition Panel_SetContent (content : string) : st S unit :=
  p ← read panel;
  let panelWidth := pn_X1 p - pn_X0 p - 1 in
  let panelHeight := pn_Y1 p - pn_Y0 p - 1 in
  c ← (if (0 <? panelWidth) && (0 <? panelHeight) then st_lift (formatContent content panelWidth panelHeight (pn_Wrap p) true) else mret content);
  _ ← modify panel (put_Content c);
  zoom gui (Update (mkUpdate (pn_Name p) c false true false None)).
End panel.

(** ** Inputs *)

Record Input := mkInput { in_Panel : Panel; in_Value : string }.
Definition input_panel {S} (l : lens S Input) : lens S Panel :=
  compose l (mkLens in_Panel (fun p i => mkInput p (in_Value i))).
Definition NewInput (maxX maxY : Z) (name label : string) : Input :=
  mkInput (mkPanel name false false ColorDefault label (Z.quot maxX 8) (Z.quot maxX 8 * 7) (Z.quot maxY 8) (Z.quot maxY 8 + 3) [] [] false) "".
Definition label_offset (content : string) : Z := if 20 <? slen content then slen content + 1 else 20.

Section input.
Context {S : Type} (gui : lens S gui_state) (input : lens S Input).
Definition inputViewName (i : Input) : string := pn_Name (in_Panel i) +:+ "-input".
Definition Input_SetData (data : string) : st S unit :=
  i ← read input; zoom gui (on_view (inputViewName i) (fun v => Write data (Clear v))).
Definition Input_Show (PreShow : st S unit) : st S unit :=
  _ ← Panel_Show gui (input_panel input) PreShow;
  i ← read input;
  let p := in_Panel i in
  new ← zoom gui (SetView (inputViewName i) (pn_X0 p + label_offset (pn_Content p)) (pn_Y0 p) (pn_X1 p - 1) (pn_Y0 p + 2));
  _ ← (if (new : bool) then zoom gui (_ ← on_view (inputViewName i) (put_Editable true); bind_keys (inputViewName i) (pn_KeyBindings p)) else mret tt);
  _ ← zoom gui (SetCurrentView (inputViewName i));
  Input_SetData (in_Value i).
Definition Input_Close (PostClose : st S unit) : st S unit :=
  i ← read input;
  _ ← zoom gui (DeleteKeybindings (inputViewName i));
  _ ← zoom gui (DeleteView (inputViewName i));
  Panel_Close gui (input_panel input) PostClose.
Definition Input_GetData : st S string :=
  i ← read input;
  v ← zoom gui (GetView (inputViewName i));
  mret (default "" (BufferLines v !! 0%nat)).
End input.

(** ** Selects *)

Record Select := mkSelect {
  sl_Panel : Panel;
  sl_Value : string;
  sl_options : list Option;
  sl_values : list string;
  sl_multi : bool;
  sl_selectedIndexes : list bool
}.
Definition put_sl_Panel (p : Panel) (s : Select) : Select := mkSelect p (sl_Value s) (sl_options s) (sl_values s) (sl_multi s) (sl_selectedIndexes s).
Definition put_sl_Value (x : string) (s : Select) : Select := mkSelect (sl_Panel s) x (sl_options s) (sl_values s) (sl_multi s) (sl_selectedIndexes s).
Definition put_sl_options (o : list Option) (s : Select) : Select := mkSelect (sl_Panel s) (sl_Value s) o (sl_values s) (sl_multi s) (sl_selectedIndexes s).
Definition put_sl_values (x : list string) (s : Select) : Select := mkSelect (sl_Panel s) (sl_Value s) (sl_options s) x (sl_multi s) (sl_selectedIndexes s).
Definition put_sl_indexes (l : list bool) (s : Select) : Select := mkSelect (sl_Panel s) (sl_Value s) (sl_options s) (sl_values s) (sl_multi s) l.
Definition select_panel {S} (l : lens S Select) : lens S Panel := compose l (mkLens sl_Panel put_sl_Panel).
Definition NewSelect (name text : string) : Select := mkSelect (put_Content text (mkPanel name false false ColorDefault "" 0 0 0 0 [] [] false)) "" [] [] false [].

Definition SetMulti (multi : bool) (s : Select) : Select :=
  let p := sl_Panel s in
  let tips := filter (fun kt => fst kt <> "SPACE") (pn_KeyBindingTips p) in
  let p := put_KeyBindingTips (if multi then tips ++ [("SPACE", "select options")] else tips) p in
  mkSelect p (sl_Value s) (sl_options s) (sl_values s) multi (sl_selectedIndexes s).

(** The lines of a list with several choices, and the values that are marked:
    an option without a mark of its own is an index out of range. *)
Fixpoint marked (opts : list Option) (marks : list bool) : result (list string * list string) :=
  match opts, marks with
  | [], _ => Ok ([], [])
  | _ :: _, [] => Panic
  | o :: opts, b :: marks =>
      '(texts, values) ← marked opts marks;
      Ok (("[" +:+ (if b then "x" else " ") +:+ "] " +:+ op_Text o) :: texts, if b then op_Value o :: values else values)
  end.
(** [if len(l) >= cy+1 { l[cy] = !l[cy] }], with another list of that length. *)
Definition flip (i : nat) (l : list bool) : result (list bool) :=
  match l !! i with Some b => Ok (<[i := negb b]> l) | None => Panic end.

Section select.
Context {S : Type} (gui : lens S gui_state) (select : lens S Select) (getOptionsFunc : option (S -> result (list Option))).

Definition options_name (s : Select) : string := pn_Name (sl_Panel s) +:+ "-options".

Definition updateOptions : st S unit :=
  match getOptionsFunc with
  | None => mret tt
  | Some f => fun x =>
      match f x with
      | Ok opts => modify select (put_sl_options opts) x
      | Err e => (Err e, snd (modify select (put_sl_options []) x))
      | Panic => (Panic, x)
      end
  end.

Definition updateSelectedStatus (name : string) : st S unit :=
  _ ← zoom gui (on_view name Clear);
  v ← zoom gui (GetView name);
  v' ← st_lift (SetCursor 1 (v_cy v) v);
  _ ← zoom gui (PutView name v');
  s ← read select;
  '(texts, values) ← st_lift (marked (sl_options s) (sl_selectedIndexes s));
  _ ← zoom gui (on_view name (Write (String.concat "" (map println texts))));
  modify select (fun s => put_sl_Value (join "," values) (put_sl_values values s)).

Definition Select_SetData (data : string) : st S unit :=
  if bool_decide (data = "") then modify select (put_sl_Value "")
  else
    _ ← updateOptions;
    s ← read select;
    match list_find (fun o => op_Value o = data) (sl_options s) with
    | None => st_fail (EMsg ("given data '" +:+ data +:+ "' not found in options"))
    | Some (foundOptIdx, o) =>
        _ ← modify select (put_sl_Value (op_Value o));
        there ← zoom gui (known (options_name s));
        if negb there then mret tt
        else
          v ← zoom gui (GetView (options_name s));
          v' ← st_lift (SetCursor (v_ox v) (v_oy v + Z.of_nat foundOptIdx) v);
          zoom gui (PutView (options_name s) v')
    end.

Definition setOptionsKeyBindings (multi : bool) (viewName : string) : T unit :=
  _ ← SetKeybinding viewName KeyArrowUp BArrowUp;
  _ ← SetKeybinding viewName KeyArrowDown BArrowDown;
  if multi then SetKeybinding viewName KeySpace BToggle else mret tt.

(** The contents of a new list of options. *)
Definition fill_list (name : string) : st S unit :=
  s ← read select;
  if sl_multi s then
    _ ← (if bool_decide (sl_selectedIndexes s = []) then modify select (put_sl_indexes (replicate (length (sl_options s)) false)) else mret tt);
    updateSelectedStatus name
  else zoom gui (on_view name (Write (String.concat "" (map (fun o => println (op_Text o)) (sl_options s))))).

Definition Select_Show (PreShow : st S unit) : st S unit :=
  _ ← Panel_Show gui (select_panel select) PreShow;
  _ ← updateOptions;
  s ← read select;
  let p := sl_Panel s in
  let name := options_name s in
  let offset := if bool_decide (pn_Content p = "") then 0 else Z.of_nat (length (split_on nl_char (pn_Content p))) + 1 in
  new ← zoom gui (SetView name (pn_X0 p) (pn_Y0 p + offset) (pn_X1 p) (pn_Y0 p + offset + Z.of_nat (length (sl_options s)) + 1));
  _ ← (if (new : bool) then
         _ ← zoom gui (on_view name (put_Wrap true));
         _ ← fill_list name;
         _ ← zoom gui (SetCurrentView name);
         _ ← zoom gui (setOptionsKeyBindings (sl_multi s) name);
         zoom gui (bind_keys name (pn_KeyBindings p))
       else mret tt);
  if sl_multi s then mret tt else Select_SetData (sl_Value s).

Definition Select_Close (PostClose : st S unit) : st S unit :=
  s ← read select;
  _ ← zoom gui (DeleteKeybindings (options_name s));
  _ ← zoom gui (DeleteView (options_name s));
  Panel_Close gui (select_panel select) PostClose.

(** The option in the row of the cursor. *)
Definition under_cursor (opts : list Option) (v : View) : option Option := opts !! Z.to_nat (v_cy v).
Definition Select_GetData : st S string :=
  s ← read select;
  v ← zoom gui (GetView (options_name s));
  if bool_decide (BufferLines v = []) then mret ""
  else mret (match under_cursor (sl_options s) v with Some o => op_Value o | None => "" end).
Definition Select_GetMultiData : st S (list string) := s ← read select; mret (sl_values s).

(** SPACE in a list with several choices. *)
Definition toggle (name : string) : st S unit :=
  v ← zoom gui (GetView name);
  s ← read select;
  _ ← (if v_cy v + 1 <=? Z.of_nat (length (sl_options s)) then
         marks ← st_lift (flip (Z.to_nat (v_cy v)) (sl_selectedIndexes s));
         modify select (put_sl_indexes marks)
       else mret tt);
  updateSelectedStatus name.

(** A key in the list of a select of its own. *)
Definition run_select_binding (own : H -> st S unit) (name : string) (b : binding H) : st S unit :=
  match b with
  | BArrowUp => zoom gui (ArrowUp name)
  | BArrowDown => zoom gui (ArrowDown name)
  | BToggle => toggle name
  | BOwn h => own h
  | _ => mret tt
  end.
Definition Select_press (own : H -> st S unit) (k : Key) : st S unit :=
  g ← read gui;
  st_for_each (run_select_binding own (default "" (g_current g))) (matching k g).
End select.

(** ** Drop-downs *)

Record DropDown := mkDropDown {
  dd_Panel : Panel;
  dd_Select : Select;
  dd_ViewName : string;
  dd_InputLen : Z;
  dd_Value : string;
  dd_Text : string;
  dd_multi : bool
}.
Definition put_dd_Panel (p : Panel) (d : DropDown) : DropDown :=
  mkDropDown p (dd_Select d) (dd_ViewName d) (dd_InputLen d) (dd_Value d) (dd_Text d) (dd_multi d).
Definition put_dd_Select (s : Select) (d : DropDown) : DropDown :=
  mkDropDown (dd_Panel d) s (dd_ViewName d) (dd_InputLen d) (dd_Value d) (dd_Text d) (dd_multi d).
Definition put_dd_InputLen (n : Z) (d : DropDown) : DropDown :=
  mkDropDown (dd_Panel d) (dd_Select d) (dd_ViewName d) n (dd_Value d) (dd_Text d) (dd_multi d).
Definition put_dd_choice (value text : string) (d : DropDown) : DropDown :=
  mkDropDown (dd_Panel d) (dd_Select d) (dd_ViewName d) (dd_InputLen d) value text (dd_multi d).
Definition drop_panel {S} (l : lens S DropDown) : lens S Panel := compose l (mkLens dd_Panel put_dd_Panel).
Definition drop_select {S} (l : lens S DropDown) : lens S Select := compose l (mkLens dd_Select put_dd_Select).

Definition NewDropDown (maxX maxY : Z) (name label : string) : DropDown :=
  mkDropDown
    (mkPanel name false false ColorDefault label (Z.quot maxX 8) (Z.quot maxX 8 * 7) (Z.quot maxY 8) (Z.quot maxY 8 + 3) []
       [("TAB", "choose other options")] false)
    (mkSelect (mkPanel (name +:+ "-dropdown-select") false false ColorDefault "" 0 0 0 0 [] [] false) "" [] [] false [])
    (name +:+ "-dropdown") 0 "" "" false.
(** The select is made one with several choices whatever the argument. *)
Definition DropDown_SetMulti (multi : bool) (d : DropDown) : DropDown :=
  mkDropDown (dd_Panel d) (SetMulti true (dd_Select d)) (dd_ViewName d) (dd_InputLen d) (dd_Value d) (dd_Text d) multi.
Definition DropDown_Reset (d : DropDown) : DropDown :=
  mkDropDown (dd_Panel d) (put_sl_indexes [] (dd_Select d)) (dd_ViewName d) (dd_InputLen d) "" (dd_Text d) (dd_multi d).

(** The text in its place, and the mark of a drop-down at the end of it. *)
Fixpoint first_chars (n : nat) (s : string) : result string :=
  match n, s with
  | O, _ => Ok ""
  | Datatypes.S n, String c s => r ← first_chars n s; Ok (String c r)
  | Datatypes.S _, "" => Panic
  end.
Definition rendered (inputLen : Z) (text : string) : result string :=
  body ← (if slen text <? inputLen then Ok (text +:+ of_chars (replicate (Z.to_nat (inputLen - slen text - 1)) " "%char))
          else first_chars (Z.to_nat (inputLen - 1)) text);
  Ok (body +:+ ">").

Section dropdown.
Context {S : Type} (gui : lens S gui_state) (drop : lens S DropDown) (getOptionsFunc : S -> result (list Option)).
Context (PreShow PostClose : st S unit) (own : H -> st S unit).

Definition DropDown_GetData : st S string := d ← read drop; mret (dd_Value d).
Definition DropDown_GetMultiData : st S (list string) := Select_GetMultiData (drop_select drop).
Definition DropDown_SetData (data : string) : st S unit :=
  d ← read drop;
  there ← zoom gui (known (dd_ViewName d));
  if negb there then mret tt
  else
    _ ← zoom gui (on_view (dd_ViewName d) Clear);
    let render text := r ← st_lift (rendered (dd_InputLen d) text); zoom gui (on_view (dd_ViewName d) (Write r)) in
    if dd_multi d then render (dd_Value d)
    else match list_find (fun o => op_Value o = data) (sl_options (dd_Select d)) with
         | Some (_, o) => render (op_Text o)
         | None => mret tt
         end.

Definition drop_offset (content : string) : Z :=
  let offset := if bool_decide (content = "") then 0 else 20 in
  if offset <? slen content then slen content + 1 else offset.
(** The first choice is the default of a drop-down with one choice. *)
Definition default_choice (d : DropDown) : DropDown :=
  if bool_decide (dd_Value d = "") && bool_decide (dd_Text d = "") && negb (dd_multi d) then
    match sl_options (dd_Select d) with o :: _ => put_dd_choice (op_Value o) (op_Text o) d | [] => d end
  else d.
Definition list_keys : list (Key * binding H) := [(KeyEnter, BChoose); (KeyEsc, BDismiss)].
Definition DropDown_Show : st S unit :=
  _ ← Panel_Show gui (drop_panel drop) PreShow;
  _ ← updateOptions (drop_select drop) (Some getOptionsFunc);
  d ← read drop;
  let p := dd_Panel d in
  let x0 := pn_X0 p + drop_offset (pn_Content p) in
  let x1 := pn_X1 p - 1 in
  let y0 := pn_Y0 p in
  _ ← modify drop (put_dd_InputLen (x1 - x0 - 1));
  new ← zoom gui (SetView (dd_ViewName d) x0 y0 x1 (y0 + 2));
  _ ← (if (new : bool) then
         _ ← zoom gui (on_view (dd_ViewName d) (put_Wrap true));
         _ ← modify drop default_choice;
         _ ← zoom gui (SetKeybinding (dd_ViewName d) KeyTab (BOpenList x0 y0 x1));
         _ ← modify (compose (drop_select drop) (mkLens sl_Panel put_sl_Panel)) (put_KeyBindings list_keys);
         zoom gui (bind_keys (dd_ViewName d) (pn_KeyBindings p))
       else mret tt);
  _ ← zoom gui (SetCurrentView (dd_ViewName d));
  d ← read drop;
  DropDown_SetData (dd_Value d).
Definition DropDown_Close : st S unit :=
  d ← read drop;
  _ ← zoom gui (DeleteKeybindings (dd_ViewName d));
  _ ← zoom gui (DeleteView (dd_ViewName d));
  Panel_Close gui (drop_panel drop) PostClose.

(** TAB; ENTER and ESC in the list. *)
Definition open_list (x0 y0 x1 : Z) : st S unit :=
  _ ← modify drop (fun d => put_dd_Select (put_sl_Value (dd_Value d) (dd_Select d)) d);
  _ ← modify (select_panel (drop_select drop)) (SetLocation x0 y0 x1 (y0 + 1));
  Select_Show gui (drop_select drop) (Some getOptionsFunc) (mret tt).
Definition take_choice (name : string) : st S bool :=
  d ← read drop;
  if dd_multi d then _ ← modify drop (put_dd_choice (sl_Value (dd_Select d)) (sl_Value (dd_Select d))); mret true
  else
    v ← zoom gui (GetView name);
    if bool_decide (BufferLines v = []) then mret false
    else
      _ ← match under_cursor (sl_options (dd_Select d)) v with
          | Some o => modify drop (put_dd_choice (op_Value o) (op_Text o))
          | None => mret tt
          end;
      mret true.
Definition close_list : st S unit :=
  _ ← Select_Close gui (drop_select drop) (mret tt);
  _ ← DropDown_Close;
  DropDown_Show.
Definition own_enter (d : DropDown) : st S unit :=
  match list_find (fun kb => fst kb = KeyEnter) (pn_KeyBindings (dd_Panel d)) with
  | Some (_, (_, BOwn h)) => own h
  | _ => st_lift Panic
  end.
Definition choose_option (name : string) : st S unit :=
  go ← take_choice name;
  if negb go then mret tt
  else
    _ ← close_list;
    d ← read drop;
    own_enter d.

Definition run_binding (name : string) (b : binding H) : st S unit :=
  match b with
  | BArrowUp => zoom gui (ArrowUp name)
  | BArrowDown => zoom gui (ArrowDown name)
  | BToggle => toggle gui (drop_select drop) name
  | BOpenList x0 y0 x1 => open_list x0 y0 x1
  | BChoose => choose_option name
  | BDismiss => close_list
  | BOwn h => own h
  end.
(** A key: what it is bound to in the view with the focus. *)
Definition press (k : Key) : st S unit :=
  g ← read gui;
  st_for_each (run_binding (default "" (g_current g))) (matching k g).
End dropdown.

(** A terminal and one widget. *)
Definition gl {X} : lens (gui_state * X) gui_state := mkLens fst (fun g s => (g, snd s)).
Definition wl {X} : lens (gui_state * X) X := mkLens snd (fun x s => (fst s, x)).
End widgets.
