(* ===== verification/Spinner.v ===== *)
(** * Spinner: the sign of a wait and its goroutine ([pkg/console/spinner.go])

    The goroutine writes a frame at each tick until it is told to stop, then
    writes the message of the end.  Each write is a function that the main loop
    runs; the goroutine waits for it.  The channels [stop] and [stopped] are
    not buffered: a send and its receive are one step.  The ticker holds at
    most one tick. *)
From Stdlib Require Import ZArith Lia Ascii String.
From stdpp Require Import base tactics list gmap strings.
From S2P Require Import Prelude GoStrings Text Gui.
Local Open Scope Z_scope.

Record Spinner := mkSpinner { sp_panel : string; sp_prefix : string; sp_focus : bool }.
Definition NewSpinner (panel prefix : string) : Spinner := mkSpinner panel prefix false.
Definition NewFocusSpinner (panel prefix : string) : Spinner := mkSpinner panel prefix true.
Record TaskResult := mkTaskResult { tr_err : bool; tr_message : string }.
Definition infoColor : Attribute := ColorCyan.
Definition errorColor : Attribute := ColorRed.

(** The function [writePanel] sends to the main loop: a view that is not there
    is not an error. *)
Definition writePanel (s : Spinner) (message : string) (clearView : bool) (fgColor : Attribute) : update :=
  mkUpdate (sp_panel s) message false clearView (sp_focus s) (Some fgColor).

Definition symbols : list ascii := ["\"; "-"; "/"; "|"]%char.
Definition symbol (i : nat) : ascii := nth (i mod 4) symbols "|"%char.
Definition first_frame (s : Spinner) : update := writePanel s (sp_prefix s +:+ "|") true infoColor.
Definition frame_text (s : Spinner) (i : nat) : string := String "013" (sp_prefix s +:+ String (symbol i) "").
Definition next_frame (s : Spinner) (i : nat) : update := writePanel s (frame_text s i) false infoColor.
Definition last_frame (s : Spinner) (r : TaskResult) : update :=
  writePanel s (tr_message r) true (if tr_err r then errorColor else infoColor).

(** ** The goroutine and the caller of [Stop] *)

(** Where the goroutine is: waiting for the main loop to run a write, with what
    it does next; waiting for a tick or for the end, before the frame of a
    symbol; sending on [stopped]; returned. *)
Inductive spinning : Type :=
| Writing (u : update) (next : spinning)
| Waiting (i : nat)
| Ending
| Ended.
(** The caller: at its task; sending on [stop]; waiting for [stopped]; returned. *)
Inductive calling : Type :=
| Working
| Stopping (r : TaskResult)
| Awaiting (r : TaskResult)
| Returned (r : TaskResult).

Section spinner.
Context {B : Type} (s : Spinner).
(** Does the caller run on the main loop, which then takes no function while the caller waits? *)
Context (on_main_loop : bool).

Record sys := mkSys { y_gui : Gui B; y_tick : bool; y_spin : spinning; y_call : calling }.
Definition Start (g : Gui B) : sys := mkSys g false (Writing (first_frame s) (Waiting 0)) Working.

(** What may happen: a tick of the clock, the main loop taking the function, the
    goroutine seeing the tick or the end, [Stop], and its return. *)
Inductive choice : Type := Tick | Draw | SeeTick | SeeStop | Stop (r : TaskResult) | Return.
Definition blocked (c : calling) : bool :=
  match c with Stopping _ | Awaiting _ => on_main_loop | _ => false end.
Definition step (c : choice) (y : sys) : option sys :=
  match c, y_spin y, y_call y with
  | Tick, _, Working => Some (mkSys (y_gui y) true (y_spin y) (y_call y))
  | Draw, Writing u next, call =>
      if blocked call then None else Some (mkSys (snd (run_update u (y_gui y))) (y_tick y) next call)
  | SeeTick, Waiting i, call =>
      if y_tick y then Some (mkSys (y_gui y) false (Writing (next_frame s i) (Waiting (Datatypes.S i))) call) else None
  | SeeStop, Waiting _, Stopping r => Some (mkSys (y_gui y) (y_tick y) (Writing (last_frame s r) Ending) (Awaiting r))
  | Stop r, spin, Working => Some (mkSys (y_gui y) (y_tick y) spin (Stopping r))
  | Return, Ending, Awaiting r => Some (mkSys (y_gui y) (y_tick y) Ended (Returned r))
  | _, _, _ => None
  end.
Definition steps (cs : list choice) (y : sys) : option sys := foldl (fun o c => y ← o; step c y) (Some y) cs.

(** ** What the panel shows *)

Definition shows (g : Gui B) (ls : list string) (c : Attribute) : Prop :=
  exists v, g_views g !! sp_panel s = Some v /\ v_lines v = ls /\ v_FgColor v = c.
Definition here (g : Gui B) : Prop := is_Some (g_views g !! sp_panel s).

Lemma run_writePanel m clear c g : here g -> exists v,
  g_views g !! sp_panel s = Some v /\
  shows (snd (run_update (writePanel s m clear c) g)) (write_lines (if clear then [] else v_lines v) m) c.
Proof.
  intros [v Hv]. exists v. split; [done|]. unfold run_update, mbind, st_bind, known. cbn.
  rewrite bool_decide_eq_true_2 by (by rewrite Hv). cbn.
  assert (E : forall g', g_views g' = g_views g ->
    shows (snd (on_view (sp_panel s) (fun v => Write m (put_FgColor c (if clear then Clear v else v))) g'))
      (write_lines (if clear then [] else v_lines v) m) c).
  { intros g' E. unfold on_view, mbind, st_bind, GetView. rewrite E, Hv. cbn.
    exists (Write m (put_FgColor c (if clear then Clear v else v))). rewrite E. cbn. rewrite lookup_insert_eq. by destruct clear. }
  destruct (sp_focus s); [|by apply E]. unfold SetCurrentView. rewrite Hv. by apply E.
Qed.

(** A frame while it turns. *)
Definition turning (ls : list string) : Prop := exists sym, sym ∈ symbols /\ ls = [sp_prefix s +:+ String sym ""].
Lemma symbol_in i : symbol i ∈ symbols.
Proof. apply list_elem_of_In, nth_In. cbn [symbols length]. apply Nat.mod_upper_bound. lia. Qed.

Lemma write_frame ls i : plain (sp_prefix s) -> length ls = 1%nat -> turning (write_lines ls (frame_text s i)).
Proof.
  intros Hp Hl. destruct ls as [|l [|? ?]]; try done. exists (symbol i). split; [apply symbol_in|].
  change (write_lines [l] (frame_text s i)) with (write_lines [""] (sp_prefix s +:+ String (symbol i) "")).
  assert (Hf : plain (sp_prefix s +:+ String (symbol i) "")).
  { destruct Hp as [H1 H2]. pose proof (symbol_in i) as Hs. unfold plain. rewrite !has_char_app, H1, H2.
    unfold symbols in Hs. rewrite !elem_of_cons in Hs. by destruct Hs as [-> |[-> |[-> |[-> |[]%not_elem_of_nil]]]]. }
  by apply (write_plain [] "").
Qed.
Lemma write_first : plain (sp_prefix s) -> turning (write_lines [] (sp_prefix s +:+ "|")).
Proof.
  intros [H1 H2]. exists "|"%char. split; [unfold symbols; set_solver|]. apply write_plain_first.
  - unfold plain. by rewrite !has_char_app, H1, H2.
  - by destruct (sp_prefix s).
Qed.

(** ** What holds at any time *)

(** The write that is under way is the first frame, a frame of a symbol, or the
    message of the end; what the panel shows follows. *)
Inductive ok : sys -> Prop :=
| ok_first g t c : here g -> (c = Working \/ exists r, c = Stopping r) -> ok (mkSys g t (Writing (first_frame s) (Waiting 0)) c)
| ok_frame g t c i ls : shows g ls infoColor -> turning ls -> (c = Working \/ exists r, c = Stopping r) ->
    ok (mkSys g t (Writing (next_frame s i) (Waiting (Datatypes.S i))) c)
| ok_wait g t c i ls : shows g ls infoColor -> turning ls -> (c = Working \/ exists r, c = Stopping r) -> ok (mkSys g t (Waiting i) c)
| ok_last g t r : here g -> ok (mkSys g t (Writing (last_frame s r) Ending) (Awaiting r))
| ok_ending g t r : shows g (write_lines [] (tr_message r)) (if tr_err r then errorColor else infoColor) -> ok (mkSys g t Ending (Awaiting r))
| ok_ended g t r : shows g (write_lines [] (tr_message r)) (if tr_err r then errorColor else infoColor) -> ok (mkSys g t Ended (Returned r)).

Lemma shows_here g ls c : shows g ls c -> here g.
Proof. intros (v & Hv & _). by exists v. Qed.
Hypothesis prefix_plain : plain (sp_prefix s).
Lemma draw_first g : here g -> exists ls, shows (snd (run_update (first_frame s) g)) ls infoColor /\ turning ls.
Proof. intros Hh. destruct (run_writePanel (sp_prefix s +:+ "|") true infoColor g Hh) as (v & _ & Hs). eexists. split; [exact Hs|by apply write_first]. Qed.
Lemma draw_frame g i ls : shows g ls infoColor -> turning ls -> exists ls', shows (snd (run_update (next_frame s i) g)) ls' infoColor /\ turning ls'.
Proof.
  intros Hs Ht. destruct (run_writePanel (frame_text s i) false infoColor g (shows_here _ _ _ Hs)) as (v & Hv & Hs').
  destruct Hs as (v' & Hv' & Hl & _). rewrite Hv' in Hv. injection Hv as <-. rewrite Hl in Hs'. eexists. split; [exact Hs'|].
  apply write_frame; [done|]. by destruct Ht as (sym & _ & ->).
Qed.
Lemma draw_last g r : here g ->
  shows (snd (run_update (last_frame s r) g)) (write_lines [] (tr_message r)) (if tr_err r then errorColor else infoColor).
Proof. intros Hh. by destruct (run_writePanel (tr_message r) true (if tr_err r then errorColor else infoColor) g Hh) as (v & _ & Hs). Qed.

Lemma ok_step c y y' : ok y -> step c y = Some y' -> ok y'.
Proof.
  intros Hy E. destruct Hy as [g t cl Hh Hc|g t cl i ls Hs Ht Hc|g t cl i ls Hs Ht Hc|g t r Hh|g t r Hs|g t r Hs].
  - destruct (draw_first g Hh) as (ls & Hs & Ht).
    destruct Hc as [-> |[r ->]], c; cbn in E; try case_match; simplify_eq; eauto using ok.
  - destruct (draw_frame g i ls Hs Ht) as (ls' & Hs' & Ht').
    destruct Hc as [-> |[r ->]], c; cbn in E; try case_match; simplify_eq; eauto using ok.
  - pose proof (shows_here _ _ _ Hs). destruct Hc as [-> |[r ->]], c; cbn in E; try case_match; simplify_eq; eauto using ok.
  - destruct c; cbn in E; try case_match; simplify_eq. apply ok_ending, draw_last, Hh.
  - destruct c; cbn in E; simplify_eq; eauto using ok.
  - destruct c; discriminate E.
Qed.
Lemma ok_steps cs y y' : ok y -> steps cs y = Some y' -> ok y'.
Proof.
  unfold steps. revert y y'. induction cs as [|c cs IH] using rev_ind; intros y y' Hy; [by intros [= <-]|].
  rewrite foldl_app. cbn. destruct (foldl _ _ cs) as [y1|] eqn:E1; cbn; [|done]. intros E. eapply ok_step, E. by eapply IH.
Qed.

(** C24: While the task runs the panel shows the prefix with a turning sign, and
    when [Stop] has returned it shows the message, in the colour of an error if
    there was one, and nothing more can change it: the goroutine has returned
    and no step is left. *)
Theorem spinner_shows g cs y : here g -> steps cs (Start g) = Some y ->
  match y_call y with
  | Returned r => shows (y_gui y) (write_lines [] (tr_message r)) (if tr_err r then errorColor else infoColor) /\
                  forall c, step c y = None
  | Awaiting _ => True
  | _ => y_spin y = Writing (first_frame s) (Waiting 0) \/ exists ls, shows (y_gui y) ls infoColor /\ turning ls
  end.
Proof.
  intros Hg E. assert (Hy : ok y) by (by eapply ok_steps, E; apply ok_first; auto).
  destruct Hy as [g' t cl Hh Hc|g' t cl i ls Hs Ht Hc|g' t cl i ls Hs Ht Hc|g' t r Hh|g' t r Hs|g' t r Hs]; cbn [y_call y_spin y_gui];
    try done; try (destruct Hc as [-> |[r ->]]; eauto).
  split; [exact Hs|]. by intros [].
Qed.

(** ** [Stop] returns *)

(** The steps left after [Stop] was called. *)
Definition left (y : sys) : nat :=
  match y_call y, y_spin y with
  | Stopping _, Writing _ _ => 4 + (if y_tick y then 2 else 0)
  | Stopping _, _ => 3 + (if y_tick y then 2 else 0)
  | Awaiting _, Writing _ _ => 2
  | Awaiting _, _ => 1
  | _, _ => 0
  end.
Definition stopping (r : TaskResult) (y : sys) : Prop := y_call y = Stopping r \/ y_call y = Awaiting r \/ y_call y = Returned r.

Lemma left_step r c y y' : ok y -> stopping r y -> step c y = Some y' -> stopping r y' /\ (left y' < left y)%nat.
Proof.
  intros Hy Hr E. unfold stopping in *.
  destruct Hy as [g t cl Hh Hc|g t cl i ls Hs Ht Hc|g t cl i ls Hs Ht Hc|g t r' Hh|g t r' Hs|g t r' Hs];
    try (destruct Hc as [-> |[r0 ->]]); cbn [y_call] in Hr; destruct Hr as [Hr|[Hr|Hr]]; try discriminate Hr; try (injection Hr as ->);
    destruct c; cbn in E; try discriminate E; try case_match; simplify_eq; cbn; split; auto; lia.
Qed.
Lemma left_steps r cs y y' : ok y -> stopping r y -> steps cs y = Some y' -> stopping r y' /\ (length cs + left y' <= left y)%nat.
Proof.
  revert y'. induction cs as [|c cs IH] using rev_ind; intros y' Hy Hr; [by intros [= <-]|].
  unfold steps. rewrite foldl_app. cbn. fold (steps cs y). destruct (steps cs y) as [y1|] eqn:E1; cbn; [|done]. intros E.
  destruct (IH y1 Hy Hr eq_refl) as [H1 H2]. destruct (left_step r c y1 y' (ok_steps _ _ _ Hy E1) H1 E) as [H3 H4].
  split; [done|]. rewrite length_app. cbn. lia.
Qed.

(** Unless the main loop waits too, one of the steps is possible. *)
Lemma stopping_moves r y : on_main_loop = false -> ok y -> stopping r y -> (forall c, step c y = None) -> y_call y = Returned r.
Proof.
  intros Hm Hy Hr Hn. unfold stopping in Hr.
  destruct Hy as [g t cl Hh Hc|g t cl i ls Hs Ht Hc|g t cl i ls Hs Ht Hc|g t r' Hh|g t r' Hs|g t r' Hs];
    try (destruct Hc as [-> |[r0 ->]]); cbn [y_call] in *; destruct Hr as [Hr|[Hr|Hr]]; try discriminate Hr; try done;
    exfalso; first [specialize (Hn Draw); cbn in Hn; rewrite Hm in Hn; discriminate Hn
                   |specialize (Hn SeeStop); discriminate Hn | specialize (Hn Return); discriminate Hn].
Qed.

(** C23: [Stop] returns: once it was called from a goroutine, at most six more
    steps happen whatever their order, and the last of them is its return; but
    called on the main loop while the sign is being drawn it waits for ever. *)
Theorem stop_returns g cs y r : here g -> steps cs (Start g) = Some y -> y_call y = Stopping r ->
  (on_main_loop = false -> forall cs' y', steps cs' y = Some y' ->
     (length cs' <= 6)%nat /\ ((forall c, step c y' = None) -> y_call y' = Returned r)) /\
  (on_main_loop = true -> (exists u next, y_spin y = Writing u next) -> forall c, step c y = None).
Proof.
  intros Hg E Hc. assert (Hy : ok y) by (by eapply ok_steps, E; apply ok_first; auto).
  assert (Hr : stopping r y) by (by left). split.
  - intros Hm cs' y' E'. destruct (left_steps r cs' y y' Hy Hr E') as [H1 H2]. split.
    + assert (left y <= 6)%nat by (unfold left; rewrite Hc; destruct (y_spin y), (y_tick y); cbn; lia). lia.
    + apply stopping_moves; [done| |done]. by eapply ok_steps.
  - intros Hm (u & next & Hs) c. destruct c; cbn; rewrite ?Hs, ?Hc; try done. cbn. by rewrite Hm.
Qed.
End spinner.

(** A wait that ends with an error: two frames and the message. *)
Section example.
Definition wait : Spinner := NewFocusSpinner "spinner" "Checking...".
Definition screen : Gui unit := put_views {["spinner" := newView 0 0 40 10]} (new_gui 80 24).
Definition failed : TaskResult := mkTaskResult true "no route to host".
Definition run_wait (cs : list (choice)) : option (list string * Attribute) :=
  y ← steps wait false cs (Start wait screen);
  v ← g_views (y_gui y) !! "spinner";
  Some (v_lines v, v_FgColor v).
Example frames : run_wait [Draw; Tick; SeeTick; Draw; Tick; SeeTick; Draw] = Some (["Checking...-"], ColorCyan).
Proof. vm_refl. Qed.
Lemma wait_plain : plain (sp_prefix wait).
Proof. by split. Qed.
Lemma spinner_shows_witness :
  exists y, steps wait false [Draw; Tick; Stop failed; SeeTick; Draw; SeeStop; Draw; Return] (Start wait screen) = Some y /\
    shows wait (y_gui y) ["no route to host"] ColorRed.
Proof.
  destruct (steps wait false [Draw; Tick; Stop failed; SeeTick; Draw; SeeStop; Draw; Return] (Start wait screen)) as [y|] eqn:E; [|discriminate E].
  exists y. split; [done|]. assert (Hh : here wait screen) by (by eexists).
  assert (Hc : y_call y = Returned failed) by (injection E as <-; reflexivity).
  pose proof (spinner_shows wait false wait_plain screen _ y Hh E) as Hs. rewrite Hc in Hs. exact (proj1 Hs).
Defined.
Lemma stop_returns_witness :
  exists y, steps wait false [Draw; Tick; Stop failed] (Start wait screen) = Some y /\
    forall cs' y', steps wait false cs' y = Some y' -> (length cs' <= 6)%nat.
Proof.
  destruct (steps wait false [Draw; Tick; Stop failed] (Start wait screen)) as [y|] eqn:E; [|discriminate E].
  exists y. split; [done|]. assert (Hh : here wait screen) by (by eexists).
  assert (Hc : y_call y = Stopping failed) by (injection E as <-; reflexivity).
  intros cs' y' E'. exact (proj1 (proj1 (stop_returns wait false wait_plain screen _ y failed Hh E Hc) eq_refl cs' y' E')).
Defined.
End example.
