(* ===== verification/Network.v ===== *)
(** * Network: the network of the installer itself ([pkg/console/network.go]) and the
      address of the cluster obtained by DHCP ([pkg/console/vip.go])

    Links, routes and iSCSI sessions come from the class [Netlink]; what the
    vendored netlink, goiscsi and DHCP packages do on the wire is not modelled. *)
From Stdlib Require Import ZArith Lia Ascii String.
From stdpp Require Import base tactics list gmap strings.
From S2P Require Import Prelude GoStrings GoNet Config World NMConfig.
Local Open Scope Z_scope.

Record link : Set := mkLink {
  ln_Name : string;
  ln_Type : string;
  ln_EncapType : string;
  ln_HardwareAddr : list Z;
  ln_RawFlags : Z
}.
#[export] Instance link_eq_dec : EqDecision link.
Proof. solve_decision. Defined.

Class Netlink := {
  RouteList : world -> result (list (option string));       (* the destination of each route *)
  LinkList : world -> result (list link);
  LinkByName : world -> string -> result link;
  InterfaceByName : world -> string -> result Z;            (* the index *)
  InterfaceAddrs : world -> Z -> result (list string);      (* Addrs, in CIDR form *)
  GetSessions : world -> result (list string)               (* IfaceIPaddress of each iSCSI session *)
}.

Definition IFF_UP : Z := 1.
Definition IFF_LOWER_UP : Z := 65536.
Inductive nic_state : Set := NICStateNotFound | NICStateDown | NICStateLowerDown | NICStateUP.
#[export] Instance nic_state_eq_dec : EqDecision nic_state.
Proof. solve_decision. Defined.

Definition link_state (l : link) : nic_state :=
  if bool_decide (Z.land (ln_RawFlags l) IFF_UP = 0) then NICStateDown
  else if bool_decide (Z.land (ln_RawFlags l) IFF_LOWER_UP = 0) then NICStateLowerDown
  else NICStateUP.

Definition getManagementInterfaceName (mgmtInterface : Network) : string :=
  let vlanID := nw_VlanID mgmtInterface in
  if (2 <=? vlanID) && (vlanID <=? 4094) then MgmtInterfaceName +:+ "." +:+ itoa vlanID
  else MgmtInterfaceName.

Notation hwmap := (gmap string link).
Definition hw (l : link) : string := mac_string (ln_HardwareAddr l).

Section netlink.
Context `{Host} `{Netlink}.

Definition checkDefaultRoute (w : world) : result bool :=
  routes ← RouteList w; Ok (existsb (fun dst => bool_decide (dst = None)) routes).

Definition getNICState (w : world) (name : string) : nic_state :=
  match LinkByName w name with Ok l => link_state l | _ => NICStateNotFound end.

(** *** Interfaces that carry an iSCSI session are left alone *)

(** Whether one of the addresses is that of a session; the addresses after it
    are not looked at. *)
Fixpoint address_in_use (sessions : gset string) (addresses : list string) : result bool :=
  match addresses with
  | [] => Ok false
  | a :: l =>
      p ← map_err (EWrap "error parsing ip address") (ParseCIDR a);
      if bool_decide (ip_string (fst p) ∈ sessions) then Ok true else address_in_use sessions l
  end.
Definition link_in_use (w : world) (sessions : gset string) (l : link) : result bool :=
  if bool_decide (getNICState w (ln_Name l) = NICStateUP) then
    iface ← map_err (EWrap "error fetching interface details") (InterfaceByName w (ln_Name l));
    addresses ← map_err (EWrap "error fetching addresses from interface") (InterfaceAddrs w iface);
    address_in_use sessions addresses
  else Ok false.
Fixpoint filterNICSBySession (w : world) (sessions : gset string) (links : list link) (m : hwmap) : result hwmap :=
  match links with
  | [] => Ok m
  | l :: links' =>
      used ← link_in_use w sessions l;
      filterNICSBySession w sessions links' (if used : bool then delete (hw l) m else m)
  end.

(** The devices by hardware address: a later device replaces an earlier one. *)
Definition hwDeviceMap (nics : list link) : hwmap := foldl (fun m l => <[hw l := l]> m) ∅ nics.

Definition filterISCSIInterfaces (w : world) (visit : hwmap -> list link) (nics vlanNics : list link)
    (sessions : list string) : result (list link) :=
  m ← filterNICSBySession w (list_to_set sessions) nics (hwDeviceMap nics);
  m ← filterNICSBySession w (list_to_set sessions) vlanNics m;
  Ok (visit m).

Definition is_nic (l : link) : bool := bool_decide (ln_Type l = "device") && negb (bool_decide (ln_EncapType l = "loopback")).
Definition is_vlan (l : link) : bool := bool_decide (ln_Type l = "vlan").

Definition getNICs (visit : hwmap -> list link) (w : world) : result (list link) :=
  links ← LinkList w;
  let nics := filter (fun l => is_nic l = true) links in
  let vlanNics := filter (fun l => is_vlan l = true) links in
  sessions ← map_err (EWrap "error querying iscsi sessions") (GetSessions w);
  if bool_decide (sessions = []) then Ok nics
  else filterISCSIInterfaces w visit nics vlanNics sessions.

(** *** Applying the network of the wizard *)

Definition LinkSetUp (name : string) : io unit := fs_op (EvLink "up" name) (fun f => (Ok tt, f)).
Definition upAllLinks (visit : hwmap -> list link) : io unit :=
  w ← get_world;
  nics ← lift (getNICs visit w);
  for_each_io (fun nic => LinkSetUp (ln_Name nic)) nics.

Definition getHostname : io string :=
  output ← Exec ["hostnamectl"; "hostname"]; mret (trim_space output).
Definition setHostname (hostname : string) : io unit := run_command ["hostnamectl"; "hostname"; hostname].

Definition value_or {A} (d : A) (r : result A) : A := match r with Ok a => a | _ => d end.

(** Putting the previous host name back when DHCP gave none. *)
Definition restoreHostname (previousHostname : string) : io unit :=
  current ← try getHostname;
  if bool_decide (value_or "" current = "localhost") then
    _ ← try (setHostname previousHostname); mret tt
  else mret tt.

Definition applyNetworks (visit : hwmap -> list link) (network : Network) (hostname : string) : io unit :=
  _ ← RestoreOriginalNetworkConfig;
  _ ← SaveOriginalNetworkConfig;
  previous ← try getHostname;
  let previousHostname := value_or "" previous in
  _ ← (if bool_decide (hostname = "") then _ ← try (setHostname ""); mret tt else setHostname hostname);
  _ ← UpdateManagementInterfaceConfig network [] NMConnectionPath true;
  _ ← try (upAllLinks visit);
  if bool_decide (hostname = "") && negb (bool_decide (previousHostname = ""))
  then restoreHostname previousHostname else mret tt.
End netlink.

(** ** The address of the cluster ([vip.go])

    The state is the table of interfaces: index-free, by name, with the
    hardware address and whether it is up.  [VipHost] may make any step fail,
    draws the number of the name, gives a new macvlan its hardware address and
    answers DHCP requests. *)

Record netif : Set := mkNetif { nif_HardwareAddr : list Z; nif_Up : bool; nif_Parent : string }.
Notation netifs := (gmap string netif).

Class VipHost := {
  vip_fault : string -> netifs -> option error;      (* by step *)
  GenRandNumber : result Z;
  auto_mac : list Z;
  getIPThroughDHCP : netifs -> string -> result ip
}.

Definition tempMacvlanPrefix : string := "macvlan-".
Record vipAddr : Set := mkVipAddr { hwAddr : string; ipv4Addr : string }.

Section vip.
Context `{VipHost}.

(** A netlink request: it may fail and leave the table as it is. *)
Definition vip_step (what : string) (eff : netifs -> netifs) : st netifs unit := fun s =>
  match vip_fault what s with Some e => (Err e, s) | None => (Ok tt, eff s) end.
Definition FindLink (name : string) : st netifs netif := fun s =>
  (match s !! name with Some l => Ok l | None => Err (EMsg "Link not found") end, s).

Definition st_wrap {S A} (m : string) (a : st S A) : st S A := fun s =>
  let '(r, s') := a s in (map_err (EWrap m) r, s').

Definition LinkAdd (name : string) (l : netif) : st netifs unit := fun s =>
  if bool_decide (is_Some (s !! name)) then (Err (EMsg "file exists"), s)
  else vip_step "add" (fun s => <[name := l]> s) s.
Definition SetUp (name : string) (up : bool) : st netifs unit :=
  vip_step (if up then "up" else "down") (alter (fun l => mkNetif (nif_HardwareAddr l) up (nif_Parent l)) name).
Definition LinkDel (name : string) : st netifs unit := vip_step "del" (delete name).

(** The name of the macvlan and its hardware address. *)
Definition createMacvlan (name hwAddr : string) : st netifs (string * netif) :=
  _ ← st_wrap ("failed to fetch " +:+ name) (FindLink name);
  randNum ← st_lift (map_err (EWrap "failed to generate random number") GenRandNumber);
  let macvlanName := tempMacvlanPrefix +:+ itoa randNum in
  mac ← (if bool_decide (hwAddr = "") then mret auto_mac
         else st_lift (map_err (EWrap ("failed to parse " +:+ hwAddr)) (ParseMAC hwAddr)));
  _ ← st_wrap ("failed to add " +:+ macvlanName) (LinkAdd macvlanName (mkNetif mac false name));
  _ ← st_wrap ("failed to set " +:+ macvlanName +:+ " up") (SetUp macvlanName true);
  l ← FindLink macvlanName;
  mret (macvlanName, l).

Definition deleteMacvlan (name : string) : st netifs unit :=
  _ ← st_wrap "failed to set down" (SetUp name false);
  st_wrap ("failed to del " +:+ name) (LinkDel name).

Definition getVipThroughDHCP (iface hwAddr : string) : st netifs vipAddr :=
  '(name, l) ← createMacvlan iface hwAddr;
  s ← st_get;
  ip ← st_lift (getIPThroughDHCP s name);
  _ ← deleteMacvlan name;
  mret (mkVipAddr (mac_string (nif_HardwareAddr l)) (ip_string ip)).
End vip.

(** ** NICs in use by iSCSI *)

Section nic_theorems.
Context `{Host} `{Netlink}.

(** A link that is up and has the address of a session. *)
Definition carries_session (w : world) (sessions : gset string) (l : link) : Prop :=
  getNICState w (ln_Name l) = NICStateUP /\
  exists iface addresses a p, InterfaceByName w (ln_Name l) = Ok iface /\
    InterfaceAddrs w iface = Ok addresses /\ a ∈ addresses /\
    ParseCIDR a = Ok p /\ ip_string (fst p) ∈ sessions.

Lemma address_in_use_ok sessions addresses b :
  address_in_use sessions addresses = Ok b ->
  (b = true <-> exists a p, a ∈ addresses /\ ParseCIDR a = Ok p /\ ip_string (fst p) ∈ sessions).
Proof.
  revert b. induction addresses as [|a l IH]; intros b Hb; cbn [address_in_use] in Hb.
  { injection Hb as <-. split; [done|]. by intros (a & p & ?%not_elem_of_nil & _). }
  apply bind_ok in Hb as (p & Hp & Hb). apply map_err_ok in Hp. case_bool_decide as Hin.
  - injection Hb as <-. split; [|done]. intros _. exists a, p. split; [by left|done].
  - rewrite (IH _ Hb). split; intros (a' & p' & Ha & Hp' & Hs); exists a', p'; (split; [|done]).
    + by right.
    + apply elem_of_cons in Ha as [->|Ha]; [|done]. congruence.
Qed.

Lemma link_in_use_ok w sessions l b :
  link_in_use w sessions l = Ok b -> (b = true <-> carries_session w sessions l).
Proof.
  unfold link_in_use, carries_session. case_bool_decide as Hup.
  - intros (i & Hi & (addrs & Ha & Hb)%bind_ok)%bind_ok. apply map_err_ok in Hi, Ha.
    rewrite (address_in_use_ok _ _ _ Hb). split.
    + intros (a & p & ? & ? & ?). split; [done|]. by exists i, addrs, a, p.
    + intros (_ & i' & addrs' & a & p & Hi' & Ha' & ? & ? & ?). exists a, p. split; [congruence|done].
  - intros [= <-]. split; [done|]. by intros [? _].
Qed.

Lemma filterNICSBySession_ok w sessions links (m m' : hwmap) :
  filterNICSBySession w sessions links m = Ok m' ->
  forall k l, m' !! k = Some l <->
    m !! k = Some l /\ forall l', l' ∈ links -> hw l' = k -> ~ carries_session w sessions l'.
Proof.
  revert m. induction links as [|l0 links IH]; intros m Hf k l; cbn [filterNICSBySession] in Hf.
  { injection Hf as <-. split; [|by intros [? _]]. intros Hl. split; [done|]. by intros l' ?%not_elem_of_nil. }
  apply bind_ok in Hf as (used & Hu & Hf). apply link_in_use_ok in Hu. rewrite (IH _ Hf k l). split.
  - intros [Hl Hno]. split.
    + destruct used; [|done]. by apply lookup_delete_Some in Hl as [_ ?].
    + intros l' [->|Hl']%elem_of_cons Hk; [|by eapply Hno]. intros Hc. apply Hu in Hc. subst used.
      rewrite <- Hk, lookup_delete_eq in Hl. done.
  - intros [Hl Hno]. split; [|intros l' Hl'; apply Hno; by right].
    destruct used; [|done]. rewrite lookup_delete_ne; [done|]. intros Hk.
    apply (Hno l0 ltac:(by left) Hk). by apply Hu.
Qed.

(** Devices are found in the map under their own hardware address. *)
Lemma hwDeviceMap_acc (nics : list link) (m : hwmap) k l :
  foldl (fun m l => <[hw l := l]> m) m nics !! k = Some l -> (l ∈ nics /\ hw l = k) \/ m !! k = Some l.
Proof.
  revert m. induction nics as [|n nics IH]; intros m Hl; [by right|]. cbn [foldl] in Hl.
  destruct (IH _ Hl) as [[? ?]|Hm]; [left; split; [by right|done]|].
  apply lookup_insert_Some in Hm as [[<- <-]|[_ Hm]]; [left; split; [by left|done]|by right].
Qed.
Lemma hwDeviceMap_key (nics : list link) k l : hwDeviceMap nics !! k = Some l -> l ∈ nics /\ hw l = k.
Proof. intros [?|Hl]%hwDeviceMap_acc; [done|]. by rewrite lookup_empty in Hl. Qed.

(** C38: When there are iSCSI sessions, the NICs the installer may bring up or
    configure are exactly the devices (the last one, for a shared hardware
    address) none of whose namesakes by hardware address, VLANs included,
    carries a session: a disk that is in use is never cut off. *)
Theorem getNICs_spares_sessions (visit : hwmap -> list link) w links sessions nics :
  (forall m l, l ∈ visit m <-> exists k, m !! k = Some l) ->
  LinkList w = Ok links -> GetSessions w = Ok sessions -> sessions <> [] ->
  getNICs visit w = Ok nics ->
  let devices := filter (fun l => is_nic l = true) links in
  let vlans := filter (fun l => is_vlan l = true) links in
  forall l, l ∈ nics <->
    hwDeviceMap devices !! hw l = Some l /\
    forall l', l' ∈ devices ++ vlans -> hw l' = hw l -> ~ carries_session w (list_to_set sessions) l'.
Proof.
  intros Hv Hl Hs Hne Hn devices vlans l. unfold getNICs in Hn. rewrite Hl, Hs in Hn. cbn [mbind result_bind map_err] in Hn.
  rewrite bool_decide_false in Hn by done. unfold filterISCSIInterfaces in Hn.
  apply bind_ok in Hn as (m1 & H1 & Hn). apply bind_ok in Hn as (m2 & H2 & Hn). injection Hn as <-.
  pose proof (filterNICSBySession_ok _ _ _ _ _ H1) as F1. pose proof (filterNICSBySession_ok _ _ _ _ _ H2) as F2.
  fold devices in F1. fold vlans in F2. rewrite Hv. split.
  - intros [k Hk]. apply F2 in Hk as [Hk Hno2]. apply F1 in Hk as [Hk Hno1].
    destruct (hwDeviceMap_key _ _ _ Hk) as [_ Hhw]. subst k. split; [done|].
    intros l' [?|?]%elem_of_app ?; [by apply Hno1|by apply Hno2].
  - intros [Hk Hno]. exists (hw l). apply F2. split; [apply F1; split; [done|]|];
      intros l' ? ?; apply Hno; try done; apply elem_of_app; tauto.
Qed.
End nic_theorems.

(** Two devices and a VLAN on the second; the VLAN carries the session. *)
Definition demo_eth0 : link := mkLink "eth0" "device" "ether" [2;0;0;0;0;1] 65537.
Definition demo_eth1 : link := mkLink "eth1" "device" "ether" [2;0;0;0;0;2] 65537.
Definition demo_vlan : link := mkLink "eth1.5" "vlan" "ether" [2;0;0;0;0;2] 65537.
Definition demo_links : list link := [mkLink "lo" "device" "loopback" [] 65537; demo_eth0; demo_eth1; demo_vlan].
Definition demo_netlink : Netlink := {|
  RouteList w := Ok [None; Some "10.0.0.0/24"];
  LinkList w := Ok demo_links;
  LinkByName w name := match list_find (fun l => ln_Name l = name) demo_links with
    | Some (_, l) => Ok l | None => Err (EMsg "Link not found") end;
  InterfaceByName w name := Ok (if bool_decide (name = "eth1.5") then 5 else 2);
  InterfaceAddrs w i := Ok (if bool_decide (i = 5) then ["fe80::5/64"; "10.0.0.5/24"] else ["10.1.0.7/16"]);
  GetSessions w := Ok ["10.0.0.5"]
|}.
Definition demo_visit (m : hwmap) : list link := map snd (map_to_list m).

Lemma demo_visit_ok m l : l ∈ demo_visit m <-> exists k, m !! k = Some l.
Proof.
  unfold demo_visit. rewrite list_elem_of_fmap. split.
  - intros ([k l'] & -> & Hk). exists k. by apply elem_of_map_to_list in Hk.
  - intros [k Hk]. exists (k, l). split; [done|]. by apply elem_of_map_to_list.
Qed.

Lemma getNICs_spares_sessions_witness :
  @getNICs demo_netlink demo_visit demo_world = Ok [demo_eth0] /\
  forall l', l' ∈ [demo_eth0; demo_eth1] ++ [demo_vlan] -> hw l' = hw demo_eth0 ->
    ~ @carries_session demo_netlink demo_world (list_to_set ["10.0.0.5"]) l'.
Proof.
  assert (Hn : @getNICs demo_netlink demo_visit demo_world = Ok [demo_eth0]) by vm_refl.
  split; [exact Hn|].
  pose proof (@getNICs_spares_sessions demo_netlink demo_visit demo_world demo_links ["10.0.0.5"] [demo_eth0]
    demo_visit_ok eq_refl eq_refl ltac:(discriminate) Hn demo_eth0) as Hs. cbv zeta in Hs.
  exact (proj2 (proj1 Hs ltac:(by left))).
Defined.

(** ** The commands of [applyNetworks] *)

Section apply_theorems.
Context `{Host} `{Netlink}.

Lemma quiet_Restore : quiet exec_of RestoreOriginalNetworkConfig.
Proof. unfold RestoreOriginalNetworkConfig, wipeNMConnectionProfiles. quiet_io. Qed.

Lemma quiet_save_original p : quiet exec_of (save_original p).
Proof.
  intros w. unfold save_original. rewrite seen_bind_quiet by quiet_io.
  destruct (ReadFile p w) as [[d|e|] w1] eqn:E; [|done..]. exact (execs_ok _ _ _ _ (quiet_ReadFile exec_of p) E).
Qed.

Lemma quiet_Save : quiet exec_of SaveOriginalNetworkConfig.
Proof.
  intros w. unfold SaveOriginalNetworkConfig. rewrite seen_bind_quiet by quiet_io.
  unfold get_world. destruct (w_saved w); [done|].
  assert (Hq : quiet exec_of (paths ← Glob NMConnectionPath NMConnectionSuffix; for_each_io save_original paths)).
  { quiet_io; apply quiet_save_original. }
  unfold mbind at 1, io_bind at 1, put_world. by rewrite Hq.
Qed.

Lemma quiet_write_profiles n dns dir : quiet exec_of (write_profiles n dns dir).
Proof. unfold write_profiles, wipeNMConnectionProfiles, updateBond, updateBridge. quiet_io. Qed.

Lemma quiet_upAllLinks visit : quiet exec_of (upAllLinks visit).
Proof. unfold upAllLinks, LinkSetUp. quiet_io. Qed.

(** An applied configuration has run its four commands. *)
Lemma Update_applied n dns dir w u w' :
  UpdateManagementInterfaceConfig n dns dir true w = (Ok u, w') -> execs w' = execs w ++ Spec.apply_script.
Proof.
  rewrite Update_split. intros (? & w1 & [= _ <-] & (? & w2 & Hw & Hr)%io_bind_ok)%io_bind_ok.
  rewrite <- (execs_ok _ _ _ _ (quiet_write_profiles n dns dir) Hw).
  destruct (run_all_execs Spec.apply_script w2) as (l1 & l2 & Hl & He & Hok). rewrite Hr in He, Hok.
  cbn [fst snd] in He, Hok. rewrite (Hok ltac:(by destruct u)), app_nil_r in Hl. by rewrite He, Hl.
Qed.

Lemma getHostname_execs w : execs (snd (getHostname w)) = execs w ++ [["hostnamectl"; "hostname"]].
Proof.
  unfold getHostname, mbind, io_bind. pose proof (Exec_execs ["hostnamectl"; "hostname"] w) as He.
  by destruct (Exec _ w) as [[] w1].
Qed.

(** What [restoreHostname] runs when it returns. *)
Lemma restoreHostname_execs previous w w' :
  restoreHostname previous w = (Ok tt, w') ->
  execs w' = execs w ++ ["hostnamectl"; "hostname"] ::
    (if bool_decide (value_or "" (fst (getHostname w)) = "localhost")
     then [["hostnamectl"; "hostname"; previous]] else []).
Proof.
  unfold restoreHostname. intros (cur & w1 & [-> ->]%try_ok & Hr)%io_bind_ok.
  rewrite cons_middle, app_assoc, <- getHostname_execs. case_bool_decide.
  - apply io_bind_ok in Hr as (? & w2 & [-> _]%try_ok & [_ <-]%io_ret_ok). apply run_command_spec.
  - apply io_ret_ok in Hr as [_ <-]. by rewrite app_nil_r.
Qed.

(** When the network of the wizard is applied, the commands run are, in this
    order: reading the host name, setting it (clearing it when none is given, so
    that DHCP may provide one), the four commands that load the profiles, and
    then, when no host name was given and there was one before, reading it
    again and putting the old one back if it is still "localhost". *)
Theorem applyNetworks_commands visit network hostname w w' :
  applyNetworks visit network hostname w = (Ok tt, w') ->
  exists previous current,
    execs w' = execs w ++
      [["hostnamectl"; "hostname"]; ["hostnamectl"; "hostname"; hostname]] ++ Spec.apply_script ++
      (if bool_decide (hostname = "") && negb (bool_decide (previous = "")) then
         ["hostnamectl"; "hostname"] ::
         (if bool_decide (current = "localhost") then [["hostnamectl"; "hostname"; previous]] else [])
       else []).
Proof.
  unfold applyNetworks.
  intros (? & w1 & H1 & (? & w2 & H2 & (prev & w3 & [-> Hprev]%try_ok & Ha)%io_bind_ok)%io_bind_ok)%io_bind_ok.
  cbv zeta in Ha. apply io_bind_ok in Ha as (? & w4 & H4 & Ha). apply io_bind_ok in Ha as (? & w5 & H5 & Ha).
  apply io_bind_ok in Ha as (? & w6 & [-> _]%try_ok & Ha).
  assert (E2 : execs w2 = execs w).
  { by rewrite (execs_ok _ _ _ _ quiet_Save H2), (execs_ok _ _ _ _ quiet_Restore H1). }
  assert (E4 : execs w4 = (execs w ++ [["hostnamectl"; "hostname"]]) ++ [["hostnamectl"; "hostname"; hostname]]).
  { rewrite <- E2, <- getHostname_execs. case_bool_decide as Hh.
    - apply io_bind_ok in H4 as (? & w7 & [-> _]%try_ok & [_ <-]%io_ret_ok). subst hostname. apply run_command_spec.
    - pose proof (run_command_spec ["hostnamectl"; "hostname"; hostname] (snd (getHostname w2))) as Hr.
      unfold setHostname in H4. rewrite H4 in Hr. exact Hr. }
  assert (E6 : execs (snd (upAllLinks visit w5)) = execs w4 ++ Spec.apply_script).
  { rewrite (quiet_execs _ w5 (quiet_upAllLinks visit)). by apply Update_applied in H5. }
  exists (value_or "" prev), (value_or "" (fst (getHostname (snd (upAllLinks visit w5))))).
  destruct (bool_decide (hostname = "") && negb (bool_decide (value_or "" prev = ""))).
  - apply restoreHostname_execs in Ha. rewrite Ha, E6, E4, <- !app_assoc. done.
  - apply io_ret_ok in Ha as [_ <-]. rewrite E6, E4, app_nil_r, <- !app_assoc. done.
Qed.
End apply_theorems.

Lemma applyNetworks_commands_witness :
  exists tail, execs (snd (@applyNetworks ideal_host demo_netlink demo_visit demo_net "" demo_world)) =
    [["hostnamectl"; "hostname"]; ["hostnamectl"; "hostname"; ""]] ++ Spec.apply_script ++ tail.
Proof.
  pose (m := @applyNetworks ideal_host demo_netlink demo_visit demo_net "").
  assert (Hok : fst (m demo_world) = Ok tt) by vm_refl.
  destruct (@applyNetworks_commands ideal_host demo_netlink demo_visit demo_net "" demo_world _
    (returned m demo_world tt Hok)) as (previous & current & He).
  eexists. exact He.
Defined.

(** ** The temporary macvlan *)

Section vip_theorems.
Context `{VipHost}.

Lemma st_wrap_ok {S A} m (a : st S A) s x s' : st_wrap m a s = (Ok x, s') <-> a s = (Ok x, s').
Proof. unfold st_wrap. destruct (a s) as [[] s1]; cbn; naive_solver. Qed.

Lemma vip_step_ok what eff s u s' : vip_step what eff s = (Ok u, s') -> s' = eff s.
Proof. unfold vip_step. destruct (vip_fault what s); intros [=]; done. Qed.

(** A macvlan that was created is new, is up and has the address asked for. *)
Lemma createMacvlan_ok name hwAddr s n l s' :
  createMacvlan name hwAddr s = (Ok (n, l), s') ->
  s !! n = None /\ s' = <[n := l]> s /\ nif_Up l = true /\ nif_Parent l = name /\
  (hwAddr <> "" -> ParseMAC hwAddr = Ok (nif_HardwareAddr l)).
Proof.
  unfold createMacvlan. intros Hc.
  apply st_bind_ok in Hc as (l0 & s0 & Hf & Hc). apply st_wrap_ok in Hf. unfold FindLink in Hf. injection Hf as _ <-.
  apply st_bind_ok in Hc as (rn & s1 & Hr & Hc). unfold st_lift in Hr. injection Hr as _ <-. cbv zeta in Hc.
  apply st_bind_ok in Hc as (mac & s2 & Hm & Hc).
  assert (Hmac : s2 = s /\ (hwAddr <> "" -> ParseMAC hwAddr = Ok mac)).
  { case_bool_decide as Hh; [apply st_ret_ok in Hm as [_ <-]; done|].
    unfold st_lift in Hm. injection Hm as Hm <-. apply map_err_ok in Hm. done. }
  clear Hm. destruct Hmac as [-> Hmac].
  apply st_bind_ok in Hc as (u1 & s3 & Ha & Hc). apply st_wrap_ok in Ha. unfold LinkAdd in Ha.
  case_bool_decide as Hs; [done|]. apply vip_step_ok in Ha. subst s3.
  apply st_bind_ok in Hc as (u2 & s4 & Hu & Hc). apply st_wrap_ok in Hu. apply vip_step_ok in Hu. cbn [nif_HardwareAddr] in Hu.
  apply st_bind_ok in Hc as (l1 & s5 & Hl & Hc). unfold FindLink in Hl. injection Hl as Hl <-.
  apply st_ret_ok in Hc as [[= <- <-] <-].
  set (n' := tempMacvlanPrefix +:+ itoa rn) in *. rewrite alter_insert_eq in Hu. subst s4.
  rewrite lookup_insert_eq in Hl. injection Hl as <-. cbn.
  split; [|done]. apply eq_None_not_Some. exact Hs.
Qed.

Lemma deleteMacvlan_ok n l s u s' :
  s !! n = None -> deleteMacvlan n (<[n := l]> s) = (Ok u, s') -> s' = s.
Proof.
  intros Hn. unfold deleteMacvlan. intros (u1 & s1 & H1 & H2)%st_bind_ok. apply st_wrap_ok in H1, H2.
  apply vip_step_ok in H1. apply vip_step_ok in H2. subst. by rewrite alter_insert_eq, delete_insert_id.
Qed.

(** A VIP obtained by DHCP leaves the interfaces as they were, and reports the
    hardware address that was asked for; but when the DHCP request fails the
    temporary macvlan stays, up, on the management interface. *)
Theorem getVipThroughDHCP_cleanup iface hwAddr s :
  (forall v s', getVipThroughDHCP iface hwAddr s = (Ok v, s') ->
    s' = s /\ (hwAddr <> "" -> exists mac, ParseMAC hwAddr = Ok mac /\ Network.hwAddr v = mac_string mac)) /\
  (forall n l s1 e, createMacvlan iface hwAddr s = (Ok (n, l), s1) -> getIPThroughDHCP s1 n = Err e ->
    getVipThroughDHCP iface hwAddr s = (Err e, s1) /\ s !! n = None /\ s1 !! n = Some l /\ nif_Up l = true).
Proof.
  split.
  - intros v s' Hv. unfold getVipThroughDHCP in Hv. apply st_bind_ok in Hv as ([n l] & s1 & Hc & Hv).
    apply createMacvlan_ok in Hc as (Hn & -> & _ & _ & Hmac).
    apply st_bind_ok in Hv as (? & ? & [= <- <-] & Hv). apply st_bind_ok in Hv as (ip & s2 & [= _ <-] & Hv).
    apply st_bind_ok in Hv as (u & s3 & Hd & Hv). apply (deleteMacvlan_ok _ _ _ _ _ Hn) in Hd. subst s3.
    apply st_ret_ok in Hv as [<- <-]. split; [done|]. intros Hh. eexists. split; [by apply Hmac|done].
  - intros n l s1 e Hc Hd. pose proof (createMacvlan_ok _ _ _ _ _ _ Hc) as (Hn & -> & Hup & _ & _).
    split; [|split_and!; [done|by rewrite lookup_insert_eq|done]].
    unfold getVipThroughDHCP, mbind, st_bind. rewrite Hc. unfold st_get, st_lift. by rewrite Hd.
Qed.
End vip_theorems.

Definition demo_vip (dhcp : result ip) : VipHost := {|
  vip_fault what s := None; GenRandNumber := Ok 42; auto_mac := [2;0;0;0;0;9]; getIPThroughDHCP s n := dhcp |}.
Definition demo_ifs : netifs := {["mgmt-br" := mkNetif [2;0;0;0;0;1] true ""]}.

(** The server does not answer: the interface "macvlan-42" is left behind. *)
Lemma getVipThroughDHCP_cleanup_witness :
  exists s1, @getVipThroughDHCP (demo_vip (Err (EMsg "timeout"))) "mgmt-br" "" demo_ifs = (Err (EMsg "timeout"), s1) /\
    demo_ifs !! "macvlan-42" = None /\ s1 !! "macvlan-42" = Some (mkNetif [2;0;0;0;0;9] true "mgmt-br").
Proof.
  destruct (@createMacvlan (demo_vip (Err (EMsg "timeout"))) "mgmt-br" "" demo_ifs) as [r s1] eqn:Ec.
  assert (Hr : r = Ok ("macvlan-42", mkNetif [2;0;0;0;0;9] true "mgmt-br")).
  { change r with (fst (r, s1)). rewrite <- Ec. vm_refl. }
  subst r. exists s1.
  destruct (proj2 (@getVipThroughDHCP_cleanup (demo_vip (Err (EMsg "timeout"))) "mgmt-br" "" demo_ifs)
    _ _ s1 _ Ec eq_refl) as (Hv & Hn & Hs & _).
  exact (conj Hv (conj Hn Hs)).
Defined.
