(* ===== verification/Install.v ===== *)
(** * Install: running the installation ([pkg/console/util.go])

    From the confirmed configuration to the commands: labels and settings are
    filled in, the cOS and Elemental configurations are written, disks are wiped
    and [harv-install] runs; or, on a node whose image is already installed, the
    configuration is applied in place.

    A command with an environment is recorded as its path followed by the
    environment.  [Installer] stands for the environment of the process, the YAML
    encoder, the names of temporary files, the text of errors, the resolution of
    device links and the size of a disk. *)
From Stdlib Require Import ZArith Lia Ascii String.
From stdpp Require Import base tactics list gmap strings.
From S2P Require Import Prelude GoStrings GoJson Config ConfigOps World NMConfig DiskSize Cos DiskOptions Webhooks.
Local Open Scope Z_scope.

Definition HarvesterMgmtNodeLabelKey : string := "node-role.harvesterhci.io/management".
Definition HarvesterWorkerNodeLabelKey : string := "node-role.harvesterhci.io/worker".
Definition HarvesterWitnessNodeLabelKey : string := "node-role.harvesterhci.io/witness".
Definition NtpSettingName : string := "ntp-servers".
Definition ElementalConfigDir : string := "/tmp/elemental".
Definition ElementalConfigFile : string := "config.yaml".
Definition multipathOff : string := "multipath=off".
Definition defaultLogFilePath : string := "/var/log/console.log".
Definition defaultHarvesterConfig : string := "/oem/harvester.config".
Definition defaultCustomConfig : string := "/oem/99_custom.yaml".
Definition installPanel : string := "install".

(** ** Filling in the configuration *)

(** Writing to the label map, made when nil. *)
Definition set_label (key : string) (c : HarvesterConfig) : HarvesterConfig :=
  set_hc_OS (set_os_Labels (Some (<[key := "true"]> (default ∅ (os_Labels (hc_OS c))))) (hc_OS c)) c.
Definition roleSetup (c : HarvesterConfig) : result HarvesterConfig :=
  let role := in_Role (hc_Install c) in
  if bool_decide (role = "") then Ok c
  else
    let c := set_hc_OS (set_os_Labels (Some (default ∅ (os_Labels (hc_OS c)))) (hc_OS c)) c in
    if bool_decide (role = RoleMgmt) then Ok (set_label HarvesterMgmtNodeLabelKey c)
    else if bool_decide (role = RoleWorker) then Ok (set_label HarvesterWorkerNodeLabelKey c)
    else if bool_decide (role = RoleWitness) then Ok (set_label HarvesterWitnessNodeLabelKey c)
    else if bool_decide (role = RoleDefault) then Ok c
    else Err (EMsg ("unknown role " +:+ role +:+ ", please correct it")).

(** [json.Marshal] of [NTPSettings] with at least one server. *)
Definition ntp_settings_json (servers : list string) : string :=
  "{" +:+ print_string "ntpServers" +:+ ":" +:+ print_strings servers +:+ "}".
Definition updateSystemSettings (c : HarvesterConfig) : HarvesterConfig :=
  let servers := os_NTPServers (hc_OS c) in
  if bool_decide (servers = []) then c
  else set_hc_SystemSettings (Some (<[NtpSettingName := ntp_settings_json servers]> (default ∅ (hc_SystemSettings c)))) c.

(** ** Operations *)

Class Installer := {
  environ : list string;
  yaml_cos : yip_stages -> result string;
  yaml_hvst : HarvesterConfig -> result string;
  yaml_elemental : option ElementalConfig -> result string;
  temp_name : world -> string -> result string;
  resolve_link : string -> result string;
  to_env : string -> Install -> result (list string);
  disk_size : string -> result Z;
  rand_suffix : string;
  err_text : error -> string;                        (* Error() *)
  (* the templates, versions and architecture of the cOS configuration *)
  render_config : string -> HarvesterConfig -> result string;
  template_file : string -> result string;
  yaml_stage : string -> result Stage;
  visit_map : gmap string string -> list (string * string);
  built_versions : versions;
  arch : string
}.

Section host.
Context `{Host} `{Installer}.

Definition printToPanel (message : string) : io unit := fun w => (Ok tt, log_event (EvPrint installPanel message) w).
Definition handle_webhooks (event : string) : io unit := fun w => (Ok tt, log_event (EvWebhook event) w).
Definition execute (env : list string) (cmdName : string) : io unit := run_command (cmdName :: env).

Definition convert_to_cos (c : HarvesterConfig) : io (HarvesterConfig * yip_stages) :=
  ConvertToCOS render_config template_file yaml_stage visit_map built_versions arch c.

(** [os.CreateTemp] makes the empty file before the value is encoded. *)
Definition saveTemp (text : result string) (prefix : string) : io string :=
  w ← get_world;
  name ← lift (temp_name w prefix);
  _ ← WriteFile name "";
  bytes ← lift text;
  _ ← WriteFile name bytes;
  mret name.

Definition saveElementalConfig (obj : option ElementalConfig) : io (string * string) :=
  _ ← MkdirAll ElementalConfigDir;
  bytes ← lift (yaml_elemental obj);
  let file := ElementalConfigDir +:+ "/" +:+ ElementalConfigFile in
  _ ← WriteFile file bytes;
  mret (ElementalConfigDir, file).

Definition executeWipeDisks (name : string) : io unit :=
  _ ← run_command ["/usr/sbin/sgdisk"; "-Z"; name];
  run_command ["/usr/sbin/partprobe"; "-s"; name].

(** The environment of the installer script, the Elemental configuration (nil,
    with no error, when the environment cannot be made) and the configuration
    with the cOS file as its URL. *)
Definition generateEnvAndConfig (c : HarvesterConfig) : io (list string * option ElementalConfig * HarvesterConfig) :=
  '(c, cosConfig) ← on_err (convert_to_cos c) (fun e => printToPanel (err_text e));
  cosConfigFile ← saveTemp (yaml_cos cosConfig) "cos";
  hvstConfigFile ← saveTemp (yaml_hvst c) "harvester";
  let userDataURL := in_ConfigURL (hc_Install c) in
  let c := set_hc_Install (set_in_ConfigURL cosConfigFile (hc_Install c)) c in
  elementalConfig ← lift (ConvertToElementalConfig resolve_link c);
  match to_env "HARVESTER_" (hc_Install c) with
  | Ok ev =>
      mret (environ ++ ev ++ ["HARVESTER_CONFIG=" +:+ hvstConfigFile; "HARVESTER_INSTALLATION_LOG=" +:+ defaultLogFilePath;
                              "HARVESTER_STREAMDISK_CLOUDINIT_URL=" +:+ userDataURL], Some elementalConfig, c)
  | Err _ => mret ([], None, c)
  | Panic => lift Panic
  end.

Definition streamImageToDisk (env : list string) (c : HarvesterConfig) : io unit :=
  let i := hc_Install c in
  _ ← printToPanel ("streaming disk image " +:+ in_RawDiskImagePath i +:+ " to device " +:+ in_Device i);
  _ ← on_err (execute env "/usr/sbin/stream-disk") (fun e => printToPanel ("stream to disk failed " +:+ err_text e));
  execute env "/usr/sbin/cos-installer-shutdown".

(** Writing the layout through a nil pointer panics. *)
Definition deref {A} (p : option A) (r : result A) : result A :=
  a ← r; match p with Some _ => Ok a | None => Panic end.
Definition zero_elemental : ElementalConfig := mkElemental "" "" "" None [] "" "" None.
Definition partition_disk (elemental : option ElementalConfig) (c : HarvesterConfig) : result ElementalConfig :=
  let e := default zero_elemental elemental in
  deref elemental
    (if ShouldCreateDataPartitionOnOsDisk c
     then CreateRootPartitioningLayoutSharedDataDisk (disk_size (in_Device (hc_Install c))) e c
     else Ok (CreateRootPartitioningLayoutSeparateDataDisk e)).

(** What [doInstall] adds to the environment for disks and kernel arguments. *)
Definition install_env (c : HarvesterConfig) (env : list string) : list string :=
  let os := hc_OS c in
  env ++ (if bool_decide (in_DataDisk (hc_Install c) = "") then [] else ["HARVESTER_DATA_DISK=" +:+ in_DataDisk (hc_Install c)])
      ++ (if es_Enabled (os_ExternalStorage os) then [] else ["HARVESTER_ADDITIONAL_KERNEL_ARGUMENTS=" +:+ multipathOff])
      ++ (if bool_decide (os_AdditionalKernelArguments os = "") then []
          else ["HARVESTER_ADDITIONAL_KERNEL_ARGUMENTS=" +:+ os_AdditionalKernelArguments os]).

Definition disks_to_wipe (cache : DiskOptionsCache) (c : HarvesterConfig) : list string :=
  let i := hc_Install c in
  in_WipeDisksList i ++
  (if in_WipeAllDisks i then map op_Value (getWipeDisksOptions cache (in_Device i) (in_DataDisk i)) else []).

Definition wipe_disk (disk : string) : io unit := fun w =>
  let '(r, w') := executeWipeDisks disk w in (map_err (EWrap ("error wiping disk " +:+ disk)) r, w').

Definition installFailureMessage (logfile : string) : string :=
"
** Installation Failed **
You can see the full installation log by:
  - Press CTRL + ALT + F2 to switch to a different TTY console.
  - Login with user " +:+ q "rancher" +:+ " (password is " +:+ q "rancher" +:+ ").
  - Run the command: sudo less " +:+ logfile +:+ ".
".
Definition executeSupportconfig (fileName : string) : io unit := run_command ["/sbin/supportconfig"; "-Q"; "-B"; fileName].
Definition applyDummyRoute : io unit := run_command ["/usr/sbin/harv-dummy-iface"].
Definition report_failure (c : HarvesterConfig) (err : error) : io unit :=
  _ ← printToPanel (installFailureMessage defaultLogFilePath);
  if in_Debug (hc_Install c) then
    _ ← printToPanel "support config is being generated as running in debug mode, this can take a few minutes...";
    let fileSuffix := "harvester_" +:+ rand_suffix in
    scErr ← try (executeSupportconfig fileSuffix);
    _ ← (if is_ok scErr then mret tt else printToPanel ("support config collection failed " +:+ err_text err));
    printToPanel ("support config is available at /var/log/scc_" +:+ fileSuffix +:+ ".txz")
  else mret tt.
Definition install_failed (c : HarvesterConfig) (err : error) : io unit :=
  _ ← handle_webhooks EventInstallFailed;
  report_failure c err.

(** From the saved Elemental configuration to the reboot. *)
Definition run_installer (installModeOnly : bool) (c : HarvesterConfig) (env : list string) (dir file : string) : io unit :=
  let env := env ++ ["ELEMENTAL_CONFIG=" +:+ file; "ELEMENTAL_CONFIG_DIR=" +:+ dir] in
  _ ← (if installModeOnly then
         on_err applyDummyRoute
           (fun e => printToPanel ("error applying a fake default route during installOnlyMode: " +:+ err_text e))
       else mret tt);
  _ ← on_err (execute env "/usr/sbin/harv-install") (install_failed c);
  _ ← handle_webhooks EventInstallSuceeded;
  on_err (execute env "/usr/sbin/cos-installer-shutdown") (fun e => handle_webhooks EventInstallFailed).

(** [return nil] when the Elemental configuration cannot be saved. *)
Definition save_and_install (installModeOnly : bool) (c : HarvesterConfig) (env : list string) (e : ElementalConfig) : io unit :=
  saved ← try (saveElementalConfig (Some e));
  match saved with
  | Ok (dir, file) => run_installer installModeOnly c env dir file
  | _ => mret tt
  end.

Definition streams_image (c : HarvesterConfig) : bool :=
  let i := hc_Install c in
  in_Automatic i && bool_decide (in_Mode i = ModeInstall) && negb (bool_decide (in_RawDiskImagePath i = "")).

Definition doInstall (installModeOnly : bool) (cache : DiskOptionsCache) (c : HarvesterConfig) : io unit :=
  _ ← handle_webhooks EventInstallStarted;
  c ← lift (roleSetup (updateSystemSettings c));
  '(env, elemental, c) ← generateEnvAndConfig c;
  if streams_image c then streamImageToDisk env c
  else
    e ← lift (partition_disk elemental c);
    _ ← for_each_io wipe_disk (disks_to_wipe cache c);
    save_and_install installModeOnly c (install_env c env) e.

(** *** A node whose image is already installed *)

Definition generateTempConfigFiles (c : HarvesterConfig) : io (HarvesterConfig * yip_stages * string * string) :=
  '(c, cosConfig) ← convert_to_cos c;
  cosConfigFile ← saveTemp (yaml_cos cosConfig) "cos";
  hvstConfigFile ← saveTemp (yaml_hvst c) "harvester";
  mret (c, cosConfig, cosConfigFile, hvstConfigFile).

Definition apply (configFile stage : string) : io unit := run_command ["/usr/bin/yip"; "-s"; stage; configFile].

Definition append_stage (name : string) (l : list Stage) (stages : yip_stages) : yip_stages :=
  <[name := default [] (stages !! name) ++ l]> stages.

Definition applyRancherdConfig (c : HarvesterConfig) (cosConfig : yip_stages) : io unit :=
  '(c, conf) ← GenerateRancherdConfig render_config template_file visit_map built_versions arch c;
  let cosConfig := append_stage "initramfs" (default [] (conf !! "live")) cosConfig in
  cosConfigFile ← saveTemp (yaml_cos cosConfig) "cos";
  hvstConfigFile ← saveTemp (yaml_hvst c) "hvst";
  let copyFiles := set_st_Name "copy files" (set_st_Commands
    ["cp " +:+ cosConfigFile +:+ " " +:+ defaultCustomConfig;
     "cp " +:+ hvstConfigFile +:+ " " +:+ defaultHarvesterConfig] zero_Stage) in
  liveCosConfig ← saveTemp (yaml_cos (append_stage "finalise" [copyFiles] conf)) "live";
  _ ← apply liveCosConfig "live";
  apply liveCosConfig "finalise".

Definition restartCoreServices : io unit := run_command ["/usr/sbin/harv-restart-services"].

Definition configureInstalledNode (c : HarvesterConfig) : io unit :=
  _ ← handle_webhooks EventInstallStarted;
  c ← lift (roleSetup c);
  '(c, cosConfig, cosConfigFile, hvstConfigFile) ←
    on_err (generateTempConfigFiles c) (fun e => printToPanel (err_text e));
  finally (finally
    (_ ← on_err (applyRancherdConfig c cosConfig) (fun e => printToPanel ("error applying rancherd config :" +:+ err_text e));
     restarted ← try restartCoreServices;
     match restarted with
     | Err e => printToPanel ("error restarting core services: " +:+ err_text e)
     | _ => mret tt
     end)
    (_ ← try (Remove hvstConfigFile); mret tt))
    (_ ← try (Remove cosConfigFile); mret tt).
End host.

(** ** What the steps leave alone *)

(** The fields that decide what is installed where. *)
Definition target (c : HarvesterConfig) :=
  let i := hc_Install c in
  ((in_Automatic i, in_Mode i, in_RawDiskImagePath i, in_Device i, in_DataDisk i),
   (in_WipeAllDisks i, in_WipeDisksList i, in_Debug i, in_Role i, in_ForceMBR i)).

Lemma target_streams c c' : target c' = target c -> streams_image c' = streams_image c.
Proof. unfold target, streams_image. cbv zeta. by intros [= -> -> -> _ _ _ _ _ _ _]. Qed.
Lemma target_disks cache c c' : target c' = target c -> disks_to_wipe cache c' = disks_to_wipe cache c.
Proof. unfold target, disks_to_wipe. cbv zeta. by intros [= _ _ _ -> -> -> -> _ _ _]. Qed.

Lemma roleSetup_target c c' : roleSetup (updateSystemSettings c) = Ok c' -> target c' = target c.
Proof.
  assert (Hu : target (updateSystemSettings c) = target c).
  { unfold updateSystemSettings. cbv zeta. by case_bool_decide. }
  unfold roleSetup. cbv zeta. intros H. rewrite <- Hu. clear Hu.
  repeat (case_bool_decide; [by injection H as <-|]). done.
Qed.

Section steps.
Context `{Host} `{Installer}.

Lemma convert_target c w c' stages w' :
  convert_to_cos c w = (Ok (c', stages), w') -> target c' = target c.
Proof.
  intros (c1 & s & -> & _ & Hc)%ConvertToCOS_ok.
  assert (Hsshd : target (overwriteSSHDComponent c1) = target c1).
  { unfold overwriteSSHDComponent. by destruct (os_SFTP _). }
  rewrite Hsshd. destruct Hc as [(_ & -> & _)|(_ & s0 & s1 & _ & Hi & _)]; [done|].
  by apply initRancherdStage_ok in Hi as [-> _].
Qed.

Context {B : Type} (p : event -> option B) `{!NoFiles p}.
Hypothesis no_print : forall panel m, p (EvPrint panel m) = None.

Lemma quiet_print m : quiet p (printToPanel m).
Proof. intros w. unfold printToPanel. cbn [snd]. by rewrite seen_log, no_print, app_nil_r. Qed.

Lemma quiet_on_err {A} (m : io A) h : quiet p m -> (forall e, quiet p (h e)) -> quiet p (on_err m h).
Proof.
  intros Hm Hh w. specialize (Hm w). unfold on_err. destruct (m w) as [[a|e|] w1]; [done| |done].
  specialize (Hh e w1). cbn [snd] in Hm. by destruct (h e w1) as [[] w2]; cbn [snd] in *; rewrite Hh.
Qed.

Lemma quiet_updateBond n dir : quiet p (updateBond n dir).
Proof. unfold updateBond. quiet_io. Qed.
Lemma quiet_updateBridge name n dns dir : quiet p (updateBridge name n dns dir).
Proof. unfold updateBridge. quiet_io. Qed.

Lemma quiet_Update n dns dir : quiet p (UpdateManagementInterfaceConfig n dns dir false).
Proof.
  unfold UpdateManagementInterfaceConfig, wipeNMConnectionProfiles.
  quiet_io; first [apply quiet_updateBond|apply quiet_updateBridge].
Qed.

Lemma quiet_convert c : quiet p (convert_to_cos c).
Proof.
  unfold convert_to_cos, ConvertToCOS. quiet_io.
  all: repeat match goal with x : (_ * _)%type |- _ => destruct x end; quiet_io; apply quiet_Update.
Qed.

Lemma quiet_saveTemp t prefix : quiet p (saveTemp t prefix).
Proof. unfold saveTemp. quiet_io. Qed.
Lemma quiet_saveElemental e : quiet p (saveElementalConfig e).
Proof. unfold saveElementalConfig. quiet_io. Qed.

Lemma quiet_generateEnvAndConfig c : quiet p (generateEnvAndConfig c).
Proof.
  unfold generateEnvAndConfig. apply quiet_bind; [apply quiet_on_err; [apply quiet_convert|intros; apply quiet_print]|].
  intros [c1 stages]. quiet_io; try apply quiet_saveTemp. destruct (to_env _ _); quiet_io.
Qed.
End steps.

Lemma generateEnvAndConfig_target `{Host} `{Installer} c w env e c' w' :
  generateEnvAndConfig c w = (Ok (env, e, c'), w') -> target c' = target c.
Proof.
  unfold generateEnvAndConfig. intros ([c1 stages] & w1 & Hc & Hg)%io_bind_ok.
  assert (Ht : target c1 = target c).
  { unfold on_err in Hc. destruct (convert_to_cos c w) as [[[c2 st]|er|] w2] eqn:E.
    - injection Hc as <- <- <-. by eapply convert_target.
    - by destruct (printToPanel _ w2) as [[] ?].
    - done. }
  apply io_bind_ok in Hg as (f1 & ? & _ & Hg). apply io_bind_ok in Hg as (f2 & ? & _ & Hg).
  apply io_bind_ok in Hg as (e' & ? & _ & Hg). cbv zeta in Hg.
  destruct (to_env _ _); [apply io_ret_ok in Hg as [[= <- <- <-] _]..|done]; by rewrite <- Ht.
Qed.

(** ** The events the webhooks see *)

Section install.
Context `{Host} `{Installer}.

(** What the hooks may see after STARTED, with the result of the installation. *)
Inductive hooks_outcome : result unit -> list string -> Prop :=
| hooks_none r : hooks_outcome r []                              (* the installer did not get to its end *)
| hooks_failed e : hooks_outcome (Err e) [EventInstallFailed]
| hooks_done : hooks_outcome (Ok tt) [EventInstallSuceeded]
| hooks_reboot_failed e : hooks_outcome (Err e) [EventInstallSuceeded; EventInstallFailed].

(** Steps that succeed and are not seen by the hooks. *)
Definition sure {A} (m : io A) : Prop := quiet hook_of m /\ forall w, is_ok (fst (m w)) = true.

Lemma sure_ret {A} (a : A) : sure (mret a).
Proof. done. Qed.
Lemma sure_print m : sure (printToPanel m).
Proof. split; [by apply quiet_print|done]. Qed.
Lemma sure_bind {A C} (m : io A) (f : A -> io C) : sure m -> (forall a, sure (f a)) -> sure (m ≫= f).
Proof.
  intros [Hq Hok] Hf. split; [apply quiet_bind; [done|apply Hf]|]. intros w. specialize (Hok w).
  unfold mbind, io_bind. destruct (m w) as [[a|e|] w1]; [apply Hf|done..].
Qed.
Lemma sure_try_command argv : sure (try (run_command argv)).
Proof.
  split; [by apply quiet_try, quiet_run_command|]. intros w.
  unfold try, run_command, Exec, mbind, io_bind. by destruct (exec w argv) as [f [o|e]].
Qed.

Lemma install_failed_hooks c e w :
  seen hook_of (snd (install_failed c e w)) = seen hook_of w ++ [EventInstallFailed] /\
  fst (install_failed c e w) <> Panic.
Proof.
  assert (Hs : sure (report_failure c e)).
  { apply sure_bind; [apply sure_print|intros _]. destruct (in_Debug _); [|apply sure_ret].
    apply sure_bind; [apply sure_print|intros _]. apply sure_bind; [apply sure_try_command|intros r].
    apply sure_bind; [destruct (is_ok r); [apply sure_ret|apply sure_print]|intros _; apply sure_print]. }
  set (w1 := log_event (EvWebhook EventInstallFailed) w).
  change (install_failed c e w) with (report_failure c e w1).
  destruct Hs as [Hq Hok]. specialize (Hq w1). specialize (Hok w1). unfold w1 in Hq at 2. rewrite seen_log in Hq.
  split; [exact Hq|]. intros Hp. by rewrite Hp in Hok.
Qed.

Lemma execute_result env cmd w : exists w1, seen hook_of w1 = seen hook_of w /\
  (execute env cmd w = (Ok tt, w1) \/ exists e, execute env cmd w = (Err e, w1)).
Proof.
  exists (snd (execute env cmd w)). split; [by apply quiet_run_command|].
  unfold execute, run_command, Exec, mbind, io_bind. destruct (exec w (cmd :: env)) as [f [o|e]]; [by left|].
  right. by exists e.
Qed.

Lemma run_installer_hooks im c env dir file : emits hook_of hooks_outcome (run_installer im c env dir file).
Proof.
  unfold run_installer. cbv zeta. set (env' := env ++ _).
  apply emits_bind_quiet; [|intros _|intros; apply hooks_none|apply hooks_none].
  { destruct im; [|apply quiet_ret]. apply quiet_on_err; [by apply quiet_run_command|]. intros e. by apply quiet_print. }
  intros w. unfold mbind, io_bind, on_err, handle_webhooks.
  destruct (execute_result env' "/usr/sbin/harv-install" w) as (w1 & Hw1 & [->|[e ->]]).
  - destruct (execute_result env' "/usr/sbin/cos-installer-shutdown" (log_event (EvWebhook EventInstallSuceeded) w1))
      as (w2 & Hw2 & [->|[e ->]]).
    + exists [EventInstallSuceeded]. cbn [snd fst]. rewrite Hw2, seen_log, Hw1. split; [done|apply hooks_done].
    + exists [EventInstallSuceeded; EventInstallFailed]. cbn [snd fst]. rewrite seen_log, Hw2, seen_log, Hw1, <- app_assoc.
      split; [done|apply hooks_reboot_failed].
  - destruct (install_failed_hooks c e w1) as [Hs Hp]. exists [EventInstallFailed].
    destruct (install_failed c e w1) as [r w2]. cbn [snd fst] in *. rewrite Hw1 in Hs.
    destruct r; [| |by destruct Hp]; cbn [snd fst]; (split; [done|apply hooks_failed]).
Qed.

(** An installation sends STARTED first, whatever happens; then FAILED when the
    installer script failed, SUCCEEDED when it did not, and FAILED once more
    when only the final reboot failed.  Any other failure (an unknown role, a
    configuration that cannot be rendered, a disk that cannot be wiped) stops
    it without a FAILED event. *)
Theorem doInstall_hooks installModeOnly cache c w :
  exists rest, seen hook_of (snd (doInstall installModeOnly cache c w)) = seen hook_of w ++ EventInstallStarted :: rest /\
    hooks_outcome (fst (doInstall installModeOnly cache c w)) rest.
Proof.
  unfold doInstall. unfold handle_webhooks at 1. unfold mbind at 1. unfold io_bind at 1.
  set (w0 := log_event (EvWebhook EventInstallStarted) w).
  match goal with |- context [seen hook_of (snd (?m w0))] => set (body := m) end.
  assert (He : emits hook_of hooks_outcome body).
  { unfold body. clear body w0. apply emits_bind_quiet; [apply quiet_lift|intros c0|intros; apply hooks_none..].
    apply emits_bind_quiet; [by apply quiet_generateEnvAndConfig|intros [[env elemental] c1]|intros; apply hooks_none..].
    destruct (streams_image c1).
    { apply emits_quiet; [|apply hooks_none]. unfold streamImageToDisk. apply quiet_bind; [by apply quiet_print|intros _].
      apply quiet_bind; [|intros _; by apply quiet_run_command].
      apply quiet_on_err; [by apply quiet_run_command|]. intros e. by apply quiet_print. }
    apply emits_bind_quiet; [apply quiet_lift|intros e|intros; apply hooks_none..].
    apply emits_bind_quiet; [|intros _|intros; apply hooks_none..].
    { apply quiet_for_each. intros d. assert (Hq : quiet hook_of (executeWipeDisks d)) by (unfold executeWipeDisks; quiet_io).
      intros w1. specialize (Hq w1). unfold wipe_disk. by destruct (executeWipeDisks d w1). }
    unfold save_and_install. apply emits_bind_quiet; [by apply quiet_try, quiet_saveElemental|intros [[dir file]|e1|]|intros; apply hooks_none..].
    - apply run_installer_hooks.
    - apply emits_quiet; [apply quiet_ret|apply hooks_none].
    - apply emits_quiet; [apply quiet_ret|apply hooks_none]. }
  destruct (He w0) as (rest & Hs & Ho). exists rest. split; [|done].
  rewrite Hs. unfold w0. by rewrite seen_log, <- app_assoc.
Qed.
End install.

(** ** The commands of an installation *)

Definition wipe_commands (disk : string) : list (list string) :=
  [["/usr/sbin/sgdisk"; "-Z"; disk]; ["/usr/sbin/partprobe"; "-s"; disk]].

Section commands.
Context `{Host} `{Installer}.

Lemma run_command_ok argv w u w' : run_command argv w = (Ok u, w') -> execs w' = execs w ++ [argv].
Proof. intros E. pose proof (run_command_spec argv w) as Hs. by rewrite E in Hs. Qed.

Lemma on_err_ok {A} (m : io A) h w a w' : on_err m h w = (Ok a, w') -> m w = (Ok a, w').
Proof. unfold on_err. destruct (m w) as [[b|e|] w1]; [done| |done]. by destruct (h e w1) as [[] ?]. Qed.

Lemma wipe_disk_ok disk w u w' : wipe_disk disk w = (Ok u, w') -> execs w' = execs w ++ wipe_commands disk.
Proof.
  unfold wipe_disk. destruct (executeWipeDisks disk w) as [r w1] eqn:E. intros [= Hr ->]. apply map_err_ok in Hr. subst r.
  unfold executeWipeDisks in E. apply io_bind_ok in E as (? & w2 & H1%run_command_ok & H2%run_command_ok).
  by rewrite H2, H1, <- app_assoc.
Qed.

Lemma wipe_all_ok disks w u w' :
  for_each_io wipe_disk disks w = (Ok u, w') -> execs w' = execs w ++ flat_map wipe_commands disks.
Proof.
  revert w. induction disks as [|d disks IH]; intros w Hr.
  - apply io_ret_ok in Hr as [_ <-]. by rewrite app_nil_r.
  - rewrite for_each_io_cons in Hr. apply io_bind_ok in Hr as (? & w1 & H1%wipe_disk_ok & Hr). cbn [flat_map].
    by rewrite (IH _ Hr), H1, <- app_assoc.
Qed.

Lemma printed_execs m w u w' : printToPanel m w = (Ok u, w') -> execs w' = execs w.
Proof. intros [= _ <-]. unfold execs. by rewrite seen_log, app_nil_r. Qed.

Lemma run_installer_ok im c env dir file w w' :
  run_installer im c env dir file w = (Ok tt, w') ->
  let env' := env ++ ["ELEMENTAL_CONFIG=" +:+ file; "ELEMENTAL_CONFIG_DIR=" +:+ dir] in
  execs w' = execs w ++ (if im then [["/usr/sbin/harv-dummy-iface"]] else []) ++
    ["/usr/sbin/harv-install" :: env'; "/usr/sbin/cos-installer-shutdown" :: env'].
Proof.
  unfold run_installer. cbv zeta. set (env' := env ++ _). intros (? & w1 & H1 & Hr)%io_bind_ok.
  apply io_bind_ok in Hr as (? & w2 & H2%on_err_ok & Hr). apply io_bind_ok in Hr as (? & w3 & H3 & H4%on_err_ok).
  assert (E1 : execs w1 = execs w ++ (if im then [["/usr/sbin/harv-dummy-iface"]] else [])).
  { destruct im; [by apply on_err_ok, run_command_ok in H1|]. apply io_ret_ok in H1 as [_ <-]. by rewrite app_nil_r. }
  assert (E3 : execs w3 = execs w2) by (injection H3 as _ <-; unfold execs; by rewrite seen_log, app_nil_r).
  apply run_command_ok in H2, H4. rewrite H4, E3, H2, E1, <- !app_assoc. done.
Qed.

End commands.

(** ** The environment of the installer script *)

(** The value a process sees: [exec.Cmd] keeps the last entry of a name. *)
Definition getenv (name : string) (env : list string) : option string :=
  List.last (map Some (omap (strip_prefix (name +:+ "=")) env)) None.

Lemma getenv_app name env l : getenv name (env ++ l) =
  match omap (strip_prefix (name +:+ "=")) l with [] => getenv name env | _ => getenv name l end.
Proof.
  unfold getenv. rewrite omap_app, map_app. destruct (omap _ l) as [|x xs] eqn:E; [by rewrite app_nil_r|].
  assert (Hl : forall (a b : list (option string)) d, b <> [] -> List.last (a ++ b) d = List.last b d).
  { clear. intros a b d Hb. induction a as [|y a IH]; [done|]. rewrite <- IH. cbn.
    destruct (a ++ b) eqn:Eab; [|done]. apply app_nil in Eab as [_ ?]. done. }
  by apply Hl.
Qed.

(** The kernel arguments given in the configuration replace "multipath=off"
    instead of joining it: the script sees only one value of the variable, and
    the data disk, when there is one, is the one of the configuration. *)
Theorem install_env_values c env :
  getenv "HARVESTER_ADDITIONAL_KERNEL_ARGUMENTS" (install_env c env) =
    (if negb (bool_decide (os_AdditionalKernelArguments (hc_OS c) = "")) then Some (os_AdditionalKernelArguments (hc_OS c))
     else if negb (es_Enabled (os_ExternalStorage (hc_OS c))) then Some multipathOff
     else getenv "HARVESTER_ADDITIONAL_KERNEL_ARGUMENTS" env) /\
  getenv "HARVESTER_DATA_DISK" (install_env c env) =
    (if bool_decide (in_DataDisk (hc_Install c) = "") then getenv "HARVESTER_DATA_DISK" env
     else Some (in_DataDisk (hc_Install c))).
Proof.
  unfold install_env. cbv zeta.
  split; rewrite !app_assoc.
  - destruct (bool_decide (os_AdditionalKernelArguments _ = "")); cbn [negb]; [rewrite app_nil_r|by rewrite getenv_app].
    destruct (es_Enabled _); cbn [negb]; [rewrite app_nil_r|by rewrite getenv_app].
    destruct (bool_decide _); [by rewrite app_nil_r|by rewrite getenv_app].
  - assert (Hk : forall e v, getenv "HARVESTER_DATA_DISK" (e ++ ["HARVESTER_ADDITIONAL_KERNEL_ARGUMENTS=" +:+ v]) =
      getenv "HARVESTER_DATA_DISK" e) by (intros; by rewrite getenv_app).
    destruct (bool_decide (os_AdditionalKernelArguments _ = "")); rewrite ?app_nil_r, ?Hk;
    destruct (es_Enabled _); rewrite ?app_nil_r, ?Hk;
    destruct (bool_decide _); rewrite ?app_nil_r; try done; by rewrite getenv_app.
Qed.

(** ** A node whose image is already installed *)

Section installed.
Context `{Host} `{Installer}.

Lemma quiet_finally {B} (p : event -> option B) {A} (m : io A) h : quiet p m -> quiet p h -> quiet p (finally m h).
Proof.
  intros Hm Hh w. specialize (Hm w). unfold finally. destruct (m w) as [r w1]. cbn [snd] in Hm.
  specialize (Hh w1). by destruct (h w1) as [[] w2]; cbn [snd] in *; rewrite Hh.
Qed.

Lemma quiet_hook_Update n dns dir b : quiet hook_of (UpdateManagementInterfaceConfig n dns dir b).
Proof.
  unfold UpdateManagementInterfaceConfig, wipeNMConnectionProfiles.
  quiet_io; first [apply quiet_updateBond|apply quiet_updateBridge]; exact _.
Qed.

Lemma quiet_hook_Rancherd c stages : quiet hook_of (applyRancherdConfig c stages).
Proof.
  unfold applyRancherdConfig, GenerateRancherdConfig. apply quiet_bind.
  - quiet_io. destruct a as [c1 s]. quiet_io.
  - intros [c1 conf]. quiet_io; by apply quiet_saveTemp.
Qed.

(** Applying a configuration to an installed node sends STARTED and no other
    event, whether it succeeds or fails, and a failure to restart the services
    is not an error. *)
Theorem configureInstalledNode_hooks c w :
  seen hook_of (snd (configureInstalledNode c w)) = seen hook_of w ++ [EventInstallStarted].
Proof.
  unfold configureInstalledNode. unfold handle_webhooks at 1. unfold mbind at 1. unfold io_bind at 1.
  set (w0 := log_event (EvWebhook EventInstallStarted) w).
  match goal with |- seen hook_of (snd (?m w0)) = _ => assert (Hq : quiet hook_of m) end.
  { quiet_io. apply quiet_on_err; [|intros; by apply quiet_print].
    { unfold generateTempConfigFiles. apply quiet_bind; [by apply quiet_convert|]. intros [c1 st].
      quiet_io; by apply quiet_saveTemp. }
    destruct a0 as [[[c1 cos] f1] f2]. apply quiet_finally; [apply quiet_finally|]; [|quiet_io|quiet_io].
    apply quiet_bind; [apply quiet_on_err; [apply quiet_hook_Rancherd|intros; by apply quiet_print]|intros _].
    apply quiet_bind; [unfold restartCoreServices; quiet_io|intros [u|e|]; [apply quiet_ret|by apply quiet_print|apply quiet_ret]]. }
  rewrite Hq. unfold w0. by rewrite seen_log.
Qed.
End installed.

(** ** An example *)

Definition demo_installer : Installer := {|
  environ := ["PATH=/usr/bin"]; yaml_cos s := Ok "cos"; yaml_hvst c := Ok "hvst"; yaml_elemental e := Ok "elemental";
  temp_name w prefix := Ok ("/tmp/" +:+ prefix +:+ ".1"); resolve_link := Ok;
  to_env prefix i := Ok ["HARVESTER_DEVICE=" +:+ in_Device i]; disk_size d := Ok (500 * 2 ^ 30);
  rand_suffix := "abcde"; err_text e := "error"; render_config := demo_render; template_file := demo_templFile;
  yaml_stage s := Ok zero_Stage; visit_map := map_to_list; built_versions := demo_versions; arch := "amd64"
|}.
Definition demo_install : HarvesterConfig :=
  set_hc_Install (set_in_WipeDisksList ["/dev/sdb"] (hc_Install (demo_config "create"))) (demo_config "create").
Definition no_options : DiskOptionsCache := mkCache [] [].

