(* ===== verification/Dashboard.v ===== *)
(** * Dashboard: the status screen of an installed node
      ([pkg/console/dashboard_panels.go])

    Four goroutines ask for the management address, the state of the cluster,
    the node and its state, at the start and then at each tick, and send what
    they found to the main loop.  They share the package variable [current].
    The program of a goroutine is a tree of its commands and of its accesses to
    [current], so that the steps of the goroutines, of the main loop and of the
    user may come in any order ([run]).

    Commands run with the environment of the process: the variable that
    [initState] sets is written in front of the command. *)
From Stdlib Require Import ZArith Lia Ascii String.
From stdpp Require Import base tactics list gmap strings.
From S2P Require Import Prelude GoStrings GoAny Config World Cos Preflight Network ConsoleUtil Text Gui Widgets.
Local Open Scope Z_scope.

Definition statusReady : string := "Ready".
Definition statusNotReady : string := "NotReady".
Definition statusSettingUpNode : string := "Setting up node".
Definition statusSettingUpHarv : string := "Setting up Harvester".
Definition colorGreen : Z := 2.
Definition colorYellow : Z := 3.
Definition defaultHarvesterConfig : string := "/oem/harvester.config".
Definition logo : string := "
██╗░░██╗░█████╗░██████╗░██╗░░░██╗███████╗░██████╗████████╗███████╗██████╗░
██║░░██║██╔══██╗██╔══██╗██║░░░██║██╔════╝██╔════╝╚══██╔══╝██╔════╝██╔══██╗
███████║███████║█████╔╝╚██╗░░██╔╝█████╗░░╚█████╗░░░░██║░░░█████╗░░██████╔╝
██╔══██║██╔══██║██╔══██╗░╚████╔╝░██╔══╝░░░╚═══██╗░░░██║░░░██╔══╝░░██╔══██╗
██║░░██║██║░░██║██║░░██║░░╚██╔╝░░███████╗██████╔╝░░░██║░░░███████╗██║░░██║
╚═╝░░╚═╝╚═╝░░╚═╝╚═╝░░╚═╝░░░╚═╝░░░╚══════╝╚═════╝░░░░╚═╝░░░╚══════╝╚═╝░░╚═╝".

Record state := mkState { installed : bool; firstHost : bool; managementURL : string }.
Definition set_installed (c : state) : state := mkState true (firstHost c) (managementURL c).
Definition set_firstHost (c : state) : state := mkState (installed c) true (managementURL c).
Definition set_managementURL (u : string) (c : state) : state := mkState (installed c) (firstHost c) u.

(** Escape and quotes, and what the commands are made of. *)
Definition esc : string := String "027" "".
Definition dq : string := String "034" "".
Definition wrapColor (s : string) (color : Z) : string := esc +:+ "[3" +:+ itoa color +:+ ";7m" +:+ s +:+ esc +:+ "[0m".
Definition https : string := "https://".

(** ** The programs of the goroutines *)

Inductive prog (A : Type) : Type :=
| Ret (a : A)
| Sh (cmd : string) (k : result string -> prog A)     (* /bin/sh -c cmd *)
| Hostname (k : result string -> prog A)              (* os.Hostname *)
| Load (k : state -> prog A)                          (* a field of [current] is read *)
| Store (f : state -> state) (k : prog A)             (* and written *)
| Send (u : update) (k : prog A).                     (* g.Update *)
Arguments Ret {A}. Arguments Sh {A}. Arguments Hostname {A}. Arguments Load {A}. Arguments Store {A}. Arguments Send {A}.
#[export] Instance prog_ret : MRet prog := fun A a => Ret a.
#[export] Instance prog_bind : MBind prog := fun A B f =>
  fix go p := match p with
  | Ret a => f a
  | Sh cmd k => Sh cmd (fun r => go (k r))
  | Hostname k => Hostname (fun r => go (k r))
  | Load k => Load (fun s => go (k s))
  | Store g k => Store g (go k)
  | Send u k => Send u (go k)
  end.
Definition sh (cmd : string) : prog (result string) := Sh cmd Ret.
Definition load {A} (f : state -> A) : prog A := Load (fun s => Ret (f s)).
Definition store_state (f : state -> state) : prog unit := Store f (Ret tt).
Definition send (view text : string) : prog unit := Send (mkUpdate view text true true false None) (Ret tt).

Definition vip_cmd (first : bool) : string :=
  if first then "kubectl get configmap -n harvester-system vip -o jsonpath='{.data.ip}'"
  else "kubectl get svc -n kube-system ingress-expose -o jsonpath='{.status.loadBalancer.ingress[*].ip}'".
Definition getVIP : prog string :=
  first ← load firstHost;
  out ← sh (vip_cmd first);
  mret (value_or "" out).
Definition doSyncManagementURL : prog unit :=
  managementIP ← getVIP;
  url ← (if negb (bool_decide (managementIP = "")) then
           _ ← store_state (set_managementURL (https +:+ managementIP)); mret (https +:+ managementIP)
         else mret "Unavailable");
  send "managementUrl" ("* Management URL:" +:+ Text.newline +:+ "  " +:+ url).

Definition hostname_cmd : string := "hostname | tr -d '\r\n'".
Definition default_route_cmd : string := "ip -4 -json route show default | jq -e -j '.[0][" +:+ dq +:+ "dev" +:+ dq +:+ "]'".
Definition address_cmd (device : string) : string :=
  "ip -4 -json address show dev " +:+ device +:+ " | jq -e -j '.[0][" +:+ dq +:+ "addr_info" +:+ dq +:+ "][0][" +:+ dq +:+ "local" +:+ dq +:+ "]'".
(** The output, or a default when the command failed or printed nothing. *)
Definition output_or (d : string) (r : result string) : string :=
  let out := value_or "" r in if bool_decide (out = "") then d else out.
Definition getNodeInfo : prog string :=
  out ← sh hostname_cmd;
  let hostname := output_or "" out in
  out ← sh default_route_cmd;
  let device := output_or "harvester-mgmt" out in
  out ← sh (address_cmd device);
  let address := output_or "" out in
  mret ("* Hostname: " +:+ hostname +:+ Text.newline +:+ "* IP Address: " +:+ address).
Definition doSyncNodeInfo : prog unit := nodeIP ← getNodeInfo; send "nodeInfo" nodeIP.

Definition k8s_cmd : string := "kubectl get no -o jsonpath='{.items[*].metadata.name}'".
Definition k8sIsReady : prog bool :=
  output ← sh k8s_cmd;
  mret (match output with Ok out => negb (bool_decide (out = "")) | _ => false end).
Definition chart_cmd : string :=
  "kubectl -n fleet-local get ManagedChart harvester -o jsonpath='{.status.conditions}' | jq 'map(select(.type == " +:+ dq +:+ "Ready" +:+ dq
  +:+ " and .status == " +:+ dq +:+ "True" +:+ dq +:+ ")) | length'".
(** The number of conditions that say the chart is ready. *)
Definition chart_ready (output : result string) : bool :=
  match output with
  | Ok outStr =>
      if bool_decide (outStr = "") then false
      else match atoi (trim (fun c => bool_decide (c = nl_char)) outStr) with Ok processed => 1 <=? processed | _ => false end
  | _ => false
  end.
Definition chartIsInstalled : prog bool := output ← sh chart_cmd; mret (chart_ready output).
Definition api_cmd (url path : string) : string := "curl -fk " +:+ url +:+ path.
(** The address that is tested is read again, after the one that is used. *)
Definition isAPIReady (url path : string) : prog bool :=
  tested ← load managementURL;
  if negb (has_prefix tested https) then mret false
  else out ← sh (api_cmd url path); mret (is_ok out).
Definition node_cmd (hostname : string) : string := "kubectl get no " +:+ hostname.
Definition nodeIsPresent : prog bool :=
  Hostname (fun h =>
    match h with
    | Ok hostname => out ← sh (node_cmd hostname); mret (is_ok out)
    | _ => mret false
    end).

(** [a && b] and the test of an installation that is still going on. *)
Definition both (a b : prog bool) : prog bool := x ← a; if (x : bool) then b else mret false.
Definition being_installed : prog bool := both (load firstHost) (load (fun s => negb (installed s))).
Definition set_up (k : prog string) (setting_up : string) : prog string :=
  going_on ← being_installed;
  if (going_on : bool) then
    ready ← both k8sIsReady chartIsInstalled;
    if negb ready then mret setting_up else _ ← store_state set_installed; k
  else k.
Definition getHarvesterStatus : prog string :=
  set_up (
    present ← nodeIsPresent;
    if negb present then mret (wrapColor statusNotReady colorYellow)
    else
      url ← load managementURL;
      harvesterAPIReady ← isAPIReady url "/v1/harvester/cluster/local";
      mret (if harvesterAPIReady : bool then wrapColor statusReady colorGreen else wrapColor statusNotReady colorYellow))
    statusSettingUpHarv.
Definition getNodeStatus : prog string :=
  set_up (
    present ← nodeIsPresent;
    mret (if negb present then wrapColor statusNotReady colorYellow else wrapColor statusReady colorGreen))
    statusSettingUpNode.
Definition doSyncHarvesterStatus : prog unit := status ← getHarvesterStatus; send "clusterStatus" ("* Status: " +:+ status).
Definition doSyncNodeStatus : prog unit := status ← getNodeStatus; send "nodeStatus" ("* Status: " +:+ status).

Inductive task : Set := syncManagementURL | syncHarvesterStatus | syncNodeInfo | syncNodeStatus.
(** What a goroutine does at the start and at each tick. *)
Definition sync (t : task) : prog unit :=
  match t with
  | syncManagementURL => doSyncManagementURL
  | syncHarvesterStatus => doSyncHarvesterStatus
  | syncNodeInfo => doSyncNodeInfo
  | syncNodeStatus => doSyncNodeStatus
  end.

(** ** The console *)

(** [leave] is [quit] of console.go. *)
Inductive handler : Set := toShell | login | dismiss | leave.
Notation gui_state := (Gui (binding handler)).
Record dash := mkDash {
  da_once : bool;                                     (* [once.Do] has run *)
  da_current : state;
  da_kubeconfig : option string;
  da_world : world;
  da_gui : gui_state;
  da_frame : Panel (H := handler);                    (* the widgets of the password *)
  da_password : Input (H := handler);
  da_validator : Panel (H := handler);
  da_threads : list (task * prog unit)
}.
Definition put_once (b : bool) (d : dash) : dash :=
  mkDash b (da_current d) (da_kubeconfig d) (da_world d) (da_gui d) (da_frame d) (da_password d) (da_validator d) (da_threads d).
Definition put_state (c : state) (d : dash) : dash :=
  mkDash (da_once d) c (da_kubeconfig d) (da_world d) (da_gui d) (da_frame d) (da_password d) (da_validator d) (da_threads d).
Definition put_kubeconfig (k : string) (d : dash) : dash :=
  mkDash (da_once d) (da_current d) (Some k) (da_world d) (da_gui d) (da_frame d) (da_password d) (da_validator d) (da_threads d).
Definition put_world (w : world) (d : dash) : dash :=
  mkDash (da_once d) (da_current d) (da_kubeconfig d) w (da_gui d) (da_frame d) (da_password d) (da_validator d) (da_threads d).
Definition put_gui (g : gui_state) (d : dash) : dash :=
  mkDash (da_once d) (da_current d) (da_kubeconfig d) (da_world d) g (da_frame d) (da_password d) (da_validator d) (da_threads d).
Definition put_frame (p : Panel) (d : dash) : dash :=
  mkDash (da_once d) (da_current d) (da_kubeconfig d) (da_world d) (da_gui d) p (da_password d) (da_validator d) (da_threads d).
Definition put_password (i : Input) (d : dash) : dash :=
  mkDash (da_once d) (da_current d) (da_kubeconfig d) (da_world d) (da_gui d) (da_frame d) i (da_validator d) (da_threads d).
Definition put_validator (p : Panel) (d : dash) : dash :=
  mkDash (da_once d) (da_current d) (da_kubeconfig d) (da_world d) (da_gui d) (da_frame d) (da_password d) p (da_threads d).
Definition put_threads (t : list (task * prog unit)) (d : dash) : dash :=
  mkDash (da_once d) (da_current d) (da_kubeconfig d) (da_world d) (da_gui d) (da_frame d) (da_password d) (da_validator d) t.
Definition guiL : lens dash gui_state := mkLens da_gui put_gui.
Definition worldL : lens dash world := mkLens da_world put_world.
Definition frameL : lens dash Panel := mkLens da_frame put_frame.
Definition passwordL : lens dash Input := mkLens da_password put_password.
Definition validatorL : lens dash Panel := mkLens da_validator put_validator.

(** What surrounds it: os.Hostname, the YAML parser and the hash functions. *)
Class Node := {
  node_hostname : world -> result string;
  node_yaml : string -> result anymap;
  node_verify : crypter -> string -> string -> bool;
  HarvesterVersion : string
}.

Section dashboard.
Context `{Host} `{Node}.
Notation D := (st dash).

Definition io_op {A} (m : io A) : D A := zoom worldL m.

Definition initState : D unit :=
  content ← io_op (ReadFile RancherdConfigFile);
  serverURL ← st_lift (getServerURLFromRancherdConfig node_yaml content);
  if negb (bool_decide (serverURL = "")) then st_modify (put_kubeconfig "/var/lib/rancher/rke2/agent/kubelet.kubeconfig")
  else st_modify (fun d => put_state (set_firstHost (da_current d)) d).

(** A view that is made at the first layout, with its text and its goroutine:
    the four views that have one wrap their lines. *)
Definition new_panel (name : string) (x0 y0 x1 y1 : Z) (text : string) (t : option task) : D unit :=
  new ← zoom guiL (SetView name x0 y0 x1 y1);
  if negb new then mret tt
  else
    _ ← zoom guiL (on_view name (fun v => Write text (put_Wrap (bool_decide (is_Some t)) v)));
    match t with Some t => st_modify (fun d => put_threads (da_threads d ++ [(t, sync t)]) d) | None => mret tt end.
Definition clusterPanel : D unit :=
  g ← read guiL;
  let maxX := g_maxX g in
  _ ← new_panel "clusterPanel" (Z.quot maxX 2 - 40) 10 (Z.quot maxX 2 + 35) 15 "" None;
  _ ← new_panel "managementUrl" (Z.quot maxX 2 - 39) 10 (Z.quot maxX 2 + 34) 13
        (println ("* Management URL:" +:+ Text.newline +:+ "  loading...")) (Some syncManagementURL);
  new_panel "clusterStatus" (Z.quot maxX 2 - 39) 13 (Z.quot maxX 2 + 34) 15 (println "* Status: loading...") (Some syncHarvesterStatus).
Definition nodePanel : D unit :=
  g ← read guiL;
  let maxX := g_maxX g in
  _ ← new_panel "nodePanel" (Z.quot maxX 2 - 40) 16 (Z.quot maxX 2 + 35) 21 "" None;
  _ ← new_panel "nodeInfo" (Z.quot maxX 2 - 39) 16 (Z.quot maxX 2 + 34) 19
        (println ("* Hostname: loading..." +:+ Text.newline +:+ "* IP Address: loading...")) (Some syncNodeInfo);
  new_panel "nodeStatus" (Z.quot maxX 2 - 39) 19 (Z.quot maxX 2 + 34) 21 (println "* Status: loading...") (Some syncNodeStatus).
Definition footer : D unit :=
  g ← read guiL;
  new_panel "footer" 0 (g_maxY g - 2) (g_maxX g) (g_maxY g) "<Use F12 to switch between Harvester console and Shell>" None.
(** [%*s] pads to the absolute value of a negative width. *)
Definition logo_text : string :=
  let versionStr := "version: " +:+ HarvesterVersion in
  logo +:+ Text.newline +:+ of_chars (replicate (Z.to_nat (Z.abs (74 - slen versionStr))) " "%char) +:+ versionStr.
Definition logoPanel : D unit :=
  g ← read guiL;
  new_panel "logo" (Z.quot (g_maxX g) 2 - 40) 1 (Z.quot (g_maxX g) 2 + 40) 9 logo_text None.

Definition layoutDashboard : D unit :=
  d ← st_get;
  _ ← (if da_once d then mret tt
       else
         _ ← st_modify (put_once true);
         _ ← st_try initState;
         zoom guiL (SetKeybinding "" KeyF12 (BOwn toShell)));
  _ ← clusterPanel;
  _ ← nodePanel;
  _ ← footer;
  logoPanel.

(** *** The way to the shell *)

Definition denied : string := "Invalid credential or password hash algorithm not supported.".
Definition validateAdminPassword (passwd : string) : D bool :=
  file ← st_try (io_op (ReadFile "/etc/shadow"));
  mret (match file with
        | Ok text =>
            match list_find (fun line => has_prefix line "rancher:" = true) (scanner_lines text) with
            | Some (_, line) => CompareByShadow node_verify passwd line
            | None => false
            end
        | _ => false
        end).
Definition toShell_frame (maxX : Z) : Panel (H := handler) := SetLocation (Z.quot maxX 2 - 35) 10 (Z.quot maxX 2 + 35) 17 (NewPanel "adminPasswordFrame").
Definition shell_keys : list (Key * binding handler) := [(KeyEnter, BOwn login); (KeyEsc, BOwn dismiss)].
Definition toShell_password (maxX maxY : Z) : Input (H := handler) :=
  let i := NewInput maxX maxY "adminPassword" "Input password: " in
  mkInput (put_KeyBindings shell_keys (SetLocation (Z.quot maxX 2 - 30) 12 (Z.quot maxX 2 + 30) 14 (in_Panel i))) (in_Value i).
Definition toShell_validator (maxX : Z) : Panel (H := handler) :=
  let p := SetLocation (Z.quot maxX 2 - 30) 14 (Z.quot maxX 2 + 30) 16 (NewPanel "validator") in
  mkPanel (pn_Name p) (pn_Wrap p) false ColorRed (pn_Content p) (pn_X0 p) (pn_X1 p) (pn_Y0 p) (pn_Y1 p) (pn_KeyBindings p) (pn_KeyBindingTips p)
    (pn_FirstPage p).
Definition no_hook : D unit := mret tt.
Definition run_toShell : D unit :=
  g ← read guiL;
  _ ← st_modify (put_frame (toShell_frame (g_maxX g)));
  _ ← Panel_Show guiL frameL no_hook;
  _ ← st_modify (put_password (toShell_password (g_maxX g) (g_maxY g)));
  _ ← st_modify (put_validator (toShell_validator (g_maxX g)));
  Input_Show guiL passwordL no_hook.
Definition run_login : D unit :=
  passwd ← Input_GetData guiL passwordL;
  valid ← validateAdminPassword passwd;
  if (valid : bool) then st_fail ErrQuit
  else
    _ ← Panel_Show guiL validatorL no_hook;
    Panel_SetContent guiL validatorL denied.
Definition run_dismiss : D unit :=
  _ ← Panel_Close guiL frameL no_hook;
  _ ← Input_Close guiL passwordL no_hook;
  Panel_Close guiL validatorL no_hook.
Definition run_handler (h : handler) : D unit :=
  match h with toShell => run_toShell | login => run_login | dismiss => run_dismiss | leave => st_fail ErrQuit end.

(** The configuration the console starts with: that of an installed node when
    there is one. *)
Definition getHarvesterConfig (LoadHarvesterConfig : string -> result HarvesterConfig) (c : HarvesterConfig) : io HarvesterConfig :=
  r ← try (ReadFile defaultHarvesterConfig);
  match r with
  | Ok content => lift (map_err (EWrap ("failed to load harvester config from " +:+ defaultHarvesterConfig)) (LoadHarvesterConfig content))
  | Err (EPath _ _ true) => mret c
  | Err e => lift (Err (EWrap ("unable to read default harvester.config file " +:+ defaultHarvesterConfig) e))
  | Panic => lift Panic
  end.

(** ** What may happen *)

(** The command line that the shell gets, with the variable of the process. *)
Definition argv_of (k : option string) (cmd : string) : list string :=
  match k with Some v => ["KUBECONFIG=" +:+ v; "/bin/sh"; "-c"; cmd] | None => ["/bin/sh"; "-c"; cmd] end.
(** What a command gives when it is run now. *)
Definition answer (d : dash) (cmd : string) : result string := fst (Exec (argv_of (da_kubeconfig d) cmd) (da_world d)).
(** One step of a goroutine. *)
Definition advance {A} (p : prog A) : D (prog A) :=
  match p with
  | Ret a => mret (Ret a)
  | Sh cmd k => d ← st_get; r ← st_try (io_op (Exec (argv_of (da_kubeconfig d) cmd))); mret (k r)
  | Hostname k => d ← st_get; mret (k (node_hostname (da_world d)))
  | Load k => d ← st_get; mret (k (da_current d))
  | Store f k => _ ← st_modify (fun d => put_state (f (da_current d)) d); mret k
  | Send u k => _ ← zoom guiL (Update u); mret k
  end.
(** The goroutine [i] moves; when it is done with its round it waits for a tick
    and starts the next one. *)
Definition thread_step (i : nat) : D unit :=
  d ← st_get;
  match da_threads d !! i with
  | Some (t, Ret _) => st_modify (fun d => put_threads (<[i := (t, sync t)]> (da_threads d)) d)
  | Some (t, p) => p' ← advance p; st_modify (fun d => put_threads (<[i := (t, p')]> (da_threads d)) d)
  | None => mret tt
  end.
(** The main loop takes the function [i] of those that wait. *)
Definition event_step (i : nat) : D unit :=
  d ← st_get;
  match g_updates (da_gui d) !! i with
  | Some u => _ ← zoom guiL (st_modify (fun g => put_updates (delete i (g_updates g)) g)); zoom guiL (run_update u)
  | None => mret tt
  end.
Definition press_key (k : Key) : D unit :=
  g ← read guiL;
  st_for_each (fun b => match b with BOwn h => run_handler h | _ => mret tt end) (matching k g).
(** What is in the field of the password. *)
Definition typed (text : string) : D unit :=
  g ← read guiL;
  match g_current g with
  | Some name =>
      match g_views g !! name with
      | Some v => if v_Editable v then zoom guiL (PutView name (put_lines [text] v)) else mret tt
      | None => mret tt
      end
  | None => mret tt
  end.

Inductive choice : Type := Layout | Goroutine (i : nat) | Event (i : nat) | Press (k : Key) | Typed (text : string).
Definition step (c : choice) : D unit :=
  match c with
  | Layout => layoutDashboard
  | Goroutine i => thread_step i
  | Event i => event_step i
  | Press k => press_key k
  | Typed text => typed text
  end.
Definition run (cs : list choice) : D unit := st_for_each step cs.

(** [setGlobalKeyBindings]: with [DEBUG], Ctrl-C leaves without a password. *)
Definition setGlobalKeyBindings (debug : bool) : D unit :=
  if debug then zoom guiL (SetKeybinding "" KeyCtrlC (BOwn leave)) else mret tt.
(** The end of [doRun]: the keys, and the main loop, which begins with a layout. *)
Definition dashboard_session (debug : bool) (cs : list choice) : D unit :=
  _ ← setGlobalKeyBindings debug; _ ← layoutDashboard; run cs.
End dashboard.

Definition start_dash (maxX maxY : Z) (w : world) : dash :=
  mkDash false (mkState false false "") None w (new_gui maxX maxY) (NewPanel "adminPasswordFrame") (NewInput 0 0 "adminPassword" "Input password: ") (NewPanel "validator") [].
