(* ===== verification/Console.v ===== *)
(** * Console: the state of the interactive installer and its elements
      ([pkg/console/console.go], [constant.go], [install_panels.go], [pkg/widgets])

    The pages of the installer are made of elements.  An element is shown and
    closed as its widget is ([pkg/widgets]): showing an input gives it the focus
    and its stored value as text, a drop-down keeps its value when closed,
    closing an input, select or drop-down that is not shown is an error, and a
    panel takes the focus only if it is told to.  Hooks run before an element is
    shown ([PreShow]) and after it is closed ([PostClose]).

    Not part of the state: colours, the terminal cursor and the tips of the
    footer; the text of a panel is kept unformatted (its layout is in Text). *)
From Stdlib Require Import ZArith Lia Ascii String.
From stdpp Require Import base tactics list gmap strings.
From S2P Require Import Prelude GoStrings GoNet GoAny Config Merge ConfigOps World DiskSize Mapper DiskOptions Validator Preflight Network ConsoleUtil.
Local Open Scope Z_scope.

(** ** Elements *)

Inductive panel : Set :=
| titlePanel | validatorPanel | notePanel | footerPanel | spinnerPanel
| preflightCheckPanel | askCreatePanel | askRolePanel
| passwordPanel | passwordConfirmPanel
| diskPanel | diskFatalPanel | dataDiskPanel | persistentSizePanel | wipeDisksTitlePanel | wipeDisksPanel
| askForceMBRTitlePanel | askForceMBRPanel | diskNotePanel | diskValidatorPanel
| askInterfacePanel | askVlanIDPanel | askBondModePanel | askNetworkMethodPanel | addressPanel | addrMaskPanel
| gatewayPanel | mtuPanel | bondNotePanel | networkValidatorPanel
| clusterPodCIDRPanel | clusterServiceCIDRPanel | clusterDNSPanel | clusterNetworkNotePanel | clusterNetworkValidatorPanel
| hostnamePanel | hostnameValidatorPanel | dnsServersPanel
| askVipMethodPanel | vipHwAddrPanel | vipHwAddrNotePanel | vipPanel | vipTextPanel
| serverURLPanel | tokenPanel | ntpServersPanel | proxyPanel | sshKeyPanel | cloudInitPanel
| confirmInstallPanel | confirmUpgradePanel | installPanel | upgradePanel.
#[export] Instance panel_eq_dec : EqDecision panel.
Proof. solve_decision. Defined.

Inductive kind : Set :=
| KPanel (Focus : bool)           (* widgets.Panel *)
| KInput                          (* widgets.Input *)
| KSelect                         (* widgets.Select *)
| KDropDown (multi : bool).       (* widgets.DropDown *)

(** [el_data]: the text in an input, the value under the cursor of a select.
    [el_values]: what is checked in a drop-down with several choices. *)
Record element : Set := mkElement {
  el_open : bool;
  el_Value : string;
  el_data : string;
  el_values : list string;
  el_Content : string
}.

(** What [setPanels] registers: every name the pages use, so that no lookup
    fails.  The flag of a panel is the one it is first shown with; the wait for
    the network focuses its panel itself. *)
Definition kind_of (p : panel) : kind :=
  match p with
  | titlePanel | validatorPanel | notePanel | footerPanel => KPanel false
  | hostnameValidatorPanel | clusterNetworkNotePanel | clusterNetworkValidatorPanel => KPanel false
  | vipHwAddrNotePanel | vipTextPanel | diskValidatorPanel | bondNotePanel | networkValidatorPanel => KPanel false
  | spinnerPanel | diskFatalPanel | wipeDisksTitlePanel | askForceMBRTitlePanel | diskNotePanel
  | installPanel | upgradePanel => KPanel true
  | preflightCheckPanel | askCreatePanel | askRolePanel | confirmInstallPanel | confirmUpgradePanel => KSelect
  | diskPanel | dataDiskPanel | askForceMBRPanel | askBondModePanel | askNetworkMethodPanel | askVipMethodPanel => KDropDown false
  | wipeDisksPanel | askInterfacePanel => KDropDown true
  | passwordPanel | passwordConfirmPanel | persistentSizePanel | askVlanIDPanel | addressPanel | addrMaskPanel
  | gatewayPanel | mtuPanel | clusterPodCIDRPanel | clusterServiceCIDRPanel | clusterDNSPanel | hostnamePanel
  | dnsServersPanel | vipHwAddrPanel | vipPanel | serverURLPanel | tokenPanel | ntpServersPanel | proxyPanel
  | sshKeyPanel | cloudInitPanel => KInput
  end.
Definition setPanels (p : panel) : element := mkElement false "" "" [] "".

(** ** The state *)

Record UserInputData : Set := mkInput {
  ui_ServerURL : string;
  ui_SSHKeyURL : string;
  ui_Password : string;
  ui_PasswordConfirm : string;
  ui_Address : string;
  ui_AddrMask : string;
  ui_DNSServers : string;
  ui_NTPServers : string;
  ui_HasCheckedNTPServers : bool
}.

(** Work a handler leaves to a goroutine. *)
Inductive task : Set :=
| PingServer (fmtServerURL : string)
| FetchSSHKeys (url : string)
| SetupNetwork (fromPanel : panel)
| RequestVip (hwAddr : string)
| CheckNTP (ntpServers : string)
| SetupDNS (dnsServers : string)
| CheckConfig (configURL : string)
| RunInstall
| RunUpgrade
| SleepAndReboot.

Record wizard : Type := mkWizard {
  wz_config : HarvesterConfig;
  wz_input : UserInputData;            (* userInputData *)
  wz_mgmt : Network;                   (* mgmtNetwork *)
  wz_alreadyInstalled : bool;
  wz_installModeOnly : bool;
  wz_diskConfirmed : bool;
  wz_warnings : list string;           (* preflightWarnings *)
  wz_preflightAck : bool;
  wz_disks : DiskOptionsCache;         (* diskOptionsCache *)
  wz_env : gmap string string;         (* the environment of the process *)
  wz_elements : panel -> element;
  wz_focus : option panel;             (* the current view *)
  wz_tasks : list task;
  wz_world : world;
  wz_ifs : netifs;
  wz_net : net_log
}.

Notation eta_wizard w := (
    mkWizard (wz_config w) (wz_input w) (wz_mgmt w) (wz_alreadyInstalled w) (wz_installModeOnly w)
    (wz_diskConfirmed w) (wz_warnings w) (wz_preflightAck w) (wz_disks w) (wz_env w) (wz_elements w)
    (wz_focus w) (wz_tasks w) (wz_world w) (wz_ifs w) (wz_net w)) (only parsing).
Notation eta_UserInputData c := (
    mkInput (ui_ServerURL c) (ui_SSHKeyURL c) (ui_Password c) (ui_PasswordConfirm c) (ui_Address c)
    (ui_AddrMask c) (ui_DNSServers c) (ui_NTPServers c) (ui_HasCheckedNTPServers c)) (only parsing).
Notation eta_element e := (
    mkElement (el_open e) (el_Value e) (el_data e) (el_values e) (el_Content e)) (only parsing).

Definition set_wz_config (v : HarvesterConfig) (w : wizard) : wizard := ltac:(upd (eta_wizard w) (wz_config w) v).
Definition set_wz_input (v : UserInputData) (w : wizard) : wizard := ltac:(upd (eta_wizard w) (wz_input w) v).
Definition set_wz_mgmt (v : Network) (w : wizard) : wizard := ltac:(upd (eta_wizard w) (wz_mgmt w) v).
Definition set_wz_installModeOnly (v : bool) (w : wizard) : wizard := ltac:(upd (eta_wizard w) (wz_installModeOnly w) v).
Definition set_wz_diskConfirmed (v : bool) (w : wizard) : wizard := ltac:(upd (eta_wizard w) (wz_diskConfirmed w) v).
Definition set_wz_warnings (v : list string) (w : wizard) : wizard := ltac:(upd (eta_wizard w) (wz_warnings w) v).
Definition set_wz_preflightAck (v : bool) (w : wizard) : wizard := ltac:(upd (eta_wizard w) (wz_preflightAck w) v).
Definition set_wz_disks (v : DiskOptionsCache) (w : wizard) : wizard := ltac:(upd (eta_wizard w) (wz_disks w) v).
Definition set_wz_env (v : gmap string string) (w : wizard) : wizard := ltac:(upd (eta_wizard w) (wz_env w) v).
Definition set_wz_elements (v : panel -> element) (w : wizard) : wizard := ltac:(upd (eta_wizard w) (wz_elements w) v).
Definition set_wz_focus (v : option panel) (w : wizard) : wizard := ltac:(upd (eta_wizard w) (wz_focus w) v).
Definition set_wz_tasks (v : list task) (w : wizard) : wizard := ltac:(upd (eta_wizard w) (wz_tasks w) v).
Definition set_wz_world (v : world) (w : wizard) : wizard := ltac:(upd (eta_wizard w) (wz_world w) v).
Definition set_wz_ifs (v : netifs) (w : wizard) : wizard := ltac:(upd (eta_wizard w) (wz_ifs w) v).
Definition set_wz_net (v : net_log) (w : wizard) : wizard := ltac:(upd (eta_wizard w) (wz_net w) v).

Definition set_ui_ServerURL (v : string) (c : UserInputData) : UserInputData := ltac:(upd (eta_UserInputData c) (ui_ServerURL c) v).
Definition set_ui_SSHKeyURL (v : string) (c : UserInputData) : UserInputData := ltac:(upd (eta_UserInputData c) (ui_SSHKeyURL c) v).
Definition set_ui_Password (v : string) (c : UserInputData) : UserInputData := ltac:(upd (eta_UserInputData c) (ui_Password c) v).
Definition set_ui_PasswordConfirm (v : string) (c : UserInputData) : UserInputData := ltac:(upd (eta_UserInputData c) (ui_PasswordConfirm c) v).
Definition set_ui_Address (v : string) (c : UserInputData) : UserInputData := ltac:(upd (eta_UserInputData c) (ui_Address c) v).
Definition set_ui_AddrMask (v : string) (c : UserInputData) : UserInputData := ltac:(upd (eta_UserInputData c) (ui_AddrMask c) v).
Definition set_ui_DNSServers (v : string) (c : UserInputData) : UserInputData := ltac:(upd (eta_UserInputData c) (ui_DNSServers c) v).
Definition set_ui_NTPServers (v : string) (c : UserInputData) : UserInputData := ltac:(upd (eta_UserInputData c) (ui_NTPServers c) v).
Definition set_ui_HasChecked (v : bool) (c : UserInputData) : UserInputData := ltac:(upd (eta_UserInputData c) (ui_HasCheckedNTPServers c) v).

Definition set_el_open (v : bool) (e : element) : element := ltac:(upd (eta_element e) (el_open e) v).
Definition set_el_Value (v : string) (e : element) : element := ltac:(upd (eta_element e) (el_Value e) v).
Definition set_el_data (v : string) (e : element) : element := ltac:(upd (eta_element e) (el_data e) v).
Definition set_el_values (v : list string) (e : element) : element := ltac:(upd (eta_element e) (el_values e) v).
Definition set_el_Content (v : string) (e : element) : element := ltac:(upd (eta_element e) (el_Content e) v).

(** ** What surrounds the console *)

Class Surroundings := {
  machine : world -> Machine;
  probe : Probe;
  visit_nics : hwmap -> list link;
  oper_state : link -> string;                         (* OperState, as text *)
  kernel_hostname : world -> result string;            (* os.Hostname *)
  random_string : world -> string;                     (* rand.String(5) *)
  encode_install : Install -> result anymap;           (* as in PrintInstall *)
  marshal : anymap -> result string;
  program_version : string;
  err_text : error -> string                           (* Error() *)
}.

Notation W := (st wizard).

Definition run_io {A} (m : io A) : W A := fun w =>
  let '(r, w') := m (wz_world w) in (r, set_wz_world w' w).
Definition gets {A} (f : wizard -> A) : W A := fun w => (Ok (f w), w).
Definition on_config (f : HarvesterConfig -> HarvesterConfig) : W unit := st_modify (fun w => set_wz_config (f (wz_config w)) w).
(** [c.config.Merge]: the configuration is changed even when it fails. *)
Definition merge_config (other : HarvesterConfig) : W unit :=
  w ← st_get;
  let '(c, err) := Merge.Merge (wz_config w) other in
  _ ← on_config (fun _ => c);
  st_lift err.
Definition on_install (f : Install -> Install) : W unit := on_config (fun c => set_hc_Install (f (hc_Install c)) c).
Definition on_os (f : OS -> OS) : W unit := on_config (fun c => set_hc_OS (f (hc_OS c)) c).
Definition on_input (f : UserInputData -> UserInputData) : W unit := st_modify (fun w => set_wz_input (f (wz_input w)) w).
Definition on_mgmt (f : Network -> Network) : W unit := st_modify (fun w => set_wz_mgmt (f (wz_mgmt w)) w).

Definition install_of (w : wizard) : Install := hc_Install (wz_config w).
Definition mode_of (w : wizard) : string := in_Mode (install_of w).
Definition role_of (w : wizard) : string := in_Role (install_of w).

(** ** Elements: reading and writing *)

Definition on_element (p : panel) (f : element -> element) : W unit :=
  st_modify (fun w => set_wz_elements (fun q => if bool_decide (q = p) then f (wz_elements w q) else wz_elements w q) w).
Definition element_of (p : panel) : W element := gets (fun w => wz_elements w p).
Definition SetCurrentView (p : panel) : W unit := st_modify (set_wz_focus (Some p)).
Definition SetValue (p : panel) (v : string) : W unit := on_element p (set_el_Value v).
Definition SetContent (p : panel) (c : string) : W unit := on_element p (set_el_Content c).
Definition go (t : task) : W unit := st_modify (fun w => set_wz_tasks (wz_tasks w ++ [t]) w).

Definition ErrUnknownView : error := EMsg "unknown view".
Definition GetData (p : panel) : W string :=
  e ← element_of p;
  match kind_of p with
  | KInput | KSelect => if el_open e then mret (el_data e) else st_fail ErrUnknownView
  | KDropDown _ => mret (el_Value e)
  | KPanel _ => mret (el_Content e)
  end.
Definition GetMultiData (p : panel) : W (list string) := e ← element_of p; mret (el_values e).
(** [SetData] of an input. *)
Definition SetData (p : panel) (data : string) : W unit :=
  e ← element_of p;
  if el_open e then on_element p (set_el_data data) else st_fail ErrUnknownView.
(** [DropDown.Reset]. *)
Definition Reset (p : panel) : W unit := on_element p (fun e => set_el_Value "" (set_el_values [] e)).

(** ** Panels without hooks *)

Definition ShowPanel (p : panel) : W unit :=
  e ← element_of p;
  if el_open e then mret tt
  else
    _ ← on_element p (set_el_open true);
    match kind_of p with KPanel true => SetCurrentView p | _ => mret tt end.
Definition ClosePanel (p : panel) : W unit := on_element p (set_el_open false).

(** [Console.setContentByName]: only names of panels without hooks are given to it. *)
Definition setContentByName (p : panel) (content : string) : W unit :=
  if bool_decide (content = "") then ClosePanel p
  else _ ← ShowPanel p; SetContent p content.

(** ** Closing *)

Definition PostClose (p : panel) : W unit :=
  match p with
  | serverURLPanel | cloudInitPanel => ClosePanel spinnerPanel
  | sshKeyPanel | ntpServersPanel | dnsServersPanel => _ ← setContentByName notePanel ""; ClosePanel spinnerPanel
  | _ => mret tt
  end.
Definition Close (p : panel) : W unit :=
  e ← element_of p;
  if el_open e then _ ← ClosePanel p; PostClose p
  else match kind_of p with KPanel _ => mret tt | _ => st_fail ErrUnknownView end.
(** Errors are ignored or logged. *)
Definition CloseElement (p : panel) : W unit := _ ← st_try (Close p); mret tt.
Definition CloseElements (ps : list panel) : W unit := st_for_each CloseElement ps.

(** ** The choices of selects and drop-downs *)

Section console.
Context `{Host} `{Netlink} `{VipHost} `{Web} `{Ntp} `{Surroundings}.

Definition plain_option (v : string) : Option := mkOption v v.
Definition getBondModeOptions : list Option :=
  map plain_option [BondModeBalanceRR; BondModeActiveBackup; BondModeBalnaceXOR; BondModeBroadcast;
                    BondModeIEEE802_3ad; BondModeBalanceTLB; BondModeBalanceALB].
Definition getNetworkMethodOptions : list Option :=
  [mkOption NetworkMethodDHCP "Automatic (DHCP)"; mkOption NetworkMethodStatic "Static"].
Definition getNetworkInterfaceOptions (w : world) : result (list Option) :=
  nics ← getNICs visit_nics w;
  Ok (map (fun nic => mkOption (ln_Name nic) (ln_Name nic +:+ "(" +:+ hw nic +:+ ", " +:+ oper_state nic +:+ ")")) nics).
Definition askCreateOptions (alreadyInstalled : bool) : list Option :=
  [mkOption ModeCreate "Create a new Harvester cluster"; mkOption ModeJoin "Join an existing Harvester cluster"]
  ++ (if alreadyInstalled then [] else [mkOption ModeInstall "Install Harvester binaries only"]).
Definition askRoleOptions : list Option :=
  [mkOption RoleDefault "Default Role (Management or Worker)"; mkOption RoleMgmt "Management Role";
   mkOption RoleWitness "Witness Role"; mkOption RoleWorker "Worker Role"].
Definition yes_no (no : string) : list Option := [mkOption "yes" "Yes"; mkOption "no" no].

Definition getOptions (p : panel) (w : wizard) : result (list Option) :=
  match p with
  | preflightCheckPanel | confirmUpgradePanel => Ok (yes_no "No")
  | confirmInstallPanel => Ok (yes_no "No (Reboot)")
  | askCreatePanel => Ok (askCreateOptions (wz_alreadyInstalled w))
  | askRolePanel => Ok askRoleOptions
  | diskPanel => Ok (getAllValidDiskOptions (wz_disks w))
  | dataDiskPanel => getDataDiskOptions (wz_disks w) (in_Device (install_of w))
  | wipeDisksPanel => Ok (getWipeDisksOptions (wz_disks w) (in_Device (install_of w)) (in_DataDisk (install_of w)))
  | askForceMBRPanel => Ok [mkOption "no" "No"; mkOption "yes" "Yes"]
  | askInterfacePanel => getNetworkInterfaceOptions (wz_world w)
  | askBondModePanel => Ok getBondModeOptions
  | askNetworkMethodPanel | askVipMethodPanel => Ok getNetworkMethodOptions
  | _ => Ok []
  end.

(** ** Showing *)

(** [Select.SetData]: the cursor goes to the option of the stored value; with
    none stored it stays. *)
Definition first_value (opts : list Option) : string := match opts with o :: _ => op_Value o | [] => "" end.
Definition open_select (opts : list Option) (e : element) : element :=
  if el_open e then e else set_el_data (first_value opts) (set_el_open true e).
Definition select_data (e : element) (opts : list Option) : result element :=
  if bool_decide (el_Value e = "") then Ok e
  else if bool_decide (el_Value e ∈ map op_Value opts) then Ok (set_el_data (el_Value e) e)
  else Err (EMsg ("given data '" +:+ el_Value e +:+ "' not found in options")).

(** The default of a drop-down with one choice, when it is first shown. *)
Definition drop_value (multi opened : bool) (e : element) (opts : list Option) : element :=
  if opened || multi || negb (bool_decide (el_Value e = "")) then e else set_el_Value (first_value opts) e.

Definition show_view (p : panel) : W unit :=
  e ← element_of p;
  match kind_of p with
  | KPanel _ => ShowPanel p
  | KInput =>
      _ ← on_element p (fun e => set_el_data (el_Value e) (set_el_open true e));
      SetCurrentView p
  | KSelect =>
      w ← st_get;
      opts ← st_lift (getOptions p w);
      _ ← on_element p (open_select opts);
      _ ← (if el_open e then mret tt else SetCurrentView p);
      e' ← st_lift (select_data (open_select opts e) opts);
      on_element p (fun _ => e')
  | KDropDown multi =>
      w ← st_get;
      opts ← st_lift (getOptions p w);
      _ ← on_element p (fun e => set_el_open true (drop_value multi (el_open e) e opts));
      SetCurrentView p
  end.

(** *** Hooks *)

Definition hostname_of (w : wizard) : string := os_Hostname (hc_OS (wz_config w)).
Definition generateHostName (w : wizard) : string := "harvester-" +:+ random_string (wz_world w).
(** [generate] asks for a random name when the system has none of its own. *)
Definition checkDHCPHostname (generate : bool) : W unit :=
  w ← st_get;
  if bool_decide (hostname_of w = "") then
    let hostname := value_or "" (kernel_hostname (wz_world w)) in
    if negb (bool_decide (hostname = "rancher")) && negb (bool_decide (hostname = "")) then on_os (set_os_Hostname hostname)
    else if generate then on_os (set_os_Hostname (generateHostName w))
    else mret tt
  else mret tt.

Definition disk_title : W unit :=
  w ← st_get;
  setContentByName titlePanel
    (if bool_decide (role_of w = RoleWitness) then "Choose installation target. Device will be formatted"
     else "Choose installation target and data disk. Device will be formatted").

(** The value offered for the persistent partition. *)
Definition persistent_PreShow : W unit :=
  w ← st_get;
  e ← element_of persistentSizePanel;
  let set_default :=
    v ← st_lift (calculateDefaultPersistentSize (mc_diskSize (machine (wz_world w)) (in_Device (install_of w))));
    SetValue persistentSizePanel v in
  if negb (bool_decide (el_Value e = "")) then
    if negb (bool_decide (in_PersistentPartitionSize (install_of w) = ""))
    then SetValue persistentSizePanel (in_PersistentPartitionSize (install_of w))
    else set_default
  else set_default.

Definition default_bond_options : gmap string string := <["mode" := BondModeActiveBackup]> {["miimon" := "100"]}.
Definition bond_PreShow : W unit :=
  w ← st_get;
  if bool_decide (nw_BondOptions (wz_mgmt w) = None) then
    _ ← SetValue askBondModePanel BondModeActiveBackup;
    on_mgmt (set_nw_BondOptions (Some default_bond_options))
  else mret tt.

Definition line (what value : string) : string := what +:+ ": " +:+ value +:+ String newline "".
Definition line_if (what value : string) : string := if bool_decide (value = "") then "" else line what value.
Definition getenv (name : string) (w : wizard) : string := default "" (wz_env w !! name).
Definition confirm_question (w : wizard) : string :=
  if wz_alreadyInstalled w then "Harvester is already installed. It will be configured with the above configuration. Continue?"
  else if wz_installModeOnly w then "Harvester will be copied to local disk. No configuration will be performed. Continue?"
  else "Your disk will be formatted and Harvester will be installed with the above configuration. Continue?".
Definition confirm_text (w : wizard) (installBytes : string) : string :=
  line "install mode" (mode_of w) +:+
  (if wz_installModeOnly w then "" else line "install role" (role_of w)) +:+
  line "hostname" (hostname_of w) +:+
  line_if "dns servers" (ui_DNSServers (wz_input w)) +:+
  line_if "ntp servers" (ui_NTPServers (wz_input w)) +:+
  line_if "proxy address" (getenv "HTTP_PROXY" w) +:+
  line_if "ssh key url" (ui_SSHKeyURL (wz_input w)) +:+
  installBytes +:+ String newline "" +:+ confirm_question w +:+ String newline "".
Definition confirm_PreShow : W unit :=
  w ← st_get;
  installBytes ← st_lift (PrintInstall encode_install marshal (wz_config w));
  _ ← (if in_Silent (install_of w) then mret tt else SetContent confirmInstallPanel (confirm_text w installBytes));
  setContentByName titlePanel "Confirm installation options".

Definition number_text (z : Z) : string := if z =? 0 then "" else itoa z.
Definition titled (title : string) : W unit := setContentByName titlePanel title.
Definition titled_noted (title note : string) : W unit :=
  _ ← titled title; setContentByName notePanel note.
Definition show_value (p : panel) (f : wizard -> string) : W unit := w ← st_get; SetValue p (f w).

Definition serverURLNote : string := "Note: Input VIP/domain name of the management node".
Definition proxyNote : string :=
  String.concat "" ["Note: In the form of "; String "034" ""; "http://[[user][:pass]@]host[:port]/"; String "034" ""; "."].
Definition sshKeyNote : string := "For example: https://github.com/<username>.keys".
Definition ntpServersNote : string := "Note: It's recommended to configure NTP servers to make sure the time is synced among all nodes. You can use comma to add more NTP servers.".
Definition dnsServersNote : string := "Note: You can use comma to add more DNS servers. Leave blank to use default DNS.".
Definition clusterNetworkNote : string := "Note: Leave blank to use the default pod CIDR 10.52.0.0/16, service CIDR 10.53.0.0/16 and cluster DNS 10.53.0.10. If the service CIDR is changed, the DNS IP must be updated to be within the service CIDR.".
Definition bondNote : string :=
  "Note: Select one or more NICs for the Management NIC." +:+ String newline "Use the default value for the Bond Mode if only one NIC is selected.".
Definition forceMBRNote : string := "Note: GPT is used by default. You can use MBR if you encountered compatibility issues.".
Definition persistentSizeNote : string :=
  "Note: persistent partition stores data like system package and container images, not the VM data. " +:+
  String newline ("You can specify a size like 200Gi or 153600Mi. " +:+ String newline "Leave it blank to use the default value.").
Definition clusterTokenNote (mode : string) : string :=
  if bool_decide (mode = ModeCreate) then "Note: The token is used for adding nodes to the cluster"
  else "Note: Input the token of the existing cluster".

Definition diskFatal_PreShow : W unit :=
  _ ← SetContent diskFatalPanel "No disk detected. Harvester requires at least one disk."; disk_title.
(** [SetData] of a drop-down only draws the text of the choice. *)
Definition disk_PreShow : W unit := _ ← setContentByName diskNotePanel ""; disk_title.
Definition preflight_PreShow : W unit :=
  w ← st_get;
  _ ← SetContent preflightCheckPanel
        (String.concat "" (map (fun m => m +:+ String newline "") (wz_warnings w)) +:+
         String newline "Do you wish to proceed?" +:+ String newline "");
  titled "Hardware Checks".
Definition askCreate_PreShow : W unit :=
  _ ← st_modify (set_wz_preflightAck true);
  _ ← show_value askCreatePanel mode_of;
  w ← st_get;
  titled (if wz_alreadyInstalled w then "Harvester already installed. Choose configuration mode" else "Choose installation mode").
Definition askRole_PreShow : W unit := _ ← show_value askRolePanel role_of; titled "Choose installation role".
Definition serverURL_PreShow : W unit :=
  _ ← show_value serverURLPanel (fun w => ui_ServerURL (wz_input w));
  titled_noted "Configure management address" serverURLNote.
Definition password_PreShow : W unit := show_value passwordPanel (fun w => ui_Password (wz_input w)).
Definition passwordConfirm_PreShow : W unit :=
  _ ← show_value passwordConfirmPanel (fun w => ui_PasswordConfirm (wz_input w));
  _ ← setContentByName notePanel "";
  titled "Password change: set the default login password".
Definition sshKey_PreShow : W unit :=
  _ ← show_value sshKeyPanel (fun w => ui_SSHKeyURL (wz_input w));
  titled_noted "Optional: import SSH keys" sshKeyNote.
Definition token_PreShow : W unit :=
  _ ← show_value tokenPanel (fun w => hc_Token (wz_config w));
  w ← st_get;
  _ ← setContentByName notePanel (clusterTokenNote (mode_of w));
  titled "Configure cluster token".
Definition hostname_PreShow : W unit :=
  _ ← checkDHCPHostname false;
  _ ← show_value hostnamePanel hostname_of;
  titled "Configure hostname for this instance".
Definition interface_PreShow : W unit := titled "Configure network".
Definition vlan_PreShow : W unit := show_value askVlanIDPanel (fun w => number_text (nw_VlanID (wz_mgmt w))).
Definition address_PreShow : W unit := show_value addressPanel (fun w => ui_Address (wz_input w)).
Definition addrMask_PreShow : W unit := show_value addrMaskPanel (fun w => nw_SubnetMask (wz_mgmt w)).
Definition gateway_PreShow : W unit := show_value gatewayPanel (fun w => nw_Gateway (wz_mgmt w)).
Definition mtu_PreShow : W unit := show_value mtuPanel (fun w => number_text (nw_MTU (wz_mgmt w))).
Definition podCIDR_PreShow : W unit :=
  _ ← show_value clusterPodCIDRPanel (fun w => in_ClusterPodCIDR (install_of w));
  _ ← titled "Configure cluster network";
  _ ← setContentByName clusterNetworkNotePanel clusterNetworkNote;
  setContentByName clusterNetworkValidatorPanel "".
Definition serviceCIDR_PreShow : W unit := show_value clusterServiceCIDRPanel (fun w => in_ClusterServiceCIDR (install_of w)).
Definition clusterDNS_PreShow : W unit := show_value clusterDNSPanel (fun w => in_ClusterDNS (install_of w)).
Definition proxy_PreShow : W unit :=
  _ ← show_value proxyPanel (getenv "HTTP_PROXY"); titled_noted "Optional: configure proxy" proxyNote.
Definition cloudInit_PreShow : W unit :=
  _ ← show_value cloudInitPanel (fun w => in_ConfigURL (install_of w)); titled "Optional: remote Harvester config".
Definition upgrade_confirm_PreShow : W unit := titled ("Confirm upgrading Harvester to " +:+ program_version +:+ "?").
Definition install_PreShow : W unit := _ ← go RunInstall; setContentByName footerPanel "".
Definition upgrade_PreShow : W unit := _ ← go RunUpgrade; setContentByName footerPanel "".
Definition vip_PreShow : W unit := _ ← SetContent vipTextPanel ""; titled "Configure VIP".
Definition ntp_PreShow : W unit :=
  _ ← show_value ntpServersPanel (fun w => ui_NTPServers (wz_input w));
  titled_noted "Configure NTP Servers" ntpServersNote.
Definition dns_PreShow : W unit :=
  _ ← show_value dnsServersPanel (fun w => ui_DNSServers (wz_input w));
  titled_noted "Configure DNS Servers" dnsServersNote.

(** The hook of each element that has one. *)
Definition PreShow (p : panel) : W unit :=
  match p with
  | diskFatalPanel => diskFatal_PreShow
  | diskPanel => disk_PreShow
  | persistentSizePanel => persistent_PreShow
  | preflightCheckPanel => preflight_PreShow
  | askCreatePanel => askCreate_PreShow
  | askRolePanel => askRole_PreShow
  | serverURLPanel => serverURL_PreShow
  | passwordPanel => password_PreShow
  | passwordConfirmPanel => passwordConfirm_PreShow
  | sshKeyPanel => sshKey_PreShow
  | tokenPanel => token_PreShow
  | hostnamePanel => hostname_PreShow
  | askInterfacePanel => interface_PreShow
  | askVlanIDPanel => vlan_PreShow
  | askBondModePanel => bond_PreShow
  | addressPanel => address_PreShow
  | addrMaskPanel => addrMask_PreShow
  | gatewayPanel => gateway_PreShow
  | mtuPanel => mtu_PreShow
  | clusterPodCIDRPanel => podCIDR_PreShow
  | clusterServiceCIDRPanel => serviceCIDR_PreShow
  | clusterDNSPanel => clusterDNS_PreShow
  | proxyPanel => proxy_PreShow
  | cloudInitPanel => cloudInit_PreShow
  | confirmInstallPanel => confirm_PreShow
  | confirmUpgradePanel => upgrade_confirm_PreShow
  | installPanel => install_PreShow
  | upgradePanel => upgrade_PreShow
  | askVipMethodPanel => vip_PreShow
  | ntpServersPanel => ntp_PreShow
  | dnsServersPanel => dns_PreShow
  | _ => mret tt
  end.

Definition Show (p : panel) : W unit := _ ← PreShow p; show_view p.
Definition showNext (names : list panel) : W unit := _ ← st_for_each Show names; ClosePanel validatorPanel.

(** ** Pages made of several elements *)

Definition showPasswordPage : W unit := showNext [passwordConfirmPanel; passwordPanel].
Definition showRolePage : W unit := showNext [askRolePanel].
Definition showHostnamePage : W unit := showNext [hostnamePanel].
Definition showNetworkPage : W unit :=
  w ← st_get;
  showNext (if bool_decide (nw_Method (wz_mgmt w) = NetworkMethodStatic)
            then [askVlanIDPanel; askBondModePanel; askNetworkMethodPanel; addressPanel; addrMaskPanel; gatewayPanel; mtuPanel; askInterfacePanel]
            else [askVlanIDPanel; askBondModePanel; askNetworkMethodPanel; askInterfacePanel]).
Definition showClusterNetworkPage : W unit :=
  showNext [clusterServiceCIDRPanel; clusterDNSPanel; clusterNetworkNotePanel; clusterNetworkValidatorPanel; clusterPodCIDRPanel].

Definition presetConfigDisks (diskOpts : list Option) (i : Install) : Install :=
  if negb (bool_decide (in_Device i = "")) && negb (bool_decide (in_DataDisk i = "")) then i
  else match diskOpts with
  | [] => i
  | o :: _ =>
      let i := if bool_decide (in_Device i = "") then set_in_Device (op_Value o) i else i in
      if bool_decide (in_DataDisk i = "") then set_in_DataDisk (in_Device i) i else i
  end.
Definition disk_components (bios : bool) (opts : list Option) (i : Install) : list panel :=
  let witness := bool_decide (in_Role i = RoleWitness) in
  let showPersistentSizeOption :=
    negb witness && (bool_decide (length opts = 1%nat) || bool_decide (in_DataDisk i = in_Device i)) in
  (if showPersistentSizeOption then [persistentSizePanel] else []) ++
  (if bios then [askForceMBRTitlePanel; askForceMBRPanel] else []) ++
  (if negb witness && (1 <? length opts)%nat then [dataDiskPanel] else []) ++ [diskPanel].
Definition showDiskPage : W unit :=
  _ ← st_modify (set_wz_diskConfirmed false);
  w ← st_get;
  cache ← st_lift (mc_disks (machine (wz_world w)));
  _ ← st_modify (set_wz_disks cache);
  let diskOptions := getAllValidDiskOptions cache in
  _ ← on_install (presetConfigDisks diskOptions);
  if bool_decide (diskOptions = []) then showNext [diskFatalPanel]
  else
    w ← st_get;
    showNext (disk_components (mc_isBIOS (machine (wz_world w))) diskOptions (install_of w)).

Definition doNetworkSpeedCheck (interfaces : list NetworkInterface) : list string :=
  omap (fun i => match NetworkSpeedCheck (if_Name i) probe with
                 | (_, Some _) => None
                 | (msg, None) => if bool_decide (msg = "") then None else Some msg
                 end) interfaces.
End console.
