(* ===== verification/Layout.v ===== *)
(** * Layout: the elements of the installer and their places on the terminal
      ([setPanels] and the functions it calls in [install_panels.go],
      [constant.go], [createVerticalLocatorWithName] of [util.go])

    Each page registers its widgets under a name and gives them a place that
    depends on the size of the terminal.  Only the widget is here: its hooks and
    the handlers of its keys are in the files of the pages.  A text set before
    the widget has a place is stored as it is; the update of the view that it
    queues finds no view. *)
From Stdlib Require Import ZArith Lia Ascii String.
From stdpp Require Import base tactics list gmap strings.
From S2P Require Import Prelude GoStrings Text DiskOptions ConsoleUtil Console Gui Widgets.
Local Open Scope Z_scope.

Definition panel_name (p : panel) : string :=
  match p with
  | titlePanel => "title" | validatorPanel => "validator" | notePanel => "note" | footerPanel => "footer"
  | spinnerPanel => "spinner"
  | preflightCheckPanel => "preflightCheck" | askCreatePanel => "askCreate" | askRolePanel => "askRolePanel"
  | passwordPanel => "osPassword" | passwordConfirmPanel => "osPasswordConfirm"
  | diskPanel => "disk" | diskFatalPanel => "diskFatal" | dataDiskPanel => "dataDisk"
  | persistentSizePanel => "persistentSize" | wipeDisksTitlePanel => "wipeDisksTitlePanel" | wipeDisksPanel => "wipeDisksPanel"
  | askForceMBRTitlePanel => "askForceMBRTitle" | askForceMBRPanel => "askForceMBR"
  | diskNotePanel => "diskNote" | diskValidatorPanel => "diskValidator"
  | askInterfacePanel => "askInterface" | askVlanIDPanel => "askVlanID" | askBondModePanel => "askBondMode"
  | askNetworkMethodPanel => "askNetworkMethod" | addressPanel => "address" | addrMaskPanel => "mask"
  | gatewayPanel => "gateway" | mtuPanel => "mtu" | bondNotePanel => "bondNote" | networkValidatorPanel => "networkValidator"
  | clusterPodCIDRPanel => "podCIDRPanel" | clusterServiceCIDRPanel => "serviceCIDRPanel" | clusterDNSPanel => "clusterDNSPanel"
  | clusterNetworkNotePanel => "clusterNetworkNotePanel" | clusterNetworkValidatorPanel => "clusterNetworkValidatorPanel"
  | hostnamePanel => "hostname" | hostnameValidatorPanel => "hostnameValidator" | dnsServersPanel => "dnsServers"
  | askVipMethodPanel => "askVipMethodPanel" | vipHwAddrPanel => "vipHwAddrPanel" | vipHwAddrNotePanel => "vipHwAddrNotePanel"
  | vipPanel => "vipPanel" | vipTextPanel => "vipTextPanel"
  | serverURLPanel => "serverUrl" | tokenPanel => "token" | ntpServersPanel => "ntpServersPanel" | proxyPanel => "proxy"
  | sshKeyPanel => "sshKey" | cloudInitPanel => "cloudInit"
  | confirmInstallPanel => "confirmInstall" | confirmUpgradePanel => "confirmUpgrade"
  | installPanel => "install" | upgradePanel => "upgrade"
  end.

Section layout.
Context {H : Type}.
Notation Panel := (Widgets.Panel (H := H)).
Notation DropDown := (Widgets.DropDown (H := H)).

(** ** Widgets under their names *)

Inductive widget : Type :=
| WPanel (p : Panel)
| WInput (i : Input (H := H))
| WSelect (s : Select (H := H))
| WDropDown (d : DropDown).

Definition panel_of (w : widget) : Panel :=
  match w with
  | WPanel p => p
  | WInput i => in_Panel i
  | WSelect s => sl_Panel s
  | WDropDown d => dd_Panel d
  end.
Definition on_panel (f : Panel -> Panel) (w : widget) : widget :=
  match w with
  | WPanel p => WPanel (f p)
  | WInput i => WInput (mkInput (f (in_Panel i)) (in_Value i))
  | WSelect s => WSelect (put_sl_Panel (f (sl_Panel s)) s)
  | WDropDown d => WDropDown (put_dd_Panel (f (dd_Panel d)) d)
  end.
Definition place (b : box) : widget -> widget := on_panel (SetLocation (bx0 b) (by0 b) (bx1 b) (by1 b)).

Definition with_Wrap (p : Panel) : Panel :=
  mkPanel (pn_Name p) true (pn_Focus p) (pn_FgColor p) (pn_Content p) (pn_X0 p) (pn_X1 p) (pn_Y0 p) (pn_Y1 p) (pn_KeyBindings p)
    (pn_KeyBindingTips p) (pn_FirstPage p).
Definition with_Focus (b : bool) (p : Panel) : Panel :=
  mkPanel (pn_Name p) (pn_Wrap p) b (pn_FgColor p) (pn_Content p) (pn_X0 p) (pn_X1 p) (pn_Y0 p) (pn_Y1 p) (pn_KeyBindings p)
    (pn_KeyBindingTips p) (pn_FirstPage p).
Definition with_FgColor (c : Attribute) (p : Panel) : Panel :=
  mkPanel (pn_Name p) (pn_Wrap p) (pn_Focus p) c (pn_Content p) (pn_X0 p) (pn_X1 p) (pn_Y0 p) (pn_Y1 p) (pn_KeyBindings p)
    (pn_KeyBindingTips p) (pn_FirstPage p).
Definition with_FirstPage (p : Panel) : Panel :=
  mkPanel (pn_Name p) (pn_Wrap p) (pn_Focus p) (pn_FgColor p) (pn_Content p) (pn_X0 p) (pn_X1 p) (pn_Y0 p) (pn_Y1 p) (pn_KeyBindings p)
    (pn_KeyBindingTips p) true.

(** [Console.elements] *)
Notation elements := (gmap string widget).
Definition GetElement (els : elements) (name : string) : result widget :=
  match els !! name with Some w => Ok w | None => Err (EMsg ("element " +:+ name +:+ " is not found")) end.
Definition AddElement (els : elements) (nw : string * widget) : elements := <[nw.1 := nw.2]> els.

(** ** Construction *)

Definition new_panel (p : panel) (f : Panel -> Panel) : string * widget := (panel_name p, WPanel (f (NewPanel (panel_name p)))).
Section size.
Context (maxX maxY : Z).
Definition new_input (p : panel) (label : string) : string * widget := (panel_name p, WInput (NewInput maxX maxY (panel_name p) label)).
Definition new_select (p : panel) (f : Panel -> Panel) : string * widget :=
  (panel_name p, on_panel f (WSelect (NewSelect (panel_name p) ""))).
Definition new_drop_down (p : panel) (label : string) (f : DropDown -> DropDown) : string * widget :=
  (panel_name p, WDropDown (f (NewDropDown maxX maxY (panel_name p) label))).
Definition located (b : box) : Panel -> Panel := SetLocation (bx0 b) (by0 b) (bx1 b) (by1 b).
Definition page_box (y0 y1 : Z) : box := mkBox (Z.quot maxX 8) y0 (Z.quot maxX 8 * 7) y1.
Definition q : Z := Z.quot maxY 8.

(** The widgets of a page below each other, each with its height. *)
Definition vertical (l : list (string * widget * Z)) : result (list (string * widget)) :=
  bs ← createVerticalLocator maxX maxY (map snd l);
  Ok (zip_with (fun e b => (e.1.1, place b e.1.2)) l bs).

Definition addTitlePanel : list (string * widget) :=
  [new_panel titlePanel (fun p => with_Focus false (located (page_box (q - 3) q) p))].
Definition addValidatorPanel : list (string * widget) :=
  [new_panel validatorPanel (fun p => with_Focus false (with_Wrap (with_FgColor ColorRed (located (page_box (q + 5) (q * 7)) p))))].
Definition addNotePanel : list (string * widget) :=
  [new_panel notePanel (fun p => with_Focus false (with_Wrap (located (page_box (q + 3) (q + 6)) p)))].
Definition addFooterPanel : list (string * widget) :=
  [new_panel footerPanel (fun p => with_Focus false (located (mkBox 0 (maxY - 2) maxX maxY) p))].
Definition addSpinnerPanel : list (string * widget) :=
  [new_panel spinnerPanel (fun p => with_Wrap (located (page_box (q + 7) (q * 7)) p))].
Definition addInstallPanel : list (string * widget) :=
  [new_panel installPanel (fun p => with_Wrap (located (page_box q (q * 7)) p))].
Definition addUpgradePanel : list (string * widget) :=
  [new_panel upgradePanel (located (page_box q (q * 7)))].

Definition addPreflightCheckPanel : list (string * widget) :=
  [new_select preflightCheckPanel (fun p => with_Wrap (with_FirstPage p))].
Definition addAskCreatePanel : list (string * widget) := [new_select askCreatePanel with_FirstPage].
Definition addAskRolePanel : list (string * widget) := [new_select askRolePanel (fun p => p)].
Definition addConfirmInstallPanel : list (string * widget) := [new_select confirmInstallPanel (fun p => p)].
Definition addConfirmUpgradePanel : list (string * widget) := [new_select confirmUpgradePanel (fun p => p)].

Definition addServerURLPanel : list (string * widget) := [new_input serverURLPanel "Management address"].
Definition addTokenPanel : list (string * widget) := [new_input tokenPanel "Cluster token"].
Definition addSSHKeyPanel : list (string * widget) := [new_input sshKeyPanel "HTTP URL"].
Definition addProxyPanel : list (string * widget) := [new_input proxyPanel "Proxy address"].
Definition addCloudInitPanel : list (string * widget) := [new_input cloudInitPanel "HTTP URL"].
Definition addNTPServersPanel : list (string * widget) := [new_input ntpServersPanel "NTP Servers"].
Definition addDNSServersPanel : list (string * widget) := [new_input dnsServersPanel "DNS Servers"].
Definition addPasswordPanels : list (string * widget) :=
  [ prod_map id (place (page_box q (q + 2))) (new_input passwordPanel "Password");
    prod_map id (place (page_box (q + 3) (q + 5))) (new_input passwordConfirmPanel "Confirm password") ].

Definition diskFatalV : string * widget := new_panel diskFatalPanel (fun p => with_Wrap (with_FgColor ColorRed p)).
Definition diskV : string * widget := new_drop_down diskPanel "Installation disk" id.
Definition dataDiskV : string * widget := new_drop_down dataDiskPanel "Data disk" id.
Definition persistentSizeV : string * widget := new_input persistentSizePanel "Persistent size".
Definition wipeDisksTitlePanelV : string * widget :=
  new_panel wipeDisksTitlePanel (fun p => with_FgColor ColorRed (put_Content "Additional Harvester installations detected" p)).
Definition wipeDisksV : string * widget :=
  new_drop_down wipeDisksPanel "Wipe Disks" (fun d => DropDown_SetMulti true (put_dd_Panel (with_FgColor ColorRed (dd_Panel d)) d)).
Definition askForceMBRTitleV : string * widget := new_panel askForceMBRTitlePanel (put_Content "Use MBR partitioning scheme").
Definition askForceMBRV : string * widget := new_drop_down askForceMBRPanel "" id.
Definition diskNoteV : string * widget := new_panel diskNotePanel with_Wrap.
Definition diskValidatorV : string * widget := new_panel diskValidatorPanel (fun p => with_Wrap (with_FgColor ColorRed p)).
Definition addDiskPanel : result (list (string * widget)) := vertical
  [ (diskFatalV, 3); (diskV, 3); (dataDiskV, 3); (persistentSizeV, 3); (wipeDisksTitlePanelV, 3); (wipeDisksV, 3);
    (askForceMBRTitleV, 3); (askForceMBRV, 3); (diskNoteV, 3); (diskValidatorV, 3) ].
Definition addNetworkPanel : result (list (string * widget)) := vertical
  [ (new_drop_down askInterfacePanel "Management NIC" (DropDown_SetMulti true), 3);
    (new_input askVlanIDPanel "VLAN ID (optional)", 3);
    (new_drop_down askBondModePanel "Bond Mode" id, 3);
    (new_drop_down askNetworkMethodPanel "IPv4 Method" id, 3);
    (new_input addressPanel "IPv4 Address", 3);
    (new_input addrMaskPanel "IPv4 Mask", 3);
    (new_input gatewayPanel "Gateway", 3);
    (new_input mtuPanel "MTU (optional)", 3);
    (new_panel bondNotePanel with_Wrap, 8);
    (new_panel networkValidatorPanel (fun p => with_Wrap (with_FgColor ColorRed p)), 4) ].
(** The width given to the panel of the messages does not last: the locator
    gives it another one. *)
Definition put_X1 (x : Z) (p : Panel) : Panel := SetLocation (pn_X0 p) (pn_Y0 p) x (pn_Y1 p) p.
Definition podCIDRInput : string * widget := new_input clusterPodCIDRPanel "Pod CIDR".
Definition serviceCIDRInput : string * widget := new_input clusterServiceCIDRPanel "Service CIDR".
Definition dnsInput : string * widget := new_input clusterDNSPanel "Cluster DNS IP".
Definition cluster_notePanel : string * widget := new_panel clusterNetworkNotePanel (fun p => with_Wrap (with_Focus false p)).
Definition cluster_validatorPanel : string * widget :=
  new_panel clusterNetworkValidatorPanel (fun p => put_X1 (Z.quot maxX 8 * 6) (with_Focus false (with_FgColor ColorRed p))).
Definition addClusterNetworkPanel : result (list (string * widget)) := vertical
  [ (podCIDRInput, 3); (serviceCIDRInput, 3); (dnsInput, 3); (cluster_notePanel, 4); (cluster_validatorPanel, 3) ].
Definition addVIPPanel : result (list (string * widget)) := vertical
  [ (new_drop_down askVipMethodPanel "VIP Mode" id, 3);
    (new_input vipHwAddrPanel "MAC Address", 3);
    (new_input vipPanel "VIP", 3);
    (new_panel vipHwAddrNotePanel (fun p => with_Wrap (with_Focus false p)), 3);
    (new_panel vipTextPanel (fun p => with_Wrap (with_Focus false (with_FgColor ColorRed p))), 3) ].
Definition addHostnamePanel : list (string * widget) :=
  [ new_input hostnamePanel "HostName";
    new_panel hostnameValidatorPanel (fun p => put_X1 (Z.quot maxX 8 * 6) (with_Focus false (with_FgColor ColorRed p))) ].

(** In the order of [setPanels]. *)
Definition added : result (list (string * widget)) :=
  disk ← addDiskPanel;
  network ← addNetworkPanel;
  cluster ← addClusterNetworkPanel;
  vip ← addVIPPanel;
  Ok (addTitlePanel ++ addValidatorPanel ++ addNotePanel ++ addFooterPanel ++ addPreflightCheckPanel ++ addAskCreatePanel ++
      addAskRolePanel ++ disk ++ addHostnamePanel ++ network ++ cluster ++ vip ++ addDNSServersPanel ++ addNTPServersPanel ++
      addServerURLPanel ++ addTokenPanel ++ addPasswordPanels ++ addSSHKeyPanel ++ addProxyPanel ++ addCloudInitPanel ++
      addConfirmInstallPanel ++ addConfirmUpgradePanel ++ addInstallPanel ++ addSpinnerPanel ++ addUpgradePanel).
Definition setPanels : result elements := l ← added; Ok (foldl AddElement ∅ l).

(** [showRolePage] and [showHostnamePage] place elements that are there. *)
Fixpoint locate_named (els : elements) (lastY : Z) (l : list (string * Z)) : result elements :=
  match l with
  | [] => Ok els
  | (name, height) :: l =>
      '(b, y) ← locate maxX lastY height;
      w ← GetElement els name;
      locate_named (<[name := place b w]> els) y l
  end.
Definition createVerticalLocatorWithName (els : elements) (l : list (string * Z)) : result elements := locate_named els q l.
Definition place_role (els : elements) : result elements := createVerticalLocatorWithName els [(panel_name askRolePanel, 3)].
Definition place_hostname (els : elements) : result elements :=
  createVerticalLocatorWithName els [(panel_name hostnamePanel, 3); (panel_name hostnameValidatorPanel, 3)].
End size.

(** ** Showing an element on the terminal *)

Definition show_widget (opts : list Option) (w : widget) (g : Gui (binding H)) : result unit :=
  match w with
  | WPanel p => fst (Panel_Show gl wl (mret tt) (g, p))
  | WInput i => fst (Input_Show gl wl (mret tt) (g, i))
  | WSelect s => fst (Select_Show gl wl (Some (fun _ => Ok opts)) (mret tt) (g, s))
  | WDropDown d => fst (DropDown_Show gl wl (fun _ => Ok opts) (mret tt) (g, d))
  end.

(** ** Places *)

Definition box_of (p : Panel) : box := mkBox (pn_X0 p) (pn_Y0 p) (pn_X1 p) (pn_Y1 p).
(** The cells a view can write to: the border belongs to no view. *)
Definition inside (b : box) (x y : Z) : Prop := bx0 b < x < bx1 b /\ by0 b < y < by1 b.
Definition visible (maxX maxY x y : Z) : Prop := 0 <= x < maxX /\ 0 <= y < maxY.
Definition same_kind (w : widget) (k : kind) : bool :=
  match w, k with
  | WPanel _, KPanel _ | WInput _, KInput | WSelect _, KSelect => true
  | WDropDown d, KDropDown multi => bool_decide (dd_multi d = multi)
  | _, _ => false
  end.
End layout.
