(* ===== verification/Frames.v ===== *)
(** * Frames: what a handler can do to one part of the state

    The frames of the Prelude for the state of the installer: a frame is proved
    along the structure of the handler, down to the assignments. *)
From Stdlib Require Import ZArith Lia Ascii String.
From stdpp Require Import base tactics list gmap strings.
From S2P Require Import Prelude GoStrings Config World DiskOptions Network ConsoleUtil Console.

(** The focus stays or goes to an element of [F]. *)
Definition focus_in (F : list panel) : relation wizard := fun w w' =>
  wz_focus w' = wz_focus w \/ exists p, p ∈ F /\ wz_focus w' = Some p.
#[export] Instance focus_in_preorder F : PreOrder (focus_in F).
Proof.
  split; [by left|]. unfold focus_in. intros a b c H1 [H2|H2]; [|by right].
  rewrite H2. exact H1.
Qed.

(** Goroutines of [T] may be started; none is taken. *)
Definition tasks_in (T : task -> Prop) : relation wizard := fun w w' =>
  exists l, wz_tasks w' = wz_tasks w ++ l /\ Forall T l.
#[export] Instance tasks_in_preorder T : PreOrder (tasks_in T).
Proof.
  split.
  - intros w. exists []. by rewrite app_nil_r.
  - intros a b c (l1 & H1 & F1) (l2 & H2 & F2). exists (l1 ++ l2). split; [by rewrite H2, H1, app_assoc|].
    by apply Forall_app.
Qed.

(** The assignments that change only what is displayed. *)
Class UiFrame (R : relation wizard) : Prop := {
  ui_preorder :: PreOrder R;
  ui_elements : forall e, leaf R (set_wz_elements e)
}.
#[export] Instance focus_ui F : UiFrame (focus_in F).
Proof. split; [apply _|]. intros e w. by left. Qed.
#[export] Instance tasks_ui T : UiFrame (tasks_in T).
Proof. split; [apply _|]. intros e w. exists []. by rewrite app_nil_r. Qed.

Section frames.
Context (R : relation wizard) `{!PreOrder R}.

Lemma frame_gets {A} (f : wizard -> A) : frame R (gets f).
Proof. intros w. reflexivity. Qed.
Lemma frame_run_io {A} (m : io A) : (forall w0, leaf R (set_wz_world w0)) -> frame R (run_io m).
Proof. intros Hw w. unfold run_io. destruct (m (wz_world w)) as [r w1]. apply Hw. Qed.
End frames.

Section ui_frames.
Context (R : relation wizard) `{!UiFrame R}.

Lemma frame_element p f : frame R (on_element p f).
Proof. apply frame_modify. intros w. apply ui_elements. Qed.
Lemma frame_SetCurrentView p : leaf R (set_wz_focus (Some p)) -> frame R (SetCurrentView p).
Proof. apply frame_modify. Qed.
Lemma frame_element_of p : frame R (element_of p).
Proof. apply frame_gets, _. Qed.
Lemma frame_GetData p : frame R (GetData p).
Proof.
  apply frame_bind; [apply _|apply frame_element_of|]. intros e.
  destruct (kind_of p); try destruct (el_open e); try apply frame_ret, _; apply frame_fail, _.
Qed.
Lemma frame_SetData p data : frame R (SetData p data).
Proof.
  apply frame_bind; [apply _|apply frame_element_of|]. intros e.
  destruct (el_open e); [apply frame_element|apply frame_fail, _].
Qed.
Lemma frame_ShowPanel p : (kind_of p = KPanel true -> leaf R (set_wz_focus (Some p))) -> frame R (ShowPanel p).
Proof.
  intros Hf. apply frame_bind; [apply _|apply frame_element_of|]. intros e.
  destruct (el_open e); [apply frame_ret, _|]. apply frame_bind; [apply _|apply frame_element|]. intros _.
  destruct (kind_of p) as [[]| | |]; try apply frame_ret, _. by apply frame_SetCurrentView, Hf.
Qed.
Lemma frame_setContentByName p c :
  (kind_of p = KPanel true -> leaf R (set_wz_focus (Some p))) -> frame R (setContentByName p c).
Proof.
  intros Hf. unfold setContentByName. destruct (bool_decide _); [apply frame_element|].
  apply frame_bind; [apply _|by apply frame_ShowPanel|]. intros _. apply frame_element.
Qed.
Lemma frame_PostClose p : frame R (PostClose p).
Proof.
  assert (Hc : forall q, frame R (ClosePanel q)) by (intros; apply frame_element).
  assert (Hn : frame R (_ ← setContentByName notePanel ""; ClosePanel spinnerPanel)).
  { apply frame_bind; [apply _|by apply frame_setContentByName|]. done. }
  destruct p; try apply frame_ret, _; try apply Hc; exact Hn.
Qed.
Lemma frame_Close p : frame R (Close p).
Proof.
  apply frame_bind; [apply _|apply frame_element_of|]. intros e. destruct (el_open e).
  - apply frame_bind; [apply _|apply frame_element|]. intros _. apply frame_PostClose.
  - destruct (kind_of p); try apply frame_fail, _. apply frame_ret, _.
Qed.
Lemma frame_CloseElement p : frame R (CloseElement p).
Proof. apply frame_bind; [apply _|apply frame_try, frame_Close|]. intros _. apply frame_ret, _. Qed.
Lemma frame_CloseElements ps : frame R (CloseElements ps).
Proof. apply frame_for_each; [apply _|]. intros x _. apply frame_CloseElement. Qed.
End ui_frames.

Lemma keep_ui {T} (proj : wizard -> T) : (forall e w, proj (set_wz_elements e w) = proj w) -> UiFrame (keep proj).
Proof. intros He. split; [apply _|]. intros e w. apply He. Qed.
#[export] Instance keep_ui_config : UiFrame (keep wz_config) := keep_ui wz_config (fun _ _ => eq_refl).
#[export] Instance keep_ui_mgmt : UiFrame (keep wz_mgmt) := keep_ui wz_mgmt (fun _ _ => eq_refl).
#[export] Instance keep_ui_input : UiFrame (keep wz_input) := keep_ui wz_input (fun _ _ => eq_refl).
#[export] Instance keep_ui_world : UiFrame (keep wz_world) := keep_ui wz_world (fun _ _ => eq_refl).
#[export] Instance keep_ui_tasks : UiFrame (keep wz_tasks) := keep_ui wz_tasks (fun _ _ => eq_refl).
#[export] Instance keep_ui_ifs : UiFrame (keep wz_ifs) := keep_ui wz_ifs (fun _ _ => eq_refl).
#[export] Instance keep_ui_disks : UiFrame (keep wz_disks) := keep_ui wz_disks (fun _ _ => eq_refl).
#[export] Instance keep_ui_focus : UiFrame (keep wz_focus) := keep_ui wz_focus (fun _ _ => eq_refl).
#[export] Instance keep_ui_install : UiFrame (keep install_of) := keep_ui install_of (fun _ _ => eq_refl).
#[export] Instance keep_ui_already : UiFrame (keep wz_alreadyInstalled) := keep_ui wz_alreadyInstalled (fun _ _ => eq_refl).
#[export] Instance keep_ui_only : UiFrame (keep wz_installModeOnly) := keep_ui wz_installModeOnly (fun _ _ => eq_refl).

Section show_frames.
Context (R : relation wizard) `{!UiFrame R}.
Context `{Host} `{Netlink} `{VipHost} `{Web} `{Ntp} `{Surroundings}.

(** What showing an element assigns besides the display. *)
Record show_leaves (p : panel) : Prop := {
  sh_focus : kind_of p <> KPanel false -> leaf R (set_wz_focus (Some p));
  sh_hostname : p = hostnamePanel -> forall h, leaf R (fun w => set_wz_config (set_hc_OS (set_os_Hostname h (hc_OS (wz_config w))) (wz_config w)) w);
  sh_bond : p = askBondModePanel -> leaf R (fun w => set_wz_mgmt (set_nw_BondOptions (Some default_bond_options) (wz_mgmt w)) w);
  sh_ack : p = askCreatePanel -> leaf R (set_wz_preflightAck true);
  sh_install : p = installPanel -> leaf R (fun w => set_wz_tasks (wz_tasks w ++ [RunInstall]) w);
  sh_upgrade : p = upgradePanel -> leaf R (fun w => set_wz_tasks (wz_tasks w ++ [RunUpgrade]) w)
}.

Lemma frame_titled t : frame R (titled t).
Proof. by apply frame_setContentByName. Qed.
Lemma frame_show_value p f : frame R (show_value p f).
Proof. apply frame_bind; [apply _|apply frame_get, _|]. intros w. by apply frame_element. Qed.
Lemma frame_titled_noted t n : frame R (titled_noted t n).
Proof. apply frame_bind; [apply _|apply frame_titled|]. intros _. by apply frame_setContentByName. Qed.

Ltac step := first
  [ apply frame_ret, _ | apply frame_lift, _ | apply frame_get, _ | apply frame_fail, _
  | (apply frame_element; exact _) | (apply frame_element_of; exact _) | apply frame_titled | apply frame_show_value | apply frame_titled_noted
  | (apply frame_setContentByName; [exact _|done])
  | (apply frame_bind; [exact _| |intros]) ].

Lemma frame_disk_title : frame R disk_title.
Proof. repeat step. Qed.
Lemma frame_checkDHCPHostname g :
  (forall h, leaf R (fun w => set_wz_config (set_hc_OS (set_os_Hostname h (hc_OS (wz_config w))) (wz_config w)) w)) ->
  frame R (checkDHCPHostname g).
Proof.
  intros Hh. step; [step|]. cbv zeta. repeat (case_match; try step); apply frame_modify, Hh.
Qed.
Lemma frame_persistent_PreShow : frame R persistent_PreShow.
Proof. step; [step|]. step; [step|]. cbv zeta. repeat (case_match; try step); repeat step. Qed.
Lemma frame_confirm_PreShow : frame R confirm_PreShow.
Proof. step; [step|]. step; [step|]. step; [case_match; step|]. step. Qed.

Lemma frame_PreShow p : show_leaves p -> frame R (PreShow p).
Proof.
  intros L. destruct L as [_ Lh Lb La Li Lu].
  destruct p; unfold PreShow, hostname_PreShow, bond_PreShow, askCreate_PreShow, disk_PreShow, diskFatal_PreShow,
    install_PreShow, upgrade_PreShow; first
    [ solve [repeat step]
    | apply frame_persistent_PreShow
    | apply frame_confirm_PreShow
    | (step; [by apply frame_modify, La|]; solve [repeat step])
    | (step; [unfold setContentByName; rewrite bool_decide_eq_true_2 by done; step|apply frame_disk_title])
    | (step; [step|]; case_match; [step; [step|by apply frame_modify, Lb]|step])
    | (step; [by apply frame_checkDHCPHostname, Lh|]; solve [repeat step])
    | (step; [by apply frame_modify, Li|step])
    | (step; [by apply frame_modify, Lu|step]) ].
Qed.

Lemma frame_show_view p : (kind_of p <> KPanel false -> leaf R (set_wz_focus (Some p))) -> frame R (show_view p).
Proof.
  intros Hf. step; [step|]. destruct (kind_of p) as [f| | |] eqn:K.
  - apply frame_ShowPanel; [exact _|]. intros E. apply Hf. intros ?. congruence.
  - step; [step|]. by apply frame_SetCurrentView, Hf.
  - step; [step|]. step; [step|]. step; [step|]. step; [case_match; [step|by apply frame_SetCurrentView, Hf]|].
    step; [step|]. step.
  - step; [step|]. step; [step|]. step; [step|]. by apply frame_SetCurrentView, Hf.
Qed.

Lemma frame_Show p : show_leaves p -> frame R (Show p).
Proof. intros L. apply frame_bind; [apply _|by apply frame_PreShow|]. intros _. apply frame_show_view, (sh_focus p L). Qed.
Lemma frame_showNext ps : (forall p, p ∈ ps -> show_leaves p) -> frame R (showNext ps).
Proof.
  intros Hl. apply frame_bind; [apply _| |intros _; by apply frame_element].
  apply frame_for_each; [apply _|]. intros p Hp. by apply frame_Show, Hl.
Qed.
End show_frames.

(** ** Where the focus is *)

Lemma frame_ok (R : relation wizard) {A} (m : W A) w a w' : frame R m -> m w = (Ok a, w') -> R w w'.
Proof. intros Hm E. specialize (Hm w). by rewrite E in Hm. Qed.

Lemma st_for_each_app_ok {S A} (f : A -> st S unit) l1 l2 u s s' :
  st_for_each f (l1 ++ l2) s = (Ok u, s') <->
  exists s1, st_for_each f l1 s = (Ok tt, s1) /\ st_for_each f l2 s1 = (Ok u, s').
Proof.
  revert s. induction l1 as [|x l1 IH]; intros s; cbn [st_for_each app].
  - split; [intros H; by exists s|]. intros (s1 & [_ ->]%st_ret_ok & H). done.
  - rewrite st_bind_ok. setoid_rewrite st_bind_ok. setoid_rewrite IH. naive_solver.
Qed.

Section focus.
Context `{Host} `{Netlink} `{VipHost} `{Web} `{Ntp} `{Surroundings}.

(** An input or drop-down that is shown has the focus. *)
Definition takes_focus (p : panel) : bool := match kind_of p with KInput | KDropDown _ => true | _ => false end.

Lemma Show_focus p u w w' : takes_focus p = true -> Show p w = (Ok u, w') -> wz_focus w' = Some p.
Proof.
  intros Hp (u1 & w1 & _ & Hs)%st_bind_ok. unfold show_view in Hs. apply st_bind_ok in Hs as (e & w2 & _ & Hs).
  unfold takes_focus in Hp. destruct (kind_of p); try done.
  - apply st_bind_ok in Hs as (? & w3 & _ & Hs). by injection Hs as _ <-.
  - apply st_bind_ok in Hs as (? & w3 & _ & Hs). apply st_bind_ok in Hs as (? & w4 & _ & Hs).
    apply st_bind_ok in Hs as (? & w5 & _ & Hs). by injection Hs as _ <-.
Qed.

Lemma showNext_focus ps p u w w' : takes_focus p = true -> showNext (ps ++ [p]) w = (Ok u, w') -> wz_focus w' = Some p.
Proof.
  intros Hp (u1 & w1 & Hs & Hc)%st_bind_ok. apply st_for_each_app_ok in Hs as (w2 & _ & Hs).
  cbn [st_for_each] in Hs. apply st_bind_ok in Hs as (? & w3 & Hs & [_ ->]%st_ret_ok).
  apply (Show_focus p) in Hs; [|done]. rewrite <- Hs. by injection Hc as _ <-.
Qed.
End focus.

(** Showing anything but the pages that start something: the tactic for the
    side conditions of [frame_showNext]. *)
Ltac show_frames :=
  let p := fresh in let Hp := fresh in
  intros p Hp; repeat (apply elem_of_cons in Hp as [-> | Hp]); [..|by apply not_elem_of_nil in Hp];
  split; try discriminate; try done; try (intros _; intros w; reflexivity);
  try (intros _ ? w; reflexivity).
