(* ===== verification/NetworkPage.v ===== *)
(** * NetworkPage: the network, cluster network and host name pages
      ([addNetworkPanel], [addClusterNetworkPanel], [addHostnamePanel])

    The handlers of the keys of these pages, the checks of their fields and the
    goroutine that applies the network. *)
From Stdlib Require Import ZArith Lia Ascii String.
From stdpp Require Import base tactics list gmap strings.
From S2P Require Import Prelude GoStrings GoNet Config ConfigOps K8sNames World NMConfig DiskOptions Validator Network ConsoleUtil Console.
Local Open Scope Z_scope.

Inductive key : Set := KeyEnter | KeyArrowUp | KeyArrowDown | KeyEsc.
#[export] Instance key_eq_dec : EqDecision key.
Proof. solve_decision. Defined.

(** ** Subnet masks *)

(** A mask of four decimal octets, ones followed by zeros. *)
Definition isValidMaskFormat (mask : ip) : bool := bool_decide (mask = CIDRMask (fst (mask_Size (Some mask)))).
Fixpoint parse_octets (mask : string) (i : Z) (parts : list string) : result ip :=
  match parts with
  | [] => Ok []
  | part :: parts' =>
      num ← map_err (fun _ => EParse ("unknown number in position " +:+ itoa i +:+ ": " +:+ part) mask) (atoi part);
      _ ← reject_if ((num <? 0) || (255 <? num))
            (EParse ("number out of range in position " +:+ itoa i +:+ ": " +:+ itoa num) mask);
      l ← parse_octets mask (i + 1) parts'; Ok (num :: l)
  end.
Definition ParseMask (mask : string) : result ip :=
  let parts := split_on "." mask in
  _ ← reject_if (negb (bool_decide (length parts = 4%nat))) (EParse "mask format must be x.x.x.x, instead of" mask);
  r ← parse_octets mask 1 parts;
  _ ← reject_if (negb (isValidMaskFormat r)) (EParse "invalid subnet mask: not continuous" mask);
  Ok r.

(** [IPMask.String] of the mask of a prefix length. *)
Definition mask_hex (bytes : nat) (ones : Z) : string :=
  of_chars (concat (map (fun i =>
    let b := 256 - 2 ^ (8 - Z.max 0 (Z.min 8 (ones - 8 * i))) in [hex_digit (b / 16); hex_digit (b mod 16)])
    (map Z.of_nat (seq 0 bytes)))).

(** ** Prefixes ([net/netip]) *)

Inductive addr : Set := V4 (bytes : ip) | V6 (bytes : ip) (zone : string).
Definition ParseAddr (s : string) : option addr :=
  match ip_family s with
  | Some "."%char => V4 <$> parseIPv4 s
  | Some ":"%char =>
      match split2 "%" s with
      | (a, None) => b ← parseIPv6 a; Some (V6 b "")
      | (a, Some zone) => if bool_decide (zone = "") then None else b ← parseIPv6 a; Some (V6 b zone)
      end
  | _ => None
  end.
Definition prefix_bits (s : string) : option Z :=
  match s with
  | String c (String _ _) => if in_range "1" "9" c && all_chars is_digit s then match atoi s with Ok n => Some n | _ => None end else None
  | String c "" => if is_digit c then Some (digit_val c) else None
  | "" => None
  end.
(** The address, which may have no zone, and the length. *)
Definition ParsePrefix (s : string) : option (addr * Z) :=
  '(a, b) ← GoUrl.cut_last "/" s;
  x ← ParseAddr a;
  n ← prefix_bits b;
  match x with
  | V4 _ => if n <=? 32 then Some (x, n) else None
  | V6 _ zone => if bool_decide (zone = "") && (n <=? 128) then Some (x, n) else None
  end.
Definition be_value (bytes : ip) : Z := fold_left (fun acc b => acc * 256 + b) bytes 0.
Definition Contains (p : addr * Z) (x : addr) : bool :=
  match fst p, x with
  | V4 a, V4 b => be_value a / 2 ^ (32 - snd p) =? be_value b / 2 ^ (32 - snd p)
  | V6 a _, V6 b zone => bool_decide (zone = "") && (be_value a / 2 ^ (128 - snd p) =? be_value b / 2 ^ (128 - snd p))
  | _, _ => false
  end.

Section pages.
Context `{Host} `{Netlink} `{VipHost} `{Web} `{Ntp} `{Surroundings}.

(** ** The network page *)

Definition showBondNote : W unit :=
  _ ← ClosePanel networkValidatorPanel;
  _ ← ClosePanel bondNotePanel;
  w ← st_get;
  setContentByName bondNotePanel
    (bondNote +:+ String.concat "" (map (fun m => String newline m) (doNetworkSpeedCheck (nw_Interfaces (wz_mgmt w))))).
Definition updateValidatorMessage (msg : string) : W unit :=
  _ ← ClosePanel networkValidatorPanel;
  _ ← ClosePanel bondNotePanel;
  setContentByName networkValidatorPanel msg.

(** The hooks in turn; the first message stops. *)
Fixpoint run_hooks (hooks : list (W string)) : W string :=
  match hooks with
  | [] => mret ""
  | hook :: hooks' => msg ← hook; if bool_decide (msg = "") then run_hooks hooks' else mret msg
  end.
Definition gotoNextPanel (names : list panel) (hooks : list (W string)) : W unit :=
  _ ← CloseElement networkValidatorPanel;
  msg ← run_hooks hooks;
  if bool_decide (msg = "") then _ ← showBondNote; showNext names
  else updateValidatorMessage msg.

Definition network_panels : list panel :=
  [askInterfacePanel; askVlanIDPanel; askBondModePanel; askNetworkMethodPanel; addressPanel; addrMaskPanel;
   gatewayPanel; mtuPanel; networkValidatorPanel; bondNotePanel].
Definition closeNetworkPage : W unit := CloseElements network_panels.

(** *** The fields *)

(** An interface that is up, with its address. *)
Definition select_interface (iface : string) : W (string + NetworkInterface) :=
  w ← st_get;
  match getNICState (wz_world w) iface with
  | NICStateNotFound => mret (inl ("NIC " +:+ iface +:+ " not found"))
  | NICStateDown => mret (inl ("NIC " +:+ iface +:+ " is down"))
  | NICStateLowerDown => mret (inl ("NIC " +:+ iface +:+ " is down" +:+ String newline "Network cable isn't plugged in"))
  | NICStateUP =>
      i ← st_lift (FindNetworkInterfaceHwAddr (mc_interfaces (machine (wz_world w))) (mkInterface iface ""));
      mret (inr i)
  end.
Fixpoint select_interfaces (ifaces : list string) : W (string + list NetworkInterface) :=
  match ifaces with
  | [] => mret (inr [])
  | iface :: ifaces' =>
      r ← select_interface iface;
      match r with
      | inl msg => mret (inl msg)
      | inr i => rs ← select_interfaces ifaces'; mret (match rs with inl msg => inl msg | inr l => inr (i :: l) end)
      end
  end.
Definition validateInterface : W string :=
  ifaces ← GetMultiData askInterfacePanel;
  if bool_decide (ifaces = []) then mret "Must select at least one interface"
  else
    r ← select_interfaces ifaces;
    match r with
    | inl msg => mret msg
    | inr interfaces => _ ← on_mgmt (set_nw_Interfaces interfaces); mret ""
    end.

Definition ErrMsgVLANShouldBeANumberInRange : string := "VLAN ID should be a number 1 ~ 4094.".
Definition validateVlanID : W string :=
  vlanIDStr ← GetData askVlanIDPanel;
  if bool_decide (vlanIDStr = "") then _ ← on_mgmt (set_nw_VlanID 0); mret ""
  else match atoi vlanIDStr with
  | Ok vlanID =>
      if (vlanID <? 0) || (4094 <? vlanID) then mret ErrMsgVLANShouldBeANumberInRange
      else _ ← on_mgmt (set_nw_VlanID vlanID); mret ""
  | _ => mret ErrMsgVLANShouldBeANumberInRange
  end.

(** The message of a failed check. *)
Definition check (r : result unit) (k : W string) : W string :=
  match r with Ok _ => k | Err e => mret (err_text e) | Panic => st_lift Panic end.

Definition validateAddress : W string :=
  address ← GetData addressPanel;
  check (checkStaticRequiredString "address" address) (
    _ ← on_input (set_ui_Address address);
    match ParseCIDR address with
    | Ok (a, ones) =>
        let bytes := match To4 (Some a) with Some _ => 4%nat | None => 16%nat end in
        _ ← on_mgmt (set_nw_IP (ip_string a));
        _ ← on_input (set_ui_AddrMask (mask_hex bytes ones));
        _ ← on_mgmt (set_nw_SubnetMask (dotted (CIDRMask ones)));
        mret ""
    | _ =>
        match ParseIP address with
        | None => mret (address +:+ " is not a valid IP address")
        | Some a => _ ← on_mgmt (set_nw_IP (ip_string a)); mret ""
        end
    end).
Definition validateAddrMask : W string :=
  addrMask ← GetData addrMaskPanel;
  check (checkStaticRequiredString "mask" addrMask) (
    match ParseMask addrMask with
    | Ok ipMask =>
        _ ← on_input (set_ui_AddrMask (mask_hex 4 (fst (mask_Size (Some ipMask)))));
        _ ← on_mgmt (set_nw_SubnetMask (dotted ipMask));
        mret ""
    | Err e => mret (err_text e)
    | Panic => st_lift Panic
    end).
Definition validateGateway : W string :=
  gateway ← GetData gatewayPanel;
  check (checkStaticRequiredString "gateway" gateway) (
    check (checkIP gateway) (_ ← on_mgmt (set_nw_Gateway gateway); mret "")).
Definition ErrMsgMTUShouldBeANumber : string := "MTU should be a number.".
Definition validateMTU : W string :=
  mtuStr ← GetData mtuPanel;
  match (if bool_decide (mtuStr = "") then Ok 0 else atoi mtuStr) with
  | Ok mtu => check (checkMTU mtu) (_ ← on_mgmt (set_nw_MTU mtu); mret "")
  | _ => mret ErrMsgMTUShouldBeANumber
  end.

(** *** Applying the network *)

Definition ErrMsgNoDefaultRoute : string := "No default route found. Please check the router setting on the DHCP server.".
(** The error of a step as a message. *)
Definition or_message {A} (what : string) (r : result A) (k : A -> W string) : W string :=
  match r with Ok a => k a | Err e => mret (what +:+ err_text e) | Panic => st_lift Panic end.

Definition setupNetwork : W unit :=
  w ← st_get; run_io (applyNetworks visit_nics (wz_mgmt w) (hostname_of w)).
Definition clear_static : W unit :=
  _ ← on_input (set_ui_Address "");
  on_mgmt (fun n => set_nw_MTU 0 (set_nw_Gateway "" (set_nw_SubnetMask "" (set_nw_IP "" n)))).
Definition check_route : W string :=
  w ← st_get;
  match checkDefaultRoute (wz_world w) with
  | Err e => mret ("Failed to check default route: " +:+ err_text e +:+ ".")
  | Panic => st_lift Panic
  | Ok isDefaultRouteExist =>
      mret (if negb isDefaultRouteExist && bool_decide (nw_Method (wz_mgmt w) = NetworkMethodDHCP) then ErrMsgNoDefaultRoute else "")
  end.
Definition preGotoNextPage : W string :=
  r ← st_try setupNetwork;
  or_message "Configure network failed: " r (fun _ =>
    w ← st_get;
    _ ← on_install (set_in_ManagementInterface (wz_mgmt w));
    if bool_decide (nw_Method (wz_mgmt w) = NetworkMethodDHCP) then
      or_message "Requesting IP through DHCP failed: "
        (getIPThroughDHCP (wz_ifs w) (getManagementInterfaceName (wz_mgmt w)))
        (fun _ => _ ← clear_static; check_route)
    else check_route).
(** The wait has the focus until the goroutine is done. *)
Definition gotoNextPage (fromPanel : panel) : W unit :=
  _ ← ShowPanel networkValidatorPanel;
  _ ← SetCurrentView networkValidatorPanel;
  go (SetupNetwork fromPanel).
Definition run_SetupNetwork (fromPanel : panel) : W unit :=
  msg ← preGotoNextPage;
  _ ← SetContent networkValidatorPanel msg;
  if bool_decide (msg = "") then
    _ ← closeNetworkPage;
    w ← st_get;
    if bool_decide (mode_of w = ModeCreate) then showClusterNetworkPage else showHostnamePage
  else showNext [fromPanel].

(** *** Keys *)

Definition network_prev : W unit :=
  _ ← closeNetworkPage;
  w ← st_get;
  if wz_alreadyInstalled w then
    if bool_decide (mode_of w = ModeJoin) then showNext [askRolePanel] else showNext [askCreatePanel]
  else showDiskPage.
Definition askBondModeVConfirm : W unit :=
  mode ← GetData askBondModePanel;
  _ ← on_mgmt (set_nw_BondOptions (Some (<["mode" := mode]> {["miimon" := "100"]})));
  _ ← showBondNote;
  w ← st_get;
  if bool_decide (nw_Method (wz_mgmt w) = NetworkMethodStatic)
  then showNext [mtuPanel; gatewayPanel; addressPanel; askNetworkMethodPanel]
  else showNext [askNetworkMethodPanel].
Definition askNetworkMethodVConfirm : W unit :=
  selected ← GetData askNetworkMethodPanel;
  _ ← on_mgmt (set_nw_Method selected);
  if bool_decide (selected = NetworkMethodStatic) then showNext [mtuPanel; gatewayPanel; addrMaskPanel; addressPanel]
  else
    _ ← CloseElements [mtuPanel; gatewayPanel; addrMaskPanel; addressPanel];
    gotoNextPage askNetworkMethodPanel.
Definition mtuVConfirm : W unit :=
  msg ← validateMTU;
  if bool_decide (msg = "") then gotoNextPage mtuPanel else updateValidatorMessage msg.
(** Going up keeps what was typed, unchecked. *)
Definition keep_text (p : panel) (store : string -> W unit) : W string := v ← GetData p; _ ← store v; mret "".

Definition interface_keys (k : key) : W unit :=
  match k with
  | KeyArrowUp | KeyEsc => network_prev
  | KeyArrowDown | KeyEnter => gotoNextPanel [askVlanIDPanel] [validateInterface]
  end.
Definition vlan_keys (k : key) : W unit :=
  match k with
  | KeyArrowUp => gotoNextPanel [askInterfacePanel] [validateVlanID]
  | KeyArrowDown | KeyEnter => gotoNextPanel [askBondModePanel] [validateVlanID]
  | KeyEsc => network_prev
  end.
Definition bond_keys (k : key) : W unit :=
  match k with
  | KeyArrowUp => gotoNextPanel [askVlanIDPanel] []
  | KeyArrowDown | KeyEnter => askBondModeVConfirm
  | KeyEsc => network_prev
  end.
Definition method_keys (k : key) : W unit :=
  match k with
  | KeyArrowUp => gotoNextPanel [askBondModePanel] []
  | KeyArrowDown | KeyEnter => askNetworkMethodVConfirm
  | KeyEsc => network_prev
  end.
Definition address_keys (k : key) : W unit :=
  match k with
  | KeyArrowUp => gotoNextPanel [askNetworkMethodPanel] [keep_text addressPanel (fun v => on_input (set_ui_Address v))]
  | KeyArrowDown | KeyEnter => gotoNextPanel [addrMaskPanel] [validateAddress]
  | KeyEsc => network_prev
  end.
Definition addrMask_keys (k : key) : W unit :=
  match k with
  | KeyArrowUp => gotoNextPanel [addressPanel] [keep_text addrMaskPanel (fun v => on_input (set_ui_AddrMask v))]
  | KeyArrowDown | KeyEnter => gotoNextPanel [gatewayPanel] [validateAddrMask]
  | KeyEsc => network_prev
  end.
Definition gateway_keys (k : key) : W unit :=
  match k with
  | KeyArrowUp => gotoNextPanel [addrMaskPanel] [keep_text gatewayPanel (fun v => on_mgmt (set_nw_Gateway v))]
  | KeyArrowDown | KeyEnter => gotoNextPanel [mtuPanel] [validateGateway]
  | KeyEsc => network_prev
  end.
Definition mtu_keys (k : key) : W unit :=
  match k with
  | KeyArrowUp => gotoNextPanel [gatewayPanel] [validateMTU]
  | KeyArrowDown | KeyEnter => mtuVConfirm
  | KeyEsc => network_prev
  end.
Definition network_keys (p : panel) (k : key) : option (W unit) :=
  match p with
  | askInterfacePanel => Some (interface_keys k)
  | askVlanIDPanel => Some (vlan_keys k)
  | askBondModePanel => Some (bond_keys k)
  | askNetworkMethodPanel => Some (method_keys k)
  | addressPanel => Some (address_keys k)
  | addrMaskPanel => Some (addrMask_keys k)
  | gatewayPanel => Some (gateway_keys k)
  | mtuPanel => Some (mtu_keys k)
  | _ => None
  end.

(** ** The cluster network page *)

Definition closeClusterPage : W unit :=
  CloseElements [clusterPodCIDRPanel; clusterServiceCIDRPanel; clusterDNSPanel; clusterNetworkNotePanel; clusterNetworkValidatorPanel].
Definition cluster_prev : W unit := _ ← closeClusterPage; showNetworkPage.
Definition cluster_next : W unit := _ ← closeClusterPage; showHostnamePage.

Definition validateCIDR (cidr : string) : result unit :=
  let cidr := trim_space cidr in
  reject_if (negb (bool_decide (cidr = "")) && bool_decide (ParsePrefix cidr = None)) (EParse "netip.ParsePrefix" cidr).
(** The address of the name server, against the text of the service network. *)
Definition checkDNSIP (ip serviceCIDR : string) : result unit :=
  let ip := trim_space ip in
  if bool_decide (ip = "") && bool_decide (serviceCIDR = "") then Ok tt
  else match ParseAddr ip, ParsePrefix serviceCIDR with
  | None, _ => Err (EWrap "invalid cluster DNS IP" (EParse "netip.ParseAddr" ip))
  | Some _, None => Err (EWrap "to override the cluster DNS IP, the service CIDR must be valid" (EParse "netip.ParsePrefix" serviceCIDR))
  | Some ipAddr, Some svcNet =>
      reject_if (negb (Contains svcNet ipAddr))
        (EMsg ("invalid cluster DNS IP: " +:+ ip +:+ " is not in the service CIDR " +:+ serviceCIDR))
  end.
Definition validateDNSIP (ip : string) : W (result unit) :=
  r ← st_try (GetData clusterServiceCIDRPanel); mret (serviceCIDR ← r; checkDNSIP ip serviceCIDR).

Definition cluster_message : string -> W unit := setContentByName clusterNetworkValidatorPanel.
(** A failed check is shown; otherwise the value is kept and the rest runs. *)
Definition cluster_confirm (what : string) (r : result unit) (store next : W unit) : W unit :=
  match r with
  | Ok _ => _ ← store; _ ← cluster_message ""; next
  | Err e => cluster_message (what +:+ err_text e)
  | Panic => st_lift Panic
  end.
Definition podCIDRConfirm : W unit :=
  podCIDR ← GetData clusterPodCIDRPanel;
  cluster_confirm "Invalid pod CIDR: " (validateCIDR podCIDR) (on_install (set_in_ClusterPodCIDR podCIDR))
    (showNext [clusterServiceCIDRPanel]).
Definition serviceCIDRConfirm : W unit :=
  serviceCIDR ← GetData clusterServiceCIDRPanel;
  cluster_confirm "Invalid service CIDR: " (validateCIDR serviceCIDR) (on_install (set_in_ClusterServiceCIDR serviceCIDR))
    (showNext [clusterDNSPanel]).
Definition dnsConfirm : W unit :=
  dns ← GetData clusterDNSPanel;
  r ← validateDNSIP dns;
  cluster_confirm "" r (on_install (set_in_ClusterDNS dns)) cluster_next.

Definition podCIDR_keys (k : key) : W unit :=
  match k with KeyEsc | KeyArrowUp => cluster_prev | KeyArrowDown | KeyEnter => podCIDRConfirm end.
Definition serviceCIDR_keys (k : key) : W unit :=
  match k with
  | KeyEsc => cluster_prev
  | KeyArrowUp => showNext [clusterPodCIDRPanel]
  | KeyArrowDown | KeyEnter => serviceCIDRConfirm
  end.
Definition clusterDNS_keys (k : key) : W unit :=
  match k with
  | KeyEsc => cluster_prev
  | KeyArrowUp => showNext [clusterServiceCIDRPanel]
  | KeyArrowDown | KeyEnter => dnsConfirm
  end.
Definition cluster_keys (p : panel) (k : key) : option (W unit) :=
  match p with
  | clusterPodCIDRPanel => Some (podCIDR_keys k)
  | clusterServiceCIDRPanel => Some (serviceCIDR_keys k)
  | clusterDNSPanel => Some (clusterDNS_keys k)
  | _ => None
  end.

(** ** The host name page *)

Definition hostname_prev : W unit :=
  _ ← CloseElements [hostnamePanel; hostnameValidatorPanel];
  w ← st_get;
  if bool_decide (mode_of w = ModeCreate) then showClusterNetworkPage else showNetworkPage.
Definition hostname_next : W unit :=
  _ ← CloseElements [hostnamePanel; hostnameValidatorPanel]; showNext [dnsServersPanel].
Definition validate_hostname : W string :=
  hostname ← GetData hostnamePanel;
  if bool_decide (hostname = "") then mret "Must specify hostname."
  else if IsDNS1123Subdomain hostname then _ ← on_os (set_os_Hostname hostname); mret ""
  else mret "Invalid hostname. A lowercase RFC 1123 subdomain must consist of lower case alphanumeric characters, '-' or '.'.".
Definition hostname_enter : W unit :=
  message ← validate_hostname;
  if bool_decide (message = "") then hostname_next else setContentByName hostnameValidatorPanel message.
Definition hostname_keys (p : panel) (k : key) : option (W unit) :=
  match p, k with
  | hostnamePanel, (KeyArrowUp | KeyEsc) => Some hostname_prev
  | hostnamePanel, KeyEnter => Some hostname_enter
  | _, _ => None
  end.
End pages.

