(* ===== verification/DiskPage.v ===== *)
(** * DiskPage: the page of the installation disks ([addDiskPanel])

    The handlers of its keys.  Two ENTERs may be needed to leave the page: the
    first one that finds the disks in order only sets [diskConfirmed]. *)
From Stdlib Require Import ZArith Lia Ascii String.
From stdpp Require Import base tactics list gmap strings.
From S2P Require Import Prelude GoStrings Config ConfigOps World DiskSize DiskOptions Validator Network ConsoleUtil Console NetworkPage.
Local Open Scope Z_scope.

Section page.
Context `{Host} `{Netlink} `{VipHost} `{Web} `{Ntp} `{Surroundings}.

Definition disk_size (w : wizard) (device : string) : result Z := mc_diskSize (machine (wz_world w)) device.
Definition is_witness (w : wizard) : bool := bool_decide (role_of w = RoleWitness).
Definition is_bios (w : wizard) : bool := mc_isBIOS (machine (wz_world w)).
(** The persistent partition is on the installation disk. *)
Definition single_disk (i : Install) : bool :=
  bool_decide (in_DataDisk i = "") || bool_decide (in_Device i = in_DataDisk i).

Definition closeDiskPage : W unit :=
  CloseElements [diskFatalPanel; diskPanel; dataDiskPanel; askForceMBRPanel; diskValidatorPanel; diskNotePanel;
                 askForceMBRTitlePanel; persistentSizePanel; wipeDisksTitlePanel; wipeDisksPanel].
Definition disk_prev : W unit :=
  _ ← closeDiskPage; _ ← st_modify (set_wz_diskConfirmed false); showPasswordPage.

Definition disk_message : string -> W unit := setContentByName diskValidatorPanel.
(** A failed check is shown and makes the answer [false]. *)
Definition valid_or_message (r : result unit) : W bool :=
  match r with Ok _ => mret true | Err e => _ ← disk_message (err_text e); mret false | Panic => st_lift Panic end.

Definition size_checks (w : wizard) : result unit :=
  let i := install_of w in
  if in_SkipChecks i then Ok tt
  else if is_witness w then validateDiskSize (disk_size w (in_Device i)) false
  else if single_disk i then validateDiskSize (disk_size w (in_Device i)) true
  else _ ← validateDiskSize (disk_size w (in_Device i)) false; validateDataDiskSize (disk_size w (in_DataDisk i)).
Definition validateAllDiskSizes : W bool := w ← st_get; valid_or_message (size_checks w).

Definition validatePersistentPartitionSize (persistentSize : string) : W bool :=
  w ← st_get;
  let i := install_of w in
  if single_disk i then
    diskSize ← st_lift (disk_size w (in_Device i));
    valid_or_message (_ ← ParsePartitionSize diskSize persistentSize (in_SkipChecks i); Ok tt)
  else mret true.

(** Leaving the page once everything holds and the disks are confirmed. *)
Definition leave_disk_page : W unit :=
  w ← st_get;
  if wz_diskConfirmed w then
    _ ← closeDiskPage;
    if wz_installModeOnly w then showNext [confirmInstallPanel] else showNetworkPage
  else st_modify (set_wz_diskConfirmed true).
Definition disk_next : W unit :=
  valid ← validateAllDiskSizes;
  if negb valid then mret tt
  else
    w ← st_get;
    if is_witness w then _ ← on_install (set_in_DataDisk ""); leave_disk_page
    else
      valid ← validatePersistentPartitionSize (in_PersistentPartitionSize (install_of w));
      if negb valid then mret tt else leave_disk_page.

(** The wipe list, when other installations were found; then the MBR question
    on a BIOS system; then the next page. *)
Definition ask_mbr_or_next : W unit :=
  w ← st_get;
  if is_bios w then _ ← setContentByName diskNotePanel forceMBRNote; showNext [askForceMBRPanel]
  else disk_next.
Definition isWipeDisksPanelNeeded : W unit :=
  w ← st_get;
  let i := install_of w in
  if negb (bool_decide (getWipeDisksOptions (wz_disks w) (in_Device i) (in_DataDisk i) = [])) then
    _ ← (if bool_decide (in_Device i ∈ in_WipeDisksList i) || bool_decide (in_DataDisk i ∈ in_WipeDisksList i)
         then _ ← on_install (set_in_WipeDisksList []); Reset wipeDisksPanel else mret tt);
    showNext [wipeDisksTitlePanel; wipeDisksPanel]
  else
    _ ← CloseElements [wipeDisksTitlePanel; wipeDisksPanel];
    ask_mbr_or_next.

Definition disk_options (w : wizard) : list Option := getAllValidDiskOptions (wz_disks w).

Definition diskConfirm : W unit :=
  device ← GetData diskPanel;
  dataDisk ← GetData dataDiskPanel;
  _ ← disk_message "";
  _ ← on_install (set_in_Device device);
  w ← st_get;
  if (1 <? length (disk_options w))%nat then
    _ ← validateAllDiskSizes;
    if is_witness w then isWipeDisksPanelNeeded
    else if bool_decide (device = dataDisk) then showNext [persistentSizePanel; dataDiskPanel]
    else _ ← CloseElements [persistentSizePanel]; showNext [dataDiskPanel]
  else
    _ ← (if is_witness w then mret tt else setContentByName diskNotePanel persistentSizeNote);
    valid ← validateAllDiskSizes;
    if is_witness w then _ ← st_modify (set_wz_diskConfirmed valid); isWipeDisksPanelNeeded
    else showNext [persistentSizePanel].

(** The answer of the size check is not used here. *)
Definition dataDiskConfirm : W unit :=
  dataDisk ← GetData dataDiskPanel;
  _ ← disk_message "";
  _ ← on_install (set_in_DataDisk dataDisk);
  installDisk ← GetData diskPanel;
  if bool_decide (installDisk = dataDisk) then
    _ ← setContentByName diskNotePanel persistentSizeNote;
    _ ← validateAllDiskSizes;
    showNext [persistentSizePanel]
  else
    _ ← CloseElements [persistentSizePanel];
    _ ← validateAllDiskSizes;
    _ ← st_modify (set_wz_diskConfirmed true);
    isWipeDisksPanelNeeded.

Definition persistentSizeConfirm : W unit :=
  persistentSize ← GetData persistentSizePanel;
  _ ← disk_message "";
  valid ← validatePersistentPartitionSize persistentSize;
  if negb valid then mret tt
  else
    _ ← on_install (set_in_PersistentPartitionSize persistentSize);
    _ ← st_modify (set_wz_diskConfirmed true);
    isWipeDisksPanelNeeded.

Definition wipeDisksConfirm : W unit :=
  l ← GetMultiData wipeDisksPanel;
  _ ← on_install (set_in_WipeDisksList l);
  ask_mbr_or_next.

Definition mbrConfirm : W unit :=
  forceMBR ← GetData askForceMBRPanel;
  w ← st_get;
  let yes := bool_decide (forceMBR = "yes") in
  tooLarge ← (if yes then st_lift (diskExceedsMBRLimit (mc_lsblk (machine (wz_world w)) (in_Device (install_of w)))) else mret false);
  if (tooLarge : bool) then disk_message "Disk too large for MBR. Must be less than 2TiB"
  else if negb (Bool.eqb (in_ForceMBR (install_of w)) yes) then on_install (set_in_ForceMBR yes)
  else disk_next.

(** *** Going up *)

Definition unconfirm : W unit := st_modify (set_wz_diskConfirmed false).
Definition dataDisk_up : W unit := _ ← disk_message ""; _ ← unconfirm; showNext [diskPanel].
Definition persistent_up : W unit :=
  _ ← unconfirm;
  w ← st_get;
  _ ← disk_message "";
  _ ← setContentByName diskNotePanel "";
  showNext [if (1 <? length (disk_options w))%nat then dataDiskPanel else diskPanel].
(** From the wipe list and from the MBR question. *)
Definition last_up : W unit :=
  _ ← unconfirm;
  disk ← GetData diskPanel;
  dataDisk ← GetData dataDiskPanel;
  w ← st_get;
  if is_witness w then showNext [diskPanel]
  else if (1 <? length (disk_options w))%nat && negb (bool_decide (disk = dataDisk)) then showNext [dataDiskPanel]
  else _ ← setContentByName diskNotePanel persistentSizeNote; showNext [persistentSizePanel].

Definition diskFatal_keys (k : key) : option (W unit) := match k with KeyEsc => Some disk_prev | _ => None end.
Definition diskV_keys (k : key) : W unit :=
  match k with KeyEnter | KeyArrowDown => diskConfirm | KeyArrowUp => disk_message "" | KeyEsc => disk_prev end.
Definition dataDisk_keys (k : key) : W unit :=
  match k with KeyEnter | KeyArrowDown => dataDiskConfirm | KeyArrowUp => dataDisk_up | KeyEsc => disk_prev end.
Definition persistentSize_keys (k : key) : W unit :=
  match k with KeyEnter | KeyArrowDown => persistentSizeConfirm | KeyArrowUp => persistent_up | KeyEsc => disk_prev end.
Definition wipeDisks_keys (k : key) : W unit :=
  match k with KeyEnter | KeyArrowDown => wipeDisksConfirm | KeyArrowUp => last_up | KeyEsc => disk_prev end.
Definition askForceMBR_keys (k : key) : W unit :=
  match k with KeyEnter | KeyArrowDown => mbrConfirm | KeyArrowUp => last_up | KeyEsc => disk_prev end.
Definition disk_keys (p : panel) (k : key) : option (W unit) :=
  match p with
  | diskFatalPanel => diskFatal_keys k
  | diskPanel => Some (diskV_keys k)
  | dataDiskPanel => Some (dataDisk_keys k)
  | persistentSizePanel => Some (persistentSize_keys k)
  | wipeDisksPanel => Some (wipeDisks_keys k)
  | askForceMBRPanel => Some (askForceMBR_keys k)
  | _ => None
  end.
End page.
