(* ===== verification/Pages.v ===== *)
(** * Pages: the other pages of the installer ([install_panels.go], [helper.go])

    Preflight warnings, installation mode, role, password, name servers, virtual
    address, management address, token, time servers, proxy, SSH keys, remote
    configuration and the confirmations: the handlers of their keys and what
    their goroutines do when they are done.  [Services] stands for the account
    database, the password hash, temporary files and the parsers of other
    libraries. *)
From Stdlib Require Import ZArith Lia Ascii String.
From stdpp Require Import base tactics list gmap strings.
From S2P Require Import Prelude GoStrings GoNet Config World NMConfig DiskOptions Validator Network ConsoleUtil Console NetworkPage DiskPage.
Local Open Scope Z_scope.

Class Services := {
  user_exists : string -> world -> bool;
  yaml_password : string -> string -> result string;         (* the live stage with one user *)
  live_file : world -> result string;                         (* os.CreateTemp *)
  GetEncryptedPasswd : world -> string -> result string;
  ParseAuthorizedKey : string -> bool;
  load_config : string -> result HarvesterConfig;             (* config.LoadHarvesterConfig *)
  ini_set_ntp : string -> string -> result string
}.

Definition loginUser : string := "rancher".
Definition applyPassword `{Host} `{Services} (username passwordHash : string) : io unit :=
  w ← get_world;
  if user_exists username w then
    bytes ← lift (yaml_password username passwordHash);
    file ← lift (live_file w);
    finally (_ ← WriteFile file bytes; run_command ["/usr/bin/yip"; "-s"; "live"; file])
      (_ ← try (Remove file); mret tt)
  else mret tt.

Section pages.
Context `{Host} `{Netlink} `{VipHost} `{Web} `{Ntp} `{Surroundings} `{Services}.

(** What a request on the network does to the log. *)
Definition run_net {A} (m : st net_log A) : W A := fun w =>
  let '(r, log) := m (wz_net w) in (r, set_wz_net log w).
Definition run_vip {A} (m : st netifs A) : W A := fun w =>
  let '(r, ifs) := m (wz_ifs w) in (r, set_wz_ifs ifs w).

(** The wait of a page: the panel takes the focus, so that no key has a handler. *)
Definition wait_for (t : task) : W unit :=
  _ ← ClosePanel spinnerPanel; _ ← ShowPanel spinnerPanel; go t.
(** The wait ends with a message, back on the page. *)
Definition back_with (msg : string) (p : panel) : W unit := _ ← SetContent spinnerPanel msg; showNext [p].
Definition done_waiting : W unit := SetContent spinnerPanel "".

(** Stopping the installer. *)
Definition halt (p : panel) : W unit :=
  _ ← Close p;
  _ ← setContentByName titlePanel "";
  _ ← setContentByName footerPanel "";
  _ ← go SleepAndReboot;
  setContentByName notePanel "Installation halted. Rebooting system in 5 seconds".

(** ** Preflight, mode and role *)

Definition preflight_enter : W unit :=
  proceed ← GetData preflightCheckPanel;
  if bool_decide (proceed = "no") then halt preflightCheckPanel
  else _ ← Close preflightCheckPanel; showNext [askCreatePanel].

Definition askCreate_enter : W unit :=
  selected ← GetData askCreatePanel;
  _ ← on_install (set_in_Mode selected);
  _ ← st_modify (set_wz_installModeOnly (bool_decide (selected = ModeInstall)));
  _ ← (if bool_decide (selected = ModeCreate) then on_install (set_in_Role RoleDefault) else mret tt);
  _ ← Close askCreatePanel;
  _ ← (if bool_decide (selected = ModeCreate) then
         _ ← on_config (set_hc_ServerURL ""); on_input (set_ui_ServerURL "")
       else mret tt);
  if bool_decide (selected = ModeUpgrade) then showNext [confirmUpgradePanel]
  else if bool_decide (selected = ModeJoin) then showRolePage
  else
    w ← st_get;
    if wz_alreadyInstalled w then showNetworkPage else showPasswordPage.

Definition askRole_enter : W unit :=
  selected ← GetData askRolePanel;
  _ ← on_install (set_in_Role selected);
  _ ← Close askRolePanel;
  w ← st_get;
  if wz_alreadyInstalled w then showNetworkPage else showPasswordPage.
Definition askRole_esc : W unit := _ ← CloseElements [askRolePanel]; showNext [askCreatePanel].

(** ** Password *)

Definition passwordVConfirmKeyBinding : W unit :=
  password ← GetData passwordPanel;
  _ ← on_input (set_ui_Password password);
  if bool_decide (password = "") then setContentByName validatorPanel "Password is required"
  else showNext [passwordConfirmPanel].
(** Leaving either field with ESC. *)
Definition passwordVEscapeKeyBinding : W unit :=
  _ ← Close passwordPanel;
  _ ← Close passwordConfirmPanel;
  _ ← setContentByName notePanel "";
  w ← st_get;
  if bool_decide (mode_of w = ModeJoin) then showNext [askRolePanel] else showNext [askCreatePanel].
Definition keep_confirm : W string :=
  v ← GetData passwordConfirmPanel; _ ← on_input (set_ui_PasswordConfirm v); mret v.
Definition passwordConfirmVArrowUpKeyBinding : W unit := _ ← keep_confirm; showNext [passwordPanel].
Definition passwordConfirmVKeyEnter : W unit :=
  confirm ← keep_confirm;
  w ← st_get;
  if negb (bool_decide (ui_Password (wz_input w) = confirm)) then setContentByName validatorPanel "Password mismatching"
  else
    _ ← Close passwordPanel;
    _ ← Close passwordConfirmPanel;
    encrypted ← st_lift (GetEncryptedPasswd (wz_world w) (ui_Password (wz_input w)));
    _ ← on_os (set_os_Password encrypted);
    _ ← run_io (applyPassword loginUser encrypted);   (* an error is returned with the output behind it *)
    showDiskPage.

(** ** Name servers *)

Definition dns_enter : W unit :=
  _ ← ClosePanel spinnerPanel;
  dnsServers ← GetData dnsServersPanel;
  let dnsServers := trim_space dnsServers in
  _ ← on_input (set_ui_DNSServers dnsServers);
  wait_for (SetupDNS dnsServers).
Definition close_noted (p : panel) : W unit := _ ← CloseElement notePanel; Close p.
Definition show_vip_page : W unit := showNext [vipTextPanel; askVipMethodPanel].
Definition dns_next : W unit :=
  _ ← close_noted dnsServersPanel;
  w ← st_get;
  if bool_decide (mode_of w = ModeCreate) then show_vip_page else showNext [serverURLPanel].
Definition dns_prev : W unit := _ ← close_noted dnsServersPanel; showHostnamePage.
Definition run_SetupDNS (dnsServers : string) : W unit :=
  w ← st_get;
  if bool_decide (nw_Method (wz_mgmt w) = NetworkMethodStatic) && bool_decide (dnsServers = "")
  then back_with "DNS servers are required for static IP address" dnsServersPanel
  else if bool_decide (dnsServers = "") then _ ← done_waiting; dns_next
  else
    let dnsServerList := split_on "," dnsServers in
    match checkIPList dnsServerList with
    | Err e => back_with (err_text e) dnsServersPanel
    | Panic => st_lift Panic
    | Ok _ =>
        r ← st_try (run_io (updateDNSServersAndReloadNetConfig dnsServerList (nw_VlanID (wz_mgmt w))));
        match r with
        | Err e => back_with ("Failed to update DNS servers: " +:+ err_text e +:+ ".") dnsServersPanel
        | Panic => st_lift Panic
        | Ok _ =>
            _ ← on_os (set_os_DNSNameservers dnsServerList);
            _ ← done_waiting;
            dns_next
        end
    end.

(** ** Virtual address *)

Definition vip_panels : list panel := [askVipMethodPanel; vipHwAddrPanel; vipHwAddrNotePanel; vipPanel; vipTextPanel].
Definition vip_prev : W unit := _ ← CloseElements vip_panels; showNext [dnsServersPanel].
Definition vip_next : W unit := _ ← CloseElements vip_panels; showNext [tokenPanel].
Definition hwAddrNote : string := "Note: If DHCP MAC/IP address binding is configured on the DHCP server, enter the MAC address to fetch the static VIP. Otherwise, leave it blank.".
Definition confirmAskVipMethod : W unit :=
  method ← GetData askVipMethodPanel;
  if bool_decide (method = NetworkMethodDHCP) then
    _ ← SetContent vipHwAddrNotePanel hwAddrNote;
    showNext [vipPanel; vipHwAddrNotePanel; vipHwAddrPanel]
  else
    _ ← CloseElement vipHwAddrPanel;
    _ ← CloseElement vipHwAddrNotePanel;
    showNext [vipPanel].
Definition gotoVipPanel : W unit :=
  selected ← GetData askVipMethodPanel;
  hwAddr ← GetData vipHwAddrPanel;
  if bool_decide (selected = NetworkMethodDHCP) then
    _ ← SetContent vipTextPanel "Requesting IP through DHCP...";
    _ ← go (RequestVip hwAddr);
    showNext [vipPanel]
  else
    _ ← SetContent vipTextPanel "";
    _ ← on_install (set_in_VipMode NetworkMethodStatic);
    _ ← showNext [vipPanel];
    SetData vipPanel "".
Definition gotoVerifyIP : W unit :=
  vip ← GetData vipPanel;
  w ← st_get;
  let i := install_of w in
  if bool_decide (in_VipMode i = NetworkMethodDHCP) then
    if bool_decide (vip = in_Vip i) then vip_next
    else SetContent vipTextPanel "Forbid to modify the VIP obtained through DHCP"
  else if bool_decide (ParseIP vip = None) then SetContent vipTextPanel ("Invalid VIP: " +:+ vip)
  else if negb (bool_decide (vip = "")) && bool_decide (vip = nw_IP (wz_mgmt w))
  then SetContent vipTextPanel "VIP must not be the same as management NIC's IP"
  else
    _ ← on_install (fun i =>
          let i := set_in_VipHwAddr "" (set_in_Vip vip i) in
          if bool_decide (in_VipMode i = "") then set_in_VipMode NetworkMethodStatic i else i);
    vip_next.
Definition gotoVipParentPanel : W unit :=
  method ← GetData askVipMethodPanel;
  if bool_decide (method = NetworkMethodDHCP) then
    _ ← showNext [vipHwAddrPanel];
    w ← st_get;
    SetData vipHwAddrPanel (in_VipHwAddr (install_of w))
  else showNext [askVipMethodPanel].
Definition run_RequestVip (hwAddr : string) : W unit :=
  w ← st_get;
  r ← st_try (run_vip (getVipThroughDHCP (getManagementInterfaceName (in_ManagementInterface (install_of w))) hwAddr));
  match r with
  | Err e => _ ← SetContent vipTextPanel (err_text e); showNext [askVipMethodPanel]
  | Panic => st_lift Panic
  | Ok vip =>
      _ ← SetContent vipTextPanel "";
      _ ← on_install (fun i => set_in_VipHwAddr (Network.hwAddr vip) (set_in_VipMode NetworkMethodDHCP (set_in_Vip (ipv4Addr vip) i)));
      _ ← SetData vipHwAddrPanel (Network.hwAddr vip);
      SetData vipPanel (ipv4Addr vip)
  end.

(** ** Management address *)

Definition validator_message : string -> W unit := setContentByName validatorPanel.
Definition serverURL_enter : W unit :=
  _ ← ClosePanel spinnerPanel;
  url ← GetData serverURLPanel;
  _ ← on_input (set_ui_ServerURL url);
  if bool_decide (url = "") then validator_message "Management address is required"
  else match getFormattedServerURL url with
  | Err e => validator_message (err_text e)
  | Panic => st_lift Panic
  | Ok fmtServerURL => _ ← CloseElement validatorPanel; wait_for (PingServer fmtServerURL)
  end.
Definition run_PingServer (fmtServerURL : string) : W unit :=
  r ← st_try (run_net (validatePingServerURL (fmtServerURL +:+ "/ping")));
  match r with
  | Err e => back_with (err_text e) serverURLPanel
  | Panic => st_lift Panic
  | Ok _ =>
      _ ← done_waiting;
      _ ← on_config (set_hc_ServerURL fmtServerURL);
      _ ← Close serverURLPanel;
      showNext [tokenPanel]
  end.
Definition serverURL_esc : W unit := _ ← Close serverURLPanel; showNext [dnsServersPanel].

(** ** Token *)

Definition token_enter : W unit :=
  token ← GetData tokenPanel;
  if bool_decide (token = "") then validator_message "Cluster token is required"
  else match checkToken token with
  | Err e => validator_message (err_text e)
  | Panic => st_lift Panic
  | Ok _ => _ ← on_config (set_hc_Token token); _ ← close_noted tokenPanel; showNext [ntpServersPanel]
  end.
Definition token_esc : W unit :=
  _ ← close_noted tokenPanel;
  w ← st_get;
  if bool_decide (mode_of w = ModeCreate) then show_vip_page else showNext [serverURLPanel].

(** ** Time servers *)

Definition ntp_leave (next : panel) : W unit :=
  _ ← on_input (set_ui_HasChecked false); _ ← close_noted ntpServersPanel; showNext [next].
Definition ntp_enter : W unit :=
  ntpServers ← GetData ntpServersPanel;
  w ← st_get;
  if bool_decide (ui_NTPServers (wz_input w) = ntpServers) && ui_HasCheckedNTPServers (wz_input w)
  then ntp_leave proxyPanel
  else _ ← on_input (set_ui_HasChecked false); wait_for (CheckNTP ntpServers).
Definition run_CheckNTP (ntpServers : string) : W unit :=
  if negb (bool_decide (trim_space ntpServers = ntpServers)) then back_with "There is space in input." ntpServersPanel
  else
    _ ← on_input (fun i => set_ui_NTPServers ntpServers (set_ui_HasChecked true i));
    let ntpServerList := split_on "," ntpServers in
    _ ← on_os (set_os_NTPServers ntpServerList);
    if bool_decide (ntpServers = "") then
      back_with "Empty NTP Server is not recommended. Press Enter again to use current configuration anyway." ntpServersPanel
    else match validateNTPServers ntpServerList with
    | Err e => back_with ("Failed to reach NTP servers: " +:+ err_text e +:+ ". Press Enter again to use current configuration anyway, or change the value to revalidate.") ntpServersPanel
    | Panic => st_lift Panic
    | Ok _ =>
        r ← st_try (run_io (enableNTPServers ini_set_ntp ntpServerList));
        match r with
        | Err e => back_with ("Failed to enable NTP servers: " +:+ err_text e +:+ ". Press Enter to proceed.") ntpServersPanel
        | Panic => st_lift Panic
        | Ok _ => _ ← done_waiting; ntp_leave proxyPanel
        end
    end.

(** ** Proxy *)

(** The second variable set has a space at the end of its name. *)
Definition set_proxy (proxy : string) (env : gmap string string) : gmap string string :=
  if bool_decide (proxy = "") then delete "HTTPS_PROXY" (delete "HTTP_PROXY" env)
  else <["HTTPS_PROXY " := proxy]> (<["HTTP_PROXY" := proxy]> env).
Definition proxy_enter : W unit :=
  proxy ← GetData proxyPanel;
  _ ← st_modify (fun w => set_wz_env (set_proxy proxy (wz_env w)) w);
  _ ← Close proxyPanel;
  _ ← ClosePanel notePanel;
  showNext [sshKeyPanel].
Definition proxy_esc : W unit := _ ← Close proxyPanel; _ ← CloseElement notePanel; showNext [ntpServersPanel].

(** ** SSH keys *)

Definition ssh_next : W unit := _ ← close_noted sshKeyPanel; showNext [cloudInitPanel].
Definition ssh_enter : W unit :=
  url ← GetData sshKeyPanel;
  _ ← on_input (set_ui_SSHKeyURL url);
  _ ← on_os (set_os_SSHAuthorizedKeys []);
  if bool_decide (url = "") then ssh_next else wait_for (FetchSSHKeys url).
Definition run_FetchSSHKeys (url : string) : W unit :=
  b ← st_try (run_net (fetch url));
  match getRemoteSSHKeys ParseAuthorizedKey b with
  | Err e => back_with (err_text e) sshKeyPanel
  | Panic => st_lift Panic
  | Ok pubKeys => _ ← done_waiting; _ ← on_os (set_os_SSHAuthorizedKeys pubKeys); ssh_next
  end.
Definition ssh_esc : W unit := _ ← close_noted sshKeyPanel; showNext [proxyPanel].

(** ** Remote configuration *)

Definition cloudInit_next : W unit := _ ← Close cloudInitPanel; showNext [confirmInstallPanel].
Definition cloudInit_enter : W unit :=
  configURL ← GetData cloudInitPanel;
  _ ← on_install (set_in_ConfigURL configURL);
  if bool_decide (configURL = "") then cloudInit_next else wait_for (CheckConfig configURL).
Definition run_CheckConfig (configURL : string) : W unit :=
  r ← st_try (run_net (getRemoteConfig load_config configURL));
  match r with
  | Err e => back_with (err_text e) cloudInitPanel
  | Panic => st_lift Panic
  | Ok _ => _ ← done_waiting; cloudInit_next
  end.
Definition cloudInit_esc : W unit := _ ← Close cloudInitPanel; showNext [sshKeyPanel].

(** ** Confirmations *)

Definition confirm_enter : W unit :=
  confirmed ← GetData confirmInstallPanel;
  if bool_decide (confirmed = "no") then halt confirmInstallPanel
  else _ ← Close confirmInstallPanel; showNext [installPanel].
Definition confirm_esc : W unit :=
  _ ← Close confirmInstallPanel;
  w ← st_get;
  if wz_installModeOnly w then showDiskPage else showNext [cloudInitPanel].
Definition upgrade_enter : W unit :=
  confirmed ← GetData confirmUpgradePanel;
  _ ← Close confirmUpgradePanel;
  if bool_decide (confirmed = "no") then showNext [askCreatePanel] else showNext [upgradePanel].
Definition upgrade_esc : W unit := _ ← Close confirmUpgradePanel; showNext [askCreatePanel].

(** ** All keys *)

Definition preflight_keys (k : key) : option (W unit) := match k with KeyEnter => Some preflight_enter | _ => None end.
Definition askCreate_keys (k : key) : option (W unit) := match k with KeyEnter => Some askCreate_enter | _ => None end.
(** The keys of a page with one field. *)
Definition enter_esc (enter esc : W unit) (k : key) : option (W unit) :=
  match k with KeyEnter => Some enter | KeyEsc => Some esc | _ => None end.
Definition password_keys (k : key) : option (W unit) :=
  match k with
  | KeyEnter | KeyArrowDown => Some passwordVConfirmKeyBinding
  | KeyEsc => Some passwordVEscapeKeyBinding
  | KeyArrowUp => None
  end.
Definition passwordConfirm_keys (k : key) : option (W unit) :=
  match k with
  | KeyArrowUp => Some passwordConfirmVArrowUpKeyBinding
  | KeyEnter => Some passwordConfirmVKeyEnter
  | KeyEsc => Some passwordVEscapeKeyBinding
  | KeyArrowDown => None
  end.
Definition vipMethod_keys (k : key) : option (W unit) :=
  match k with KeyArrowDown | KeyEnter => Some confirmAskVipMethod | KeyEsc => Some vip_prev | KeyArrowUp => None end.
Definition vipHwAddr_keys (k : key) : W unit :=
  match k with KeyArrowUp => showNext [askVipMethodPanel] | KeyArrowDown | KeyEnter => gotoVipPanel | KeyEsc => vip_prev end.
Definition vip_keys (k : key) : W unit :=
  match k with KeyArrowUp => gotoVipParentPanel | KeyArrowDown | KeyEnter => gotoVerifyIP | KeyEsc => vip_prev end.

Definition page_keys (p : panel) (k : key) : option (W unit) :=
  match p with
  | preflightCheckPanel => preflight_keys k
  | askCreatePanel => askCreate_keys k
  | askRolePanel => enter_esc askRole_enter askRole_esc k
  | passwordPanel => password_keys k
  | passwordConfirmPanel => passwordConfirm_keys k
  | dnsServersPanel => enter_esc dns_enter dns_prev k
  | askVipMethodPanel => vipMethod_keys k
  | vipHwAddrPanel => Some (vipHwAddr_keys k)
  | vipPanel => Some (vip_keys k)
  | serverURLPanel => enter_esc serverURL_enter serverURL_esc k
  | tokenPanel => enter_esc token_enter token_esc k
  | ntpServersPanel => enter_esc ntp_enter (ntp_leave tokenPanel) k
  | proxyPanel => enter_esc proxy_enter proxy_esc k
  | sshKeyPanel => enter_esc ssh_enter ssh_esc k
  | cloudInitPanel => enter_esc cloudInit_enter cloudInit_esc k
  | confirmInstallPanel => enter_esc confirm_enter confirm_esc k
  | confirmUpgradePanel => enter_esc upgrade_enter upgrade_esc k
  | _ => None
  end.
End pages.
