(* ===== verification/InstallPanel.v ===== *)
(** * InstallPanel: what runs when the installation panel is shown
      ([addInstallPanel], [configureInstallModeDHCP])

    The goroutine of the panel: the remote configuration is merged, the network
    and the virtual address are set up for an automatic installation, the
    configuration is completed and validated, and the installation runs.
    [prepare_install] is everything before the installation; it fails where the
    goroutine prints a message and returns. *)
From Stdlib Require Import ZArith Lia Ascii String.
From stdpp Require Import base tactics list gmap strings.
From S2P Require Import Prelude GoStrings GoNet Config Merge ConfigOps World NMConfig DiskOptions Validator Webhooks Network Install ConsoleUtil Console NetworkPage DiskPage Pages.
Local Open Scope Z_scope.

Class FirstConsole := { arm64 : bool; active_consoles : world -> result string }.

Definition machine_of `{Surroundings} (w : wizard) : Machine :=
  let m := machine (wz_world w) in
  mkMachine (mc_interfaces m) (mc_lstat m) (mc_evalSymlinks m) (mc_disks m) (mc_diskSize m) (mc_lsblk m) (mc_isBIOS m)
    (wz_alreadyInstalled w).

Section install.
Context `{Host} `{Netlink} `{VipHost} `{Web} `{Ntp} `{Surroundings} `{Services} `{Installer} `{Http} `{RegistryJSON}
  `{FirstConsole} (byName : string -> option net_iface).

Definition print (msg : string) : W unit := run_io (printToPanel msg).
(** The message is printed and the goroutine returns. *)
Definition stop_with {A} (msg : string) : W A := _ ← print msg; st_fail (EMsg msg).
Definition or_stop {A} (text : error -> string) (r : result A) : W A :=
  match r with Ok a => mret a | Err e => stop_with (text e) | Panic => st_lift Panic end.
Definition stops {A} (m : W A) (text : error -> string) : W A := r ← st_try m; or_stop text r.
Definition and_print (m : W unit) (text : error -> string) : W unit :=
  r ← st_try m; match r with Err e => print (text e) | _ => mret tt end.
Definition after (prefix : string) (e : error) : string := prefix +:+ err_text e.

Definition mgmt_iface (w : wizard) : string := getManagementInterfaceName (in_ManagementInterface (install_of w)).
Definition request_vip : W unit :=
  w ← st_get;
  vip ← stops (run_vip (getVipThroughDHCP (mgmt_iface w) "")) (after "fail to get vip: ");
  on_install (fun i => set_in_VipHwAddr (Network.hwAddr vip) (set_in_Vip (ipv4Addr vip) i)).

(** ** A node whose image is installed, configured without questions *)

Definition configureInstallModeDHCP : W unit :=
  w ← st_get;
  let netDef := in_ManagementInterface (install_of w) in
  _ ← on_mgmt (fun n =>
        set_nw_VlanID (nw_VlanID netDef) (set_nw_Method (nw_Method netDef)
          (set_nw_BondOptions (Some (default default_bond_options (nw_BondOptions netDef)))
             (set_nw_Interfaces (nw_Interfaces netDef) n))));
  w ← st_get;
  _ ← and_print (run_io (applyNetworks visit_nics (wz_mgmt w) (hostname_of w))) (after "error applying network configuration: ");
  w ← st_get;
  _ ← and_print (_ ← st_lift (getIPThroughDHCP (wz_ifs w) (mgmt_iface w)); mret tt) (after "error getting DHCP address: ");
  if bool_decide (in_VipMode (install_of w) = NetworkMethodDHCP) then _ ← st_try request_vip; mret tt else mret tt.

(** ** The steps *)

Definition merge_remote : W unit :=
  w ← st_get;
  let url := in_ConfigURL (install_of w) in
  if bool_decide (url = "") then mret tt
  else
    _ ← print ("Fetching " +:+ url +:+ "...");
    remoteConfig ← stops (run_net (retryRemoteConfig load_config err_text url)) err_text;
    stops (merge_config remoteConfig) (after "fail to merge config: ").

Definition lower_case : W unit :=
  on_install (fun i =>
    let n := in_ManagementInterface i in
    set_in_VipMode (to_lower (in_VipMode i)) (set_in_ManagementInterface (set_nw_Method (to_lower (nw_Method n)) n) i)).

(** The names and addresses of the interfaces, one after the other; those
    before a failing one keep what was found. *)
Fixpoint name_interfaces (ifs : result (list Iface)) (l : list NetworkInterface) : list NetworkInterface * result unit :=
  match l with
  | [] => ([], Ok tt)
  | n :: l' =>
      match FindNetworkInterfaceNameAndHwAddr ifs n with
      | Ok n' => let '(r, e) := name_interfaces ifs l' in (n' :: r, e)
      | Err e => (n :: l', Err e)
      | Panic => (n :: l', Panic)
      end
  end.
Definition find_interfaces : W unit :=
  w ← st_get;
  let n := in_ManagementInterface (install_of w) in
  let '(l, r) := name_interfaces (mc_interfaces (machine (wz_world w))) (nw_Interfaces n) in
  _ ← on_install (set_in_ManagementInterface (set_nw_Interfaces l n));
  or_stop err_text r.

Definition is_dhcp (w : wizard) : bool := bool_decide (nw_Method (in_ManagementInterface (install_of w)) = NetworkMethodDHCP).
Definition apply_automatic : W unit :=
  w ← st_get;
  if in_Automatic (install_of w) && is_dhcp w then
    _ ← print "Configuring network...";
    stops (run_io (applyNetworks visit_nics (in_ManagementInterface (install_of w)) (hostname_of w))) (after "Can't apply networks: ")
  else mret tt.
Definition vip_if_needed : W unit :=
  w ← st_get;
  let i := install_of w in
  if needToGetVIPFromDHCP (in_VipMode i) (in_Vip i) (in_VipHwAddr i) then request_vip else mret tt.
Definition default_tty : W unit :=
  w ← st_get;
  if bool_decide (in_TTY (install_of w) = "") then on_install (set_in_TTY (getFirstConsoleTTY arm64 (active_consoles (wz_world w)))) else mret tt.
Definition format_url : W unit :=
  w ← st_get;
  let url := hc_ServerURL (wz_config w) in
  if bool_decide (url = "") then mret tt
  else formatted ← or_stop (after "server url invalid: ") (getFormattedServerURL url); on_config (set_hc_ServerURL formatted).

(** The warnings stop an installation that was not told to skip them. *)
Definition check_warnings : W unit :=
  w ← st_get;
  if wz_alreadyInstalled w then mret tt
  else
    let warnings := wz_warnings w ++ doNetworkSpeedCheck (nw_Interfaces (in_ManagementInterface (install_of w))) in
    _ ← st_modify (set_wz_warnings warnings);
    if bool_decide (warnings = []) || in_SkipChecks (install_of w) || wz_preflightAck w then mret tt
    else _ ← st_for_each print warnings; st_fail (EMsg "preflight").

Definition check_default_route : W unit :=
  w ← st_get;
  isDefaultRouteExist ← or_stop (fun _ => "Failed to check default route.") (checkDefaultRoute (wz_world w));
  if negb (wz_installModeOnly w) && negb isDefaultRouteExist && is_dhcp w then stop_with ErrMsgNoDefaultRoute else mret tt.

Definition final_fields : W unit :=
  on_install (fun i =>
    let i := set_in_ForceGPT (negb (in_ForceMBR i)) i in
    if bool_decide (in_DataDisk i = in_Device i) then set_in_DataDisk "" i else i).

Definition validate_all : W unit :=
  w ← st_get;
  or_stop (after "Invalid configuration: ") (validateConfig visit_map (machine_of w) (wz_config w)).

Definition prepare_install : W unit :=
  w ← st_get;
  _ ← (if wz_alreadyInstalled w && in_Automatic (install_of w) &&
          bool_decide (nw_Method (in_ManagementInterface (install_of w)) = "dhcp")
       then configureInstallModeDHCP else mret tt);
  _ ← merge_remote;
  _ ← lower_case;
  _ ← find_interfaces;
  _ ← apply_automatic;
  _ ← vip_if_needed;
  _ ← checkDHCPHostname true;
  _ ← default_tty;
  _ ← format_url;
  _ ← check_warnings;
  _ ← check_default_route;
  _ ← final_fields;
  validate_all.

(** A webhook that cannot be prepared is reported, and the installation goes on
    without any. *)
Definition run_installation : W unit :=
  w ← st_get;
  let c := wz_config w in
  _ ← match PrepareWebhooks (in_Webhooks (hc_Install c)) (getWebhookContext byName c) with
      | Err e => print (after "Invalid webhook: " e)
      | _ => mret tt
      end;
  and_print
    (if wz_alreadyInstalled w then run_io (configureInstalledNode c)
     else run_io (doInstall (wz_installModeOnly w) (wz_disks w) c))
    (after "Install failed: ").

Definition run_RunInstall : W unit :=
  r ← st_try prepare_install;
  match r with Ok _ => run_installation | _ => mret tt end.
End install.
