(* ===== verification/Wizard.v ===== *)
(** * Wizard: the interactive installer as a transition system

    Keys and goroutines of all pages together.  An action is a key press, text
    typed into the focused input, a choice made in the focused select or
    drop-down, or the end of a goroutine; a handler that returns an error ends
    the main loop ([gocui.MainLoop]) and with it the program.  [layoutInstall]
    shows the first page. *)
From Stdlib Require Import ZArith Lia Ascii String.
From stdpp Require Import base tactics list gmap strings.
From S2P Require Import Prelude GoStrings Config Merge ConfigOps World NMConfig Mapper DiskOptions Validator Webhooks Network Install ConsoleUtil Console NetworkPage DiskPage Pages InstallPanel.
Local Open Scope Z_scope.

(** What the package starts with. *)
Definition userInputData : UserInputData := mkInput "" "" "" "" "" "" "" "0.suse.pool.ntp.org" false.
Definition mgmtNetwork : Network := set_nw_DefaultRoute true zero_Network.
Definition initial_wizard (c : HarvesterConfig) (alreadyInstalled : bool) (warnings : list string) (env : gmap string string)
    (w : world) (ifs : netifs) : wizard :=
  mkWizard c userInputData mgmtNetwork alreadyInstalled false false warnings false NewDiskOptionsCache env setPanels None [] w ifs [].

Section wizard.
Context `{Host} `{Netlink} `{VipHost} `{Web} `{Ntp} `{Surroundings} `{Services} `{Installer} `{Http} `{RegistryJSON}
  `{FirstConsole} (byName : string -> option net_iface).

Definition keys (p : panel) (k : key) : option (W unit) :=
  match network_keys p k with
  | Some h => Some h
  | None => match cluster_keys p k with
  | Some h => Some h
  | None => match hostname_keys p k with
  | Some h => Some h
  | None => match disk_keys p k with
  | Some h => Some h
  | None => page_keys p k
  end end end end.

(** The output of the script goes to the panel. *)
Definition doUpgrade : io unit :=
  output ← Exec ["/k3os/system/k3os/current/harvester-upgrade.sh"];
  for_each_io (fun l w => (Ok tt, log_event (EvPrint "upgrade" l) w)) (split_on newline output).
Definition reboot : io unit := run_command ["/usr/sbin/reboot"; "-f"].

Definition run_task (t : task) : W unit :=
  match t with
  | PingServer url => run_PingServer url
  | FetchSSHKeys url => run_FetchSSHKeys url
  | SetupNetwork fromPanel => run_SetupNetwork fromPanel
  | RequestVip hwAddr => run_RequestVip hwAddr
  | CheckNTP servers => run_CheckNTP servers
  | SetupDNS servers => run_SetupDNS servers
  | CheckConfig url => run_CheckConfig url
  | RunInstall => run_RunInstall byName
  | RunUpgrade => _ ← st_try (run_io doUpgrade); mret tt
  | SleepAndReboot => _ ← st_try (run_io reboot); mret tt
  end.

Inductive action : Set :=
| Press (k : key)
| Typed (text : string)
| Choose (values : list string)
| Finish (i : nat).

(** The focused element, if it is shown. *)
Definition focused (w : wizard) : option panel :=
  p ← wz_focus w; if el_open (wz_elements w p) then Some p else None.

Definition press (k : key) : W unit :=
  w ← st_get;
  match focused w with
  | Some p => match keys p k with Some h => h | None => mret tt end
  | None => mret tt
  end.
Definition typed (text : string) : W unit :=
  w ← st_get;
  match focused w with
  | Some p => match kind_of p with KInput => on_element p (set_el_data text) | _ => mret tt end
  | None => mret tt
  end.
(** In a drop-down the choice closes and shows the element again and runs the
    handler of ENTER. *)
Definition choose (values : list string) : W unit :=
  w ← st_get;
  match focused w with
  | None => mret tt
  | Some p =>
      opts ← st_lift (getOptions p w);
      match kind_of p, values with
      | KSelect, [v] => if bool_decide (v ∈ map op_Value opts) then on_element p (set_el_data v) else mret tt
      | KDropDown false, [v] =>
          if bool_decide (v ∈ map op_Value opts) then
            _ ← SetValue p v; _ ← ClosePanel p; _ ← Show p; press KeyEnter
          else mret tt
      | KDropDown true, _ =>
          let vs := filter (fun v => v ∈ values) (map op_Value opts) in
          _ ← on_element p (fun e => set_el_Value (join "," vs) (set_el_values vs e));
          _ ← ClosePanel p; _ ← Show p; press KeyEnter
      | _, _ => mret tt
      end
  end.
Definition finish (i : nat) : W unit :=
  w ← st_get;
  match wz_tasks w !! i with
  | Some t => _ ← st_modify (set_wz_tasks (delete i (wz_tasks w))); run_task t
  | None => mret tt
  end.

Definition act (a : action) : W unit :=
  match a with
  | Press k => press k
  | Typed text => typed text
  | Choose values => choose values
  | Finish i => finish i
  end.
Definition run (actions : list action) : W unit := st_for_each act actions.

(** ** The first page ([layoutInstall]) *)

(** [stat] and [file]: what looking for and reading the user data give. *)
Definition mergeCloudInit (stat : result unit) (file : result string) : W unit :=
  cloudConfig ← st_lift (readUserData load_config stat file);
  if in_Automatic (hc_Install cloudConfig) then
    _ ← merge_config cloudConfig;
    let os := hc_OS cloudConfig in
    _ ← (if bool_decide (os_Hostname os = "") then mret tt else on_os (set_os_Hostname (os_Hostname os)));
    if bool_decide (os_Password os = "") then mret tt else on_os (set_os_Password (os_Password os))
  else mret tt.

(** The page the installer starts with; [cmdline] is the configuration of the
    kernel command line.  When it cannot be merged there is no first page: what
    merging the user data gave is returned instead (the error of the merge is in
    a variable of an inner scope). *)
Definition first_panel (stat : result unit) (file : result string) (cmdline : result HarvesterConfig)
    : W (panel + result unit) :=
  w ← st_get;
  let initPanel := if bool_decide (wz_warnings w = []) then askCreatePanel else preflightCheckPanel in
  _ ← on_os (set_os_Modules ["kvm"; "vhost_net"]);
  err ← (if wz_alreadyInstalled w then st_try (mergeCloudInit stat file) else mret (Ok tt));
  w ← st_get;
  let initPanel := if wz_alreadyInstalled w && in_Automatic (install_of w) then installPanel else initPanel in
  match cmdline with
  | Ok cfg =>
      merged ← st_try (merge_config cfg);
      if negb (is_ok merged) then mret (inr err)
      else
        w ← st_get;
        if in_Automatic (hc_Install cfg) && isFirstConsoleTTY (getenv "TTY" w) arm64 (active_consoles (wz_world w)) then
          _ ← (if bool_decide (mode_of w = ModeInstall) && negb (wz_alreadyInstalled w)
               then st_modify (set_wz_installModeOnly true) else mret tt);
          mret (inl installPanel)
        else mret (inl initPanel)
  | Err _ => mret (inl initPanel)
  | Panic => st_lift Panic
  end.
Definition layoutInstall (stat : result unit) (file : result string) (cmdline : result HarvesterConfig) : W unit :=
  first ← first_panel stat file cmdline;
  match first with
  | inl initPanel =>
      w ← st_get;
      _ ← (if in_Automatic (install_of w) then mret tt else on_config (set_hc_SchemeVersion SchemeVersion));
      st_for_each Show [titlePanel; validatorPanel; notePanel; footerPanel; initPanel]
  | inr err => st_lift err
  end.
End wizard.
