(* ===== verification/Program.v ===== *)
(** * Program: the process ([main.go], [pkg/console/console.go])

    The console takes the terminal, opens its log, decides between the installer
    and the dashboard, and runs the main loop until a handler returns an error;
    [ErrQuit] is no failure.  [main] turns an error into the exit status.

    A session is a list of events of the main loop: the keys and goroutines of
    the installer or of the dashboard; Ctrl-C is bound only when [DEBUG] is set
    ([handle] for the installer, [setGlobalKeyBindings] for the dashboard).

    The terminal itself is not part of the state: [doRun] closes it in a
    deferred call, which a panic of another goroutine (the installation, the
    set-up of DNS) does not run. *)
From Stdlib Require Import ZArith Lia Ascii String.
From stdpp Require Import base tactics list gmap strings.
From S2P Require Import Prelude GoStrings Config Merge ConfigOps World NMConfig Mapper DiskOptions Validator Webhooks Preflight Network Install ConsoleUtil Gui Widgets Dashboard Console NetworkPage DiskPage Pages InstallPanel Wizard.
Local Open Scope Z_scope.

Definition env_value (name : string) (env : gmap string string) : string := default "" (env !! name).

(** [initLogs]: whether debugging is on, and the log; [open_log] is what
    [os.OpenFile] gives. *)
Definition initLogs (env : gmap string string) (open_log : string -> result unit) : result (bool * string) :=
  let debug := bool_decide (env_value "DEBUG" env = "true") in
  let logFilePath := if bool_decide (env_value "LOGFILE" env <> "") then env_value "LOGFILE" env else defaultLogFilePath in
  _ ← open_log logFilePath; Ok (debug, logFilePath).

(** ** The main loop *)

(** [quit], bound to Ctrl-C by [setGlobalKeyBindings]. *)
Definition quit {S} : st S unit := st_fail ErrQuit.
Definition ctrl_c {S} (debug : bool) : st S unit := if debug then quit else mret tt.

(** An event that a layout handles, or Ctrl-C. *)
Inductive event_of (A : Type) : Type := Handled (a : A) | CtrlC.
Arguments Handled {A} a.
Arguments CtrlC {A}.
Definition handle {S A} (act : A -> st S unit) (debug : bool) (e : event_of A) : st S unit :=
  match e with Handled a => act a | CtrlC => ctrl_c debug end.

(** The loop waits for the next event, or has ended. *)
Inductive outcome : Type := Waiting | Ended (r : result unit).
(** The end of [doRun]: [ErrQuit] is no error. *)
Definition ended (r : result unit) : outcome :=
  match r with
  | Ok _ => Waiting
  | Err e => Ended (if bool_decide (e = ErrQuit) then Ok tt else Err e)
  | Panic => Ended Panic
  end.

(** What the process was doing when the events were over. *)
Inductive session : Type :=
| Nothing
| InSetup (w : wizard)
| InDashboard (d : dash).
Record process : Type := mkProcess {
  pc_outcome : outcome;
  pc_session : session
}.

(** What the kernel command line, the user data and the size of the terminal are. *)
Record boot : Type := mkBoot {
  bt_env : gmap string string;
  bt_stat : result unit;                     (* the user data *)
  bt_file : result string;
  bt_cmdline : result HarvesterConfig;       (* config.ReadConfig *)
  bt_size : Z * Z;
  bt_ifs : netifs
}.

Section program.
Context `{Host} `{Netlink} `{VipHost} `{Web} `{Ntp} `{Surroundings} `{Services} `{Installer} `{Http} `{RegistryJSON}
  `{FirstConsole} `{Node} (byName : string -> option net_iface) (LoadHarvesterConfig : string -> result HarvesterConfig).

Definition setup_session (b : boot) (debug : bool) (events : list (event_of action)) : W unit :=
  _ ← Wizard.layoutInstall (bt_stat b) (bt_file b) (bt_cmdline b);
  st_for_each (handle (act byName) debug) events.

(** [doRun]: what is decided before the main loop, and the loop. *)
Definition start_of (b : boot) (c : HarvesterConfig) (w : world) : result start * world :=
  let hd := bt_env b !! "HARVESTER_DASHBOARD" in
  let '(cfg, w) := (if bool_decide (hd = Some "true")
                    then getHarvesterConfig LoadHarvesterConfig c w else (Ok c, w)) in
  (doRun_start hd cfg c probe, w).
Definition setup_wizard (b : boot) (s : start) (w : world) : wizard :=
  initial_wizard (st_config s) (st_alreadyInstalled s) (st_warnings s) (bt_env b) w (bt_ifs b).
Definition doRun (b : boot) (debug : bool) (c : HarvesterConfig) (w : world)
    (setup : list (event_of action)) (dashboard : list choice) : process :=
  match start_of b c w with
  | (Err e, _) => mkProcess (Ended (Err e)) Nothing
  | (Panic, _) => mkProcess (Ended Panic) Nothing
  | (Ok s, w) =>
      match st_layout s with
      | Preflight.layoutInstall =>
          let '(r, z) := setup_session b debug setup (setup_wizard b s w) in
          mkProcess (ended r) (InSetup z)
      | Preflight.layoutDashboard =>
          let '(r, d) := dashboard_session debug dashboard (start_dash (fst (bt_size b)) (snd (bt_size b)) w) in
          mkProcess (ended r) (InDashboard d)
      end
  end.

(** [NewConsole] takes the terminal. *)
Definition NewConsole (NewGui : result unit) : result HarvesterConfig := _ ← NewGui; Ok NewHarvesterConfig.
(** [RunConsole]: the terminal is taken before the log is opened. *)
Definition RunConsole (NewGui : result unit) (open_log : string -> result unit) (b : boot) (w : world)
    (setup : list (event_of action)) (dashboard : list choice) : process :=
  match NewConsole NewGui with
  | Err e => mkProcess (Ended (Err e)) Nothing
  | Panic => mkProcess (Ended Panic) Nothing
  | Ok c =>
      match initLogs (bt_env b) open_log with
      | Err e => mkProcess (Ended (Err e)) Nothing
      | Panic => mkProcess (Ended Panic) Nothing
      | Ok (debug, _) => doRun b debug c w setup dashboard
      end
  end.

(** ** The command line of the program ([main.go])

    The flags of [generate-network-config] have defaults; cli parses them. *)
Inductive invocation : Set :=
| RunInstaller
| GenerateNetworkConfig (configFile connectionPath : option string) (force : bool).

(** The exit status: 1 after [log.Fatalf], 2 after a panic. *)
Definition exit_status (r : result unit) : Z := match r with Ok _ => 0 | Err _ => 1 | Panic => 2 end.
(** None while the main loop waits. *)
Definition main (cmd : invocation) (NewGui : result unit) (open_log : string -> result unit) (b : boot) (w : world)
    (setup : list (event_of action)) (dashboard : list choice) : option Z :=
  match cmd with
  | RunInstaller =>
      match pc_outcome (RunConsole NewGui open_log b w setup dashboard) with
      | Waiting => None
      | Ended r => Some (exit_status r)
      end
  | GenerateNetworkConfig configFile connectionPath force =>
      Some (exit_status (fst (generateNetworkConfig LoadHarvesterConfig (default "/oem/harvester.config" configFile)
                                (default NMConnectionPath connectionPath) force w)))
  end.
End program.
