(* ===== verification/Demo.v ===== *)
(** * Demo: a concrete machine

    An instance of every interface of the console: a machine with two network
    interfaces and one disk of 500 GiB, whose host, network and services answer.
    The examples and witnesses of the wizard run on it. *)
From Stdlib Require Import ZArith Ascii String.
From stdpp Require Import base tactics list gmap strings.
From S2P Require Import Prelude GoStrings GoNum GoNet Config Merge ConfigOps World NMConfig DiskSize Cos Mapper DiskOptions Validator Webhooks Preflight Network Install ConsoleUtil Console NetworkPage DiskPage Pages InstallPanel Wizard.
Local Open Scope Z_scope.

Module Demo.
#[export] Instance host : Host := ideal_host.
#[export] Instance netlink : Netlink := demo_netlink.
#[export] Instance vip : VipHost := demo_vip (Ok [10; 0; 0; 7]).
#[export] Instance net : Web := fun log url => Reply 200 (Ok "pong").
#[export] Instance ntp : Ntp := {| LookupIP h := Ok [h]; ntp_exchange a := None |}.
Definition disks : DiskOptionsCache := mkCache [mkOption "/dev/sda" "sda 500G"] [].
Definition the_machine : Machine :=
  mkMachine (Ok [mkIface "eth0" [2;0;0;0;0;1] false]) (fun _ => Ok false) Ok (Ok disks) (fun _ => Ok (500 * 2 ^ 30)) (fun _ => Ok "536870912000") false false.
#[export] Instance surroundings : Surroundings := {|
  machine _ := the_machine;
  probe := {| pr_exec _ := ("", None); pr_read _ := Ok "1000"; pr_stat _ := None |};
  visit_nics := fun m => map snd (map_to_list m);
  oper_state _ := "up"; kernel_hostname _ := Ok "rancher"; random_string _ := "abcde";
  encode_install _ := Ok []; marshal _ := Ok ""; program_version := "v1.4.0";
  Console.err_text _ := "error"
|}.
#[export] Instance services : Services := {|
  user_exists _ _ := true; yaml_password u h := Ok (u +:+ ":" +:+ h); live_file _ := Ok "/tmp/live.1";
  GetEncryptedPasswd _ p := Ok ("$6$" +:+ p); ParseAuthorizedKey k := negb (bool_decide (k = ""));
  load_config _ := Err (EMsg "no configuration"); ini_set_ntp f s := Ok (f +:+ "NTP=" +:+ s)
|}.
#[export] Instance installer : Installer := demo_installer.
#[export] Instance http : Http := demo_http.
#[export] Instance registries : RegistryJSON := fun _ => true.
#[export] Instance console : FirstConsole := {| arm64 := false; active_consoles _ := Ok "tty1" |}.

Definition byName (name : string) : option net_iface := None.
(** The installer as it starts, with the configuration [c]. *)
Definition start (c : HarvesterConfig) : wizard := initial_wizard c false [] ∅ demo_world demo_ifs.
End Demo.
