(* ===== verification/NetworkProofs.v ===== *)
(** * NetworkProofs: the network page only applies checked values *)
From Stdlib Require Import ZArith Lia Ascii String.
From stdpp Require Import base tactics list gmap strings.
From S2P Require Import Prelude GoStrings GoNum GoNet Config ConfigOps World NMConfig DiskOptions Validator Webhooks Network Install ConsoleUtil Console Frames NetworkPage DiskPage Pages InstallPanel Wizard Demo.
Local Open Scope Z_scope.

(** ** Masks *)

Lemma mask_byte_bound b k : mask_byte b = Some k -> 0 <= k <= 7.
Proof.
  unfold mask_byte. intros E. repeat match goal with H : match ?x with _ => _ end = _ |- _ => destruct x; try discriminate end;
  injection E as <-; lia.
Qed.

Lemma simpleMaskLength_bound m n k : simpleMaskLength m n = Some k -> n <= k <= n + 8 * Z.of_nat (length m).
Proof.
  revert n. induction m as [|b m IH]; intros n; cbn [simpleMaskLength length]; [intros [= <-]; lia|].
  destruct (b =? 255); [intros ?%IH; lia|].
  destruct (mask_byte b) as [j|] eqn:E; cbn; [|done]. apply mask_byte_bound in E.
  destruct (forallb _ _); [intros [= <-]; lia|done].
Qed.

Lemma parse_octets_length s parts i m : parse_octets s i parts = Ok m -> length m = length parts.
Proof.
  revert i m. induction parts as [|x parts IH]; intros i m; cbn [parse_octets]; [by intros [= <-]|].
  intros Hm. inv_ok. cbn. by f_equal; eapply IH.
Qed.

Definition prefix_mask (n : Z) : string := dotted (CIDRMask n).
Definition prefix_ok (n : Z) : bool := bool_decide (ParseMask (prefix_mask n) = Ok (CIDRMask n)).
Lemma prefix_range : forallb prefix_ok (Zrange 0 33) = true.
Proof. vm_refl. Qed.

Lemma ParseMask_is_prefix s m : ParseMask s = Ok m -> exists n, 0 <= n <= 32 /\ m = CIDRMask n.
Proof.
  intros Hm. unfold ParseMask in Hm. inv_ok.
  match goal with H : negb (isValidMaskFormat _) = false |- _ => apply negb_false_iff, bool_decide_eq_true in H; rename H into Hv end.
  match goal with H : parse_octets _ _ _ = Ok _ |- _ => apply parse_octets_length in H; rename H into Hl end.
  match goal with H : negb _ = false |- _ => apply negb_false_iff, bool_decide_eq_true in H; rewrite H in Hl end.
  eexists. split; [|exact Hv]. unfold mask_Size. destruct (simpleMaskLength m 0) as [k|] eqn:E; cbn [fst]; [|lia].
  apply simpleMaskLength_bound in E. rewrite Hl in E. lia.
Qed.

(** A mask entered in the wizard is accepted only if it is the mask of a
    prefix length between 0 and 32, and the mask of every such length is
    accepted as it is written. *)
Theorem ParseMask_prefix :
  (forall s m, ParseMask s = Ok m -> exists n, 0 <= n <= 32 /\ m = CIDRMask n) /\
  (forall n, 0 <= n <= 32 -> ParseMask (dotted (CIDRMask n)) = Ok (CIDRMask n)).
Proof.
  split; [exact ParseMask_is_prefix|]. intros n Hn.
  assert (Hc : prefix_ok n = true) by (apply (Zrange_check _ _ _ prefix_range); lia).
  by apply bool_decide_eq_true in Hc.
Qed.

(** ** What a field may be left with *)

Definition mtu_ok (n : Network) : Prop := nw_MTU n = 0 \/ 576 <= nw_MTU n <= 9000.
Definition vlan_ok (n : Network) : Prop := 0 <= nw_VlanID n <= 4094.
(** The printed form of an address that was parsed. *)
Definition ip_ok (n : Network) : Prop :=
  exists s a, nw_IP n = ip_string a /\ (ParseIP s = Some a \/ exists ones, ParseCIDR s = Ok (a, ones)).
(** What is in the field of the mask can be changed after it was filled in from
    the address, but only to a mask. *)
Definition mask_ok (n : Network) : Prop := exists k, 0 <= k <= 32 /\ nw_SubnetMask n = dotted (CIDRMask k).
Definition gateway_ok (n : Network) : Prop := checkIP (nw_Gateway n) = Ok tt.

(** The fields of the page, and those of the static method in their order. *)
Definition fields : list panel :=
  [askInterfacePanel; askVlanIDPanel; askBondModePanel; askNetworkMethodPanel; addressPanel; addrMaskPanel; gatewayPanel; mtuPanel].

(** The place of a field, the static ones from 4 on. *)
Definition place (p : panel) : Z :=
  match p with
  | askVlanIDPanel => 1 | askBondModePanel => 2 | askNetworkMethodPanel => 3
  | addressPanel => 4 | addrMaskPanel => 5 | gatewayPanel => 6 | mtuPanel => 7
  | _ => 0
  end.
(** What holds of the network when the focus is on a field. *)
Record chain_ok (p : panel) (n : Network) : Prop := {
  ch_vlan : vlan_ok n;
  ch_mtu : mtu_ok n;
  ch_interfaces : 0 < place p -> nw_Interfaces n <> [];
  ch_static : 3 < place p -> nw_Method n = NetworkMethodStatic;
  ch_ip : 4 < place p -> ip_ok n;
  ch_mask : 5 < place p -> mask_ok n;
  ch_gateway : 6 < place p -> gateway_ok n
}.

Definition core (n : Network) :=
  (nw_Interfaces n, nw_Method n, nw_IP n, nw_SubnetMask n, nw_Gateway n, nw_MTU n, nw_VlanID n).
Definition core_of (w : wizard) := core (wz_mgmt w).
#[export] Instance core_ui : UiFrame (keep core_of) := keep_ui core_of (fun _ _ => eq_refl).

Lemma chain_core p n n' : core n' = core n -> chain_ok p n -> chain_ok p n'.
Proof.
  unfold core. intros E [? ? ? ? ? ? ?]. injection E as E1 E2 E3 E4 E5 E6 E7.
  split; unfold vlan_ok, mtu_ok, ip_ok, mask_ok, gateway_ok in *;
  rewrite ?E1, ?E2, ?E3, ?E4, ?E5, ?E6, ?E7; assumption.
Qed.

(** The mask of any number of ones is that of a prefix length. *)
Lemma CIDRMask_clamp k : CIDRMask k = CIDRMask (Z.max 0 (Z.min 32 k)).
Proof.
  assert (E : forall i, 0 <= i <= 3 -> Z.max 0 (Z.min 8 (k - 8 * i)) = Z.max 0 (Z.min 8 (Z.max 0 (Z.min 32 k) - 8 * i))) by lia.
  unfold CIDRMask. cbn [map]. by rewrite (E 0), (E 1), (E 2), (E 3) by lia.
Qed.

Definition setup_of (t : task) : option panel := match t with SetupNetwork q => Some q | _ => None end.
Definition pending (w : wizard) : list panel := omap setup_of (wz_tasks w).
#[export] Instance pending_ui : UiFrame (keep pending) := keep_ui pending (fun _ _ => eq_refl).

Section proofs.
Context `{Host} `{Netlink} `{VipHost} `{Web} `{Ntp} `{Surroundings} `{Services} `{Installer} `{Http} `{RegistryJSON}
  `{FirstConsole} (byName : string -> option net_iface).

Lemma fields_frame {T} (proj : wizard -> T) `{!UiFrame (keep proj)} ps :
  (forall p, leaf (keep proj) (set_wz_focus p)) ->
  leaf (keep proj) (fun w => set_wz_mgmt (set_nw_BondOptions (Some default_bond_options) (wz_mgmt w)) w) ->
  (forall p, p ∈ ps -> p ∈ fields) -> frame (keep proj) (showNext ps).
Proof.
  intros Hf Hb Hps. apply frame_showNext; [exact _|]. intros p Hp. apply Hps in Hp. split.
  - intros _. apply Hf.
  - intros ->. set_solver.
  - intros _. exact Hb.
  - intros ->. set_solver.
  - intros ->. set_solver.
  - intros ->. set_solver.
Qed.
Lemma showNext_core ps : (forall p, p ∈ ps -> p ∈ fields) -> frame (keep core_of) (showNext ps).
Proof. apply fields_frame; [exact _|intros p w; reflexivity|intros w; reflexivity]. Qed.
Lemma showNext_pending ps : (forall p, p ∈ ps -> p ∈ fields) -> frame (keep pending) (showNext ps).
Proof. apply fields_frame; [exact _|intros p w; reflexivity|intros w; reflexivity]. Qed.

Lemma frame_note (R : relation wizard) `{!UiFrame R} : frame R showBondNote.
Proof.
  apply frame_bind; [exact _|by apply frame_element|]. intros _. apply frame_bind; [exact _|by apply frame_element|]. intros _.
  apply frame_bind; [exact _|apply frame_get; exact _|]. intros w. by apply frame_setContentByName.
Qed.
Lemma frame_message (R : relation wizard) `{!UiFrame R} msg : frame R (updateValidatorMessage msg).
Proof.
  apply frame_bind; [exact _|by apply frame_element|]. intros _. apply frame_bind; [exact _|by apply frame_element|]. intros _.
  by apply frame_setContentByName.
Qed.

(** ** One field to the next *)

Definition field_inv (p : panel) (w : wizard) : Prop := wz_focus w = Some p /\ pending w = [] /\ chain_ok p (wz_mgmt w).
(** A hook of field [p] that lets the focus go to field [q]. *)
Definition hook_ok (p q : panel) (m : W string) : Prop := forall w msg w1,
  m w = (Ok msg, w1) -> field_inv p w -> field_inv p w1 /\ (msg = "" -> chain_ok q (wz_mgmt w1)).

Lemma inv_frame p m w w' : frame (keep wz_focus) m -> frame (keep pending) m -> frame (keep core_of) m ->
  m w = (Ok tt, w') -> field_inv p w -> field_inv p w'.
Proof.
  intros F1 F2 F3 E (Hf & Hp & Hc). apply (frame_ok _ _ _ _ _ F1) in E as E1. apply (frame_ok _ _ _ _ _ F2) in E as E2.
  apply (frame_ok _ _ _ _ _ F3) in E as E3. split_and!; [by rewrite E1|by rewrite E2|].
  by apply (chain_core p (wz_mgmt w)).
Qed.

Lemma landing ps q w w' :
  showNext (ps ++ [q]) w = (Ok tt, w') -> takes_focus q = true -> (forall x, x ∈ ps ++ [q] -> x ∈ fields) ->
  pending w = [] -> chain_ok q (wz_mgmt w) -> field_inv q w'.
Proof.
  intros E Hq Hps Hp Hc. split_and!.
  - by apply showNext_focus in E.
  - by rewrite (frame_ok _ _ _ _ _ (showNext_pending _ Hps) E).
  - apply (chain_core q (wz_mgmt w)); [|done]. exact (frame_ok _ _ _ _ _ (showNext_core _ Hps) E).
Qed.

Lemma goto_ok p q hooks w w' :
  takes_focus q = true -> q ∈ fields -> hook_ok p q (run_hooks hooks) ->
  gotoNextPanel [q] hooks w = (Ok tt, w') -> field_inv p w -> field_inv p w' \/ field_inv q w'.
Proof.
  intros Hq Hin Hh (? & w0 & Hc & (msg & w1 & Hr & Hs)%st_bind_ok)%st_bind_ok Hi. destruct x.
  apply (inv_frame p _ _ _ ltac:(apply frame_CloseElement; exact _) ltac:(apply frame_CloseElement; exact _)
    ltac:(apply frame_CloseElement; exact _) Hc) in Hi.
  destruct (Hh _ _ _ Hr Hi) as [Hi1 Hq1]. case_bool_decide as Hm.
  - right. apply st_bind_ok in Hs as ([] & w2 & Hn & Hs).
    apply (inv_frame p _ _ _ ltac:(apply frame_note; exact _) ltac:(apply frame_note; exact _) ltac:(apply frame_note; exact _) Hn) in Hi1 as Hi2.
    assert (Hq2 : chain_ok q (wz_mgmt w2)).
    { apply (chain_core q (wz_mgmt w1)); [|by apply Hq1]. apply (frame_ok _ _ _ _ _ (frame_note (keep core_of)) Hn). }
    apply (landing [] q w2); [done..| |apply Hi2|done]. by intros x ->%list_elem_of_singleton.
  - left. by apply (inv_frame p _ _ _ ltac:(apply frame_message; exact _) ltac:(apply frame_message; exact _)
      ltac:(apply frame_message; exact _) Hs).
Qed.

(** ** The hooks *)

Lemma GetData_ok p w d w1 : GetData p w = (Ok d, w1) -> w1 = w.
Proof.
  intros (e & w0 & [= <- <-] & E)%st_bind_ok. destruct (kind_of p); try destruct (el_open _); by injection E.
Qed.

(** An error has a text. *)
Hypothesis text_nonempty : forall e, err_text e <> "".

Lemma check_ok (r : result unit) k w msg w1 : check r k w = (Ok msg, w1) ->
  (msg <> "" /\ w1 = w) \/ (r = Ok tt /\ k w = (Ok msg, w1)).
Proof.
  destruct r as [[]|e|]; cbn [check]; [by right| |done]. intros [<- <-]%st_ret_ok. left. split; [apply text_nonempty|done].
Qed.

(** A hook that only assigns to the network, and only good values. *)
Lemma hook_intro p q m :
  (forall w msg w1, m w = (Ok msg, w1) -> chain_ok p (wz_mgmt w) ->
    wz_focus w1 = wz_focus w /\ wz_tasks w1 = wz_tasks w /\ chain_ok p (wz_mgmt w1) /\ (msg = "" -> chain_ok q (wz_mgmt w1))) ->
  hook_ok p q (run_hooks [m]).
Proof.
  intros Hm w msg w1 (msg' & w2 & E & Hr)%st_bind_ok (Hf & Hp & Hc).
  destruct (Hm _ _ _ E Hc) as (E1 & E2 & Hc1 & Hq).
  assert (Hi : field_inv p w2) by (split_and!; [by rewrite E1|unfold pending; by rewrite E2|done]).
  revert Hr. case_bool_decide as Hx.
  - intros [<- <-]%st_ret_ok. split; [done|]. intros _. by apply Hq.
  - intros [<- <-]%st_ret_ok. done.
Qed.
Lemma hook_none p q : (forall n, chain_ok p n -> chain_ok q n) -> hook_ok p q (run_hooks []).
Proof. intros Hpq w msg w1 [<- <-]%st_ret_ok Hi. split; [done|]. intros _. apply Hpq, Hi. Qed.

(** The fields of [chain_ok] after one assignment. *)
Ltac chain_ok_tac :=
  match goal with Hc : chain_ok _ _ |- chain_ok _ _ =>
    let a := fresh in let b := fresh in let c := fresh in let d := fresh in let e := fresh in let f := fresh in let g := fresh in
    destruct Hc as [a b c d e f g];
    split; unfold vlan_ok, mtu_ok, ip_ok, mask_ok, gateway_ok in *; cbn in *; intros;
    first [assumption | reflexivity | lia | apply c; lia | apply d; lia | apply e; lia | apply f; lia | apply g; lia]
  end.
Lemma app_nonempty_r (a b : string) : b <> "" -> a +:+ b <> "".
Proof. destruct a; [done|]. intros _ E. discriminate E. Qed.
Ltac no_message :=
  let H := fresh in intros H; exfalso;
  first [discriminate H | (revert H; assumption) | apply app_nonempty_r in H; [done|discriminate]].
Ltac hook_done := split_and!; [done|done|chain_ok_tac|first [no_message | intros; chain_ok_tac]].
Ltac st_step E :=
  first
    [ apply st_ret_ok in E as [<- <-]
    | let d := fresh "d" in let w0 := fresh "w0" in let Eg := fresh "Eg" in
      apply st_bind_ok in E as (d & w0 & Eg & E);
      first [ apply GetData_ok in Eg; subst w0
            | (unfold on_mgmt, on_input, st_modify in Eg; injection Eg as <- <-)
            | (unfold st_get in Eg; injection Eg as <- <-) ] ].
Ltac st_steps E := repeat st_step E.

Lemma hook_vlan q : q = askInterfacePanel \/ q = askBondModePanel -> hook_ok askVlanIDPanel q (run_hooks [validateVlanID]).
Proof.
  intros Hq. apply hook_intro. intros w msg w1 E Hc. unfold validateVlanID in E. st_step E. case_bool_decide.
  - st_steps E. destruct Hq as [-> | ->]; hook_done.
  - destruct (atoi d) as [v| |]; [|st_step E; hook_done..]. destruct (_ || _) eqn:Hv; [st_step E; hook_done|].
    st_steps E. apply orb_false_iff in Hv as [Hv1%Z.ltb_ge Hv2%Z.ltb_ge]. destruct Hq as [-> | ->]; hook_done.
Qed.

Lemma hook_address : hook_ok addressPanel addrMaskPanel (run_hooks [validateAddress]).
Proof.
  apply hook_intro. intros w msg w1 E Hc. unfold validateAddress in E. st_step E.
  apply check_ok in E as [[Hm ->]|[_ E]]; [hook_done|]. st_step E.
  assert (Hno : forall a, ParseIP d = Some a ->
    exists s a0, ip_string a = ip_string a0 /\ (ParseIP s = Some a0 \/ exists o, ParseCIDR s = Ok (a0, o))) by eauto 6.
  destruct (ParseCIDR d) as [[a ones]| |] eqn:Ec.
  - st_steps E.
    assert (Hip : exists s a0, ip_string a = ip_string a0 /\ (ParseIP s = Some a0 \/ (exists o, ParseCIDR s = Ok (a0, o)))) by eauto 6.
    hook_done.
  - destruct (ParseIP d) as [a|] eqn:Ei; [|st_step E; hook_done]. st_steps E. specialize (Hno _ eq_refl). hook_done.
  - destruct (ParseIP d) as [a|] eqn:Ei; [|st_step E; hook_done]. st_steps E. specialize (Hno _ eq_refl). hook_done.
Qed.

Lemma hook_mask : hook_ok addrMaskPanel gatewayPanel (run_hooks [validateAddrMask]).
Proof.
  apply hook_intro. intros w msg w1 E Hc. unfold validateAddrMask in E. st_step E.
  apply check_ok in E as [[Hm ->]|[_ E]]; [hook_done|].
  destruct (ParseMask d) as [m|e|] eqn:Em; [|st_step E; pose proof (text_nonempty e); hook_done|done].
  apply ParseMask_is_prefix in Em as (k & Hk & ->). st_steps E.
  assert (Hmask : exists j, 0 <= j <= 32 /\ dotted (CIDRMask k) = dotted (CIDRMask j)) by eauto.
  hook_done.
Qed.

Lemma hook_gateway : hook_ok gatewayPanel mtuPanel (run_hooks [validateGateway]).
Proof.
  apply hook_intro. intros w msg w1 E Hc. unfold validateGateway in E. st_step E.
  apply check_ok in E as [[Hm ->]|[_ E]]; [hook_done|]. apply check_ok in E as [[Hm ->]|[Hg E]]; [hook_done|].
  st_steps E. hook_done.
Qed.

Lemma checkMTU_range n : checkMTU n = Ok tt -> n = 0 \/ 576 <= n <= 9000.
Proof.
  unfold checkMTU. destruct (Z.eqb_spec n 0) as [->|_]; [by left|]. destruct (_ || _) eqn:E; [discriminate|].
  apply orb_false_iff in E as [Hv1%Z.ltb_ge Hv2%Z.ltb_ge]. right. lia.
Qed.
Lemma validateMTU_ok q w msg w1 : validateMTU w = (Ok msg, w1) -> chain_ok mtuPanel (wz_mgmt w) ->
  q = gatewayPanel \/ q = mtuPanel ->
  wz_focus w1 = wz_focus w /\ wz_tasks w1 = wz_tasks w /\ chain_ok mtuPanel (wz_mgmt w1) /\ (msg = "" -> chain_ok q (wz_mgmt w1)).
Proof.
  intros E Hc Hq. unfold validateMTU in E. st_step E. destruct (if bool_decide _ then _ else _) as [mtu| |]; [|st_step E; destruct Hq as [-> | ->]; hook_done..].
  apply check_ok in E as [[Hm ->]|[Hg E]]; [destruct Hq as [-> | ->]; hook_done|]. apply checkMTU_range in Hg.
  st_steps E. destruct Hq as [-> | ->]; hook_done.
Qed.

Lemma select_interface_ok iface w r w1 : select_interface iface w = (Ok r, w1) -> w1 = w /\ r <> inl "".
Proof.
  unfold select_interface. intros E. st_step E. destruct (getNICState _ _); try (st_step E; done).
  apply st_bind_ok in E as (? & w3 & E3 & E). unfold st_lift in E3. injection E3 as _ <-. by st_step E.
Qed.
Lemma select_interfaces_ok ifaces w r w1 : select_interfaces ifaces w = (Ok r, w1) ->
  w1 = w /\ match r with inl msg => msg <> "" | inr l => length l = length ifaces end.
Proof.
  revert w r w1. induction ifaces as [|i ifaces IH]; intros w r w1 E; cbn [select_interfaces] in E; [by st_step E|].
  apply st_bind_ok in E as (x & w2 & [-> Hx]%select_interface_ok & E).
  destruct x as [m|n]; [st_step E; split; [done|congruence]|].
  apply st_bind_ok in E as (rs & w2 & [-> Hl]%IH & E). st_step E. destruct rs as [m|rs]; [done|]. cbn. by rewrite Hl.
Qed.
Lemma hook_interface : hook_ok askInterfacePanel askVlanIDPanel (run_hooks [validateInterface]).
Proof.
  apply hook_intro. intros w msg w1 E Hc. unfold validateInterface in E. apply st_bind_ok in E as (ifaces & w0 & Eg & E).
  assert (w0 = w) as -> by (apply st_bind_ok in Eg as (? & ? & [= <- <-] & Eg); by st_step Eg).
  case_bool_decide as Hi; [st_step E; hook_done|]. apply st_bind_ok in E as (r & w0 & [-> Hl]%select_interfaces_ok & E).
  destruct r as [m|l]; [st_step E; hook_done|]. assert (l <> []) by (by intros ->; destruct ifaces).
  st_steps E. hook_done.
Qed.

(** Going up from a field of the static method. *)
Lemma hook_keep_text p q store :
  (p, q) ∈ [(addressPanel, askNetworkMethodPanel); (addrMaskPanel, addressPanel); (gatewayPanel, addrMaskPanel)] ->
  store = (fun v => on_input (set_ui_Address v)) \/ store = (fun v => on_input (set_ui_AddrMask v)) \/
  (p = gatewayPanel /\ store = (fun v => on_mgmt (set_nw_Gateway v))) ->
  hook_ok p q (run_hooks [keep_text p store]).
Proof.
  intros Hpq Hs. assert (Hq : (p = addressPanel /\ q = askNetworkMethodPanel) \/ (p = addrMaskPanel /\ q = addressPanel) \/
    (p = gatewayPanel /\ q = addrMaskPanel)) by set_solver. clear Hpq.
  apply hook_intro. intros w msg w1 E Hc. unfold keep_text in E. st_step E.
  destruct Hq as [[-> ->]|[[-> ->]|[-> ->]]], Hs as [->|[->|[? ->]]]; try discriminate; st_steps E; hook_done.
Qed.

(** ** The states of the page *)

(** What is applied. *)
Record applicable (n : Network) : Prop := {
  ap_interfaces : nw_Interfaces n <> [];
  ap_vlan : vlan_ok n;
  ap_mtu : mtu_ok n;
  ap_static : nw_Method n = NetworkMethodStatic -> ip_ok n /\ mask_ok n /\ gateway_ok n
}.

(** The goroutine started from field [p] is running. *)
Definition waiting (p : panel) (w : wizard) : Prop :=
  wz_focus w = Some networkValidatorPanel /\ pending w = [p] /\ chain_ok p (wz_mgmt w) /\ applicable (wz_mgmt w) /\
  ((p = askNetworkMethodPanel /\ nw_Method (wz_mgmt w) <> NetworkMethodStatic) \/ p = mtuPanel).
Definition on_page (w : wizard) : Prop := exists p, wz_focus w = Some p /\ p ∈ networkValidatorPanel :: fields.
Definition page_inv (w : wizard) : Prop := (exists p, p ∈ fields /\ field_inv p w) \/ (exists p, waiting p w).

Lemma chain_weaken p q n : place q <= place p -> chain_ok p n -> chain_ok q n.
Proof.
  intros Hp [a b c d e f g]. split; [assumption|assumption|..]; intros Hq;
  first [apply c | apply d | apply e | apply f | apply g]; lia.
Qed.

Lemma go_ok p w w' :
  gotoNextPage p w = (Ok tt, w') -> pending w = [] -> chain_ok p (wz_mgmt w) -> applicable (wz_mgmt w) ->
  (p = askNetworkMethodPanel /\ nw_Method (wz_mgmt w) <> NetworkMethodStatic) \/ p = mtuPanel -> waiting p w'.
Proof.
  intros (u & w1 & Hs & (u2 & w2 & Hf & Hg)%st_bind_ok)%st_bind_ok Hp Hc Ha Hm.
  pose proof (frame_ok (keep wz_mgmt) _ _ _ _ ltac:(by apply frame_ShowPanel; [exact _|]) Hs) as E1.
  pose proof (frame_ok (keep wz_tasks) _ _ _ _ ltac:(by apply frame_ShowPanel; [exact _|]) Hs) as E2.
  unfold keep in E1, E2. unfold SetCurrentView, st_modify in Hf. injection Hf as _ <-.
  unfold go, st_modify in Hg. injection Hg as <-. cbn.
  split_and!; cbn; rewrite ?E1; try done. unfold pending in *. cbn. rewrite E2, omap_app, Hp. done.
Qed.
(** *** Applying *)

Lemma frame_or_message {A} (R : relation wizard) `{!PreOrder R} what (r : result A) k :
  (forall a, frame R (k a)) -> frame R (or_message what r k).
Proof. intros Hk. destruct r; [apply Hk|apply frame_ret; exact _|apply frame_lift; exact _]. Qed.
Lemma frame_check_route (R : relation wizard) `{!PreOrder R} : frame R check_route.
Proof.
  apply frame_bind; [exact _|apply frame_get; exact _|]. intros w.
  destruct (checkDefaultRoute _); first [apply frame_ret; exact _ | apply frame_lift; exact _].
Qed.
Lemma frame_preGotoNextPage (R : relation wizard) `{!PreOrder R} :
  (forall w0, leaf R (set_wz_world w0)) ->
  (forall n, leaf R (fun w => set_wz_config (set_hc_Install (set_in_ManagementInterface n (install_of w)) (wz_config w)) w)) ->
  leaf R (fun w => set_wz_input (set_ui_Address "" (wz_input w)) w) ->
  leaf R (fun w => set_wz_mgmt (set_nw_MTU 0 (set_nw_Gateway "" (set_nw_SubnetMask "" (set_nw_IP "" (wz_mgmt w))))) w) ->
  frame R preGotoNextPage.
Proof.
  intros Lw Li La Lm. apply frame_bind; [exact _| |].
  { apply frame_try. apply frame_bind; [exact _|apply frame_get; exact _|]. intros w. by apply frame_run_io. }
  intros r. apply frame_or_message; [exact _|]. intros _. apply frame_bind; [exact _|apply frame_get; exact _|]. intros w.
  apply frame_bind; [exact _|apply frame_modify, Li|]. intros _. case_bool_decide; [|by apply frame_check_route].
  apply frame_or_message; [exact _|]. intros _. apply frame_bind; [exact _| |intros _; by apply frame_check_route].
  apply frame_bind; [exact _|by apply frame_modify|]. intros _. by apply frame_modify.
Qed.
Lemma check_route_ok w msg w1 : check_route w = (Ok msg, w1) -> w1 = w.
Proof.
  intros E. st_step E. destruct (checkDefaultRoute _); [by st_step E..|done].
Qed.
(** Whatever the outcome, the field that started it may have the focus again. *)
Lemma preGotoNextPage_chain p w msg w1 : preGotoNextPage w = (Ok msg, w1) -> chain_ok p (wz_mgmt w) ->
  nw_Method (wz_mgmt w) = NetworkMethodStatic \/ p = askNetworkMethodPanel -> chain_ok p (wz_mgmt w1).
Proof.
  intros E Hc Hm. apply st_bind_ok in E as (r & w2 & Ht & E).
  assert (Hw : wz_mgmt w2 = wz_mgmt w).
  { refine (frame_ok (keep wz_mgmt) _ _ _ _ _ Ht). apply frame_try. apply frame_bind; [exact _|apply frame_get; exact _|].
    intros v. apply frame_run_io. by intros ? ?. }
  unfold or_message in E. destruct r as [u|e|]; [|st_step E; by rewrite Hw|done].
  apply st_bind_ok in E as (v & w3 & Ev & E). unfold st_get in Ev. injection Ev as <- <-.
  apply st_bind_ok in E as ([] & w3 & Ev & E). unfold on_install, on_config, st_modify in Ev. injection Ev as <-.
  rewrite Hw in E. case_bool_decide as Hd; [|apply check_route_ok in E as ->; cbn; by rewrite Hw].
  destruct Hm as [Hm| ->]; [by rewrite Hm in Hd|]. cbn in Hw.
  destruct (getIPThroughDHCP _ _); [|st_step E; cbn; by rewrite Hw|done].
  apply st_bind_ok in E as ([] & w3 & Ec & E). apply check_route_ok in E as ->.
  apply st_bind_ok in Ec as ([] & w4 & E1 & E2). unfold on_input, on_mgmt, st_modify in E1, E2.
  injection E1 as <-. injection E2 as <-. cbn. rewrite Hw. chain_ok_tac.
Qed.

Lemma close_network_frame (R : relation wizard) `{!UiFrame R} : frame R closeNetworkPage.
Proof. by apply frame_CloseElements. Qed.

Lemma run_SetupNetwork_ok p w w' : run_SetupNetwork p w = (Ok tt, w') -> pending w = [] -> chain_ok p (wz_mgmt w) ->
  (p = askNetworkMethodPanel /\ nw_Method (wz_mgmt w) <> NetworkMethodStatic) \/ p = mtuPanel ->
  page_inv w' \/ ~ on_page w'.
Proof.
  intros E Hp Hc Hm. apply st_bind_ok in E as (msg & w1 & Er & E).
  pose proof (frame_ok (keep wz_tasks) _ _ _ _ ltac:(apply frame_preGotoNextPage; [exact _|by intros ? ?|by intros ? ?|by intros ?|by intros ?]) Er) as Et.
  apply (preGotoNextPage_chain p) in Er; [|done|].
  2: { destruct Hm as [[-> _]| ->]; [by right|]. left. by apply (ch_static _ _ Hc). }
  apply st_bind_ok in E as (? & w2 & Es & E).
  unfold SetContent, on_element, st_modify in Es. injection Es as <- <-. case_bool_decide.
  - right. apply st_bind_ok in E as (? & w2 & _ & E). apply st_bind_ok in E as (v & w3 & _ & E).
    intros (q & Hq & Hin). case_bool_decide.
    + apply (showNext_focus [_; _; _; _] clusterPodCIDRPanel) in E; [|done]. rewrite E in Hq. injection Hq as <-.
      by apply (bool_decide_eq_true_2 _) in Hin.
    + apply (showNext_focus [] hostnamePanel) in E; [|done]. rewrite E in Hq. injection Hq as <-.
      by apply (bool_decide_eq_true_2 _) in Hin.
  - left. left. assert (Hf : p ∈ fields /\ takes_focus p = true) by (destruct Hm as [[-> _]| ->]; split; [set_solver|done|set_solver|done]).
    destruct Hf as [Hin Ht]. exists p. split; [done|].
    apply (landing [] p _ w' E); [done|by intros x ->%list_elem_of_singleton| |done].
    unfold pending in *. change (omap setup_of (wz_tasks w1) = []). by rewrite Et.
Qed.
(** *** Leaving upwards *)

Definition earlier : list panel :=
  [askRolePanel; askCreatePanel; diskFatalPanel; persistentSizePanel; askForceMBRTitlePanel; askForceMBRPanel; dataDiskPanel; diskPanel].
Lemma frame_network_prev (R : relation wizard) `{!UiFrame R} :
  (forall p, p ∈ earlier -> leaf R (set_wz_focus (Some p))) -> leaf R (set_wz_preflightAck true) ->
  leaf R (set_wz_diskConfirmed false) -> (forall d, leaf R (set_wz_disks d)) ->
  (forall o, leaf R (fun w => set_wz_config (set_hc_Install (presetConfigDisks o (install_of w)) (wz_config w)) w)) ->
  frame R network_prev.
Proof.
  intros Hf Ha Hc Hd Hi.
  assert (Hs : forall ps, (forall p, p ∈ ps -> p ∈ earlier) -> frame R (showNext ps)).
  { intros ps Hps. apply frame_showNext; [exact _|]. intros p Hp%Hps.
    split; [intros _; by apply Hf|..]; try (by intros _); intros ->; by apply (bool_decide_eq_true_2 _) in Hp. }
  apply frame_bind; [exact _|by apply close_network_frame|]. intros _.
  apply frame_bind; [exact _|apply frame_get; exact _|]. intros w.
  destruct (wz_alreadyInstalled w); [case_bool_decide; apply Hs; set_solver|].
  apply frame_bind; [exact _|by apply frame_modify|]. intros _.
  apply frame_bind; [exact _|apply frame_get; exact _|]. intros w1.
  apply frame_bind; [exact _|apply frame_lift; exact _|]. intros cache.
  apply frame_bind; [exact _|by apply frame_modify|]. intros _. cbv zeta.
  apply frame_bind; [exact _|apply frame_modify, Hi|]. intros _.
  case_bool_decide; [apply Hs; set_solver|]. apply frame_bind; [exact _|apply frame_get; exact _|]. intros w2.
  apply Hs. unfold disk_components, earlier. intros p. rewrite !elem_of_app. repeat case_match; set_solver.
Qed.
Lemma network_prev_ok p w w' : network_prev w = (Ok tt, w') -> p ∈ fields -> field_inv p w -> page_inv w' \/ ~ on_page w'.
Proof.
  intros E Hin (Hf & Hp & Hc).
  pose proof (frame_ok (focus_in earlier) _ _ _ _ ltac:(apply frame_network_prev; [exact _|intros q Hq v; by right; exists q|by left..]) E) as [Ef|(q & Hq & Ef)].
  - left. left. exists p. split; [done|].
    pose proof (frame_ok (keep pending) _ _ _ _ ltac:(apply frame_network_prev; [exact _|first [by intros ? ? ? | by intros ? ? | by intros ?]..]) E) as Ep.
    pose proof (frame_ok (keep core_of) _ _ _ _ ltac:(apply frame_network_prev; [exact _|first [by intros ? ? ? | by intros ? ? | by intros ?]..]) E) as Ec.
    split_and!; [by rewrite Ef|by rewrite Ep|by apply (chain_core p (wz_mgmt w))].
  - right. intros (q' & Hq' & Hin'). rewrite Ef in Hq'. injection Hq' as <-. clear -Hq Hin'. unfold earlier, fields in *.
    repeat (apply elem_of_cons in Hq as [-> | Hq]; [by apply (bool_decide_eq_true_2 _) in Hin'|]). by apply not_elem_of_nil in Hq.
Qed.
(** *** Keys *)

Lemma field_page p w : p ∈ fields -> field_inv p w -> page_inv w.
Proof. left. by exists p. Qed.
Lemma goto_page p q hooks w w' : p ∈ fields -> q ∈ fields -> takes_focus q = true -> hook_ok p q (run_hooks hooks) ->
  gotoNextPanel [q] hooks w = (Ok tt, w') -> field_inv p w -> page_inv w'.
Proof.
  intros Hp Hq Ht Hh E Hi.
  destruct (goto_ok p q hooks w w' Ht Hq Hh E Hi) as [Hi'|Hi']; [exact (field_page p _ Hp Hi')|exact (field_page q _ Hq Hi')].
Qed.

Lemma chain_method n : chain_ok askBondModePanel n -> chain_ok askNetworkMethodPanel n.
Proof. intros Hc. chain_ok_tac. Qed.
Lemma bond_confirm_ok w w' : askBondModeVConfirm w = (Ok tt, w') -> field_inv askBondModePanel w -> page_inv w'.
Proof.
  intros E (Hf & Hp & Hc). st_step E. apply st_bind_ok in E as (u & w1 & Em & E).
  unfold on_mgmt, st_modify in Em. injection Em as _ <-. apply st_bind_ok in E as (u1 & w1 & En & E).
  pose proof (frame_ok _ _ _ _ _ (frame_note (keep core_of)) En) as E1.
  pose proof (frame_ok _ _ _ _ _ (frame_note (keep pending)) En) as E2. clear En.
  apply st_bind_ok in E as (v & w2 & Ev & E). unfold st_get in Ev. injection Ev as <- <-.
  assert (Hc1 : chain_ok askNetworkMethodPanel (wz_mgmt w1)).
  { apply chain_method. exact (chain_core _ (wz_mgmt w) _ E1 Hc). }
  assert (Hp1 : pending w1 = []) by (rewrite E2; exact Hp).
  apply (field_page askNetworkMethodPanel); [set_solver|]. case_bool_decide.
  - apply (landing [mtuPanel; gatewayPanel; addressPanel] askNetworkMethodPanel w1); [done..| |done|done]. set_solver.
  - apply (landing [] askNetworkMethodPanel w1); [done..| |done|done]. set_solver.
Qed.

Lemma method_confirm_ok w w' : askNetworkMethodVConfirm w = (Ok tt, w') -> field_inv askNetworkMethodPanel w -> page_inv w'.
Proof.
  intros E (Hf & Hp & Hc). st_step E. apply st_bind_ok in E as (u & w1 & Em & E).
  unfold on_mgmt, st_modify in Em. injection Em as _ <-. case_bool_decide as Hd.
  - apply (field_page addressPanel); [set_solver|].
    refine (landing [mtuPanel; gatewayPanel; addrMaskPanel] addressPanel _ _ E _ _ Hp _); [done|set_solver|].
    cbn. subst d. chain_ok_tac.
  - apply st_bind_ok in E as (u1 & w1 & Ec & E). right. exists askNetworkMethodPanel.
    pose proof (frame_ok (keep wz_mgmt) _ _ _ _ ltac:(apply frame_CloseElements; exact _) Ec) as E1.
    pose proof (frame_ok (keep pending) _ _ _ _ ltac:(apply frame_CloseElements; exact _) Ec) as E2.
    assert (Hc1 : chain_ok askNetworkMethodPanel (wz_mgmt w1)) by (rewrite E1; cbn; chain_ok_tac).
    assert (Hm1 : nw_Method (wz_mgmt w1) <> NetworkMethodStatic) by (by rewrite E1).
    apply (go_ok _ w1); [by destruct u1|rewrite E2; exact Hp|done| |by left].
    split; [by apply (ch_interfaces _ _ Hc1)|by apply (ch_vlan _ _ Hc1)|by apply (ch_mtu _ _ Hc1)|done].
Qed.

Lemma mtu_confirm_ok w w' : mtuVConfirm w = (Ok tt, w') -> field_inv mtuPanel w -> page_inv w'.
Proof.
  intros E (Hf & Hp & Hc). apply st_bind_ok in E as (msg & w1 & Em & E).
  apply (validateMTU_ok mtuPanel) in Em as (E1 & E2 & Hc1 & _); [|done|by right].
  assert (Hp1 : pending w1 = []) by (unfold pending; by rewrite E2). case_bool_decide.
  - right. exists mtuPanel. apply (go_ok _ w1); [done..| |by right].
    split; [by apply (ch_interfaces _ _ Hc1)|by apply (ch_vlan _ _ Hc1)|by apply (ch_mtu _ _ Hc1)|].
    intros _. split_and!; [by apply (ch_ip _ _ Hc1)|by apply (ch_mask _ _ Hc1)|by apply (ch_gateway _ _ Hc1)].
  - apply (field_page mtuPanel); [set_solver|]. refine (inv_frame mtuPanel _ w1 w' _ _ _ E _); [apply frame_message; exact _..|].
    split_and!; [by rewrite E1|done|done].
Qed.
Lemma hook_mtu : hook_ok mtuPanel gatewayPanel (run_hooks [validateMTU]).
Proof. apply hook_intro. intros w msg w1 E Hc. apply (validateMTU_ok gatewayPanel) in E; [done|done|by left]. Qed.

Lemma network_key_ok p k h w w' : p ∈ fields -> network_keys p k = Some h -> h w = (Ok tt, w') -> field_inv p w ->
  page_inv w' \/ ~ on_page w'.
Proof.
  intros Hp Hk E Hi. destruct (decide (k = KeyEsc)) as [->|Hesc].
  { assert (h = network_prev) as -> by (destruct p; try discriminate Hk; by injection Hk). by apply (network_prev_ok p w). }
  destruct p; try (by apply (bool_decide_eq_true_2 _) in Hp); destruct k; try done; injection Hk as <-;
  first [by apply (network_prev_ok _ w w' E Hp) | left].
  all: try (by apply (bond_confirm_ok w)); try (by apply (method_confirm_ok w)); try (by apply (mtu_confirm_ok w)).
  all: eapply goto_page; [exact Hp| | | |exact E|exact Hi]; [set_solver|reflexivity|];
    first [ exact hook_interface | apply hook_vlan; auto | exact hook_address | exact hook_mask | exact hook_gateway | exact hook_mtu
          | (apply hook_none; intros n Hc; chain_ok_tac) | (apply hook_keep_text; [set_solver|auto]) ].
Qed.
(** *** Actions *)

(** What changes only the display of the page. *)
Lemma display_inv m w w' : frame (keep wz_focus) m -> frame (keep pending) m -> frame (keep wz_mgmt) m ->
  m w = (Ok tt, w') -> page_inv w -> page_inv w'.
Proof.
  intros F1 F2 F3 E Hi. apply (frame_ok _ _ _ _ _ F1) in E as E1. apply (frame_ok _ _ _ _ _ F2) in E as E2.
  apply (frame_ok _ _ _ _ _ F3) in E as E3. unfold keep in E1, E2, E3.
  destruct Hi as [(p & Hin & Hf & Hp & Hc)|(p & Hf & Hp & Hc & Ha & Hm)].
  - left. exists p. split; [done|]. unfold field_inv. by rewrite E1, E2, E3.
  - right. exists p. unfold waiting. by rewrite E1, E2, E3.
Qed.

Lemma press_ok k w w' : press k w = (Ok tt, w') -> page_inv w -> page_inv w' \/ ~ on_page w'.
Proof.
  intros E Hi. apply st_bind_ok in E as (v & w0 & Ev & E). unfold st_get in Ev. injection Ev as <- <-.
  unfold focused in E. destruct Hi as [(p & Hp & Hi)|(p & Hw)].
  - rewrite (proj1 Hi) in E. cbn [mbind option_bind] in E.
    destruct (el_open _); [|apply st_ret_ok in E as [_ <-]; left; by apply (field_page p)].
    destruct (network_keys p k) as [h|] eqn:Hk; unfold keys in E; rewrite Hk in E; [by apply (network_key_ok p k h w)|].
    destruct p; try (by apply (bool_decide_eq_true_2 _) in Hp); destruct k; discriminate Hk.
  - rewrite (proj1 Hw) in E. cbn [mbind option_bind] in E. left. right. exists p.
    destruct (el_open _); [|by apply st_ret_ok in E as [_ <-]].
    replace (keys networkValidatorPanel k) with (@None (W unit)) in E by (by destruct k).
    by apply st_ret_ok in E as [_ <-].
Qed.

(** Other goroutines are not running while the page is shown. *)
Definition page_action (w : wizard) (a : action) : Prop :=
  forall i, a = Finish i -> exists p, wz_tasks w !! i = Some (SetupNetwork p).

Lemma finish_ok i w w' : finish byName i w = (Ok tt, w') -> (exists p, wz_tasks w !! i = Some (SetupNetwork p)) ->
  page_inv w -> page_inv w' \/ ~ on_page w'.
Proof.
  intros E (p & Ht) Hi. apply st_bind_ok in E as (v & w0 & Ev & E). unfold st_get in Ev. injection Ev as <- <-.
  rewrite Ht in E. apply st_bind_ok in E as (u & w1 & Em & E). unfold st_modify in Em. injection Em as _ <-.
  assert (Hpe : pending w = omap setup_of (take i (wz_tasks w)) ++ p :: omap setup_of (drop (S i) (wz_tasks w))).
  { unfold pending. rewrite <- (take_drop_middle _ _ _ Ht) at 1. by rewrite omap_app. }
  destruct Hi as [(q & _ & _ & Hp & _)|(q & _ & Hp & Hc & _ & Hm)]; rewrite Hpe in Hp.
  { by apply app_nil in Hp as [_ ?]. }
  assert (Hl : omap setup_of (take i (wz_tasks w)) = [] /\ q = p /\ omap setup_of (drop (S i) (wz_tasks w)) = []).
  { destruct (omap setup_of (take i (wz_tasks w))) as [|x l]; [by injection Hp as <- ->|].
    injection Hp as _ Hp. by apply app_nil in Hp as [_ ?]. }
  destruct Hl as (H1' & -> & H2'). apply (run_SetupNetwork_ok p _ w' E); [|done|done].
  unfold pending. cbn. by rewrite delete_take_drop, omap_app, H1', H2'.
Qed.
Lemma typed_ok text w w' : typed text w = (Ok tt, w') -> page_inv w -> page_inv w'.
Proof.
  assert (F : forall T (proj : wizard -> T) `{!UiFrame (keep proj)}, frame (keep proj) (typed text)).
  { intros T proj Hu. apply frame_bind; [exact _|apply frame_get; exact _|]. intros v.
    destruct (focused v) as [p|]; [|apply frame_ret; exact _]. destruct (kind_of p); first [apply frame_ret; exact _ | apply frame_element; exact _]. }
  apply display_inv; apply F; exact _.
Qed.

(** A drop-down is closed and shown again. *)
Lemma reshow_ok p w w1 w' : p ∈ fields -> takes_focus p = true -> ClosePanel p w = (Ok tt, w1) -> Show p w1 = (Ok tt, w') ->
  field_inv p w -> field_inv p w'.
Proof.
  intros Hp Ht Ec Es Hi.
  apply (inv_frame p _ _ _ ltac:(apply frame_element; exact _) ltac:(apply frame_element; exact _) ltac:(apply frame_element; exact _) Ec) in Hi as (Hf & Hpe & Hc).
  assert (Hl : forall x, x ∈ [p] -> x ∈ fields) by (by intros x ->%list_elem_of_singleton).
  assert (E : showNext [p] w1 = (Ok tt, snd (ClosePanel validatorPanel w'))).
  { unfold showNext, st_for_each. unfold mbind at 1 2, st_bind at 1 2. rewrite Es. done. }
  pose proof (landing [] p w1 _ E Ht Hl Hpe Hc) as (H1' & H2' & H3'). by split_and!.
Qed.

Lemma choose_ok values w w' : choose values w = (Ok tt, w') -> page_inv w -> page_inv w' \/ ~ on_page w'.
Proof.
  intros E Hi. apply st_bind_ok in E as (v & w0 & Ev & E). unfold st_get in Ev. injection Ev as <- <-.
  destruct (focused w) as [p|] eqn:Ef; [|apply st_ret_ok in E as [_ <-]; by left].
  assert (Hpf : wz_focus w = Some p).
  { unfold focused in Ef. destruct (wz_focus w) as [q|]; [|done]. cbn in Ef. destruct (el_open _); [done|done]. }
  apply st_bind_ok in E as (opts & w1 & Eo & E). unfold st_lift in Eo. injection Eo as _ <-.
  destruct Hi as [(q & Hq & Hi)|(q & Hw)].
  2: { rewrite (proj1 Hw) in Hpf. injection Hpf as <-. apply st_ret_ok in E as [_ <-]. left. right. by exists q. }
  rewrite (proj1 Hi) in Hpf. injection Hpf as ->.
  assert (Hre : forall m : W unit, frame (keep wz_focus) m -> frame (keep pending) m -> frame (keep core_of) m ->
    takes_focus p = true -> (_ ← m; _ ← ClosePanel p; _ ← Show p; press KeyEnter) w = (Ok tt, w') -> page_inv w' \/ ~ on_page w').
  { intros m F1 F2 F3 Ht ([] & w2 & Em & ([] & w3 & Ec & ([] & w4 & Es & Ep)%st_bind_ok)%st_bind_ok)%st_bind_ok.
    apply (inv_frame p _ _ _ F1 F2 F3 Em) in Hi as Hi2. apply (reshow_ok p _ _ _ Hq Ht Ec Es) in Hi2 as Hi4.
    apply (press_ok _ _ _ Ep). by apply (field_page p). }
  destruct (kind_of p) as [f| | |[]] eqn:K; try (apply st_ret_ok in E as [_ <-]; left; by apply (field_page p)).
  - by destruct p; try discriminate K; apply (bool_decide_eq_true_2 _) in Hq.
  - apply (Hre (on_element p (fun e => set_el_Value (join "," (filter (fun v => v ∈ values) (map op_Value opts)))
      (set_el_values (filter (fun v => v ∈ values) (map op_Value opts)) e)))); try (apply frame_element; exact _); [|exact E].
    unfold takes_focus. by rewrite K.
  - destruct values as [|x [|]]; try (apply st_ret_ok in E as [_ <-]; left; by apply (field_page p)).
    case_bool_decide; [|apply st_ret_ok in E as [_ <-]; left; by apply (field_page p)].
    apply (Hre (SetValue p x)); try (apply frame_element; exact _); [|exact E]. unfold takes_focus. by rewrite K.
Qed.

Lemma act_ok a w w' : act byName a w = (Ok tt, w') -> page_action w a -> page_inv w -> page_inv w' \/ ~ on_page w'.
Proof.
  destruct a as [k|text|values|i]; intros E Ha Hi.
  - by apply (press_ok k w).
  - left. by apply (typed_ok text w).
  - by apply (choose_ok values w).
  - by apply (finish_ok i w w' E (Ha i eq_refl)).
Qed.

(** From the page as it is shown, for as long as it has the focus. *)
Inductive page_reach : wizard -> Prop :=
| page_shown w0 w : showNetworkPage w0 = (Ok tt, w) -> vlan_ok (wz_mgmt w0) -> mtu_ok (wz_mgmt w0) -> pending w0 = [] -> page_reach w
| page_step a w w' : page_reach w -> on_page w -> page_action w a -> act byName a w = (Ok tt, w') -> page_reach w'.

Lemma page_reach_inv w : page_reach w -> on_page w -> page_inv w.
Proof.
  induction 1 as [w0 w E Hv Hm Hp|a w w' Hr IH Hon Ha E]; intros Hon'.
  - apply st_bind_ok in E as (v & w1 & Ev & E). unfold st_get in Ev. injection Ev as <- <-.
    assert (Hc : chain_ok askInterfacePanel (wz_mgmt w0)) by (split; try done; cbn; lia).
    apply (field_page askInterfacePanel); [set_solver|]. case_bool_decide.
    + apply (landing [askVlanIDPanel; askBondModePanel; askNetworkMethodPanel; addressPanel; addrMaskPanel; gatewayPanel; mtuPanel]
        askInterfacePanel w0); [done..| |done|done]. set_solver.
    + apply (landing [askVlanIDPanel; askBondModePanel; askNetworkMethodPanel] askInterfacePanel w0); [done..| |done|done]. set_solver.
  - destruct (act_ok a w w' E Ha (IH Hon)); [done|contradiction].
Qed.

(** C8: However the keys are pressed on the network page, the goroutine that
    applies the network is only started on checked values: an interface is
    chosen, the VLAN is in 0..4094, the MTU is 0 or in 576..9000, and with the
    static method the address parses, the mask is that of a prefix and the
    gateway is an address. *)
Theorem network_page_applies_valid w p :
  page_reach w -> on_page w -> SetupNetwork p ∈ wz_tasks w -> applicable (wz_mgmt w).
Proof.
  intros Hr Hon Ht. apply (page_reach_inv w) in Hr as [(q & _ & _ & Hp & _)|(q & _ & _ & _ & Ha & _)]; [|done|done].
  exfalso. assert (Hin : p ∈ pending w) by (apply list_elem_of_omap; eauto). rewrite Hp in Hin. by apply not_elem_of_nil in Hin.
Qed.
End proofs.

(** ** An example: the keys of a static network *)

Definition on_pageb (w : wizard) : bool :=
  match wz_focus w with Some p => bool_decide (p ∈ networkValidatorPanel :: fields) | None => false end.
Definition page_actionb (w : wizard) (a : action) : bool :=
  match a with
  | Finish i => match wz_tasks w !! i with Some (SetupNetwork _) => true | _ => false end
  | _ => true
  end.
Section example.
Import Demo.
Fixpoint page_run (actions : list action) (w : wizard) : option wizard :=
  match actions with
  | [] => Some w
  | a :: actions' =>
      if on_pageb w && page_actionb w a then
        match act byName a w with (Ok _, w') => page_run actions' w' | _ => None end
      else None
  end.
Lemma page_run_reach actions w w' : page_reach byName w -> page_run actions w = Some w' -> page_reach byName w'.
Proof.
  revert w. induction actions as [|a actions IH]; intros w Hr; cbn [page_run]; [by intros [= <-]|].
  destruct (on_pageb w && page_actionb w a) eqn:Hb; [|done]. apply andb_true_iff in Hb as [Ho Ha].
  destruct (act byName a w) as [[[]| |] w1] eqn:E; try done. apply IH. refine (page_step byName a w w1 Hr _ _ E).
  - unfold on_pageb in Ho. destruct (wz_focus w) as [p|] eqn:Ef; [|done]. exists p. split; [done|]. by apply bool_decide_eq_true in Ho.
  - intros i ->. cbn in Ha. destruct (wz_tasks w !! i) as [[]|]; try done. by eexists.
Qed.
Definition creating : wizard := start (set_hc_Install (set_in_Mode ModeCreate zero_Install) zero_HarvesterConfig).
Definition static_keys : list action :=
  [Choose ["eth0"]; Typed "5"; Press KeyEnter; Press KeyEnter; Choose ["static"]; Typed "10.0.0.2/24"; Press KeyEnter;
   Press KeyEnter; Typed "10.0.0.1"; Press KeyEnter; Typed "1500"; Press KeyEnter].

Lemma network_page_applies_valid_witness :
  match page_run static_keys (snd (showNetworkPage creating)) with
  | Some w => SetupNetwork mtuPanel ∈ wz_tasks w /\ applicable (wz_mgmt w)
  | None => False
  end.
Proof.
  assert (Hs : fst (showNetworkPage creating) = Ok tt) by vm_refl.
  assert (Hb : (fun w => (wz_focus w, wz_tasks w)) <$> page_run static_keys (snd (showNetworkPage creating)) =
    Some (Some networkValidatorPanel, [SetupNetwork mtuPanel])) by vm_refl.
  destruct (page_run static_keys _) as [w|] eqn:E; [|discriminate Hb]. injection Hb as Hf Ht.
  rewrite Ht. split; [by left|].
  assert (Htext : forall e, Console.err_text e <> "") by (intros e; discriminate).
  apply (network_page_applies_valid byName Htext w mtuPanel).
  - refine (page_run_reach _ _ _ (page_shown byName creating _ _ _ _ _) E).
    + exact (st_returned showNetworkPage creating tt Hs).
    + cbn. unfold vlan_ok. cbn. lia.
    + left. reflexivity.
    + reflexivity.
  - exists networkValidatorPanel. split; [done|by left].
  - rewrite Ht. by left.
Defined.
End example.
