(* ===== verification/WizardProofs.v ===== *)
(** * WizardProofs: what starts an installation, and that no wait is forever *)
From Stdlib Require Import ZArith Lia Ascii String.
From stdpp Require Import base tactics list gmap strings.
From S2P Require Import Prelude GoStrings GoNet Config ConfigOps World NMConfig DiskOptions Validator Webhooks Network Install ConsoleUtil Console Frames NetworkPage DiskPage Pages InstallPanel Wizard Demo.
Local Open Scope Z_scope.

(** ** Goroutines that are not the installation *)

(** Neither the installation nor a goroutine that could show its panel. *)
Definition not_install (t : task) : Prop := t <> RunInstall /\ t <> SetupNetwork installPanel.
Notation quiet_tasks := (tasks_in not_install).

Ltac no_task := solve
  [ let w := fresh in intros w; exists []; (split; [symmetry; apply app_nil_r|apply Forall_nil; exact I])
  | let w := fresh in intros w; eexists [_]; (split; [reflexivity|apply Forall_singleton; split; discriminate]) ].
(** The side conditions of showing panels other than that of the installation. *)
Ltac show_quiet :=
  let p := fresh in let Hp := fresh in
  intros p Hp; repeat (apply elem_of_cons in Hp as [-> | Hp]); [..|by apply not_elem_of_nil in Hp];
  split; first [discriminate | intros _; no_task | intros _ ?; no_task].

(** The elements of the disk page. *)
Definition disk_fields : list panel := [persistentSizePanel; askForceMBRTitlePanel; askForceMBRPanel; dataDiskPanel; diskPanel].
Lemma disk_components_fields bios opts i p : p ∈ disk_components bios opts i -> p ∈ disk_fields.
Proof. unfold disk_components, disk_fields. rewrite !elem_of_app. repeat case_match; set_solver. Qed.
Ltac quiet_field :=
  match goal with Hp : ?p ∈ _ |- show_leaves _ ?p => revert p Hp; show_quiet end.

Lemma frame_select_interfaces `{Surroundings} `{Netlink} (R : relation wizard) `{!PreOrder R} ifaces : frame R (select_interfaces ifaces).
Proof.
  induction ifaces as [|i l IH]; [apply frame_ret; exact _|]. apply frame_bind; [exact _| |].
  - apply frame_bind; [exact _|apply frame_get; exact _|]. intros w.
    destruct (getNICState _ _); try (apply frame_ret; exact _).
    apply frame_bind; [exact _|apply frame_lift; exact _|]. intros. apply frame_ret; exact _.
  - intros [m|n]; [apply frame_ret; exact _|]. apply frame_bind; [exact _|exact IH|]. intros. apply frame_ret; exact _.
Qed.
Lemma frame_run_net {A} (R : relation wizard) (m : st net_log A) : (forall l, leaf R (set_wz_net l)) -> frame R (run_net m).
Proof. intros Hl w. unfold run_net. destruct (m (wz_net w)) as [r l]. apply Hl. Qed.
Lemma frame_run_vip {A} (R : relation wizard) (m : st netifs A) : (forall i, leaf R (set_wz_ifs i)) -> frame R (run_vip m).
Proof. intros Hl w. unfold run_vip. destruct (m (wz_ifs w)) as [r i]. apply Hl. Qed.
Ltac fstep :=
  lazymatch goal with
  | |- frame _ (_ ≫= _) => apply frame_bind; [exact _| |intros]
  | |- frame _ (mret _) => apply frame_ret; exact _
  | |- frame _ (st_lift _) => apply frame_lift; exact _
  | |- frame _ st_get => apply frame_get; exact _
  | |- frame _ (st_fail _) => apply frame_fail; exact _
  | |- frame _ (st_try _) => apply frame_try
  | |- frame _ (st_modify _) => apply frame_modify; no_task
  | |- frame _ (run_io _) => apply frame_run_io; intro; no_task
  | |- frame _ (run_net _) => apply frame_run_net; intro; no_task
  | |- frame _ (run_vip _) => apply frame_run_vip; intro; no_task
  | |- frame _ (on_element _ _) => apply frame_element; exact _
  | |- frame _ (element_of _) => apply frame_element_of; exact _
  | |- frame _ (GetData _) => apply frame_GetData; exact _
  | |- frame _ (SetData _ _) => apply frame_SetData; exact _
  | |- frame _ (ShowPanel _) => apply frame_ShowPanel; [exact _|intros _; no_task]
  | |- frame _ (setContentByName _ _) => apply frame_setContentByName; [exact _|intros _; no_task]
  | |- frame _ (Close _) => apply frame_Close; exact _
  | |- frame _ (CloseElement _) => apply frame_CloseElement; exact _
  | |- frame _ (CloseElements _) => apply frame_CloseElements; exact _
  | |- frame _ (showNext [match ?x with _ => _ end]) => destruct x
  | |- frame _ (showNext (_ :: _)) => apply frame_showNext; [exact _|show_quiet]
  | |- frame _ (showNext (match ?x with _ => _ end)) => destruct x
  | |- frame _ (showNext (disk_components _ _ _)) => apply frame_showNext; [exact _|intros ? ?%disk_components_fields; quiet_field]
  | |- frame _ (select_interfaces _) => apply frame_select_interfaces; exact _
  | |- frame _ (st_for_each _ _) => apply frame_for_each; [exact _|intros]
  | |- frame _ (match ?x with _ => _ end) => destruct x
  | |- frame _ (let _ := _ in _) => cbv zeta
  | |- frame _ ?m => let h := head m in unfold h
  end.
Ltac frames := repeat fstep.

Section quiet.
Context `{Host} `{Netlink} `{VipHost} `{Web} `{Ntp} `{Surroundings} `{Services} `{Installer} `{Http} `{RegistryJSON}
  `{FirstConsole} (byName : string -> option net_iface).

Lemma quiet_network p k h : network_keys p k = Some h -> frame quiet_tasks h.
Proof. intros E. destruct p; try discriminate E; injection E as <-; destruct k; frames. Qed.
Lemma quiet_cluster p k h : cluster_keys p k = Some h -> frame quiet_tasks h.
Proof. intros E. destruct p; try discriminate E; injection E as <-; destruct k; frames. Qed.
Lemma quiet_hostname p k h : hostname_keys p k = Some h -> frame quiet_tasks h.
Proof. intros E. destruct p; try discriminate E; destruct k; try discriminate E; injection E as <-; frames. Qed.
Lemma quiet_disk p k h : disk_keys p k = Some h -> frame quiet_tasks h.
Proof. intros E. destruct p; try discriminate E; destruct k; try discriminate E; injection E as <-; frames. Qed.
(** Confirming the installation is the exception. *)
Lemma quiet_page p k h : page_keys p k = Some h -> (p, k) <> (confirmInstallPanel, KeyEnter) -> frame quiet_tasks h.
Proof.
  intros E Hx. destruct p; try discriminate E; destruct k; try discriminate E; try (by destruct Hx); injection E as <-; frames.
Qed.
Lemma quiet_run_task t : not_install t -> frame quiet_tasks (run_task byName t).
Proof.
  intros [Ht1 Ht2]. destruct t as [| |q| | | | | | |]; try done; cbn [run_task]; frames.
  apply frame_showNext; [exact _|]. intros p ->%list_elem_of_singleton. assert (q <> installPanel) by congruence.
  split; first [done | intros _; no_task | intros _ ?; no_task].
Qed.

(** The answer to the question before the installation. *)
Definition confirms (w : wizard) (a : action) : Prop :=
  a = Press KeyEnter /\ focused w = Some confirmInstallPanel /\ el_data (wz_elements w confirmInstallPanel) <> "no".
Definition no_install (w : wizard) : Prop := Forall not_install (wz_tasks w).

Lemma quiet_keeps {A} (m : W A) w : frame quiet_tasks m -> no_install w -> no_install (snd (m w)).
Proof. intros Hm Hw. destruct (Hm w) as (l & E & Hl). unfold no_install. rewrite E. by apply Forall_app. Qed.

Lemma focused_open w p : focused w = Some p -> el_open (wz_elements w p) = true.
Proof. unfold focused. destruct (wz_focus w) as [q|]; [|done]. cbn. destruct (el_open _) eqn:E; [by intros [= ->]|done]. Qed.

Lemma confirm_no w : el_open (wz_elements w confirmInstallPanel) = true -> el_data (wz_elements w confirmInstallPanel) = "no" ->
  confirm_enter w = halt confirmInstallPanel w.
Proof.
  intros Ho Hd. unfold confirm_enter, GetData, element_of, gets. unfold mbind, st_bind. cbn. by rewrite Ho, Hd.
Qed.

Lemma quiet_keys p k h : keys p k = Some h -> (p, k) <> (confirmInstallPanel, KeyEnter) -> frame quiet_tasks h.
Proof.
  intros E Hx. unfold keys in E. destruct (network_keys p k) eqn:E1; [injection E as <-; by eapply quiet_network|].
  destruct (cluster_keys p k) eqn:E2; [injection E as <-; by eapply quiet_cluster|].
  destruct (hostname_keys p k) eqn:E3; [injection E as <-; by eapply quiet_hostname|].
  destruct (disk_keys p k) eqn:E4; [injection E as <-; by eapply quiet_disk|]. by eapply quiet_page.
Qed.
Lemma press_quiet k w : ~ confirms w (Press k) -> no_install w -> no_install (snd (press k w)).
Proof.
  intros Hc Hw. unfold press, mbind, st_bind. cbn [st_get]. destruct (focused w) as [p|] eqn:Ef; [|done].
  destruct (keys p k) as [h|] eqn:Ek; [|done]. destruct (decide ((p, k) = (confirmInstallPanel, KeyEnter))) as [Hx|Hx].
  - injection Hx as -> ->. injection Ek as <-. rewrite confirm_no; [|by apply focused_open|].
    + apply quiet_keeps, Hw. frames.
    + destruct (decide (el_data (wz_elements w confirmInstallPanel) = "no")); [done|]. by destruct Hc.
  - by apply quiet_keeps, Hw; eapply quiet_keys.
Qed.

Lemma quiet_Show p : p <> installPanel -> frame quiet_tasks (Show p).
Proof. intros Hp. apply frame_Show; [exact _|]. split; first [done | intros _; no_task | intros _ ?; no_task]. Qed.

(** A drop-down is shown again, and its ENTER follows. *)
Lemma reshow_quiet (m : W unit) p b w : kind_of p = KDropDown b -> frame quiet_tasks m -> no_install w ->
  no_install (snd ((_ ← m; _ ← ClosePanel p; _ ← Show p; press KeyEnter) w)).
Proof.
  intros K Hm Hw. assert (Hp : p <> installPanel) by (by intros ->).
  apply (quiet_keeps m) in Hw as H1'; [|done]. unfold mbind at 1, st_bind at 1. destruct (m w) as [[[]| |] w1]; cbn [snd] in *; [|done..].
  apply (quiet_keeps (ClosePanel p)) in H1' as H2'; [|frames]. unfold mbind at 1, st_bind at 1.
  destruct (ClosePanel p w1) as [[[]| |] w2]; cbn [snd] in *; [|done..].
  apply (quiet_keeps (Show p)) in H2' as H3'; [|by apply quiet_Show]. unfold mbind at 1, st_bind at 1.
  destruct (Show p w2) as [[[]| |] w3] eqn:Es; cbn [snd] in *; [|done..].
  apply press_quiet; [|done]. intros (_ & Hf & _). apply (Show_focus p) in Es; [|unfold takes_focus; by rewrite K].
  unfold focused in Hf. rewrite Es in Hf. cbn in Hf. destruct (el_open _); [|done]. injection Hf as ->. done.
Qed.

Lemma choose_quiet values w : no_install w -> no_install (snd (choose values w)).
Proof.
  intros Hw. unfold choose, mbind at 1, st_bind at 1. cbn [st_get]. destruct (focused w) as [p|] eqn:Ef; [|done].
  unfold mbind at 1, st_bind at 1. unfold st_lift. destruct (getOptions p w) as [opts| |]; [|done..].
  destruct (kind_of p) as [| | |[]] eqn:K; [done|done|..].
  - apply quiet_keeps, Hw. frames.
  - eapply reshow_quiet; [exact K|frames|done].
  - destruct values as [|v [|]]; [done| |done]. case_bool_decide; [|done]. eapply reshow_quiet; [exact K|frames|done].
Qed.

Lemma finish_quiet i w : no_install w -> no_install (snd (finish byName i w)).
Proof.
  intros Hw. unfold finish, mbind at 1, st_bind at 1. cbn [st_get]. destruct (wz_tasks w !! i) as [t|] eqn:Ht; [|done].
  unfold mbind, st_bind. cbn [st_modify]. apply quiet_keeps.
  - apply quiet_run_task. by eapply Forall_lookup_1.
  - unfold no_install. cbn. by apply Forall_delete.
Qed.

Lemma act_quiet a w : ~ confirms w a -> no_install w -> no_install (snd (act byName a w)).
Proof.
  intros Hc Hw. destruct a as [k|text|values|i]; cbn [act].
  - by apply press_quiet.
  - apply quiet_keeps, Hw. unfold typed. frames.
  - by apply choose_quiet.
  - by apply finish_quiet.
Qed.

Lemma confirms_dec w a : confirms w a \/ ~ confirms w a.
Proof.
  unfold confirms. destruct a as [k| | |]; [|right; by intros [? _]..].
  destruct (decide (k = KeyEnter)) as [->|]; [|right; by intros [[= ->] _]].
  destruct (decide (focused w = Some confirmInstallPanel)); [|right; by intros (_ & ? & _)].
  destruct (decide (el_data (wz_elements w confirmInstallPanel) = "no")); [right; by intros (_ & _ & ?)|by left].
Qed.

(** C10: No matter what is typed, chosen and pressed, and in which order the
    goroutines end, the installation is only started by the answer to the
    confirmation: before it there is an ENTER on the confirmation page whose
    answer is not "no". *)
Theorem install_needs_confirmation actions w0 w :
  no_install w0 -> run byName actions w0 = (Ok tt, w) -> RunInstall ∈ wz_tasks w ->
  exists pre post w1, actions = pre ++ Press KeyEnter :: post /\ run byName pre w0 = (Ok tt, w1) /\
    focused w1 = Some confirmInstallPanel /\ el_data (wz_elements w1 confirmInstallPanel) <> "no".
Proof.
  revert w0. induction actions as [|a actions IH]; intros w0 Hq E Hin.
  - apply st_ret_ok in E as [_ <-]. unfold no_install in Hq. rewrite Forall_forall in Hq. by destruct (Hq _ Hin).
  - apply st_bind_ok in E as ([] & w1 & Ea & E).
    pose proof (confirms_dec w0 a) as Hd.
    destruct Hd as [(-> & Hf & Hn)|Hc].
    + exists [], actions, w0. split_and!; [done|done|done|done].
    + apply (act_quiet a w0 Hc) in Hq as Hq1. rewrite Ea in Hq1. cbn [snd] in Hq1.
      destruct (IH w1 Hq1 E Hin) as (pre & post & w2 & -> & Hr & Hf & Hn).
      exists (a :: pre), post, w2. split_and!; [done| |done|done].
      cbn [run st_for_each]. unfold run in Hr |- *. cbn [st_for_each]. unfold mbind, st_bind. by rewrite Ea.
Qed.
End quiet.

(** ** An installation from the first key on *)

Section example.
Import Demo.
Definition first_page : wizard :=
  snd (layoutInstall (Err (EMsg "no user data")) (Ok "") (Err (EMsg "no command line")) (start zero_HarvesterConfig)).
(** Mode, password and disk; the network; the cluster network, host name, DNS,
    VIP, token, NTP, proxy, SSH keys, remote configuration and the answer. *)
Definition all_keys : list action :=
  [Press KeyEnter; Typed "secret"; Press KeyEnter; Typed "secret"; Press KeyEnter; Press KeyEnter; Press KeyEnter] ++
  [Choose ["eth0"]; Typed "5"; Press KeyEnter; Press KeyEnter; Choose ["static"]; Typed "10.0.0.2/24"; Press KeyEnter;
   Press KeyEnter; Typed "10.0.0.1"; Press KeyEnter; Typed "1500"; Press KeyEnter; Finish 0] ++
  [Press KeyEnter; Press KeyEnter; Press KeyEnter; Typed "node1"; Press KeyEnter; Typed "8.8.8.8"; Press KeyEnter; Finish 0;
   Choose ["static"]; Typed "10.0.0.9"; Press KeyEnter; Typed "token"; Press KeyEnter; Press KeyEnter; Finish 0;
   Press KeyEnter; Press KeyEnter; Press KeyEnter; Press KeyEnter].

Lemma install_needs_confirmation_witness :
  exists pre post w1, all_keys = pre ++ Press KeyEnter :: post /\ run byName pre first_page = (Ok tt, w1) /\
    focused w1 = Some confirmInstallPanel /\ el_data (wz_elements w1 confirmInstallPanel) <> "no".
Proof.
  assert (H0 : wz_tasks first_page = []) by vm_refl.
  assert (H1 : fst (run byName all_keys first_page) = Ok tt) by vm_refl.
  assert (H2 : wz_tasks (snd (run byName all_keys first_page)) = [RunInstall]) by vm_refl.
  apply (install_needs_confirmation byName all_keys first_page (snd (run byName all_keys first_page))).
  - unfold no_install. rewrite H0. by apply Forall_nil.
  - exact (st_returned _ _ _ H1).
  - rewrite H2. by left.
Defined.

(** The commands of the whole run: the password, the network, the name
    servers, the time, and the installation. *)
Example wizard_installs :
  map (fun argv => take 2 argv) (execs (wz_world (snd (run byName (all_keys ++ [Finish 0]) first_page)))) =
  [["/usr/bin/yip"; "-s"]; ["hostnamectl"; "hostname"]; ["hostnamectl"; "hostname"]; ["nmcli"; "networking"];
   ["nmcli"; "connection"]; ["nmcli"; "networking"]; ["nm-online"; "-x"]; ["nmcli"; "con"]; ["nmcli"; "device"];
   ["timedatectl"; "set-ntp"]; ["timedatectl"; "set-ntp"]; ["/usr/sbin/harv-install"; "PATH=/usr/bin"];
   ["/usr/sbin/cos-installer-shutdown"; "PATH=/usr/bin"]].
Proof. vm_refl. Qed.
End example.
