(* ===== verification/WaitProofs.v ===== *)
(** * WaitProofs: the goroutines of the pages end with a page that takes keys

    While a goroutine of a page runs, the panel of the wait has the focus and no
    key has a handler.  Each of these goroutines returns and gives the focus to
    the field it was started from or to the next page. *)
From Stdlib Require Import ZArith Lia Ascii String.
From stdpp Require Import base tactics list gmap strings.
From S2P Require Import Prelude GoStrings GoNet GoUrl Config ConfigOps World NMConfig DiskOptions Validator Webhooks Network Install ConsoleUtil Console Frames NetworkPage DiskPage Pages InstallPanel Wizard Demo.
Local Open Scope Z_scope.

(** ** Handlers that return *)

Definition total {A} (m : W A) : Prop := forall w, exists a w', m w = (Ok a, w').
(** The handler returns in a state of [Q]. *)
Definition ends {A} (m : W A) (w : wizard) (Q : wizard -> Prop) : Prop := exists a w', m w = (Ok a, w') /\ Q w'.

Lemma total_ret {A} (a : A) : total (mret a).
Proof. intros w. by exists a, w. Qed.
Lemma total_get : total st_get.
Proof. intros w. by exists w, w. Qed.
Lemma total_modify f : total (st_modify f).
Proof. intros w. by exists tt, (f w). Qed.
Lemma total_bind {A B} (m : W A) (f : A -> W B) : total m -> (forall a, total (f a)) -> total (m ≫= f).
Proof.
  intros Hm Hf w. destruct (Hm w) as (a & w1 & E). destruct (Hf a w1) as (b & w2 & E2). exists b, w2.
  unfold mbind, st_bind. by rewrite E.
Qed.
Lemma total_element p f : total (on_element p f).
Proof. apply total_modify. Qed.
Lemma total_ShowPanel p : total (ShowPanel p).
Proof.
  apply total_bind; [intros w; by exists (wz_elements w p), w|]. intros e. destruct (el_open e); [apply total_ret|].
  apply total_bind; [apply total_element|]. intros _. destruct (kind_of p) as [[]| | |]; first [apply total_modify|apply total_ret].
Qed.
Lemma total_setContentByName p c : total (setContentByName p c).
Proof.
  unfold setContentByName. destruct (bool_decide _); [apply total_element|].
  apply total_bind; [apply total_ShowPanel|]. intros _. apply total_element.
Qed.
Lemma total_PostClose p : total (PostClose p).
Proof.
  destruct p; first [apply total_ret | apply total_element
    | (apply total_bind; [apply total_setContentByName|]; intros _; apply total_element)].
Qed.

Section shows.
Context `{Host} `{Netlink} `{VipHost} `{Web} `{Ntp} `{Surroundings}.

Lemma total_show_value p f : total (show_value p f).
Proof. apply total_bind; [apply total_get|]. intros w. apply total_element. Qed.
Lemma total_titled t : total (titled t).
Proof. apply total_setContentByName. Qed.
Lemma total_titled_noted t n : total (titled_noted t n).
Proof. apply total_bind; [apply total_titled|]. intros _. apply total_setContentByName. Qed.

(** Fields whose hook cannot fail. *)
Definition plain_fields : list panel :=
  [serverURLPanel; tokenPanel; ntpServersPanel; proxyPanel; sshKeyPanel; cloudInitPanel; dnsServersPanel; askVipMethodPanel].
Lemma plain_PreShow p : p ∈ plain_fields -> total (PreShow p).
Proof.
  intros Hp. destruct p; try (by apply (bool_decide_eq_true_2 _) in Hp); cbn [PreShow];
    (apply total_bind; [first [apply total_show_value|apply total_element]|]; intros _);
    first [apply total_titled_noted | apply total_titled
      | (apply total_bind; [apply total_get|]; intros w; apply total_bind; [apply total_setContentByName|]; intros _; apply total_titled)].
Qed.
Lemma plain_Show p w : p ∈ plain_fields ->
  exists w', Show p w = (Ok tt, w') /\ wz_focus w' = Some p /\ el_open (wz_elements w' p) = true.
Proof.
  intros Hp. destruct (plain_PreShow p Hp w) as ([] & w1 & E).
  assert (Hs : exists w', show_view p w1 = (Ok tt, w') /\ wz_focus w' = Some p /\ el_open (wz_elements w' p) = true).
  { destruct p; try (by apply (bool_decide_eq_true_2 _) in Hp); eexists; (split; [reflexivity|]); by split. }
  destruct Hs as (w' & E2 & Hf & Ho). exists w'. split; [|done]. unfold Show, mbind, st_bind. by rewrite E.
Qed.
Lemma plain_showNext p w (Q : wizard -> Prop) : p ∈ plain_fields ->
  (forall w', focused w' = Some p -> Q w') -> ends (showNext [p]) w Q.
Proof.
  intros Hp HQ. destruct (plain_Show p w Hp) as (w1 & E & Hf & Ho).
  exists tt, (snd (ClosePanel validatorPanel w1)). split.
  - unfold showNext, st_for_each. unfold mbind at 1 2, st_bind at 1 2. by rewrite E.
  - apply HQ. unfold focused. cbn. rewrite Hf. cbn.
    destruct (bool_decide_reflect (p = validatorPanel)) as [->|]; [by apply (bool_decide_eq_true_2 _) in Hp|by rewrite Ho].
Qed.
Lemma ends_bind {A B} (m : W A) (f : A -> W B) w Q R :
  ends m w R -> (forall a w', R w' -> ends (f a) w' Q) -> ends (m ≫= f) w Q.
Proof.
  intros (a & w1 & E & HR) Hf. destruct (Hf a w1 HR) as (b & w2 & E2 & HQ). exists b, w2. split; [|done].
  unfold mbind, st_bind. by rewrite E.
Qed.
Lemma ends_try_bind {A B} (m : W A) (f : result A -> W B) w Q :
  fst (m w) <> Panic -> (forall r, r = fst (m w) -> r <> Panic -> ends (f r) (snd (m w)) Q) -> ends (st_try m ≫= f) w Q.
Proof.
  intros Hp Hf. unfold ends, mbind, st_bind, st_try in *. destruct (m w) as [r w1]. cbn [fst snd] in *.
  specialize (Hf r eq_refl Hp). by destruct r.
Qed.
End shows.

(** ** Code that does not panic *)

Definition calm {A} (r : result A) : Prop := r <> Panic.
Lemma calm_bind {A B} (m : result A) (f : A -> result B) : calm m -> (forall a, calm (f a)) -> calm (m ≫= f).
Proof. intros Hm Hf. destruct m as [a|e|]; [apply Hf|done|done]. Qed.
Lemma calm_map_err {A} f (m : result A) : calm m -> calm (map_err f m).
Proof. by destruct m. Qed.
Lemma calm_reject b e : calm (reject_if b e).
Proof. by destruct b. Qed.
Lemma calm_for_each {A} (f : A -> result unit) l : (forall x, calm (f x)) -> calm (for_each f l).
Proof. intros Hf. induction l as [|x l IH]; [done|]. by apply calm_bind. Qed.

(** The same for state, of the host too. *)
Definition calm_st {S A} (m : S -> result A * S) : Prop := forall s, calm (fst (m s)).
Lemma calm_io_bind {A B} (m : io A) (f : A -> io B) : calm_st m -> (forall a, calm_st (f a)) -> calm_st (m ≫= f).
Proof. intros Hm Hf w. specialize (Hm w). unfold mbind, io_bind. destruct (m w) as [[a|e|] w1]; [apply Hf|done|done]. Qed.
Lemma calm_io_try {A} (m : io A) : calm_st m -> calm_st (try m).
Proof. intros Hm w. specialize (Hm w). unfold try. by destruct (m w) as [[] w1]. Qed.
Lemma calm_run_command `{Host} argv : calm_st (run_command argv).
Proof. apply calm_io_bind; [|intros ? ?; done]. intros w. unfold Exec. by destruct (exec w argv) as [f [o|e]]. Qed.
Lemma calm_WriteFile `{Host} path data : calm_st (WriteFile path data).
Proof. intros w. unfold WriteFile, fs_op. by destruct (fault _ _) as [[e f]|]. Qed.
Lemma calm_ReadFile `{Host} path : calm_st (ReadFile path).
Proof. intros w. unfold ReadFile, fs_op. destruct (fault _ _) as [[e f]|]; [done|]. by destruct (w_files w !! path). Qed.
Lemma calm_retry {S A} (sleep : Z -> S -> S) i (m : st S A) n : calm_st m -> calm_st (retryOnError sleep i m n).
Proof.
  intros Hm. induction n as [|n IH]; intros s; cbn [retryOnError]; specialize (Hm s).
  - by destruct (m s) as [[] s'].
  - destruct (m s) as [[] s']; [done|apply IH|done].
Qed.

Lemma calm_checkIPList l : calm (checkIPList l).
Proof. apply calm_for_each. intros x. apply calm_reject. Qed.
Lemma calm_getRemoteSSHKeys parse b : calm b -> calm (getRemoteSSHKeys parse b).
Proof.
  intros Hb. apply calm_bind; [done|]. intros text. apply calm_bind; [|intros keys; by case_bool_decide].
  generalize 1. induction (split_on newline text) as [|l ls IH]; intros i; [done|]. cbn [parse_keys].
  case_bool_decide; [apply IH|]. destruct (parse l); [|done]. by apply calm_bind.
Qed.
Lemma calm_dns `{Host} l vlan : calm_st (updateDNSServersAndReloadNetConfig l vlan).
Proof.
  unfold updateDNSServersAndReloadNetConfig. destruct (dns_connection vlan).
  apply calm_io_bind; [apply calm_run_command|]. intros _. apply calm_run_command.
Qed.
Lemma try_calm {A} (m : io A) w r w' : try m w = (Ok r, w') -> calm r.
Proof. unfold try. by destruct (m w) as [[] w1]; intros [= <- <-]. Qed.
Lemma calm_enable `{Host} ini l : (forall f s, calm (ini f s)) -> calm_st (enableNTPServers ini l).
Proof.
  intros Hi. unfold enableNTPServers. case_bool_decide; [by intros ?|]. intros w.
  pose proof (calm_io_try _ (calm_ReadFile timesyncd_conf) w) as Ht.
  unfold mbind at 1, io_bind at 1. destruct (try (ReadFile timesyncd_conf) w) as [[old|e|] w1] eqn:E; [|done|done].
  apply try_calm in E. assert (Hc : calm (match old with Err (EPath _ _ true) => Ok "" | r => r end)).
  { destruct old as [|[]|]; try done. by case_match. }
  generalize w1. change (calm_st (content ← lift (match old with Err (EPath _ _ true) => Ok "" | r => r end);
    cfg ← lift (ini content (join " " l)); _ ← WriteFile timesyncd_conf cfg;
    _ ← run_command ["timedatectl"; "set-ntp"; "false"]; run_command ["timedatectl"; "set-ntp"; "true"])).
  apply calm_io_bind; [by intros ?|]. intros c. apply calm_io_bind; [intros ?; apply Hi|]. intros cfg.
  apply calm_io_bind; [apply calm_WriteFile|]. intros _. apply calm_io_bind; [apply calm_run_command|].
  intros _. apply calm_run_command.
Qed.

Lemma calm_SplitHostPort s : calm (SplitHostPort s).
Proof. unfold SplitHostPort, no_brackets. repeat (case_match; try done). Qed.
Lemma calm_validateNTPServers `{Ntp} l : (forall h, calm (LookupIP h)) -> calm (validateNTPServers l).
Proof.
  intros Hl. apply calm_for_each. intros x. apply calm_bind.
  - unfold ntp_address. pose proof (calm_SplitHostPort x). repeat (case_match; try done).
  - intros [host port]. apply calm_bind; [apply Hl|]. intros ips. by destruct (try_addresses _ _ _) as [[] [e|]].
Qed.

(** ** The goroutines *)

Section waits.
Context `{Host} `{Netlink} `{VipHost} `{Web} `{Ntp} `{Surroundings} `{Services} `{Installer} `{Http} `{RegistryJSON}
  `{FirstConsole} (byName : string -> option net_iface).
Hypothesis web_calm : forall log url code, web log url <> Reply code Panic.
Hypothesis lookup_calm : forall h, LookupIP h <> Panic.
Hypothesis ini_calm : forall f s, ini_set_ntp f s <> Panic.

Definition opened (p : panel) (w : wizard) : Prop := el_open (wz_elements w p) = true.

Lemma calm_fetch url : calm_st (fetch url).
Proof.
  intros log. cbn. unfold getURL. destruct (web log url) as [e|code body] eqn:E; [done|].
  apply calm_bind; [|intros text; by case_match]. intros ->. by apply web_calm in E.
Qed.

Lemma Close_ends p w : opened p w -> ends (Close p) w (fun _ => True).
Proof.
  intros Ho. destruct (total_PostClose p (snd (ClosePanel p w))) as (a & w' & E). exists a, w'. split; [|done].
  unfold Close, mbind at 1, st_bind at 1. cbn. unfold opened in Ho. rewrite Ho. unfold mbind, st_bind. exact E.
Qed.
Lemma CloseElement_ends q p w : opened p w -> p <> q -> q = notePanel -> ends (CloseElement q) w (opened p).
Proof.
  intros Ho Hpq ->. unfold CloseElement, Close. unfold ends, st_try, mbind, st_bind. cbn.
  destruct (el_open (wz_elements w notePanel)); cbn; eexists _, _; (split; [reflexivity|]); unfold opened; cbn; [|done].
  by rewrite bool_decide_eq_false_2.
Qed.
Lemma close_noted_ends p w : opened p w -> p <> notePanel -> ends (close_noted p) w (fun _ => True).
Proof.
  intros Ho Hp. eapply ends_bind; [by apply CloseElement_ends|]. intros _ w' Ho'. by apply Close_ends.
Qed.
Lemma SetContent_ends q c p w : opened p w -> ends (SetContent q c) w (opened p).
Proof. intros Ho. eexists _, _. split; [reflexivity|]. unfold opened. cbn. by case_bool_decide. Qed.
Lemma modify_ends f p w : opened p w -> (forall v, wz_elements (f v) = wz_elements v) -> ends (st_modify f) w (opened p).
Proof. intros Ho Hf. eexists _, _. split; [reflexivity|]. unfold opened. by rewrite Hf. Qed.

(** Back on the field, with the message. *)
Lemma back_ends msg p w Q : p ∈ plain_fields -> (forall w', focused w' = Some p -> Q w') -> ends (back_with msg p) w Q.
Proof.
  intros Hp HQ. eapply ends_bind with (R := fun _ => True); [by eexists _, _|]. intros _ w' _. by apply plain_showNext.
Qed.
(** Leaving the page for a plain field. *)
Lemma leave_ends p q w Q : opened p w -> p <> notePanel -> q ∈ plain_fields -> (forall w', focused w' = Some q -> Q w') ->
  ends (_ ← close_noted p; showNext [q]) w Q.
Proof. intros Ho Hp Hq HQ. eapply ends_bind; [by apply close_noted_ends|]. intros _ w' _. by apply plain_showNext. Qed.

Lemma show_vip_ends w (Q : wizard -> Prop) : (forall w', focused w' = Some askVipMethodPanel -> Q w') -> ends show_vip_page w Q.
Proof.
  intros HQ. assert (Ht : total (Show vipTextPanel)).
  { apply total_bind; [apply total_ret|]. intros _. apply total_bind; [intros v; by eexists _, v|]. intros e. apply total_ShowPanel. }
  destruct (Ht w) as ([] & w1 & E1). destruct (plain_showNext askVipMethodPanel w1 Q) as ([] & w2 & E2 & HQ2); [set_solver|done|].
  exists tt, w2. split; [|done]. unfold show_vip_page, showNext, st_for_each in *. unfold mbind, st_bind in *. by rewrite E1.
Qed.
Lemma dns_next_ends w (Q : wizard -> Prop) : opened dnsServersPanel w ->
  (forall w' q, focused w' = Some q -> q ∈ [serverURLPanel; askVipMethodPanel] -> Q w') -> ends dns_next w Q.
Proof.
  intros Ho HQ. eapply ends_bind; [by apply close_noted_ends|]. intros _ w1 _. unfold mbind, ends, st_bind. cbn [st_get].
  case_bool_decide; [apply show_vip_ends|apply plain_showNext; [set_solver|]]; intros w' Hf; apply (HQ w' _ Hf); set_solver.
Qed.

(** The goroutines of pages of one field, with that field and those that may
    follow. *)
Definition page_of_task (t : task) : option (panel * list panel) :=
  match t with
  | PingServer _ => Some (serverURLPanel, [tokenPanel])
  | FetchSSHKeys _ => Some (sshKeyPanel, [cloudInitPanel])
  | CheckNTP _ => Some (ntpServersPanel, [proxyPanel])
  | SetupDNS _ => Some (dnsServersPanel, [serverURLPanel; askVipMethodPanel])
  | _ => None
  end.
Definition back_or_on (p : panel) (next : list panel) (w : wizard) : Prop := exists q, focused w = Some q /\ q ∈ p :: next.

Lemma back_ok p next msg w : p ∈ plain_fields -> ends (back_with msg p) w (back_or_on p next).
Proof. intros Hp. apply back_ends; [done|]. intros w' Hf. exists p. split; [done|by left]. Qed.

Lemma PingServer_ends url w : opened serverURLPanel w -> ends (run_PingServer url) w (back_or_on serverURLPanel [tokenPanel]).
Proof.
  intros Ho. apply ends_try_bind.
  - unfold run_net. pose proof (calm_retry pause 2 (fetch (url +:+ "/ping")) 3 (calm_fetch _) (wz_net w)) as Hc.
    unfold validatePingServerURL. by destruct (retryOnError _ _ _ _ _).
  - intros r _ Hr. assert (Ho1 : opened serverURLPanel (snd (run_net (validatePingServerURL (url +:+ "/ping")) w))).
    { unfold run_net. by destruct (validatePingServerURL _ _). }
    destruct r as [body|e|]; [|apply back_ok; set_solver|done].
    eapply ends_bind; [by apply SetContent_ends|]. intros _ w1 Ho2. eapply ends_bind; [by apply modify_ends|].
    intros _ w2 Ho3. eapply ends_bind; [by apply Close_ends|]. intros _ w3 _. apply plain_showNext; [set_solver|].
    intros w' Hf. exists tokenPanel. split; [done|set_solver].
Qed.

Lemma FetchSSHKeys_ends url w : opened sshKeyPanel w -> ends (run_FetchSSHKeys url) w (back_or_on sshKeyPanel [cloudInitPanel]).
Proof.
  intros Ho. apply ends_try_bind.
  - unfold run_net. pose proof (calm_fetch url (wz_net w)) as Hc. by destruct (fetch url (wz_net w)).
  - intros r _ Hr. assert (Ho1 : opened sshKeyPanel (snd (run_net (fetch url) w))) by done.
    pose proof (calm_getRemoteSSHKeys ParseAuthorizedKey r Hr) as Hk.
    destruct (getRemoteSSHKeys ParseAuthorizedKey r) as [ks|e|]; [|apply back_ok; set_solver|done].
    eapply ends_bind; [by apply SetContent_ends|]. intros _ w1 Ho2. eapply ends_bind; [by apply modify_ends|].
    intros _ w2 Ho3. apply leave_ends; [done|done|set_solver|]. intros w' Hf. exists cloudInitPanel. split; [done|set_solver].
Qed.

Lemma run_io_calm {A} (m : io A) w : calm_st m -> fst (run_io m w) <> Panic.
Proof. intros Hm. specialize (Hm (wz_world w)). unfold run_io. by destruct (m (wz_world w)). Qed.
Lemma run_io_opened {A} (m : io A) p w : opened p w -> opened p (snd (run_io m w)).
Proof. unfold run_io. by destruct (m (wz_world w)). Qed.

Lemma SetupDNS_ends servers w : opened dnsServersPanel w ->
  ends (run_SetupDNS servers) w (back_or_on dnsServersPanel [serverURLPanel; askVipMethodPanel]).
Proof.
  intros Ho. unfold run_SetupDNS, mbind at 1, ends, st_bind at 1. cbn [st_get].
  assert (Hn : forall v, opened dnsServersPanel v -> ends (_ ← done_waiting; dns_next) v
    (back_or_on dnsServersPanel [serverURLPanel; askVipMethodPanel])).
  { intros v Hv. eapply ends_bind; [by apply SetContent_ends|]. intros _ w1 Ho1. apply dns_next_ends; [done|].
    intros w' q Hf Hq. exists q. split; [done|by right]. }
  destruct (_ && _); [apply back_ok; set_solver|]. case_bool_decide; [by apply Hn|]. cbv zeta.
  pose proof (calm_checkIPList (split_on "," servers)) as Hc.
  destruct (checkIPList _) as [u|e|]; [|apply back_ok; set_solver|done].
  apply ends_try_bind; [apply run_io_calm, calm_dns|]. intros r _ Hr.
  destruct r as [v|e|]; [|apply back_ok; set_solver|done].
  eapply ends_bind; [apply modify_ends; [by apply run_io_opened|done]|]. intros _ w1 Ho1. by apply Hn.
Qed.

Lemma CheckNTP_ends servers w : opened ntpServersPanel w -> ends (run_CheckNTP servers) w (back_or_on ntpServersPanel [proxyPanel]).
Proof.
  intros Ho. unfold run_CheckNTP. destruct (negb _); [apply back_ok; set_solver|].
  eapply ends_bind; [by apply modify_ends|]. intros _ w1 Ho1. cbv zeta.
  eapply ends_bind; [by apply modify_ends|]. intros _ w2 Ho2. case_bool_decide; [apply back_ok; set_solver|].
  pose proof (calm_validateNTPServers (split_on "," servers) lookup_calm) as Hc.
  destruct (validateNTPServers _) as [u|e|]; [|apply back_ok; set_solver|done].
  apply ends_try_bind; [by apply run_io_calm, calm_enable|]. intros r _ Hr.
  destruct r as [v|e|]; [|apply back_ok; set_solver|done].
  eapply ends_bind; [apply SetContent_ends; by apply run_io_opened|]. intros _ w3 Ho3.
  eapply ends_bind; [by apply modify_ends|]. intros _ w4 Ho4. apply leave_ends; [done|done|set_solver|].
  intros w' Hf. exists proxyPanel. split; [done|set_solver].
Qed.

(** C20: No wait is forever: whatever the server, the resolver, the time servers
    and the host answer, the check of a management address, of SSH keys, of
    time servers and of name servers returns, and the focus is then on the
    field it was started from or on the next page. *)
Theorem wait_ends t p next w :
  page_of_task t = Some (p, next) -> opened p w ->
  exists w' q, run_task byName t w = (Ok tt, w') /\ focused w' = Some q /\ q ∈ p :: next.
Proof.
  intros Ht Ho. assert (He : ends (run_task byName t) w (back_or_on p next)).
  { destruct t; try discriminate Ht; injection Ht as <- <-; cbn [run_task];
      [by apply PingServer_ends|by apply FetchSSHKeys_ends|by apply CheckNTP_ends|by apply SetupDNS_ends]. }
  destruct He as ([] & w' & E & q & Hq). by exists w', q.
Qed.
End waits.

(** A server that answers, with a key, while the page of the keys waits. *)
Section example.
Import Demo.
Definition fetching : wizard :=
  snd (run byName [Typed "https://example.com/me.keys"; Press KeyEnter] (snd (showNext [sshKeyPanel] (start zero_HarvesterConfig)))).
Lemma wait_ends_witness :
  wz_tasks fetching = [FetchSSHKeys "https://example.com/me.keys"] /\ focused fetching = Some spinnerPanel /\
  exists w' q, run_task byName (FetchSSHKeys "https://example.com/me.keys") fetching = (Ok tt, w') /\
    focused w' = Some q /\ q ∈ [sshKeyPanel; cloudInitPanel].
Proof.
  split; [vm_refl|]. split; [vm_refl|]. apply (wait_ends byName).
  - intros log url code. done.
  - intros h. done.
  - intros f s. done.
  - reflexivity.
  - unfold opened. vm_refl.
Defined.
End example.
