(* ===== verification/InstallProofs.v ===== *)
(** * InstallProofs: what is installed was validated *)
From Stdlib Require Import ZArith Lia Ascii String.
From stdpp Require Import base tactics list gmap strings.
From S2P Require Import Prelude GoStrings GoNet Config Merge ConfigOps World NMConfig DiskOptions Validator Webhooks Network Install ConsoleUtil Console Frames NetworkPage DiskPage Pages InstallPanel Wizard Demo WizardProofs.
Local Open Scope Z_scope.

Section proofs.
Context `{Host} `{Netlink} `{VipHost} `{Web} `{Ntp} `{Surroundings} `{Services} `{Installer} `{Http} `{RegistryJSON}
  `{FirstConsole} (byName : string -> option net_iface).

Lemma stop_with_not_ok {A} msg w (a : A) w' : stop_with msg w <> (Ok a, w').
Proof. unfold stop_with, mbind, st_bind. by destruct (print msg w) as [[]]. Qed.
Lemma or_stop_ok {A} text (r : result A) w a w' : or_stop text r w = (Ok a, w') -> r = Ok a /\ w' = w.
Proof.
  destruct r as [x|e|]; cbn [or_stop]; [by intros [-> ->]%st_ret_ok|by intros ?%stop_with_not_ok|done].
Qed.

(** The address is one [getFormattedServerURL] gave. *)
Definition formatted (url : string) : Prop := url = "" \/ exists addr, getFormattedServerURL addr = Ok url.

Lemma format_url_ok w w' : format_url w = (Ok tt, w') -> formatted (hc_ServerURL (wz_config w')).
Proof.
  intros E. apply st_bind_ok in E as (v & w1 & [= <- <-] & E). cbv zeta in E. case_bool_decide as Hu.
  - apply st_ret_ok in E as [_ <-]. by left.
  - apply st_bind_ok in E as (f & w1 & [Hf ->]%or_stop_ok & E). unfold on_config, st_modify in E. injection E as <-. cbn.
    right. by exists (hc_ServerURL (wz_config w)).
Qed.

(** Nothing is left to be asked about the warnings of the checks of the machine,
    which are neither made on a machine that is already installed nor when they
    are to be skipped. *)
Definition warned (w : wizard) : Prop :=
  wz_alreadyInstalled w = false -> in_SkipChecks (install_of w) = false ->
  wz_warnings w = [] \/ wz_preflightAck w = true.

Lemma check_warnings_ok w w' : check_warnings w = (Ok tt, w') -> warned w' /\ wz_config w' = wz_config w.
Proof.
  intros E. apply st_bind_ok in E as (v & w1 & [= <- <-] & E). destruct (wz_alreadyInstalled w) eqn:Ha.
  - apply st_ret_ok in E as [_ <-]. split; [|done]. intros Hn. congruence.
  - cbv zeta in E. apply st_bind_ok in E as (u & w1 & Em & E). unfold st_modify in Em. injection Em as <- <-.
    set (ws := wz_warnings w ++ _) in *. destruct (_ || _ || _) eqn:Hb.
    + apply st_ret_ok in E as [_ <-]. split; [|done]. intros _ Hskip. cbn in Hskip |- *.
      apply orb_true_iff in Hb as [Hb|Hb]; [|by right]. apply orb_true_iff in Hb as [Hb|Hb].
      2: { change (in_SkipChecks (install_of w) = false) in Hskip. congruence. }
      left. by apply bool_decide_eq_true in Hb.
    + apply st_bind_ok in E as (? & ? & _ & E). discriminate E.
Qed.

(** Unless only the image is installed, a network by DHCP has a default route. *)
Definition routed (w : wizard) : Prop :=
  wz_installModeOnly w = false -> nw_Method (in_ManagementInterface (install_of w)) = NetworkMethodDHCP ->
  checkDefaultRoute (wz_world w) = Ok true.
Lemma check_default_route_ok w w' : check_default_route w = (Ok tt, w') -> w' = w /\ routed w.
Proof.
  intros E. apply st_bind_ok in E as (v & w1 & [= <- <-] & E). apply st_bind_ok in E as (b & w1 & [Hr ->]%or_stop_ok & E).
  unfold routed. destruct (wz_installModeOnly w) eqn:Hm; cbn in E; [by apply st_ret_ok in E as [_ <-]|].
  destruct b; cbn in E; [by apply st_ret_ok in E as [_ <-]|].
  destruct (is_dhcp w) eqn:Hd; [by apply stop_with_not_ok in E|]. apply st_ret_ok in E as [_ <-]. split; [done|].
  intros _ Hmeth. unfold is_dhcp in Hd. by apply bool_decide_eq_false in Hd.
Qed.

(** A configuration that may be installed. *)
Record installable (w : wizard) : Prop := {
  il_valid : validateConfig visit_map (machine_of w) (wz_config w) = Ok tt;
  il_scheme : in_ForceGPT (install_of w) = negb (in_ForceMBR (install_of w));
  il_data : in_DataDisk (install_of w) = "" \/ in_DataDisk (install_of w) <> in_Device (install_of w);
  il_url : formatted (hc_ServerURL (wz_config w));
  il_warned : warned w;
  il_routed : routed w
}.

Lemma prepare_install_ok w w' : prepare_install w = (Ok tt, w') -> installable w'.
Proof.
  intros E. do 9 (apply st_bind_ok in E as (? & ? & _ & E)).
  apply st_bind_ok in E as ([] & w1 & Hu%format_url_ok & E).
  apply st_bind_ok in E as ([] & w2 & [Hw Hc]%check_warnings_ok & E).
  apply st_bind_ok in E as ([] & w3 & [-> Hr]%check_default_route_ok & E).
  apply st_bind_ok in E as ([] & w3 & Ef & E). unfold final_fields, on_install, on_config, st_modify in Ef. injection Ef as <-.
  apply st_bind_ok in E as (v & w3 & Ev & E). unfold st_get in Ev. injection Ev as <- <-. apply or_stop_ok in E as [Hv ->].
  split; [exact Hv|..]; cbn; case_bool_decide as Hd; cbn; try done.
  - by left.
  - by right.
  - by rewrite Hc.
  - by rewrite Hc.
Qed.

(** C3: The goroutine of the installation panel installs only a configuration
    that passed every check: whatever the remote configuration, the network and
    the host did, either it stopped with what the preparation left, or the
    configuration it installs is valid for the machine, asks for one partition
    scheme, has a data disk other than the installation disk and a server
    address in the form of the installer; no warning of the checks of the
    machine is left that the user did not accept, unless the image was already
    installed or the checks are skipped; and with DHCP there is a default route,
    unless only the image is installed. *)
Theorem RunInstall_validated w w' :
  run_RunInstall byName w = (Ok tt, w') ->
  w' = snd (prepare_install w) \/
  exists w1, prepare_install w = (Ok tt, w1) /\ installable w1 /\ run_installation byName w1 = (Ok tt, w').
Proof.
  unfold run_RunInstall, mbind at 1, st_bind at 1, st_try. destruct (prepare_install w) as [[[]|e|] w1] eqn:E; cbn; intros Hr.
  - right. exists w1. split; [done|]. split; [by eapply prepare_install_ok|exact Hr].
  - left. by injection Hr.
  - discriminate Hr.
Qed.
End proofs.

(** The installation of the example of the wizard. *)
Section example.
Import Demo.
Definition confirmed : wizard := snd (run byName all_keys first_page).
Definition events (w : wizard) : nat := length (w_trace (wz_world w)).
Lemma RunInstall_validated_witness :
  exists w1, prepare_install confirmed = (Ok tt, w1) /\ installable w1 /\
    run_installation byName w1 = (Ok tt, snd (run_RunInstall byName confirmed)).
Proof.
  assert (H1 : fst (run_RunInstall byName confirmed) = Ok tt) by vm_refl.
  destruct (RunInstall_validated byName confirmed (snd (run_RunInstall byName confirmed)) (st_returned _ _ _ H1)) as [He|Hex]; [|exact Hex].
  exfalso. apply (f_equal events) in He. vm_compute in He. discriminate He.
Defined.
End example.
