(* ===== verification/DiskProofs.v ===== *)
(** * DiskProofs: the disk page is only left with disks that are large enough *)
From Stdlib Require Import ZArith Lia Ascii String.
From stdpp Require Import base tactics list gmap strings.
From S2P Require Import Prelude GoStrings GoNum Config ConfigOps World DiskSize DiskOptions Validator Network ConsoleUtil Console Frames NetworkPage DiskPage InstallPanel Wizard Demo WizardProofs.
Local Open Scope Z_scope.

(** The elements of the page. *)
Definition disk_panels : list panel :=
  [diskFatalPanel; diskPanel; dataDiskPanel; persistentSizePanel; wipeDisksTitlePanel; wipeDisksPanel; askForceMBRTitlePanel; askForceMBRPanel;
   diskNotePanel].
Notation stay := (focus_in disk_panels).

Section proofs.
Context `{Host} `{Netlink} `{VipHost} `{Web} `{Ntp} `{Surroundings}.

(** What has been checked. *)
Record disks_ok (w : wizard) : Prop := {
  dk_sizes : size_checks w = Ok tt;
  dk_witness : is_witness w = true -> in_DataDisk (install_of w) = "";
  dk_persistent : is_witness w = false -> single_disk (install_of w) = true ->
    exists diskSize n, disk_size w (in_Device (install_of w)) = Ok diskSize /\
      ParsePartitionSize diskSize (in_PersistentPartitionSize (install_of w)) (in_SkipChecks (install_of w)) = Ok n
}.

(** The handler stays on the page or leaves it with the disks checked. *)
Definition leaves_ok (m : W unit) : Prop := forall w w', m w = (Ok tt, w') -> stay w w' \/ disks_ok w'.
Lemma leaves_frame m : frame stay m -> leaves_ok m.
Proof. intros Hm w w' E. left. exact (frame_ok _ _ _ _ _ Hm E). Qed.
Lemma leaves_bind {A} (m : W A) f : frame stay m -> (forall a, leaves_ok (f a)) -> leaves_ok (m ≫= f).
Proof.
  intros Hm Hf w w' (a & w1 & E1 & E2)%st_bind_ok. apply (frame_ok _ _ _ _ _ Hm) in E1.
  apply Hf in E2 as [E2|E2]; [left; by etrans|by right].
Qed.

(** *** Frames of the page *)
Ltac keep_focus := let w := fresh in intros w; first [by left | right; eexists; split; [|reflexivity]; set_solver].
Ltac show_stay :=
  let p := fresh in let Hp := fresh in
  intros p Hp; repeat (apply elem_of_cons in Hp as [-> | Hp]); [..|by apply not_elem_of_nil in Hp];
  split; first [discriminate | intros _; keep_focus | intros _ ?; keep_focus].
Ltac dstep :=
  lazymatch goal with
  | |- frame _ (_ ≫= _) => apply frame_bind; [exact _| |intros]
  | |- frame _ (mret _) => apply frame_ret; exact _
  | |- frame _ (st_lift _) => apply frame_lift; exact _
  | |- frame _ st_get => apply frame_get; exact _
  | |- frame _ (st_modify _) => apply frame_modify; keep_focus
  | |- frame _ (on_element _ _) => apply frame_element; exact _
  | |- frame _ (element_of _) => apply frame_element_of; exact _
  | |- frame _ (GetData _) => apply frame_GetData; exact _
  | |- frame _ (setContentByName _ _) => apply frame_setContentByName; [exact _|first [discriminate | intros _; keep_focus]]
  | |- frame _ (CloseElements _) => apply frame_CloseElements; exact _
  | |- frame _ (showNext [match ?x with _ => _ end]) => destruct x
  | |- frame _ (showNext (_ :: _)) => apply frame_showNext; [exact _|show_stay]
  | |- frame _ (match ?x with _ => _ end) => destruct x
  | |- frame _ (let _ := _ in _) => cbv zeta
  | |- frame _ ?m => let h := head m in unfold h
  end.
Ltac dframes := repeat dstep.

Lemma stay_sizes : frame stay validateAllDiskSizes.
Proof. dframes. Qed.
Lemma stay_persistent s : frame stay (validatePersistentPartitionSize s).
Proof. dframes. Qed.
(** *** Leaving *)

Lemma valid_or_message_ok r w b w' : valid_or_message r w = (Ok b, w') -> b = true -> r = Ok tt /\ w' = w.
Proof.
  destruct r as [[]|e|]; cbn [valid_or_message]; [by intros [_ ->]%st_ret_ok| |done].
  intros (? & w1 & _ & [<- _]%st_ret_ok)%st_bind_ok. done.
Qed.

(** What the checks read. *)
Definition disk_part (w : wizard) := (install_of w, wz_world w).
#[local] Instance disk_part_ui : UiFrame (keep disk_part) := keep_ui disk_part (fun _ _ => eq_refl).
Lemma disks_ok_part w w' : disk_part w' = disk_part w -> disks_ok w -> disks_ok w'.
Proof.
  unfold disk_part. intros [= E1 E2] [H1' H2' H3']. unfold size_checks, is_witness, disk_size, role_of in *.
  split; unfold size_checks, is_witness, disk_size, role_of; rewrite E1, ?E2; assumption.
Qed.
Lemma keep_showNext ps : (forall p, p ∈ ps -> p ∈ confirmInstallPanel :: askVlanIDPanel :: askBondModePanel :: askNetworkMethodPanel
    :: addressPanel :: addrMaskPanel :: gatewayPanel :: mtuPanel :: [askInterfacePanel]) -> frame (keep disk_part) (showNext ps).
Proof.
  intros Hps. apply frame_showNext; [exact _|]. intros p Hp%Hps.
  split; [by intros _ w| | | | |]; intros ->; try (by apply (bool_decide_eq_true_2 _) in Hp).
Qed.
Lemma leave_part : frame (keep disk_part) leave_disk_page.
Proof.
  apply frame_bind; [exact _|apply frame_get; exact _|]. intros w. destruct (wz_diskConfirmed w); [|by apply frame_modify].
  apply frame_bind; [exact _|apply frame_CloseElements; exact _|]. intros _. destruct (wz_installModeOnly w).
  - apply keep_showNext. set_solver.
  - apply frame_bind; [exact _|apply frame_get; exact _|]. intros v. apply keep_showNext. case_bool_decide; set_solver.
Qed.

Lemma size_checks_witness w : is_witness w = true ->
  size_checks w = if in_SkipChecks (install_of w) then Ok tt else validateDiskSize (disk_size w (in_Device (install_of w))) false.
Proof. intros Hw. unfold size_checks. cbv zeta. by rewrite Hw. Qed.

Lemma leaves_disk_next : leaves_ok disk_next.
Proof.
  intros w w' E. unfold disk_next in E. apply st_bind_ok in E as (b & w1 & Ev & E).
  unfold validateAllDiskSizes in Ev. apply st_bind_ok in Ev as (v & w0 & Eg & Ev). unfold st_get in Eg. injection Eg as <- <-.
  destruct b; cbn [negb] in E.
  2: { left. apply st_ret_ok in E as [_ <-].
    refine (frame_ok _ (valid_or_message (size_checks w)) _ _ _ _ Ev). dframes. }
  apply valid_or_message_ok in Ev as [Hs ->]; [|done]. apply st_bind_ok in E as (v & w0 & Eg & E).
  unfold st_get in Eg. injection Eg as <- <-. destruct (is_witness w) eqn:Hw.
  - right. apply st_bind_ok in E as (? & w1 & Em & E). unfold on_install, on_config, st_modify in Em. injection Em as _ <-.
    apply (frame_ok _ _ _ _ _ leave_part) in E. apply (disks_ok_part _ _ E).
    split; [|done|intros Hx; change (is_witness w = false) in Hx; congruence].
    rewrite size_checks_witness in Hs by exact Hw. rewrite size_checks_witness by exact Hw. exact Hs.
  - apply st_bind_ok in E as (b & w1 & Ep & E). destruct b; cbn [negb] in E.
    2: { left. apply st_ret_ok in E as [_ <-]. by apply (frame_ok _ _ _ _ _ (stay_persistent _)) in Ep. }
    right. assert (Hp : w1 = w /\ (single_disk (install_of w) = true -> exists diskSize n,
        disk_size w (in_Device (install_of w)) = Ok diskSize /\
        ParsePartitionSize diskSize (in_PersistentPartitionSize (install_of w)) (in_SkipChecks (install_of w)) = Ok n)).
    { unfold validatePersistentPartitionSize in Ep. apply st_bind_ok in Ep as (v & w0 & Eg & Ep).
      unfold st_get in Eg. injection Eg as <- <-. cbv zeta in Ep. destruct (single_disk (install_of w)).
      - apply st_bind_ok in Ep as (n & w0 & El & Ep). unfold st_lift in El. injection El as Hd <-.
        apply valid_or_message_ok in Ep as [Hn ->]; [|done]. split; [done|]. intros _.
        apply bind_ok in Hn as (m & Hm & _). by exists n, m.
      - apply st_ret_ok in Ep as [_ <-]. done. }
    destruct Hp as [-> Hp]. apply (frame_ok _ _ _ _ _ leave_part) in E. apply (disks_ok_part _ _ E).
    split; [done|by rewrite Hw|by intros _].
Qed.

(** *** The handlers *)
Ltac lstep :=
  lazymatch goal with
  | |- leaves_ok disk_next => exact leaves_disk_next
  | |- leaves_ok (_ ≫= _) => apply leaves_bind; [solve [dframes]|intros]
  | |- leaves_ok (match ?x with _ => _ end) => destruct x
  | |- leaves_ok (let _ := _ in _) => cbv zeta
  | |- leaves_ok _ => apply leaves_frame; solve [dframes]
  end.
Lemma leaves_mbr : leaves_ok ask_mbr_or_next.
Proof. unfold ask_mbr_or_next. repeat lstep. Qed.
Lemma leaves_wipe : leaves_ok isWipeDisksPanelNeeded.
Proof. unfold isWipeDisksPanelNeeded. repeat lazymatch goal with |- leaves_ok ask_mbr_or_next => exact leaves_mbr | _ => lstep end. Qed.
Ltac lsteps :=
  repeat lazymatch goal with
  | |- leaves_ok ask_mbr_or_next => exact leaves_mbr
  | |- leaves_ok isWipeDisksPanelNeeded => exact leaves_wipe
  | _ => lstep
  end.

Lemma leaves_diskConfirm : leaves_ok diskConfirm.
Proof. unfold diskConfirm. lsteps. Qed.
Lemma leaves_dataDiskConfirm : leaves_ok dataDiskConfirm.
Proof. unfold dataDiskConfirm. lsteps. Qed.
Lemma leaves_persistentSizeConfirm : leaves_ok persistentSizeConfirm.
Proof. unfold persistentSizeConfirm. lsteps. Qed.
Lemma leaves_wipeDisksConfirm : leaves_ok wipeDisksConfirm.
Proof. unfold wipeDisksConfirm. lsteps. Qed.
Lemma leaves_mbrConfirm : leaves_ok mbrConfirm.
Proof. unfold mbrConfirm. lsteps. Qed.
Lemma leaves_keys p k h : disk_keys p k = Some h -> k <> KeyEsc -> leaves_ok h.
Proof.
  intros E Hk. destruct p; try discriminate E; destruct k; try done; injection E as <-;
  cbn [diskV_keys dataDisk_keys persistentSize_keys wipeDisks_keys askForceMBR_keys];
  lazymatch goal with
  | |- leaves_ok diskConfirm => exact leaves_diskConfirm
  | |- leaves_ok dataDiskConfirm => exact leaves_dataDiskConfirm
  | |- leaves_ok persistentSizeConfirm => exact leaves_persistentSizeConfirm
  | |- leaves_ok wipeDisksConfirm => exact leaves_wipeDisksConfirm
  | |- leaves_ok mbrConfirm => exact leaves_mbrConfirm
  | |- leaves_ok _ => apply leaves_frame; dframes
  end.
Qed.

(** *** What the checks say about the disks *)

(** The disk the answers put the system and the data on. *)
Definition shared (w : wizard) : Prop :=
  in_DataDisk (install_of w) = "" \/ in_DataDisk (install_of w) = in_Device (install_of w).
Definition has_size (w : wizard) (device : string) (least : Z) : Prop :=
  exists d, disk_size w device = Ok d /\ least <= d.

Record disks_large (w : wizard) : Prop := {
  (* a witness keeps no data *)
  dl_witness : in_Role (install_of w) = RoleWitness -> in_DataDisk (install_of w) = "" /\
    (in_SkipChecks (install_of w) = false -> has_size w (in_Device (install_of w)) (180 * 2 ^ 30));
  (* one disk for everything: its size, and that of the persistent partition *)
  dl_single : in_Role (install_of w) <> RoleWitness -> shared w ->
    exists d n, disk_size w (in_Device (install_of w)) = Ok d /\
      parsePartitionBytes (in_PersistentPartitionSize (install_of w)) = Ok n /\
      (in_SkipChecks (install_of w) = false ->
        250 * 2 ^ 30 <= d /\ 150 * 2 ^ 30 <= n /\ n + (50 + 15360 + 8192 + 64 + 51200) * 2 ^ 20 <= d);
  (* two disks *)
  dl_two : in_Role (install_of w) <> RoleWitness -> ~ shared w -> in_SkipChecks (install_of w) = false ->
    has_size w (in_Device (install_of w)) (180 * 2 ^ 30) /\ has_size w (in_DataDisk (install_of w)) (50 * 2 ^ 30)
}.

Lemma is_witness_role w : is_witness w = true <-> in_Role (install_of w) = RoleWitness.
Proof. unfold is_witness. by rewrite bool_decide_eq_true. Qed.

Lemma single_disk_shared w : single_disk (install_of w) = true <-> shared w.
Proof. unfold single_disk, shared. rewrite orb_true_iff, !bool_decide_eq_true. naive_solver. Qed.

Section sizes.
Hypothesis sizes_u64 : forall wd dev n, mc_diskSize (machine wd) dev = Ok n -> is_u64 n.

Lemma ByteToGi_ge d gi : is_u64 d -> gi <= ByteToGi d -> gi * 2 ^ 30 <= d.
Proof.
  unfold is_u64, ByteToGi. intros Hd Hle. rewrite u64_shr_div in Hle by lia.
  pose proof (Z.mul_div_le d (2 ^ 30) ltac:(lia)). nia.
Qed.

Lemma validateDiskSize_least w dev single :
  validateDiskSize (disk_size w dev) single = Ok tt -> has_size w dev ((if single then 250 else 180) * 2 ^ 30).
Proof.
  unfold validateDiskSize. intros (d & Hd & Hr)%bind_ok. exists d. split; [done|].
  pose proof (sizes_u64 _ _ _ Hd) as Hu. unfold reject_if in Hr.
  destruct (Z.ltb_spec (ByteToGi d) (if single then SingleDiskMinSizeGiB else MultipleDiskMinSizeGiB)) as [|Hle]; [done|].
  apply ByteToGi_ge; [done|]. by destruct single.
Qed.

Lemma validateDataDiskSize_least w dev :
  validateDataDiskSize (disk_size w dev) = Ok tt -> has_size w dev (50 * 2 ^ 30).
Proof.
  unfold validateDataDiskSize. intros (d & Hd & Hr)%bind_ok. exists d. split; [done|].
  pose proof (sizes_u64 _ _ _ Hd) as Hu. unfold reject_if in Hr.
  destruct (Z.ltb_spec (ByteToGi d) HardMinDataDiskSizeGiB) as [|Hle]; [done|]. by apply ByteToGi_ge.
Qed.

Lemma ParsePartitionSize_bytes d s skip n : ParsePartitionSize d s skip = Ok n -> exists b, parsePartitionBytes s = Ok b.
Proof. unfold ParsePartitionSize. intros (? & _ & (b & Hb & _)%bind_ok)%bind_ok. by exists b. Qed.

Lemma disks_ok_large w : disks_ok w -> disks_large w.
Proof.
  intros [Hs Hw Hp]. unfold size_checks in Hs. cbv zeta in Hs. split.
  - intros Hr%is_witness_role. split; [by apply Hw|]. intros Hk. rewrite Hk, Hr in Hs.
    by apply validateDiskSize_least in Hs.
  - intros Hr Hsh%single_disk_shared. assert (Hf : is_witness w = false).
    { destruct (is_witness w) eqn:E; [|done]. by apply is_witness_role in E. }
    destruct (Hp Hf Hsh) as (d & n & Hd & Hn). destruct (ParsePartitionSize_bytes _ _ _ _ Hn) as [b Hb].
    exists d, b. split; [done|]. split; [done|]. intros Hk. rewrite Hk in Hs, Hn. rewrite Hf, Hsh in Hs.
    apply validateDiskSize_least in Hs as (d' & Hd' & Hle). assert (d' = d) as -> by congruence.
    apply ParsePartitionSize_ok in Hn as (_ & Hb' & Hlow & Hup); [|by eapply sizes_u64].
    assert (b = n) as -> by congruence. rewrite MinPersistentSize_val in Hlow.
    unfold DiskSize.Spec.room in Hup. rewrite fixedOccupiedSize_val in Hup. lia.
  - intros Hr Hsh Hk. assert (Hf : is_witness w = false).
    { destruct (is_witness w) eqn:E; [|done]. by apply is_witness_role in E. }
    assert (Ht : single_disk (install_of w) = false).
    { destruct (single_disk _) eqn:E; [|done]. by apply single_disk_shared in E. }
    rewrite Hk, Hf, Ht in Hs. apply bind_ok in Hs as ([] & Hl1%validateDiskSize_least & Hl2%validateDataDiskSize_least).
    done.
Qed.

(** C5: The disk page is left forward only with disks that are large enough:
    after any key but ESC on an element of the page, either the focus is still
    on the page, or a witness has no data disk; a node with one disk has a
    persistent size that is well formed; and, unless the checks are skipped,
    the installation disk has at least 180 GiB for a witness or beside a data
    disk, which has 50 GiB itself, and 250 GiB when it is shared, the persistent
    partition then having at least 150 GiB and fitting beside the fixed
    partitions.  Sizes of disks are 64-bit numbers of bytes. *)
Theorem disk_page_leaves_checked p k h w w' :
  disk_keys p k = Some h -> k <> KeyEsc -> wz_focus w = Some p -> p ∈ disk_panels -> h w = (Ok tt, w') ->
  (exists q, wz_focus w' = Some q /\ q ∈ disk_panels) \/ disks_large w'.
Proof.
  intros Hk Hesc Hf Hp E. destruct (leaves_keys p k h Hk Hesc w w' E) as [[Hs|(q & Hq & Hs)]|Hd].
  - left. exists p. by rewrite Hs.
  - left. by exists q.
  - right. by apply disks_ok_large.
Qed.
End sizes.
End proofs.

(** ENTER on the persistent size of a disk of 500 GiB: the network page. *)
Section example.
Import Demo.
Definition at_size : wizard := snd (run byName (take 6 all_keys) first_page).
Lemma disk_page_leaves_checked_witness :
  wz_focus (snd (persistentSizeConfirm at_size)) = Some askInterfacePanel /\ disks_large (snd (persistentSizeConfirm at_size)).
Proof.
  assert (Hf : wz_focus (snd (persistentSizeConfirm at_size)) = Some askInterfacePanel) by vm_refl.
  split; [exact Hf|].
  assert (Hok : fst (persistentSizeConfirm at_size) = Ok tt) by vm_refl.
  assert (Hk : disk_keys persistentSizePanel KeyEnter = Some persistentSizeConfirm) by reflexivity.
  assert (Hw : wz_focus at_size = Some persistentSizePanel) by vm_refl.
  assert (Hp : persistentSizePanel ∈ disk_panels) by (right; right; right; by left).
  assert (Hne : KeyEnter <> KeyEsc) by discriminate.
  assert (Hu : forall wd dev n, mc_diskSize (machine wd) dev = Ok n -> is_u64 n).
  { intros wd dev n Hn. unfold mc_diskSize in Hn. cbn in Hn. injection Hn as <-. split; by vm_compute. }
  pose proof (disk_page_leaves_checked Hu _ _ _ _ _ Hk Hne Hw Hp (st_returned _ _ _ Hok)) as [(q & Hq & Hin)|Hd]; [|exact Hd].
  rewrite Hf in Hq. injection Hq as <-. by apply (bool_decide_eq_true_2 _) in Hin.
Defined.
End example.
