(* ===== verification/WidgetsProofs.v ===== *)
(** * WidgetsProofs: what a list of options ends with

    The cursor and the value of a select, the marks of a list with several
    choices, how long the marks are kept, and the rows of options that wrap. *)
From Stdlib Require Import ZArith Lia Ascii String.
From stdpp Require Import base tactics list gmap strings.
From S2P Require Import Prelude GoStrings Text DiskOptions Gui Widgets.
Local Open Scope Z_scope.

(** ** A list on the screen *)

Section lists.
Context {H : Type}.
Notation gui_state := (Gui (binding H)).

(** The view [name] shows [texts], one per row, with the cursor in row [i]. *)
Record listed (name : string) (texts : list string) (i : nat) (g : gui_state) : Prop := {
  li_current : g_current g = Some name;
  li_view : exists v, g_views g !! name = Some v /\ v_lines v = texts ++ [""] /\
    v_ox v = 0 /\ v_oy v = 0 /\ v_cy v = Z.of_nat i /\
    0 <= v_cx v < fst (Size v) /\ snd (Size v) = Z.of_nat (length texts);
  li_in : (i < length texts)%nat
}.

Lemma listed_ext name texts i g g' : g_current g' = g_current g -> g_views g' = g_views g -> listed name texts i g -> listed name texts i g'.
Proof. intros E1 E2 [? ? ?]. by split; rewrite ?E1, ?E2. Qed.

(** The arrow keys on a list of [n] rows. *)
Definition arrow (k : Key) : Prop := k = KeyArrowUp \/ k = KeyArrowDown.
Definition walk (n i : nat) (k : Key) : nat :=
  match k with
  | KeyArrowUp => pred i
  | KeyArrowDown => if bool_decide (S i < n)%nat then S i else i
  | _ => i
  end.

Lemma walk_in n i k : (i < n)%nat -> (walk n i k < n)%nat.
Proof. intros Hi. destruct k; cbn [walk]; try case_bool_decide; lia. Qed.

Lemma listed_put name texts i j g v :
  listed name texts i g -> g_views g !! name = Some v -> (j < length texts)%nat ->
  listed name texts j (put_views (<[name := put_cursor (v_cx v) (Z.of_nat j) v]> (g_views g)) g).
Proof.
  intros [Hc (v' & Hv & Hl & Hox & Hoy & Hcy & Hcx & Hs) Hi] Hv' Hj. rewrite Hv in Hv'. injection Hv' as ->.
  split; [done| |done]. exists (put_cursor (v_cx v) (Z.of_nat j) v). cbn. by rewrite lookup_insert_eq.
Qed.

Lemma SetCursor_row v j : 0 <= v_cx v < fst (Size v) -> 0 <= j < snd (Size v) ->
  SetCursor (v_cx v) j v = Ok (put_cursor (v_cx v) j v).
Proof.
  intros Hx Hj. unfold SetCursor. unfold Size in *. cbn [fst snd] in *.
  rewrite (proj2 (Z.ltb_ge (v_cx v) 0)), (proj2 (Z.leb_gt _ (v_cx v))), (proj2 (Z.ltb_ge j 0)), (proj2 (Z.leb_gt _ j)) by lia.
  done.
Qed.

(** The cursor stays in the list: the origin never moves. *)
Lemma ArrowUp_listed name texts i g : listed name texts i g ->
  exists g', ArrowUp name g = (Ok tt, g') /\ listed name texts (pred i) g' /\ g_keybindings g' = g_keybindings g /\
    Size <$> (g_views g' !! name) = Size <$> (g_views g !! name).
Proof.
  intros Hl. pose proof Hl as [Hc (v & Hv & Hli & Hox & Hoy & Hcy & Hcx & Hs) Hi].
  unfold ArrowUp, mbind, st_bind, GetView. rewrite Hv. unfold isAtTop. rewrite Hcy.
  destruct i as [|i]; [exists g; by rewrite Hv|]. rewrite (proj2 (Z.eqb_neq _ _)) by lia.
  unfold move. rewrite Hcy. replace (Z.of_nat (S i) + -1) with (Z.of_nat i) by lia.
  rewrite SetCursor_row by lia. eexists. split; [reflexivity|]. split; [apply (listed_put name texts (S i)); [done..|lia]|]. split; [done|].
  cbn. by rewrite lookup_insert_eq.
Qed.
Lemma ArrowDown_listed name texts i g : listed name texts i g ->
  exists g', ArrowDown name g = (Ok tt, g') /\ listed name texts (walk (length texts) i KeyArrowDown) g' /\
    g_keybindings g' = g_keybindings g /\ Size <$> (g_views g' !! name) = Size <$> (g_views g !! name).
Proof.
  intros Hl. pose proof Hl as [Hc (v & Hv & Hli & Hox & Hoy & Hcy & Hcx & Hs) Hi].
  unfold ArrowDown, mbind, st_bind, GetView. rewrite Hv. unfold isAtEnd, BufferLines. rewrite Hli, Hcy, length_app. cbn [length walk].
  rewrite (proj2 (Z.ltb_ge _ 2)) by lia. cbn [orb]. case_bool_decide as Hb.
  - rewrite (proj2 (Z.eqb_neq _ _)) by lia. unfold move. rewrite Hcy.
    replace (Z.of_nat i + 1) with (Z.of_nat (S i)) by lia. rewrite SetCursor_row by lia.
    eexists. split; [reflexivity|]. split; [by apply (listed_put name texts i)|]. split; [done|].
    cbn. by rewrite lookup_insert_eq.
  - rewrite (proj2 (Z.eqb_eq _ _)) by lia. exists g. by rewrite Hv.
Qed.

(** Texts written one per line on an empty view. *)
Lemma write_fresh texts : texts <> [] -> Forall plain texts -> head texts <> Some "" ->
  write_lines [] (String.concat "" (map println texts)) = texts ++ [""].
Proof.
  intros Hs Hp Hf. destruct texts as [|t texts]; [done|]. inversion_clear Hp as [|? ? Ht Hts].
  assert (E : String.concat "" (map println (t :: texts)) = println t +:+ String.concat "" (map println texts)).
  { destruct texts; [cbn; by rewrite string_app_nil_r|done]. }
  rewrite E, write_lines_app. unfold println at 1. rewrite write_lines_app, write_plain_first; [|done|by intros ->].
  change (write_lines [t] newline) with ([t] ++ [""]). by rewrite write_texts.
Qed.

(** ** What showing a panel leaves alone *)

(** What view [n] is, and what its keys and those of every view are bound to. *)
Definition bound (n : string) (g : gui_state) : list (string * Key * binding H) :=
  filter (fun kb => fst (fst kb) = n \/ fst (fst kb) = "") (g_keybindings g).
Definition same (n : string) (g g' : gui_state) : Prop := g_views g' !! n = g_views g !! n /\ bound n g' = bound n g.
#[local] Instance same_preorder n : PreOrder (same n).
Proof. split; [by split|]. intros g g' g'' [E1 E2] [E3 E4]. split; congruence. Qed.
(** [m] succeeds and leaves [n] alone. *)
Definition spares (n : string) {A} (m : G (binding H) A) (g : gui_state) : Prop := exists a g', m g = (Ok a, g') /\ same n g g'.

Lemma spares_bind n {A B} (m : G (binding H) A) (f : A -> G (binding H) B) g :
  spares n m g -> (forall a g', m g = (Ok a, g') -> spares n (f a) g') -> spares n (m ≫= f) g.
Proof.
  intros (a & g1 & E & Hs) Hf. destruct (Hf a g1 E) as (b & g2 & E2 & Hs2). exists b, g2.
  split; [unfold mbind, st_bind; by rewrite E|by etrans].
Qed.
Lemma spares_ret n {A} (a : A) g : spares n (mret a) g.
Proof. by exists a, g. Qed.
Lemma spares_known n x g : spares n (known x) g.
Proof. by eexists _, g. Qed.
Lemma spares_on_view n x f g : is_Some (g_views g !! x) -> x <> n -> spares n (on_view x f) g.
Proof.
  intros [v Hv] Hx. unfold on_view, spares, mbind, st_bind, GetView. rewrite Hv. eexists tt, _.
  split; [reflexivity|]. split; [by apply lookup_insert_ne|done].
Qed.
Lemma spares_current n x g : is_Some (g_views g !! x) -> spares n (SetCurrentView x) g.
Proof. intros [v Hv]. unfold SetCurrentView, spares. rewrite Hv. by eexists tt, _. Qed.
Lemma bound_app n g kbs : bound n (put_keybindings (g_keybindings g ++ kbs) g) = bound n g ++ filter (fun kb => fst (fst kb) = n \/ fst (fst kb) = "") kbs.
Proof. unfold bound. cbn. by rewrite filter_app. Qed.
Lemma spares_bind_keys n x keys g : x <> n -> x <> "" -> spares n (bind_keys x keys) g.
Proof.
  intros Hx He. revert g. induction keys as [|kb keys IH]; intros g; [apply spares_ret|].
  apply spares_bind; [|intros; apply IH]. eexists tt, _. split; [reflexivity|]. split; [done|].
  rewrite bound_app, filter_cons_False, filter_nil, app_nil_r; [done|]. by intros [?|?].
Qed.

(** A panel with a place of its own. *)
Record placed (p : Panel) : Prop := {
  pc_name : pn_Name p <> "";
  pc_x : pn_X0 p < pn_X1 p;
  pc_y : pn_Y0 p < pn_Y1 p;
  pc_set : default_location (H := H) 0 0 p = p
}.
Lemma placed_default maxX maxY p : placed p -> default_location maxX maxY p = p.
Proof.
  intros [_ Hx _ Hs]. revert Hs. unfold default_location. destruct (_ && _) eqn:E; [|done].
  intros Hs. exfalso. apply (f_equal pn_X0) in Hs as H0. apply (f_equal pn_X1) in Hs as H1. cbn in H0, H1. lia.
Qed.

Lemma spares_SetView n x x0 y0 x1 y1 (g : gui_state) : x0 < x1 -> y0 < y1 -> x <> "" -> x <> n ->
  spares n (SetView x x0 y0 x1 y1) g /\ is_Some (g_views (snd (SetView x x0 y0 x1 y1 g)) !! x).
Proof.
  intros Hx Hy Hne Hn. unfold spares, SetView. rewrite (proj2 (Z.leb_gt _ _)), (proj2 (Z.leb_gt _ _)) by lia.
  cbn [orb]. rewrite bool_decide_eq_false_2 by done.
  destruct (g_views g !! x) as [v|]; (split; [eexists _, _; split; [reflexivity|]; split; [by apply lookup_insert_ne|done]|]);
  cbn; rewrite lookup_insert_eq; by eexists.
Qed.
Lemma spares_make_view n p g : placed p -> pn_Name p <> n -> spares n (make_view p) g.
Proof.
  intros [Hne Hx Hy _] Hn. destruct (spares_SetView n (pn_Name p) _ _ _ _ g Hx Hy Hne Hn) as [Hs Ht].
  apply spares_bind; [exact Hs|]. intros new g1 E. rewrite E in Ht. cbn [snd] in Ht.
  destruct new; [|apply spares_ret].
  apply spares_bind; [by apply spares_on_view|]. intros [] g2 E2.
  assert (Hk : is_Some (g_views g2 !! pn_Name p)).
  { destruct Ht as [v Hv]. unfold on_view, mbind, st_bind, GetView in E2. rewrite Hv in E2. injection E2 as <-. cbn.
    rewrite lookup_insert_eq. by eexists. }
  apply spares_bind; [|intros; by apply spares_bind_keys].
  destruct (pn_Focus p); [by apply spares_current|apply spares_ret].
Qed.
Lemma spares_show_tips n p g : footerName <> n -> spares n (show_tips p) g.
Proof.
  intros Hn. unfold show_tips. apply spares_bind; [apply spares_known|]. intros there g1 E.
  injection E as E <-. destruct there; [|apply spares_ret].
  apply spares_on_view; [|done]. by apply bool_decide_eq_true in E.
Qed.

(** ** Widgets beside the terminal *)

Notation gl := (Widgets.gl (H := H)).
Notation wl := (Widgets.wl (H := H)).

Lemma zoom_gl {X A} (m : G (binding H) A) g (x : X) a g' : m g = (Ok a, g') -> zoom gl m (g, x) = (Ok a, (g', x)).
Proof. unfold zoom. cbn. by intros ->. Qed.
Lemma zoom_bind {S X A B} (l : lens S X) (m : st X A) (f : A -> st S B) s a t :
  m (get l s) = (Ok a, t) -> (zoom l m ≫= f) s = f a (put l t s).
Proof. intros E. unfold mbind, st_bind, zoom. by rewrite E. Qed.

Lemma Panel_Show_ok {X} n (l : lens X Panel) g x :
  (forall y, put l (get l y) y = y) -> placed (get l x) -> pn_Name (get l x) <> n -> footerName <> n ->
  exists g', Panel_Show gl (compose wl l) (mret tt) (g, x) = (Ok tt, (g', x)) /\ same n g g'.
Proof.
  intros Hl Hp Hn Hf. destruct (spares_make_view n (get l x) g Hp Hn) as ([] & g1 & E1 & S1).
  destruct (spares_show_tips n (get l x) g1 Hf) as ([] & g2 & E2 & S2). exists g2. split; [|by etrans].
  unfold Panel_Show, mbind, st_bind, read, modify, compose, mret, st_ret. cbn. rewrite placed_default by done.
  rewrite Hl. unfold zoom. cbn. rewrite E1. cbn. by rewrite E2.
Qed.

Lemma bind_keys_eq name keys (g : gui_state) :
  bind_keys name keys g = (Ok tt, put_keybindings (g_keybindings g ++ map (fun kb => (name, fst kb, snd kb)) keys) g).
Proof.
  revert g. induction keys as [|kb keys IH]; intros g; [cbn; rewrite app_nil_r; by destruct g|].
  unfold bind_keys. cbn [st_for_each]. unfold mbind, st_bind, SetKeybinding at 1, st_modify. fold (bind_keys name keys).
  rewrite IH. cbn. by rewrite <- app_assoc.
Qed.

(** What a key runs, from the bindings of the view. *)
Definition keyed (k : Key) (kbs : list (string * Key * binding H)) : list (binding H) := map snd (filter (fun kb => snd (fst kb) = k) kbs).
Lemma matching_bound k n g : g_current g = Some n -> matching k g = keyed k (bound n g).
Proof.
  intros Hc. unfold matching, keyed, bound. f_equal. rewrite list_filter_filter. apply list_filter_iff. intros kb. rewrite Hc.
  split; intros [? [E|E]]; split; try done; [by right|left; by injection E|right; by rewrite E|by left].
Qed.
Lemma keyed_app k a b : keyed k (a ++ b) = keyed k a ++ keyed k b.
Proof. unfold keyed. by rewrite filter_app, map_app. Qed.
Lemma keyed_none k kbs : Forall (fun kb => snd (fst kb) <> k) kbs -> keyed k kbs = [].
Proof.
  intros Hf. unfold keyed. induction Hf as [|kb kbs Hk _ IH]; [done|]. by rewrite filter_cons_False.
Qed.
Lemma keyed_own k name keys : Forall (fun kb => fst kb <> k) keys ->
  keyed k (filter (fun kb => fst (fst kb) = name \/ fst (fst kb) = "") (map (fun kb => (name, fst kb, snd kb)) keys)) = [].
Proof.
  intros Hf. apply keyed_none. apply Forall_forall. intros kb [_ Hin]%list_elem_of_filter.
  apply list_elem_of_fmap in Hin as (kb' & -> & Hin). rewrite Forall_forall in Hf. by apply Hf.
Qed.

(** ** A select with one choice *)

Section single.
Notation state := (gui_state * Select (H := H))%type.
Context (own : H -> st state unit) (opts : list Option).
Notation show := (Select_Show gl wl (Some (fun _ : state => Ok opts)) (mret tt)).
Notation press := (Select_press gl wl own).
Notation data := (Select_GetData (S := state) gl wl).

(** A select that is not on the screen, with its page. *)
Record fresh (s : state) : Prop := {
  fr_single : sl_multi (snd s) = false;
  fr_panel : placed (sl_Panel (snd s));
  fr_room : pn_X0 (sl_Panel (snd s)) + 1 < pn_X1 (sl_Panel (snd s));
  fr_closed : g_views (fst s) !! options_name (snd s) = None;
  fr_keys : forall k, arrow k -> Forall (fun kb => snd (fst kb) <> k) (bound (options_name (snd s)) (fst s)) /\
                         Forall (fun kb => fst kb <> k) (pn_KeyBindings (sl_Panel (snd s)));
  fr_value : sl_Value (snd s) = "" \/ sl_Value (snd s) ∈ map op_Value opts
}.
(** What the list may show. *)
Record showable : Prop := {
  sh_some : opts <> [];
  sh_plain : Forall plain (map op_Text opts);
  sh_first : head (map op_Text opts) <> Some ""
}.

(** The list is on the screen with the cursor in row [i]. *)
Record menu (i : nat) (s : state) : Prop := {
  mn_listed : listed (options_name (snd s)) (map op_Text opts) i (fst s);
  mn_options : sl_options (snd s) = opts;
  mn_up : keyed KeyArrowUp (bound (options_name (snd s)) (fst s)) = [BArrowUp];
  mn_down : keyed KeyArrowDown (bound (options_name (snd s)) (fst s)) = [BArrowDown]
}.

Lemma menu_data i s : menu i s -> exists o, opts !! i = Some o /\ data s = (Ok (op_Value o), s).
Proof.
  intros [[_ (v & Hv & Hl & _ & _ & Hcy & _) Hi] Ho _ _]. rewrite length_map in Hi.
  destruct (lookup_lt_is_Some_2 opts i Hi) as [o E]. exists o. split; [done|].
  unfold Select_GetData, mbind, st_bind, read. cbn. unfold zoom. cbn. unfold GetView. rewrite Hv. cbn.
  unfold BufferLines. rewrite Hl, bool_decide_eq_false_2 by (by intros [_ ?]%app_nil). unfold under_cursor. rewrite Hcy, Nat2Z.id, Ho, E.
  by destruct s.
Qed.

Lemma menu_step i s k : menu i s -> arrow k -> exists s', press k s = (Ok tt, s') /\ menu (walk (length opts) i k) s'.
Proof.
  intros [Hl Ho Hu Hd] Hk. destruct s as [g x]. cbn [fst snd] in *.
  pose proof (li_current _ _ _ _ Hl) as Hc.
  assert (Hs : exists g', (if bool_decide (k = KeyArrowUp) then ArrowUp (options_name x) else ArrowDown (options_name x)) g = (Ok tt, g') /\
    listed (options_name x) (map op_Text opts) (walk (length opts) i k) g' /\ g_keybindings g' = g_keybindings g).
  { destruct Hk as [-> | ->]; cbn.
    - destruct (ArrowUp_listed _ _ _ _ Hl) as (g' & ? & ? & ? & ?). by exists g'.
    - destruct (ArrowDown_listed _ _ _ _ Hl) as (g' & ? & Hli & ? & ?). exists g'. by rewrite length_map in Hli. }
  destruct Hs as (g' & E & Hl' & Hkb). exists (g', x). split.
  - unfold Select_press, mbind, st_bind, read. cbn. rewrite Hc. cbn [default].
    rewrite (matching_bound k _ g Hc).
    destruct Hk as [-> | ->]; cbn in E; [rewrite Hu|rewrite Hd]; cbn [st_for_each run_select_binding];
      unfold mbind, st_bind; by rewrite (zoom_gl _ _ _ _ _ E).
  - split; [done|done|..]; unfold bound; cbn [fst snd]; by rewrite Hkb.
Qed.

Lemma options_name_ne (x : Select (H := H)) : options_name x <> pn_Name (sl_Panel x) /\ options_name x <> footerName /\ options_name x <> "".
Proof.
  unfold options_name. assert (Hlen : String.length (pn_Name (sl_Panel x) +:+ "-options") = (String.length (pn_Name (sl_Panel x)) + 8)%nat).
  { rewrite <- !length_chars, chars_app, length_app. done. }
  split_and!; intros E; apply (f_equal String.length) in E; rewrite Hlen in E; [lia|cbn in E; lia|cbn in E; lia].
Qed.

Lemma write_list : showable -> write_lines [] (String.concat "" (map println (map op_Text opts))) = map op_Text opts ++ [""].
Proof. intros [Hs Hp Hf]. apply write_fresh; [by destruct opts|done|done]. Qed.

(** Once the view is made, its contents, the focus and the keys. *)
Definition list_view (x : Select (H := H)) : View :=
  let p := sl_Panel x in
  let y := pn_Y0 p + (if bool_decide (pn_Content p = "") then 0 else Z.of_nat (length (split_on nl_char (pn_Content p))) + 1) in
  put_Wrap true (newView (pn_X0 p) y (pn_X1 p) (y + Z.of_nat (length opts) + 1)).
Definition unwrapped (v : View) : View := put_Wrap false v.
(** The view as it is made, and once it wraps. *)
Definition make_list (x : Select (H := H)) (g : gui_state) : gui_state :=
  put_views (<[options_name x := unwrapped (list_view x)]> (g_views g)) g.
Definition wrap_list (x : Select (H := H)) (g : gui_state) : gui_state :=
  put_views (<[options_name x := list_view x]> (g_views (make_list x g))) (make_list x g).
Lemma on_view_wrap x g : on_view (options_name x) (put_Wrap true) (make_list x g) = (Ok tt, wrap_list x g).
Proof.
  unfold on_view, mbind, st_bind, GetView, make_list. cbn [g_views put_views]. by rewrite lookup_insert_eq.
Qed.
Lemma fill_ok g x : sl_multi x = false -> g_views g !! options_name x = Some (list_view x) -> sl_options x = opts -> showable ->
  fill_list gl wl (options_name x) (g, x) = (Ok tt, (put_views (<[options_name x := put_lines (map op_Text opts ++ [""]) (list_view x)]> (g_views g)) g, x)).
Proof.
  intros Hm Hv Ho Hs. unfold fill_list, mbind, st_bind, read. cbn. rewrite Hm. unfold zoom. cbn.
  unfold on_view, mbind, st_bind, GetView. rewrite Hv. cbn. unfold Write. rewrite Ho, <- (map_map op_Text println), <- write_list by done.
  done.
Qed.

Notation set_data := (Select_SetData (S := state) gl wl (Some (fun _ => Ok opts))).
(** Putting the cursor on the option of the stored value. *)
Lemma set_data_menu g x : menu 0 (g, x) -> pn_X0 (sl_Panel x) + 1 < pn_X1 (sl_Panel x) ->
  sl_Value x = "" \/ sl_Value x ∈ map op_Value opts ->
  exists i g', set_data (sl_Value x) (g, x) = (Ok tt, (g', x)) /\ menu i (g', x) /\
    (sl_Value x = "" -> i = 0%nat) /\ (sl_Value x <> "" -> exists o, opts !! i = Some o /\ op_Value o = sl_Value x).
Proof.
  intros Hm Hx Hv. unfold Select_SetData. case_bool_decide as He.
  { exists 0%nat, g. split; [|done]. unfold modify. cbn. rewrite <- He. by destruct x. }
  destruct Hv as [Hv|Hv]; [done|]. apply list_elem_of_fmap in Hv as (o0 & Ev & Hin).
  destruct (list_find_elem_of (fun o => op_Value o = sl_Value x) opts o0 Hin (eq_sym Ev)) as [[i o] Hfind].
  pose proof Hfind as (Hi & Ho & _)%list_find_Some. apply lookup_lt_Some in Hi as Hlt.
  destruct Hm as [Hl Hopts Hu Hd]. pose proof Hl as [Hc (v & Hv & Hli & Hox & Hoy & Hcy & Hcx & Hs) _].
  exists i, (put_views (<[options_name x := put_cursor 0 (Z.of_nat i) v]> (g_views g)) g). split.
  - assert (Eu : updateOptions wl (Some (fun _ : state => Ok opts)) (g, x) = (Ok tt, (g, x))).
    { unfold updateOptions, modify. cbn. cbn in Hopts. rewrite <- Hopts. by destruct x. }
    rewrite (st_run _ _ _ _ _ Eu), (st_run (read wl) _ (g, x) x (g, x) eq_refl). cbn in Hopts. rewrite Hopts, Hfind.
    assert (Ex : modify wl (put_sl_Value (op_Value o)) (g, x) = (Ok tt, (g, x))).
    { unfold modify. cbn. rewrite Ho. by destruct x. }
    rewrite (st_run _ _ _ _ _ Ex), (st_run (zoom gl (known _)) _ _ true (g, x)); [|unfold zoom; cbn; cbn in Hv; by rewrite Hv].
    cbn [negb]. rewrite (st_run (zoom gl (GetView _)) _ _ v (g, x)); [|unfold zoom, GetView; cbn; cbn in Hv; by rewrite Hv].
    rewrite (st_run (st_lift _) _ _ (put_cursor 0 (Z.of_nat i) v) (g, x)).
    + done.
    + unfold st_lift, SetCursor. rewrite Hox, Hoy. rewrite length_map in Hs. destruct (Size v) as [mx my]. cbn [fst snd] in *.
      rewrite (proj2 (Z.ltb_ge 0 0)), (proj2 (Z.leb_gt mx 0)), (proj2 (Z.ltb_ge (0 + Z.of_nat i) 0)),
        (proj2 (Z.leb_gt my _)) by lia. done.
  - split; [|by split; [|exists o]]. split; cbn [fst snd]; [|done..].
    split; [done| |by rewrite length_map]. exists (put_cursor 0 (Z.of_nat i) v). cbn. rewrite lookup_insert_eq.
    unfold Size in *. cbn in *. split_and!; try done; lia.
Qed.

(** The list is filled, gets the focus and its keys. *)
Notation populate x := (
  fill_list gl wl (options_name x) ≫= fun _ : unit =>
  zoom gl (SetCurrentView (options_name x)) ≫= fun _ : unit =>
  zoom gl (setOptionsKeyBindings false (options_name x)) ≫= fun _ : unit =>
  zoom gl (bind_keys (options_name x) (pn_KeyBindings (sl_Panel x)))).
Lemma populate_menu g x : sl_multi x = false -> sl_options x = opts -> showable ->
  pn_X0 (sl_Panel x) + 1 < pn_X1 (sl_Panel x) -> g_views g !! options_name x = Some (list_view x) ->
  (forall k, arrow k -> Forall (fun kb => snd (fst kb) <> k) (bound (options_name x) g) /\
                        Forall (fun kb => fst kb <> k) (pn_KeyBindings (sl_Panel x))) ->
  exists g', populate x (g, x) = (Ok tt, (g', x)) /\ menu 0 (g', x).
Proof.
  intros Hm Ho Hs Hx Hv Hk. pose proof (options_name_ne x) as (_ & _ & Hne).
  rewrite (st_run _ _ _ _ _ (fill_ok g x Hm Hv Ho Hs)).
  set (w := put_lines (map op_Text opts ++ [""]) (list_view x)).
  set (g3 := put_views _ _). assert (V3 : g_views g3 !! options_name x = Some w) by apply lookup_insert_eq.
  rewrite (st_run _ _ _ tt (put_current (Some (options_name x)) g3, x)) by (apply zoom_gl; unfold SetCurrentView; by rewrite V3).
  set (g4 := put_current _ _).
  rewrite (st_run _ _ _ tt (put_keybindings (g_keybindings g4 ++
     [(options_name x, KeyArrowUp, BArrowUp); (options_name x, KeyArrowDown, BArrowDown)]) g4, x))
    by (apply zoom_gl; unfold setOptionsKeyBindings, SetKeybinding, mbind, st_bind, st_modify; cbn; by rewrite <- app_assoc).
  set (g5 := put_keybindings _ _). eexists. split; [apply zoom_gl, bind_keys_eq|].
  assert (B : forall k, arrow k -> keyed k (bound (options_name x) (put_keybindings (g_keybindings g5 ++
      map (fun kb => (options_name x, fst kb, snd kb)) (pn_KeyBindings (sl_Panel x))) g5)) =
      keyed k [(options_name x, KeyArrowUp, BArrowUp); (options_name x, KeyArrowDown, BArrowDown)]).
  { intros k Hkk. destruct (Hk k Hkk) as [Hb Ho']. rewrite bound_app, keyed_app, (keyed_own k) by done. rewrite app_nil_r.
    unfold g5 at 1. rewrite bound_app, keyed_app. change (bound (options_name x) g4) with (bound (options_name x) g).
    rewrite (keyed_none _ _ Hb). rewrite !filter_cons_True by (by left). done. }
  split; cbn [fst snd]; [|done|rewrite B; [done|by left]|rewrite B; [done|by right]].
  split; [done| |rewrite length_map; destruct Hs as [? _ _]; destruct opts; [done|cbn; lia]].
  exists w. split; [exact V3|]. unfold w, list_view, Size. cbn. split_and!; try done; [lia|]. rewrite length_map. lia.
Qed.

Lemma Select_Show_menu s : fresh s -> showable ->
  exists i s', show s = (Ok tt, s') /\ menu i s' /\ options_name (snd s') = options_name (snd s) /\
    (sl_Value (snd s) = "" -> i = 0%nat) /\ (sl_Value (snd s) <> "" -> exists o, opts !! i = Some o /\ op_Value o = sl_Value (snd s)).
Proof.
  destruct s as [g x0]. intros [Hm Hp Hx Hc Hk Hv] Hsh. cbn [fst snd] in *.
  destruct (options_name_ne x0) as (N1 & N2 & N3). set (x := put_sl_options opts x0).
  destruct (Panel_Show_ok (options_name x0) (mkLens sl_Panel put_sl_Panel) g x0) as (g1 & E1 & [V1 B1]);
    [by intros []|done|by apply not_eq_sym|by apply not_eq_sym|].
  change (compose wl (mkLens sl_Panel put_sl_Panel)) with (select_panel (S := state) wl) in E1.
  unfold Select_Show. rewrite (st_run _ _ _ _ _ E1).
  rewrite (st_run _ _ _ tt (g1, x)) by done. rewrite (st_run (read wl) _ (g1, x) x (g1, x) eq_refl).
  change (options_name x) with (options_name x0) in *. change (sl_Panel x) with (sl_Panel x0).
  change (sl_options x) with opts. change (sl_multi x) with (sl_multi x0). rewrite Hm.
  set (g2 := wrap_list x g1).
  rewrite (st_run _ _ _ true (make_list x g1, x)).
  2: { apply zoom_gl. unfold SetView. rewrite (proj2 (Z.leb_gt _ _)), (proj2 (Z.leb_gt _ _)) by lia. cbn [orb].
       rewrite bool_decide_eq_false_2 by done. by rewrite V1, Hc. }
  assert (Ew : zoom gl (on_view (options_name x0) (put_Wrap true)) (make_list x g1, x) = (Ok tt, (g2, x)))
    by (apply zoom_gl, (on_view_wrap x)).
  destruct (populate_menu g2 x Hm eq_refl Hsh Hx) as (g6 & E6 & M6); [by apply lookup_insert_eq| |].
  { intros k Hkk. destruct (Hk k Hkk) as [Hb Ho]. split; [|done]. change (bound (options_name x) g2) with (bound (options_name x0) g1). by rewrite B1. }
  change (options_name x) with (options_name x0) in E6. change (sl_Panel x) with (sl_Panel x0) in E6.
  rewrite (st_run _ _ (make_list x g1, x) tt (g6, x)) by (rewrite (st_run _ _ _ _ _ Ew); exact E6).
  destruct (set_data_menu g6 x M6 Hx Hv) as (i & g' & E7 & M7 & H1 & H2).
  exists i, (g', x). done.
Qed.

Lemma walk_down n i d : (i + d < n)%nat -> foldl (walk n) i (replicate d KeyArrowDown) = (i + d)%nat.
Proof.
  revert i. induction d as [|d IH]; intros i Hd; [cbn; lia|]. cbn [replicate foldl walk].
  rewrite bool_decide_eq_true_2 by lia. rewrite IH by lia. lia.
Qed.
Lemma walk_up n i d : foldl (walk n) i (replicate d KeyArrowUp) = (i - d)%nat.
Proof. revert i. induction d as [|d IH]; intros i; cbn [replicate foldl walk]; [lia|]. rewrite IH. lia. Qed.

Lemma menu_keys keys i s : menu i s -> Forall arrow keys ->
  exists s', st_for_each press keys s = (Ok tt, s') /\ menu (foldl (walk (length opts)) i keys) s'.
Proof.
  intros Hm Hk. revert i s Hm. induction Hk as [|k keys Hk _ IH]; intros i s Hm; [by exists s|].
  destruct (menu_step i s k Hm Hk) as (s1 & E1 & M1). destruct (IH _ _ M1) as (s2 & E2 & M2).
  exists s2. split; [|exact M2]. cbn [st_for_each]. by rewrite (st_run _ _ _ _ _ E1).
Qed.

(** C25: A list with one choice works row by row: it is shown with the cursor on
    the stored value (the first option when none is stored); after any arrow
    keys the value read is the one of the option in the row reached, the text
    of that option being the line of the cursor; and every option can be
    reached.  Hence a choice is one of the options, and any of them. *)
Theorem select_choice s : fresh s -> showable ->
  exists i0 s0, show s = (Ok tt, s0) /\
    (sl_Value (snd s) = "" -> i0 = 0%nat) /\
    (sl_Value (snd s) <> "" -> exists o, opts !! i0 = Some o /\ op_Value o = sl_Value (snd s)) /\
    (forall keys, Forall arrow keys -> exists o v s1, st_for_each press keys s0 = (Ok tt, s1) /\
       opts !! foldl (walk (length opts)) i0 keys = Some o /\ data s1 = (Ok (op_Value o), s1) /\
       g_views (fst s1) !! options_name (snd s1) = Some v /\ v_lines v !! Z.to_nat (v_oy v + v_cy v) = Some (op_Text o)) /\
    (forall o, o ∈ opts -> exists keys s1, Forall arrow keys /\ st_for_each press keys s0 = (Ok tt, s1) /\
       data s1 = (Ok (op_Value o), s1)).
Proof.
  intros Hf Hs. destruct (Select_Show_menu s Hf Hs) as (i0 & s0 & E0 & M0 & _ & H1 & H2).
  exists i0, s0. split_and!; [done|done|done| |].
  - intros keys Hk. destruct (menu_keys keys i0 s0 M0 Hk) as (s1 & E1 & M1).
    destruct (menu_data _ _ M1) as (o & Ho & Hd). destruct M1 as [[_ (v & Hv & Hl & _ & Hoy & Hcy & _) Hi] _ _ _].
    exists o, v, s1. split_and!; try done. rewrite Hl, Hoy, Hcy, Z.add_0_l, Nat2Z.id, lookup_app_l by done.
    by rewrite list_lookup_fmap, Ho.
  - intros o (j & Hj)%list_elem_of_lookup. pose proof (lookup_lt_Some _ _ _ Hj) as Hlt.
    set (keys := if bool_decide (i0 <= j)%nat then replicate (j - i0) KeyArrowDown else replicate (i0 - j) KeyArrowUp).
    assert (Hk : Forall arrow keys).
    { unfold keys. case_bool_decide; apply Forall_replicate; [by right|by left]. }
    destruct (menu_keys keys i0 s0 M0 Hk) as (s1 & E1 & M1).
    assert (Hw : foldl (walk (length opts)) i0 keys = j).
    { unfold keys. case_bool_decide; [rewrite walk_down; lia|rewrite walk_up; lia]. }
    rewrite Hw in M1. destruct (menu_data _ _ M1) as (o' & Ho' & Hd). rewrite Hj in Ho'. injection Ho' as <-.
    by exists keys, s1.
Qed.
End single.

(** ** A select with several choices *)

Section several.
Context (own : H -> st (gui_state * Select (H := H)) unit) (opts : list Option).
Notation state := (gui_state * Select (H := H))%type.
Notation press := (Select_press gl wl own).

(** The options whose mark is set. *)
Definition chosen (marks : list bool) : list Option := omap (fun om => if snd om : bool then Some (fst om) else None) (zip opts marks).
Definition box (b : bool) (o : Option) : string := "[" +:+ (if b then "x" else " ") +:+ "] " +:+ op_Text o.
Definition boxes (marks : list bool) : list string := zip_with box marks opts.

Record checks (i : nat) (marks : list bool) (s : state) : Prop := {
  ck_listed : listed (options_name (snd s)) (boxes marks) i (fst s);
  ck_room : exists wh, Size <$> (g_views (fst s) !! options_name (snd s)) = Some wh /\ 1 < fst wh;
  ck_options : sl_options (snd s) = opts;
  ck_marks : sl_selectedIndexes (snd s) = marks;
  ck_length : length marks = length opts;
  ck_values : sl_values (snd s) = map op_Value (chosen marks);
  ck_up : keyed KeyArrowUp (bound (options_name (snd s)) (fst s)) = [BArrowUp];
  ck_down : keyed KeyArrowDown (bound (options_name (snd s)) (fst s)) = [BArrowDown];
  ck_space : keyed KeySpace (bound (options_name (snd s)) (fst s)) = [BToggle]
}.
(** The list as a state machine of its own. *)
Definition list_step (im : nat * list bool) (k : Key) : nat * list bool :=
  match k with KeySpace => (fst im, alter negb (fst im) (snd im)) | _ => (walk (length opts) (fst im) k, snd im) end.

Lemma marked_ok marks : (length opts <= length marks)%nat -> marked opts marks = Ok (boxes marks, map op_Value (chosen marks)).
Proof.
  unfold boxes, chosen. revert marks. induction opts as [|o l IH]; intros marks Hl; [by destruct marks|].
  destruct marks as [|b marks]; [cbn in Hl; lia|]. cbn [marked]. rewrite IH by (cbn in Hl; lia). cbn. by destruct b.
Qed.
Lemma marked_panic marks : (length marks < length opts)%nat -> marked opts marks = Panic.
Proof.
  revert marks. induction opts as [|o l IH]; intros marks Hl; [cbn in Hl; lia|].
  destruct marks as [|b marks]; [done|]. cbn [marked]. rewrite IH by (cbn in Hl; lia). done.
Qed.
Lemma length_boxes marks : length marks = length opts -> length (boxes marks) = length opts.
Proof. intros Hl. unfold boxes. rewrite length_zip_with. lia. Qed.
Lemma boxes_plain marks : Forall (fun o => plain (op_Text o)) opts -> Forall plain (boxes marks).
Proof.
  intros Hp. apply Forall_forall. intros t Ht. apply elem_of_lookup_zip_with in Ht as (i & b & o & -> & _ & Ho).
  rewrite Forall_forall in Hp. destruct (Hp o ltac:(by eapply list_elem_of_lookup_2)) as [Hn Hr].
  unfold plain, box. rewrite !has_char_app, Hn, Hr. by destruct b.
Qed.
Lemma flip_alter i marks : (i < length marks)%nat -> flip i marks = Ok (alter negb i marks).
Proof.
  intros Hi. unfold flip. destruct (lookup_lt_is_Some_2 _ _ Hi) as [b Hb]. rewrite Hb. f_equal.
  apply list_eq. intros j. destruct (decide (i = j)) as [->|Hne].
  - rewrite list_lookup_insert_eq, list_lookup_alter_eq, Hb by done. done.
  - by rewrite list_lookup_insert_ne, list_lookup_alter_ne.
Qed.

(** Writing the marks anew: up to the marks. *)
Lemma status_start g x i v :
  g_views g !! options_name x = Some v -> sl_options x = opts -> (i < length opts)%nat ->
  v_cy v = Z.of_nat i -> 1 < fst (Size v) -> snd (Size v) = Z.of_nat (length opts) ->
  let v2 := put_cursor 1 (v_cy v) (put_lines [] v) in
  let g2 := put_views (<[options_name x := v2]> (<[options_name x := put_lines [] v]> (g_views g))) g in
  updateSelectedStatus gl wl (options_name x) (g, x) = ('(texts, values) ← st_lift (marked opts (sl_selectedIndexes x));
    _ ← zoom gl (on_view (options_name x) (Write (String.concat "" (map println texts))));
    modify wl (fun s => put_sl_Value (join "," values) (put_sl_values values s)) : st state unit) (g2, x).
Proof.
  intros Hv Ho Hi Hcy Hw Hh. cbv zeta. unfold updateSelectedStatus.
  set (w1 := put_lines [] v). set (g1 := put_views (<[options_name x := w1]> (g_views g)) g).
  assert (V1 : g_views g1 !! options_name x = Some w1) by apply lookup_insert_eq.
  rewrite (st_run _ _ _ tt (g1, x)).
  2: { apply zoom_gl. unfold on_view, mbind, st_bind, GetView. by rewrite Hv. }
  rewrite (st_run (zoom gl (GetView _)) _ _ w1 (g1, x)) by (apply zoom_gl; unfold GetView; by rewrite V1).
  rewrite (st_run (st_lift _) _ _ (put_cursor 1 (v_cy v) w1) (g1, x)).
  2: { unfold st_lift, SetCursor. change (Size w1) with (Size v). destruct (Size v) as [mx my]. cbn [fst snd] in *.
       change (v_cy w1) with (v_cy v). rewrite Hcy. rewrite (proj2 (Z.ltb_ge 1 0)), (proj2 (Z.leb_gt mx 1)), (proj2 (Z.ltb_ge _ 0)),
         (proj2 (Z.leb_gt my _)) by lia. done. }
  set (w2 := put_cursor 1 (v_cy v) w1). set (g2 := put_views (<[options_name x := w2]> (g_views g1)) g1).
  rewrite (st_run _ _ _ tt (g2, x)) by done. rewrite (st_run (read wl) _ (g2, x) x (g2, x) eq_refl).
  by rewrite Ho.
Qed.
Lemma status_ok g x i marks v :
  g_views g !! options_name x = Some v -> sl_options x = opts -> sl_selectedIndexes x = marks -> length marks = length opts ->
  Forall (fun o => plain (op_Text o)) opts -> (i < length opts)%nat ->
  v_ox v = 0 -> v_oy v = 0 -> v_cy v = Z.of_nat i -> 1 < fst (Size v) -> snd (Size v) = Z.of_nat (length opts) ->
  exists g' x', updateSelectedStatus gl wl (options_name x) (g, x) = (Ok tt, (g', x')) /\
    g_keybindings g' = g_keybindings g /\ sl_Panel x' = sl_Panel x /\ sl_multi x' = sl_multi x /\ g_current g' = g_current g /\
    listed (options_name x) (boxes marks) i (put_current (Some (options_name x)) g') /\ Size <$> (g_views g' !! options_name x) = Some (Size v) /\
    sl_options x' = opts /\ sl_selectedIndexes x' = marks /\ sl_values x' = map op_Value (chosen marks).
Proof.
  intros Hv Ho Hm Hl Hp Hi Hox Hoy Hcy Hw Hh. rewrite (status_start g x i v) by done.
  set (w2 := put_cursor 1 (v_cy v) (put_lines [] v)). set (g2 := put_views _ g).
  assert (V2 : g_views g2 !! options_name x = Some w2) by apply lookup_insert_eq.
  rewrite (st_run (st_lift _) _ _ (boxes marks, map op_Value (chosen marks)) (g2, x)).
  2: { unfold st_lift. by rewrite Hm, marked_ok by lia. }
  set (w3 := put_lines (boxes marks ++ [""]) w2). set (g3 := put_views (<[options_name x := w3]> (g_views g2)) g2).
  rewrite (st_run _ _ _ tt (g3, x)).
  2: { apply zoom_gl. unfold on_view, mbind, st_bind, GetView. rewrite V2. unfold Write. cbn [v_lines w2 put_lines put_cursor].
       rewrite write_fresh; [done| |by apply boxes_plain|].
       - intros E. apply (f_equal length) in E. rewrite length_boxes in E by done. cbn in E. lia.
       - unfold boxes. by destruct marks, opts. }
  eexists g3, _. split; [reflexivity|]. split_and!; try done.
  - split; [done| |by rewrite length_boxes]. exists w3. rewrite length_boxes by done. split; [apply lookup_insert_eq|].
    unfold Size in *. cbn in *. split_and!; try done; lia.
  - cbn. by rewrite lookup_insert_eq.
Qed.

Hypothesis opts_plain : Forall (fun o => plain (op_Text o)) opts.
Lemma checks_step i marks s k : checks i marks s -> arrow k \/ k = KeySpace ->
  exists s', press k s = (Ok tt, s') /\ checks (fst (list_step (i, marks) k)) (snd (list_step (i, marks) k)) s' /\
    g_keybindings (fst s') = g_keybindings (fst s) /\ sl_Panel (snd s') = sl_Panel (snd s) /\ sl_multi (snd s') = sl_multi (snd s).
Proof.
  intros [Hl Hroom Ho Hm Hlen Hval Hu Hd Hsp] Hk. destruct s as [g x]. cbn [fst snd] in *.
  pose proof Hl as [Hc (v & Hv & Hli & Hox & Hoy & Hcy & Hcx & Hs) Hi]. rewrite length_boxes in Hi, Hs by done.
  assert (Hp : press k (g, x) = st_for_each (run_select_binding gl wl own (options_name x)) (keyed k (bound (options_name x) g)) (g, x)).
  { unfold Select_press, mbind, st_bind, read. cbn. by rewrite (matching_bound k _ g Hc), Hc. }
  rewrite Hp. clear Hp. destruct Hk as [[-> | ->] | ->].
  - destruct (ArrowUp_listed _ _ _ _ Hl) as (g' & E & Hl' & Hkb & Hsz). exists (g', x). rewrite Hu.
    cbn [st_for_each run_select_binding list_step walk fst snd].
    rewrite (st_run _ _ _ _ _ (zoom_gl _ _ _ _ _ E)). split; [done|].
    split; [|done]. split; cbn [fst snd]; unfold bound; rewrite ?Hkb, ?Hsz; done.
  - destruct (ArrowDown_listed _ _ _ _ Hl) as (g' & E & Hl' & Hkb & Hsz). exists (g', x). rewrite Hd.
    rewrite length_boxes in Hl' by done. cbn [st_for_each run_select_binding list_step fst snd].
    rewrite (st_run _ _ _ _ _ (zoom_gl _ _ _ _ _ E)). split; [done|].
    split; [|done]. split; cbn [fst snd]; unfold bound; rewrite ?Hkb, ?Hsz; done.
  - destruct Hroom as (wh & Hwh & Hw). rewrite Hv in Hwh. injection Hwh as <-.
    set (x1 := put_sl_indexes (alter negb i marks) x).
    destruct (status_ok g x1 i (alter negb i marks) v) as (g' & x' & E & Hkb & Hpn & Hmu & Hcu & Hl' & Hsz & Ho' & Hm' & Hval'); try done.
    { by rewrite length_alter. }
    change (options_name x1) with (options_name x) in *.
    replace (put_current (Some (options_name x)) g') with g' in Hl' by (rewrite Hc in Hcu; rewrite <- Hcu; by destruct g').
    exists (g', x'). rewrite Hsp. cbn [st_for_each run_select_binding list_step fst snd].
    assert (En : options_name x' = options_name x) by (unfold options_name; by rewrite Hpn).
    assert (Et : toggle gl wl (options_name x) (g, x) = (Ok tt, (g', x'))).
    { unfold toggle. rewrite (st_run (zoom gl (GetView _)) _ _ v (g, x)) by (apply zoom_gl; unfold GetView; by rewrite Hv).
      rewrite (st_run (read wl) _ (g, x) x (g, x) eq_refl). rewrite Ho, Hcy, (proj2 (Z.leb_le _ _)) by lia.
      rewrite Nat2Z.id, Hm, flip_alter by lia. rewrite (st_run _ _ (g, x) tt (g, x1)) by done. exact E. }
    rewrite (st_run _ _ _ _ _ Et). split; [done|].
    split; [|done]. split; cbn [fst snd]; rewrite ?En; unfold bound; rewrite ?Hkb; try done; [by exists (Size v)|by rewrite length_alter].
Qed.

Lemma checks_keys i marks s keys : checks i marks s -> Forall (fun k => arrow k \/ k = KeySpace) keys ->
  exists s', st_for_each press keys s = (Ok tt, s') /\
    checks (fst (foldl list_step (i, marks) keys)) (snd (foldl list_step (i, marks) keys)) s' /\
    g_keybindings (fst s') = g_keybindings (fst s) /\ sl_Panel (snd s') = sl_Panel (snd s) /\ sl_multi (snd s') = sl_multi (snd s).
Proof.
  intros Hc Hk. revert i marks s Hc. induction Hk as [|k keys Hk _ IH]; intros i marks s Hc; [by exists s|].
  destruct (checks_step i marks s k Hc Hk) as (s1 & E1 & C1 & K1 & P1 & M1).
  destruct (list_step (i, marks) k) as [i1 m1] eqn:El.
  destruct (IH _ _ _ C1) as (s2 & E2 & C2 & K2 & P2 & M2). exists s2. cbn [st_for_each foldl]. rewrite El.
  split_and!; [by rewrite (st_run _ _ _ _ _ E1)|exact C2|congruence..].
Qed.

(** C26: A list with several choices is the state machine of its rows: after
    any arrow keys and spaces, the marks are those of the rows on which SPACE
    was pressed an odd number of times, the values are those of the marked
    options, in the order of the list, and the boxes on the screen say so. *)
Theorem list_marks i marks s keys : checks i marks s -> Forall (fun k => arrow k \/ k = KeySpace) keys ->
  exists s', st_for_each press keys s = (Ok tt, s') /\
    sl_values (snd s') = map op_Value (chosen (snd (foldl list_step (i, marks) keys))) /\
    checks (fst (foldl list_step (i, marks) keys)) (snd (foldl list_step (i, marks) keys)) s'.
Proof.
  intros Hc Hk. destruct (checks_keys i marks s keys Hc Hk) as (s' & E & C & _). exists s'.
  split; [exact E|]. split; [apply (ck_values _ _ _ C)|exact C].
Qed.

(** *** Opening the list *)

Record fresh_list (s : state) : Prop := {
  fl_multi : sl_multi (snd s) = true;
  fl_panel : placed (sl_Panel (snd s));
  fl_room : pn_X0 (sl_Panel (snd s)) + 2 < pn_X1 (sl_Panel (snd s));
  fl_closed : g_views (fst s) !! options_name (snd s) = None;
  fl_keys : forall k, arrow k \/ k = KeySpace ->
    Forall (fun kb => snd (fst kb) <> k) (bound (options_name (snd s)) (fst s)) /\
    Forall (fun kb => fst kb <> k) (pn_KeyBindings (sl_Panel (snd s)));
  fl_some : opts <> []
}.
Notation show := (Select_Show gl wl (Some (fun _ : state => Ok opts)) (mret tt)).
(** The marks a list is opened with. *)
Definition opening_marks (marks : list bool) : list bool :=
  if bool_decide (marks = []) then replicate (length opts) false else marks.

(** Up to the contents of the list. *)
Lemma show_until_fill s : fresh_list s -> exists g,
  let x := put_sl_options opts (snd s) in
  g_views g !! options_name x = Some (list_view opts x) /\ bound (options_name x) g = bound (options_name x) (fst s) /\
  show s = ((fill_list gl wl (options_name x) ≫= fun _ =>
             zoom gl (SetCurrentView (options_name x)) ≫= fun _ =>
             zoom gl (setOptionsKeyBindings true (options_name x)) ≫= fun _ =>
             zoom gl (bind_keys (options_name x) (pn_KeyBindings (sl_Panel x)))) ≫= fun _ => mret tt) (g, x).
Proof.
  destruct s as [g x0]. intros [Hm Hp Hx Hc Hk Hs]. cbn [fst snd] in *.
  destruct (options_name_ne x0) as (N1 & N2 & N3). set (x := put_sl_options opts x0).
  destruct (Panel_Show_ok (options_name x0) (mkLens sl_Panel put_sl_Panel) g x0) as (g1 & E1 & [V1 B1]);
    [by intros []|done|by apply not_eq_sym|by apply not_eq_sym|].
  change (compose wl (mkLens sl_Panel put_sl_Panel)) with (select_panel (S := state) wl) in E1.
  exists (wrap_list opts x g1).
  cbv zeta. split_and!; [by apply lookup_insert_eq|exact B1|].
  unfold Select_Show. rewrite (st_run _ _ _ _ _ E1).
  rewrite (st_run _ _ _ tt (g1, x)) by done. rewrite (st_run (read wl) _ (g1, x) x (g1, x) eq_refl).
  change (options_name x) with (options_name x0). change (sl_Panel x) with (sl_Panel x0).
  change (sl_options x) with opts. change (sl_multi x) with (sl_multi x0). rewrite Hm.
  assert (Ew : zoom gl (on_view (options_name x0) (put_Wrap true)) (make_list opts x g1, x) = (Ok tt, (wrap_list opts x g1, x)))
    by (apply zoom_gl, (on_view_wrap opts x)).
  rewrite (st_run _ _ _ true (make_list opts x g1, x)).
  { unfold mbind at 1 2, st_bind at 1 2. unfold mbind at 2, st_bind at 2. by rewrite Ew. }
  apply zoom_gl. unfold SetView. rewrite (proj2 (Z.leb_gt _ _)), (proj2 (Z.leb_gt _ _)) by lia. cbn [orb].
  rewrite bool_decide_eq_false_2 by done. by rewrite V1, Hc.
Qed.

(** The marks as they are when the list is written. *)
Lemma fill_marks g x : sl_multi x = true -> sl_options x = opts ->
  exists x', sl_Panel x' = sl_Panel x /\ sl_multi x' = true /\ sl_options x' = opts /\
    sl_selectedIndexes x' = opening_marks (sl_selectedIndexes x) /\
    fill_list gl wl (options_name x) (g, x) = updateSelectedStatus gl wl (options_name x') (g, x').
Proof.
  intros Hm Ho. unfold fill_list. rewrite (st_run (read wl) _ (g, x) x (g, x) eq_refl). rewrite Hm, Ho. unfold opening_marks.
  case_bool_decide as He.
  - exists (put_sl_indexes (replicate (length opts) false) x). split_and!; [done..|].
    by rewrite (st_run _ _ (g, x) tt (g, put_sl_indexes (replicate (length opts) false) x)).
  - exists x. split_and!; try done.
Qed.

(** The keys of [n] and of every view: only [n] has new ones. *)
Definition own_keys_only (n : string) (g g' : gui_state) : Prop :=
  forall kb, kb ∈ bound n g' -> fst (fst kb) = n \/ kb ∈ bound n g.
Lemma own_keys_bind n keys g :
  Forall (fun kb => fst (fst kb) = n) keys -> own_keys_only n g (put_keybindings (g_keybindings g ++ keys) g).
Proof.
  intros Hn kb. rewrite bound_app, elem_of_app. intros [Hb|[_ Hin]%list_elem_of_filter]; [by right|left].
  rewrite Forall_forall in Hn. by apply Hn.
Qed.
Lemma own_keys_trans n g g' g'' : own_keys_only n g g' -> own_keys_only n g' g'' -> own_keys_only n g g''.
Proof. intros H1 H2 kb [?|Hb]%H2; [by left|by apply H1]. Qed.
Lemma own_keys_eq n g g' : bound n g' = bound n g -> own_keys_only n g g'.
Proof. intros E kb Hb. right. by rewrite <- E. Qed.

(** Focus and keys, on a list that was filled. *)
Lemma list_keys_checks g x marks :
  listed (options_name x) (boxes marks) 0 (put_current (Some (options_name x)) g) ->
  (exists wh, Size <$> (g_views g !! options_name x) = Some wh /\ 1 < fst wh) ->
  sl_options x = opts -> sl_selectedIndexes x = marks -> length marks = length opts -> sl_values x = map op_Value (chosen marks) ->
  (forall k, arrow k \/ k = KeySpace -> Forall (fun kb => snd (fst kb) <> k) (bound (options_name x) g) /\
    Forall (fun kb => fst kb <> k) (pn_KeyBindings (sl_Panel x))) ->
  exists g', (zoom gl (SetCurrentView (options_name x)) ≫= fun _ : unit =>
    zoom gl (setOptionsKeyBindings true (options_name x)) ≫= fun _ : unit =>
    zoom gl (bind_keys (options_name x) (pn_KeyBindings (sl_Panel x)))) (g, x) = (Ok tt, (g', x)) /\ checks 0 marks (g', x) /\
    own_keys_only (options_name x) g g'.
Proof.
  intros Hl Hr Ho Hm Hlen Hval Hk. pose proof (options_name_ne x) as (_ & _ & Hne).
  set (g4 := put_current (Some (options_name x)) g).
  rewrite (st_run _ _ _ tt (g4, x)).
  2: { apply zoom_gl. destruct Hr as (wh & Hwh & _). unfold SetCurrentView. by destruct (g_views g !! options_name x). }
  set (own_keys := [(options_name x, KeyArrowUp, BArrowUp); (options_name x, KeyArrowDown, BArrowDown); (options_name x, KeySpace, BToggle)]
    : list (string * Key * binding H)).
  rewrite (st_run _ _ _ tt (put_keybindings (g_keybindings g4 ++ own_keys) g4, x))
    by (apply zoom_gl; unfold setOptionsKeyBindings, SetKeybinding, mbind, st_bind, st_modify; cbn; by rewrite <- !app_assoc).
  set (g5 := put_keybindings _ _). eexists. split; [apply zoom_gl, bind_keys_eq|].
  assert (B : forall k, arrow k \/ k = KeySpace -> keyed k (bound (options_name x) (put_keybindings (g_keybindings g5 ++
      map (fun kb => (options_name x, fst kb, snd kb)) (pn_KeyBindings (sl_Panel x))) g5)) = keyed k own_keys).
  { intros k Hkk. destruct (Hk k Hkk) as [Hb Ho']. rewrite bound_app, keyed_app, (keyed_own k) by done. rewrite app_nil_r.
    unfold g5 at 1. rewrite bound_app, keyed_app. change (bound (options_name x) g4) with (bound (options_name x) g).
    rewrite (keyed_none _ _ Hb). unfold own_keys. rewrite !filter_cons_True by (by left). done. }
  split.
  - split; cbn [fst snd]; try done; [by eapply listed_ext, Hl|..]; (rewrite B; [done|]); unfold arrow; auto.
  - apply (own_keys_trans _ _ g5).
    + apply (own_keys_trans _ _ g4); [by apply own_keys_eq|]. apply own_keys_bind. by repeat constructor.
    + apply own_keys_bind. apply Forall_forall. intros kb (kb' & -> & _)%list_elem_of_fmap. done.
Qed.

Lemma Select_Show_checks s : fresh_list s ->
  (sl_selectedIndexes (snd s) = [] \/ length (sl_selectedIndexes (snd s)) = length opts -> exists s',
     show s = (Ok tt, s') /\ checks 0 (opening_marks (sl_selectedIndexes (snd s))) s' /\
     own_keys_only (options_name (snd s)) (fst s) (fst s') /\ sl_Panel (snd s') = sl_Panel (snd s) /\ sl_multi (snd s') = true) /\
  (sl_selectedIndexes (snd s) <> [] -> (length (sl_selectedIndexes (snd s)) < length opts)%nat -> fst (show s) = Panic).
Proof.
  intros Hf. destruct (show_until_fill s Hf) as (g & Hv & Hb & ->). destruct s as [g0 x0]. destruct Hf as [Hm Hp Hx Hc Hk Hs].
  cbn [fst snd] in *. set (x := put_sl_options opts x0) in *.
  destruct (fill_marks g x Hm eq_refl) as (x1 & Hp1 & Hm1 & Ho1 & Hi1 & Ef).
  assert (En : options_name x1 = options_name x) by (unfold options_name; by rewrite Hp1).
  assert (Hpos : (0 < length opts)%nat) by (destruct opts; [done|cbn; lia]).
  split.
  - intros Hlen. assert (Hl : length (opening_marks (sl_selectedIndexes x0)) = length opts).
    { unfold opening_marks. case_bool_decide; [apply length_replicate|]. by destruct Hlen. }
    destruct (status_ok g x1 0 (opening_marks (sl_selectedIndexes x0)) (list_view opts x))
      as (g' & x' & E & Hkb & Hpn & Hmu & Hcu & Hl' & Hsz & Ho' & Hm' & Hval'); rewrite ?En; try done;
      [unfold list_view, Size; cbn; lia|unfold list_view, Size; cbn; lia|].
    assert (En' : options_name x' = options_name x) by (rewrite <- En; unfold options_name; by rewrite Hpn).
    rewrite En, <- En' in Hl', Hsz.
    destruct (list_keys_checks g' x' (opening_marks (sl_selectedIndexes x0))) as (g6 & E6 & C6 & K6); try done.
    { exists (Size (list_view opts x)). split; [done|]. unfold list_view, Size. cbn. lia. }
    { intros k Hkk. destruct (Hk k Hkk) as [H1 H2]. rewrite En', Hpn, Hp1. unfold bound. rewrite Hkb.
      change (bound (options_name x) g) with (bound (options_name x) g) in Hb. unfold bound in Hb. rewrite Hb. done. }
    exists (g6, x'). split; [|split_and!; [done| | |cbn; congruence]].
    3: { cbn. by rewrite Hpn, Hp1. }
    2: { rewrite En' in K6. apply (own_keys_trans _ _ g); [by apply own_keys_eq|]. apply (own_keys_trans _ _ g'); [|exact K6].
         apply own_keys_eq. unfold bound. by rewrite Hkb. }
    rewrite Hpn, Hp1, En' in E6.
    rewrite (st_run _ _ (g, x) tt (g6, x')); [done|]. rewrite (st_run _ _ (g, x) tt (g', x')) by (rewrite Ef; exact E). exact E6.
  - intros Hne Hlt. unfold mbind at 1 2, st_bind at 1 2. rewrite Ef, En.
    assert (Ep : fst (updateSelectedStatus gl wl (options_name x) (g, x1)) = Panic).
    { rewrite <- En. rewrite (status_start g x1 0 (list_view opts x)) by (rewrite ?En; done || (unfold list_view, Size; cbn; lia)).
      unfold mbind, st_bind, st_lift. rewrite Hi1. unfold opening_marks. rewrite bool_decide_eq_false_2 by done.
      change (sl_selectedIndexes x) with (sl_selectedIndexes x0). by rewrite marked_panic. }
    destruct (updateSelectedStatus gl wl (options_name x) (g, x1)) as [r s']. cbn in Ep. by rewrite Ep.
Qed.

(** Closing the list: the view and its keys go, the select stays as it is. *)
Notation close := (Select_Close (S := state) gl wl (mret tt)).
Lemma Select_Close_ok i marks s : checks i marks s -> pn_Name (sl_Panel (snd s)) <> "" ->
  exists g', close s = (Ok tt, (g', snd s)) /\ g_views g' !! options_name (snd s) = None /\
    forall kb, kb ∈ bound (options_name (snd s)) g' -> kb ∈ bound (options_name (snd s)) (fst s) /\ fst (fst kb) <> options_name (snd s).
Proof.
  intros Hc Hne. destruct s as [g x]. cbn [fst snd] in *. destruct (ck_listed _ _ _ Hc) as [_ (v & Hv & _) _]. cbn [fst snd] in Hv.
  destruct (options_name_ne x) as (N1 & _ & N3). unfold Select_Close. rewrite (st_run (read wl) _ (g, x) x (g, x) eq_refl).
  set (g1 := put_keybindings (filter (fun kb => fst (fst kb) <> options_name x) (g_keybindings g)) g).
  rewrite (st_run _ _ _ tt (g1, x)) by done.
  set (g2 := put_views (delete (options_name x) (g_views g1)) g1).
  rewrite (st_run _ _ _ tt (g2, x)) by (apply zoom_gl; unfold DeleteView; cbn; by rewrite Hv).
  assert (B2 : forall kb, kb ∈ bound (options_name x) g2 -> kb ∈ bound (options_name x) g /\ fst (fst kb) <> options_name x).
  { unfold bound. cbn. intros kb [Hn [Hd Hin]%list_elem_of_filter]%list_elem_of_filter. split; [|done]. by apply list_elem_of_filter. }
  assert (V2 : g_views g2 !! options_name x = None) by apply lookup_delete_eq.
  unfold Panel_Close. rewrite (st_run (read (select_panel (S := state) wl)) _ (g2, x) (sl_Panel x) (g2, x) eq_refl).
  rewrite (st_run (zoom gl (known _)) _ _ (bool_decide (is_Some (g_views g2 !! pn_Name (sl_Panel x)))) (g2, x)) by done.
  case_bool_decide as Hk; [|by exists g2].
  rewrite (st_run _ _ _ tt (put_keybindings (filter (fun kb => fst (fst kb) <> pn_Name (sl_Panel x)) (g_keybindings g2)) g2, x)) by done.
  set (g3 := put_keybindings _ g2). destruct Hk as [w Hw].
  set (g4 := put_views (delete (pn_Name (sl_Panel x)) (g_views g3)) g3).
  rewrite (st_run _ _ _ tt (g4, x)) by (apply zoom_gl; unfold DeleteView; change (g_views g3) with (g_views g2); by rewrite Hw).
  exists g4. split; [done|]. split; [cbn; by rewrite lookup_delete_ne|].
  unfold bound at 1. cbn. intros kb [Hn [_ Hin]%list_elem_of_filter]%list_elem_of_filter. apply B2. by apply list_elem_of_filter.
Qed.
End several.

(** C27: A list with several choices is opened with no mark the first time, and
    afterwards with the marks of the last time, row by row.  When the options
    are as many as the marks (or there are none), the list is shown with the
    marks it has; after any arrow keys and spaces and once the list is closed,
    the marks are those of the rows and the list can be opened again, with
    these options or others: as many, and the rows that were marked are marked;
    more, and it is not opened, the marks are an index out of range.  Neither
    keys nor closing forget the marks; the [Reset] of a drop-down does. *)
Theorem list_reopened own (opts : list Option) s keys :
  Forall (fun o => plain (op_Text o)) opts -> fresh_list opts s -> Forall (fun k => arrow k \/ k = KeySpace) keys ->
  (sl_selectedIndexes (snd s) = [] \/ length (sl_selectedIndexes (snd s)) = length opts ->
     exists s1 s2 s3, Select_Show gl wl (Some (fun _ => Ok opts)) (mret tt) s = (Ok tt, s1) /\
       checks opts 0 (opening_marks opts (sl_selectedIndexes (snd s))) s1 /\
       st_for_each (Select_press gl wl own) keys s1 = (Ok tt, s2) /\
       Select_Close gl wl (mret tt) s2 = (Ok tt, s3) /\
       sl_selectedIndexes (snd s3) = snd (foldl (list_step opts) (0%nat, opening_marks opts (sl_selectedIndexes (snd s))) keys) /\
       forall others, others <> [] -> fresh_list others s3) /\
  (sl_selectedIndexes (snd s) <> [] -> (length (sl_selectedIndexes (snd s)) < length opts)%nat ->
     fst (Select_Show gl wl (Some (fun _ => Ok opts)) (mret tt) s) = Panic) /\
  (forall d : DropDown (H := H), sl_selectedIndexes (dd_Select (DropDown_Reset d)) = []).
Proof.
  intros Hplain Hf Hk. destruct (Select_Show_checks opts Hplain s Hf) as [Hshow Hpanic]. split; [|by split].
  intros Hl. destruct (Hshow Hl) as (s1 & E1 & C1 & K1 & P1 & M1).
  destruct (checks_keys own opts Hplain 0 _ s1 keys C1 Hk) as (s2 & E2 & C2 & K2 & P2 & M2).
  destruct Hf as [_ Hp Hx _ Hkeys _].
  assert (Hn : options_name (snd s2) = options_name (snd s)) by (unfold options_name; congruence).
  destruct (Select_Close_ok opts _ _ s2 C2) as (g3 & E3 & V3 & B3); [rewrite P2, P1; apply Hp|].
  exists s1, s2, (g3, snd s2). split_and!; [done..|apply (ck_marks _ _ _ _ C2)|].
  intros others Ho. split; cbn [fst snd]; [congruence|rewrite P2, P1; exact Hp|rewrite P2, P1; exact Hx|exact V3| |exact Ho].
  intros k Hkk. rewrite P2, P1. destruct (Hkeys k Hkk) as [Hb Hown]. split; [|exact Hown].
  apply Forall_forall. intros kb [Hin Hne]%B3. rewrite Hn in Hin, Hne. unfold bound in Hin. rewrite K2 in Hin. change (kb ∈ bound (options_name (snd s)) (fst s1)) in Hin.
  apply K1 in Hin as [?|Hin]; [done|]. rewrite Forall_forall in Hb. by apply Hb.
Qed.
End lists.

(** The choice of the installation mode on a terminal of 80 columns. *)
Section example.
Definition modes : list Option := [mkOption "create" "Create a new Harvester cluster"; mkOption "join" "Join an existing Harvester cluster"].
Definition modes_panel : Select (H := string) :=
  mkSelect (put_KeyBindings [(KeyEnter, BOwn "askCreateConfirm")] (SetLocation 10 3 70 20 (sl_Panel (NewSelect "askCreate" "")))) "join" [] [] false [].
Lemma select_choice_witness :
  exists i0 s0, Select_Show gl wl (Some (fun _ => Ok modes)) (mret tt) (new_gui 80 24, modes_panel) = (Ok tt, s0) /\
    (sl_Value modes_panel <> "" -> exists o, modes !! i0 = Some o /\ op_Value o = "join").
Proof.
  destruct (select_choice (H := string) (fun _ => mret tt) modes (new_gui 80 24, modes_panel)) as (i0 & s0 & E & _ & Hi & _).
  - split; cbn; [done|by split|lia|done| |right; by right; left].
    intros k [-> | ->]; split; repeat constructor; done.
  - split; [done| |done]. repeat constructor.
  - exists i0, s0. split; [exact E|exact Hi].
Defined.

(** *** Long texts

    The rows of the theorems are the lines of the buffer.  They are the rows of
    the screen as long as every text is shorter than the list is wide; a longer
    one wraps, while the row of the cursor is still taken as the number of the
    option. *)
Lemma short_lines_rows v : Forall (fun t => (String.length t < Z.to_nat (fst (Size v)))%nat) (v_lines v) -> viewLines v = v_lines v.
Proof.
  unfold viewLines. destruct (v_Wrap v); [|done]. induction 1 as [|t l Ht _ IH]; [done|].
  cbn [map concat]. rewrite IH. unfold line_rows. by rewrite (proj2 (Nat.ltb_lt _ _) Ht).
Qed.
Definition long_text : string := of_chars (replicate 70 "x"%char).
Definition long_modes : list Option := [mkOption "a" long_text; mkOption "b" "b"].
(** One key down the cursor is on the second row of the first option, and the
    value is that of the second option. *)
Example wrapped_option_misread :
  let s := snd (Select_Show gl wl (Some (fun _ => Ok long_modes)) (mret tt) (new_gui 80 24, put_sl_Value "" modes_panel)) in
  let s := snd (Select_press gl wl (fun _ => mret tt) KeyArrowDown s) in
  fst (Select_GetData gl wl s) = Ok "b" /\
  (v ← g_views (fst s) !! "askCreate-options"; viewLines v !! Z.to_nat (v_cy v)) = Some (of_chars (replicate 11 "x"%char)).
Proof. split; vm_refl. Qed.

(** The disks to wipe. *)
Definition disks (l : list string) : list Option := map (fun d => mkOption ("/dev/" +:+ d) d) l.
Definition wipe_select (marks : list bool) : Select (H := string) :=
  let s := SetMulti true (mkSelect (SetLocation 30 5 69 6 (sl_Panel (NewSelect "wipe" ""))) "" [] [] true []) in put_sl_indexes marks s.
Lemma wipe_fresh marks opts : opts <> [] -> fresh_list opts (new_gui 80 24, wipe_select marks).
Proof. intros Ho. by split. Qed.
Lemma disks_plain l : Forall plain l -> Forall (fun o => plain (op_Text o)) (disks l).
Proof. intros Hl. induction Hl; by constructor. Qed.

Lemma list_marks_witness :
  exists s0 s1, Select_Show gl wl (Some (fun _ => Ok (disks ["sdb"; "sdc"]))) (mret tt) (new_gui 80 24, wipe_select []) = (Ok tt, s0) /\
    st_for_each (Select_press gl wl (fun _ => mret tt)) [KeySpace; KeyArrowDown; KeySpace; KeyArrowUp; KeySpace] s0 = (Ok tt, s1) /\
    sl_values (snd s1) = ["/dev/sdc"].
Proof.
  assert (Hp : Forall (fun o => plain (op_Text o)) (disks ["sdb"; "sdc"])) by (apply disks_plain; by repeat constructor).
  destruct (Select_Show_checks (disks ["sdb"; "sdc"]) Hp (new_gui 80 24, wipe_select []) (wipe_fresh [] (disks ["sdb"; "sdc"]) ltac:(discriminate)))
    as [(s0 & E0 & C0 & _) _]; [by left|].
  assert (Hk : Forall (fun k => arrow k \/ k = KeySpace) [KeySpace; KeyArrowDown; KeySpace; KeyArrowUp; KeySpace])
    by (repeat constructor; unfold arrow; auto).
  destruct (list_marks (fun _ => mret tt) (disks ["sdb"; "sdc"]) Hp 0 _ s0 _ C0 Hk) as (s1 & E1 & Hv & _).
  exists s0, s1. split; [exact E0|]. split; [exact E1|]. rewrite Hv. reflexivity.
Defined.

(** The disks changed since the marks were made: with as many disks another
    one is marked, with one more the console panics. *)
Lemma list_reopened_witness :
  fst (Select_Show gl wl (Some (fun _ => Ok (disks ["sdb"; "sdc"; "sdd"]))) (mret tt) (new_gui 80 24, wipe_select [true; false])) = Panic /\
  exists s1 s2 s3, Select_Show gl wl (Some (fun _ => Ok (disks ["sdb"; "sdc"]))) (mret tt) (new_gui 80 24, wipe_select [true; false]) = (Ok tt, s1) /\
    st_for_each (Select_press gl wl (fun _ => mret tt)) [KeyArrowDown; KeySpace] s1 = (Ok tt, s2) /\
    Select_Close gl wl (mret tt) s2 = (Ok tt, s3) /\ sl_selectedIndexes (snd s3) = [true; true].
Proof.
  assert (P3 : Forall (fun o => plain (op_Text o)) (disks ["sdb"; "sdc"; "sdd"])) by (apply disks_plain; by repeat constructor).
  assert (P2 : Forall (fun o => plain (op_Text o)) (disks ["sdb"; "sdc"])) by (apply disks_plain; by repeat constructor).
  pose (own := fun _ : string => mret tt : st (Gui (binding string) * Select (H := string)) unit).
  assert (Hk : Forall (fun k => arrow k \/ k = KeySpace) [KeyArrowDown; KeySpace]) by (repeat constructor; unfold arrow; auto).
  split.
  - destruct (list_reopened own (disks ["sdb"; "sdc"; "sdd"]) _ [] P3 (wipe_fresh [true; false] (disks ["sdb"; "sdc"; "sdd"]) ltac:(discriminate)) (Forall_nil_2 _)) as (_ & Hp & _).
    apply Hp; [discriminate|cbn; lia].
  - destruct (list_reopened own (disks ["sdb"; "sdc"]) _ _ P2 (wipe_fresh [true; false] (disks ["sdb"; "sdc"]) ltac:(discriminate)) Hk) as (Hs & _).
    destruct Hs as (s1 & s2 & s3 & E1 & _ & E2 & E3 & Hm & _); [by right|].
    exists s1, s2, s3. split; [exact E1|]. split; [exact E2|]. split; [exact E3|]. exact Hm.
Defined.

(** The same with the drop-down of the disk page: "sdc" is marked and taken,
    then the data disk is given up and the list is opened again. *)
Definition wiping (l : list string) (keys : list Key) : st (Gui (binding string) * DropDown (H := string)) unit :=
  st_for_each (press gl wl (fun _ => Ok (disks l)) (mret tt) (mret tt) (fun _ => mret tt)) keys.
Definition wipe_drop : Gui (binding string) * DropDown (H := string) :=
  let d := DropDown_SetMulti true (NewDropDown 80 24 "wipeDisks" "Wipe") in
  let d := put_dd_Panel (put_KeyBindings [(KeyEnter, BOwn "wipeDisksConfirm")] (dd_Panel d)) d in
  snd (DropDown_Show gl wl (fun _ => Ok (disks ["sdc"; "sdd"])) (mret tt) (new_gui 80 24, d)).
Example wipe_chosen : sl_values (dd_Select (snd (snd (wiping ["sdc"; "sdd"] [KeyTab; KeySpace; KeyEnter] wipe_drop)))) = ["/dev/sdc"] /\
  dd_Value (snd (snd (wiping ["sdc"; "sdd"] [KeyTab; KeySpace; KeyEnter] wipe_drop))) = "/dev/sdc".
Proof. split; vm_refl. Qed.
Example wipe_reopened_panics :
  fst (wiping ["sdb"; "sdc"; "sdd"] [KeyTab] (snd (wiping ["sdc"; "sdd"] [KeyTab; KeySpace; KeyEnter] wipe_drop))) = Panic.
Proof. vm_refl. Qed.
Example wipe_reopened_shifts :
  dd_Value (snd (snd (wiping ["sdb"; "sdc"] [KeyTab; KeyEnter] (snd (wiping ["sdc"; "sdd"] [KeyTab; KeySpace; KeyEnter] wipe_drop))))) = "/dev/sdb".
Proof. vm_refl. Qed.
End example.
