(* ===== verification/DashboardProofs.v ===== *)
(** * DashboardProofs: what the dashboard shows and how it is left

    First the keys that end the main loop ([no_quit], and [guards] for what is
    bound to them), then what the four goroutines may do to the state they share
    ([safe] programs, which the steps of [run] preserve in any order, with the
    answers they were given), then a run of one of them among the others ([runs]). *)
From Stdlib Require Import ZArith Lia Ascii String.
From stdpp Require Import base tactics list gmap strings relations.
From S2P Require Import Prelude GoStrings GoAny Config World Cos Preflight Network ConsoleUtil Text Gui Widgets Dashboard.
Local Open Scope Z_scope.

(** ** Code that does not end the main loop *)

Definition no_quit {S A} (m : st S A) : Prop := forall s, fst (m s) <> Err ErrQuit.
Lemma no_quit_ret {S A} (a : A) : no_quit (S := S) (mret a).
Proof. by intros s. Qed.
Lemma no_quit_bind {S A B} (m : st S A) (f : A -> st S B) : no_quit m -> (forall a, no_quit (f a)) -> no_quit (m ≫= f).
Proof.
  intros Hm Hf s. specialize (Hm s). unfold mbind, st_bind. destruct (m s) as [[a|e|] s1]; [apply Hf| |done].
  cbn in *. congruence.
Qed.
Lemma no_quit_modify {S} (f : S -> S) : no_quit (st_modify f).
Proof. by intros s. Qed.
Lemma no_quit_get {S} : no_quit (S := S) st_get.
Proof. by intros s. Qed.
Lemma no_quit_read {S T} (l : lens S T) : no_quit (read l).
Proof. by intros s. Qed.
Lemma no_quit_put {S T} (l : lens S T) f : no_quit (modify l f).
Proof. by intros s. Qed.
Lemma no_quit_zoom {S T A} (l : lens S T) (m : st T A) : no_quit m -> no_quit (zoom l m).
Proof. intros Hm s. specialize (Hm (get l s)). unfold zoom. by destruct (m (get l s)). Qed.
Lemma no_quit_try {S A} (m : st S A) : no_quit (st_try m).
Proof. intros s. unfold st_try. by destruct (m s) as [[] ?]. Qed.
Lemma no_quit_if {S A} (b : bool) (m n : st S A) : no_quit m -> no_quit n -> no_quit (if b then m else n).
Proof. by destruct b. Qed.
Lemma no_quit_lift {S A} (r : result A) : (forall e, r <> Err e) -> no_quit (S := S) (st_lift r).
Proof. intros Hr s. apply Hr. Qed.
Lemma no_quit_each {S A} (f : A -> st S unit) l : (forall x, no_quit (f x)) -> no_quit (st_for_each f l).
Proof. intros Hf. induction l as [|x l IH]; [apply no_quit_ret|]. by apply no_quit_bind. Qed.

Lemma no_quit_GetView {B} name : no_quit (GetView (B := B) name).
Proof. intros g. unfold GetView. by destruct (g_views g !! name). Qed.
Lemma no_quit_known {B} name : no_quit (known (B := B) name).
Proof. by intros g. Qed.
Lemma no_quit_SetView {B} name x0 y0 x1 y1 : no_quit (SetView (B := B) name x0 y0 x1 y1).
Proof. intros g. unfold SetView. destruct (_ || _); [done|]. case_bool_decide; [done|]. by destruct (g_views g !! name). Qed.
Lemma no_quit_DeleteView {B} name : no_quit (DeleteView (B := B) name).
Proof. intros g. unfold DeleteView. by destruct (g_views g !! name). Qed.
Lemma no_quit_SetCurrentView {B} name : no_quit (SetCurrentView (B := B) name).
Proof. intros g. unfold SetCurrentView. by destruct (g_views g !! name). Qed.

Create HintDb no_quit.
#[export] Hint Resolve no_quit_ret no_quit_modify no_quit_get no_quit_read no_quit_put no_quit_try no_quit_GetView no_quit_known
  no_quit_SetView no_quit_DeleteView no_quit_SetCurrentView : no_quit.
Ltac no_quits :=
  repeat lazymatch goal with
  | |- no_quit (_ ≫= _) => apply no_quit_bind; [|intros]
  | |- no_quit (zoom _ _) => apply no_quit_zoom
  | |- no_quit (st_for_each _ _) => apply no_quit_each; intros
  | |- no_quit (match ?x with _ => _ end) => destruct x
  | |- no_quit (let _ := _ in _) => cbv zeta
  | |- no_quit _ => first [solve [auto with no_quit nocore] | match goal with |- no_quit ?m => let h := head m in unfold h end]
  end.

(** Formatting a text does not fail (it may panic). *)
Lemma formatContent_no_err c w h wrap trunc e : formatContent c w h wrap trunc <> Err e.
Proof.
  unfold formatContent, truncate_content, cut. destruct trunc; [|done].
  repeat (case_match; try done); cbn in *; simplify_eq.
Qed.

Section quit.
Context `{Host} `{Node}.

Lemma no_quit_on_view {B} name f : no_quit (on_view (B := B) name f).
Proof. unfold on_view, PutView. no_quits. Qed.
Lemma no_quit_bind_keys {K} name keys : no_quit (bind_keys (H := K) name keys).
Proof. unfold bind_keys, SetKeybinding. no_quits. Qed.
Lemma no_quit_fail {S A} e : e <> ErrQuit -> no_quit (S := S) (A := A) (st_fail e).
Proof. intros He s [=]. congruence. Qed.
Lemma no_quit_Panel_Show {K S} (g : lens S (Gui (binding K))) p h : no_quit h -> no_quit (Panel_Show g p h).
Proof.
  intros Hh. unfold Panel_Show, make_view, show_tips. no_quits; auto using no_quit_on_view, no_quit_bind_keys with no_quit.
Qed.
Lemma no_quit_Panel_Close {K S} (g : lens S (Gui (binding K))) p h : no_quit h -> no_quit (Panel_Close g p h).
Proof. intros Hh. unfold Panel_Close, DeleteKeybindings. no_quits; auto with no_quit. Qed.
Lemma no_quit_Input_SetData {K S} (g : lens S (Gui (binding K))) i x : no_quit (Input_SetData g i x).
Proof. unfold Input_SetData. no_quits. Qed.
Lemma no_quit_Input_Show {K S} (g : lens S (Gui (binding K))) i h : no_quit h -> no_quit (Input_Show g i h).
Proof.
  intros Hh. unfold Input_Show. no_quits; auto using no_quit_Panel_Show, no_quit_on_view, no_quit_bind_keys, no_quit_Input_SetData with no_quit.
Qed.
Lemma no_quit_Input_Close {K S} (g : lens S (Gui (binding K))) i h : no_quit h -> no_quit (Input_Close g i h).
Proof. intros Hh. unfold Input_Close, DeleteKeybindings. no_quits; auto using no_quit_Panel_Close with no_quit. Qed.
Lemma no_quit_Input_GetData {K S} (g : lens S (Gui (binding K))) i : no_quit (Input_GetData g i).
Proof. unfold Input_GetData. no_quits. Qed.
Lemma no_quit_SetContent {K S} (g : lens S (Gui (binding K))) p c : no_quit (Panel_SetContent g p c).
Proof.
  unfold Panel_SetContent, Update. no_quits; auto with no_quit. apply no_quit_lift, formatContent_no_err.
Qed.
Lemma no_quit_run_update {B} u : no_quit (run_update (B := B) u).
Proof. unfold run_update. no_quits; auto using no_quit_on_view, no_quit_fail with no_quit. by apply no_quit_fail. Qed.

Lemma no_quit_advance {A} (p : prog A) : no_quit (advance p).
Proof. destruct p; unfold advance, Update; no_quits. Qed.
#[local] Hint Resolve no_quit_run_update no_quit_advance : no_quit.
Lemma no_quit_layout : no_quit layoutDashboard.
Proof.
  unfold layoutDashboard, clusterPanel, nodePanel, footer, logoPanel, new_panel, SetKeybinding.
  no_quits; auto using no_quit_on_view with no_quit.
Qed.
Lemma no_quit_toShell : no_quit run_toShell.
Proof. unfold run_toShell, no_hook. no_quits; auto using no_quit_Panel_Show, no_quit_Input_Show with no_quit. Qed.
Lemma no_quit_dismiss : no_quit run_dismiss.
Proof. unfold run_dismiss, no_hook. no_quits; auto using no_quit_Panel_Close, no_quit_Input_Close with no_quit. Qed.
Lemma no_quit_step c : (forall k, c <> Press k) -> no_quit (step c).
Proof.
  intros Hc. destruct c as [|i|i|k|text]; cbn [step]; [apply no_quit_layout| | |by destruct (Hc k)|].
  - unfold thread_step. no_quits.
  - unfold event_step. no_quits.
  - unfold typed, PutView. no_quits.
Qed.

(** ** The shell *)

(** The text in the field of the password matches the line of the user
    [rancher] in the shadow file. *)
Definition authorised (d : dash) : Prop := exists passwd file i line,
  fst (Input_GetData guiL passwordL d) = Ok passwd /\
  w_files (da_world d) !! "/etc/shadow" = Some file /\
  list_find (fun line => has_prefix line "rancher:" = true) (scanner_lines file) = Some (i, line) /\
  CompareByShadow node_verify passwd line = true.

Lemma GetData_same {K S} (g : lens S (Gui (binding K))) i (s : S) r s' :
  (forall s, put g (get g s) s = s) -> Input_GetData g i s = (r, s') -> s' = s.
Proof.
  intros Hl. unfold Input_GetData, mbind, st_bind, read, zoom, GetView. destruct (g_views _ !! _); cbn; rewrite Hl; by intros [= _ <-].
Qed.
Lemma ReadFile_file path w file w' : ReadFile path w = (Ok file, w') -> w_files w !! path = Some file.
Proof.
  unfold ReadFile, fs_op. destruct (fault _ _) as [[]|]; [done|]. destruct (w_files w !! path); [|done]. by intros [= -> _].
Qed.
Lemma login_quits d d' : run_login d = (Err ErrQuit, d') -> authorised d.
Proof.
  unfold run_login, mbind at 1, st_bind at 1. destruct (Input_GetData guiL passwordL d) as [[passwd|e|] d1] eqn:E1; [| |done].
  2: { intros [= -> _]. by destruct (no_quit_Input_GetData guiL passwordL d); rewrite E1. }
  apply GetData_same in E1 as E2; [|by intros []]. subst d1.
  unfold mbind at 1, st_bind at 1. destruct (validateAdminPassword passwd d) as [[valid|e|] d1] eqn:Ev; [| |done].
  2: { intros _. exfalso. unfold validateAdminPassword, mbind, st_bind, st_try in Ev. destruct (io_op _ d) as [[] ?]; discriminate Ev. }
  destruct valid.
  - intros _. unfold validateAdminPassword in Ev. apply st_bind_ok in Ev as (r & d2 & Er & [Hv _]%st_ret_ok).
    unfold st_try in Er. destruct (io_op (ReadFile "/etc/shadow") d) as [[file|e|] d3] eqn:Ef; [| |discriminate Er]; injection Er as <- <-; [|done].
    destruct (list_find _ (scanner_lines file)) as [[i line]|] eqn:El; [|done].
    exists passwd, file, i, line. rewrite E1. split; [done|]. split; [|done].
    unfold io_op, zoom in Ef. destruct (ReadFile "/etc/shadow" (get worldL d)) as [[f|?|] w'] eqn:Er; try discriminate Ef.
    injection Ef as -> _. by apply ReadFile_file in Er.
  - intros Hq. exfalso. revert Hq. apply (f_equal fst) in Ev. clear Ev. intros Hq.
    assert (Hn : no_quit (_ ← Panel_Show guiL validatorL no_hook;
      Panel_SetContent guiL validatorL denied)).
    { apply no_quit_bind; [apply no_quit_Panel_Show, no_quit_ret|]. intros _. apply no_quit_SetContent. }
    apply (Hn d1). by rewrite Hq.
Qed.

(** The bindings of a key, one after the other. *)
Definition run_bindings (bs : list (binding handler)) : st dash unit :=
  st_for_each (fun b => match b with BOwn h => run_handler h | _ => mret tt end) bs.
(** A binding that ends the main loop. *)
Definition way_out (b : binding handler) (d : dash) : Prop := b = BOwn login /\ authorised d \/ b = BOwn leave.
Lemma quitting_handler h d d' : run_handler h d = (Err ErrQuit, d') -> way_out (BOwn h) d.
Proof.
  intros E. destruct h; cbn [run_handler] in E.
  - exfalso. apply (no_quit_toShell d). by rewrite E.
  - left. split; [done|]. by eapply login_quits.
  - exfalso. apply (no_quit_dismiss d). by rewrite E.
  - by right.
Qed.
Lemma quitting_binding bs d d' : run_bindings bs d = (Err ErrQuit, d') ->
  exists before b after d2, bs = before ++ b :: after /\ run_bindings before d = (Ok tt, d2) /\ way_out b d2.
Proof.
  revert d. induction bs as [|b bs IH]; intros d E; [discriminate E|]. unfold run_bindings in E. cbn [st_for_each] in E.
  unfold mbind at 1, st_bind at 1 in E. destruct (match b with BOwn h => run_handler h | _ => mret tt end d) as [[[]|e|] d1] eqn:Eb; [| |discriminate E].
  - destruct (IH d1 E) as (before & b' & after & d2 & -> & Hr & Ha). exists (b :: before), b', after, d2. split; [done|]. split; [|done].
    unfold run_bindings. cbn [st_for_each]. by rewrite (st_run _ _ _ _ _ Eb).
  - injection E as -> ->. exists [], b, bs, d. split_and!; [done..|]. destruct b as [| | | | | |h]; try discriminate Eb. by apply quitting_handler in Eb.
Qed.
Lemma quitting_run cs d d' : run cs d = (Err ErrQuit, d') ->
  exists pre k post d1 before b after d2, cs = pre ++ Press k :: post /\ run pre d = (Ok tt, d1) /\
    matching k (da_gui d1) = before ++ b :: after /\ run_bindings before d1 = (Ok tt, d2) /\ way_out b d2.
Proof.
  unfold run. revert d. induction cs as [|c cs IH]; intros d E; [discriminate E|]. cbn [st_for_each] in E.
  unfold mbind, st_bind in E. destruct (step c d) as [[[]|e|] d0] eqn:Es; [| |discriminate E].
  - destruct (IH d0 E) as (pre & k & post & d1 & before & b & after & d2 & -> & Hr & H1 & H2 & H3).
    exists (c :: pre), k, post, d1, before, b, after, d2. split; [done|]. split; [|done]. cbn [st_for_each]. by rewrite (st_run _ _ _ _ _ Es).
  - injection E as -> ->. destruct c as [|i|i|k|text].
    4: { unfold step, press_key in Es. unfold mbind, st_bind, read in Es. cbn in Es.
         destruct (quitting_binding _ _ _ Es) as (before & b & after & d2 & Hm & Hr & Hl). exists [], k, cs, d, before, b, after, d2.
         split_and!; try done. }
    all: exfalso; refine (no_quit_step _ _ d _); [|by rewrite Es]; discriminate.
Qed.
End quit.

(** ** What operations on views leave alone *)

Lemma frame_read {S T} (R : relation S) `{!PreOrder R} (l : lens S T) : frame R (read l).
Proof. intros s. reflexivity. Qed.
(** A part of the terminal that is neither the views nor the focus. *)
Section keep_views.
Context {B T : Type} (part : Gui B -> T).
Hypothesis part_views : forall vs g, part (put_views vs g) = part g.
Hypothesis part_current : forall c g, part (put_current c g) = part g.
Lemma keep_GetView name : frame (keep part) (GetView name).
Proof. by intros g. Qed.
Lemma keep_known name : frame (keep part) (known name).
Proof. by intros g. Qed.
Lemma keep_SetView name x0 y0 x1 y1 : frame (keep part) (SetView name x0 y0 x1 y1).
Proof. intros g. unfold SetView. destruct (_ || _); [done|]. case_bool_decide; [done|]. destruct (g_views g !! name); apply part_views. Qed.
Lemma keep_DeleteView name : frame (keep part) (DeleteView name).
Proof. intros g. unfold DeleteView. destruct (g_views g !! name); [apply part_views|done]. Qed.
Lemma keep_SetCurrentView name : frame (keep part) (SetCurrentView name).
Proof. intros g. unfold SetCurrentView. destruct (g_views g !! name); [apply part_current|done]. Qed.
End keep_views.

(** Along the structure of a handler: [tac] knows the relation. *)
Ltac walk tac :=
  repeat first [ tac tt | lazymatch goal with
  | |- frame _ (_ ≫= _) => apply frame_bind; [exact _| |intros]
  | |- frame _ (mret _) => apply frame_ret; exact _
  | |- frame _ st_get => apply frame_get; exact _
  | |- frame _ (st_fail _) => apply frame_fail; exact _
  | |- frame _ (st_lift _) => apply frame_lift; exact _
  | |- frame _ (st_try _) => apply frame_try
  | |- frame _ (read _) => apply frame_read; exact _
  | |- frame (keep _) (GetView _) => by apply keep_GetView
  | |- frame (keep _) (known _) => by apply keep_known
  | |- frame (keep _) (SetView _ _ _ _ _) => by apply keep_SetView
  | |- frame (keep _) (DeleteView _) => by apply keep_DeleteView
  | |- frame (keep _) (SetCurrentView _) => by apply keep_SetCurrentView
  | |- frame (keep _) (st_modify _) => apply frame_modify; by intros ?
  | |- frame _ (st_for_each _ _) => apply frame_for_each; [exact _|intros]
  | |- frame _ (match ?x with _ => _ end) => destruct x
  | |- frame _ (let _ := _ in _) => cbv zeta
  | |- frame _ ?m => let h := head m in unfold h
  end ].

(** ** Which keys leave *)

Section keys.
Context `{Host} `{Node} (debug : bool).

(** Only Ctrl-C leaves without a password, and only when debugging. *)
Definition key_ok (k : Key) (b : binding handler) : Prop := b = BOwn leave -> debug = true /\ k = KeyCtrlC.
Definition panel_ok (p : Panel (H := handler)) : Prop := Forall (fun kb => key_ok (fst kb) (snd kb)) (pn_KeyBindings p).
Definition bound_ok (g : gui_state) : Prop := Forall (fun kb => key_ok (snd (fst kb)) (snd kb)) (g_keybindings g).
Record keys_ok (d : dash) : Prop := {
  ko_gui : bound_ok (da_gui d);
  ko_frame : panel_ok (da_frame d);
  ko_password : panel_ok (in_Panel (da_password d));
  ko_validator : panel_ok (da_validator d)
}.
Definition guards (d d' : dash) : Prop := keys_ok d -> keys_ok d'.
#[local] Instance guards_preorder : PreOrder guards.
Proof. split; [intros d Hd; exact Hd|]. unfold guards. intros a b c; auto. Qed.
Definition gui_guards (g g' : gui_state) : Prop := bound_ok g -> bound_ok g'.
#[local] Instance gui_guards_preorder : PreOrder gui_guards.
Proof. split; [intros d Hd; exact Hd|]. unfold gui_guards. intros a b c; auto. Qed.

Lemma guards_gui {A} (m : G (binding handler) A) : frame gui_guards m -> frame guards (zoom guiL m).
Proof.
  intros Hm d [K1 K2 K3 K4]. specialize (Hm (da_gui d) K1). unfold zoom. cbn. destruct (m (da_gui d)) as [r g']. by split.
Qed.
Lemma unbound_gui {A} (m : G (binding handler) A) : frame (keep g_keybindings) m -> frame gui_guards m.
Proof. intros Hm g Hg. unfold bound_ok. by rewrite (Hm g). Qed.
Lemma guards_io {A} (m : io A) : frame guards (io_op m).
Proof. intros d [K1 K2 K3 K4]. unfold io_op, zoom. cbn. destruct (m (da_world d)) as [r w']. by split. Qed.
Lemma guards_SetKeybinding name k b : key_ok k b -> frame gui_guards (SetKeybinding name k b).
Proof. intros Hk g Hg. apply Forall_app. split; [exact Hg|]. by constructor. Qed.
Lemma guards_DeleteKeybindings name : frame gui_guards (DeleteKeybindings (B := binding handler) name).
Proof.
  intros g Hg. unfold bound_ok. cbn. rewrite !Forall_forall. intros kb [_ Hin]%list_elem_of_filter. revert kb Hin. by apply Forall_forall.
Qed.
Lemma guards_bind_keys name p : panel_ok p -> frame gui_guards (bind_keys name (pn_KeyBindings p)).
Proof.
  intros Hp. apply frame_for_each; [exact _|]. intros kb Hkb. apply guards_SetKeybinding.
  unfold panel_ok in Hp. rewrite Forall_forall in Hp. by apply Hp.
Qed.
(** A panel of the console, read before its keys are bound. *)
Lemma guards_read {T A} (l : lens dash T) (ok : T -> Prop) (f : T -> st dash A) :
  (forall d, keys_ok d -> ok (get l d)) -> (forall p, ok p -> frame guards (f p)) -> frame guards (read l ≫= f).
Proof. intros Hl Hf d Hd. exact (Hf _ (Hl d Hd) d Hd). Qed.
Lemma default_keys x y (p : Panel (H := handler)) : pn_KeyBindings (default_location x y p) = pn_KeyBindings p.
Proof. unfold default_location. by destruct (_ && _). Qed.

Ltac guarding_with tac :=
  walk ltac:(fun _ => first [ tac tt | lazymatch goal with
  | |- frame guards (io_op _) => apply guards_io
  | |- frame guards (zoom guiL _) => apply guards_gui
  | |- frame gui_guards (bind_keys _ _) => by apply guards_bind_keys
  | |- frame gui_guards (DeleteKeybindings _) => apply guards_DeleteKeybindings
  | |- frame gui_guards (SetKeybinding _ _ _) => by apply guards_SetKeybinding
  | |- frame gui_guards (_ ≫= _) => apply frame_bind; [exact _| |intros]
  | |- frame gui_guards (match ?x with _ => _ end) => destruct x
  | |- frame gui_guards _ => apply unbound_gui
  | |- frame guards (st_modify _) => apply frame_modify; intros ? [? ? ? ?]; split; first [done | by repeat constructor]
  | |- frame guards (modify _ _) => intros ? [? ? ? ?]; split; cbn; unfold panel_ok; rewrite ?default_keys; done
  end ]).
Ltac guarding := guarding_with ltac:(fun _ => fail).

Lemma guards_make_view p : panel_ok p -> frame gui_guards (make_view p).
Proof. intros Hp. unfold make_view. guarding. Qed.
Lemma guards_Panel_Show l : (forall d, keys_ok d -> panel_ok (get l d)) -> (forall x y, frame guards (modify l (default_location x y))) ->
  frame guards (Panel_Show guiL l no_hook).
Proof.
  intros Hl Hm. unfold Panel_Show, no_hook. guarding_with ltac:(fun _ => lazymatch goal with
  | |- frame guards (modify l _) => apply Hm
  | |- frame guards (read l ≫= _) => apply (guards_read l panel_ok); [exact Hl|intros]
  | |- frame gui_guards (make_view _) => by apply guards_make_view
  end).
Qed.
Lemma guards_frame : frame guards (Panel_Show guiL frameL no_hook).
Proof. apply guards_Panel_Show; [apply ko_frame|]. intros. guarding. Qed.
Lemma guards_validator : frame guards (Panel_Show guiL validatorL no_hook).
Proof. apply guards_Panel_Show; [apply ko_validator|]. intros. guarding. Qed.
Lemma guards_Input_Show : frame guards (Input_Show guiL passwordL no_hook).
Proof.
  unfold Input_Show, Input_SetData. guarding_with ltac:(fun _ => lazymatch goal with
  | |- frame guards (Panel_Show _ _ _) => apply guards_Panel_Show; [apply ko_password|intros; guarding]
  | |- frame guards (read passwordL ≫= _) => apply (guards_read passwordL (fun i => panel_ok (in_Panel i))); [apply ko_password|intros]
  end).
Qed.
Ltac guarding_all := guarding_with ltac:(fun _ => lazymatch goal with
  | |- frame guards (Panel_Show _ frameL _) => apply guards_frame
  | |- frame guards (Panel_Show _ validatorL _) => apply guards_validator
  | |- frame guards (Input_Show _ _ _) => apply guards_Input_Show
  end).
Lemma guards_handler h : frame guards (run_handler h).
Proof.
  destruct h; cbn [run_handler]; unfold run_toShell, run_login, run_dismiss, no_hook, Panel_SetContent; guarding_all.
Qed.
Lemma guards_advance {A} (p : prog A) : frame guards (advance p).
Proof. destruct p; unfold advance; guarding. Qed.
Lemma guards_layout : frame guards layoutDashboard.
Proof. unfold layoutDashboard, clusterPanel, nodePanel, footer, logoPanel, new_panel. guarding. Qed.
Lemma guards_step c : frame guards (step c).
Proof.
  destruct c as [|i|i|k|text]; cbn [step]; [apply guards_layout| | | |].
  - unfold thread_step. guarding_with ltac:(fun _ => apply guards_advance).
  - unfold event_step. guarding.
  - unfold press_key. guarding_with ltac:(fun _ => apply guards_handler).
  - unfold typed. guarding.
Qed.
Lemma guards_session cs : frame guards (dashboard_session debug cs).
Proof.
  unfold dashboard_session. apply frame_bind; [exact _| |intros _; apply frame_bind; [exact _|apply guards_layout|]].
  - unfold setGlobalKeyBindings. destruct debug eqn:E; [|apply frame_ret, _]. apply guards_gui, guards_SetKeybinding. by intros _.
  - intros _. apply frame_for_each; [exact _|]. intros c _. apply guards_step.
Qed.
Lemma keys_start maxX maxY w : keys_ok (start_dash maxX maxY w).
Proof. by repeat constructor. Qed.
Lemma matching_ok k d before b after : keys_ok d -> matching k (da_gui d) = before ++ b :: after -> key_ok k b.
Proof.
  intros [Hg _ _ _] Hm. assert (Hb : b ∈ matching k (da_gui d)) by (rewrite Hm; set_solver).
  apply list_elem_of_fmap in Hb as ([[n k'] b'] & -> & [[Hk _] Hin]%list_elem_of_filter). cbn in Hk. subst k'.
  unfold bound_ok in Hg. rewrite Forall_forall in Hg. by apply (Hg _ Hin).
Qed.

Lemma no_quit_keys : no_quit (setGlobalKeyBindings debug).
Proof. unfold setGlobalKeyBindings, SetKeybinding. no_quits. Qed.

(** C4: The dashboard is left for the shell only with the password, or with
    Ctrl-C when [DEBUG] is "true": whatever the goroutines, the main loop and the
    user do in whatever order after the console has started, the main loop ends
    with [ErrQuit] only at a key pressed, and either the text in the field of
    the password then matches the hash of the user [rancher] in the shadow file,
    or the key is Ctrl-C and the process debugs. *)
Theorem shell_needs_password maxX maxY w cs d' : dashboard_session debug cs (start_dash maxX maxY w) = (Err ErrQuit, d') ->
  exists pre k post d1 before b after d2, cs = pre ++ Press k :: post /\
    dashboard_session debug pre (start_dash maxX maxY w) = (Ok tt, d1) /\
    matching k (da_gui d1) = before ++ b :: after /\ run_bindings before d1 = (Ok tt, d2) /\
    (b = BOwn login /\ authorised d2 \/ b = BOwn leave /\ debug = true /\ k = KeyCtrlC).
Proof.
  intros E. unfold dashboard_session in E. unfold mbind at 1, st_bind at 1 in E.
  destruct (setGlobalKeyBindings debug _) as [[[]|e|] ds] eqn:E1; [| |discriminate E].
  2: { injection E as -> _. exfalso. eapply no_quit_keys. by rewrite E1. }
  unfold mbind at 1, st_bind at 1 in E. destruct (layoutDashboard ds) as [[[]|e|] d0] eqn:E2; [| |discriminate E].
  2: { injection E as -> _. exfalso. eapply no_quit_layout. by rewrite E2. }
  destruct (quitting_run _ _ _ E) as (pre & k & post & d1 & before & b & after & d2 & -> & Hr & Hm & Hb & Hw).
  assert (Hs : dashboard_session debug pre (start_dash maxX maxY w) = (Ok tt, d1)).
  { unfold dashboard_session. by rewrite (st_run _ _ _ _ _ E1), (st_run _ _ _ _ _ E2). }
  exists pre, k, post, d1, before, b, after, d2. split_and!; try done.
  destruct Hw as [Hl| ->]; [by left|right]. split; [done|].
  refine (matching_ok k d1 before (BOwn leave) after _ Hm eq_refl).
  pose proof (guards_session pre (start_dash maxX maxY w) (keys_start _ _ _)) as Hk. by rewrite Hs in Hk.
Qed.
End keys.

(** ** What the goroutines do to each other *)

(** What may change while a goroutine runs: once installed the host stays so,
    and an address that is known is not forgotten. *)
Definition rely (c c' : state) : Prop :=
  (installed c = true -> installed c' = true) /\ firstHost c' = firstHost c /\ (managementURL c <> "" -> managementURL c' <> "").
#[export] Instance rely_preorder : PreOrder rely.
Proof. split; [by split|]. intros a b c (A1 & A2 & A3) (B1 & B2 & B3). split_and!; [auto|congruence|auto]. Qed.
Definition api_path : string := "/v1/harvester/cluster/local".

Section evidence.
(** What the commands answered so far, and what the host is called. *)
Context (answered : string -> result string -> Prop) (named : result string -> Prop) (first : bool).

(** No address, or the one that the cluster gave: its virtual IP on the first
    host, that of the ingress on another one. *)
Definition known_url (url : string) : Prop :=
  url = "" \/ exists ip, ip <> "" /\ answered (vip_cmd first) (Ok ip) /\ url = https +:+ ip.
(** The nodes were listed, and the chart was found ready. *)
Definition found_installed : Prop :=
  exists nodes conditions, answered k8s_cmd (Ok nodes) /\ nodes <> "" /\ answered chart_cmd conditions /\ chart_ready conditions = true.
Record sound (c : state) : Prop := {
  so_first : firstHost c = first;
  so_installed : installed c = true -> first = true /\ found_installed;
  so_url : known_url (managementURL c)
}.

(** What the dashboard may show in its views. *)
Definition cluster_text (t : string) : Prop :=
  t = statusSettingUpHarv /\ first = true \/ t = wrapColor statusNotReady colorYellow \/
  t = wrapColor statusReady colorGreen /\ exists h o url o', named (Ok h) /\ answered (node_cmd h) (Ok o) /\ known_url url /\
    answered (api_cmd url api_path) (Ok o').
Definition node_text (t : string) : Prop :=
  t = statusSettingUpNode /\ first = true \/ t = wrapColor statusNotReady colorYellow \/
  t = wrapColor statusReady colorGreen /\ exists h o, named (Ok h) /\ answered (node_cmd h) (Ok o).
Inductive good : update -> Prop :=
| good_url url : url = "Unavailable" \/ url <> "" /\ known_url url ->
    good (mkUpdate "managementUrl" ("* Management URL:" +:+ Text.newline +:+ "  " +:+ url) true true false None)
| good_cluster t : cluster_text t -> good (mkUpdate "clusterStatus" ("* Status: " +:+ t) true true false None)
| good_node t : node_text t -> good (mkUpdate "nodeStatus" ("* Status: " +:+ t) true true false None)
| good_info r1 r2 r3 :
    answered hostname_cmd r1 -> answered default_route_cmd r2 -> answered (address_cmd (output_or "harvester-mgmt" r2)) r3 ->
    good (mkUpdate "nodeInfo" ("* Hostname: " +:+ output_or "" r1 +:+ Text.newline +:+ "* IP Address: " +:+ output_or "" r3) true true false None)
| good_message : good (mkUpdate "validator" denied false true false None).

(** A program that keeps to it, whatever it is answered: each of its stores is
    in [rely] and keeps [sound], and what it sends is good. *)
Fixpoint safe {A} (p : prog A) (Q : A -> Prop) : Prop :=
  match p with
  | Ret a => Q a
  | Sh cmd k => forall r, answered cmd r -> safe (k r) Q
  | Hostname k => forall r, named r -> safe (k r) Q
  | Load k => forall c, sound c -> safe (k c) Q
  | Store f k => (forall c, sound c -> sound (f c) /\ rely c (f c)) /\ safe k Q
  | Send u k => good u /\ safe k Q
  end.
Lemma safe_bind {A B} (p : prog A) (f : A -> prog B) Q : safe p (fun a => safe (f a) Q) -> safe (p ≫= f) Q.
Proof. induction p as [a|cmd k IH|k IH|k IH|g k IH|u k IH]; cbn; naive_solver. Qed.
Lemma safe_mono {A} (p : prog A) (Q Q' : A -> Prop) : safe p Q -> (forall a, Q a -> Q' a) -> safe p Q'.
Proof. intros Hs HQ. revert Hs. induction p as [a|cmd k IH|k IH|k IH|g k IH|u k IH]; cbn; naive_solver. Qed.

Definition any {A} : A -> Prop := fun _ => True.
Lemma set_installed_ok c : sound c -> first = true -> found_installed -> sound (set_installed c) /\ rely c (set_installed c).
Proof. intros [Hf Hi Hu] H1 H2. by repeat split. Qed.
Lemma set_managementURL_ok ip c : sound c -> ip <> "" -> answered (vip_cmd first) (Ok ip) ->
  sound (set_managementURL (https +:+ ip) c) /\ rely c (set_managementURL (https +:+ ip) c).
Proof. intros [Hf Hi Hu] Hip Ha. repeat split; try done; try by apply Hi. right. by exists ip. Qed.

(** The goroutine of the management address. *)
Lemma safe_url : safe doSyncManagementURL any.
Proof.
  unfold doSyncManagementURL, getVIP. apply safe_bind, safe_bind. cbn. intros c [Hf _ _] r Hr. rewrite Hf in Hr.
  apply safe_bind. case_bool_decide as He; cbn.
  - split; [|done]. apply good_url. by left.
  - assert (Ha : answered (vip_cmd first) (Ok (value_or "" r))) by (by destruct r).
    split; [intros c' Hc'; by apply set_managementURL_ok|]. split; [|done]. apply good_url. right. split; [done|]. right. by eexists.
Qed.
Lemma safe_info : safe doSyncNodeInfo any.
Proof. cbn. intros r1 H1 r2 H2 r3 H3. split; [|done]. by eapply good_info. Qed.

(** The two goroutines that follow the installation. *)
Lemma safe_set_up k setting_up Q : (first = true -> Q setting_up) -> safe k Q -> safe (set_up k setting_up) Q.
Proof.
  intros Hs Hk. unfold set_up, being_installed, both. apply safe_bind, safe_bind. cbn. intros c Hc.
  destruct (firstHost c) eqn:Hf; cbn; [|done]. assert (H1 : first = true) by (by rewrite <- (so_first c Hc)).
  intros c2 Hc2. destruct (installed c2); cbn; [done|]. intros r1 Hr1.
  destruct r1 as [nodes|e|]; cbn; [|by apply Hs..]. case_bool_decide as Hn; cbn; [by apply Hs|]. intros r2 Hr2.
  destruct (chart_ready r2) eqn:Hc3; cbn; [|by apply Hs]. split; [|done]. intros c3 Hc4. apply set_installed_ok; [done..|]. by exists nodes, r2.
Qed.
Lemma safe_cluster : safe doSyncHarvesterStatus any.
Proof.
  unfold doSyncHarvesterStatus. apply safe_bind.
  apply (safe_mono _ cluster_text); [|intros t Ht; split; [by apply good_cluster|done]].
  assert (Hn : cluster_text (wrapColor statusNotReady colorYellow)) by (by right; left).
  apply safe_set_up; [intros; by left|]. cbn. intros [h|e|] Hh; cbn; [|done..].
  intros [o|e|] Ho; cbn; [|done..]. intros c Hc c2 Hc2. destruct (negb _); cbn; [done|].
  intros [o'|e|] Ho'; cbn; [|done..]. right; right. split; [done|]. exists h, o, (managementURL c), o'. by destruct Hc.
Qed.
Lemma safe_node : safe doSyncNodeStatus any.
Proof.
  unfold doSyncNodeStatus. apply safe_bind.
  apply (safe_mono _ node_text); [|intros t Ht; split; [by apply good_node|done]].
  assert (Hn : node_text (wrapColor statusNotReady colorYellow)) by (by right; left).
  apply safe_set_up; [intros; by left|]. cbn. intros [h|e|] Hh; cbn; [|done..].
  intros [o|e|] Ho; cbn; [|done..]. right; right. split; [done|]. by exists h, o.
Qed.
Lemma safe_sync t : safe (sync t) any.
Proof. destruct t; [apply safe_url|apply safe_cluster|apply safe_info|apply safe_node]. Qed.
End evidence.

(** ** Any order of the steps *)

Section anyorder.
Context `{Host} `{Node}.

Section steps.
Context (answered : string -> result string -> Prop) (named : result string -> Prop) (first : bool).
Notation sound := (sound answered first).
Notation good := (good answered named first).
Definition refuses (p : Panel (H := handler)) : Prop := pn_Name p = "validator" /\ pn_Wrap p = false.
Record consistent (d : dash) : Prop := {
  cs_once : da_once d = true;
  cs_sound : sound (da_current d);
  cs_threads : Forall (fun tp => safe answered named first (snd tp) any) (da_threads d);
  cs_updates : Forall good (g_updates (da_gui d));
  cs_validator : refuses (da_validator d)
}.
(** What a step of the console does. *)
Definition grows (d d' : dash) : Prop := consistent d -> consistent d' /\ rely (da_current d) (da_current d').
#[local] Instance grows_preorder : PreOrder grows.
Proof.
  split; [by intros d; split|]. intros a b c Hab Hbc Ha. destruct (Hab Ha) as [Hb R1]. destruct (Hbc Hb) as [Hc R2].
  split; [done|by etrans].
Qed.
(** Changes of other parts of the state. *)
Lemma grows_same d d' : da_current d' = da_current d -> da_threads d' = da_threads d -> da_once d' = da_once d ->
  (refuses (da_validator d) -> refuses (da_validator d')) ->
  (Forall good (g_updates (da_gui d)) -> Forall good (g_updates (da_gui d'))) -> grows d d'.
Proof. intros E1 E2 E3 Hv Hg [? ? ? ? ?]. split; [split; rewrite ?E1, ?E2, ?E3; auto|rewrite E1; reflexivity]. Qed.

(** The same on the terminal. *)
Definition gui_good (g g' : gui_state) : Prop := Forall good (g_updates g) -> Forall good (g_updates g').
#[local] Instance gui_good_preorder : PreOrder gui_good.
Proof. split; [intros g Hg; exact Hg|]. unfold gui_good. intros a b c; auto. Qed.
Lemma frame_gui {A} (m : G (binding handler) A) : frame gui_good m -> frame grows (zoom guiL m).
Proof.
  intros Hm d. specialize (Hm (da_gui d)). unfold zoom. cbn. destruct (m (da_gui d)) as [r g']. by apply grows_same.
Qed.
Lemma quiet_gui {A} (m : G (binding handler) A) : frame (keep g_updates) m -> frame gui_good m.
Proof. intros Hm g Hg. by rewrite (Hm g). Qed.
Lemma frame_io {A} (m : io A) : frame grows (io_op m).
Proof. intros d. unfold io_op, zoom. cbn. destruct (m (da_world d)) as [r w']. by apply grows_same. Qed.

Ltac keeps_with tac :=
  walk ltac:(fun _ => first [ tac tt | lazymatch goal with
  | |- frame grows (io_op _) => apply frame_io
  | |- frame grows (zoom guiL _) => apply frame_gui
  | |- frame gui_good (Update _) => fail
  | |- frame gui_good _ => apply quiet_gui
  | |- frame grows (st_modify _) => apply frame_modify; intros ?; by apply grows_same
  | |- frame grows (modify _ _) => intros ?; by apply grows_same
  end ]).
Ltac keeps := keeps_with ltac:(fun _ => fail).

Lemma grows_Panel_Show l h : (forall x y, frame grows (modify l (default_location x y))) -> frame grows h -> frame grows (Panel_Show guiL l h).
Proof.
  intros Hl Hh. unfold Panel_Show. apply frame_bind; [exact _|by apply frame_read, _|]. intros g.
  apply frame_bind; [exact _|apply Hl|]. intros _. apply frame_bind; [exact _|exact Hh|]. intros _. keeps.
Qed.
Lemma grows_Panel_Close l h : frame grows h -> frame grows (Panel_Close guiL l h).
Proof. intros Hh. unfold Panel_Close. keeps. exact Hh. Qed.
Lemma grows_panel_fields {T} (l : lens dash T) :
  (forall t d, da_current (put l t d) = da_current d /\ da_threads (put l t d) = da_threads d /\ da_once (put l t d) = da_once d /\
     da_gui (put l t d) = da_gui d /\ da_validator (put l t d) = da_validator d) -> forall f, frame grows (modify l f).
Proof. intros Hl f d. cbn. destruct (Hl (f (get l d)) d) as (E1 & E2 & E3 & E4 & E5). apply grows_same; [done..| |]; by rewrite ?E4, ?E5. Qed.

Lemma grows_toShell : frame grows run_toShell.
Proof.
  unfold run_toShell, no_hook, Input_Show, Input_SetData. keeps; first [apply grows_Panel_Show; [|keeps]; by apply grows_panel_fields | idtac].
Qed.
Lemma grows_dismiss : frame grows run_dismiss.
Proof. unfold run_dismiss, no_hook, Input_Close. keeps; apply grows_Panel_Close; keeps. Qed.
Lemma denied_fits w h : 0 < h -> formatContent denied w h false true = Ok denied.
Proof.
  intros Hh. unfold formatContent, truncate_content. change (split_on nl_char denied) with [denied]. cbn [length].
  by rewrite (proj2 (Z.ltb_ge _ _)) by lia.
Qed.
Lemma grows_SetContent : frame grows (Panel_SetContent guiL validatorL denied).
Proof.
  intros d [H1 H2 H3 H4 [H5 H6]]. unfold Panel_SetContent.
  assert (Hr : read validatorL d = (Ok (da_validator d), d)) by done. rewrite (st_run _ _ _ _ _ Hr). cbv zeta. rewrite H6.
  set (h := pn_Y1 _ - _ - 1). set (w := pn_X1 _ - _ - 1).
  assert (E : (if (0 <? w) && (0 <? h) then st_lift (formatContent denied w h false true) else mret denied) d = (Ok denied, d)).
  { destruct (0 <? w); [|done]. destruct (Z.ltb_spec 0 h); [|done]. cbn [andb]. by rewrite denied_fits. }
  rewrite (st_run _ _ _ _ _ E). split; [|reflexivity]. split; try done. apply Forall_app. split; [done|].
  constructor; [|done]. cbn. rewrite H5. apply good_message.
Qed.
Lemma grows_default x y : frame grows (modify validatorL (default_location x y)).
Proof. intros d. apply grows_same; try done. cbn. unfold default_location. by destruct (_ && _). Qed.
Ltac grow :=
  keeps_with ltac:(fun _ => lazymatch goal with
  | |- frame grows (modify validatorL (default_location _ _)) => apply grows_default
  | |- frame grows (Panel_SetContent guiL validatorL _) => apply grows_SetContent
  | |- frame grows (Panel_Show guiL _ _) => apply grows_Panel_Show; [intros|]
  end).
Lemma grows_login : frame grows run_login.
Proof.
  unfold run_login, no_hook, validateAdminPassword, Input_GetData. grow.
Qed.
Lemma grows_handler h : frame grows (run_handler h).
Proof. destruct h; [apply grows_toShell|apply grows_login|apply grows_dismiss|apply frame_fail, _]. Qed.

(** A step of a goroutine, whose answers are known. *)
Definition heard (c : choice) (d : dash) (cmd : string) (r : result string) : Prop :=
  exists i t k, c = Goroutine i /\ da_threads d !! i = Some (t, Sh cmd k) /\ answer d cmd = r.
Definition called (c : choice) (d : dash) (r : result string) : Prop :=
  exists i t k, c = Goroutine i /\ da_threads d !! i = Some (t, Hostname k) /\ node_hostname (da_world d) = r.
Definition records (c : choice) (d : dash) : Prop :=
  (forall cmd r, heard c d cmd r -> answered cmd r) /\ (forall r, called c d r -> named r).
Lemma grows_state c' d : (sound (da_current d) -> sound c' /\ rely (da_current d) c') -> grows d (put_state c' d).
Proof. intros Hc [H1 H2 H3 H4 H5]. destruct (Hc H2) as [Hs Hr]. by split. Qed.
Notation safe := (safe answered named first).
Lemma advance_ok (p : prog unit) t i d r d' : consistent d -> records (Goroutine i) d -> da_threads d !! i = Some (t, p) -> advance p d = (r, d') ->
  consistent d' /\ rely (da_current d) (da_current d') /\ (forall p', r = Ok p' -> safe p' any).
Proof.
  intros Hd [Ha Hn] Hi E. pose proof (Forall_lookup_1 _ _ _ _ (cs_threads _ Hd) Hi) as Hs.
  destruct p as [a|cmd k|k|k|f k|u k]; cbn [advance DashboardProofs.safe snd] in *.
  - injection E as <- <-. split_and!; try done. by intros p' [= <-].
  - assert (Hans : answered cmd (answer d cmd)) by (apply Ha; by exists i, t, k).
    unfold answer in Hans. unfold mbind, st_bind in E. cbn in E. unfold st_try, io_op, zoom in E. cbn in E.
    destruct (Exec _ _) as [[out|e|] w1]; injection E as <- <-; (split; [by destruct Hd|]; split; [done|]); intros p' [= <-]; by apply Hs.
  - injection E as <- <-. split_and!; try done. intros p' [= <-]. apply Hs, Hn. by exists i, t, k.
  - injection E as <- <-. split_and!; try done. intros p' [= <-]. by apply Hs, Hd.
  - injection E as <- <-. destruct Hs as [Hf Hs]. destruct (grows_state (f (da_current d)) d) as [H1 H2]; [by apply Hf|done|].
    split_and!; try done. by intros p' [= <-].
  - injection E as <- <-. destruct Hs as [Hg Hs], Hd as [H1 H2 H3 H4 H5]. split_and!; try done.
    + split; try done. cbn. apply Forall_app. split; [done|by constructor].
    + by intros p' [= <-].
Qed.
Lemma put_thread_ok i t p d : consistent d -> safe p any -> consistent (put_threads (<[i := (t, p)]> (da_threads d)) d).
Proof. intros [A1 A2 A3 A4 A5] Hp. split; try done. by apply Forall_insert. Qed.
Lemma grows_thread i d : records (Goroutine i) d -> grows d (snd (thread_step i d)).
Proof.
  intros Hr Hd. unfold thread_step. rewrite (st_run st_get _ d d d eq_refl).
  destruct (da_threads d !! i) as [[t p]|] eqn:E; [|by split].
  assert (Hadv : let d' := snd ((p' ← advance p; st_modify (fun d => put_threads (<[i := (t, p')]> (da_threads d)) d)) d) in
    consistent d' /\ rely (da_current d) (da_current d')).
  { cbv zeta. unfold mbind, st_bind. destruct (advance p d) as [r d1] eqn:Ea. destruct (advance_ok p t i d r d1 Hd Hr E Ea) as (C1 & R1 & P1).
    destruct r as [p'|e|]; cbn; [|by split|by split]. split; [by apply put_thread_ok; [|apply P1]|done]. }
  destruct p as [a|cmd k|k|k|f k|u k]; [|exact Hadv..]. split; [|reflexivity]. apply put_thread_ok; [done|apply safe_sync].
Qed.

Lemma keep_run_update u : frame (keep g_updates) (run_update (B := binding handler) u).
Proof. unfold run_update. keeps. Qed.
Lemma grows_event i : frame grows (event_step i).
Proof.
  intros d. unfold event_step. rewrite (st_run st_get _ d d d eq_refl).
  destruct (g_updates (da_gui d) !! i) as [u|]; [|reflexivity].
  apply frame_bind; [exact _| |intros _; apply frame_gui, quiet_gui, keep_run_update].
  apply frame_gui. intros g Hg. cbn. by apply Forall_delete.
Qed.
Lemma grows_press k : frame grows (press_key k).
Proof.
  unfold press_key. apply frame_bind; [exact _|by apply frame_read, _|]. intros g. apply frame_for_each; [exact _|].
  intros b _. destruct b; try apply frame_ret, _. apply grows_handler.
Qed.
Lemma grows_typed text : frame grows (typed text).
Proof. unfold typed. keeps. Qed.
Lemma grows_new_panel name x0 y0 x1 y1 text t : frame grows (new_panel name x0 y0 x1 y1 text t).
Proof.
  unfold new_panel. apply frame_bind; [exact _|keeps|]. intros new. destruct (negb new); [apply frame_ret, _|].
  apply frame_bind; [exact _|keeps|]. intros _. destruct t as [t|]; [|apply frame_ret, _].
  intros d [H1 H2 H3 H4 H5]. split; [|reflexivity]. split; try done. cbn. apply Forall_app. split; [done|].
  constructor; [apply safe_sync|done].
Qed.

(** The panels of a layout, after the first time. *)
Definition panels : st dash unit := _ ← clusterPanel; _ ← nodePanel; _ ← footer; logoPanel.
Lemma grows_panels : frame grows panels.
Proof.
  unfold panels, clusterPanel, nodePanel, footer, logoPanel. repeat first
    [ apply grows_new_panel | (apply frame_bind; [exact _| |intros]) | (apply frame_read; exact _) | progress cbv zeta ].
Qed.
Lemma grows_layout : frame grows layoutDashboard.
Proof.
  intros d Hd. unfold layoutDashboard. rewrite (st_run st_get _ d d d eq_refl), (cs_once _ Hd).
  rewrite (st_run (mret tt) _ d tt d eq_refl). by apply grows_panels.
Qed.
Lemma initState_current d : let d' := snd (st_try initState d) in
  da_threads d' = da_threads d /\ da_once d' = da_once d /\ da_gui d' = da_gui d /\ da_validator d' = da_validator d /\
  (da_current d' = da_current d \/ da_current d' = set_firstHost (da_current d)).
Proof.
  cbv zeta. unfold st_try, initState, mbind, st_bind, io_op, zoom. cbn. destruct (ReadFile _ _) as [[content|e|] w1]; cbn; auto 6.
  unfold st_lift. destruct (getServerURLFromRancherdConfig _ _) as [url|e|]; cbn; auto 6.
  destruct (negb _); cbn; auto 6.
Qed.
(** What [once.Do] does at the first layout. *)
Definition first_time : st dash unit :=
  _ ← st_modify (put_once true); _ ← st_try initState; zoom guiL (SetKeybinding "" KeyF12 (BOwn toShell)).
(** The steps of a list whose answers are known. *)
Lemma grows_step c d : records c d -> grows d (snd (step c d)).
Proof.
  intros Hr. destruct c as [|i|i|k|text]; [apply grows_layout|by apply grows_thread|apply grows_event|apply grows_press|apply grows_typed].
Qed.
Lemma grows_run cs d : (forall pre c post d1, cs = pre ++ c :: post -> run pre d = (Ok tt, d1) -> records c d1) -> grows d (snd (run cs d)).
Proof.
  unfold run. revert d. induction cs as [|c cs IH]; intros d Hr; [reflexivity|]. cbn [st_for_each]. unfold mbind, st_bind.
  pose proof (grows_step c d (Hr [] c cs d eq_refl eq_refl)) as Hg. destruct (step c d) as [[[]|e|] d1] eqn:Es; [|exact Hg..].
  etrans; [exact Hg|]. apply IH. intros pre c' post d2 -> Hp. apply (Hr (c :: pre) c' post d2 eq_refl).
  cbn [st_for_each]. by rewrite (st_run _ _ _ _ _ Es).
Qed.
End steps.

(** Before the first layout. *)
Record fresh (d : dash) : Prop := {
  fr_once : da_once d = false;
  fr_current : da_current d = mkState false false "";
  fr_threads : da_threads d = [];
  fr_updates : g_updates (da_gui d) = [];
  fr_validator : refuses (da_validator d)
}.
Lemma fresh_consistent E N d0 d : fresh d0 -> first_time d0 = (Ok tt, d) -> consistent E N (firstHost (da_current d)) d.
Proof.
  intros [F1 F2 F3 F4 F5] H1. apply st_bind_ok in H1 as ([] & d1 & [= <-] & (r0 & d2 & Et & [= <-])%st_bind_ok).
  destruct (initState_current (put_once true d0)) as (T1 & O1 & G1 & V1 & C1). rewrite Et in *. cbn [snd] in *.
  assert (Hs : installed (da_current d2) = false /\ managementURL (da_current d2) = "") by (destruct C1 as [-> | ->]; cbn; by rewrite F2).
  destruct Hs as [Hi Hu]. split; cbn; rewrite ?O1, ?G1, ?V1, ?T1; cbn; rewrite ?F3, ?F4; try done.
  split; [done|by rewrite Hi|left; exact Hu].
Qed.
Lemma first_layout E N d0 d : fresh d0 -> layoutDashboard d0 = (Ok tt, d) -> consistent E N (firstHost (da_current d)) d.
Proof.
  intros Hf. unfold layoutDashboard. rewrite (st_run st_get _ d0 d0 d0 eq_refl), (fr_once _ Hf).
  intros ([] & d1 & E1 & E2)%st_bind_ok. pose proof (fresh_consistent E N d0 d1 Hf E1) as H1.
  apply (grows_panels E N) in H1 as [H1 (_ & Hr & _)]. assert (E3 : panels d1 = (Ok tt, d)) by exact E2. rewrite E3 in H1, Hr. cbn [snd] in *.
  by rewrite Hr.
Qed.
Lemma fresh_start debug maxX maxY w d : setGlobalKeyBindings debug (start_dash maxX maxY w) = (Ok tt, d) -> fresh d.
Proof. destruct debug; by intros [= <-]. Qed.

(** What was answered during a session. *)
Definition heard_in (debug : bool) (d0 : dash) (cs : list choice) (cmd : string) (r : result string) : Prop :=
  exists pre c post d, cs = pre ++ c :: post /\ dashboard_session debug pre d0 = (Ok tt, d) /\ heard c d cmd r.
Definition called_in (debug : bool) (d0 : dash) (cs : list choice) (r : result string) : Prop :=
  exists pre c post d, cs = pre ++ c :: post /\ dashboard_session debug pre d0 = (Ok tt, d) /\ called c d r.

End anyorder.

(** ** The state of the cluster, while the others run *)

(** A run of a program in which the others may change [current], within
    [rely], before any step: what it ran and read, in order, and what it found. *)
Inductive ran : Set := Ran (cmd : string) (r : result string) | Named (r : result string) | Loaded (c : state) | Sent (u : update).
Inductive runs {A} : state -> prog A -> list ran -> A -> state -> Prop :=
| runs_ret c a : runs c (Ret a) [] a c
| runs_others c c' p l a c2 : rely c c' -> runs c' p l a c2 -> runs c p l a c2
| runs_sh c cmd r k l a c2 : runs c (k r) l a c2 -> runs c (Sh cmd k) (Ran cmd r :: l) a c2
| runs_hostname c r k l a c2 : runs c (k r) l a c2 -> runs c (Hostname k) (Named r :: l) a c2
| runs_load c k l a c2 : runs c (k c) l a c2 -> runs c (Load k) (Loaded c :: l) a c2
| runs_store c f k l a c2 : runs (f c) k l a c2 -> runs c (Store f k) l a c2
| runs_send c u k l a c2 : runs c k l a c2 -> runs c (Send u k) (Sent u :: l) a c2.

Section runs.
Context {A : Type}.
Lemma inv_ret c x l (a : A) c2 : runs c (Ret x) l a c2 -> l = [] /\ a = x /\ rely c c2.
Proof.
  intros Hr. remember (Ret x) as p eqn:E. revert E. induction Hr; intros E; try discriminate E.
  - injection E as ->. split_and!; [done|done|reflexivity].
  - destruct (IHHr E) as (H1 & H2 & H3). split_and!; [done|done|by etrans].
Qed.
Lemma inv_sh c cmd k l (a : A) c2 : runs c (Sh cmd k) l a c2 -> exists c' r l', rely c c' /\ l = Ran cmd r :: l' /\ runs c' (k r) l' a c2.
Proof.
  intros Hr. remember (Sh cmd k) as p eqn:E. revert E. induction Hr; intros E; try discriminate E.
  - destruct (IHHr E) as (c3 & r & l' & R & H1 & H2). exists c3, r, l'. split; [by etrans|done].
  - injection E as -> ->. by eexists _, _, _.
Qed.
Lemma inv_hostname c k l (a : A) c2 : runs c (Hostname k) l a c2 -> exists c' r l', rely c c' /\ l = Named r :: l' /\ runs c' (k r) l' a c2.
Proof.
  intros Hr. remember (Hostname k) as p eqn:E. revert E. induction Hr; intros E; try discriminate E.
  - destruct (IHHr E) as (c3 & r & l' & R & H1 & H2). exists c3, r, l'. split; [by etrans|done].
  - injection E as ->. by eexists _, _, _.
Qed.
Lemma inv_load c k l (a : A) c2 : runs c (Load k) l a c2 -> exists c' l', rely c c' /\ l = Loaded c' :: l' /\ runs c' (k c') l' a c2.
Proof.
  intros Hr. remember (Load k) as p eqn:E. revert E. induction Hr; intros E; try discriminate E.
  - destruct (IHHr E) as (c3 & l' & R & H1 & H2). exists c3, l'. split; [by etrans|done].
  - injection E as ->. by eexists _, _.
Qed.
Lemma inv_store c f k l (a : A) c2 : runs c (Store f k) l a c2 -> exists c', rely c c' /\ runs (f c') k l a c2.
Proof.
  intros Hr. remember (Store f k) as p eqn:E. revert E. induction Hr; intros E; try discriminate E.
  - destruct (IHHr E) as (c3 & R & H1). exists c3. split; [by etrans|done].
  - injection E as -> ->. by eexists.
Qed.
End runs.

(** The node was found, and then the API at the management address: the address
    that is used and the one that is tested are read one after the other. *)
Definition api_answered (log : list ran) : Prop := exists pre h o1 c3 c4 o2,
  log = pre ++ [Named (Ok h); Ran (node_cmd h) (Ok o1); Loaded c3; Loaded c4; Ran (api_cmd (managementURL c3) api_path) (Ok o2)] /\
  has_prefix (managementURL c4) https = true.
(** The run read that the host is installed, or found it: its nodes are listed
    and then its chart is ready. *)
Definition seen_installed (log : list ran) : Prop :=
  (exists pre c post, log = pre ++ Loaded c :: post /\ installed c = true) \/
  exists pre nodes r post, log = pre ++ Ran k8s_cmd (Ok nodes) :: Ran chart_cmd r :: post /\ nodes <> "" /\ chart_ready r = true.

(** The part after the installation. *)
Definition ask_cluster : prog string :=
  present ← nodeIsPresent;
  if negb present then mret (wrapColor statusNotReady colorYellow)
  else
    url ← load managementURL;
    harvesterAPIReady ← isAPIReady url api_path;
    mret (if harvesterAPIReady : bool then wrapColor statusReady colorGreen else wrapColor statusNotReady colorYellow).
Lemma api_answered_app pre log : api_answered log -> api_answered (pre ++ log).
Proof. intros (p & h & o1 & c3 & c4 & o2 & -> & H). exists (pre ++ p), h, o1, c3, c4, o2. by rewrite app_assoc. Qed.
Lemma ask_cluster_runs c log status c' : runs c ask_cluster log status c' ->
  (status = wrapColor statusReady colorGreen /\ api_answered log \/ status = wrapColor statusNotReady colorYellow) /\ rely c c'.
Proof.
  intros Hr. unfold ask_cluster in Hr. cbn in Hr. apply inv_hostname in Hr as (c1 & r1 & l1 & R1 & -> & Hr).
  destruct r1 as [h|e|]; cbn in Hr; [|apply inv_ret in Hr as (-> & -> & Hr); (split; [by right|by etrans])..].
  apply inv_sh in Hr as (c2 & r2 & l2 & R2 & -> & Hr).
  destruct r2 as [o1|e|]; cbn in Hr; [|apply inv_ret in Hr as (-> & -> & Hr); (split; [by right|by do 2 (etrans; [eassumption|])])..].
  apply inv_load in Hr as (c3 & l3 & R3 & -> & Hr). apply inv_load in Hr as (c4 & l4 & R4 & -> & Hr).
  assert (R : rely c c4) by (do 3 (etrans; [eassumption|]); done). destruct (has_prefix (managementURL c4) https) eqn:Hp; cbn in Hr.
  2: { apply inv_ret in Hr as (-> & -> & Hr). split; [by right|by etrans]. }
  apply inv_sh in Hr as (c5 & r5 & l5 & R5 & -> & Hr). destruct r5 as [o2|e|]; cbn in Hr;
    apply inv_ret in Hr as (-> & -> & Hr); (split; [|by do 2 (etrans; [eassumption|])]); [left|by right..].
  split; [done|]. by exists [], h, o1, c3, c4, o2.
Qed.
Lemma asked_cluster c1 c pre l status c' :
  (status = wrapColor statusReady colorGreen /\ api_answered l \/ status = wrapColor statusNotReady colorYellow) -> rely c1 c' ->
  (firstHost c = true -> installed c1 = true /\ seen_installed (pre ++ l)) ->
  (status = wrapColor statusReady colorGreen -> api_answered (pre ++ l)) /\
  (status = statusSettingUpHarv -> firstHost c = true /\ installed c = false) /\
  (status <> statusSettingUpHarv -> firstHost c = true -> seen_installed (pre ++ l) /\ installed c' = true).
Proof.
  intros Hs (Hr & _) Hi. split_and!.
  - intros Hq. apply api_answered_app. destruct Hs as [[_ Ha]| ->]; [done|discriminate Hq].
  - intros ->. exfalso. by destruct Hs as [[? _]|?].
  - intros _ Hf. destruct (Hi Hf) as [H1 H2]. auto.
Qed.

(** C12: What the state of the cluster says, while the other goroutines run:
    "Ready" is shown only when the last things the run did were to find the node
    in the cluster, to read the management address, to see that it begins with
    "https://" (it is read again for this) and to have the API at the address
    answer; "Setting up Harvester" only on the first host, before it was found
    installed; and when a first host shows anything else, this run read that the
    host is installed, or listed its nodes (there is one at least) and then found
    its chart ready, and the host will not be shown as being set up again. *)
Theorem cluster_status_meaning c log status c' : runs c getHarvesterStatus log status c' ->
  (status = wrapColor statusReady colorGreen -> api_answered log) /\
  (status = statusSettingUpHarv -> firstHost c = true /\ installed c = false) /\
  (status <> statusSettingUpHarv -> firstHost c = true -> seen_installed log /\ installed c' = true).
Proof.
  intros Hr. unfold getHarvesterStatus in Hr. fold api_path in Hr. fold ask_cluster in Hr.
  unfold set_up, being_installed, both in Hr. cbn in Hr.
  apply inv_load in Hr as (c1 & l1 & R1 & -> & Hr). cbn in Hr.
  assert (Hf : firstHost c = firstHost c1) by (symmetry; apply R1). destruct (firstHost c1); cbn in Hr.
  2: { apply ask_cluster_runs in Hr as [Hs Ra]. apply (asked_cluster c1 c [_]); [done..|congruence]. }
  apply inv_load in Hr as (c2 & l2 & R2 & -> & Hr). cbn in Hr. assert (R : rely c c2) by (by etrans).
  destruct (installed c2) eqn:Hi; cbn in Hr.
  { apply ask_cluster_runs in Hr as [Hs Ra]. apply (asked_cluster c2 c [_; _]); [done..|]. intros _. split; [done|].
    left. by exists [Loaded c1], c2, l2. }
  assert (Hic : installed c = false).
  { destruct (installed c) eqn:E; [|done]. destruct R as (R & _). rewrite R in Hi by done. discriminate Hi. }
  apply inv_sh in Hr as (c3 & r3 & l3 & R3 & -> & Hr).
  destruct r3 as [nodes|e|]; cbn in Hr; [|by apply inv_ret in Hr as (-> & -> & Hr); split_and!..].
  case_bool_decide as Hn; cbn in Hr; [by apply inv_ret in Hr as (-> & -> & Hr); split_and!|].
  apply inv_sh in Hr as (c4 & r4 & l4 & R4 & -> & Hr).
  destruct (chart_ready r4) eqn:Hcr; cbn in Hr; [|by apply inv_ret in Hr as (-> & -> & Hr); split_and!].
  apply inv_store in Hr as (c5 & R5 & Hr). apply ask_cluster_runs in Hr as [Hs Ra].
  apply (asked_cluster (set_installed c5) c [_; _; _; _]); [done..|]. intros _. split; [done|].
  right. by exists [Loaded c1; Loaded c2], nodes, r4, l4.
Qed.

(** ** A first host *)
Section example.
Definition shadow : string := "root:*:19000::::::" +:+ Text.newline +:+ "rancher:$6$salt$hash:19000::::::" +:+ Text.newline.
Definition demo_node : Node := {|
  node_hostname w := Ok "node1"; node_yaml s := Ok []; node_verify c h k := bool_decide (k = "secret"); HarvesterVersion := "v1.6.0" |}.
Definition demo_host : Host := {|
  fault w e := None;
  exec w argv := (w_files w, inl (if bool_decide (List.last argv "" = chart_cmd) then "1" +:+ Text.newline else "10.0.0.9")) |}.
Definition demo_files : world := mkWorld {[RancherdConfigFile := "role: cluster-init"; "/etc/shadow" := shadow]} [] ∅ false.
#[local] Existing Instances demo_node demo_host.
Definition demo_start : dash := start_dash 80 24 demo_files.

Definition guesses : list choice := [Press KeyCtrlC; Press KeyF12; Typed "guess"; Press KeyEnter; Typed "secret"; Press KeyEnter].
Lemma shell_needs_password_witness :
  fst (dashboard_session false guesses demo_start) = Err ErrQuit /\
  exists pre k post d2, guesses = pre ++ Press k :: post /\ authorised d2.
Proof.
  assert (Hr : fst (dashboard_session false guesses demo_start) = Err ErrQuit) by vm_refl. split; [exact Hr|].
  assert (E : dashboard_session false guesses demo_start = (Err ErrQuit, snd (dashboard_session false guesses demo_start)))
    by (rewrite <- Hr; apply surjective_pairing).
  destruct (shell_needs_password false 80 24 demo_files guesses _ E) as (pre & k & post & d1 & before & b & after & d2 & Hcs & _ & _ & _ & [[_ Ha]|[_ [Hd _]]]);
    [|discriminate Hd].
  exists pre, k, post, d2. split; [exact Hcs|exact Ha].
Defined.
(** With [DEBUG], Ctrl-C leads to the shell at once. *)
Example debug_shell : fst (dashboard_session true [Press KeyCtrlC] demo_start) = Err ErrQuit /\
  fst (dashboard_session false [Press KeyCtrlC] demo_start) = Ok tt.
Proof. split; vm_refl. Qed.
(** The cluster is found ready while the address is not known yet. *)
Definition first_round : list choice := repeat (Goroutine 1) 8.
Definition second_round : list choice := repeat (Goroutine 0) 4 ++ [Event 1; Event 0].
Definition ready_dash : dash := snd (dashboard_session false first_round demo_start).
Example dashboard_view : text_of "managementUrl" (da_gui (snd (dashboard_session false (first_round ++ second_round) demo_start))) =
  Some ["* Management URL:"; "  https://10.0.0.9"].
Proof. vm_refl. Qed.

Definition ready_state : state := mkState true true "https://10.0.0.9".
Definition ready_log : list ran :=
  [Loaded ready_state; Loaded ready_state; Named (Ok "node1"); Ran (node_cmd "node1") (Ok "node1"); Loaded ready_state; Loaded ready_state;
   Ran (api_cmd "https://10.0.0.9" api_path) (Ok "")].
Lemma cluster_status_meaning_witness :
  runs ready_state getHarvesterStatus ready_log (wrapColor statusReady colorGreen) ready_state /\ api_answered ready_log /\ seen_installed ready_log.
Proof.
  assert (Hr : runs ready_state getHarvesterStatus ready_log (wrapColor statusReady colorGreen) ready_state).
  { repeat (first [apply runs_load | apply runs_hostname | apply runs_sh | apply runs_ret]; cbn). }
  split; [exact Hr|]. destruct (cluster_status_meaning _ _ _ _ Hr) as (H1 & _ & H3).
  split; [by apply H1|]. by apply H3.
Defined.
End example.
