(* ===== verification/LayoutProofs.v ===== *)
(** * LayoutProofs: every element of the installer is registered, can be shown
      on a terminal that is large enough, and has its place on its page *)
From Stdlib Require Import ZArith Lia Ascii String.
From stdpp Require Import base tactics list gmap strings.
From S2P Require Import WidgetsProofs Prelude GoStrings Text DiskOptions ConsoleUtil Console Gui Widgets Layout.
Local Open Scope Z_scope.

(** Find a name in the list of the widgets. *)
Ltac find_added := repeat first [apply list_elem_of_here | apply list_elem_of_further].

Section proofs.
Context {H : Type}.
Notation gui_state := (Gui (binding H)).
Notation widget := (widget (H := H)).

(** ** Every name is registered *)

Lemma elements_lookup (l : list (string * widget)) k w :
  NoDup l.*1 -> (k, w) ∈ l -> GetElement (foldl AddElement ∅ l) k = Ok w.
Proof.
  intros Hd Hw. unfold GetElement.
  enough (E : foldl AddElement ∅ l !! k = Some w) by (by rewrite E).
  revert Hd Hw. induction l as [|[k' w'] l IH] using rev_ind; intros Hd Hw; [by apply elem_of_nil in Hw|].
  rewrite foldl_app. cbn. rewrite fmap_app in Hd. apply NoDup_app in Hd as (Hd & Hn & _).
  apply elem_of_app in Hw as [Hw|[= -> ->]%list_elem_of_singleton].
  - rewrite lookup_insert_ne; [by apply IH|]. intros ->. apply (Hn k); [by apply (list_elem_of_fmap_2 fst) in Hw|left].
  - apply lookup_insert_eq.
Qed.
Lemma added_names maxX maxY l : added (H := H) maxX maxY = Ok l -> NoDup l.*1.
Proof. intros [= <-]. apply (bool_decide_unpack _). vm_compute. exact I. Qed.
Lemma panel_name_inj p p' : panel_name p = panel_name p' -> p = p'.
Proof. destruct p, p'; (done || discriminate 1). Qed.

(** ** Operations on the terminal that succeed *)

Definition has (g : gui_state) (x : string) : Prop := is_Some (g_views g !! x).
(** [m] succeeds and every view stays. *)
Definition works {A} (m : G (binding H) A) (g : gui_state) (Q : gui_state -> Prop) : Prop :=
  exists a g', m g = (Ok a, g') /\ (forall x, has g x -> has g' x) /\ Q g'.

Lemma works_bind {A B} (m : G (binding H) A) (f : A -> G (binding H) B) g Q R :
  works m g Q -> (forall a g', Q g' -> (forall x, has g x -> has g' x) -> works (f a) g' R) -> works (m ≫= f) g R.
Proof.
  intros (a & g1 & E & M & HQ) Hf. destruct (Hf a g1 HQ M) as (b & g2 & E2 & M2 & HR).
  exists b, g2. rewrite (st_run _ _ _ _ _ E). eauto.
Qed.
Lemma works_ret {A} (a : A) g (Q : gui_state -> Prop) : Q g -> works (mret a) g Q.
Proof. intros. by exists a, g. Qed.
Lemma works_on_view x f g (Q : gui_state -> Prop) : has g x -> (forall g', (forall y, has g y -> has g' y) -> Q g') -> works (on_view x f) g Q.
Proof.
  intros [v Hv] HQ. unfold on_view, works, mbind, st_bind, GetView. rewrite Hv. eexists tt, _. split; [reflexivity|].
  assert (M : forall y, has g y -> has (put_views (<[x:=f v]> (g_views g)) g) y).
  { intros y Hy. unfold has. cbn. destruct (decide (x = y)) as [->|]; [rewrite lookup_insert_eq; by eexists|].
    by rewrite lookup_insert_ne. }
  by split; [|apply HQ].
Qed.
Lemma works_SetView x x0 y0 x1 y1 g (Q : gui_state -> Prop) : x0 < x1 -> y0 < y1 -> x <> "" ->
  (forall g', has g' x -> (forall y, has g y -> has g' y) -> Q g') -> works (SetView x x0 y0 x1 y1) g Q.
Proof.
  intros Hx Hy Hne HQ. unfold works, SetView. rewrite (proj2 (Z.leb_gt _ _)), (proj2 (Z.leb_gt _ _)) by lia. cbn [orb].
  rewrite bool_decide_eq_false_2 by done.
  assert (M : forall v, let g' := put_views (<[x:=v]> (g_views g)) g in has g' x /\ forall y, has g y -> has g' y).
  { intros v. split; [by eexists; apply lookup_insert_eq|]. intros y Hy'. unfold has. cbn.
    destruct (decide (x = y)) as [->|]; [rewrite lookup_insert_eq; by eexists|by rewrite lookup_insert_ne]. }
  destruct (g_views g !! x) as [v|]; eexists _, _; (split; [reflexivity|]).
  - destruct (M (put_location x0 y0 x1 y1 v)) as [M1 M2]. split; [exact M2|by apply HQ].
  - destruct (M (newView x0 y0 x1 y1)) as [M1 M2]. split; [exact M2|by apply HQ].
Qed.
Lemma SetView_invalid x x0 y0 x1 y1 (g g' : gui_state) b : SetView x x0 y0 x1 y1 g = (Ok b, g') -> x0 < x1 /\ y0 < y1.
Proof. unfold SetView. destruct (_ || _) eqn:E; [done|]. apply orb_false_iff in E as [?%Z.leb_gt ?%Z.leb_gt]. lia. Qed.
Lemma works_current x g (Q : gui_state -> Prop) : has g x -> (forall g', (forall y, has g y -> has g' y) -> Q g') -> works (SetCurrentView x) g Q.
Proof. intros [v Hv] HQ. unfold works, SetCurrentView. rewrite Hv. eexists tt, _. split; [reflexivity|]. split; [done|by apply HQ]. Qed.
Lemma works_bind_keys x keys g (Q : gui_state -> Prop) : (forall g', (forall y, has g y -> has g' y) -> Q g') -> works (bind_keys x keys) g Q.
Proof. intros HQ. unfold works. rewrite bind_keys_eq. eexists tt, _. split; [reflexivity|]. split; [done|by apply HQ]. Qed.

(** ** Showing a widget *)

(** The place a panel is shown at. *)
Definition shown_at (maxX maxY : Z) (p : Panel (H := H)) : box := box_of (default_location maxX maxY p).
Definition valid (b : box) : Prop := bx0 b < bx1 b /\ by0 b < by1 b.

Lemma make_view_works p g (Q : gui_state -> Prop) : pn_Name p <> "" -> valid (box_of p) ->
  (forall g', (forall y, has g y -> has g' y) -> Q g') -> works (make_view p) g Q.
Proof.
  intros Hn [Hx Hy] HQ. unfold make_view.
  apply works_bind with (Q := fun g' => has g' (pn_Name p)); [by apply works_SetView|].
  intros new g1 Hp M1. destruct new; [|by apply works_ret, HQ].
  apply works_bind with (Q := fun g' => has g' (pn_Name p)); [apply works_on_view; auto|].
  intros _ g2 Hp2 M2. apply works_bind with (Q := fun _ => True).
  { destruct (pn_Focus p); [by apply works_current|by apply works_ret]. }
  intros _ g3 _ M3. apply works_bind_keys. intros g4 M4. apply HQ. intros y Hg. by apply M4, M3, M2, M1.
Qed.
Lemma show_tips_works p g (Q : gui_state -> Prop) : (forall g', (forall y, has g y -> has g' y) -> Q g') -> works (show_tips p) g Q.
Proof.
  intros HQ. unfold show_tips, works, mbind, st_bind, known. destruct (bool_decide _) eqn:E.
  - apply (works_on_view footerName (fun v => Write (footer_tips p) (Clear v)) g Q); [by apply bool_decide_eq_true in E|exact HQ].
  - eexists tt, g. split; [reflexivity|]. split; [done|]. by apply HQ.
Qed.

(** Showing the panel of a widget [x] on the terminal [g]. *)
Lemma Panel_Show_works {X} (l : lens X Panel) g x :
  (forall p y, get l (put l p y) = p) -> pn_Name (default_location (g_maxX g) (g_maxY g) (get l x)) <> "" ->
  valid (shown_at (g_maxX g) (g_maxY g) (get l x)) ->
  exists g', Panel_Show gl (compose wl l) (mret tt) (g, x) = (Ok tt, (g', put l (default_location (g_maxX g) (g_maxY g) (get l x)) x)).
Proof.
  intros Hl Hn Hv. set (p := default_location _ _ _) in *.
  destruct (make_view_works p g (fun _ => True) Hn Hv) as ([] & g1 & E1 & _); [done|].
  destruct (show_tips_works p g1 (fun _ => True)) as ([] & g2 & E2 & _); [done|].
  exists g2. unfold Panel_Show, mbind, st_bind, read, modify, compose, mret, st_ret. cbn. fold p. rewrite Hl.
  unfold zoom. cbn. rewrite E1. cbn. by rewrite E2.
Qed.
Lemma Panel_Show_valid {X} (l : lens X Panel) g x s :
  (forall p y, get l (put l p y) = p) -> Panel_Show gl (compose wl l) (mret tt) (g, x) = (Ok tt, s) ->
  valid (shown_at (g_maxX g) (g_maxY g) (get l x)).
Proof.
  intros Hl. unfold Panel_Show, make_view, mbind, st_bind, read, modify, compose, mret, st_ret, zoom. cbn. rewrite Hl.
  destruct (SetView _ _ _ _ _ g) as [[b|e|] g1] eqn:E; [|done..]. intros _. by apply SetView_invalid in E.
Qed.

(** The view of an input or of a drop-down, in the place of its panel. *)
Definition field_box (offset : Z) (b : box) : box := mkBox (bx0 b + offset) (by0 b) (bx1 b - 1) (by0 b + 2).
Lemma run_works {X A B} (m : G (binding H) A) (f : A -> st (gui_state * X) B) g x Q (R : result B -> Prop) :
  works m g Q -> (forall a g', Q g' -> (forall y, has g y -> has g' y) -> R (fst (f a (g', x)))) ->
  R (fst ((zoom gl m ≫= f) (g, x))).
Proof.
  intros (a & g1 & E & M & HQ) Hf. rewrite (st_run _ _ _ a (g1, x)) by (by apply zoom_gl). by apply Hf.
Qed.

Lemma Input_Show_works i g : pn_Name (in_Panel i) <> "" ->
  valid (shown_at (g_maxX g) (g_maxY g) (in_Panel i)) ->
  valid (field_box (label_offset (pn_Content (in_Panel i))) (shown_at (g_maxX g) (g_maxY g) (in_Panel i))) ->
  fst (Input_Show gl wl (mret tt) (g, i)) = Ok tt.
Proof.
  intros Hn Hv [Hx Hy]. unfold Input_Show.
  destruct (Panel_Show_works (mkLens in_Panel (fun p i => mkInput p (in_Value i))) g i) as [g1 E1]; [done| |done|].
  { unfold default_location. by destruct (_ && _). }
  change (compose wl (mkLens in_Panel (fun p i => mkInput p (in_Value i)))) with (input_panel (S := gui_state * Input) (H := H) wl) in E1.
  rewrite (st_run _ _ _ _ _ E1). clear E1. cbn [get put]. set (i' := mkInput _ _).
  rewrite (st_run (read wl) _ (g1, i') i' (g1, i') eq_refl).
  assert (En : inputViewName i' <> "") by (unfold inputViewName; by destruct (pn_Name (in_Panel i'))).
  assert (Ec : pn_Content (in_Panel i') = pn_Content (in_Panel i)) by (cbn; unfold default_location; by destruct (_ && _)).
  rewrite Ec.
  apply run_works with (Q := fun g => has g (inputViewName i')); [by apply works_SetView|].
  intros new g2 V2 _.
  assert (T : forall g3, has g3 (inputViewName i') ->
    fst ((zoom gl (SetCurrentView (inputViewName i')) ≫= fun _ => Input_SetData gl wl (in_Value i')) (g3, i')) = Ok tt).
  { intros g3 V3. apply run_works with (Q := fun g => has g (inputViewName i')); [by apply works_current; auto|].
    intros _ g4 V4 _. unfold Input_SetData. rewrite (st_run (read wl) _ (g4, i') i' (g4, i') eq_refl).
    destruct (works_on_view (inputViewName i') (fun v => Write (in_Value i') (Clear v)) g4 (fun _ => True) V4) as ([] & g5 & E5 & _); [done|].
    by rewrite (zoom_gl _ _ _ _ _ E5). }
  destruct new; [|rewrite (st_run (mret tt) _ (g2, i') tt (g2, i') eq_refl); by apply T].
  apply run_works with (Q := fun g => has g (inputViewName i')); [|intros _ g3 V3 _; by apply T].
  apply works_bind with (Q := fun g => has g (inputViewName i')); [apply works_on_view; auto|].
  intros _ g3 V3 _. apply works_bind_keys. auto.
Qed.
Lemma Input_Show_valid i g : fst (Input_Show gl wl (mret tt) (g, i)) = Ok tt ->
  valid (shown_at (g_maxX g) (g_maxY g) (in_Panel i)) /\
  valid (field_box (label_offset (pn_Content (in_Panel i))) (shown_at (g_maxX g) (g_maxY g) (in_Panel i))).
Proof.
  intros E%st_returned. unfold Input_Show in E. apply st_bind_ok in E as ([] & [g1 i1] & E1 & E).
  pose proof E1 as Hv. apply (Panel_Show_valid (mkLens in_Panel (fun p i => mkInput p (in_Value i)))) in Hv as [Hx Hy]; [|done].
  cbn [get] in Hx, Hy. split; [done|].
  destruct (Panel_Show_works (mkLens in_Panel (fun p i => mkInput p (in_Value i))) g i) as [g2 E2]; [done| |done|].
  { intros Hn. cbn [get] in Hn. revert E1. unfold Panel_Show, make_view, mbind, st_bind, read, modify, zoom. cbn.
    rewrite Hn. unfold SetView. by destruct (_ || _). }
  cbn [get put] in E2. change (compose wl (mkLens in_Panel (fun p i => mkInput p (in_Value i)))) with (input_panel (S := gui_state * Input (H := H)) (H := H) wl) in E2.
  rewrite E1 in E2. injection E2 as -> ->.
  apply st_bind_ok in E as (i2 & s2 & [= <- <-] & E). apply st_bind_ok in E as (b & s3 & E3 & _).
  unfold zoom in E3. cbn in E3. destruct (SetView _ _ _ _ _ g2) as [r g3] eqn:E4.
  injection E3 as -> <-. apply SetView_invalid in E4 as [Hfx _].
  assert (Ec : pn_Content (default_location (g_maxX g) (g_maxY g) (in_Panel i)) = pn_Content (in_Panel i)) by (unfold default_location; by destruct (_ && _)).
  cbn in Hfx. rewrite Ec in Hfx. split; cbn; [done|lia].
Qed.

Lemma Select_Show_works opts s g : pn_Name (sl_Panel s) <> "" -> sl_multi s = false -> sl_Value s = "" ->
  valid (shown_at (g_maxX g) (g_maxY g) (sl_Panel s)) ->
  fst (Select_Show gl wl (Some (fun _ => Ok opts)) (mret tt) (g, s)) = Ok tt.
Proof.
  intros Hn Hm Hv0 Hv. unfold Select_Show.
  destruct (Panel_Show_works (mkLens sl_Panel put_sl_Panel) g s) as [g1 E1]; [done| |done|].
  { unfold default_location. by destruct (_ && _). }
  change (compose wl (mkLens sl_Panel put_sl_Panel)) with (select_panel (S := gui_state * Select (H := H)) (H := H) wl) in E1.
  rewrite (st_run _ _ _ _ _ E1). clear E1. cbn [get put].
  set (p := default_location _ _ _). set (x := put_sl_options opts (put_sl_Panel p s)).
  rewrite (st_run (updateOptions wl (Some (fun _ => Ok opts))) _ (g1, put_sl_Panel p s) tt (g1, x) eq_refl).
  rewrite (st_run (read wl) _ (g1, x) x (g1, x) eq_refl). cbv zeta.
  assert (En : options_name x <> "") by (unfold options_name; by destruct (pn_Name (sl_Panel x))).
  destruct Hv as [Hx Hy]. cbn in Hx, Hy.
  apply run_works with (Q := fun g => has g (options_name x)); [apply works_SetView; cbn; try lia; auto|].
  intros new g2 V2 _.
  assert (T : forall g3, fst ((if sl_multi x then mret tt else Select_SetData gl wl (Some (fun _ => Ok opts)) (sl_Value x)) (g3, x)) = Ok tt).
  { intros g3. change (sl_multi x) with (sl_multi s). rewrite Hm. change (sl_Value x) with (sl_Value s). by rewrite Hv0. }
  destruct new; [|rewrite (st_run (mret tt) _ (g2, x) tt (g2, x) eq_refl); by apply T].
  set (n := options_name x) in *. rewrite st_bind_assoc.
  assert (F : forall g2, fill_list gl wl n (g2, x) = zoom gl (on_view n (Write (String.concat "" (map (fun o => println (op_Text o)) opts)))) (g2, x)).
  { intros h. unfold fill_list. rewrite (st_run (read wl) _ (h, x) x (h, x) eq_refl). change (sl_multi x) with (sl_multi s). by rewrite Hm. }
  apply run_works with (Q := fun g => has g n); [by apply works_on_view; auto|]. intros _ g2' V2' _. rewrite st_bind_assoc.
  rewrite (st_bind_ext _ _ _ _ (F g2')).
  apply run_works with (Q := fun g => has g n); [by apply works_on_view; auto|]. intros _ g3 V3 _. rewrite st_bind_assoc.
  apply run_works with (Q := fun _ => True); [by apply works_current|]. intros _ g4 _ _. rewrite st_bind_assoc.
  change (sl_multi x) with (sl_multi s) in *. rewrite Hm in T |- *.
  apply run_works with (Q := fun _ => True); [by eexists tt, _|]. intros _ g5 _ _.
  apply run_works with (Q := fun _ => True); [by apply works_bind_keys|]. intros _ g6 _ _. apply T.
Qed.

Lemma rendered_ok n text : exists r, rendered n text = Ok r.
Proof.
  unfold rendered. destruct (Z.ltb_spec (slen text) n); [by eexists|].
  enough (E : forall k t, (k <= String.length t)%nat -> exists r, first_chars k t = Ok r).
  { destruct (E (Z.to_nat (n - 1)) text) as [r ->]; [|by eexists]. unfold slen in *. lia. }
  intros k. induction k as [|k IH]; intros t Hk; [by eexists|]. destruct t as [|c t]; cbn in Hk; [lia|].
  destruct (IH t) as [r Er]; [lia|]. cbn. rewrite Er. by eexists.
Qed.
Lemma DropDown_SetData_works opts data d g : has g (dd_ViewName d) -> sl_options (dd_Select d) = opts ->
  fst (DropDown_SetData gl wl data (g, d)) = Ok tt.
Proof.
  intros Hv Ho. unfold DropDown_SetData. rewrite (st_run (read wl) _ (g, d) d (g, d) eq_refl).
  rewrite (st_run (zoom gl (known (dd_ViewName d))) _ (g, d) true (g, d)).
  2:{ unfold zoom, known. cbn. by rewrite bool_decide_eq_true_2. }
  cbn [negb]. apply run_works with (Q := fun g => has g (dd_ViewName d)); [apply works_on_view; auto|].
  intros _ g1 V1 _. cbv zeta.
  assert (R : forall text, fst ((r ← st_lift (rendered (dd_InputLen d) text); zoom gl (on_view (dd_ViewName d) (Write r))) (g1, d)) = Ok tt).
  { intros text. destruct (rendered_ok (dd_InputLen d) text) as [r Er].
    rewrite (st_run _ _ (g1, d) r (g1, d)) by (unfold st_lift; by rewrite Er).
    destruct (works_on_view (dd_ViewName d) (Write r) g1 (fun _ => True) V1) as ([] & g2 & E2 & _); [done|].
    by rewrite (zoom_gl _ _ _ _ _ E2). }
  destruct (dd_multi d); [apply R|]. destruct (list_find _ _) as [[k o]|]; [apply R|done].
Qed.
Lemma DropDown_Show_works opts d g : pn_Name (dd_Panel d) <> "" -> dd_ViewName d <> "" ->
  valid (shown_at (g_maxX g) (g_maxY g) (dd_Panel d)) ->
  valid (field_box (drop_offset (pn_Content (dd_Panel d))) (shown_at (g_maxX g) (g_maxY g) (dd_Panel d))) ->
  fst (DropDown_Show gl wl (fun _ => Ok opts) (mret tt) (g, d)) = Ok tt.
Proof.
  intros Hn Hw Hv [Hx Hy]. unfold DropDown_Show.
  destruct (Panel_Show_works (mkLens dd_Panel put_dd_Panel) g d) as [g1 E1]; [done| |done|].
  { unfold default_location. by destruct (_ && _). }
  change (compose wl (mkLens dd_Panel put_dd_Panel)) with (drop_panel (S := gui_state * DropDown (H := H)) (H := H) wl) in E1.
  rewrite (st_run _ _ _ _ _ E1). clear E1. cbn [get put].
  set (p := default_location _ _ _). set (x := put_dd_Select (put_sl_options opts (dd_Select d)) (put_dd_Panel p d)).
  rewrite (st_run (updateOptions (drop_select wl) (Some (fun _ => Ok opts))) _ (g1, put_dd_Panel p d) tt (g1, x) eq_refl).
  rewrite (st_run (read wl) _ (g1, x) x (g1, x) eq_refl). cbv zeta.
  set (y := put_dd_InputLen (pn_X1 (dd_Panel x) - 1 - (pn_X0 (dd_Panel x) + drop_offset (pn_Content (dd_Panel x))) - 1) x).
  rewrite (st_run (modify wl _) _ (g1, x) tt (g1, y) eq_refl).
  assert (Ec : pn_Content (dd_Panel x) = pn_Content (dd_Panel d)) by (cbn; unfold p, default_location; by destruct (_ && _)).
  rewrite Ec. change (dd_ViewName x) with (dd_ViewName d).
  apply run_works with (Q := fun g => has g (dd_ViewName d)); [by apply works_SetView|].
  intros new g2 V2 _.
  assert (T : forall g3 z, has g3 (dd_ViewName d) -> dd_ViewName z = dd_ViewName d ->
    fst ((zoom gl (SetCurrentView (dd_ViewName d)) ≫= fun _ => d ← read wl; DropDown_SetData gl wl (dd_Value d)) (g3, z)) = Ok tt).
  { intros g3 z V3 Hz. apply run_works with (Q := fun g => has g (dd_ViewName d)); [by apply works_current; auto|].
    intros _ g4 V4 _. rewrite (st_run (read wl) _ (g4, z) z (g4, z) eq_refl).
    apply DropDown_SetData_works with (sl_options (dd_Select z)); [by rewrite Hz|done]. }
  destruct new; [|rewrite (st_run (mret tt) _ (g2, y) tt (g2, y) eq_refl); by apply T].
  set (y1 := default_choice y).
  assert (E1 : dd_ViewName y1 = dd_ViewName d).
  { unfold y1, default_choice. destruct (_ && _); [|done]. by destruct (sl_options (dd_Select y)). }
  rewrite st_bind_assoc. apply run_works with (Q := fun g => has g (dd_ViewName d)); [by apply works_on_view; auto|]. intros _ g2' V2' _.
  rewrite st_bind_assoc, (st_run (modify wl default_choice) _ (g2', y) tt (g2', y1) eq_refl), st_bind_assoc.
  apply run_works with (Q := fun g => has g (dd_ViewName d)); [by eexists tt, _|]. intros _ g3 V3 _. rewrite st_bind_assoc.
  set (y2 := put_dd_Select (put_sl_Panel (put_KeyBindings list_keys (sl_Panel (dd_Select y1))) (dd_Select y1)) y1).
  rewrite (st_run (modify (compose (drop_select wl) (mkLens sl_Panel put_sl_Panel)) (put_KeyBindings list_keys)) _ (g3, y1) tt (g3, y2) eq_refl).
  apply run_works with (Q := fun g => has g (dd_ViewName d)); [apply works_bind_keys; auto|]. intros _ g4 V4 _. by apply T.
Qed.

(** ** The elements of the installer *)

(** What [show_widget] asks of a widget besides its place. *)
Definition fresh_widget (w : widget) : Prop :=
  pn_Name (panel_of w) <> "" /\
  match w with
  | WSelect s => sl_multi s = false /\ sl_Value s = ""
  | WDropDown d => dd_ViewName d <> ""
  | _ => True
  end.
(** The views of a widget: its panel and its field. *)
Definition field_offset (w : widget) : option Z :=
  match w with
  | WInput i => Some (label_offset (pn_Content (in_Panel i)))
  | WDropDown d => Some (drop_offset (pn_Content (dd_Panel d)))
  | _ => None
  end.
Definition views_of (maxX maxY : Z) (w : widget) : list box :=
  let b := shown_at maxX maxY (panel_of w) in
  b :: match field_offset w with Some o => [field_box o b] | None => [] end.

Lemma show_widget_works opts w g : fresh_widget w -> Forall valid (views_of (g_maxX g) (g_maxY g) w) ->
  show_widget opts w g = Ok tt.
Proof.
  intros [Hn Hw] Hv. unfold views_of in Hv. destruct w as [p|i|s|d]; cbn [field_offset panel_of] in *.
  - apply Forall_cons in Hv as [Hv _].
    destruct (Panel_Show_works (mkLens id (fun x _ => x)) g p) as [g1 E1]; [done| |done|].
    { cbn. unfold default_location. by destruct (_ && _). }
    exact (f_equal fst E1).
  - apply Forall_cons in Hv as [Hv Hf]. apply Forall_cons in Hf as [Hf _]. by apply (Input_Show_works i g).
  - apply Forall_cons in Hv as [Hv _]. destruct Hw as [Hm Hv0]. by apply (Select_Show_works opts s g).
  - apply Forall_cons in Hv as [Hv Hf]. apply Forall_cons in Hf as [Hf _]. by apply (DropDown_Show_works opts d g).
Qed.

(** All elements with the places they are shown at. *)
Definition placed_elements (maxX maxY : Z) : result (gmap string widget) :=
  els ← setPanels maxX maxY; els ← place_role maxX maxY els; place_hostname maxX maxY els.

Lemma GetElement_insert els n n' (w : widget) :
  GetElement (<[n := w]> els) n' = if bool_decide (n = n') then Ok w else GetElement els n'.
Proof. unfold GetElement. case_bool_decide as E; [subst; by rewrite lookup_insert_eq|by rewrite lookup_insert_ne]. Qed.

Lemma shown_at_own maxX maxY (p : Panel (H := H)) : valid (box_of p) -> shown_at maxX maxY p = box_of p.
Proof.
  intros [Hx Hy]. cbn in Hx, Hy. unfold shown_at, default_location.
  destruct (Z.eqb_spec (pn_X0 p) 0), (Z.eqb_spec (pn_X1 p) 0); try done. lia.
Qed.

Lemma shown_at_placed maxX maxY (p : Panel (H := H)) : pn_Y0 p <> 0 -> shown_at maxX maxY p = box_of p.
Proof.
  intros Hy. unfold shown_at, default_location. by rewrite (proj2 (Z.eqb_neq (pn_Y0 p) 0)), andb_false_r by done.
Qed.

Lemma setPanels_lookup maxX maxY : exists els : gmap string widget, setPanels maxX maxY = Ok els /\
  forall l, added (H := H) maxX maxY = Ok l -> forall k w, (k, w) ∈ l -> GetElement els k = Ok w.
Proof.
  destruct (added (H := H) maxX maxY) as [l| |] eqn:E; [|discriminate E..].
  exists (foldl AddElement ∅ l). unfold setPanels. rewrite E. split; [done|]. intros l' [= <-] k w Hw.
  apply elements_lookup; [by eapply added_names|done].
Qed.
Ltac show_placed :=
  unfold views_of; ((rewrite shown_at_own by (split; cbn; lia)) || unfold shown_at); cbn;
  repeat (constructor; [split; cbn -[label_offset drop_offset]; try (replace (label_offset _) with 20 by reflexivity);
    first [replace (drop_offset _) with 20 by reflexivity | replace (drop_offset _) with 0 by reflexivity | idtac]; cbn; lia|]); constructor.

Definition large (maxX maxY : Z) : Prop := 32 <= maxX /\ 16 <= maxY.
Lemma large_eighths maxX maxY : large maxX maxY -> 4 <= Z.quot maxX 8 /\ 2 <= Z.quot maxY 8.
Proof. intros [Hx Hy]. split; apply Z.quot_le_lower_bound; lia. Qed.

(** The widget [setPanels] registers for [p]. *)
Record registered (maxX maxY : Z) (p : panel) (w : widget) : Prop := {
  rg_name : pn_Name (panel_of w) = panel_name p;
  rg_kind : same_kind w (kind_of p) = true;
  rg_fresh : fresh_widget w;
  rg_label : default 0 (field_offset w) <= 20;
  rg_views : large maxX maxY -> p <> hostnameValidatorPanel -> Forall valid (views_of maxX maxY w)
}.
Lemma setPanels_registers maxX maxY : exists els : gmap string widget, setPanels maxX maxY = Ok els /\
  forall p, exists w, GetElement els (panel_name p) = Ok w /\ registered maxX maxY p w.
Proof.
  destruct (setPanels_lookup maxX maxY) as (els & E & L). exists els. split; [done|]. intros p.
  specialize (L _ eq_refl).
  destruct p; (eexists; split; [apply L; find_added|]); (split; [done|done|by repeat split|by vm_compute|]);
  intros Hl Hp; destruct (large_eighths _ _ Hl) as [Hx Hy]; destruct Hl; unfold q in *.
  all: try solve [show_placed].
  done.
Qed.

(** A widget keeps what it is when it is placed. *)
Lemma place_registered maxX maxY p b (w : widget) : registered maxX maxY p w ->
  (large maxX maxY -> valid b /\ bx0 b + 21 < bx1 b) ->
  registered maxX maxY p (place b w) /\ (large maxX maxY -> Forall valid (views_of maxX maxY (place b w))).
Proof.
  intros [Hn Hk [Hf Hf'] Hl _] Hb.
  assert (Ho : field_offset (place b w) = field_offset w) by (by destruct w).
  assert (Hv : large maxX maxY -> Forall valid (views_of maxX maxY (place b w))).
  { intros [Hvb Hw]%Hb.
    assert (Hs : shown_at maxX maxY (panel_of (place b w)) = b).
    { assert (Eb : box_of (panel_of (place b w)) = b) by (by destruct w, b). rewrite shown_at_own; by rewrite Eb. }
    unfold views_of. rewrite Hs, Ho. constructor; [done|]. destruct (field_offset w) as [o|]; [|constructor].
    constructor; [|constructor]. destruct Hvb. cbn in Hl. split; cbn; lia. }
  split; [|done]. split; [by destruct w|by destruct w|split; [by destruct w|by destruct w]|by rewrite Ho|auto].
Qed.

Lemma locate_named_cons maxX (els : gmap string widget) y name h l w : 0 < h -> GetElement els name = Ok w ->
  locate_named maxX els y ((name, h) :: l) = locate_named maxX (<[name := place (mkBox (Z.quot maxX 8) y (Z.quot maxX 8 * 7) (y + h)) w]> els) (y + h) l.
Proof.
  intros Hh Ew. cbn [locate_named]. unfold locate. rewrite (proj2 (Z.leb_gt h 0)) by lia.
  cbn [mbind result_bind]. by rewrite Ew.
Qed.
Lemma locate_named_nil maxX (els : gmap string widget) y : locate_named maxX els y [] = Ok els.
Proof. done. Qed.
(** What is not on the pages of the role and of the host name stays in its place. *)
Lemma placed_registers maxX maxY : exists els els' : gmap string widget,
  setPanels maxX maxY = Ok els /\ placed_elements maxX maxY = Ok els' /\
  (forall p, p ∉ [askRolePanel; hostnamePanel; hostnameValidatorPanel] -> GetElement els' (panel_name p) = GetElement els (panel_name p)) /\
  forall p, exists w, GetElement els' (panel_name p) = Ok w /\ registered maxX maxY p w /\ (large maxX maxY -> Forall valid (views_of maxX maxY w)).
Proof.
  destruct (setPanels_registers maxX maxY) as (els & E & R).
  set (b1 := mkBox (Z.quot maxX 8) (Z.quot maxY 8) (Z.quot maxX 8 * 7) (Z.quot maxY 8 + 3)).
  set (b2 := mkBox (Z.quot maxX 8) (Z.quot maxY 8 + 3) (Z.quot maxX 8 * 7) (Z.quot maxY 8 + 3 + 3)).
  assert (P : forall p b, b = b1 \/ b = b2 -> forall w, registered maxX maxY p w ->
    registered maxX maxY p (place b w) /\ (large maxX maxY -> Forall valid (views_of maxX maxY (place b w)))).
  { intros p b Hb w Hw. apply place_registered; [done|]. intros [Hx Hy]%large_eighths. unfold valid.
    destruct Hb as [-> | ->]; cbn; lia. }
  destruct (R askRolePanel) as (role & E1 & R1), (R hostnamePanel) as (host & E2 & R2), (R hostnameValidatorPanel) as (msg & E3 & R3).
  exists els. unfold placed_elements, place_role, place_hostname, createVerticalLocatorWithName. rewrite E. cbn [mbind result_bind].
  unfold q. rewrite (locate_named_cons _ _ _ _ _ _ _ (eq_refl : 0 < 3) E1), locate_named_nil. cbn [mbind result_bind].
  rewrite (locate_named_cons _ _ _ _ _ _ host (eq_refl : 0 < 3)) by (by rewrite GetElement_insert).
  rewrite (locate_named_cons _ _ _ _ _ _ msg (eq_refl : 0 < 3)) by (by rewrite !GetElement_insert).
  fold b1 b2. eexists. split; [done|]. split; [reflexivity|].
  assert (N : forall p' p, bool_decide (panel_name p' = panel_name p) = bool_decide (p' = p)).
  { intros p' p. apply bool_decide_ext. split; [apply panel_name_inj|by intros; f_equal]. }
  split.
  { intros p Hp. rewrite !GetElement_insert, !N, !bool_decide_eq_false_2; [done|..]; intros <-; apply Hp; repeat constructor. }
  intros p. rewrite !GetElement_insert, !N.
  destruct (decide (hostnameValidatorPanel = p)) as [<-|N1]; [rewrite bool_decide_eq_true_2 by done; eauto|].
  destruct (decide (hostnamePanel = p)) as [<-|N2]; [rewrite (bool_decide_eq_true_2 (hostnamePanel = _)) by done; eauto|].
  destruct (decide (askRolePanel = p)) as [<-|N3]; [eauto|].
  rewrite !bool_decide_eq_false_2 by done. destruct (R p) as (w & Ew & Rw). exists w. split; [done|]. split; [done|].
  intros Hl. apply Rw; [done|congruence].
Qed.

(** Two widgets that ask for the size. *)
Lemma show_panel_valid opts p g : show_widget opts (WPanel p) g = Ok tt -> valid (shown_at (g_maxX g) (g_maxY g) p).
Proof.
  intros E%st_returned. exact (Panel_Show_valid (mkLens id (fun x _ => x)) g p _ (fun _ _ => eq_refl) E).
Qed.
Lemma sizes_asked maxX maxY : exists (i : Input) (p : Panel), forall els : gmap string widget, setPanels maxX maxY = Ok els ->
  GetElement els (panel_name addressPanel) = Ok (WInput i) /\ GetElement els (panel_name spinnerPanel) = Ok (WPanel p) /\
  label_offset (pn_Content (in_Panel i)) = 20 /\
  box_of (in_Panel i) = page_box maxX (q maxY + 12) (q maxY + 15) /\ box_of p = page_box maxX (q maxY + 7) (q maxY * 7).
Proof.
  destruct (setPanels_lookup maxX maxY) as (els & E & L). specialize (L _ eq_refl).
  eexists _, _. intros els' E'. rewrite E in E'. injection E' as <-.
  split_and!; [apply L; find_added|apply L; find_added|reflexivity| |reflexivity].
  unfold q. cbn. unfold box_of, page_box. cbn. f_equal; lia.
Qed.

(** ** The cells of a page *)

Definition place_of (nw : string * widget) : box := box_of (panel_of nw.2).
Definition seen (maxX maxY : Z) (b : box) : Prop := exists x y, inside b x y /\ visible maxX maxY x y.

Lemma place_of_place n b (w : widget) : place_of (n, place b w) = b.
Proof. by destruct w, b. Qed.
Lemma stacked_length x0 x1 y hs bs : stacked x0 x1 y hs bs -> length bs = length hs.
Proof. induction 1; cbn; lia. Qed.
Lemma stacked_rows x0 x1 y hs bs b : stacked x0 x1 y hs bs -> b ∈ bs -> y <= by0 b.
Proof. intros Hs. revert b. induction Hs; intros b [-> | Hb]%elem_of_cons || intros b Hb; [by apply elem_of_nil in Hb|cbn; lia|]. apply IHHs in Hb. lia. Qed.
(** A part of a page is seen when its first row is on the terminal. *)
Lemma seen_page maxX maxY y0 y1 : 32 <= maxX -> 0 <= y0 -> y0 + 1 < y1 -> seen maxX maxY (page_box maxX y0 y1) <-> y0 + 1 < maxY.
Proof.
  intros Hx Hy Hh. assert (4 <= Z.quot maxX 8) by (apply Z.quot_le_lower_bound; lia).
  pose proof (Z.mul_quot_le maxX 8 ltac:(lia) ltac:(lia)). unfold seen, inside, visible, page_box. cbn. split.
  - intros (x & y & ? & ?). lia.
  - intros ?. exists (Z.quot maxX 8 + 1), (y0 + 1). lia.
Qed.
Lemma named_once (l : list (string * widget)) n w (P : widget -> Prop) : NoDup l.*1 -> (n, w) ∈ l -> (exists w, (n, w) ∈ l /\ P w) <-> P w.
Proof.
  intros Hd Hw. split; [|by exists w]. intros (w' & Hw' & HP). enough (w = w') by congruence.
  apply list_elem_of_lookup in Hw as [i Hi], Hw' as [j Hj].
  assert (i = j) as <-; [|congruence]. apply (NoDup_lookup l.*1 i j n Hd); by rewrite list_lookup_fmap, ?Hi, ?Hj.
Qed.
Lemma vertical_stacked maxX maxY l ws : vertical (H := H) maxX maxY l = Ok ws ->
  map fst ws = map (fun e => e.1.1) l /\
  stacked (Z.quot maxX 8) (Z.quot maxX 8 * 7) (Z.quot maxY 8) (map snd l) (map place_of ws).
Proof.
  intros (bs & Hb%createVerticalLocator_stacked & [= <-])%bind_ok. pose proof (stacked_length _ _ _ _ _ Hb) as Hlen.
  rewrite length_map in Hlen. assert (E : map place_of (zip_with (fun e b => (e.1.1, place b e.1.2)) l bs) = bs).
  { clear Hb. revert bs Hlen. induction l as [|e l IH]; intros [|b bs] Hlen; cbn in *; [done..|].
    f_equal; [apply place_of_place|]. apply IH. lia. }
  split; [|by rewrite E]. clear Hb E. revert bs Hlen. induction l as [|e l IH]; intros [|b bs] Hlen; cbn in *; [done..|].
  f_equal. apply IH. lia.
Qed.
End proofs.

(** C28: Every panel name the pages use finds the widget registered under it, of the kind the pages
    expect; all of them can be shown, whatever options they offer, exactly on a terminal of at least
    32 columns and 16 rows, so that there no page ends the program with invalid dimensions; the names
    of two panels differ, so that no widget takes the view of another one. *)
Theorem panels_shown (H : Type) maxX maxY (opts : list Option) : 0 <= maxX -> 0 <= maxY ->
  exists els : gmap string (widget (H := H)), placed_elements maxX maxY = Ok els /\
  (forall p, exists w, GetElement els (panel_name p) = Ok w /\ pn_Name (panel_of w) = panel_name p /\ same_kind w (kind_of p) = true) /\
  ((forall p w, GetElement els (panel_name p) = Ok w -> show_widget opts w (new_gui maxX maxY) = Ok tt) <-> 32 <= maxX /\ 16 <= maxY) /\
  (forall p p', panel_name p = panel_name p' -> p = p').
Proof.
  intros Hx Hy. destruct (placed_registers (H := H) maxX maxY) as (els0 & els & E0 & E & S & R).
  exists els. split; [done|]. split_and!; [| |apply panel_name_inj].
  { intros p. destruct (R p) as (w & Ew & [Hn Hk _ _ _] & _). eauto. }
  split.
  - intros Hs. destruct (sizes_asked (H := H) maxX maxY) as (i & p & K). destruct (K els0 E0) as (K1 & K2 & K3 & K4 & K5).
    rewrite <- S in K1, K2 by (by apply (bool_decide_unpack _)).
    apply Hs in K1, K2. apply Input_Show_valid in K1 as [_ [V1 _]]. apply show_panel_valid in K2 as [_ V2].
    pose proof (Z.mul_quot_le maxX 8 Hx ltac:(lia)). pose proof (Z.mul_quot_le maxY 8 Hy ltac:(lia)).
    pose proof (Z.quot_pos maxY 8 Hy ltac:(lia)). unfold q in *.
    pose proof (f_equal by0 K4) as Y4. pose proof (f_equal by0 K5) as Y5. cbn in Y4, Y5.
    rewrite shown_at_placed in V1, V2 by lia. rewrite K3, K4 in V1. rewrite K5 in V2. cbn in V1, V2. lia.
  - intros Hl p w Ew. destruct (R p) as (w' & Ew' & [_ _ Hf _ _] & Hv). rewrite Ew in Ew'. injection Ew' as <-.
    by apply show_widget_works, Hv.
Qed.
Lemma panels_shown_witness : exists els : gmap string (widget (H := unit)), placed_elements 80 24 = Ok els /\
  (forall p, exists w, GetElement els (panel_name p) = Ok w /\ pn_Name (panel_of w) = panel_name p /\ same_kind w (kind_of p) = true) /\
  ((forall p w, GetElement els (panel_name p) = Ok w -> show_widget [] w (new_gui 80 24) = Ok tt) <-> 32 <= 80 /\ 16 <= 24) /\
  (forall p p', panel_name p = panel_name p' -> p = p').
Proof. apply (panels_shown unit 80 24 []); lia. Defined.

(** The elements of a page never share a cell of the terminal, and none of them covers a cell of
    the title above the page. *)
Theorem pages_disjoint (H : Type) maxX maxY l ws : vertical (H := H) maxX maxY l = Ok ws ->
  ForallOrdPairs (fun v w => forall x y, inside (place_of v) x y -> ~ inside (place_of w) x y) ws /\
  Forall (fun w => forall t x y, t ∈ addTitlePanel (H := H) maxX maxY -> inside (place_of t) x y -> ~ inside (place_of w) x y) ws.
Proof.
  intros [_ Hs]%vertical_stacked. split.
  - remember (map place_of ws) as bs eqn:Eb. revert ws Eb. induction Hs as [y|y h hs bs Hh Hs IH]; intros [|w ws] Eb; [constructor|done..|].
    pose proof (f_equal head Eb) as Ew. pose proof (f_equal tail Eb) as Ebs. cbn [head tail map] in Ew, Ebs. apply (inj Some) in Ew.
    constructor; [|by apply IH]. rewrite Ebs in Hs. apply Forall_forall. intros v Hv%(list_elem_of_fmap_2 place_of) x z [_ Hi] [_ Hj].
    pose proof (stacked_rows _ _ _ _ _ _ Hs Hv). rewrite <- Ew in Hi. cbn in Hi. lia.
  - apply Forall_forall. intros w Hw%(list_elem_of_fmap_2 place_of) t x y ->%list_elem_of_singleton [_ Hi] [_ Hj].
    pose proof (stacked_rows _ _ _ _ _ _ Hs Hw). unfold place_of, q in Hi. cbn in Hi. lia.
Qed.

Lemma pages_disjoint_witness : exists ws, addVIPPanel (H := unit) 80 24 = Ok ws /\
  ForallOrdPairs (fun v w => forall x y, inside (place_of v) x y -> ~ inside (place_of w) x y) ws /\
  Forall (fun w => forall t x y, t ∈ addTitlePanel (H := unit) 80 24 -> inside (place_of t) x y -> ~ inside (place_of w) x y) ws.
Proof.
  destruct (addVIPPanel (H := unit) 80 24) as [ws| |] eqn:E; [|discriminate E..].
  exists ws. split; [done|]. apply (pages_disjoint unit 80 24 _ _ E).
Defined.

(** C29: The message of a page and its last field can be seen only on a terminal that is tall enough:
    38 rows for the messages of the network page, 26 for its MTU, 33 for the messages of the disk
    page, while the fields of the cluster network and of the VIP fit the 16 rows that showing them
    takes. *)
Theorem rows_to_see (H : Type) maxX maxY : 32 <= maxX -> 16 <= maxY ->
  exists disk network cluster vip : list (string * widget (H := H)),
  addDiskPanel maxX maxY = Ok disk /\ addNetworkPanel maxX maxY = Ok network /\
  addClusterNetworkPanel maxX maxY = Ok cluster /\ addVIPPanel maxX maxY = Ok vip /\
  let sees (l : list (string * widget)) p := exists w, (panel_name p, w) ∈ l /\ seen maxX maxY (place_of (panel_name p, w)) in
  (sees network networkValidatorPanel <-> 38 <= maxY) /\ (sees network mtuPanel <-> 26 <= maxY) /\
  (sees disk diskValidatorPanel <-> 33 <= maxY) /\
  sees cluster clusterDNSPanel /\ sees vip vipPanel.
Proof.
  intros Hx Hy. eexists _, _, _, _. do 4 (split; [reflexivity|]). cbv zeta.
  assert (Hq : 8 * Z.quot maxY 8 <= maxY < 8 * Z.quot maxY 8 + 8).
  { pose proof (Z.quot_rem maxY 8 ltac:(lia)). pose proof (Z.rem_bound_pos maxY 8 ltac:(lia) ltac:(lia)). lia. }
  split_and!.
  1-3: eapply iff_trans; [eapply named_once; [apply (bool_decide_unpack _); vm_compute; exact I|find_added]|].
  4-5: eexists; split; [find_added|].
  all: rewrite place_of_place.
  1-3: eapply iff_trans; [eapply (seen_page maxX maxY _ _ Hx)|]; cbn; lia.
  all: eapply (seen_page maxX maxY _ _ Hx); cbn; lia.
Qed.
Lemma rows_to_see_witness : exists disk network cluster vip : list (string * widget (H := unit)),
  addDiskPanel 80 25 = Ok disk /\ addNetworkPanel 80 25 = Ok network /\
  addClusterNetworkPanel 80 25 = Ok cluster /\ addVIPPanel 80 25 = Ok vip /\
  let sees (l : list (string * widget)) p := exists w, (panel_name p, w) ∈ l /\ seen 80 25 (place_of (panel_name p, w)) in
  (sees network networkValidatorPanel <-> 38 <= 25) /\ (sees network mtuPanel <-> 26 <= 25) /\
  (sees disk diskValidatorPanel <-> 33 <= 25) /\
  sees cluster clusterDNSPanel /\ sees vip vipPanel.
Proof. apply (rows_to_see unit 80 25); lia. Defined.
