(* ===== verification/ProgramProofs.v ===== *)
(** * ProgramProofs: what the process starts by itself *)
From Stdlib Require Import ZArith Lia Ascii String.
From stdpp Require Import base tactics list gmap strings.
From S2P Require Import Prelude GoStrings Config Merge ConfigOps World NMConfig Mapper DiskOptions Validator Webhooks Preflight Network Install ConsoleUtil Gui Widgets Dashboard Console Frames NetworkPage DiskPage Pages InstallPanel Wizard Program Demo WizardProofs.
Local Open Scope Z_scope.

Section proofs.
Context `{Host} `{Netlink} `{VipHost} `{Web} `{Ntp} `{Surroundings} `{Services} `{Installer} `{Http} `{RegistryJSON}
  `{FirstConsole} `{Node} (byName : string -> option net_iface) (LoadHarvesterConfig : string -> result HarvesterConfig).

(** ** The first page *)

Lemma quiet_first_panel stat file cmdline : frame quiet_tasks (first_panel stat file cmdline).
Proof. frames. Qed.
Definition automatic (w : wizard) : bool := in_Automatic (install_of w).
Definition first_pages : list panel := [askCreatePanel; preflightCheckPanel; installPanel].
Lemma keep_install_Show p : p ∈ [titlePanel; validatorPanel; notePanel; footerPanel] ++ first_pages -> frame (keep install_of) (Show p).
Proof.
  intros Hp. apply frame_Show; [exact _|]. split; intros; intro; try done.
  all: subst p; unfold first_pages in Hp; rewrite !elem_of_app, !elem_of_cons in Hp; exfalso; set_solver.
Qed.
Lemma merged_automatic cfg w w' : merge_config cfg w = (Ok tt, w') ->
  automatic w' = automatic w || in_Automatic (hc_Install cfg).
Proof.
  unfold merge_config. intros E. apply st_bind_ok in E as (v & w1 & [= <- <-] & E).
  destruct (Merge.Merge (wz_config w) cfg) as [c r] eqn:Em. apply st_bind_ok in E as ([] & w1 & [= <-] & E).
  unfold st_lift in E. injection E as -> <-. apply Merge_ok in Em as [_ ->]. done.
Qed.
Lemma first_panel_page stat file cmdline w p w' : first_panel stat file cmdline w = (Ok (inl p), w') ->
  p ∈ first_pages /\ (p = installPanel -> automatic w' = true).
Proof.
  unfold first_panel. intros E. apply st_bind_ok in E as (w0 & w1 & _ & E). apply st_bind_ok in E as ([] & w2 & _ & E).
  apply st_bind_ok in E as (err & w3 & _ & E). apply st_bind_ok in E as (w4 & w5 & [= <- <-] & E). cbv zeta in E.
  set (p0 := if wz_alreadyInstalled w3 && in_Automatic (install_of w3) then _ else _) in E.
  assert (H0' : p0 ∈ first_pages /\ (p0 = installPanel -> automatic w3 = true)).
  { unfold p0. destruct (wz_alreadyInstalled w3); cbn [andb].
    - unfold automatic. destruct (in_Automatic (install_of w3)); [split; [set_solver|done]|].
      case_bool_decide; (split; [set_solver|done]).
    - case_bool_decide; (split; [set_solver|done]). }
  clearbody p0. destruct H0' as [Hp Ha]. destruct cmdline as [cfg|e|]; [|apply st_ret_ok in E as [[= <-] <-]; by split|discriminate E].
  apply st_bind_ok in E as (merged & w6 & Em & E). destruct merged as [[]|e|]; cbn [is_ok negb] in E;
    [|by apply st_ret_ok in E as [? _]..].
  assert (Hm : automatic w6 = automatic w3 || in_Automatic (hc_Install cfg)).
  { apply merged_automatic. unfold st_try in Em. by destruct (merge_config cfg w3) as [[] ?]; simplify_eq. }
  apply st_bind_ok in E as (w7 & w8 & [= <- <-] & E).
  destruct (in_Automatic (hc_Install cfg)) eqn:Ea; cbn [andb] in E.
  - rewrite orb_true_r in Hm.
    destruct (isFirstConsoleTTY _ _ _); [|apply st_ret_ok in E as [[= <-] <-]; by split].
    apply st_bind_ok in E as ([] & w9 & E9 & E). apply st_ret_ok in E as [[= <-] <-]. split; [set_solver|intros _].
    destruct (_ && _); [by injection E9 as <-|by apply st_ret_ok in E9 as [_ <-]].
  - apply st_ret_ok in E as [[= <-] <-]. split; [done|]. intros Hi. by rewrite Hm, (Ha Hi).
Qed.
Lemma first_page_quiet stat file cmdline w : no_install w ->
  let z := snd (Wizard.layoutInstall stat file cmdline w) in automatic z = true \/ no_install z.
Proof.
  intros Hw. destruct (Wizard.layoutInstall stat file cmdline w) as [r z] eqn:E. cbn [snd].
  pose proof (quiet_keeps _ w (quiet_first_panel stat file cmdline) Hw) as Hq.
  unfold Wizard.layoutInstall, mbind at 1, st_bind at 1 in E.
  destruct (first_panel stat file cmdline w) as [[[p|err]|e|] w1] eqn:E1;
    [|unfold st_lift in E; injection E as _ <-; by right|injection E as _ <-; by right..]. cbn [snd] in Hq.
  apply first_panel_page in E1 as [Hp Ha]. unfold mbind at 1, st_bind at 1 in E. cbn [st_get] in E.
  set (w2 := if in_Automatic (install_of w1) then w1 else set_wz_config (set_hc_SchemeVersion SchemeVersion (wz_config w1)) w1).
  assert (E2 : ((if in_Automatic (install_of w1) then mret tt else on_config (set_hc_SchemeVersion SchemeVersion)) : W unit) w1 = (Ok tt, w2))
    by (subst w2; by destruct (in_Automatic _)).
  rewrite (st_run _ _ _ _ _ E2) in E.
  assert (Hc : automatic w2 = automatic w1 /\ wz_tasks w2 = wz_tasks w1) by (subst w2; by destruct (in_Automatic _)).
  clearbody w2. destruct Hc as [Ha2 Ht2].
  assert (Hz : z = snd (st_for_each Show [titlePanel; validatorPanel; notePanel; footerPanel; p] w2)) by (by rewrite E).
  rewrite Hz. clear E Hz. destruct (decide (p = installPanel)) as [->|Hne].
  - left. transitivity (automatic w2); [|by rewrite Ha2, Ha].
    assert (F : frame (keep install_of) (st_for_each Show [titlePanel; validatorPanel; notePanel; footerPanel; installPanel])).
    { apply frame_for_each; [exact _|]. intros q Hq'. apply keep_install_Show. set_solver. }
    exact (f_equal in_Automatic (F w2)).
  - right. apply quiet_keeps; [|unfold no_install; by rewrite Ht2]. apply frame_for_each; [exact _|].
    intros q Hq'. apply quiet_Show. unfold first_pages in Hp. set_solver.
Qed.

(** ** Events *)

Lemma st_for_each_cons {S A} (f : A -> st S unit) a l s :
  st_for_each f (a :: l) s = match f a s with (Ok _, s1) => st_for_each f l s1 | r => r end.
Proof. cbn. unfold mbind, st_bind. by destruct (f a s) as [[[]| |] s1]. Qed.
Lemma events_confirmed debug es w0 :
  no_install w0 -> RunInstall ∈ wz_tasks (snd (st_for_each (handle (act byName) debug) es w0)) ->
  exists pre post w1, es = pre ++ Handled (Press KeyEnter) :: post /\
    st_for_each (handle (act byName) debug) pre w0 = (Ok tt, w1) /\ confirms w1 (Press KeyEnter).
Proof.
  revert w0. induction es as [|e es IH]; intros w0 Hq Hin.
  - cbn in Hin. unfold no_install in Hq. rewrite Forall_forall in Hq. by destruct (Hq _ Hin).
  - rewrite st_for_each_cons in Hin.
    assert (Hd : (exists a, e = Handled a /\ confirms w0 a) \/ no_install (snd (handle (act byName) debug e w0))).
    { destruct e as [a|]; [|right; by destruct debug]. destruct (confirms_dec w0 a) as [Hc|Hc]; [left; by exists a|right; by apply act_quiet]. }
    destruct Hd as [(a & -> & Hc)|Hq1].
    + assert (a = Press KeyEnter) as -> by apply Hc. by exists [], es, w0.
    + destruct (handle (act byName) debug e w0) as [[[]|e'|] w1] eqn:E; cbn [snd] in *.
      * destruct (IH w1 Hq1 Hin) as (pre & post & w2 & -> & Hr & Hc). exists (e :: pre), post, w2. split_and!; [done| |done].
        by rewrite st_for_each_cons, E.
      * unfold no_install in Hq1. rewrite Forall_forall in Hq1. by destruct (Hq1 _ Hin).
      * unfold no_install in Hq1. rewrite Forall_forall in Hq1. by destruct (Hq1 _ Hin).
Qed.

Notation RunConsole := (RunConsole byName LoadHarvesterConfig).
Notation start_of := (start_of LoadHarvesterConfig).

(** C9: Whatever the environment and the machine are, whatever is typed and in whichever order goroutines end, the process
    starts an installation for one of two reasons: the configuration it came up with is automatic, or somebody answered
    the confirmation with something other than "no".  The dashboard never does. *)
Theorem console_installs NewGui open_log b w setup dashboard z :
  pc_session (RunConsole NewGui open_log b w setup dashboard) = InSetup z -> RunInstall ∈ wz_tasks z ->
  exists debug log s w', initLogs (bt_env b) open_log = Ok (debug, log) /\ start_of b NewHarvesterConfig w = (Ok s, w') /\
    let w0 := setup_wizard b s w' in
    (automatic (snd (Wizard.layoutInstall (bt_stat b) (bt_file b) (bt_cmdline b) w0)) = true \/
     exists pre post w1, setup = pre ++ Handled (Press KeyEnter) :: post /\
       setup_session byName b debug pre w0 = (Ok tt, w1) /\
       focused w1 = Some confirmInstallPanel /\ el_data (wz_elements w1 confirmInstallPanel) <> "no").
Proof.
  unfold Program.RunConsole, NewConsole. destruct NewGui as [[]| |]; [|done..]. cbn [mbind result_bind].
  destruct (initLogs (bt_env b) open_log) as [[debug log]| |]; [|done..]. unfold doRun.
  destruct (start_of b NewHarvesterConfig w) as [[s| |] w'] eqn:Es; [|done..]. intros Ez Hin. exists debug, log, s, w'. split_and!; [done..|]. cbv zeta.
  destruct (st_layout s); [|by destruct (dashboard_session _ _ _)].
  set (w0 := setup_wizard b s w') in *.
  destruct (setup_session byName b debug setup w0) as [r z'] eqn:Er. injection Ez as ->.
  destruct (first_page_quiet (bt_stat b) (bt_file b) (bt_cmdline b) w0 (Forall_nil_2 _)) as [Ha|Hq]; [by left|right].
  unfold setup_session, mbind, st_bind in Er |- *.
  destruct (Wizard.layoutInstall (bt_stat b) (bt_file b) (bt_cmdline b) w0) as [[[]|e|] w1] eqn:E1; cbn [snd] in Hq.
  - replace z with (snd (st_for_each (handle (act byName) debug) setup w1)) in Hin by (by rewrite Er).
    destruct (events_confirmed debug setup w1 Hq Hin) as (pre & post & w2 & -> & Hr & _ & Hf & Hn).
    exists pre, post, w2. by split_and!.
  - injection Er as <- <-. unfold no_install in Hq. rewrite Forall_forall in Hq. by destruct (Hq _ Hin).
  - injection Er as <- <-. unfold no_install in Hq. rewrite Forall_forall in Hq. by destruct (Hq _ Hin).
Qed.

End proofs.

(** ** The whole program on the demonstration machine *)

Section example.
Import Demo.
#[local] Instance no_dashboard : Node :=
  {| node_hostname _ := Ok "node1"; node_yaml _ := Err (EMsg "no configuration"); node_verify _ _ _ := false; HarvesterVersion := "v1.4.0" |}.
Definition demo_boot : boot := mkBoot ∅ (Err (EMsg "no user data")) (Ok "") (Err (EMsg "no command line")) (80, 40) demo_ifs.
Definition no_config : string -> result HarvesterConfig := fun _ => Err (EMsg "no configuration").
Definition setup_keys : list action := [Choose ["yes"]; Press KeyEnter] ++ all_keys.
Definition demo_process (setup : list (event_of action)) : process :=
  RunConsole byName no_config (Ok tt) (fun _ => Ok tt) demo_boot demo_world setup [].
Definition tasks_of (p : process) : list task := match pc_session p with InSetup z => wz_tasks z | _ => [] end.
(** The installer as the console starts it on this machine, with two warnings to acknowledge. *)
Definition warned : wizard :=
  match start_of no_config demo_boot NewHarvesterConfig demo_world with (Ok s, w) => setup_wizard demo_boot s w | _ => start zero_HarvesterConfig end.
Lemma console_installs_witness : exists pre post w1, map Handled setup_keys = pre ++ Handled (Press KeyEnter) :: post /\
  setup_session byName demo_boot false pre warned = (Ok tt, w1) /\
  focused w1 = Some confirmInstallPanel /\ el_data (wz_elements w1 confirmInstallPanel) <> "no".
Proof.
  assert (Ht : tasks_of (demo_process (map Handled setup_keys)) = [RunInstall]) by vm_refl.
  destruct (pc_session (demo_process (map Handled setup_keys))) as [|z|] eqn:E; unfold tasks_of in Ht; rewrite E in Ht; [discriminate Ht| |discriminate Ht].
  destruct (console_installs byName no_config _ _ _ _ _ _ z E ltac:(rewrite Ht; left)) as (debug & log & s & w' & [= <- <-] & Es & Hc).
  assert (Hw : setup_wizard demo_boot s w' = warned) by (unfold warned; by rewrite Es).
  cbv zeta in Hc. rewrite Hw in Hc. destruct Hc as [Ha|Hc]; [exfalso|exact Hc].
  vm_compute in Ha. discriminate Ha.
Defined.
End example.
